(* ===== verification/_CoqProject ===== *)
-Q . S2P
Prelude.v
PyFloat.v
FloatRepr.v
Hashlib.v
Methods.v
Cohort.v
KVHistory.v
Memory.v
SlabManager.v
Topology.v
AllRank.v
Registry.v
GpuPool.v
PoolParsing.v
PoolRoundTrip.v
Scheduler.v
PoolSafety.v
Execution.v
ReceiptParsing.v
Intervals.v
ExecutionSafety.v
ExecutionTotal.v
ExecutionDemo.v
ReceiptRoundTrip.v
ParseSound.v
Fleet.v
FleetPaths.v
FleetScheduler.v
FleetReceipts.v
FleetParsing.v
FleetWaves.v
FleetCompose.v
FleetSafety.v
FleetTotal.v
FleetReceiptSafety.v
FleetRoundTrip.v
FleetDemo.v
Load.v
LoadSources.v
LoadAccounting.v
LoadTiming.v
LoadSafety.v
LoadRefinement.v
LoadTheorems.v
LoadReplay.v
LoadGeneration.v
LoadDemo.v
Exactness.v
ExactnessLaw.v
Publication.v
OnlineSpec.v
OnlineSpecSafety.v
OnlineSpecProjection.v
OnlineSpecDemo.v
