(* ===== verification/Prelude.v ===== *)
(** * LightCone-Spec: a verification development (root file)

    LightCone-Spec adapts the draft model of speculative decoding while it
    serves, and runs the experiments that measure it.  This library models the
    decision logic of the program, not its tensors, processes or files.  Paths
    are relative to [src/src/lightcone_spec/].

    Conventions.  A frozen dataclass is a [Record]; its constructor call is a
    function [new_X] that runs the checks of [__post_init__] in order.  A method
    that may raise returns [result]; a method that changes its object takes the
    object last and returns the pair of the result and the new object, so that
    what an exception leaves behind is visible.  Python integers are [Z]; floats
    are IEEE binary64 numbers ([PyFloat]), printed as Python prints them
    ([FloatRepr]); [hashlib.sha256] over canonical JSON is executable
    ([Hashlib]).  Checks of the dynamic type of an argument ([isinstance], [type
    ... is]) are left to Rocq's types.

    The parts, in dependency order.
    - [Prelude] (this file): results and exceptions, Python's comparison of
      tuples, [sorted] and [min] with a key, counting in maps, tactics.
    - [PyFloat], [FloatRepr], [Hashlib]: the standard library of Python that
      the program uses.  [content_digest_inj]: equal digests of different
      documents exhibit a SHA-256 collision.
    - [Methods] ([methods/core.py]): candidates, publication policies and the
      round at which each policy publishes.
    - [Cohort] ([adaptation/cohort.py]): the per-cohort protocol of at most one
      candidate in flight.  Invariant of all reachable states, exact authority,
      transactional commit, exactly-once termination, and a refinement of the
      abstract [version_line].
    - [KVHistory] ([adaptation/kv_history.py]): run-length KV versions; every
      operation refines the list of token versions.
    - [Memory] ([adaptation/memory.py] and the first half of
      [adaptation/governor.py]): HBM ledgers and all-rank admission.
    - [SlabManager] (second half of [adaptation/governor.py]): the bounded
      manager of cohort slabs with LRU, time to live and a cold tier.
    - [Topology] ([runtime/distributed.py]): rank identities, receipt sets,
      parameter ownership, sticky routing.
    - [AllRank] ([runtime/distributed.py]): two-phase publication on all ranks
      and its collective transport; [torch.distributed] is an argument.
    - [Registry] ([experiments/registry.py]): the identity, resources and digest
      of an experiment cell.
    - [GpuPool] ([experiments/gpu_pool.py]): devices, inventory, claims, work
      items, interference rules, assignments, waves and plans.
    - [PoolParsing] (the [from_dict] methods of the pool's data): strict readers
      of JSON values that raise on a missing, unknown or ill-typed field.
      [PoolRoundTrip]: a valid value is read back from what [to_dict] writes.
    - [Scheduler] ([GpuPoolScheduler]): candidate gangs, placement, port
      binding, wave packing.  The release gate of
      [experiments/stage_activation.py] is the class [ReleaseGate].
    - [PoolSafety]: what a returned plan guarantees, proved against any gate.
    - [Execution] ([execute_dispatch_plan]): receipts of assignments, waves and
      schedules, the wave-ordered state machine, resume validation and the
      executor.  The runner, its clock and the attempt journal are the record
      [Runner]; inventory, budgets and issued plan the class [ExecutionContext].
    - [Intervals]: merged intervals cover the same nanoseconds, and a schedule
      bills each of them once.
    - [ExecutionSafety]: what a returned schedule receipt guarantees, and what a
      retry runs.
    - [ExecutionTotal]: execution ends in a receipt.  [ExecutionDemo]: a plan
      with one assignment, its failure and its retry.
    - [ReceiptParsing]: the [from_dict] methods of waves, plans, terminal
      bindings and receipts.  Whether a path is absolute and resolved is the
      class [FileSystem].  [ReceiptRoundTrip], [ParseSound]: what is written is
      read back, what is read passed every constructor, and a scheduled plan
      survives its file.
    - [Fleet] ([experiments/gpu_fleet.py]): several hosts.  Namespaces, host and
      fleet inventories, execution bindings, host plans, fleet assignments, waves
      and plans.  [FleetPaths]: the directory of a path; cache and
      evidence roots stay apart.
    - [FleetScheduler] ([GpuFleetScheduler], [GpuFleetPlanningContext]): affinity
      groups go to one feasible host each, the pool scheduler plans every host,
      and host waves are composed into fleet waves.
    - [FleetReceipts]: host and fleet receipts, validation and retries.
      [FleetParsing]: the [from_dict] methods of the data.
    - [FleetWaves], [FleetCompose]: composition ends and runs every host wave
      once, in order.  [FleetSafety]: what a returned fleet plan guarantees.
      [FleetTotal]: once the hosts are planned the scheduler returns.
      [FleetReceiptSafety], [FleetRoundTrip]: retries keep successes, a finished
      fleet has run everything, receipts survive their file.  [FleetDemo]: a
      fleet plan, its failure and its retry.
    - [Load] ([experiments/load.py], as the next three): requests with a content
      identity, corpora, windows, load plans and replay bindings.
      [LoadSources]: cohort, Poisson, burst, closed-loop and external generators
      and the split audit; [math.log1p] and the power of floats are the class
      [Libm].  [LoadAccounting]: [account_scored_requests].  [LoadTiming]:
      token timing and percentiles, and what a returned timing says.
    - [LoadSafety]: the specification of terminal accounting ([acceptable],
      [accounts_for]), in which a client lane is a residue of the request index.
      [LoadRefinement]: the code returns exactly on acceptable reports.
      [LoadTheorems]: the bounds of a report and its gap after an unfinished
      request.  [LoadReplay]: paired replays run the same trace, split audits
      share no content.  [LoadGeneration]: what a Poisson corpus contains.
      [LoadDemo]: a closed-loop plan, two splits, a generated corpus.
    - [Exactness] ([runtime/exactness.py]): [rejection_sample] over the class
      [Scalar] of the arithmetic of [torch].  [ExactnessLaw]: in rational
      arithmetic the returned token has the target's distribution.
    - [Publication] ([runtime/publication.py]): update windows and publication
      boundaries as commands issued to CUDA streams; [CudaOrder] states the
      guarantees of streams and events.
    - [OnlineSpec] ([methods/onlinespec.py]): projected OGD, optimistic OGD and
      Hedge over the class [Torch], each with [propose] and [commit].
      [OnlineSpecSafety]: what a committed round is.  [OnlineSpecProjection]: the
      projection in real arithmetic.  [OnlineSpecDemo]: rounds in thousandths.

    How the parts interact.  [Cohort] asks [Methods] for the publication round;
    [AllRank] runs on a validated [Topology] set; [Scheduler] builds the
    records of [GpuPool] from cells of [Registry] and re-runs their checks.

    Termination and fuel.  Every operation is structurally recursive or a fold,
    so it is total; the only fuel is in [FloatRepr.shortest] (seventeen digits
    always read back) and in SHA-256 padding, both exercised by examples, and in
    [FleetScheduler.compose_loop] (the number of local waves, proved enough by
    [compose_total]).

    Not modelled, and why: [runtime/distributed.py] hardware proofs and the
    attestation modules (signatures over files); [adaptation/parameters.py] and
    [adaptation/optimizer.py] (tensor computation); [experiments/registry.py]
    registry construction (data); [orchestration/], [cli/], [sglang_bridge/],
    [locking/], [telemetry/writer.py], [runtime/compile_cache.py] (processes,
    network, files); the formal experiment authorities (replay of file artifacts
    against each other).

    Not modelled within the parts above: the replay of the planning context
    that issues a plan ([validate_dispatch_plan] compares with its result) and
    the files behind a terminal authority, whose revalidation is an argument.
    The message of a field mismatch does not list the fields.
    Checks of a literal type ([Literal[...]]) hold by the inductive types, so
    their raises are absent.
 *)
From stdpp Require Export base tactics list sorting gmap strings numbers pretty.
From Stdlib Require Export ZArith Lia.

(** ** Exceptions and results

    A Python operation either returns or raises.  The exception keeps its class
    and its message, so that two branches that raise are told apart. *)
Inductive exn : Set :=
  | ValueError (msg : string)
  | TypeError (msg : string)
  | RuntimeError (msg : string)
  | KeyError (msg : string)
  | IndexError (index : Z)
  | MemoryError (msg : string)
  | ExceptionGroup (msg : string)
  | OverflowError (msg : string)
  | AssertionError (msg : string)
  | StopIteration
  | ZeroDivisionError (msg : string)
  (** [RuntimeError]s of the schedulers of [experiments/]. *)
  | CapabilityRejectionError (msg : string)
  | FleetCapabilityRejectionError (reason_code detail : string).

#[export] Instance exn_eq_dec : EqDecision exn.
Proof. solve_decision. Defined.

Inductive result (A : Type) : Type :=
  | Ok (a : A)
  | Raise (e : exn).
Arguments Ok {A} a.
Arguments Raise {A} e.

#[export] Instance result_eq_dec {A} `{EqDecision A} : EqDecision (result A).
Proof. solve_decision. Defined.

#[export] Instance result_ret : MRet result := @Ok.
#[export] Instance result_bind : MBind result := λ A B f m,
  match m with Ok a => f a | Raise e => Raise e end.

Definition is_ok {A} (r : result A) : bool :=
  match r with Ok _ => true | Raise _ => false end.

Declare Scope py_scope.
Delimit Scope py_scope with py.

(** [raise_if c e ;; k]: the early [raise e] under the condition [c]. *)
Notation "'raise_if' c e ';;' k" := (if c then Raise e else k)
  (at level 100, c at level 9, e at level 9, k at level 200,
   format "'raise_if'  c  e ';;' '//' k") : py_scope.
(** The same inside a method whose receiver is [s]: the raise leaves [s]. *)
Notation "'raise_in' s 'if' c e ';;' k" := (if c then (Raise e, s) else k)
  (at level 100, s at level 9, c at level 9, e at level 9, k at level 200,
   format "'raise_in'  s  'if'  c  e ';;' '//' k") : py_scope.
(** [x <-! m ;; k]: sequencing of pure fallible calls. *)
Notation "x '<-!' m ';;' k" := (match m with Ok x => k | Raise e => Raise e end)
  (at level 100, m at level 99, k at level 200, right associativity) : py_scope.

(** [x @ s <-! m ;; k]: sequencing of methods that update the receiver [s]; a
    raise keeps the updates made before it. *)
Notation "x '@' s '<-!' m ';;' k" :=
  (match m with (Ok x, s) => k | (Raise e, s) => (Raise e, s) end)
  (at level 100, s name, m at level 99, k at level 200, right associativity) : py_scope.

Open Scope py_scope.
Open Scope Z_scope.

Lemma result_bind_Ok {A B} (m : result A) (f : A → result B) b :
  m ≫= f = Ok b → ∃ a, m = Ok a ∧ f a = Ok b.
Proof. destruct m; cbn; naive_solver. Qed.

(** [mapM] over results, in order, stopping at the first raise. *)
Fixpoint mapR {A B} (f : A → result B) (l : list A) : result (list B) :=
  match l with
  | [] => Ok []
  | x :: l => y <-! f x ;; ys <-! mapR f l ;; Ok (y :: ys)
  end.

(** A check of every element, in order. *)
Fixpoint all_ok {A} (f : A → result unit) (l : list A) : result unit :=
  match l with [] => Ok tt | x :: l => _ <-! f x ;; all_ok f l end.
Lemma all_ok_Ok {A} (f : A → result unit) l :
  all_ok f l = Ok tt ↔ ∀ x, x ∈ l → f x = Ok tt.
Proof.
  induction l as [|x l IH]; cbn.
  - split; [|done]. intros _ ? ?%elem_of_nil. done.
  - destruct (f x) as [[]|] eqn:E.
    + rewrite IH. split; [|intros H y Hy; apply H; by right].
      intros H y [->|Hy]%elem_of_cons; [done|by apply H].
    + split; [done|]. intros H. rewrite (H x) in E; [done|by left].
Qed.


(** [needle in s]. *)
Fixpoint contains (needle s : string) : bool :=
  String.prefix needle s ||
  match s with EmptyString => false | String.String _ s => contains needle s end.

Lemma mapR_Ok {A B} (f : A → result B) l l' :
  mapR f l = Ok l' ↔ Forall2 (λ x y, f x = Ok y) l l'.
Proof.
  revert l'. induction l as [|x l IH]; intros l'; cbn.
  - split; [intros [= <-]; constructor | by inversion 1].
  - split.
    + repeat case_match; intros; simplify_eq. constructor; [done | by apply IH].
    + inversion 1 as [|?? y ys Hf Hl]; subst. by rewrite Hf, (proj2 (IH _) Hl).
Qed.

Lemma forallb_map {A B} (f : B → bool) (g : A → B) l :
  forallb f (map g l) = forallb (λ x, f (g x)) l.
Proof. induction l as [|x l IH]; cbn; [done|]. by rewrite IH. Qed.

Lemma forallb_elem_of {A} (f : A → bool) l :
  forallb f l = true ↔ ∀ x, x ∈ l → f x = true.
Proof. rewrite forallb_forall. by setoid_rewrite <- list_elem_of_In. Qed.

(** ** Tactics *)

(** Lemmas that automate the common cases of the components. *)
Create HintDb lightcone.

(** Case split on every [match]/[if] of the hypothesis or goal and close the
    impossible branches. *)
Ltac split_cases :=
  repeat (case_match; simplify_eq/=; try done).
Ltac split_cases_in H :=
  repeat (match type of H with
          | context [match ?x with _ => _ end] => destruct x eqn:?
          end; simplify_eq/=; try done).
(** [H : body = Ok _]: the next guard or call of [body] did not raise. *)
Ltac step_ok H :=
  match type of H with
  | (if ?b then _ else _) = _ => let E := fresh "E" in destruct b eqn:E; [discriminate H|]
  | match ?m with Ok _ => _ | Raise _ => _ end = _ =>
      let E := fresh "E" in destruct m eqn:E; [|discriminate H]
  end.
(** Turn the boolean tests of the code into propositions. *)
Ltac bools :=
  repeat match goal with
  | H : bool_decide _ = true |- _ => apply bool_decide_eq_true_1 in H
  | H : bool_decide _ = false |- _ => apply bool_decide_eq_false_1 in H
  | H : negb _ = true |- _ => apply negb_true_iff in H
  | H : negb _ = false |- _ => apply negb_false_iff in H
  | H : (_ || _) = false |- _ => apply orb_false_iff in H as [? ?]
  | H : (_ && _) = true |- _ => apply andb_true_iff in H as [? ?]
  | H : (_ || _) = true |- _ => apply orb_true_iff in H
  | H : (_ && _) = false |- _ => apply andb_false_iff in H
  | H : (_ <? _) = true |- _ => apply Z.ltb_lt in H
  | H : (_ <? _) = false |- _ => apply Z.ltb_ge in H
  | H : (_ <=? _) = true |- _ => apply Z.leb_le in H
  | H : (_ <=? _) = false |- _ => apply Z.leb_gt in H
  | H : (_ =? _) = true |- _ => apply Z.eqb_eq in H
  | H : (_ =? _) = false |- _ => apply Z.eqb_neq in H
  end.

(** Membership in a literal list. *)
Ltac in_literals :=
  first [done | intros; rewrite !elem_of_cons; solve [auto 10]].

(** ** Strings as the program tests them *)

(** [character in "0123456789abcdef"]. *)
Definition is_hex_char (c : Ascii.ascii) : bool :=
  let n := Ascii.nat_of_ascii c in
  ((48 <=? n)%nat && (n <=? 57)%nat) || ((97 <=? n)%nat && (n <=? 102)%nat).

Fixpoint string_forall (p : Ascii.ascii → bool) (s : string) : bool :=
  match s with
  | EmptyString => true
  | String.String c s => p c && string_forall p s
  end.

(** A lower-case hexadecimal string of the given length. *)
Definition is_hash (size : nat) (s : string) : bool :=
  (String.length s =? size)%nat && string_forall is_hex_char s.

(** [str.isspace] on the code points a [string] can hold. *)
Definition is_space (c : Ascii.ascii) : bool :=
  let n := Ascii.nat_of_ascii c in
  ((9 <=? n)%nat && (n <=? 13)%nat) || ((28 <=? n)%nat && (n <=? 32)%nat)
  || (n =? 133)%nat || (n =? 160)%nat.

Definition string_empty (s : string) : bool :=
  match s with EmptyString => true | _ => false end.

Fixpoint lstrip (s : string) : string :=
  match s with
  | EmptyString => EmptyString
  | String.String c s' => if is_space c then lstrip s' else s
  end.
Definition rstrip (s : string) : string := String.rev (lstrip (String.rev s)).
Definition strip (s : string) : string := rstrip (lstrip s).

(** [not value or value.strip() != value] is false. *)
Definition is_canonical_text (s : string) : bool :=
  negb (string_empty s) && bool_decide (strip s = s).

(** ** Python orderings

    [sorted] and [min] compare keys with a three-way comparison.  [PyOrd] is the
    interface the sorting lemmas need: a total preorder.  [PyOrdEq] adds that
    keys that compare equal are equal. *)
Class PyOrd (K : Type) := pycmp : K → K → comparison.

Class PyOrdLaws (K : Type) `{PyOrd K} := {
  pycmp_refl (x : K) : pycmp x x = Eq;
  pycmp_flip (x y : K) : pycmp y x = CompOpp (pycmp x y);
  pycmp_trans (x y z : K) :
    pycmp x y ≠ Gt → pycmp y z ≠ Gt → pycmp x z ≠ Gt;
}.
Class PyOrdEq (K : Type) `{PyOrd K} := pycmp_eq (x y : K) : pycmp x y = Eq → x = y.

Definition pyle {K} `{PyOrd K} (x y : K) : Prop := pycmp x y ≠ Gt.
Definition pylt {K} `{PyOrd K} (x y : K) : Prop := pycmp x y = Lt.
#[export] Instance pyle_dec {K} `{PyOrd K} : RelDecision (pyle (K:=K)).
Proof. intros x y. unfold pyle. apply _. Defined.
#[export] Instance pylt_dec {K} `{PyOrd K} : RelDecision (pylt (K:=K)).
Proof. intros x y. unfold pylt. apply _. Defined.

Section pyord_laws.
Context {K} `{PyOrdLaws K}.

#[global] Instance pyle_preorder : PreOrder (pyle (K:=K)).
Proof.
  split; [intros x; unfold pyle; by rewrite pycmp_refl|].
  intros x y z; apply pycmp_trans.
Qed.
#[global] Instance pyle_total : Total (pyle (K:=K)).
Proof.
  intros x y. unfold pyle. rewrite (pycmp_flip x y).
  destruct (pycmp x y); cbn; naive_solver.
Qed.
Lemma pylt_not_le (x y : K) : pylt x y ↔ ¬ pyle y x.
Proof.
  unfold pylt, pyle. rewrite (pycmp_flip x y). destruct (pycmp x y); cbn; naive_solver.
Qed.
Lemma pycmp_Eq_le (x y : K) : pycmp x y = Eq ↔ pyle x y ∧ pyle y x.
Proof.
  unfold pyle. rewrite (pycmp_flip x y). destruct (pycmp x y); cbn; naive_solver.
Qed.
Lemma pylt_trans_l (x y z : K) : pylt x y → pyle y z → pylt x z.
Proof.
  rewrite !pylt_not_le. intros Hxy Hyz Hzx. apply Hxy. by transitivity z.
Qed.
Lemma pylt_trans_r (x y z : K) : pyle x y → pylt y z → pylt x z.
Proof.
  rewrite !pylt_not_le. intros Hxy Hyz Hzx. apply Hyz. by transitivity x.
Qed.
Lemma pylt_le (x y : K) : pylt x y → pyle x y.
Proof. unfold pylt, pyle. by intros ->. Qed.
Lemma pylt_irrefl (x : K) : ¬ pylt x x.
Proof. unfold pylt. by rewrite pycmp_refl. Qed.
End pyord_laws.

(** Lexicographic pairs, as Python compares tuples. *)
#[export] Instance pair_ord {A B} `{PyOrd A, PyOrd B} : PyOrd (A * B) := λ x y,
  match pycmp x.1 y.1 with Eq => pycmp x.2 y.2 | c => c end.

#[export] Instance pair_ord_laws {A B} `{PyOrdLaws A, PyOrdLaws B} : PyOrdLaws (A * B).
Proof.
  split.
  - intros [a b]. unfold pycmp, pair_ord; cbn. by rewrite !pycmp_refl.
  - intros [a b] [a' b']. unfold pycmp, pair_ord; cbn.
    rewrite (pycmp_flip a a'), (pycmp_flip b b'). by destruct (pycmp a a').
  - intros [a b] [a' b'] [a'' b'']. unfold pycmp, pair_ord; cbn.
    pose proof (pycmp_trans a a' a'') as HT.
    pose proof (pycmp_trans b b' b'') as HT'.
    pose proof (pycmp_trans a'' a a') as HT1. pose proof (pycmp_trans a' a'' a) as HT2.
    rewrite (pycmp_flip a a''), (pycmp_flip a' a'') in HT1.
    rewrite (pycmp_flip a a''), (pycmp_flip a a') in HT2.
    destruct (pycmp a a') eqn:?, (pycmp a' a'') eqn:?, (pycmp a a'') eqn:?;
      cbn in *; naive_solver.
Qed.

#[export] Instance pair_ord_eq {A B} `{PyOrdEq A, PyOrdEq B} : PyOrdEq (A * B).
Proof.
  intros [a b] [a' b']. unfold pycmp, pair_ord; cbn.
  destruct (pycmp a a') eqn:E; [|done..]. apply pycmp_eq in E as ->.
  intros E. by apply pycmp_eq in E as ->.
Qed.

(** Lists compare lexicographically, as Python's tuples and lists do. *)
Fixpoint list_cmp {A} `{PyOrd A} (l1 l2 : list A) : comparison :=
  match l1, l2 with
  | [], [] => Eq
  | [], _ :: _ => Lt
  | _ :: _, [] => Gt
  | x :: l1, y :: l2 => match pycmp x y with Eq => list_cmp l1 l2 | c => c end
  end.
#[export] Instance list_ord {A} `{PyOrd A} : PyOrd (list A) := list_cmp.

#[export] Instance list_ord_laws {A} `{PyOrdLaws A} : PyOrdLaws (list A).
Proof.
  split; unfold pycmp, list_ord.
  - induction x as [|x l IH]; cbn; [done|]. by rewrite pycmp_refl.
  - induction x as [|x l1 IH]; intros [|y l2]; cbn; try done.
    rewrite (pycmp_flip x y), IH. by destruct (pycmp x y).
  - induction x as [|x l1 IH]; intros [|y l2] [|z l3]; cbn; try done.
    pose proof (pycmp_trans x y z) as HT.
    pose proof (pycmp_trans z x y) as HT1. pose proof (pycmp_trans y z x) as HT2.
    rewrite (pycmp_flip x z), (pycmp_flip y z) in HT1.
    rewrite (pycmp_flip x z), (pycmp_flip x y) in HT2.
    specialize (IH l2 l3).
    destruct (pycmp x y) eqn:?, (pycmp y z) eqn:?, (pycmp x z) eqn:?; cbn in *; naive_solver.
Qed.

#[export] Instance list_ord_eq {A} `{PyOrdEq A} : PyOrdEq (list A).
Proof.
  unfold PyOrdEq, pycmp, list_ord. induction x as [|x l IH]; intros [|y l2]; cbn; try done.
  destruct (pycmp x y) eqn:E; [|done..]. apply pycmp_eq in E as ->. by intros ->%IH.
Qed.

#[export] Instance Z_ord : PyOrd Z := Z.compare.
#[export] Instance Z_ord_laws : PyOrdLaws Z.
Proof.
  split; unfold pycmp, Z_ord; intros.
  - apply Z.compare_refl.
  - apply Z.compare_antisym.
  - rewrite Z.compare_gt_iff in *. lia.
Qed.
#[export] Instance Z_ord_eq : PyOrdEq Z.
Proof. intros x y. apply Z.compare_eq. Qed.

#[export] Instance string_ord : PyOrd string := String.compare.
#[export] Instance string_ord_laws : PyOrdLaws string.
Proof.
  assert (Hle : ∀ x y : string, String.compare x y ≠ Gt ↔ String.le x y).
  { intros x y. unfold String.le, String.leb. destruct (String.compare x y); naive_solver. }
  split; unfold pycmp, string_ord.
  - intros x. destruct (String.compare x x) eqn:E; [done|..];
      assert (String.le x x) as Hx%Hle by done;
      pose proof (String.compare_antisym x x) as Ha; rewrite E in *; done.
  - intros x y. apply String.compare_antisym.
  - intros x y z. rewrite !Hle. intros. by transitivity y.
Qed.
#[export] Instance string_ord_eq : PyOrdEq string.
Proof. intros x y. apply String.compare_eq_iff. Qed.

(** ** [sorted(..., key=...)] and [min(..., key=...)] *)
Section sorting_by.
Context {A K : Type} `{PyOrdLaws K} (key : A → K).

Definition key_le (x y : A) : Prop := pyle (key x) (key y).
#[global] Instance key_le_dec : RelDecision key_le.
Proof. intros x y. unfold key_le. apply _. Defined.
#[local] Instance key_le_total : Total key_le.
Proof. intros x y. apply (total (pyle (K:=K))). Qed.
#[local] Instance key_le_trans : Transitive key_le.
Proof. intros x y z. unfold key_le. by transitivity (key y). Qed.

(** Python's [sorted] is a stable sort; so is [merge_sort]. *)
Definition sorted_by (l : list A) : list A := merge_sort key_le l.

Lemma sorted_by_Permutation l : sorted_by l ≡ₚ l.
Proof. apply merge_sort_Permutation. Qed.
Lemma sorted_by_sorted l : StronglySorted key_le (sorted_by l).
Proof. apply StronglySorted_merge_sort; apply _. Qed.
Lemma length_sorted_by l : length (sorted_by l) = length l.
Proof. by rewrite sorted_by_Permutation. Qed.
Lemma elem_of_sorted_by x l : x ∈ sorted_by l ↔ x ∈ l.
Proof. by rewrite sorted_by_Permutation. Qed.

(** Every element of a prefix of the sorted list is at most every later one. *)
Lemma sorted_by_take_drop n l x y :
  x ∈ take n (sorted_by l) → y ∈ drop n (sorted_by l) → pyle (key x) (key y).
Proof.
  pose proof (sorted_by_sorted l) as Hs. rewrite <- (take_drop n (sorted_by l)) in Hs.
  intros Hx Hy. by eapply (StronglySorted_app_1_elem_of _ _ _ _ _ Hs).
Qed.

Lemma sorted_by_unique l1 l2 :
  (∀ x y, x ∈ l1 → y ∈ l1 → pycmp (key x) (key y) = Eq → x = y) →
  l1 ≡ₚ l2 → sorted_by l1 = sorted_by l2.
Proof.
  intros Hinj Hp. eapply (StronglySorted_unique_strong key_le).
  - intros x y Hx Hy Hxy Hyx. apply Hinj.
    + by apply elem_of_sorted_by.
    + rewrite Hp. by apply elem_of_sorted_by.
    + by apply pycmp_Eq_le.
  - apply sorted_by_sorted.
  - apply sorted_by_sorted.
  - by rewrite !sorted_by_Permutation.
Qed.

(** The first of the minimal elements. *)
Fixpoint min_from (best : A) (l : list A) : A :=
  match l with
  | [] => best
  | x :: l => min_from (if decide (pylt (key x) (key best)) then x else best) l
  end.
Definition min_by (l : list A) : option A :=
  match l with [] => None | x :: l => Some (min_from x l) end.

Lemma min_from_elem best l : min_from best l = best ∨ min_from best l ∈ l.
Proof.
  revert best. induction l as [|x l IH]; intros best; cbn; [by left|].
  destruct (IH (if decide (pylt (key x) (key best)) then x else best)) as [->|];
    [case_decide|]; set_solver.
Qed.
Lemma min_from_le_best best l : pyle (key (min_from best l)) (key best).
Proof.
  revert best. induction l as [|x l IH]; intros best; cbn; [done|].
  etransitivity; [apply IH|]. case_decide; [by apply pylt_le | done].
Qed.
Lemma min_from_le best l x : x ∈ l → pyle (key (min_from best l)) (key x).
Proof.
  revert best. induction l as [|y l IH]; intros best; [by intros ?%elem_of_nil|].
  intros [->|Hx]%elem_of_cons; cbn; [|by apply IH].
  etransitivity; [apply min_from_le_best|].
  case_decide as Hd; [done|].
  destruct (total (pyle (K:=K)) (key best) (key y)) as [|Hle]; [done|].
  destruct (decide (pyle (key best) (key y))); [done|].
  exfalso. apply Hd. by apply pylt_not_le.
Qed.
Lemma min_by_Some l x : min_by l = Some x → x ∈ l ∧ ∀ y, y ∈ l → pyle (key x) (key y).
Proof.
  destruct l as [|a l]; [done|]. intros [= <-]. split.
  - destruct (min_from_elem a l) as [->|]; set_solver.
  - intros y [->|Hy]%elem_of_cons; [apply min_from_le_best | by apply min_from_le].
Qed.
Lemma min_by_None l : min_by l = None ↔ l = [].
Proof. by destruct l. Qed.
End sorting_by.

Arguments sorted_by : simpl never.

Lemma StronglySorted_seqZ m n : StronglySorted Z.le (seqZ m n).
Proof.
  destruct (Z_le_gt_dec n 0) as [Hn|Hn]; [rewrite seqZ_nil by lia; constructor|].
  replace n with (Z.of_nat (Z.to_nat n)) by lia. generalize (Z.to_nat n) as k. clear.
  intros k. revert m. induction k as [|k IH]; intros m; [constructor|].
  rewrite seqZ_cons by lia. replace (Z.pred _) with (Z.of_nat k) by lia.
  constructor; [apply IH|]. apply Forall_forall. intros x Hx%elem_of_seqZ. lia.
Qed.

(** Records whose integer keys are exactly [0 .. n-1], sorted by that key. *)
Lemma sorted_by_range {A} (key : A → Z) l n :
  NoDup (map key l) → (∀ k, k ∈ map key l ↔ 0 <= k < n) → map key (sorted_by key l) = seqZ 0 n.
Proof.
  intros Hnd Hk. apply (StronglySorted_unique Z.le).
  - pose proof (sorted_by_sorted key l) as Hs.
    induction Hs as [|x l' Hl IH Hf]; cbn; constructor; [done|].
    apply Forall_map. eapply Forall_impl; [exact Hf|]. intros y Hy. apply Hy.
  - apply StronglySorted_seqZ.
  - apply NoDup_Permutation; [|apply NoDup_seqZ|].
    + by rewrite sorted_by_Permutation.
    + intros k. rewrite sorted_by_Permutation, Hk, elem_of_seqZ. lia.
Qed.

(** ** Keys of a filtered list *)
Lemma NoDup_map_filter {A B} (f : A → B) (P : A → Prop) `{∀ x, Decision (P x)} l :
  NoDup (map f l) → NoDup (map f (filter P l)).
Proof.
  induction l as [|x l IH]; [done|]. rewrite filter_cons. cbn [map].
  intros [Hni Hnd]%NoDup_cons. case_decide; [|by apply IH]. cbn [map]. apply NoDup_cons. split; [|by apply IH].
  intros (y & Heq & Hy)%list_elem_of_fmap. apply list_elem_of_filter in Hy as [_ Hy].
  apply Hni. rewrite Heq. by apply list_elem_of_fmap_2.
Qed.

(** ** Counting the values of a map *)
Section count_if.
Context {K A : Type} `{Countable K} (p : A → bool).
Implicit Types m : gmap K A.

Definition count_if m : nat := size (filter (λ kv : K * A, p kv.2 = true) m).

Lemma count_if_empty : count_if ∅ = 0%nat.
Proof. unfold count_if. by rewrite map_filter_empty, map_size_empty. Qed.

Lemma count_if_insert m k x :
  m !! k = None → count_if (<[k := x]> m) = (Nat.b2n (p x) + count_if m)%nat.
Proof.
  intros Hk. unfold count_if. destruct (p x) eqn:Hp; cbn.
  - rewrite map_filter_insert_True by done.
    rewrite map_size_insert_None; [done|]. by apply map_lookup_filter_None_2; left.
  - rewrite map_filter_insert_False by (cbn; congruence). by rewrite delete_id.
Qed.

Lemma count_if_delete m k x :
  m !! k = Some x → count_if m = (Nat.b2n (p x) + count_if (delete k m))%nat.
Proof.
  intros Hk. rewrite <- (insert_id m k x) at 1 by done.
  rewrite <- insert_delete_eq, count_if_insert; [done|apply lookup_delete_eq].
Qed.

Lemma count_if_update m k x y :
  m !! k = Some x →
  (count_if (<[k := y]> m) + Nat.b2n (p x) = count_if m + Nat.b2n (p y))%nat.
Proof.
  intros Hk. rewrite (count_if_delete m k x) by done.
  rewrite <- insert_delete_eq, count_if_insert by apply lookup_delete_eq. lia.
Qed.

Lemma count_if_le m : (count_if m ≤ size m)%nat.
Proof.
  unfold count_if. apply map_subseteq_size, map_filter_subseteq.
Qed.

Lemma count_if_pos m k x : m !! k = Some x → p x = true → (0 < count_if m)%nat.
Proof. intros Hk Hp. rewrite (count_if_delete m k x), Hp by done. cbn. lia. Qed.
End count_if.

Lemma count_if_compl {K A} `{Countable K} (p q : A → bool) (m : gmap K A) :
  (∀ k x, m !! k = Some x → p x = negb (q x)) →
  (count_if p m + count_if q m = size m)%nat.
Proof.
  induction m as [|k x m Hk IH] using map_ind; intros Hpq.
  - by rewrite !count_if_empty, map_size_empty.
  - rewrite !count_if_insert, map_size_insert_None by done.
    rewrite <- IH by (intros k' y Hy; apply (Hpq k'); rewrite lookup_insert_ne; congruence).
    rewrite (Hpq k x) by apply lookup_insert_eq. destruct (q x); cbn; lia.
Qed.
