(* ===== verification/PyFloat.v ===== *)
(** * Python floats

    A Python [float] is an IEEE-754 binary64 number.  The arithmetic and the
    comparisons are those of the standard library's executable specification
    [SpecFloat] at precision 53 and maximal exponent 1024, so rounding, overflow
    to infinity, signed zeros and NaN behave as in the program. *)
From S2P Require Import Prelude.
From Stdlib Require Export SpecFloat.

Definition pyfloat : Set := spec_float.

#[export] Instance pyfloat_eq_dec : EqDecision pyfloat.
Proof. unfold pyfloat. solve_decision. Defined.

Definition fprec : Z := 53.
Definition femax : Z := 1024.

Definition fadd (x y : pyfloat) : pyfloat := SFadd fprec femax x y.
Definition fsub (x y : pyfloat) : pyfloat := SFsub fprec femax x y.
Definition fmul (x y : pyfloat) : pyfloat := SFmul fprec femax x y.
Definition fabs (x : pyfloat) : pyfloat := SFabs x.
Definition fdiv (x y : pyfloat) : pyfloat := SFdiv fprec femax x y.
Definition flt (x y : pyfloat) : bool := SFltb x y.
Definition fle (x y : pyfloat) : bool := SFleb x y.
Definition feq (x y : pyfloat) : bool := SFeqb x y.
Definition fzero : pyfloat := S754_zero false.

(** [float(n)] for an integer [n]. *)
Definition float_of_Z (n : Z) : pyfloat := binary_normalize fprec femax n 0 false.

(** [math.isfinite]. *)
Definition ffinite (x : pyfloat) : bool :=
  match x with S754_zero _ | S754_finite _ _ _ => true | _ => false end.
Definition fnan (x : pyfloat) : bool :=
  match x with S754_nan => true | _ => false end.

(** [max(x, y)]: Python keeps [x] unless [y] is strictly greater. *)
Definition fmax (x y : pyfloat) : pyfloat := if flt x y then y else x.

(** [sum(xs)] of floats from Python 3.12 on: Neumaier's compensated summation.
    [None] is the sum of no floats, the integer [0]. *)
Fixpoint compensated (total c : pyfloat) (l : list pyfloat) : pyfloat :=
  match l with
  | [] => if negb (feq c fzero) && ffinite c then fadd total c else total
  | x :: l =>
    let t := fadd total x in
    let lost := if fle (fabs x) (fabs total) then fadd (fsub total t) x
                else fadd (fsub x t) total in
    compensated t (fadd c lost) l
  end.
Definition fsum (l : list pyfloat) : option pyfloat :=
  match l with [] => None | x :: l => Some (compensated (fadd fzero x) fzero l) end.

(** The order [sorted] sees.  NaN compares with nothing in Python; the keys the
    program sorts by are validated finite or are sums of positive finite
    numbers, so the first two lines are only there to make the order total. *)
#[export] Instance pyfloat_ord : PyOrd pyfloat := λ x y,
  match SFcompare x y with
  | Some c => c
  | None => match fnan x, fnan y with
            | true, true => Eq | true, false => Lt | _, _ => Gt
            end
  end.

Lemma Pos_compare_cont_flip p q :
  Pos.compare_cont Eq q p = CompOpp (Pos.compare_cont Eq p q).
Proof. apply Pos.compare_antisym. Qed.

#[export] Instance pyfloat_ord_laws : PyOrdLaws pyfloat.
Proof.
  split.
  - intros [[]|[]| |[] m e]; cbn; rewrite ?Z.compare_refl; try done;
      change (Pos.compare_cont Eq m m) with (Pos.compare m m); by rewrite Pos.compare_refl.
  - intros [[]|[]| |[] m e] [[]|[]| |[] m' e']; unfold pycmp; cbn; try done;
      rewrite (Z.compare_antisym e e'), (Pos_compare_cont_flip m m');
      destruct (e ?= e'), (Pos.compare_cont Eq m m'); done.
  - intros [[]|[]| |[] m e] [[]|[]| |[] m' e'] [[]|[]| |[] m'' e''];
      unfold pycmp; cbn; try done;
      change (Pos.compare_cont Eq) with Pos.compare;
      destruct (Z.compare_spec e e'), (Z.compare_spec e' e''), (Z.compare_spec e e'');
      try lia; try done;
      destruct (Pos.compare_spec m m'), (Pos.compare_spec m' m''), (Pos.compare_spec m m'');
      cbn; try done; lia.
Qed.

Lemma flt_pylt x y : fnan x = false → fnan y = false → flt x y = true ↔ pylt x y.
Proof.
  intros Hx Hy. unfold flt, SFltb, pylt, pycmp, pyfloat_ord.
  destruct x, y; try done; cbn; split; intros H; by split_cases.
Qed.

Lemma ffinite_not_nan x : ffinite x = true → fnan x = false.
Proof. by destruct x. Qed.

Lemma fmax_finite x y : ffinite x = true → ffinite y = true → ffinite (fmax x y) = true.
Proof. unfold fmax. by case_match. Qed.

Lemma fmax_ge_l x y : ffinite x = true → ffinite y = true → pyle x (fmax x y).
Proof.
  intros Hx Hy. unfold fmax. destruct (flt x y) eqn:E; [|done].
  apply pylt_le. apply flt_pylt; auto using ffinite_not_nan.
Qed.

Example float_add : fadd (float_of_Z 1) (float_of_Z 2) = float_of_Z 3.
Proof. reflexivity. Qed.
(** Absorption: adding one second to [2^53] changes nothing. *)
Example float_absorbs : fadd (float_of_Z (2 ^ 53)) (float_of_Z 1) = float_of_Z (2 ^ 53).
Proof. reflexivity. Qed.
