(* ===== verification/FloatRepr.v ===== *)
(** * [repr] of a Python float

    Python prints the shortest decimal that reads back as the same binary64
    number, and among those the closest one.  [float_repr] computes it exactly
    on the integers of the [spec_float]; [json.dumps] uses the same text. *)
From S2P Require Import Prelude PyFloat.

(** [10 ^ k] for natural [k]. *)
Definition p10 (k : Z) : Z := 10 ^ k.

(** The value is [num / den]; [decimal_exponent] is the [q] with
    [10^q <= num / den < 10^(q+1)], searched from an upper bound downwards. *)
Fixpoint decimal_exponent (fuel : nat) (q num den : Z) : Z :=
  match fuel with
  | O => q
  | S fuel =>
    if (if 0 <=? q then p10 q * den <=? num else den <=? num * p10 (- q)) then q
    else decimal_exponent fuel (q - 1) num den
  end.

(** Does [d * 10^j] round to the float [m * 2^e]?  Both ends of the rounding
    interval belong to it when [m] is even; below a power of two the interval is
    half as wide. *)
Definition reads_back (m e d j : Z) : bool :=
  let sj := if 0 <=? j then p10 j else 1 in
  let tj := if 0 <=? j then 1 else p10 (- j) in
  let se := if 0 <=? e then 2 ^ e else 1 in
  let te := if 0 <=? e then 1 else 2 ^ (- e) in
  (* four times the decimal and the float over the common denominator *)
  let x := 4 * d * sj * te in
  let v := 4 * m * se * tj in
  let ulp := 4 * se * tj in
  let lower := if (m =? 2 ^ 52) && (-1074 <? e) then ulp / 4 else ulp / 2 in
  let upper := ulp / 2 in
  if Z.even m then (v - lower <=? x) && (x <=? v + upper)
  else (v - lower <? x) && (x <? v + upper).

(** The [k]-digit decimals around [m * 2^e]: the one below and the one above. *)
Definition candidates (m e q k : Z) : Z * Z * Z :=
  let j := q - k + 1 in
  let num := m * (if 0 <=? e then 2 ^ e else 1) * (if 0 <=? j then 1 else p10 (- j)) in
  let den := (if 0 <=? e then 1 else 2 ^ (- e)) * (if 0 <=? j then p10 j else 1) in
  let d := num / den in
  (* twice the remainder against the denominator tells which one is closer *)
  (d, (if num mod den =? 0 then d else d + 1), 2 * (num mod den) - den).

Definition pick (m e q k : Z) : option Z :=
  let '(lo, hi, side) := candidates m e q k in
  let j := q - k + 1 in
  match reads_back m e lo j, reads_back m e hi j with
  | true, true => Some (if (side <? 0) || ((side =? 0) && Z.even lo) then lo else hi)
  | true, false => Some lo
  | false, true => Some hi
  | false, false => None
  end.

Fixpoint shortest (fuel : nat) (m e q k : Z) : Z * Z :=
  match fuel with
  | O => (m, 0)
  | S fuel =>
    match pick m e q k with
    | Some d => (d, q - k + 1)
    | None => shortest fuel m e q (k + 1)
    end
  end.

(** Drops trailing zeros of the digits. *)
Fixpoint strip_zeros (fuel : nat) (d j : Z) : Z * Z :=
  match fuel with
  | O => (d, j)
  | S fuel => if (d mod 10 =? 0) && negb (d =? 0) then strip_zeros fuel (d / 10) (j + 1) else (d, j)
  end.

Definition zeros (n : Z) : string := String.concat EmptyString (replicate (Z.to_nat n) "0").
Definition two_digits (n : Z) : string := (if n <? 10 then "0" else EmptyString) +:+ pretty n.

(** The text of [d * 10^j] in [repr]'s layout. *)
Definition layout (d j : Z) : string :=
  let digits := pretty d in
  let n := Z.of_nat (String.length digits) in
  let decpt := n + j in
  if (-4 <? decpt) && (decpt <=? 16) then
    if decpt <=? 0 then "0." +:+ zeros (- decpt) +:+ digits
    else if n <=? decpt then digits +:+ zeros (decpt - n) +:+ ".0"
    else String.substring 0 (Z.to_nat decpt) digits +:+ "."
         +:+ String.substring (Z.to_nat decpt) (Z.to_nat (n - decpt)) digits
  else
    let exp := decpt - 1 in
    String.substring 0 1 digits
    +:+ (if n =? 1 then EmptyString else "." +:+ String.substring 1 (Z.to_nat (n - 1)) digits)
    +:+ "e" +:+ (if exp <? 0 then "-" else "+") +:+ two_digits (Z.abs exp).

Definition float_repr (x : pyfloat) : string :=
  match x with
  | S754_nan => "NaN"
  | S754_infinity s => (if s then "-" else EmptyString) +:+ "Infinity"
  | S754_zero s => (if s then "-" else EmptyString) +:+ "0.0"
  | S754_finite s m e =>
    let num := Zpos m * (if 0 <=? e then 2 ^ e else 1) in
    let den := if 0 <=? e then 1 else 2 ^ (- e) in
    (* 3/10 < log10 2 < 1/3, so the search starts at or above the exponent *)
    let bits := Z.log2 (Zpos m) + e + 1 in
    let top := (if 0 <=? bits then bits / 3 else bits * 3 / 10) + 1 in
    let q := decimal_exponent 400 top num den in
    let '(d, j) := shortest 18 (Zpos m) e q 1 in
    let '(d, j) := strip_zeros 20 d j in
    (if s then "-" else EmptyString) +:+ layout d j
  end.

(** Decimal literals, correctly rounded for the small numerators used here. *)
Definition ratio (n d : Z) : pyfloat := fdiv (float_of_Z n) (float_of_Z d).

Example repr_values :
  map float_repr [ratio 1 10; ratio 1 3; ratio 1 1000000000; float_of_Z 300; ratio (-5) 2;
                  float_of_Z (10 ^ 16); ratio 1 10000; ratio 123 100000; ratio 1 (2 ^ 44);
                  S754_finite false 1 (-1074);
                  S754_finite false (2 ^ 53 - 1) 971]
  = ["0.1"; "0.3333333333333333"; "1e-09"; "300.0"; "-2.5"; "1e+16"; "0.0001"; "0.00123";
     "5.684341886080802e-14"; "5e-324"; "1.7976931348623157e+308"].
Proof. vm_compute. reflexivity. Qed.
