(* ===== verification/Hashlib.v ===== *)
(** * SHA-256 and canonical JSON

    The program identifies every object by
    [hashlib.sha256(json.dumps(value, sort_keys=True, separators=(",", ":")).encode()).hexdigest()].
    Both functions belong to Python's standard library; this file gives them as
    executable definitions: SHA-256 of FIPS 180-4 over 32-bit words, and
    [json.dumps] with sorted keys, compact separators and ASCII escapes on null,
    booleans, integers, floats, strings, lists and string-keyed objects.  A Rocq
    [string] holds code points below 256.

    The two facts the components use are [content_digest_is_hash] (a digest has
    the shape that [_require_hash] accepts) and [content_digest_inj] (canonical JSON
    identifies the value, so that two values with one digest are the same value
    or the two serialisations collide). *)
From S2P Require Import Prelude PyFloat FloatRepr.
From Stdlib Require Import Ascii.

Module Sha256.

Definition w32 (x : Z) : Z := Z.land x 0xffffffff.
Definition rotr (n x : Z) : Z :=
  Z.lor (Z.shiftr x n) (w32 (Z.shiftl x (32 - n))).
Definition ch (x y z : Z) : Z := Z.lxor (Z.land x y) (Z.land (Z.lxor x 0xffffffff) z).
Definition maj (x y z : Z) : Z :=
  Z.lxor (Z.land x y) (Z.lxor (Z.land x z) (Z.land y z)).
Definition big_sigma0 (x : Z) : Z := Z.lxor (rotr 2 x) (Z.lxor (rotr 13 x) (rotr 22 x)).
Definition big_sigma1 (x : Z) : Z := Z.lxor (rotr 6 x) (Z.lxor (rotr 11 x) (rotr 25 x)).
Definition sigma0 (x : Z) : Z := Z.lxor (rotr 7 x) (Z.lxor (rotr 18 x) (Z.shiftr x 3)).
Definition sigma1 (x : Z) : Z := Z.lxor (rotr 17 x) (Z.lxor (rotr 19 x) (Z.shiftr x 10)).

(** The constants of the standard: the first 32 bits of the fractional parts of
    the cube roots of the first 64 primes, and of the square roots of the first
    eight. *)
Definition prime (n : Z) : bool := forallb (λ d, negb (n mod d =? 0)) (seqZ 2 (n - 2)).
Definition primes : list Z := filter (λ n, prime n = true) (seqZ 2 310).
(** The integer cube root, bit by bit from bit [n - 1]. *)
Fixpoint cube_root (n : nat) (root x : Z) : Z :=
  match n with
  | O => root
  | S n =>
    let trial := root + Z.shiftl 1 (Z.of_nat n) in
    cube_root n (if trial * trial * trial <=? x then trial else root) x
  end.
Definition round_constants : list Z :=
  Eval vm_compute in map (λ p, w32 (cube_root 36 0 (Z.shiftl p 96))) (take 64 primes).

Record words8 : Set := W8 { wa : Z; wb : Z; wc : Z; wd : Z; we : Z; wf : Z; wg : Z; wh : Z }.

Definition initial : words8 :=
  Eval vm_compute in
    match map (λ p, w32 (Z.sqrt (Z.shiftl p 64))) (take 8 primes) with
    | [a; b; c; d; e; f; g; h] => W8 a b c d e f g h
    | _ => W8 0 0 0 0 0 0 0 0
    end.

Definition round (s : words8) (kw : Z) : words8 :=
  let 'W8 a b c d e f g h := s in
  let t1 := h + big_sigma1 e + ch e f g + kw in
  let t2 := big_sigma0 a + maj a b c in
  W8 (w32 (t1 + t2)) a b c (w32 (d + t1)) e f g.

Definition add_words (s t : words8) : words8 :=
  W8 (w32 (wa s + wa t)) (w32 (wb s + wb t)) (w32 (wc s + wc t)) (w32 (wd s + wd t))
     (w32 (we s + we t)) (w32 (wf s + wf t)) (w32 (wg s + wg t)) (w32 (wh s + wh t)).

(** The schedule, newest word first: each step pushes
    [sigma1 w(t-2) + w(t-7) + sigma0 w(t-15) + w(t-16)]. *)
Fixpoint schedule (n : nat) (rev_words : list Z) : list Z :=
  match n with
  | O => rev_words
  | S n => schedule n
      (w32 (sigma1 (nth 1 rev_words 0) + nth 6 rev_words 0
            + sigma0 (nth 14 rev_words 0) + nth 15 rev_words 0) :: rev_words)
  end.

Definition compress (s : words8) (block : list Z) : words8 :=
  let w := rev (schedule 48 (rev block)) in
  add_words s (foldl round s (zip_with Z.add round_constants w)).

Fixpoint be_words (bytes : list Z) : list Z :=
  match bytes with
  | a :: b :: c :: d :: rest =>
      Z.lor (Z.shiftl a 24) (Z.lor (Z.shiftl b 16) (Z.lor (Z.shiftl c 8) d)) :: be_words rest
  | _ => []
  end.

Definition pad (bytes : list Z) : list Z :=
  let n := Z.of_nat (length bytes) in
  let zeros := Z.to_nat ((55 - n) mod 64) in
  bytes ++ [0x80] ++ replicate zeros 0
    ++ map (λ i, Z.land (Z.shiftr (8 * n) (8 * i)) 0xff) [7; 6; 5; 4; 3; 2; 1; 0].

(** [fuel] counts blocks; [length words] is always enough. *)
Fixpoint blocks (fuel : nat) (s : words8) (words : list Z) : words8 :=
  match fuel, words with
  | O, _ | _, [] => s
  | S fuel, _ => blocks fuel (compress s (take 16 words)) (drop 16 words)
  end.

Definition digest_words (bytes : list Z) : words8 :=
  let words := be_words (pad bytes) in
  blocks (length words) initial words.

Definition hex_char (n : Z) : Ascii.ascii :=
  Ascii.ascii_of_nat (Z.to_nat (if n <? 10 then 48 + n else 87 + n)).

Definition nibble (x i : Z) : Z := Z.land (Z.shiftr x (4 * i)) 15.

Definition word_hex (x : Z) (k : string) : string :=
  fold_right (λ i s, String.String (hex_char (nibble x i)) s) k [7; 6; 5; 4; 3; 2; 1; 0].

Definition words_hex (s : words8) : string :=
  word_hex (wa s) (word_hex (wb s) (word_hex (wc s) (word_hex (wd s)
    (word_hex (we s) (word_hex (wf s) (word_hex (wg s) (word_hex (wh s) EmptyString))))))).

Definition byte_values (s : string) : list Z :=
  map (λ c, Z.of_N (Ascii.N_of_ascii c)) (String.list_ascii_of_string s).

(** [hashlib.sha256(s.encode()).hexdigest()] for an ASCII [s]. *)
Definition hexdigest (s : string) : string := words_hex (digest_words (byte_values s)).

Example hexdigest_abc :
  hexdigest "abc" = "ba7816bf8f01cfea414140de5dae2223b00361a396177a9cb410ff61f20015ad".
Proof. vm_compute. reflexivity. Qed.
Example hexdigest_empty :
  hexdigest EmptyString = "e3b0c44298fc1c149afbf4c8996fb92427ae41e4649b934ca495991b7852b855".
Proof. vm_compute. reflexivity. Qed.
Example hexdigest_two_blocks :
  hexdigest "abcdbcdecdefdefgefghfghighijhijkijkljklmklmnlmnomnopnopq"
  = "248d6a61d20638b8e5c026930c3e6039a33ce45964ff2167f6ecedd419db06c1".
Proof. vm_compute. reflexivity. Qed.

Lemma nibble_bounds x i : 0 <= nibble x i < 16.
Proof.
  unfold nibble. change 15 with (Z.ones 4). rewrite Z.land_ones by lia.
  apply Z.mod_pos_bound. lia.
Qed.

Lemma hex_char_ok n : 0 <= n < 16 → is_hex_char (hex_char n) = true.
Proof.
  intros Hn. assert (n ∈ seqZ 0 16) as Hin by (apply elem_of_seqZ; lia).
  revert n Hn Hin. cut (Forall (λ n, is_hex_char (hex_char n) = true) (seqZ 0 16)).
  { intros HF n _ Hin. by eapply Forall_forall in HF. }
  repeat constructor.
Qed.

Lemma word_hex_ok x k :
  string_forall is_hex_char k = true →
  string_forall is_hex_char (word_hex x k) = true
  ∧ String.length (word_hex x k) = (8 + String.length k)%nat.
Proof.
  intros Hk. cbn [word_hex fold_right string_forall String.length].
  rewrite !hex_char_ok by apply nibble_bounds. by rewrite Hk.
Qed.

Lemma words_hex_ok s : is_hash 64 (words_hex s) = true.
Proof.
  unfold is_hash, words_hex. apply andb_true_iff.
  split; repeat (rewrite (proj2 (word_hex_ok _ _ _)) || apply (proj1 (word_hex_ok _ _ _)));
    repeat (apply word_hex_ok); done.
Qed.

Lemma hexdigest_is_hash s : is_hash 64 (hexdigest s) = true.
Proof. apply words_hex_ok. Qed.

End Sha256.

Module Json.
#[local] Arguments String.append !s1 s2 / : assert.


#[warnings="-register-all"]
Inductive json : Set :=
  | JNull
  | JBool (b : bool)
  | JInt (z : Z)
  | JFloat (x : pyfloat)
  | JStr (s : string)
  | JList (l : list json)
  | JObj (fields : list (string * json)).

Section json_ind.
Context (P : json → Prop).
Hypotheses (HNull : P JNull) (HBool : ∀ b, P (JBool b)) (HInt : ∀ z, P (JInt z))
  (HFloat : ∀ x, P (JFloat x))
  (HStr : ∀ s, P (JStr s)) (HList : ∀ l, Forall P l → P (JList l))
  (HObj : ∀ fs, Forall (λ f, P f.2) fs → P (JObj fs)).
Fixpoint json_ind' (j : json) : P j :=
  match j with
  | JNull => HNull
  | JBool b => HBool b
  | JInt z => HInt z
  | JFloat x => HFloat x
  | JStr s => HStr s
  | JList l => HList l
      ((fix go l := match l return Forall P l with
                    | [] => Forall_nil_2 P
                    | x :: l => Forall_cons_2 P x l (json_ind' x) (go l)
                    end) l)
  | JObj fs => HObj fs
      ((fix go fs := match fs return Forall (λ f, P f.2) fs with
                     | [] => Forall_nil_2 _
                     | f :: fs => Forall_cons_2 _ f fs (json_ind' f.2) (go fs)
                     end) fs)
  end.
End json_ind.

Definition quote_char : Ascii.ascii := Ascii.ascii_of_nat 34.
Definition backslash : Ascii.ascii := Ascii.ascii_of_nat 92.

(** [json.dumps]' ASCII escape of one character, in front of [k]. *)
Definition esc_char (c : Ascii.ascii) (k : string) : string :=
  let n := Ascii.nat_of_ascii c in
  let short (x : nat) := String.String backslash (String.String (Ascii.ascii_of_nat x) k) in
  if (n =? 34)%nat then short 34%nat
  else if (n =? 92)%nat then short 92%nat
  else if (n =? 10)%nat then short 110%nat
  else if (n =? 13)%nat then short 114%nat
  else if (n =? 9)%nat then short 116%nat
  else if (n =? 12)%nat then short 102%nat
  else if (n =? 8)%nat then short 98%nat
  else if (32 <=? n)%nat && (n <=? 126)%nat then String.String c k
  else String.String backslash ("u00" +:+
    String.String (Sha256.hex_char (Z.of_nat n / 16))
      (String.String (Sha256.hex_char (Z.of_nat n mod 16)) k)).

Fixpoint esc (s : string) (k : string) : string :=
  match s with
  | EmptyString => k
  | String.String c s => esc_char c (esc s k)
  end.

Definition print_str (s k : string) : string :=
  String.String quote_char (esc s (String.String quote_char k)).

(** Items separated by commas, then the closing bracket and the continuation. *)
Fixpoint seps (close : Ascii.ascii) (items : list (string → string)) (k : string) : string :=
  match items with
  | [] => String close k
  | [p] => p (String close k)
  | p :: items => p (String.String ","%char (seps close items k))
  end.

(** Printing in front of a continuation string, without separators' spaces. *)
Fixpoint print (j : json) (k : string) : string :=
  match j with
  | JNull => "null" +:+ k
  | JBool true => "true" +:+ k
  | JBool false => "false" +:+ k
  | JInt z => pretty z +:+ k
  | JFloat x => float_repr x +:+ k
  | JStr s => print_str s k
  | JList l => String.String "["%char (seps "]"%char (map print l) k)
  | JObj fs => String.String "{"%char
      (seps "}"%char
         (map (λ f, λ k, print_str f.1 (String.String ":"%char (print f.2 k))) fs) k)
  end.

(** [sort_keys=True] at every level. *)
Fixpoint norm (j : json) : json :=
  match j with
  | JList l => JList (map norm l)
  | JObj fs => JObj (sorted_by fst (map (λ f, (f.1, norm f.2)) fs))
  | j => j
  end.

Definition dumps (j : json) : string := print (norm j) EmptyString.

Example dumps_sorts :
  dumps (JObj [("b", JInt (-12)); ("a", JList [JNull; JBool true; JStr "x"])])
  = String.concat (String.String quote_char EmptyString)
      ["{"; "a"; ":[null,true,"; "x"; "],"; "b"; ":-12}"].
Proof. vm_compute. reflexivity. Qed.

(** What may follow a value: the end, or a separator. *)
Definition tail_ok (k : string) : Prop :=
  match k with
  | EmptyString => True
  | String.String c _ => c = ","%char ∨ c = "]"%char ∨ c = "}"%char
  end.

(** Values without floats. *)
Fixpoint plain (j : json) : bool :=
  match j with
  | JFloat _ => false
  | JList l => forallb plain l
  | JObj fs => forallb (λ f, plain f.2) fs
  | _ => true
  end.

(** *** Numbers *)
Definition num_char (c : Ascii.ascii) : bool :=
  let n := Ascii.nat_of_ascii c in ((48 <=? n)%nat && (n <=? 57)%nat) || (n =? 45)%nat.

Lemma string_forall_app p s t :
  string_forall p (s +:+ t) = string_forall p s && string_forall p t.
Proof. induction s as [|c s IH]; cbn; [done|]. by rewrite IH, andb_assoc. Qed.

Lemma pretty_N_char_num x : (x < 10)%N → num_char (pretty_N_char x) = true.
Proof.
  intros Hx. assert (∃ n, (n < 10)%nat ∧ x = N.of_nat n) as (n & Hn & ->).
  { exists (N.to_nat x). lia. }
  do 10 (destruct n as [|n]; [done|]). lia.
Qed.

Lemma pretty_N_go_num x s :
  string_forall num_char s = true → string_forall num_char (pretty_N_go x s) = true.
Proof.
  revert s. induction (N.lt_wf_0 x) as [x _ IH]; intros s Hs.
  destruct (decide (x = 0)%N) as [->|Hx]; [done|].
  rewrite pretty_N_go_step by lia. apply IH.
  - by apply N.div_lt; lia.
  - cbn. rewrite Hs, pretty_N_char_num; [done|]. apply N.mod_lt. lia.
Qed.

Lemma pretty_Z_num (z : Z) : string_forall num_char (pretty z) = true.
Proof.
  assert (HN : ∀ n : N, string_forall num_char (pretty n) = true).
  { intros n. unfold pretty, pretty_N. case_decide; [done|]. by apply pretty_N_go_num. }
  destruct z as [|p|p]; cbn; [done|apply (HN (N.pos p))|apply (HN (N.pos p))].
Qed.

Lemma num_split s1 s2 k1 k2 :
  string_forall num_char s1 = true → string_forall num_char s2 = true →
  tail_ok k1 → tail_ok k2 → s1 +:+ k1 = s2 +:+ k2 → s1 = s2 ∧ k1 = k2.
Proof.
  assert (Hbad : ∀ c s k k', tail_ok k → num_char c = true →
            k = String.String c (s +:+ k') → False).
  { intros c s k k' Hk Hc ->. cbn in Hk.
    destruct Hk as [->|[->| ->]]; discriminate. }
  revert s2. induction s1 as [|c s1 IH]; intros [|c2 s2]; cbn; intros H1 H2 Hk1 Hk2 E.
  - done.
  - apply andb_true_iff in H2 as [??]. exfalso. by eapply (Hbad c2 s2 k1 k2).
  - apply andb_true_iff in H1 as [??]. exfalso. by eapply (Hbad c s1 k2 k1).
  - apply andb_true_iff in H1 as [??], H2 as [??]. injection E as -> E.
    by destruct (IH s2) as [-> ->].
Qed.

(** *** Strings *)
Definition unhex (c : Ascii.ascii) : nat :=
  let n := Ascii.nat_of_ascii c in if (n <=? 57)%nat then (n - 48)%nat else (n - 87)%nat.

(** Reads back one escaped character; [None] at the closing quote. *)
Definition dec_char (s : string) : option (Ascii.ascii * string) :=
  match s with
  | EmptyString => None
  | String.String c k =>
      if decide (c = quote_char) then None
      else if decide (c = backslash) then
        match k with
        | String.String "u"%char (String.String _ (String.String _
            (String.String h (String.String l k)))) =>
            Some (Ascii.ascii_of_nat (16 * unhex h + unhex l), k)
        | String.String "n"%char k => Some (Ascii.ascii_of_nat 10, k)
        | String.String "r"%char k => Some (Ascii.ascii_of_nat 13, k)
        | String.String "t"%char k => Some (Ascii.ascii_of_nat 9, k)
        | String.String "f"%char k => Some (Ascii.ascii_of_nat 12, k)
        | String.String "b"%char k => Some (Ascii.ascii_of_nat 8, k)
        | String.String c k => Some (c, k)
        | EmptyString => None
        end
      else Some (c, k)
  end.

Lemma dec_esc_char c k : dec_char (esc_char c k) = Some (c, k).
Proof. destruct c as [[] [] [] [] [] [] [] []]; reflexivity. Qed.

Lemma dec_quote k : dec_char (String.String quote_char k) = None.
Proof. reflexivity. Qed.

Lemma esc_inj s1 s2 k1 k2 :
  esc s1 (String.String quote_char k1) = esc s2 (String.String quote_char k2) →
  s1 = s2 ∧ k1 = k2.
Proof.
  revert s2. induction s1 as [|c s1 IH]; intros [|c2 s2]; cbn [esc]; intros E;
    apply (f_equal dec_char) in E as E'; rewrite ?dec_esc_char, ?dec_quote in E';
    simplify_eq; [by split|].
  by destruct (IH s2) as [-> ->].
Qed.

Lemma print_str_inj s1 s2 k1 k2 : print_str s1 k1 = print_str s2 k2 → s1 = s2 ∧ k1 = k2.
Proof. unfold print_str. intros [= E]. by apply esc_inj in E. Qed.

(** *** Values *)
Definition head_code (s : string) : nat :=
  match s with EmptyString => 0 | String.String c _ => Ascii.nat_of_ascii c end.

Lemma pretty_N_go_length x s : (String.length s ≤ String.length (pretty_N_go x s))%nat.
Proof.
  revert s. induction (N.lt_wf_0 x) as [x _ IH]; intros s.
  destruct (decide (x = 0)%N) as [->|Hx]; [done|].
  rewrite pretty_N_go_step by lia. etransitivity; [|apply IH, N.div_lt; lia].
  cbn. lia.
Qed.

Lemma pretty_N_ne (n : N) : pretty n ≠ EmptyString.
Proof.
  unfold pretty, pretty_N. case_decide; [done|]. rewrite pretty_N_go_step by lia.
  intros E%(f_equal String.length).
  pose proof (pretty_N_go_length (n `div` 10)%N
    (String (pretty_N_char (n `mod` 10)%N) EmptyString)) as Hl.
  rewrite E in Hl. cbn in Hl. lia.
Qed.

(** The first character tells the constructor; numbers start with a digit or a sign. *)
Lemma pretty_Z_head (z : Z) k : num_char (ascii_of_nat (head_code (pretty z +:+ k))) = true.
Proof.
  pose proof (pretty_Z_num z) as Hn.
  assert (pretty z ≠ EmptyString) as Hne.
  { destruct z as [|p|p]; [done|apply (pretty_N_ne (N.pos p))|done]. }
  destruct (pretty z) as [|c s]; [done|]. cbn in *.
  apply andb_true_iff in Hn as [Hc _]. by rewrite ascii_nat_embedding.
Qed.

Lemma seps_inj {X} (P : X → Prop) (pr : X → string → string) close l1 l2 k1 k2 :
  close = "]"%char ∨ close = "}"%char →
  (∀ x k, P x → head_code (pr x k) ≠ nat_of_ascii close) →
  Forall P l1 → Forall P l2 →
  Forall (λ x, ∀ y k1 k2, P y → tail_ok k1 → tail_ok k2 → pr x k1 = pr y k2 → x = y ∧ k1 = k2) l1 →
  seps close (map pr l1) k1 = seps close (map pr l2) k2 → l1 = l2 ∧ k1 = k2.
Proof.
  intros Hclose Hhd HP1 HP2 Hinj. revert l2 HP1 HP2.
  induction Hinj as [|x l1 Hx Hl1 IH]; intros [|y l2] HP1 HP2.
  - cbn. by intros [= ->].
  - intros E%(f_equal head_code). exfalso. revert E. cbn. destruct (Forall_cons_1 _ _ _ HP2) as [Hy _]. specialize (Hhd y).
    by destruct (map pr l2); intros E; eapply Hhd.
  - intros E%(f_equal head_code). exfalso. revert E. cbn. destruct (Forall_cons_1 _ _ _ HP1) as [Hy _]. specialize (Hhd x).
    by destruct (map pr l1); intros E; eapply Hhd.
  - assert (Htail : ∀ l k, tail_ok (match map pr l with
        | [] => String close k | _ => String ","%char (seps close (map pr l) k) end)).
    { intros l k. destruct (map pr l); cbn; [destruct Hclose as [->| ->]; auto|auto]. }
    apply Forall_cons_1 in HP1 as [_ HP1]. apply Forall_cons_1 in HP2 as [Hy HP2]. intros E.
    assert (E' : pr x (match map pr l1 with
        | [] => String close k1 | _ => String ","%char (seps close (map pr l1) k1) end)
      = pr y (match map pr l2 with
        | [] => String close k2 | _ => String ","%char (seps close (map pr l2) k2) end)).
    { revert E. cbn. by destruct (map pr l1), (map pr l2). }
    apply Hx in E' as [-> E']; [|done|apply Htail..].
    destruct l1 as [|x' l1], l2 as [|y' l2]; cbn [map] in E'.
    + by injection E' as ->.
    + injection E' as -> _. destruct Hclose; discriminate.
    + injection E' as <- _. destruct Hclose; discriminate.
    + injection E' as E'. by destruct (IH (y' :: l2) HP1 HP2 E') as [[= -> ->] ->].
Qed.

Lemma print_head j k :
  plain j = true →
  head_code (print j k) ≠ nat_of_ascii "]"%char
  ∧ head_code (print j k) ≠ nat_of_ascii "}"%char.
Proof.
  destruct j as [|[]|z| | | |]; cbn; intros Hj; try done.
  pose proof (pretty_Z_head z k) as Hz. split; intros E; by rewrite E in Hz.
Qed.

Ltac print_clash E :=
  apply (f_equal head_code) in E; cbn in E;
  first [done
        |match type of E with
         | context [pretty ?z +:+ ?k] =>
             pose proof (pretty_Z_head z k) as Hclash;
             rewrite E in Hclash || rewrite <- E in Hclash; done
         end].

Lemma Forall_and_mp {A} {P Q : A → Prop} {l} :
  Forall P l → Forall Q l → Forall (λ x, P x ∧ Q x) l.
Proof. intros H1 H2. by apply Forall_and. Qed.

Lemma print_inj j1 : ∀ j2 k1 k2,
  plain j1 = true → plain j2 = true →
  tail_ok k1 → tail_ok k2 → print j1 k1 = print j2 k2 → j1 = j2 ∧ k1 = k2.
Proof.
  induction j1 as [|b|z|x|s|l IH|fs IH] using json_ind';
    intros [|b'|z'|x'|s'|l'|fs'] k1 k2 Hj1 Hj2 Hk1 Hk2 E; try done;
    try (destruct b); try (destruct b'); try (exfalso; print_clash E).
  - cbn in E. by injection E as ->.
  - cbn in E. by injection E as ->.
  - cbn in E. by injection E as ->.
  - cbn in E. apply num_split in E as [E ->]; auto using pretty_Z_num.
    split; [|done]. f_equal. by apply (inj pretty) in E.
  - cbn [print] in E. by apply print_str_inj in E as [-> ->].
  - cbn [print] in E. injection E as E. cbn [plain] in Hj1, Hj2.
    rewrite forallb_elem_of, <- Forall_forall in Hj1, Hj2.
    apply (seps_inj (λ j, plain j = true)) in E as [-> ->];
      [done|by left|intros; by apply print_head|done|done|].
    eapply Forall_impl; [exact (Forall_and_mp IH Hj1)|].
    intros x [Hx Hp] y t t' Hy. by apply Hx.
  - cbn [print] in E. injection E as E. cbn [plain] in Hj1, Hj2.
    rewrite forallb_elem_of, <- Forall_forall in Hj1, Hj2.
    apply (seps_inj (λ f, plain f.2 = true)
      (λ f k, print_str f.1 (String.String ":"%char (print f.2 k)))) in E
      as [-> ->]; [done|by right|done|done|done|].
    eapply Forall_impl; [exact (Forall_and_mp IH Hj1)|].
    intros [n v] [Hv Hp] [n' v'] t t' Hy Ht Ht' E'; cbn in *.
    apply print_str_inj in E' as [-> E']. injection E' as E'.
    by apply Hv in E' as [-> ->].
Qed.

Lemma plain_norm j : plain j = true → plain (norm j) = true.
Proof.
  induction j as [|b|z|x|s|l IH|fs IH] using json_ind'; try done; cbn;
    rewrite !forallb_elem_of; intros Hp x Hx.
  - apply list_elem_of_fmap in Hx as (y & -> & Hy).
    rewrite Forall_forall in IH. by apply IH, Hp.
  - apply elem_of_sorted_by, list_elem_of_fmap in Hx as (y & -> & Hy).
    rewrite Forall_forall in IH. by apply IH, Hp.
Qed.

(** Canonical JSON without floats identifies the value, up to the order of
    object fields. *)
Lemma dumps_inj j1 j2 :
  plain j1 = true → plain j2 = true → dumps j1 = dumps j2 → norm j1 = norm j2.
Proof. intros H1 H2 E. apply print_inj in E as [??]; auto using plain_norm; done. Qed.

Lemma Permutation_same_keys {A} (l1 l2 : list (string * A)) :
  l1.*1 = l2.*1 → NoDup l1.*1 → l1 ≡ₚ l2 → l1 = l2.
Proof.
  intros Hk Hnd Hp. apply list_eq. intros i.
  destruct (l1 !! i) as [[k v]|] eqn:E1.
  - assert ((k, v) ∈ l2) as (j & Ej)%list_elem_of_lookup.
    { rewrite <- Hp. by eapply list_elem_of_lookup_2. }
    assert (i = j) as ->; [|done].
    eapply (NoDup_lookup l1.*1); [done| |].
    + by rewrite list_lookup_fmap, E1.
    + by rewrite Hk, list_lookup_fmap, Ej.
  - symmetry. apply lookup_ge_None. apply lookup_ge_None in E1.
    by rewrite <- (length_fmap fst l2), <- Hk, length_fmap.
Qed.

(** Objects with the same field names, in the same order, agree field by field. *)
Lemma norm_obj_inj fs1 fs2 :
  fs1.*1 = fs2.*1 → NoDup fs1.*1 → norm (JObj fs1) = norm (JObj fs2) →
  map (λ f, norm f.2) fs1 = map (λ f, norm f.2) fs2.
Proof.
  intros Hk Hnd [= E].
  set (g := λ f : string * json, (f.1, norm f.2)) in *.
  assert (Hg : ∀ fs, (map g fs).*1 = fs.*1) by (induction fs; cbn; congruence).
  assert (map g fs1 = map g fs2) as E'.
  { apply Permutation_same_keys; [by rewrite !Hg|by rewrite Hg|].
    by rewrite <- (sorted_by_Permutation fst (map g fs1)), E, sorted_by_Permutation. }
  apply (f_equal (map snd)) in E'. by rewrite !map_map in E'.
Qed.
End Json.

(** ** Content identities *)
Abbreviation json := Json.json.
Abbreviation JNull := Json.JNull.
Abbreviation JBool := Json.JBool.
Abbreviation JInt := Json.JInt.
Abbreviation JFloat := Json.JFloat.
Abbreviation JStr := Json.JStr.
Abbreviation JList := Json.JList.
Abbreviation JObj := Json.JObj.

(** [hashlib.sha256(json.dumps(value, sort_keys=True, separators=(",", ":")).encode()).hexdigest()] *)
Definition content_digest (value : json) : string := Sha256.hexdigest (Json.dumps value).

Lemma content_digest_is_hash v : is_hash 64 (content_digest v) = true.
Proof. apply Sha256.hexdigest_is_hash. Qed.

(** A SHA-256 collision between the serialisations of two given values. *)
Definition collision (v1 v2 : json) : Prop :=
  Json.dumps v1 ≠ Json.dumps v2 ∧ content_digest v1 = content_digest v2.

Lemma content_digest_inj v1 v2 :
  Json.plain v1 = true → Json.plain v2 = true →
  content_digest v1 = content_digest v2 → Json.norm v1 = Json.norm v2 ∨ collision v1 v2.
Proof.
  intros H1 H2 E. destruct (decide (Json.dumps v1 = Json.dumps v2)) as [D|D].
  - left. by apply Json.dumps_inj.
  - by right.
Qed.

#[global] Opaque content_digest.
#[global] Arguments Sha256.hexdigest : simpl never.
