(* ===== verification/Methods.v ===== *)
(** * Publication semantics of one candidate ([methods/core.py])

    The data of a candidate, the publication policies and the functions that
    turn a candidate, a stride and a logical delay into a publication round.
    Device tensors are opaque: the type [tensor] is a parameter. *)
From S2P Require Import Prelude.

(** [MethodPolicy]: a string enum. *)
Inductive MethodPolicy : Set := STATIC | FIXED_BARRIER | FIRST_READY_BOUNDARY.

#[export] Instance MethodPolicy_eq_dec : EqDecision MethodPolicy.
Proof. solve_decision. Defined.

Definition MethodPolicy_value (p : MethodPolicy) : string :=
  match p with
  | STATIC => "static"
  | FIXED_BARRIER => "tts"
  | FIRST_READY_BOUNDARY => "l0"
  end.

(** [policy_for]: the enum member with that value. *)
Definition policy_for (method : string) : result MethodPolicy :=
  match list_find (λ p, MethodPolicy_value p = method)
          [STATIC; FIXED_BARRIER; FIRST_READY_BOUNDARY] with
  | Some (_, p) => Ok p
  | None => Raise (ValueError "is not a core method")
  end.

(** [_require_sha256]. *)
Definition require_sha256 (value : string) : result unit :=
  raise_if (negb (is_hash 64 value))
    (ValueError "digest must be an exact lowercase SHA-256") ;;
  Ok tt.

Section candidates.
Context {tensor : Type}.

(** [outcome] is the constant ["pending"] and is left out. *)
Record CandidateUpdate := {
  payload : list tensor;
  source_round : Z;
  source_version : Z;
  cohort_epoch : Z;
  cu_slot_generation : Z;
  ready_round : Z;
  cu_buffer_generation : Z;
  cu_optimizer_state_generation : Z;
  ready_event_id : string;
  numerically_valid : bool;
  memory_reservation_bytes : Z;
}.

(** [CandidateUpdate.__post_init__]. *)
Definition CandidateUpdate_post_init (c : CandidateUpdate) : result CandidateUpdate :=
  raise_if (match payload c with [] => true | _ => false end)
    (ValueError "candidate payload must be non-empty") ;;
  raise_if (existsb (λ v, v <? 0)
      [source_round c; source_version c; cohort_epoch c; cu_slot_generation c;
       ready_round c; cu_buffer_generation c; cu_optimizer_state_generation c;
       memory_reservation_bytes c])
    (ValueError "candidate counters must be non-negative") ;;
  raise_if (ready_round c <? source_round c)
    (ValueError "candidate cannot be ready before its source round") ;;
  raise_if (string_empty (ready_event_id c))
    (ValueError "candidate readiness event identity must be non-empty") ;;
  Ok c.

(** The constructor call: the fields after [ready_round] default. *)
Definition new_CandidateUpdate (payload : list tensor)
    (source_round source_version cohort_epoch slot_generation ready_round
     buffer_generation optimizer_state_generation : Z) : result CandidateUpdate :=
  CandidateUpdate_post_init {|
    payload := payload; source_round := source_round;
    source_version := source_version; cohort_epoch := cohort_epoch;
    cu_slot_generation := slot_generation; ready_round := ready_round;
    cu_buffer_generation := buffer_generation;
    cu_optimizer_state_generation := optimizer_state_generation;
    ready_event_id := "logical-ready"; numerically_valid := true;
    memory_reservation_bytes := 0 |}.

Record PublicationDelay := {
  pd_source_round : Z;
  intrinsic_ready_round : Z;
  pd_publication_round : Z;
  extra_logical_rounds : Z;
}.

Definition intrinsic_pipeline_rounds (d : PublicationDelay) : Z :=
  intrinsic_ready_round d - pd_source_round d.

(** [publication_round]: [None] is the static policy. *)
Definition publication_round (policy : MethodPolicy) (candidate : CandidateUpdate)
    (stride extra_logical_delay : Z) : result (option Z) :=
  match policy with
  | STATIC => Ok None
  | _ =>
    raise_if (stride <? 1) (ValueError "stride must be positive") ;;
    raise_if (extra_logical_delay <? 0)
      (ValueError "extra logical delay must be non-negative") ;;
    let delayed_ready := ready_round candidate + extra_logical_delay in
    match policy with
    | FIRST_READY_BOUNDARY => Ok (Some delayed_ready)
    | _ =>
      let next_boundary := (source_round candidate / stride + 1) * stride in
      Ok (Some (Z.max delayed_ready next_boundary))
    end
  end.

Definition publication_delay (policy : MethodPolicy) (candidate : CandidateUpdate)
    (stride extra_logical_delay : Z) : result (option PublicationDelay) :=
  published <-! publication_round policy candidate stride extra_logical_delay ;;
  match published with
  | None => Ok None
  | Some published => Ok (Some {|
      pd_source_round := source_round candidate;
      intrinsic_ready_round := ready_round candidate;
      pd_publication_round := published;
      extra_logical_rounds := published - ready_round candidate |})
  end.

(** [CandidateReplayBinding] and [assert_candidate_equivalence].  Equality of
    payloads is equality of the tensors, a parameter of the model. *)
Record CandidateReplayBinding := {
  rb_candidate : CandidateUpdate;
  source_state_sha256 : string;
  proposal_evidence_sha256 : string;
}.

Definition new_CandidateReplayBinding (c : CandidateUpdate) (state evidence : string)
    : result CandidateReplayBinding :=
  _ <-! require_sha256 state ;;
  _ <-! require_sha256 evidence ;;
  Ok {| rb_candidate := c; source_state_sha256 := state;
        proposal_evidence_sha256 := evidence |}.

Context `{EqDecision tensor}.
#[global] Instance CandidateUpdate_eq_dec : EqDecision CandidateUpdate.
Proof. solve_decision. Defined.

Definition assert_candidate_equivalence (left right : CandidateReplayBinding)
    : result unit :=
  raise_if (negb (bool_decide (source_state_sha256 left = source_state_sha256 right)))
    (ValueError "candidate equivalence requires identical replay source-state digests") ;;
  raise_if (negb (bool_decide (proposal_evidence_sha256 left = proposal_evidence_sha256 right)))
    (ValueError "candidate equivalence requires identical proposal-evidence digests") ;;
  raise_if (negb (bool_decide (rb_candidate left = rb_candidate right)))
    (ValueError "controlled replay produced different candidate updates") ;;
  Ok tt.
End candidates.

Arguments CandidateUpdate tensor : clear implicits.
Arguments CandidateReplayBinding tensor : clear implicits.

(** ** Terminations *)
Inductive Outcome : Set := published | discarded.
#[export] Instance Outcome_eq_dec : EqDecision Outcome.
Proof. solve_decision. Defined.

(** A candidate object is compared with [is]; [obj_id] is its identity and
    [obj] its (frozen) content. *)
Record object (A : Type) := Obj { obj_id : nat; obj : A }.
Arguments Obj {A} obj_id obj.
Arguments obj_id {A} o.
Arguments obj {A} o.

Record CandidateTermination (tensor : Type) := {
  ct_candidate : object (CandidateUpdate tensor);
  ct_outcome : Outcome;
  ct_reason : string;
  published_version : option Z;
}.
Arguments ct_candidate {tensor}.
Arguments ct_outcome {tensor}.
Arguments ct_reason {tensor}.
Arguments published_version {tensor}.

(** [CandidateTermination.__post_init__] and constructor. *)
Definition new_CandidateTermination {tensor} (c : object (CandidateUpdate tensor))
    (outcome : Outcome) (reason : string) (version : option Z)
    : result (CandidateTermination tensor) :=
  raise_if (string_empty reason)
    (ValueError "candidate termination requires a reason code") ;;
  raise_if (bool_decide (outcome = published) && bool_decide (version = None))
    (ValueError "published candidate requires its committed version") ;;
  raise_if (bool_decide (outcome = discarded) && negb (bool_decide (version = None)))
    (ValueError "discarded candidate cannot carry a published version") ;;
  Ok {| ct_candidate := c; ct_outcome := outcome; ct_reason := reason;
        published_version := version |}.

(** ** Properties *)
Section properties.
Context {tensor : Type}.
Implicit Types c : CandidateUpdate tensor.

Lemma policy_for_value p : policy_for (MethodPolicy_value p) = Ok p.
Proof. by destruct p. Qed.

Lemma post_init_Ok c c' :
  CandidateUpdate_post_init c = Ok c' →
  c' = c ∧ payload c ≠ [] ∧ 0 <= source_round c <= ready_round c.
Proof.
  unfold CandidateUpdate_post_init. cbn.
  repeat (case_match; [done|]). intros [= <-]. bools. split_and!; [done| |lia..].
  by destruct (payload c).
Qed.

(** The next multiple of [stride] after the source round. *)
Lemma next_boundary_spec r stride :
  1 <= stride →
  let b := (r / stride + 1) * stride in
  r < b ∧ (∃ k, b = k * stride) ∧ ∀ k, r < k * stride → b <= k * stride.
Proof.
  intros Hs b. subst b.
  pose proof (Z.div_mod r stride ltac:(lia)). pose proof (Z.mod_pos_bound r stride ltac:(lia)).
  split_and!; [nia|by eexists|]. intros k Hk.
  apply Z.mul_le_mono_nonneg_r; [lia|]. nia.
Qed.

Lemma fixed_barrier_round c stride delay r :
  publication_round FIXED_BARRIER c stride delay = Ok (Some r) →
  1 <= stride ∧ 0 <= delay
  ∧ r = Z.max (ready_round c + delay) ((source_round c / stride + 1) * stride).
Proof. cbn. split_cases. intros [= <-]. bools. lia. Qed.

(** The publication round of a valid candidate.  The first-ready policy
    publishes when the delayed candidate is ready.  The fixed-barrier policy
    publishes at the least round that is no earlier than that and has a
    multiple of the stride after the source round behind it; so it is never
    earlier than the first-ready policy.  Under both, the pipeline delay and
    the extra delay add up to the distance from the source round, and the
    extra delay is at least the requested one. *)
Theorem publication_round_exact c stride delay :
  1 <= stride → 0 <= delay → CandidateUpdate_post_init c = Ok c →
  ∃ first barrier,
    publication_round FIRST_READY_BOUNDARY c stride delay = Ok (Some first) ∧
    publication_round FIXED_BARRIER c stride delay = Ok (Some barrier) ∧
    first = ready_round c + delay ∧
    (first <= barrier ∧ ∃ k, source_round c < k * stride <= barrier) ∧
    (∀ r, first <= r → (∃ k, source_round c < k * stride <= r) → barrier <= r) ∧
    ∀ policy d, publication_delay policy c stride delay = Ok (Some d) →
      0 <= intrinsic_pipeline_rounds d ∧ delay <= extra_logical_rounds d ∧
      intrinsic_pipeline_rounds d + extra_logical_rounds d
        = pd_publication_round d - source_round c.
Proof.
  intros Hs Hd (_ & _ & Hr)%post_init_Ok.
  destruct (next_boundary_spec (source_round c) stride Hs) as (Hb & [k Hk] & Hleast).
  unfold publication_delay, publication_round, intrinsic_pipeline_rounds.
  replace (stride <? 1) with false by lia. replace (delay <? 0) with false by lia.
  eexists _, _. split; [reflexivity|]. split; [reflexivity|]. split; [done|].
  split; [split; [lia|exists k; lia]|]. split.
  - intros r Hf (j & Hj & Hjr). specialize (Hleast j Hj). lia.
  - intros [] d; [done|..]; intros [= <-]; cbn; lia.
Qed.
End properties.

(** A candidate made and ready at round 5, under stride 4 and one round of
    delay: round 6 under the first-ready policy, round 8 under the barrier. *)
Definition demo_candidate : CandidateUpdate nat := {|
  payload := [1%nat]; source_round := 5; source_version := 0; cohort_epoch := 0;
  cu_slot_generation := 0; ready_round := 5; cu_buffer_generation := 0;
  cu_optimizer_state_generation := 0; ready_event_id := "logical-ready";
  numerically_valid := true; memory_reservation_bytes := 0 |}.

Lemma publication_round_exact_witness :
  CandidateUpdate_post_init demo_candidate = Ok demo_candidate ∧
  publication_round FIRST_READY_BOUNDARY demo_candidate 4 1 = Ok (Some 6) ∧
  publication_round FIXED_BARRIER demo_candidate 4 1 = Ok (Some 8) ∧
  ∀ r, 6 <= r → (∃ k, 5 < k * 4 <= r) → 8 <= r.
Proof.
  split; [reflexivity|]. split; [reflexivity|]. split; [reflexivity|].
  destruct (publication_round_exact demo_candidate 4 1) as (f & b & Hf & Hb & _ & _ & Hl & _);
    [lia..|reflexivity|].
  cbn in Hf, Hb. injection Hf as <-. injection Hb as <-. exact Hl.
Defined.
