(* ===== verification/Cohort.v ===== *)
(** * Cohort runtime ([adaptation/cohort.py])

    [CohortIdentity], [SupervisionSignal], [LatestSignalBatch] and the host-side
    protocol state [CohortRuntime], one definition per method.  A method that
    mutates the runtime has type [CohortRuntime → result A * CohortRuntime]; the
    returned state is the receiver after the call, also when it raises.

    Candidates are compared with [is].  The runtime record carries [next_id], the
    next fresh object identity; [begin_candidate] allocates one. *)
From S2P Require Import Prelude PyFloat Hashlib Methods.

(** ** Identity *)
Record CohortIdentity := {
  target_revision : string;
  drafter_revision : string;
  algorithm : string;
  sampling_profile_sha256 : string;
  adaptation_group_id : string;
  tenant_id : string;
  update_mode : string;
  parameter_scope : string;
  parameter_layout_sha256 : string;
  optimizer_identity : string;
}.

(** [CohortIdentity.__post_init__]; the two loops raise on the first bad field. *)
Definition CohortIdentity_post_init (i : CohortIdentity) : result CohortIdentity :=
  raise_if (negb (is_hash 40 (target_revision i)))
    (ValueError "target_revision must be a lowercase immutable hash") ;;
  raise_if (negb (is_hash 40 (drafter_revision i)))
    (ValueError "drafter_revision must be a lowercase immutable hash") ;;
  raise_if (negb (is_hash 64 (sampling_profile_sha256 i)))
    (ValueError "sampling_profile_sha256 must be a lowercase immutable hash") ;;
  raise_if (negb (is_hash 64 (parameter_layout_sha256 i)))
    (ValueError "parameter_layout_sha256 must be a lowercase immutable hash") ;;
  raise_if (string_empty (algorithm i)) (ValueError "algorithm must be non-empty") ;;
  raise_if (string_empty (adaptation_group_id i))
    (ValueError "adaptation_group_id must be non-empty") ;;
  raise_if (string_empty (tenant_id i)) (ValueError "tenant_id must be non-empty") ;;
  raise_if (string_empty (update_mode i)) (ValueError "update_mode must be non-empty") ;;
  raise_if (string_empty (parameter_scope i))
    (ValueError "parameter_scope must be non-empty") ;;
  raise_if (string_empty (optimizer_identity i))
    (ValueError "optimizer_identity must be non-empty") ;;
  Ok i.

(** [CohortIdentity.sha256]: the digest of [__dict__]. *)
Definition CohortIdentity_json (i : CohortIdentity) : json := JObj [
  ("target_revision", JStr (target_revision i));
  ("drafter_revision", JStr (drafter_revision i));
  ("algorithm", JStr (algorithm i));
  ("sampling_profile_sha256", JStr (sampling_profile_sha256 i));
  ("adaptation_group_id", JStr (adaptation_group_id i));
  ("tenant_id", JStr (tenant_id i));
  ("update_mode", JStr (update_mode i));
  ("parameter_scope", JStr (parameter_scope i));
  ("parameter_layout_sha256", JStr (parameter_layout_sha256 i));
  ("optimizer_identity", JStr (optimizer_identity i))].

Definition CohortIdentity_sha256 (i : CohortIdentity) : string :=
  content_digest (CohortIdentity_json i).

Section cohort.
Context {tensor : Type}.
Abbreviation candidate := (object (CandidateUpdate tensor)).

(** ** Supervision signals *)
Record SupervisionSignal := {
  cohort_sha256 : string;
  request_id : string;
  sequence_number : Z;
  sig_source_version : Z;
  sig_slot_generation : Z;
  sig_tensors : list tensor;
  valid_positions : Z;
}.

Definition SupervisionSignal_post_init (g : SupervisionSignal) : result SupervisionSignal :=
  raise_if (negb (is_hash 64 (cohort_sha256 g)))
    (ValueError "cohort_sha256 must be a lowercase SHA-256") ;;
  raise_if (string_empty (request_id g)) (ValueError "request_id must be non-empty") ;;
  raise_if ((sequence_number g <? 0) || (sig_source_version g <? 0)
            || (sig_slot_generation g <? 0) || (valid_positions g <? 1))
    (ValueError "signal counters are outside their valid range") ;;
  raise_if (match sig_tensors g with [] => true | _ => false end)
    (ValueError "supervision signal tensors must be non-empty") ;;
  Ok g.

(** [LatestSignalBatch]: a dict from request to its newest signal. *)
Record LatestSignalBatch := {
  lsb_cohort_sha256 : string;
  lsb_signals : gmap string SupervisionSignal;
}.
Definition new_LatestSignalBatch (cohort : string) : LatestSignalBatch :=
  {| lsb_cohort_sha256 := cohort; lsb_signals := ∅ |}.

Definition offer (g : SupervisionSignal) (b : LatestSignalBatch)
    : result bool * LatestSignalBatch :=
  raise_in b if (negb (bool_decide (cohort_sha256 g = lsb_cohort_sha256 b)))
    (ValueError "cross-cohort supervision is forbidden") ;;
  if (match lsb_signals b !! request_id g with
      | Some previous => sequence_number g <=? sequence_number previous
      | None => false
      end)
  then (Ok false, b)
  else (Ok true, {| lsb_cohort_sha256 := lsb_cohort_sha256 b;
                    lsb_signals := <[request_id g := g]> (lsb_signals b) |}).

Definition signal_key (g : SupervisionSignal) : string * Z :=
  (request_id g, sequence_number g).

Definition drain (b : LatestSignalBatch)
    : (list SupervisionSignal * pyfloat) * LatestSignalBatch :=
  if decide (lsb_signals b = ∅) then (([], fzero), b)
  else
    let ordered := sorted_by signal_key (map snd (map_to_list (lsb_signals b))) in
    ((ordered, fdiv (float_of_Z 1) (float_of_Z (Z.of_nat (length ordered)))),
     {| lsb_cohort_sha256 := lsb_cohort_sha256 b; lsb_signals := ∅ |}).

Definition discard_request (request : string) (b : LatestSignalBatch) : LatestSignalBatch :=
  {| lsb_cohort_sha256 := lsb_cohort_sha256 b;
     lsb_signals := delete request (lsb_signals b) |}.

(** ** The runtime *)
Record CohortRuntime := {
  identity : CohortIdentity;
  epoch : Z;
  active_version : Z;
  slot_generation : Z;
  buffer_generation : Z;
  optimizer_state_generation : Z;
  signals : LatestSignalBatch;
  in_flight : option candidate;
  disabled_reason : option string;
  last_termination : option (CandidateTermination tensor);
  next_id : nat;
}.

(** [CohortRuntime(identity)] with [__post_init__]. *)
Definition new_CohortRuntime (i : CohortIdentity) : CohortRuntime := {|
  identity := i; epoch := 0; active_version := 0; slot_generation := 0;
  buffer_generation := 0; optimizer_state_generation := 0;
  signals := new_LatestSignalBatch (CohortIdentity_sha256 i);
  in_flight := None; disabled_reason := None; last_termination := None;
  next_id := 0 |}.

Definition enabled (s : CohortRuntime) : bool := bool_decide (disabled_reason s = None).

(** Field assignments. *)
Definition set_signals (b : LatestSignalBatch) (s : CohortRuntime) : CohortRuntime := {|
  identity := identity s; epoch := epoch s; active_version := active_version s;
  slot_generation := slot_generation s; buffer_generation := buffer_generation s;
  optimizer_state_generation := optimizer_state_generation s; signals := b;
  in_flight := in_flight s; disabled_reason := disabled_reason s;
  last_termination := last_termination s; next_id := next_id s |}.
Definition set_disabled (r : option string) (s : CohortRuntime) : CohortRuntime := {|
  identity := identity s; epoch := epoch s; active_version := active_version s;
  slot_generation := slot_generation s; buffer_generation := buffer_generation s;
  optimizer_state_generation := optimizer_state_generation s; signals := signals s;
  in_flight := in_flight s; disabled_reason := r;
  last_termination := last_termination s; next_id := next_id s |}.
Definition set_flight (c : option candidate) (t : option (CandidateTermination tensor))
    (n : nat) (s : CohortRuntime) : CohortRuntime := {|
  identity := identity s; epoch := epoch s; active_version := active_version s;
  slot_generation := slot_generation s; buffer_generation := buffer_generation s;
  optimizer_state_generation := optimizer_state_generation s; signals := signals s;
  in_flight := c; disabled_reason := disabled_reason s;
  last_termination := t; next_id := n |}.
Definition set_counters (ep ver slot buf opt : Z) (s : CohortRuntime) : CohortRuntime := {|
  identity := identity s; epoch := ep; active_version := ver;
  slot_generation := slot; buffer_generation := buf;
  optimizer_state_generation := opt; signals := signals s;
  in_flight := in_flight s; disabled_reason := disabled_reason s;
  last_termination := last_termination s; next_id := next_id s |}.

Definition offer_signal (g : SupervisionSignal) (s : CohortRuntime)
    : result bool * CohortRuntime :=
  if negb (enabled s) then (Ok false, s)
  else if negb (sig_source_version g =? active_version s) then (Ok false, s)
  else if negb (sig_slot_generation g =? slot_generation s) then (Ok false, s)
  else let '(r, b) := offer g (signals s) in (r, set_signals b s).

Definition begin_candidate (payload : list tensor) (source_round ready_round : Z)
    (s : CohortRuntime) : result candidate * CohortRuntime :=
  match disabled_reason s with
  | Some reason => (Raise (RuntimeError ("cohort adaptation disabled: " +:+ reason)), s)
  | None =>
    raise_in s if (negb (bool_decide (in_flight s = None))) (RuntimeError "max_in_flight=1") ;;
    match new_CandidateUpdate payload source_round (active_version s) (epoch s)
            (slot_generation s) ready_round (buffer_generation s)
            (optimizer_state_generation s) with
    | Raise e => (Raise e, s)
    | Ok c =>
        let candidate := Obj (next_id s) c in
        (Ok candidate, set_flight (Some candidate) (last_termination s) (S (next_id s)) s)
    end
  end.

(** [candidate is self.in_flight]. *)
Definition is_in_flight (c : candidate) (s : CohortRuntime) : bool :=
  bool_decide (obj_id <$> in_flight s = Some (obj_id c)).

Definition can_publish (c : candidate) (policy : MethodPolicy)
    (current_round stride extra_logical_delay : Z) (s : CohortRuntime)
    : result (bool * string) :=
  raise_if (stride <? 1) (ValueError "stride must be positive") ;;
  if negb (is_in_flight c s) then Ok (false, "not_active_candidate")
  else if negb (cohort_epoch (obj c) =? epoch s) then Ok (false, "stale_epoch")
  else if negb (cu_slot_generation (obj c) =? slot_generation s)
    then Ok (false, "stale_slot_generation")
  else if negb (source_version (obj c) =? active_version s)
    then Ok (false, "source_version_conflict")
  else if negb (cu_buffer_generation (obj c) =? buffer_generation s)
    then Ok (false, "stale_buffer_generation")
  else if negb (cu_optimizer_state_generation (obj c) =? optimizer_state_generation s)
    then Ok (false, "stale_optimizer_state_generation")
  else if negb (numerically_valid (obj c)) then Ok (false, "nonfinite_candidate")
  else if current_round <? ready_round (obj c) then Ok (false, "side_stream_not_ready")
  else if bool_decide (policy = STATIC) then Ok (false, "static_disabled")
  else
    boundary <-! publication_round policy (obj c) stride extra_logical_delay ;;
    match boundary with
    | None => Ok (false, "static_disabled")
    | Some boundary =>
      if current_round <? boundary then
        if current_round <? ready_round (obj c) + extra_logical_delay
        then Ok (false, "waiting_extra_logical_delay")
        else Ok (false, "waiting_fixed_boundary")
      else Ok (true, "ready")
    end.

Definition terminate (c : candidate) (outcome : Outcome) (reason : string)
    (version : option Z) (s : CohortRuntime)
    : result (CandidateTermination tensor) * CohortRuntime :=
  raise_in s if (match last_termination s with
                 | Some t => (obj_id (ct_candidate t) =? obj_id c)%nat
                 | None => false end)
    (RuntimeError "candidate was already terminated") ;;
  raise_in s if (negb (is_in_flight c s)) (RuntimeError "candidate is not active") ;;
  match new_CandidateTermination c outcome reason version with
  | Raise e => (Raise e, s)
  | Ok t => (Ok t, set_flight None (Some t) (next_id s) s)
  end.

Definition commit (c : candidate) (policy : MethodPolicy)
    (current_round stride extra_logical_delay : Z) (s : CohortRuntime)
    : result Z * CohortRuntime :=
  match can_publish c policy current_round stride extra_logical_delay s with
  | Raise e => (Raise e, s)
  | Ok (allowed, reason) =>
    raise_in s if (negb allowed)
      (RuntimeError ("candidate lacks publication authority: " +:+ reason)) ;;
    let s := set_counters (epoch s) (active_version s + 1) (slot_generation s)
               (buffer_generation s) (optimizer_state_generation s + 1) s in
    _ @ s <-! terminate c published "committed" (Some (active_version s)) s ;;
    (Ok (active_version s), s)
  end.

Definition discard (c : candidate) (reason : string) (s : CohortRuntime)
    : result (CandidateTermination tensor) * CohortRuntime :=
  terminate c discarded reason None s.

(** [if self.in_flight is not None: self.discard(self.in_flight, reason)]. *)
Definition discard_in_flight (reason : string) (s : CohortRuntime)
    : result unit * CohortRuntime :=
  match in_flight s with
  | None => (Ok tt, s)
  | Some c => _ @ s <-! discard c reason s ;; (Ok tt, s)
  end.

Definition cancel_request (request : string) (s : CohortRuntime)
    : result unit * CohortRuntime :=
  let s := set_signals (discard_request request (signals s)) s in
  _ @ s <-! discard_in_flight "request_cancelled" s ;;
  (Ok tt, set_counters (epoch s) (active_version s) (slot_generation s + 1)
            (buffer_generation s + 1) (optimizer_state_generation s) s).

Definition reset (s : CohortRuntime) : result unit * CohortRuntime :=
  _ @ s <-! discard_in_flight "cohort_reset" s ;;
  let s := set_counters (epoch s + 1) 0 (slot_generation s + 1)
             (buffer_generation s + 1) 0 s in
  (Ok tt, set_disabled None
            (set_signals (new_LatestSignalBatch (CohortIdentity_sha256 (identity s))) s)).

Definition disable (reason : string) (s : CohortRuntime) : result unit * CohortRuntime :=
  raise_in s if (string_empty reason)
    (ValueError "disabled cohorts require an evidence reason") ;;
  _ @ s <-! discard_in_flight reason s ;;
  (Ok tt, set_disabled (Some reason) s).

(** The owner drains the batch with [runtime.signals.drain()]. *)
Definition drain_signals (s : CohortRuntime)
    : (list SupervisionSignal * pyfloat) * CohortRuntime :=
  let '(r, b) := drain (signals s) in (r, set_signals b s).
End cohort.

Arguments SupervisionSignal tensor : clear implicits.
Arguments LatestSignalBatch tensor : clear implicits.
Arguments CohortRuntime tensor : clear implicits.

(** ** Reachable states

    An operation is a method call on the runtime.  A reference passed by the
    caller may be any candidate object; an object with the identity of the one
    in flight is that object. *)
Inductive cohort_op (tensor : Type) :=
  | OpOffer (g : SupervisionSignal tensor)
  | OpBegin (payload : list tensor) (source_round ready_round : Z)
  | OpCommit (c : object (CandidateUpdate tensor)) (policy : MethodPolicy)
      (current_round stride delay : Z)
  | OpDiscard (c : object (CandidateUpdate tensor)) (reason : string)
  | OpCancel (request : string)
  | OpReset
  | OpDisable (reason : string)
  | OpDrain.
Arguments OpOffer {tensor}. Arguments OpBegin {tensor}. Arguments OpCommit {tensor}.
Arguments OpDiscard {tensor}. Arguments OpCancel {tensor}. Arguments OpReset {tensor}.
Arguments OpDisable {tensor}. Arguments OpDrain {tensor}.

Definition run_op {tensor} (o : cohort_op tensor) (s : CohortRuntime tensor)
    : CohortRuntime tensor :=
  match o with
  | OpOffer g => (offer_signal g s).2
  | OpBegin p sr rr => (begin_candidate p sr rr s).2
  | OpCommit c pol cur st d => (commit c pol cur st d s).2
  | OpDiscard c r => (discard c r s).2
  | OpCancel r => (cancel_request r s).2
  | OpReset => (reset s).2
  | OpDisable r => (disable r s).2
  | OpDrain => (drain_signals s).2
  end.

Section invariants.
Context {tensor : Type}.
Implicit Types (s : CohortRuntime tensor) (c : object (CandidateUpdate tensor)).

Definition ref_ok c s : Prop :=
  ∀ c', in_flight s = Some c' → obj_id c = obj_id c' → c = c'.
Definition op_ok (o : cohort_op tensor) s : Prop :=
  match o with OpCommit c _ _ _ _ | OpDiscard c _ => ref_ok c s | _ => True end.

Inductive cohort_step s : CohortRuntime tensor → Prop :=
  | cohort_step_op o : op_ok o s → cohort_step s (run_op o s).

Definition cohort_reachable (i : CohortIdentity) s : Prop :=
  rtc cohort_step (new_CohortRuntime i) s.

(** The candidate in flight was made by [begin_candidate] from the counters
    the runtime still has. *)
Record flight_ok s c : Prop := {
  fl_epoch : cohort_epoch (obj c) = epoch s;
  fl_slot : cu_slot_generation (obj c) = slot_generation s;
  fl_version : source_version (obj c) = active_version s;
  fl_buffer : cu_buffer_generation (obj c) = buffer_generation s;
  fl_optimizer : cu_optimizer_state_generation (obj c) = optimizer_state_generation s;
  fl_valid : numerically_valid (obj c) = true;
  fl_rounds : 0 <= source_round (obj c) <= ready_round (obj c);
  fl_fresh : (obj_id c < next_id s)%nat;
  fl_enabled : disabled_reason s = None;
}.

Record cohort_inv s : Prop := {
  inv_counters : 0 <= epoch s ∧ 0 <= active_version s ∧ 0 <= slot_generation s
    ∧ 0 <= buffer_generation s ∧ 0 <= optimizer_state_generation s;
  inv_flight c : in_flight s = Some c → flight_ok s c;
  inv_last t : last_termination s = Some t → (obj_id (ct_candidate t) < next_id s)%nat;
  inv_last_flight t c : last_termination s = Some t → in_flight s = Some c →
    obj_id (ct_candidate t) ≠ obj_id c;
  inv_batch : lsb_cohort_sha256 (signals s) = CohortIdentity_sha256 (identity s);
  inv_signals r g : lsb_signals (signals s) !! r = Some g →
    request_id g = r ∧ cohort_sha256 g = CohortIdentity_sha256 (identity s)
    ∧ sig_source_version g <= active_version s
    ∧ sig_slot_generation g <= slot_generation s;
}.

Lemma is_in_flight_true c s :
  is_in_flight c s = true ↔ ∃ c', in_flight s = Some c' ∧ obj_id c' = obj_id c.
Proof.
  unfold is_in_flight. rewrite bool_decide_eq_true. destruct (in_flight s); cbn; naive_solver.
Qed.

Lemma new_CohortRuntime_inv i : cohort_inv (new_CohortRuntime i).
Proof. split; cbn; try done; lia. Qed.

Lemma terminate_active c outcome reason version s :
  cohort_inv s → in_flight s = Some c → string_empty reason = false →
  (outcome = published ↔ version ≠ None) →
  terminate c outcome reason version s
  = let t := {| ct_candidate := c; ct_outcome := outcome; ct_reason := reason;
                published_version := version |} in
    (Ok t, set_flight None (Some t) (next_id s) s).
Proof.
  intros Hs Hc Hr Hv. unfold terminate.
  destruct (last_termination s) as [t|] eqn:Ht.
  - rewrite (proj2 (Nat.eqb_neq _ _)) by by eapply inv_last_flight.
    rewrite (proj2 (is_in_flight_true c s)) by eauto. cbn.
    unfold new_CandidateTermination. rewrite Hr. destruct outcome, version; naive_solver.
  - rewrite (proj2 (is_in_flight_true c s)) by eauto. cbn.
    unfold new_CandidateTermination. rewrite Hr. destruct outcome, version; naive_solver.
Qed.

(** What [discard_in_flight] leaves in [last_termination]. *)
Definition discard_record (reason : string) s : option (CandidateTermination tensor) :=
  match in_flight s with
  | None => last_termination s
  | Some c => Some {| ct_candidate := c; ct_outcome := discarded; ct_reason := reason;
                      published_version := None |}
  end.

Lemma discard_in_flight_ok reason s :
  cohort_inv s → string_empty reason = false →
  discard_in_flight reason s
  = (Ok tt, set_flight None (discard_record reason s) (next_id s) s).
Proof.
  intros Hs Hr. unfold discard_in_flight, discard_record, discard.
  destruct (in_flight s) as [c|] eqn:Hc.
  - by rewrite (terminate_active c).
  - destruct s; cbn in *. by subst.
Qed.

Lemma discard_record_fresh reason s t :
  cohort_inv s → discard_record reason s = Some t → (obj_id (ct_candidate t) < next_id s)%nat.
Proof.
  intros Hs. unfold discard_record. destruct (in_flight s) as [c|] eqn:Hc.
  - intros [= <-]. by eapply fl_fresh, inv_flight.
  - by apply inv_last.
Qed.

Lemma inv_set_flight_none s t' :
  cohort_inv s → (∀ t, t' = Some t → (obj_id (ct_candidate t) < next_id s)%nat) →
  cohort_inv (set_flight None t' (next_id s) s).
Proof. intros [] Ht. by split. Qed.

(** Advancing counters while nothing is in flight. *)
Lemma inv_set_counters s ep ver slot buf opt :
  cohort_inv s → in_flight s = None →
  0 <= ep → 0 <= buf → 0 <= opt → active_version s <= ver → slot_generation s <= slot →
  cohort_inv (set_counters ep ver slot buf opt s).
Proof.
  intros [] Hn **. split; cbn; try done.
  - lia.
  - by rewrite Hn.
  - intros r g Hg. destruct (inv_signals0 r g Hg) as (?&?&?&?). split_and!; [done..|lia|lia].
Qed.

Lemma inv_set_signals s b :
  cohort_inv s → lsb_cohort_sha256 b = lsb_cohort_sha256 (signals s) →
  (∀ r g, lsb_signals b !! r = Some g → request_id g = r
    ∧ cohort_sha256 g = lsb_cohort_sha256 (signals s)
    ∧ sig_source_version g <= active_version s ∧ sig_slot_generation g <= slot_generation s) →
  cohort_inv (set_signals b s).
Proof.
  intros [] Hb Hg. split; cbn; try done; [|congruence|].
  - intros c Hc. by destruct (inv_flight0 c Hc).
  - rewrite <- inv_batch0. apply Hg.
Qed.

Lemma inv_signals_sub s b :
  cohort_inv s → lsb_cohort_sha256 b = lsb_cohort_sha256 (signals s) →
  lsb_signals b ⊆ lsb_signals (signals s) → cohort_inv (set_signals b s).
Proof.
  intros Hs Hb Hsub. apply inv_set_signals; [done..|]. intros r g Hg.
  rewrite (inv_batch s Hs). eapply inv_signals; [done|]. by eapply lookup_weaken.
Qed.

Lemma drain_batch (b : LatestSignalBatch tensor) : (drain b).2 = new_LatestSignalBatch (lsb_cohort_sha256 b).
Proof.
  unfold drain, new_LatestSignalBatch. case_decide as Hb; cbn; [|done].
  destruct b; cbn in *. by subst.
Qed.

Lemma offer_cases (g : SupervisionSignal tensor) b :
  (offer g b).2 = b
  ∨ cohort_sha256 g = lsb_cohort_sha256 b
    ∧ (offer g b).2 = {| lsb_cohort_sha256 := lsb_cohort_sha256 b;
                         lsb_signals := <[request_id g := g]> (lsb_signals b) |}.
Proof.
  unfold offer. destruct (bool_decide _) eqn:Hc; cbn [negb]; [|by left]. bools.
  destruct (lsb_signals b !! request_id g); [destruct (_ <=? _)|]; cbn; auto.
Qed.

Lemma offer_signal_inv g s : cohort_inv s → cohort_inv (offer_signal g s).2.
Proof.
  intros Hs. unfold offer_signal.
  destruct (enabled s), (sig_source_version g =? active_version s) eqn:Hv,
    (sig_slot_generation g =? slot_generation s) eqn:Hsl; cbn [negb]; try done. bools.
  pose proof (offer_cases g (signals s)) as Ho.
  destruct (offer g (signals s)) as [r b]; cbn in *.
  destruct Ho as [->|[Hc ->]]; [by apply inv_signals_sub|].
  apply inv_set_signals; [done..|]. cbn. intros r' g'.
  rewrite lookup_insert. case_decide as Hr; [intros [= <-]|].
  - split_and!; [done|done|lia|lia].
  - intros Hg. rewrite (inv_batch s Hs). by eapply inv_signals.
Qed.

(** Offering only touches the queued signals. *)
Lemma offer_signal_frame g s : ∃ b, (offer_signal g s).2 = set_signals b s.
Proof.
  unfold offer_signal. destruct (offer g (signals s)) as [r b].
  assert (s = set_signals (signals s) s) as Es by by destruct s.
  repeat case_match; eauto.
Qed.

Lemma begin_candidate_inv p sr rr s : cohort_inv s → cohort_inv (begin_candidate p sr rr s).2.
Proof.
  intros Hs. unfold begin_candidate. destruct (disabled_reason s) eqn:Hd; [done|].
  case_match; [done|]. bools. destruct (new_CandidateUpdate _ _ _ _ _ _ _ _) as [c|] eqn:Hc; [|done].
  unfold new_CandidateUpdate in Hc. apply post_init_Ok in Hc as (-> & Hp & Hr).
  destruct Hs. split; cbn; try done.
  - intros c [= <-]. by split; cbn in *; try done; lia.
  - intros t Ht%inv_last0. lia.
  - intros t c Ht%inv_last0 [= <-]. cbn. lia.
Qed.

(** The two ways a call on a caller's reference can end. *)
Lemma discard_cases c reason s :
  cohort_inv s → ref_ok c s →
  (discard c reason s).2 = s
  ∨ in_flight s = Some c ∧ string_empty reason = false
    ∧ (discard c reason s).2 = set_flight None (discard_record reason s) (next_id s) s.
Proof.
  intros Hs Hc. destruct (is_in_flight c s) eqn:Hf.
  - apply is_in_flight_true in Hf as (c' & Hc' & Hid).
    rewrite <- (Hc c' Hc' (eq_sym Hid)) in Hc'.
    destruct (string_empty reason) eqn:Hr.
    + left. unfold discard, terminate.
      assert (new_CandidateTermination c discarded reason None
        = Raise (ValueError "candidate termination requires a reason code")) as ->.
      { unfold new_CandidateTermination. by rewrite Hr. }
      by split_cases.
    + right. split_and!; [done|done|]. unfold discard, discard_record.
      by rewrite (terminate_active c), Hc'.
  - left. unfold discard, terminate. rewrite Hf. by split_cases.
Qed.

(** [commit] either changes nothing or publishes the candidate in flight. *)
Lemma commit_cases c policy cur stride delay s :
  cohort_inv s → ref_ok c s →
  (∃ e, commit c policy cur stride delay s = (Raise e, s)
        ∧ can_publish c policy cur stride delay s ≠ Ok (true, "ready"))
  ∨ in_flight s = Some c ∧ can_publish c policy cur stride delay s = Ok (true, "ready")
    ∧ commit c policy cur stride delay s
      = (Ok (active_version s + 1),
         set_flight None (Some {| ct_candidate := c; ct_outcome := published;
           ct_reason := "committed"; published_version := Some (active_version s + 1) |})
           (next_id s)
           (set_counters (epoch s) (active_version s + 1) (slot_generation s)
              (buffer_generation s) (optimizer_state_generation s + 1) s)).
Proof.
  intros Hs Hc. unfold commit.
  destruct (can_publish c policy cur stride delay s) as [[[] reason]|e] eqn:Hp;
    [|left; eexists; split; [done|naive_solver]|left; eexists; split; [done|naive_solver]].
  right. cbn [negb].
  assert (is_in_flight c s = true ∧ reason = "ready") as [Hf ->].
  { unfold can_publish in Hp. split_cases_in Hp. by destruct (is_in_flight c s). }
  apply is_in_flight_true in Hf as (c' & Hc' & Hid).
  rewrite <- (Hc c' Hc' (eq_sym Hid)) in Hc'.
  split_and!; [done..|].
  set (s' := set_counters _ _ _ _ _ _).
  assert (Ht : terminate c published "committed" (Some (active_version s')) s'
    = let t := {| ct_candidate := c; ct_outcome := published; ct_reason := "committed";
                  published_version := Some (active_version s') |} in
      (Ok t, set_flight None (Some t) (next_id s') s')).
  { unfold terminate. destruct (last_termination s') as [t|] eqn:Ht.
    - rewrite (proj2 (Nat.eqb_neq _ _)) by (by eapply (inv_last_flight s)).
      by rewrite (proj2 (is_in_flight_true c s')) by eauto.
    - by rewrite (proj2 (is_in_flight_true c s')) by eauto. }
  by rewrite Ht.
Qed.

Lemma cancel_request_run request s :
  cohort_inv s →
  cancel_request request s
  = (Ok tt, set_counters (epoch s) (active_version s) (slot_generation s + 1)
       (buffer_generation s + 1) (optimizer_state_generation s)
       (set_flight None (discard_record "request_cancelled" s) (next_id s)
          (set_signals (discard_request request (signals s)) s))).
Proof.
  intros Hs. unfold cancel_request. rewrite discard_in_flight_ok; [done| |done].
  apply inv_signals_sub; [done|done|]. apply delete_subseteq.
Qed.

Lemma reset_run s :
  cohort_inv s →
  reset s
  = (Ok tt, set_disabled None
       (set_signals (new_LatestSignalBatch (CohortIdentity_sha256 (identity s)))
          (set_counters (epoch s + 1) 0 (slot_generation s + 1) (buffer_generation s + 1) 0
             (set_flight None (discard_record "cohort_reset" s) (next_id s) s)))).
Proof. intros Hs. unfold reset. by rewrite discard_in_flight_ok. Qed.

Lemma disable_run reason s :
  cohort_inv s → string_empty reason = false →
  disable reason s
  = (Ok tt, set_disabled (Some reason)
              (set_flight None (discard_record reason s) (next_id s) s)).
Proof. intros Hs Hr. unfold disable. by rewrite Hr, discard_in_flight_ok. Qed.

Lemma inv_discarded reason s :
  cohort_inv s → cohort_inv (set_flight None (discard_record reason s) (next_id s) s).
Proof. intros Hs. apply inv_set_flight_none; [done|]. intros t. by apply discard_record_fresh. Qed.

Lemma run_op_inv o s : cohort_inv s → op_ok o s → cohort_inv (run_op o s).
Proof.
  intros Hs Ho. destruct o as [g|p sr rr|c pol cur st d|c reason|request| |reason|]; cbn.
  - by apply offer_signal_inv.
  - by apply begin_candidate_inv.
  - destruct (commit_cases c pol cur st d s Hs Ho) as [(e & -> & _)|(Hc & _ & ->)]; [done|].
    destruct (inv_counters s Hs) as (?&?&?&?&?).
    apply (inv_set_counters (set_flight None _ (next_id s) s)); cbn; try done; try lia.
    apply inv_set_flight_none; [done|]. intros t [= <-]. by eapply fl_fresh, inv_flight.
  - destruct (discard_cases c reason s Hs Ho) as [->|(Hc & _ & ->)]; [done|].
    by apply inv_discarded.
  - rewrite cancel_request_run by done. destruct (inv_counters s Hs) as (?&?&?&?&?).
    apply inv_set_counters; cbn; try done; try lia.
    apply (inv_signals_sub (set_flight None _ (next_id s) s));
      [by apply inv_discarded|done|apply delete_subseteq].
  - rewrite reset_run by done. destruct (inv_counters s Hs) as (?&?&?&?&?).
    pose proof (inv_discarded "cohort_reset" s Hs) as [].
    split; cbn; try done. lia.
  - unfold disable. destruct (string_empty reason) eqn:Hr; [done|].
    rewrite discard_in_flight_ok by done.
    by destruct (inv_discarded reason s Hs); split.
  - unfold drain_signals. pose proof (drain_batch (signals s)) as Hb.
    destruct (drain (signals s)) as [r b]; cbn in *. subst b.
    apply inv_signals_sub; [done|done|]. apply map_empty_subseteq.
Qed.

Lemma reachable_inv i s : cohort_reachable i s → cohort_inv s.
Proof.
  intros Hr. apply (rtc_ind_r (R:=cohort_step) cohort_inv (new_CohortRuntime i)); [..|exact Hr].
  - apply new_CohortRuntime_inv.
  - intros s1 s2 _ [o Ho] IH. by apply run_op_inv.
Qed.

Lemma run_op_next_id o s : cohort_inv s → op_ok o s → (next_id s ≤ next_id (run_op o s))%nat.
Proof.
  intros Hs Ho. destruct o as [g|p sr rr|c pol cur st d|c reason|request| |reason|]; cbn.
  - by destruct (offer_signal_frame g s) as [b ->].
  - unfold begin_candidate. repeat (case_match; cbn; try lia).
  - by destruct (commit_cases c pol cur st d s Hs Ho) as [(e & -> & _)|(Hc' & _ & ->)].
  - by destruct (discard_cases c reason s Hs Ho) as [->|(Hc' & _ & ->)].
  - by rewrite cancel_request_run.
  - by rewrite reset_run.
  - unfold disable. destruct (string_empty reason) eqn:Hre; [done|].
    by rewrite discard_in_flight_ok.
  - unfold drain_signals. by destruct (drain (signals s)).
Qed.

(** Once [id] has been given out and is not in flight, it never is again. *)
Definition retired (id : nat) s : Prop :=
  (id < next_id s)%nat ∧ ∀ c, in_flight s = Some c → obj_id c ≠ id.

Lemma retired_step id s o :
  cohort_inv s → op_ok o s → retired id s → retired id (run_op o s).
Proof.
  intros Hs Ho [Hid Hf].
  destruct o as [g|p sr rr|c pol cur st d|c reason|request| |reason|]; cbn.
  - by destruct (offer_signal_frame g s) as [b ->].
  - unfold begin_candidate.
    destruct (disabled_reason s); [done|].
    destruct (negb (bool_decide (in_flight s = None))); [done|].
    destruct (new_CandidateUpdate _ _ _ _ _ _ _ _); [|done].
    split; cbn; [lia|]. intros c' [= <-]. cbn. lia.
  - by destruct (commit_cases c pol cur st d s Hs Ho) as [(e & -> & _)|(Hc & _ & ->)].
  - by destruct (discard_cases c reason s Hs Ho) as [->|(Hc & _ & ->)].
  - by rewrite cancel_request_run.
  - by rewrite reset_run.
  - unfold disable. destruct (string_empty reason) eqn:Hr; [done|].
    by rewrite discard_in_flight_ok.
  - unfold drain_signals. by destruct (drain (signals s)).
Qed.

Lemma retired_steps id s s' :
  cohort_inv s → retired id s → rtc cohort_step s s' → cohort_inv s' ∧ retired id s'.
Proof.
  intros Hs Hid Hr. apply (rtc_ind_r (R:=cohort_step) (λ s, cohort_inv s ∧ retired id s) s); [done| |done].
  intros s1 s2 _ [o Ho] [Hs1 Hid1]. split; [by apply run_op_inv | by apply retired_step].
Qed.
End invariants.

(** ** The latest-signal batch *)
Section latest.
Context {tensor : Type}.
Implicit Types (g : SupervisionSignal tensor) (gs : list (SupervisionSignal tensor)).

(** [g] is the newest signal of its request in the order offered: later than
    every earlier one, at least as new as every later one. *)
Definition latest_in gs g : Prop := ∃ pre post, gs = pre ++ g :: post
  ∧ (∀ g', g' ∈ pre → request_id g' = request_id g → sequence_number g' < sequence_number g)
  ∧ (∀ g', g' ∈ post → request_id g' = request_id g → sequence_number g' <= sequence_number g).

Lemma latest_in_snoc gs x g :
  latest_in (gs ++ [x]) g ↔
    (g = x ∧ ∀ g', g' ∈ gs → request_id g' = request_id x → sequence_number g' < sequence_number x)
    ∨ (latest_in gs g ∧ (request_id x = request_id g → sequence_number x <= sequence_number g)).
Proof.
  split.
  - intros (pre & post & E & Hpre & Hpost).
    destruct post as [|y post _] using rev_ind.
    + apply app_inj_tail in E as [-> ->]. by left.
    + rewrite app_comm_cons, app_assoc in E. apply app_inj_tail in E as [-> ->]. right. split.
      * exists pre, post. split_and!; [done|done|]. intros g' Hg'. apply Hpost. set_solver.
      * apply Hpost. set_solver.
  - intros [(-> & H)|((pre & post & -> & Hpre & Hpost) & H)].
    + exists gs, []. split_and!; [done|done|]. set_solver.
    + exists pre, (post ++ [x]). split_and!; [by rewrite app_comm_cons, app_assoc|done|].
      intros g' [Hg'| ->%list_elem_of_singleton]%elem_of_app; auto.
Qed.

Definition offer_all (b : LatestSignalBatch tensor) gs : LatestSignalBatch tensor :=
  foldl (λ b g, (offer g b).2) b gs.

Definition tracks gs (m : gmap string (SupervisionSignal tensor)) : Prop :=
  (∀ r g, m !! r = Some g ↔ request_id g = r ∧ latest_in gs g)
  ∧ (∀ g, g ∈ gs → ∃ p, m !! request_id g = Some p ∧ sequence_number g <= sequence_number p).

Lemma tracks_keep gs m x p :
  tracks gs m → m !! request_id x = Some p → sequence_number x <= sequence_number p →
  tracks (gs ++ [x]) m.
Proof.
  intros [Hm Hmax] Hp Hle. split.
  - intros r g. rewrite Hm, latest_in_snoc. split.
    + intros [<- Hg]. split; [done|]. right. split; [done|]. intros Hx.
      rewrite Hx, (proj2 (Hm (request_id g) g)) in Hp by done. by simplify_eq.
    + intros (<- & [(-> & H)|(Hg & _)]); [|done]. exfalso.
      apply Hm in Hp as [Hrp (pre & post & -> & _)].
      specialize (H p). rewrite Hrp in H. set_solver by lia.
  - intros g [Hg| ->%list_elem_of_singleton]%elem_of_app; eauto.
Qed.

Lemma tracks_replace gs m x :
  tracks gs m →
  (∀ p, m !! request_id x = Some p → sequence_number p < sequence_number x) →
  tracks (gs ++ [x]) (<[request_id x := x]> m).
Proof.
  intros [Hm Hmax] Hnew.
  assert (Hlt : ∀ g', g' ∈ gs → request_id g' = request_id x →
            sequence_number g' < sequence_number x).
  { intros g' (p & Hp & Hle)%Hmax Hr. rewrite Hr in Hp. apply Hnew in Hp. lia. }
  split.
  - intros r g. rewrite lookup_insert, latest_in_snoc. case_decide as Hr.
    + split; [intros [= <-]; naive_solver|].
      intros (<- & [(-> & _)|(Hg & H)]); [done|]. exfalso.
      specialize (H Hr). destruct Hg as (pre & post & -> & _).
      specialize (Hlt g). set_solver by lia.
    + rewrite Hm. naive_solver.
  - intros g [Hg| ->%list_elem_of_singleton]%elem_of_app.
    + destruct (Hmax g Hg) as (p & Hp & Hle). rewrite lookup_insert. case_decide as Hr; [|eauto].
      exists x. split; [done|]. apply Z.lt_le_incl. auto.
    + exists x. by rewrite lookup_insert_eq.
Qed.

Lemma offer_all_tracks h gs :
  Forall (λ g, cohort_sha256 g = h) gs →
  lsb_cohort_sha256 (offer_all (new_LatestSignalBatch h) gs) = h
  ∧ tracks gs (lsb_signals (offer_all (new_LatestSignalBatch h) gs)).
Proof.
  induction gs as [|x gs IH] using rev_ind; intros Hall.
  - split; [done|]. split; [|set_solver]. cbn. intros r g. rewrite lookup_empty.
    split; [done|]. intros (_ & [|? pre] & post & E & _); done.
  - apply Forall_app in Hall as [Hall [Hx _]%Forall_cons].
    destruct (IH Hall) as [Hb Ht]. unfold offer_all in *. rewrite foldl_app. cbn [foldl].
    set (b := foldl _ _ gs) in *. unfold offer. rewrite bool_decide_eq_true_2 by congruence.
    cbn [negb].
    destruct (lsb_signals b !! request_id x) as [p|] eqn:Hp.
    + destruct (Z.leb_spec (sequence_number x) (sequence_number p)); cbn.
      * split; [done|]. by eapply tracks_keep.
      * split; [done|]. apply tracks_replace; [done|]. intros p' Hp'. congruence.
    + cbn. split; [done|]. apply tracks_replace; [done|]. intros p' Hp'. congruence.
Qed.
End latest.

(** ** Abstract specification: one published version line per epoch

    A cohort promises a version counter that only a publication advances, at
    most one update in flight, and a reset that opens a new epoch at version 0. *)
Record version_line := {
  vl_epoch : Z;
  vl_version : Z;
  vl_busy : bool;
  vl_enabled : bool;
}.

(** The five things that happen to a version line. *)
Inductive version_event : Set := LINE_BEGIN | LINE_PUBLISH | LINE_DROP | LINE_DISABLE | LINE_RESET.

Inductive version_step : version_event → version_line → version_line → Prop :=
  | vs_begin e v : version_step LINE_BEGIN
      (Build_version_line e v false true) (Build_version_line e v true true)
  | vs_publish e v : version_step LINE_PUBLISH
      (Build_version_line e v true true) (Build_version_line e (v + 1) false true)
  | vs_drop e v : version_step LINE_DROP
      (Build_version_line e v true true) (Build_version_line e v false true)
  | vs_disable e v b n : version_step LINE_DISABLE
      (Build_version_line e v b n) (Build_version_line e v false false)
  | vs_reset e v b n : version_step LINE_RESET
      (Build_version_line e v b n) (Build_version_line (e + 1) 0 false true).
Definition line_step (v v' : version_line) : Prop := ∃ e, version_step e v v'.

(** The only event a method may cause. *)
Definition op_event {tensor} (o : cohort_op tensor) : option version_event :=
  match o with
  | OpOffer _ | OpDrain => None
  | OpBegin _ _ _ => Some LINE_BEGIN
  | OpCommit _ _ _ _ _ => Some LINE_PUBLISH
  | OpDiscard _ _ | OpCancel _ => Some LINE_DROP
  | OpReset => Some LINE_RESET
  | OpDisable _ => Some LINE_DISABLE
  end.

Definition version_abs {tensor} (s : CohortRuntime tensor) : version_line := {|
  vl_epoch := epoch s; vl_version := active_version s;
  vl_busy := bool_decide (in_flight s ≠ None); vl_enabled := enabled s |}.

Section refinement.
Context {tensor : Type}.
Implicit Types (s : CohortRuntime tensor).

Lemma version_abs_eq s s' :
  epoch s' = epoch s → active_version s' = active_version s →
  in_flight s' = in_flight s → disabled_reason s' = disabled_reason s →
  version_abs s' = version_abs s.
Proof. intros H1 H2 H3 H4. unfold version_abs, enabled. by rewrite H1, H2, H3, H4. Qed.

Lemma version_abs_flight s c :
  cohort_inv s → in_flight s = Some c →
  version_abs s = Build_version_line (epoch s) (active_version s) true true.
Proof.
  intros Hs Hc. unfold version_abs, enabled. rewrite Hc.
  by rewrite (fl_enabled s c (inv_flight s Hs c Hc)).
Qed.

(** Discarding whatever is in flight drops it or does nothing. *)
Lemma version_drop s t :
  cohort_inv s →
  let s' := set_flight None t (next_id s) s in
  version_abs s' = version_abs s ∨ version_step LINE_DROP (version_abs s) (version_abs s').
Proof.
  intros Hs s'. destruct (in_flight s) as [c|] eqn:Hc.
  - right. rewrite (version_abs_flight s c) by done.
    pose proof (fl_enabled s c (inv_flight s Hs c Hc)) as Hen.
    replace (version_abs s') with (Build_version_line (epoch s) (active_version s) false true);
      [constructor|]. unfold version_abs, enabled. cbn. by rewrite Hen.
  - left. by apply version_abs_eq.
Qed.

Lemma run_op_simulates s o :
  cohort_inv s → op_ok o s →
  version_abs (run_op o s) = version_abs s
  ∨ ∃ e, op_event o = Some e ∧ version_step e (version_abs s) (version_abs (run_op o s)).
Proof.
  intros Hs Ho. destruct o as [g|p sr rr|c pol cur st d|c reason|request| |reason|]; cbn.
  - left. by destruct (offer_signal_frame g s) as [b ->].
  - unfold begin_candidate. destruct (disabled_reason s) eqn:Hd; [by left|].
    destruct (in_flight s) eqn:Hf; cbn; [by left|].
    destruct (new_CandidateUpdate _ _ _ _ _ _ _ _); [|by left].
    right. exists LINE_BEGIN. split; [done|].
    unfold version_abs, enabled. cbn. rewrite Hd, Hf. constructor.
  - destruct (commit_cases c pol cur st d s Hs Ho) as [(e & -> & _)|(Hc & _ & ->)]; [by left|].
    right. exists LINE_PUBLISH. split; [done|]. rewrite (version_abs_flight s c) by done.
    pose proof (fl_enabled s c (inv_flight s Hs c Hc)) as Hen.
    unfold version_abs, enabled. cbn. rewrite Hen. constructor.
  - destruct (discard_cases c reason s Hs Ho) as [->|(Hc & _ & ->)]; [by left|].
    destruct (version_drop s (discard_record reason s) Hs); eauto.
  - rewrite cancel_request_run by done.
    destruct (version_drop s (discard_record "request_cancelled" s) Hs); [by left|eauto].
  - rewrite reset_run by done. right. exists LINE_RESET. split; [done|constructor].
  - unfold disable. destruct (string_empty reason) eqn:Hr; [by left|].
    rewrite discard_in_flight_ok by done. right.
    exists LINE_DISABLE. split; [done|constructor].
  - left. unfold drain_signals. by destruct (drain (signals s)).
Qed.

Lemma version_step_mono e v v' :
  version_step e v v' →
  (vl_epoch v < vl_epoch v' ∨ vl_epoch v = vl_epoch v' ∧ vl_version v <= vl_version v') ∧
  (vl_epoch v = vl_epoch v' → vl_version v ≠ vl_version v' →
   e = LINE_PUBLISH ∧ vl_busy v = true ∧ vl_version v' = vl_version v + 1).
Proof. destruct 1; cbn; split; intros; (done || lia). Qed.

(** Within an epoch the version moves by one, on a commit of the candidate in flight. *)
Lemma run_op_version s o :
  cohort_inv s → op_ok o s → epoch (run_op o s) = epoch s →
  active_version (run_op o s) ≠ active_version s →
  (∃ c policy round stride delay, o = OpCommit c policy round stride delay ∧ in_flight s = Some c) ∧
  active_version (run_op o s) = active_version s + 1.
Proof.
  intros Hs Ho He Hv. destruct (run_op_simulates s o Hs Ho) as [E|(e & Hoe & Hstep)].
  { apply (f_equal vl_version) in E. done. }
  destruct (version_step_mono _ _ _ Hstep) as [_ Hpub].
  destruct (Hpub (eq_sym He) (not_eq_sym Hv)) as (-> & _ & Hone). split; [|exact Hone].
  destruct o as [| |c pol cur st d| | | | |]; try done. exists c, pol, cur, st, d. split; [done|].
  destruct (commit_cases c pol cur st d s Hs Ho) as [(e & E & _)|(Hc & _ & _)]; [|done].
  cbn [run_op] in Hv. rewrite E in Hv. done.
Qed.

Lemma runtime_line s s' :
  cohort_inv s → rtc cohort_step s s' →
  rtc line_step (version_abs s) (version_abs s') ∧
  (epoch s < epoch s' ∨ epoch s = epoch s' ∧ active_version s <= active_version s').
Proof.
  intros Hs Hss.
  apply (rtc_ind_r (R:=cohort_step) (λ s', cohort_inv s'
    ∧ rtc line_step (version_abs s) (version_abs s')
    ∧ (epoch s < epoch s' ∨ epoch s = epoch s' ∧ active_version s <= active_version s')) s)
    in Hss as (_ & H); [done|split_and!; [done..|by constructor|lia]|].
  intros s1 s2 _ [o Ho] (Hs1 & IH & Hmono). split; [by apply run_op_inv|].
  destruct (run_op_simulates s1 o Hs1 Ho) as [E|(e & _ & Hstep)].
  - rewrite E. split; [done|].
    pose proof (f_equal vl_epoch E). pose proof (f_equal vl_version E). cbn in *. lia.
  - split; [eapply rtc_r; [exact IH|by exists e]|].
    destruct (version_step_mono _ _ _ Hstep) as [Hm _]. cbn in *. lia.
Qed.
End refinement.

(** ** Properties *)
Section properties.
Context {tensor : Type}.
Implicit Types (s : CohortRuntime tensor) (c : object (CandidateUpdate tensor)).

(** C26. Every state that method calls can reach, in any order and with any
    arguments, satisfies the runtime invariant: counters are non-negative, the
    candidate in flight carries exactly the current epoch, version and
    generations and has a fresh identity, the cohort is enabled while one is
    in flight, the last terminated candidate is not the one in flight, and
    every queued signal belongs to this cohort. *)
Theorem cohort_reachable_invariant i s : cohort_reachable i s → cohort_inv s.
Proof. apply reachable_inv. Qed.

(** Publication authority is exact.  For the candidate in flight of a
    reachable runtime, a positive stride and a non-negative delay,
    [can_publish] answers yes exactly when the policy is not static and the
    current round has reached the policy's publication round; it never answers
    with one of the stale reasons. *)
Theorem can_publish_exact i s c policy cur stride delay :
  cohort_reachable i s → in_flight s = Some c → 1 <= stride → 0 <= delay →
  ∃ allowed reason, can_publish c policy cur stride delay s = Ok (allowed, reason)
    ∧ (allowed = true ↔ policy ≠ STATIC
         ∧ ∃ r, publication_round policy (obj c) stride delay = Ok (Some r) ∧ r <= cur)
    ∧ (allowed = false → reason ∈ ["side_stream_not_ready"; "static_disabled";
         "waiting_extra_logical_delay"; "waiting_fixed_boundary"]).
Proof.
  intros Hr Hc Hst Hd. destruct (inv_flight s (reachable_inv i s Hr) c Hc).
  unfold can_publish.
  rewrite (proj2 (Z.ltb_ge stride 1)), (proj2 (is_in_flight_true c s)) by eauto.
  rewrite fl_epoch0, fl_slot0, fl_version0, fl_buffer0, fl_optimizer0, fl_valid0, !Z.eqb_refl.
  cbn [negb].
  destruct (Z.ltb_spec cur (ready_round (obj c))) as [Hcur|Hcur].
  { eexists false, _. split_and!; [done| |in_literals]. split; [done|].
    intros (_ & r & Hp & Hle). exfalso. destruct policy; cbn in Hp; [done|..];
      repeat (case_match; [done|]); simplify_eq; lia. }
  destruct policy.
  { eexists false, _. split_and!; [done| |in_literals]. naive_solver. }
  all: rewrite bool_decide_eq_false_2 by done; cbn [publication_round].
  all: rewrite (proj2 (Z.ltb_ge stride 1)), (proj2 (Z.ltb_ge delay 0)) by lia.
  all: destruct (Z.ltb_spec cur (Z.max (ready_round (obj c) + delay)
         ((source_round (obj c) / stride + 1) * stride))),
       (Z.ltb_spec cur (ready_round (obj c) + delay)).
  all: try lia.
  all: eexists _, _; (split_and!; [reflexivity| |in_literals]).
  all: split; [first [done|intros _; split; [done|]; eexists; split; [done|lia]]|].
  all: first [done|intros (_ & r & [= <-] & Hle); lia].
Qed.

(** C30. [commit] on a reachable runtime either raises and leaves the runtime
    unchanged, exactly when [can_publish] withholds authority, or publishes:
    the version and the optimizer generation advance by one, nothing stays in
    flight, the termination record names this candidate as published at the
    new version, and nothing else changes. *)
Theorem commit_transactional i s c policy cur stride delay :
  cohort_reachable i s → ref_ok c s →
  let '(r, s') := commit c policy cur stride delay s in
  match r with
  | Raise _ => s' = s ∧ can_publish c policy cur stride delay s ≠ Ok (true, "ready")
  | Ok v =>
      in_flight s = Some c ∧ can_publish c policy cur stride delay s = Ok (true, "ready")
      ∧ v = active_version s + 1 ∧ active_version s' = v
      ∧ optimizer_state_generation s' = optimizer_state_generation s + 1
      ∧ in_flight s' = None
      ∧ last_termination s' = Some {| ct_candidate := c; ct_outcome := published;
          ct_reason := "committed"; published_version := Some v |}
      ∧ (epoch s', slot_generation s', buffer_generation s', signals s', disabled_reason s')
        = (epoch s, slot_generation s, buffer_generation s, signals s, disabled_reason s)
  end.
Proof.
  intros Hr Hc.
  destruct (commit_cases c policy cur stride delay s (reachable_inv i s Hr) Hc)
    as [(e & -> & Hp)|(Hf & Hp & ->)]; [done|].
  by split_and!.
Qed.

(** Exactly-once termination (no ABA).  Once the candidate in flight has
    been terminated by any operation, no later sequence of operations brings it
    back: in every later state [discard] of it raises and changes nothing, and
    so does [commit]. *)
Theorem terminated_once i s o s' c :
  cohort_reachable i s → in_flight s = Some c → op_ok o s →
  in_flight (run_op o s) = None → rtc cohort_step (run_op o s) s' → ref_ok c s' →
  (∀ reason, ∃ e, discard c reason s' = (Raise e, s'))
  ∧ (∀ policy cur stride delay, ∃ e, commit c policy cur stride delay s' = (Raise e, s')).
Proof.
  intros Hr Hc Ho Hn Hsteps Hok. pose proof (reachable_inv i s Hr) as Hs.
  assert (Hret : retired (obj_id c) (run_op o s)).
  { split; [|by rewrite Hn]. pose proof (fl_fresh _ _ (inv_flight s Hs c Hc)).
    pose proof (run_op_next_id o s Hs Ho). lia. }
  destruct (retired_steps _ _ _ (run_op_inv o s Hs Ho) Hret Hsteps) as [Hs' [Hid Hnf]].
  assert (Hnot : is_in_flight c s' = false).
  { destruct (is_in_flight c s') eqn:E; [|done].
    apply is_in_flight_true in E as (c' & Hc' & E). by destruct (Hnf c' Hc'). }
  split.
  - intros reason. unfold discard, terminate. rewrite Hnot. cbn. case_match; eauto.
  - intros policy cur stride delay.
    destruct (commit_cases c policy cur stride delay s' Hs' Hok)
      as [(e & -> & _)|(Hf & _)]; [by eexists|]. by destruct (Hnf c Hf).
Qed.

(** Cancelling a request, resetting the cohort and disabling it never fail
    on a reachable runtime (for a non-empty reason), whatever is in flight: the
    candidate is discarded with the matching reason, the generations that fence
    off stale work advance, a reset opens the next epoch at version zero with no
    queued signal, and a disabled cohort refuses every further candidate. *)
Theorem shutdown_paths_total i s request reason :
  cohort_reachable i s → string_empty reason = false →
  (∃ s', cancel_request request s = (Ok tt, s') ∧ in_flight s' = None
     ∧ slot_generation s' = slot_generation s + 1
     ∧ buffer_generation s' = buffer_generation s + 1
     ∧ lsb_signals (signals s') = delete request (lsb_signals (signals s))
     ∧ last_termination s' = discard_record "request_cancelled" s)
  ∧ (∃ s', reset s = (Ok tt, s') ∧ in_flight s' = None ∧ epoch s' = epoch s + 1
     ∧ active_version s' = 0 ∧ optimizer_state_generation s' = 0
     ∧ slot_generation s' = slot_generation s + 1
     ∧ buffer_generation s' = buffer_generation s + 1
     ∧ lsb_signals (signals s') = ∅ ∧ disabled_reason s' = None
     ∧ last_termination s' = discard_record "cohort_reset" s)
  ∧ (∃ s', disable reason s = (Ok tt, s') ∧ in_flight s' = None
     ∧ last_termination s' = discard_record reason s
     ∧ ∀ p sr rr, ∃ e, begin_candidate p sr rr s' = (Raise e, s')).
Proof.
  intros Hr Hre. pose proof (reachable_inv i s Hr) as Hs. split_and!.
  - rewrite cancel_request_run by done. by eexists.
  - rewrite reset_run by done. by eexists.
  - rewrite disable_run by done. eexists. split_and!; [done..|]. intros. by eexists.
Qed.

(** The batch keeps exactly the newest signal of every request: after any
    sequence of offers for the cohort, [drain] returns, sorted by request, one
    row per request offered, the one that is newer than all its predecessors
    and not older than its successors, and leaves an empty batch. *)
Theorem drain_returns_latest h (gs : list (SupervisionSignal tensor)) rows scale b :
  Forall (λ g, cohort_sha256 g = h) gs →
  drain (offer_all (new_LatestSignalBatch h) gs) = ((rows, scale), b) →
  b = new_LatestSignalBatch h
  ∧ (∀ g, g ∈ rows ↔ latest_in gs g)
  ∧ NoDup (map request_id rows)
  ∧ StronglySorted (key_le signal_key) rows.
Proof.
  intros Hall Hd. destruct (offer_all_tracks h gs Hall) as [Hb [Hm Hmax]].
  pose proof (drain_batch (offer_all (new_LatestSignalBatch h) gs)) as Hb'.
  rewrite Hd, Hb in Hb'. cbn in Hb'. split; [done|].
  set (m := lsb_signals (offer_all (new_LatestSignalBatch h) gs)) in *.
  assert (Hrows : rows = sorted_by signal_key (map snd (map_to_list m))).
  { unfold drain in Hd. fold m in Hd. case_decide as He; simplify_eq; [|done].
    by rewrite He, map_to_list_empty. }
  assert (Hin : ∀ g, g ∈ rows ↔ ∃ r, m !! r = Some g).
  { intros g. rewrite Hrows, elem_of_sorted_by, list_elem_of_fmap. split.
    - intros ([r g'] & -> & Hg%elem_of_map_to_list). by exists r.
    - intros [r Hg]. exists (r, g). by rewrite elem_of_map_to_list. }
  split_and!.
  - intros g. rewrite Hin. split.
    + by intros (r & [_ Hg]%Hm).
    + intros Hg. exists (request_id g). by apply Hm.
  - rewrite Hrows.
    assert (Hp : map request_id (sorted_by signal_key (map snd (map_to_list m)))
                 ≡ₚ map fst (map_to_list m)).
    { rewrite sorted_by_Permutation, map_map.
      erewrite (map_ext_in _ fst); [done|].
      intros [r g] Hg%list_elem_of_In%elem_of_map_to_list. by apply Hm in Hg as [<- _]. }
    rewrite Hp. apply NoDup_fst_map_to_list.
  - rewrite Hrows. apply sorted_by_sorted.
Qed.

(** C28. Refinement.  On a reachable runtime every method call either leaves the
    abstract version line alone or is one step of it, by the event of that
    method (a reset always is).  Within an epoch only a commit changes the
    version, of the candidate in flight and by one.  So along any execution the
    line only steps and the pair (epoch, version) never goes back. *)
Theorem runtime_refines_version_line i s o :
  cohort_reachable i s → op_ok o s →
  let s1 := run_op o s in
  (version_abs s1 = version_abs s ∧ o ≠ OpReset
   ∨ ∃ e, op_event o = Some e ∧ version_step e (version_abs s) (version_abs s1)) ∧
  (epoch s1 = epoch s → active_version s1 ≠ active_version s →
   (∃ c policy round stride delay, o = OpCommit c policy round stride delay ∧ in_flight s = Some c) ∧
   active_version s1 = active_version s + 1) ∧
  ∀ s', rtc cohort_step s s' →
    rtc line_step (version_abs s) (version_abs s') ∧
    (epoch s < epoch s' ∨ epoch s = epoch s' ∧ active_version s <= active_version s').
Proof.
  intros Hr Ho s1. pose proof (reachable_inv i s Hr) as Hs. split; [|split].
  - destruct (run_op_simulates s o Hs Ho) as [E|?]; [left|by right]. split; [exact E|].
    intros ->. apply (f_equal vl_epoch) in E. unfold s1, run_op in E. rewrite reset_run in E by done.
    cbn in E. lia.
  - intros He Hv. by apply run_op_version.
  - intros s' Hss. by apply runtime_line.
Qed.
End properties.

(** ** Witnesses *)
Section witnesses.
Definition identity0 : CohortIdentity := {|
  target_revision := "aaaaaaaaaaaaaaaaaaaaaaaaaaaaaaaaaaaaaaaa";
  drafter_revision := "bbbbbbbbbbbbbbbbbbbbbbbbbbbbbbbbbbbbbbbb";
  algorithm := "DFLASH";
  sampling_profile_sha256 := Sha256.hexdigest "profile";
  adaptation_group_id := "group"; tenant_id := "tenant-a"; update_mode := "lora";
  parameter_scope := "drafter";
  parameter_layout_sha256 := Sha256.hexdigest "layout";
  optimizer_identity := "adamw:1e-5:0.01" |}.

Example identity0_valid : CohortIdentity_post_init identity0 = Ok identity0.
Proof. vm_compute. reflexivity. Qed.

Definition s_new : CohortRuntime nat := new_CohortRuntime identity0.
Definition s_flight : CohortRuntime nat := run_op (OpBegin [1%nat] 10 12) s_new.
Definition c_flight : object (CandidateUpdate nat) := {| obj_id := 0; obj := {|
  payload := [1%nat]; source_round := 10; source_version := 0; cohort_epoch := 0;
  cu_slot_generation := 0; ready_round := 12; cu_buffer_generation := 0;
  cu_optimizer_state_generation := 0; ready_event_id := "logical-ready";
  numerically_valid := true; memory_reservation_bytes := 0 |} |}.

Lemma s_flight_reachable : cohort_reachable identity0 s_flight.
Proof. apply rtc_once. by constructor. Qed.
Lemma s_flight_in_flight : in_flight s_flight = Some c_flight.
Proof. reflexivity. Qed.
Lemma c_flight_ref_ok s : in_flight s = Some c_flight ∨ in_flight s = None → ref_ok c_flight s.
Proof. unfold ref_ok. naive_solver. Qed.

Lemma cohort_reachable_invariant_witness : cohort_inv s_flight.
Proof. exact (cohort_reachable_invariant identity0 s_flight s_flight_reachable). Defined.

Lemma can_publish_exact_witness :
  ∃ allowed reason, can_publish c_flight FIXED_BARRIER 15 10 0 s_flight = Ok (allowed, reason)
    ∧ (allowed = true ↔ FIXED_BARRIER ≠ STATIC
         ∧ ∃ r, publication_round FIXED_BARRIER (obj c_flight) 10 0 = Ok (Some r) ∧ r <= 15)
    ∧ (allowed = false → reason ∈ ["side_stream_not_ready"; "static_disabled";
         "waiting_extra_logical_delay"; "waiting_fixed_boundary"]).
Proof.
  apply (can_publish_exact identity0 s_flight c_flight FIXED_BARRIER 15 10 0
           s_flight_reachable s_flight_in_flight); lia.
Defined.

Lemma commit_transactional_witness :
  let '(r, s') := commit c_flight FIRST_READY_BOUNDARY 13 10 1 s_flight in
  r = Ok 1 ∧ active_version s' = 1 ∧ in_flight s' = None.
Proof.
  pose proof (commit_transactional identity0 s_flight c_flight FIRST_READY_BOUNDARY 13 10 1
    s_flight_reachable (c_flight_ref_ok _ (or_introl s_flight_in_flight))) as H.
  destruct (commit c_flight FIRST_READY_BOUNDARY 13 10 1 s_flight) as [[v|e] s'] eqn:E.
  - destruct H as (_ & _ & -> & Hv & _ & Hf & _). by rewrite Hv, Hf.
  - vm_compute in E. discriminate E.
Defined.

Lemma terminated_once_witness :
  ∃ e, commit c_flight FIRST_READY_BOUNDARY 12 1 0 (run_op OpReset s_flight)
       = (Raise e, run_op OpReset s_flight).
Proof.
  apply (terminated_once identity0 s_flight OpReset (run_op OpReset s_flight) c_flight
    s_flight_reachable s_flight_in_flight I eq_refl (rtc_refl _ _)
    (c_flight_ref_ok _ (or_intror (eq_refl : in_flight (run_op OpReset s_flight) = None)))).
Defined.

Lemma shutdown_paths_total_witness :
  ∃ s', cancel_request "r0" s_flight = (Ok tt, s') ∧ in_flight s' = None
     ∧ slot_generation s' = 1.
Proof.
  destruct (shutdown_paths_total identity0 s_flight "r0" "reconstruction_mismatch"
    s_flight_reachable eq_refl) as [(s' & E & Hf & Hs & _) _].
  exists s'. by rewrite E, Hf, Hs.
Defined.

Definition sig0 (r : string) (n : Z) : SupervisionSignal nat := {|
  cohort_sha256 := CohortIdentity_sha256 identity0; request_id := r; sequence_number := n;
  sig_source_version := 0; sig_slot_generation := 0; sig_tensors := [0%nat];
  valid_positions := 1 |}.

Lemma drain_returns_latest_witness :
  let gs := [sig0 "r0" 1; sig0 "r0" 1; sig0 "r0" 2; sig0 "r1" 1] in
  let d := drain (offer_all (new_LatestSignalBatch (CohortIdentity_sha256 identity0)) gs) in
  d.1.1 = [sig0 "r0" 2; sig0 "r1" 1] ∧ d.1.2 = fdiv (float_of_Z 1) (float_of_Z 2)
  ∧ ∀ g, g ∈ d.1.1 ↔ latest_in gs g.
Proof.
  intros gs d. split; [vm_compute; reflexivity|]. split; [vm_compute; reflexivity|].
  destruct d as [[rows scale] b] eqn:E.
  apply (drain_returns_latest (CohortIdentity_sha256 identity0) gs rows scale b);
    [by repeat constructor|exact E].
Defined.

(** A new runtime begins a candidate: one step of the line. *)
Lemma runtime_refines_version_line_witness :
  (∃ e, op_event (tensor:=nat) (OpBegin [1%nat] 10 12) = Some e ∧
     version_step e (Build_version_line 0 0 false true) (Build_version_line 0 0 true true)) ∧
  rtc line_step (Build_version_line 0 0 true true) (Build_version_line 1 0 false true).
Proof.
  split.
  - destruct (runtime_refines_version_line identity0 s_new (OpBegin [1%nat] 10 12) (rtc_refl _ _) I)
      as ([[E _]|H] & _); [|exact H].
    apply (f_equal vl_busy) in E. discriminate E.
  - destruct (runtime_refines_version_line identity0 s_flight OpReset s_flight_reachable I)
      as (_ & _ & H). destruct (H (run_op OpReset s_flight)) as [Hline _]; [|exact Hline].
    apply rtc_once. by constructor.
Defined.
End witnesses.
