(* ===== verification/KVHistory.v ===== *)
(** * Frozen drafter-KV history ([adaptation/kv_history.py])

    An append-only run-length record of the adapter version that produced each
    KV token.  [tokens] is its meaning, one version per token; the operations
    refine [++], [take] and [!!] on that list. *)
From S2P Require Import Prelude.

Record KVSegment := { start_token : Z; end_token : Z; seg_version : Z }.

#[export] Instance KVSegment_eq_dec : EqDecision KVSegment.
Proof. solve_decision. Defined.

(** [KVSegment(...)] with [__post_init__]. *)
Definition new_KVSegment (start end_ version : Z) : result KVSegment :=
  raise_if ((start <? 0) || (end_ <=? start))
    (ValueError "KV segment must be a non-empty half-open interval") ;;
  raise_if (version <? 0) (ValueError "source_version must be non-negative") ;;
  Ok {| start_token := start; end_token := end_; seg_version := version |}.

Abbreviation FrozenKVHistory := (list KVSegment).

(** [FrozenKVHistory.length]. *)
Definition kv_length (h : FrozenKVHistory) : Z :=
  match last h with Some g => end_token g | None => 0 end.

(** [self.segments[-1] = g]. *)
Definition set_last (g : KVSegment) (h : FrozenKVHistory) : FrozenKVHistory :=
  take (length h - 1) h ++ [g].

Definition kv_append (token_count source_version : Z) (h : FrozenKVHistory)
    : result KVSegment * FrozenKVHistory :=
  raise_in h if (token_count <? 1) (ValueError "token_count must be positive") ;;
  let start := kv_length h in
  match new_KVSegment start (start + token_count) source_version with
  | Raise e => (Raise e, h)
  | Ok segment =>
    match last h with
    | Some previous =>
      if seg_version previous =? source_version then
        match new_KVSegment (start_token previous) (end_token segment) source_version with
        | Raise e => (Raise e, h)
        | Ok segment => (Ok segment, set_last segment h)
        end
      else (Ok segment, h ++ [segment])
    | None => (Ok segment, h ++ [segment])
    end
  end.

(** The loop of [retract]; [break] stops at the first segment past the cut. *)
Fixpoint retained (new_length : Z) (h : FrozenKVHistory) : result FrozenKVHistory :=
  match h with
  | [] => Ok []
  | g :: h =>
    if new_length <=? start_token g then Ok []
    else
      g' <-! new_KVSegment (start_token g) (Z.min (end_token g) new_length) (seg_version g) ;;
      h' <-! retained new_length h ;;
      Ok (g' :: h')
  end.

Definition kv_retract (new_length : Z) (h : FrozenKVHistory) : result unit * FrozenKVHistory :=
  raise_in h if ((new_length <? 0) || (kv_length h <? new_length))
    (ValueError "retraction must remain inside the KV history") ;;
  match retained new_length h with
  | Raise e => (Raise e, h)
  | Ok h' => (Ok tt, h')
  end.

Fixpoint version_at (token_index : Z) (h : FrozenKVHistory) : result Z :=
  match h with
  | [] => Raise (IndexError token_index)
  | g :: h =>
    if (start_token g <=? token_index) && (token_index <? end_token g)
    then Ok (seg_version g) else version_at token_index h
  end.

(** ** Meaning and invariant *)

(** The version of every token, in order. *)
Definition tokens (h : FrozenKVHistory) : list Z :=
  concat (map (λ g, replicate (Z.to_nat (end_token g - start_token g)) (seg_version g)) h).

(** Segments are contiguous from [start], non-empty, and merged: neighbours have
    different versions. *)
Fixpoint wf_from (start : Z) (prev : option Z) (h : FrozenKVHistory) : Prop :=
  match h with
  | [] => True
  | g :: h => start_token g = start ∧ start < end_token g ∧ 0 <= seg_version g
      ∧ prev ≠ Some (seg_version g) ∧ wf_from (end_token g) (Some (seg_version g)) h
  end.
Definition kv_wf (h : FrozenKVHistory) : Prop := wf_from 0 None h.

(** End of the last segment, or [start] when there is none. *)
Definition end_from (start : Z) (h : FrozenKVHistory) : Z :=
  match last h with Some g => end_token g | None => start end.
Definition version_from (prev : option Z) (h : FrozenKVHistory) : option Z :=
  match last h with Some g => Some (seg_version g) | None => prev end.

Lemma end_from_cons start g h : end_from start (g :: h) = end_from (end_token g) h.
Proof. unfold end_from. rewrite last_cons. by destruct (last h). Qed.
Lemma version_from_cons prev g h :
  version_from prev (g :: h) = version_from (Some (seg_version g)) h.
Proof. unfold version_from. rewrite last_cons. by destruct (last h). Qed.

Lemma wf_from_le start prev h : wf_from start prev h → start <= end_from start h.
Proof.
  revert start prev. induction h as [|g h IH]; intros start prev; cbn; [done|].
  intros (?&?&?&?&Hh). rewrite end_from_cons. apply IH in Hh. lia.
Qed.

Lemma wf_from_snoc start prev h g :
  wf_from start prev (h ++ [g]) ↔
    wf_from start prev h ∧ start_token g = end_from start h ∧ start_token g < end_token g
    ∧ 0 <= seg_version g ∧ version_from prev h ≠ Some (seg_version g).
Proof.
  revert start prev. induction h as [|g' h IH]; intros start prev.
  - unfold end_from, version_from. cbn. naive_solver lia.
  - cbn [app wf_from]. rewrite IH, end_from_cons, version_from_cons. tauto.
Qed.

Lemma tokens_app h1 h2 : tokens (h1 ++ h2) = tokens h1 ++ tokens h2.
Proof. unfold tokens. by rewrite map_app, concat_app. Qed.

Lemma length_tokens start prev h :
  wf_from start prev h → Z.of_nat (length (tokens h)) = end_from start h - start.
Proof.
  revert start prev. induction h as [|g h IH]; intros start prev; cbn.
  - unfold end_from. cbn. lia.
  - intros (?&?&?&?&Hh). rewrite end_from_cons, length_app, length_replicate.
    specialize (IH _ _ Hh). unfold tokens in IH. lia.
Qed.

Lemma snoc_of_last (h : FrozenKVHistory) g :
  last h = Some g → h = take (length h - 1) h ++ [g].
Proof.
  intros (h' & ->)%last_Some. rewrite length_app. cbn.
  rewrite Nat.add_sub, take_app_length. done.
Qed.

Lemma new_KVSegment_Ok a b v g :
  new_KVSegment a b v = Ok g ↔
  0 <= a < b ∧ 0 <= v ∧ g = {| start_token := a; end_token := b; seg_version := v |}.
Proof.
  unfold new_KVSegment. split.
  - do 2 (case_match; [done|]). bools. naive_solver lia.
  - intros (?&?&->). rewrite (proj2 (Z.ltb_ge a 0)), (proj2 (Z.leb_gt b a)) by lia.
    by rewrite (proj2 (Z.ltb_ge v 0)) by lia.
Qed.

Lemma replicate_split (a b c : Z) (v : Z) :
  a <= b <= c →
  replicate (Z.to_nat (c - a)) v = replicate (Z.to_nat (b - a)) v ++ replicate (Z.to_nat (c - b)) v.
Proof. intros. rewrite <- replicate_add. f_equal. lia. Qed.

(** *** Retraction *)
Lemma retained_spec start prev h n :
  wf_from start prev h → 0 <= start → start <= n <= end_from start h →
  ∃ h', retained n h = Ok h' ∧ wf_from start prev h' ∧ end_from start h' = n
    ∧ tokens h' = take (Z.to_nat (n - start)) (tokens h).
Proof.
  revert start prev. induction h as [|g h IH]; intros start prev.
  - unfold end_from. cbn. intros. exists []. split_and!; [done..|cbn; lia|by rewrite take_nil].
  - cbn [wf_from]. intros (Hst&Hlt&Hv&Hp&Hh) H0 Hn. rewrite end_from_cons in Hn.
    cbn [retained]. rewrite Hst.
    destruct (Z.leb_spec n start) as [Hle|Hgt].
    { exists []. split_and!; [done..|unfold end_from; cbn; lia|].
      replace (n - start) with 0 by lia. done. }
    rewrite (proj2 (new_KVSegment_Ok start (Z.min (end_token g) n) (seg_version g) _))
      by (split_and!; [lia..|done]).
    unfold tokens. cbn [map concat]. fold (tokens h). rewrite Hst.
    destruct (Z.le_gt_cases n (end_token g)) as [Hin|Hout].
    + rewrite Z.min_r by lia.
      assert (retained n h = Ok []) as ->.
      { destruct h as [|g' h]; [done|]. cbn in Hh |- *. destruct Hh as (->&_).
        by rewrite (proj2 (Z.leb_le n (end_token g))). }
      eexists. split_and!; [done|cbn; naive_solver lia|done|].
      cbn. rewrite app_nil_r, take_app_le by (rewrite length_replicate; lia).
      rewrite take_replicate. f_equal. lia.
    + rewrite Z.min_l by lia.
      destruct (IH (end_token g) (Some (seg_version g)) Hh) as (h' & -> & Hwf & Hend & Htok);
        [lia..|].
      eexists. split_and!; [done|cbn; naive_solver|by rewrite end_from_cons|].
      cbn. fold (tokens h'). rewrite Htok.
      rewrite take_app_ge by (rewrite length_replicate; lia). f_equal.
      rewrite length_replicate. f_equal. lia.
Qed.

Lemma version_at_out start prev h i :
  wf_from start prev h → i < start ∨ end_from start h <= i → version_at i h = Raise (IndexError i).
Proof.
  revert start prev. induction h as [|g h IH]; intros start prev; [done|].
  cbn [wf_from version_at]. rewrite end_from_cons. intros (Hst&Hlt&_&_&Hh) Hi.
  pose proof (wf_from_le _ _ _ Hh).
  destruct (Z.leb_spec (start_token g) i), (Z.ltb_spec i (end_token g)); cbn; try lia;
    eapply IH; (done || lia).
Qed.

Lemma version_at_in start prev h i :
  wf_from start prev h → start <= i < end_from start h →
  ∃ v, version_at i h = Ok v ∧ tokens h !! Z.to_nat (i - start) = Some v.
Proof.
  revert start prev. induction h as [|g h IH]; intros start prev.
  - unfold end_from; cbn; lia.
  - cbn [wf_from version_at]. rewrite end_from_cons. intros (Hst&Hlt&_&_&Hh) Hi.
    unfold tokens. cbn [map concat]. fold (tokens h). rewrite Hst.
    destruct (Z.leb_spec start i), (Z.ltb_spec i (end_token g)); cbn; try lia.
    + exists (seg_version g). split; [done|].
      rewrite lookup_app_l by (rewrite length_replicate; lia).
      apply lookup_replicate_2. lia.
    + destruct (IH _ _ Hh) as (v & -> & Hv); [lia|]. exists v. split; [done|].
      rewrite lookup_app_r by (rewrite length_replicate; lia).
      rewrite length_replicate, <- Hv. f_equal. lia.
Qed.

(** ** Properties *)

(** Appending KV rows never rewrites history.  On a well-formed history a
    positive count at a non-negative version succeeds, keeps the history
    well-formed (contiguous, merged runs), and its token versions are the old
    ones followed by the new ones; any other argument raises and changes
    nothing. *)
Theorem kv_append_refines_app h n v :
  kv_wf h →
  if (1 <=? n) && (0 <=? v) then
    ∃ g h', kv_append n v h = (Ok g, h') ∧ kv_wf h' ∧ last h' = Some g
      ∧ tokens h' = tokens h ++ replicate (Z.to_nat n) v
  else ∃ e, kv_append n v h = (Raise e, h).
Proof.
  intros Hwf. unfold kv_append, kv_length. pose proof (wf_from_le _ _ _ Hwf) as Hlen.
  unfold end_from in Hlen. set (start := match last h with Some g => _ | None => 0 end) in *.
  destruct (Z.leb_spec 1 n) as [Hn|Hn]; cbn [andb];
    [|rewrite (proj2 (Z.ltb_lt n 1)) by lia; by eexists].
  rewrite (proj2 (Z.ltb_ge n 1)) by lia.
  destruct (Z.leb_spec 0 v) as [Hv|Hv].
  2:{ unfold new_KVSegment. rewrite (proj2 (Z.ltb_ge start 0)), (proj2 (Z.leb_gt (start + n) start)),
        (proj2 (Z.ltb_lt v 0)) by lia. by eexists. }
  rewrite (proj2 (new_KVSegment_Ok start (start + n) v _)) by (split_and!; [lia..|done]).
  assert (Hnew : version_from None h ≠ Some v → let g := {| start_token := start;
      end_token := start + n; seg_version := v |} in
      kv_wf (h ++ [g]) ∧ last (h ++ [g]) = Some g
      ∧ tokens (h ++ [g]) = tokens h ++ replicate (Z.to_nat n) v).
  { intros Hd g. split_and!.
    - apply wf_from_snoc. split_and!; cbn; [done|done|lia|lia|done].
    - apply last_snoc.
    - rewrite tokens_app. unfold tokens at 2. cbn. rewrite app_nil_r. do 3 f_equal. lia. }
  destruct (last h) as [p|] eqn:Hlast; [|eexists _, _; split; [done|]; apply Hnew;
    unfold version_from; by rewrite Hlast].
  destruct (Z.eqb_spec (seg_version p) v) as [Hpv|Hpv];
    [|eexists _, _; split; [done|]; apply Hnew; unfold version_from; rewrite Hlast; congruence].
  pose proof (snoc_of_last h p Hlast) as Eh. set (h0 := take (length h - 1) h) in *.
  rewrite Eh in Hwf. apply wf_from_snoc in Hwf as (Hwf0 & Hst & Hlt & Hv0 & Hne).
  pose proof (wf_from_le _ _ _ Hwf0) as H0. cbn [end_token].
  rewrite (proj2 (new_KVSegment_Ok (start_token p) (start + n) v _))
    by (split_and!; [lia..|done]).
  eexists _, _. split; [done|]. unfold set_last. fold h0. split_and!.
  - apply wf_from_snoc. cbn. split_and!; [done|done|lia|lia|congruence].
  - apply last_snoc.
  - rewrite Eh, !tokens_app, <- app_assoc. f_equal. unfold tokens. cbn.
    rewrite !app_nil_r, Hpv, (replicate_split (start_token p) start (start + n)) by lia.
    do 2 f_equal. lia.
Qed.

(** Retraction keeps exactly a prefix.  On a well-formed history a length
    inside it succeeds, keeps the history well-formed at that length, and its
    token versions are the first [n] old ones; any other length raises and
    changes nothing. *)
Theorem kv_retract_refines_take h n :
  kv_wf h →
  if (0 <=? n) && (n <=? kv_length h) then
    ∃ h', kv_retract n h = (Ok tt, h') ∧ kv_wf h' ∧ kv_length h' = n
      ∧ tokens h' = take (Z.to_nat n) (tokens h)
  else ∃ e, kv_retract n h = (Raise e, h).
Proof.
  intros Hwf. unfold kv_retract.
  destruct (Z.leb_spec 0 n), (Z.leb_spec n (kv_length h)); cbn [andb];
    rewrite ?(proj2 (Z.ltb_ge n 0)), ?(proj2 (Z.ltb_lt n 0)), ?(proj2 (Z.ltb_ge (kv_length h) n)),
      ?(proj2 (Z.ltb_lt (kv_length h) n)) by lia; cbn [orb]; [|by eexists..].
  destruct (retained_spec 0 None h n Hwf) as (h' & -> & Hwf' & Hend & Htok); [done|done|].
  exists h'. rewrite Z.sub_0_r in Htok. done.
Qed.

(** Lookup is exact: on a well-formed history [version_at] returns the
    version of that token, and raises [IndexError] for a negative index or one
    past the end. *)
Theorem version_at_is_lookup h i :
  kv_wf h →
  version_at i h = match (if i <? 0 then None else tokens h !! Z.to_nat i) with
                   | Some v => Ok v
                   | None => Raise (IndexError i)
                   end.
Proof.
  intros Hwf. pose proof (length_tokens _ _ _ Hwf) as Hlen.
  destruct (Z.ltb_spec i 0); [by eapply version_at_out; [|left]|].
  destruct (Z.lt_ge_cases i (end_from 0 h)).
  - destruct (version_at_in 0 None h i Hwf) as (v & -> & Hv); [lia|].
    rewrite Z.sub_0_r in Hv. by rewrite Hv.
  - rewrite lookup_ge_None_2 by lia. by eapply version_at_out; [|right].
Qed.

(** ** Witnesses *)
Definition kv0 : FrozenKVHistory := [
  {| start_token := 0; end_token := 8; seg_version := 0 |};
  {| start_token := 8; end_token := 14; seg_version := 1 |}].

Lemma kv0_wf : kv_wf kv0.
Proof. cbn. split_and!; try lia; done. Qed.

Example kv_append_merges :
  kv_append 2 1 (kv_append 4 1 (kv_append 8 0 []).2).2
  = (Ok {| start_token := 8; end_token := 14; seg_version := 1 |}, kv0).
Proof. reflexivity. Qed.

Lemma kv_append_refines_app_witness :
  ∃ g h', kv_append 2 1 kv0 = (Ok g, h') ∧ tokens h' = tokens kv0 ++ [1; 1].
Proof.
  destruct (kv_append_refines_app kv0 2 1 kv0_wf) as (g & h' & E & _ & _ & Ht).
  by exists g, h'.
Defined.

Lemma kv_retract_refines_take_witness :
  ∃ h', kv_retract 10 kv0 = (Ok tt, h') ∧ kv_length h' = 10
    ∧ tokens h' = take 10 (tokens kv0).
Proof.
  destruct (kv_retract_refines_take kv0 10 kv0_wf) as (h' & E & _ & Hl & Ht).
  by exists h'.
Defined.

Lemma version_at_is_lookup_witness :
  version_at 7 kv0 = Ok 0 ∧ version_at 14 kv0 = Raise (IndexError 14).
Proof.
  split.
  - rewrite (version_at_is_lookup kv0 7 kv0_wf). reflexivity.
  - rewrite (version_at_is_lookup kv0 14 kv0_wf). reflexivity.
Defined.
