(* ===== verification/Memory.v ===== *)
(** * HBM accounting and admission ([adaptation/memory.py], [adaptation/governor.py])

    The adaptation memory ledger and the all-rank HBM governor.  Byte counts are
    Python integers ([Z]); the [type(value) is not int] half of the guards is
    what the type says. *)
From S2P Require Import Prelude.

(** ** [adaptation/memory.py] *)
Section tensor_bytes.
Context {tensor : Type} (numel element_size : tensor → Z).
Definition tensor_bytes (tensors : list tensor) : Z :=
  foldr (λ t acc, numel t * element_size t + acc) 0 tensors.
End tensor_bytes.

Record AdaptationMemoryLedger := {
  active_base : Z; master_fp32 : Z; gradients : Z; first_moments : Z; second_moments : Z;
  online_state : Z; staging : Z; training_activations : Z; kv_gather_scratch : Z;
  candidate_scratch : Z; graph_buffers : Z; telemetry : Z;
}.

Definition new_AdaptationMemoryLedger (l : AdaptationMemoryLedger)
    : result AdaptationMemoryLedger :=
  raise_if (existsb (λ v, v <? 0)
      [active_base l; master_fp32 l; gradients l; first_moments l; second_moments l;
       online_state l; staging l; training_activations l; kv_gather_scratch l;
       candidate_scratch l; graph_buffers l; telemetry l])
    (ValueError "memory categories cannot be negative") ;;
  Ok l.

Definition resident_bytes (l : AdaptationMemoryLedger) : Z :=
  active_base l + master_fp32 l + first_moments l + second_moments l
  + online_state l + staging l + graph_buffers l + telemetry l.

Definition peak_bytes (l : AdaptationMemoryLedger) : Z :=
  resident_bytes l + gradients l + training_activations l
  + kv_gather_scratch l + candidate_scratch l.

Definition kv_budget (l : AdaptationMemoryLedger) (available_bytes reserve_bytes : Z) : result Z :=
  raise_if ((available_bytes <? 0) || (reserve_bytes <? 0))
    (ValueError "memory budgets cannot be negative") ;;
  let remaining := available_bytes - reserve_bytes - peak_bytes l in
  raise_if (remaining <? 0) (MemoryError
    "adaptation reserve exceeds available HBM; no silent offload or mode downgrade is allowed") ;;
  Ok remaining.

(** ** [adaptation/governor.py]: the HBM half *)

(** [_require_bytes] and [_require_positive_int] on integers. *)
Definition require_bytes (name : string) (value : Z) : result unit :=
  raise_if (value <? 0) (ValueError (name +:+ " must be a non-negative integer byte count")) ;;
  Ok tt.
Definition require_positive_int (name : string) (value : Z) : result unit :=
  raise_if (value <? 1) (ValueError (name +:+ " must be a positive integer")) ;;
  Ok tt.

Record HBMLedger := {
  target_weights_bytes : Z; drafter_weights_bytes : Z;
  target_kv_bytes : Z; drafter_kv_bytes : Z;
  active_merged_parameters_bytes : Z; fp32_masters_bytes : Z; gradients_bytes : Z;
  optimizer_tensors_bytes : Z; candidate_bytes : Z; staging_bytes : Z;
  merge_scratch_bytes : Z; differentiable_activations_bytes : Z;
  graph_private_pools_bytes : Z; library_workspace_bytes : Z; nccl_buffers_bytes : Z;
  kv_gather_scratch_bytes : Z; backend_scratch_bytes : Z; telemetry_staging_bytes : Z;
  fragmentation_margin_bytes : Z; allocator_allocated_peak_bytes : Z;
  allocator_reserved_peak_bytes : Z; nvml_process_peak_bytes : Z; nvml_global_peak_bytes : Z;
}.

(** The loop over [__dict__]: the first negative field raises. *)
Fixpoint require_all_bytes (fields : list (string * Z)) : result unit :=
  match fields with
  | [] => Ok tt
  | (name, v) :: fields => _ <-! require_bytes name v ;; require_all_bytes fields
  end.

Definition HBMLedger_fields (l : HBMLedger) : list (string * Z) := [
  ("target_weights_bytes", target_weights_bytes l);
  ("drafter_weights_bytes", drafter_weights_bytes l);
  ("target_kv_bytes", target_kv_bytes l); ("drafter_kv_bytes", drafter_kv_bytes l);
  ("active_merged_parameters_bytes", active_merged_parameters_bytes l);
  ("fp32_masters_bytes", fp32_masters_bytes l); ("gradients_bytes", gradients_bytes l);
  ("optimizer_tensors_bytes", optimizer_tensors_bytes l);
  ("candidate_bytes", candidate_bytes l); ("staging_bytes", staging_bytes l);
  ("merge_scratch_bytes", merge_scratch_bytes l);
  ("differentiable_activations_bytes", differentiable_activations_bytes l);
  ("graph_private_pools_bytes", graph_private_pools_bytes l);
  ("library_workspace_bytes", library_workspace_bytes l);
  ("nccl_buffers_bytes", nccl_buffers_bytes l);
  ("kv_gather_scratch_bytes", kv_gather_scratch_bytes l);
  ("backend_scratch_bytes", backend_scratch_bytes l);
  ("telemetry_staging_bytes", telemetry_staging_bytes l);
  ("fragmentation_margin_bytes", fragmentation_margin_bytes l);
  ("allocator_allocated_peak_bytes", allocator_allocated_peak_bytes l);
  ("allocator_reserved_peak_bytes", allocator_reserved_peak_bytes l);
  ("nvml_process_peak_bytes", nvml_process_peak_bytes l);
  ("nvml_global_peak_bytes", nvml_global_peak_bytes l)].

Definition new_HBMLedger (l : HBMLedger) : result HBMLedger :=
  _ <-! require_all_bytes (HBMLedger_fields l) ;;
  raise_if (allocator_reserved_peak_bytes l <? allocator_allocated_peak_bytes l)
    (ValueError "allocator reserved peak cannot be below allocated peak") ;;
  raise_if (nvml_global_peak_bytes l <? nvml_process_peak_bytes l)
    (ValueError "NVML global use cannot be below this process use") ;;
  Ok l.

Definition predicted_resident_bytes (l : HBMLedger) : Z :=
  target_weights_bytes l + drafter_weights_bytes l + target_kv_bytes l + drafter_kv_bytes l
  + active_merged_parameters_bytes l + fp32_masters_bytes l + optimizer_tensors_bytes l
  + candidate_bytes l + staging_bytes l + graph_private_pools_bytes l
  + library_workspace_bytes l + nccl_buffers_bytes l + telemetry_staging_bytes l.

Definition predicted_peak_bytes (l : HBMLedger) : Z :=
  predicted_resident_bytes l
  + (gradients_bytes l + merge_scratch_bytes l + differentiable_activations_bytes l
     + kv_gather_scratch_bytes l + backend_scratch_bytes l + fragmentation_margin_bytes l).

Definition observed_process_peak_bytes (l : HBMLedger) : Z :=
  Z.max (Z.max (allocator_allocated_peak_bytes l) (allocator_reserved_peak_bytes l))
    (nvml_process_peak_bytes l).

Definition prediction_error_bytes (l : HBMLedger) : Z :=
  observed_process_peak_bytes l - predicted_peak_bytes l.

Definition adaptation_resident_bytes (l : HBMLedger) : Z :=
  active_merged_parameters_bytes l + fp32_masters_bytes l + optimizer_tensors_bytes l
  + candidate_bytes l + staging_bytes l + telemetry_staging_bytes l.

Record RankMemoryState := { rank : Z; capacity_bytes : Z; ledger : HBMLedger }.

Definition new_RankMemoryState (r : RankMemoryState) : result RankMemoryState :=
  raise_if (rank r <? 0) (ValueError "rank must be a non-negative integer") ;;
  _ <-! require_bytes "capacity_bytes" (capacity_bytes r) ;;
  raise_if (capacity_bytes r =? 0) (ValueError "rank HBM capacity must be positive") ;;
  raise_if (capacity_bytes r <? nvml_global_peak_bytes (ledger r))
    (ValueError "observed global HBM use exceeds device capacity") ;;
  Ok r.

Definition charged_peak_bytes (r : RankMemoryState) : Z :=
  Z.max (Z.max (predicted_peak_bytes (ledger r)) (observed_process_peak_bytes (ledger r)))
    (nvml_global_peak_bytes (ledger r)).

Record HBMAdmissionRequest := {
  adaptation_reserve_bytes : Z;
  req_target_kv_bytes : Z;
  req_drafter_kv_bytes : Z;
  safety_margin_bytes : Z;
}.

Definition new_HBMAdmissionRequest (q : HBMAdmissionRequest) : result HBMAdmissionRequest :=
  _ <-! require_all_bytes [
    ("adaptation_reserve_bytes", adaptation_reserve_bytes q);
    ("target_kv_bytes", req_target_kv_bytes q);
    ("drafter_kv_bytes", req_drafter_kv_bytes q);
    ("safety_margin_bytes", safety_margin_bytes q)] ;;
  Ok q.

Definition kv_bytes (q : HBMAdmissionRequest) : Z :=
  req_target_kv_bytes q + req_drafter_kv_bytes q.

Inductive HBMAdmissionReason : Set :=
  | HBM_ADMITTED
  | ADAPTATION_RESERVE_EXCEEDS_LEAST_RANK
  | KV_ADMISSION_EXCEEDS_LEAST_RANK.

Record RankHeadroom := {
  rh_rank : Z;
  rh_charged_peak_bytes : Z;
  after_adaptation_bytes : Z;
  projected_peak_bytes : Z;
  usable_limit_bytes : Z;
  headroom_bytes : Z;
}.

Record HBMAdmission := {
  hbm_admitted : bool;
  hbm_reason : HBMAdmissionReason;
  limiting_rank : Z;
  hbm_ranks : list RankHeadroom;
}.

(** [HBMGovernor.__init__]: exact coverage of the ranks, then sorted states. *)
Definition new_HBMGovernor (states : list RankMemoryState) (expected_ranks : Z)
    : result (list RankMemoryState) :=
  _ <-! require_positive_int "expected_ranks" expected_ranks ;;
  let ranks := map rank states in
  raise_if (negb (bool_decide (NoDup ranks))) (ValueError "duplicate rank memory state") ;;
  raise_if (negb (bool_decide
      (list_to_set ranks =@{gset Z} list_to_set (seqZ 0 expected_ranks))))
    (ValueError "memory state lacks exact all-rank coverage") ;;
  Ok (sorted_by rank states).

(** One row of the loop of [assess]. *)
Definition headroom_row (q : HBMAdmissionRequest) (r : RankMemoryState) : RankHeadroom :=
  let usable := capacity_bytes r - safety_margin_bytes q in
  let after_adaptation := charged_peak_bytes r + adaptation_reserve_bytes q in
  let projected := after_adaptation + kv_bytes q in
  {| rh_rank := rank r; rh_charged_peak_bytes := charged_peak_bytes r;
     after_adaptation_bytes := after_adaptation; projected_peak_bytes := projected;
     usable_limit_bytes := usable; headroom_bytes := usable - projected |}.

Definition row_key (w : RankHeadroom) : Z * Z := (headroom_bytes w, rh_rank w).

Definition assess (states : list RankMemoryState) (q : HBMAdmissionRequest)
    : result HBMAdmission :=
  let rows := map (headroom_row q) states in
  let adaptation_fits :=
    forallb (λ w, after_adaptation_bytes w <=? usable_limit_bytes w) rows in
  match min_by row_key rows with
  | None => Raise (ValueError "min() iterable argument is empty")
  | Some limiting =>
    let admitted := 0 <=? headroom_bytes limiting in
    let reason :=
      if admitted then HBM_ADMITTED
      else if negb adaptation_fits then ADAPTATION_RESERVE_EXCEEDS_LEAST_RANK
      else KV_ADMISSION_EXCEEDS_LEAST_RANK in
    Ok {| hbm_admitted := admitted; hbm_reason := reason;
          limiting_rank := rh_rank limiting; hbm_ranks := rows |}
  end.

(** The ordered pressure plan. *)
Inductive MemoryPressureAction : Set :=
  | PRESERVE_IMMUTABLE_AND_CORRECTNESS
  | PRESERVE_ACTIVE_KV_AND_PUBLISHED_STATE
  | EVICT_NATIVE_INACTIVE_PREFIX
  | ABORT_PENDING_ADAPTATION
  | QUEUE_OR_REJECT_NEW_WORK
  | OFFLOAD_COLD_INACTIVE_COHORT.

Definition action_value (a : MemoryPressureAction) : Z :=
  match a with
  | PRESERVE_IMMUTABLE_AND_CORRECTNESS => 1
  | PRESERVE_ACTIVE_KV_AND_PUBLISHED_STATE => 2
  | EVICT_NATIVE_INACTIVE_PREFIX => 3
  | ABORT_PENDING_ADAPTATION => 4
  | QUEUE_OR_REJECT_NEW_WORK => 5
  | OFFLOAD_COLD_INACTIVE_COHORT => 6
  end.

Definition pressure_plan (allow_cold_offload : bool) : list (MemoryPressureAction * string) :=
  [(PRESERVE_IMMUTABLE_AND_CORRECTNESS, "preserve_immutable_runtime_and_active_correctness");
   (PRESERVE_ACTIVE_KV_AND_PUBLISHED_STATE, "preserve_active_kv_and_published_cohort");
   (EVICT_NATIVE_INACTIVE_PREFIX, "evict_native_inactive_prefix_only");
   (ABORT_PENDING_ADAPTATION, "abort_pending_adaptation_release_temporary_state");
   (QUEUE_OR_REJECT_NEW_WORK, "queue_or_reject_new_work")]
  ++ (if allow_cold_offload
      then [(OFFLOAD_COLD_INACTIVE_COHORT, "cold_inactive_timed_offload")] else []).

(** ** Lemmas *)
Lemma new_HBMGovernor_Ok states n sorted :
  new_HBMGovernor states n = Ok sorted ↔
    1 <= n ∧ NoDup (map rank states)
    ∧ (∀ r, r ∈ map rank states ↔ 0 <= r < n) ∧ sorted = sorted_by rank states.
Proof.
  unfold new_HBMGovernor, require_positive_int. split.
  - destruct (Z.ltb_spec n 1); [done|].
    destruct (bool_decide (NoDup _)) eqn:Hnd; [|done].
    destruct (bool_decide (_ = _)) eqn:Hcov; [|done]. bools. intros [= <-].
    split_and!; [done|done| |done]. intros r.
    rewrite <- (elem_of_list_to_set (C:=gset Z)), Hcov, elem_of_list_to_set, elem_of_seqZ. lia.
  - intros (Hn & Hnd & Hcov & ->). rewrite (proj2 (Z.ltb_ge n 1)) by lia.
    rewrite bool_decide_eq_true_2 by done. rewrite bool_decide_eq_true_2; [done|].
    apply set_eq. intros r. rewrite !elem_of_list_to_set, Hcov, elem_of_seqZ. lia.
Qed.

Lemma governor_nonempty states n sorted : new_HBMGovernor states n = Ok sorted → sorted ≠ [].
Proof.
  intros (Hn & _ & Hcov & ->)%new_HBMGovernor_Ok E.
  assert (0 ∈ map rank states) as H0 by (apply Hcov; lia).
  apply list_elem_of_fmap in H0 as (r & _ & Hr). rewrite <- (elem_of_sorted_by rank), E in Hr.
  by apply elem_of_nil in Hr.
Qed.

Lemma assess_total states q : states ≠ [] → ∃ a, assess states q = Ok a.
Proof.
  intros Hne. unfold assess.
  destruct (min_by row_key (map (headroom_row q) states)) eqn:E; [by eexists|].
  apply min_by_None in E. by destruct states.
Qed.

(** Everything [assess] decides, stated over the rank states. *)
Lemma assess_spec states q a :
  assess states q = Ok a →
  hbm_ranks a = map (headroom_row q) states
  ∧ (∃ r, r ∈ states ∧ rank r = limiting_rank a
       ∧ hbm_admitted a = (0 <=? headroom_bytes (headroom_row q r))
       ∧ ∀ r', r' ∈ states → pyle (row_key (headroom_row q r)) (row_key (headroom_row q r')))
  ∧ hbm_reason a =
      if hbm_admitted a then HBM_ADMITTED
      else if forallb (λ r, charged_peak_bytes r + adaptation_reserve_bytes q
                <=? capacity_bytes r - safety_margin_bytes q) states
           then KV_ADMISSION_EXCEEDS_LEAST_RANK else ADAPTATION_RESERVE_EXCEEDS_LEAST_RANK.
Proof.
  unfold assess. destruct (min_by row_key _) as [w|] eqn:E; [|done]. intros [= <-]. cbn.
  apply min_by_Some in E as [Hw Hmin].
  apply list_elem_of_fmap in Hw as (r & -> & Hr). split_and!; [done| |].
  - exists r. split_and!; [done..|]. intros r' Hr'. apply Hmin. by apply list_elem_of_fmap_2.
  - destruct (0 <=? _); [done|]. rewrite forallb_map. cbn. by destruct (forallb _ _).
Qed.

Lemma pyle_pair_Z (a b c d : Z) : pyle (a, b) (c, d) ↔ a < c ∨ a = c ∧ b <= d.
Proof.
  unfold pyle, pycmp, pair_ord, pycmp, Z_ord. cbn.
  destruct (Z.compare_spec a c); [rewrite Z.compare_gt_iff; lia|..]; naive_solver lia.
Qed.

(** ** Properties *)

(** All-rank admission.  A governor built for [n] ranks answers every
    request; it admits exactly when on every rank the charged peak, the
    adaptation reserve, the KV bytes and the safety margin fit the capacity
    together; it blames the rank with the least headroom (the lowest-numbered
    one among equals); and it reports the adaptation reserve as the cause
    exactly when that reserve alone already overflows some rank. *)
Theorem governor_admits_least_rank states n sorted q :
  new_HBMGovernor states n = Ok sorted →
  ∃ a, assess sorted q = Ok a
    ∧ (hbm_admitted a = true ↔ ∀ r, r ∈ states →
         charged_peak_bytes r + adaptation_reserve_bytes q + kv_bytes q + safety_margin_bytes q
         <= capacity_bytes r)
    ∧ (∃ r, r ∈ states ∧ rank r = limiting_rank a ∧ ∀ r', r' ∈ states →
         headroom_bytes (headroom_row q r) < headroom_bytes (headroom_row q r')
         ∨ headroom_bytes (headroom_row q r) = headroom_bytes (headroom_row q r')
           ∧ rank r <= rank r')
    ∧ (hbm_reason a = HBM_ADMITTED ↔ hbm_admitted a = true)
    ∧ (hbm_reason a = ADAPTATION_RESERVE_EXCEEDS_LEAST_RANK ↔ hbm_admitted a = false
         ∧ ∃ r, r ∈ states ∧ capacity_bytes r
             < charged_peak_bytes r + adaptation_reserve_bytes q + safety_margin_bytes q).
Proof.
  intros HG. destruct (assess_total sorted q) as [a Ha]; [by eapply governor_nonempty|].
  exists a. split; [done|]. apply new_HBMGovernor_Ok in HG as (_ & _ & _ & ->).
  destruct (assess_spec _ _ _ Ha) as (_ & (r & Hr & Hrank & Hadm & Hmin) & Hreason).
  rewrite elem_of_sorted_by in Hr. setoid_rewrite elem_of_sorted_by in Hmin.
  setoid_rewrite pyle_pair_Z in Hmin. split_and!.
  - rewrite Hadm, Z.leb_le. split.
    + intros H0 r' Hr'. specialize (Hmin r' Hr'). cbn in *. lia.
    + intros H. specialize (H r Hr). cbn. lia.
  - by exists r.
  - rewrite Hreason. destruct (hbm_admitted a); [done|]. by case_match.
  - rewrite Hreason. destruct (hbm_admitted a); [naive_solver|].
    destruct (forallb _ _) eqn:Hf.
    + rewrite forallb_elem_of in Hf. split; [done|]. intros (_ & r' & Hr' & Hlt).
      rewrite <- (elem_of_sorted_by rank) in Hr'. apply Hf in Hr'. bools. lia.
    + split; [|done]. intros _. split; [done|].
      apply not_true_iff_false in Hf. rewrite forallb_elem_of in Hf.
      destruct (decide (Exists (λ r, capacity_bytes r < charged_peak_bytes r
        + adaptation_reserve_bytes q + safety_margin_bytes q) states)) as [Hx|Hx].
      { by apply Exists_exists in Hx. }
      exfalso. apply Hf. intros r' Hr'%elem_of_sorted_by.
      apply Z.leb_le. rewrite Exists_exists in Hx.
      destruct (Z.le_gt_cases (charged_peak_bytes r' + adaptation_reserve_bytes q)
        (capacity_bytes r' - safety_margin_bytes q)); [done|].
      exfalso. apply Hx. exists r'. split; [done|]. lia.
Qed.

(** The KV budget is what is left: a budget is returned exactly when the
    arguments are non-negative and the peak and the reserve fit, it is never
    negative, and with the peak and the reserve it adds up to the available
    bytes; an overflow raises [MemoryError], never a smaller mode. *)
Theorem kv_budget_exact l available reserve :
  match kv_budget l available reserve with
  | Ok b => 0 <= available ∧ 0 <= reserve ∧ 0 <= b ∧ b + peak_bytes l + reserve = available
  | Raise (MemoryError _) =>
      0 <= available ∧ 0 <= reserve ∧ available < reserve + peak_bytes l
  | Raise _ => available < 0 ∨ reserve < 0
  end.
Proof.
  unfold kv_budget.
  destruct (Z.ltb_spec available 0), (Z.ltb_spec reserve 0); cbn [orb]; try lia.
  destruct (Z.ltb_spec (available - reserve - peak_bytes l) 0); lia.
Qed.

(** ** Witnesses *)
Definition ledger0 (weights observed : Z) : HBMLedger := {|
  target_weights_bytes := weights; drafter_weights_bytes := 10;
  target_kv_bytes := 0; drafter_kv_bytes := 0;
  active_merged_parameters_bytes := 1; fp32_masters_bytes := 2; gradients_bytes := 2;
  optimizer_tensors_bytes := 4; candidate_bytes := 1; staging_bytes := 1;
  merge_scratch_bytes := 0; differentiable_activations_bytes := 3;
  graph_private_pools_bytes := 0; library_workspace_bytes := 0; nccl_buffers_bytes := 0;
  kv_gather_scratch_bytes := 0; backend_scratch_bytes := 0; telemetry_staging_bytes := 0;
  fragmentation_margin_bytes := 0; allocator_allocated_peak_bytes := 0;
  allocator_reserved_peak_bytes := 0; nvml_process_peak_bytes := observed;
  nvml_global_peak_bytes := observed |}.
Definition rank_states0 : list RankMemoryState := [
  {| rank := 1; capacity_bytes := 100; ledger := ledger0 20 60 |};
  {| rank := 0; capacity_bytes := 100; ledger := ledger0 20 0 |}].
Definition request0 : HBMAdmissionRequest := {|
  adaptation_reserve_bytes := 10; req_target_kv_bytes := 20; req_drafter_kv_bytes := 5;
  safety_margin_bytes := 8 |}.

Lemma governor_admits_least_rank_witness :
  new_HBMGovernor rank_states0 2 = Ok (sorted_by rank rank_states0)
  ∧ ∃ a, assess (sorted_by rank rank_states0) request0 = Ok a
      ∧ (hbm_reason a = HBM_ADMITTED ↔ hbm_admitted a = true).
Proof.
  split; [vm_compute; reflexivity|].
  destruct (governor_admits_least_rank rank_states0 2 (sorted_by rank rank_states0) request0)
    as (a & Ha & _ & _ & Hr & _); [vm_compute; reflexivity|]. by exists a.
Defined.

Example governor_rejects_on_the_busy_rank :
  (a <-! assess (sorted_by rank rank_states0) request0 ;;
   Ok (hbm_admitted a, hbm_reason a, limiting_rank a))
  = Ok (false, KV_ADMISSION_EXCEEDS_LEAST_RANK, 1).
Proof. vm_compute. reflexivity. Qed.
