(* ===== verification/SlabManager.v ===== *)
(** * Bounded cohort-state manager ([adaptation/governor.py], second half)

    Fixed slabs, tenant quotas, TTL and LRU reclamation and the optional cold
    tier, one definition per method of [BoundedCohortStateManager].  Times are
    binary64 floats.  The dict of states is a map keyed by [CohortStateKey]; no
    method lets a state object escape, [snapshot] copies it. *)
From S2P Require Import Prelude PyFloat Memory.

Inductive CohortOffloadMode : Set := OFFLOAD_DISABLED | COLD_INACTIVE_TIMED.
#[export] Instance CohortOffloadMode_eq_dec : EqDecision CohortOffloadMode.
Proof. solve_decision. Defined.

Record CohortStateKey := { tenant_id : string; cohort_sha256 : string; replica_id : Z }.
#[export] Instance CohortStateKey_eq_dec : EqDecision CohortStateKey.
Proof. solve_decision. Defined.
#[export] Instance CohortStateKey_countable : Countable CohortStateKey.
Proof.
  refine (inj_countable' (λ k, (tenant_id k, cohort_sha256 k, replica_id k))
    (λ '(t, c, r), {| tenant_id := t; cohort_sha256 := c; replica_id := r |}) _).
  by intros [].
Defined.

Definition new_CohortStateKey (k : CohortStateKey) : result CohortStateKey :=
  raise_if (negb (is_canonical_text (tenant_id k)))
    (ValueError "tenant_id must be a non-empty canonical identifier") ;;
  raise_if (negb (is_hash 64 (cohort_sha256 k)))
    (ValueError "cohort_sha256 must be a lowercase SHA-256") ;;
  raise_if (replica_id k <? 0) (ValueError "replica_id must be a non-negative integer") ;;
  Ok k.

(** [_CohortState]; [CohortStateSnapshot] has the same fields and the expiry. *)
Record CohortState := {
  key : CohortStateKey;
  slab_id : option Z;
  st_slab_bytes : Z;
  version : Z;
  created_at : pyfloat;
  last_used_at : pyfloat;
  active_requests : Z;
  offloaded : bool;
}.

Record CohortStateSnapshot := { snap_state : CohortState; expires_at : pyfloat }.

Inductive CohortAdmissionReason : Set :=
  | ADMITTED | ALREADY_RESIDENT | UNKNOWN_TENANT | TENANT_QUOTA | CAPACITY
  | OFFLOADED_RESTORE_REQUIRED.
#[export] Instance CohortAdmissionReason_eq_dec : EqDecision CohortAdmissionReason.
Proof. solve_decision. Defined.

Record CohortAdmission := {
  admitted : bool;
  reason : CohortAdmissionReason;
  state : option CohortStateSnapshot;
}.

Record CohortReclamationReceipt := {
  rr_key : CohortStateKey; rr_slab_id : option Z; reason_code : string; reclaimed_at : pyfloat }.

Record CohortTransferReceipt := {
  tr_key : CohortStateKey; operation : string; tr_slab_id : Z; bytes_transferred : Z;
  started_at : pyfloat; completed_at : pyfloat; mode : CohortOffloadMode }.

Record Manager := {
  capacity : Z;
  slab_bytes : Z;
  tenant_quotas : gmap string Z;
  ttl_seconds : pyfloat;
  offload_mode : CohortOffloadMode;
  offloaded_capacity : Z;
  free_slabs : gset Z;
  states : gmap CohortStateKey CohortState;
}.

Definition set_tables (free : gset Z) (sts : gmap CohortStateKey CohortState) (m : Manager)
    : Manager := {|
  capacity := capacity m; slab_bytes := slab_bytes m; tenant_quotas := tenant_quotas m;
  ttl_seconds := ttl_seconds m; offload_mode := offload_mode m;
  offloaded_capacity := offloaded_capacity m; free_slabs := free; states := sts |}.

(** [_require_time]. *)
Definition require_time (name : string) (t : pyfloat) : result unit :=
  raise_if (negb (ffinite t) || flt t fzero)
    (ValueError (name +:+ " must be a finite non-negative time")) ;;
  Ok tt.

(** The quota loop of [__init__] over the items of the mapping. *)
Fixpoint check_quotas (cap : Z) (items : list (string * Z)) : result (gmap string Z) :=
  match items with
  | [] => Ok ∅
  | (tenant, quota) :: items =>
    raise_if (negb (is_canonical_text tenant))
      (ValueError "tenant quota identity is not canonical") ;;
    _ <-! require_positive_int "tenant quota" quota ;;
    raise_if (cap <? quota) (ValueError "tenant quota cannot exceed bounded K capacity") ;;
    rest <-! check_quotas cap items ;;
    Ok (<[tenant := quota]> rest)
  end.

Definition new_Manager (cap bytes : Z) (quotas : list (string * Z)) (ttl : pyfloat)
    (mode : CohortOffloadMode) (cold_capacity : Z) : result Manager :=
  _ <-! require_positive_int "capacity" cap ;;
  _ <-! require_bytes "slab_bytes" bytes ;;
  raise_if (bytes =? 0) (ValueError "slab_bytes must be positive") ;;
  _ <-! require_time "ttl_seconds" ttl ;;
  raise_if (feq ttl fzero) (ValueError "ttl_seconds must be positive") ;;
  raise_if (match quotas with [] => true | _ => false end)
    (ValueError "at least one tenant quota is required") ;;
  _ <-! require_bytes "offloaded_capacity" cold_capacity ;;
  raise_if (bool_decide (mode = OFFLOAD_DISABLED) && negb (cold_capacity =? 0))
    (ValueError "disabled offload mode cannot reserve a host tier") ;;
  raise_if (bool_decide (mode = COLD_INACTIVE_TIMED) && (cold_capacity =? 0))
    (ValueError "cold offload requires an explicit bounded host tier") ;;
  checked <-! check_quotas cap quotas ;;
  Ok {| capacity := cap; slab_bytes := bytes; tenant_quotas := checked; ttl_seconds := ttl;
        offload_mode := mode; offloaded_capacity := cold_capacity;
        free_slabs := list_to_set (seqZ 0 cap); states := ∅ |}.

(** ** Counters *)
Definition is_resident (st : CohortState) : bool := bool_decide (slab_id st ≠ None).
Definition resident_count (m : Manager) : Z := Z.of_nat (count_if is_resident (states m)).
Definition state_count (m : Manager) : Z := Z.of_nat (size (states m)).
Definition offloaded_count (m : Manager) : Z := Z.of_nat (count_if offloaded (states m)).
Definition tenant_resident (tenant : string) (st : CohortState) : bool :=
  bool_decide (tenant_id (key st) = tenant) && negb (offloaded st).

(** [min(self._free_slabs)]. *)
Definition min_slab (free : gset Z) : option Z := min_by (λ s : Z, s) (elements free).

(** ** Operations *)
Definition snapshot_of (m : Manager) (st : CohortState) : CohortStateSnapshot :=
  {| snap_state := st; expires_at := fadd (last_used_at st) (ttl_seconds m) |}.

Definition snapshot (k : CohortStateKey) (m : Manager) : option CohortStateSnapshot :=
  snapshot_of m <$> states m !! k.

Definition touch (now : pyfloat) (st : CohortState) : CohortState := {|
  key := key st; slab_id := slab_id st; st_slab_bytes := st_slab_bytes st;
  version := version st; created_at := created_at st;
  last_used_at := fmax (last_used_at st) now;
  active_requests := active_requests st; offloaded := offloaded st |}.
Definition set_active (n : Z) (st : CohortState) : CohortState := {|
  key := key st; slab_id := slab_id st; st_slab_bytes := st_slab_bytes st;
  version := version st; created_at := created_at st; last_used_at := last_used_at st;
  active_requests := n; offloaded := offloaded st |}.
Definition set_version (v : Z) (st : CohortState) : CohortState := {|
  key := key st; slab_id := slab_id st; st_slab_bytes := st_slab_bytes st;
  version := v; created_at := created_at st; last_used_at := last_used_at st;
  active_requests := active_requests st; offloaded := offloaded st |}.
Definition set_slab (s : option Z) (cold : bool) (st : CohortState) : CohortState := {|
  key := key st; slab_id := s; st_slab_bytes := st_slab_bytes st;
  version := version st; created_at := created_at st; last_used_at := last_used_at st;
  active_requests := active_requests st; offloaded := cold |}.

(** Assignments to the fields of the state stored under [k]. *)
Definition put (k : CohortStateKey) (st : CohortState) (m : Manager) : Manager :=
  set_tables (free_slabs m) (<[k := st]> (states m)) m.

Definition refuse (r : CohortAdmissionReason) (m : Manager) : result CohortAdmission * Manager :=
  (Ok {| admitted := false; reason := r; state := None |}, m).

Definition admit_ (k : CohortStateKey) (now : pyfloat) (ver : Z) (m : Manager)
    : result CohortAdmission * Manager :=
  match require_time "now" now with
  | Raise e => (Raise e, m)
  | Ok _ =>
    raise_in m if (ver <? 0) (ValueError "version must be a non-negative integer") ;;
    match states m !! k with
    | Some existing =>
      if offloaded existing then
        (Ok {| admitted := false; reason := OFFLOADED_RESTORE_REQUIRED;
               state := Some (snapshot_of m existing) |}, m)
      else
        let existing := touch now existing in
        (Ok {| admitted := true; reason := ALREADY_RESIDENT;
               state := Some (snapshot_of m existing) |}, put k existing m)
    | None =>
      match tenant_quotas m !! tenant_id k with
      | None => refuse UNKNOWN_TENANT m
      | Some quota =>
        let tenant_resident_count :=
          Z.of_nat (count_if (tenant_resident (tenant_id k)) (states m)) in
        if quota <=? tenant_resident_count then refuse TENANT_QUOTA m
        else if (capacity m + offloaded_capacity m <=? state_count m)
             || (capacity m <=? resident_count m)
             || bool_decide (free_slabs m = ∅)
        then refuse CAPACITY m
        else
          match min_slab (free_slabs m) with
          | None => (Raise (ValueError "min() iterable argument is empty"), m)
          | Some slab =>
            let st := {| key := k; slab_id := Some slab; st_slab_bytes := slab_bytes m;
                         version := ver; created_at := now; last_used_at := now;
                         active_requests := 0; offloaded := false |} in
            (Ok {| admitted := true; reason := ADMITTED; state := Some (snapshot_of m st) |},
             set_tables (free_slabs m ∖ {[slab]}) (<[k := st]> (states m)) m)
          end
      end
    end
  end.

Definition missing : exn := KeyError "cohort state does not exist for this tenant identity".

Definition acquire (k : CohortStateKey) (now : pyfloat) (m : Manager)
    : result CohortStateSnapshot * Manager :=
  match require_time "now" now with
  | Raise e => (Raise e, m)
  | Ok _ =>
    match states m !! k with
    | None => (Raise missing, m)
    | Some st =>
      raise_in m if (offloaded st || bool_decide (slab_id st = None))
        (RuntimeError "cold cohort state must be restored before acquisition") ;;
      let st := touch now (set_active (active_requests st + 1) st) in
      (Ok (snapshot_of m st), put k st m)
    end
  end.

Definition release (k : CohortStateKey) (now : pyfloat) (m : Manager)
    : result CohortStateSnapshot * Manager :=
  match require_time "now" now with
  | Raise e => (Raise e, m)
  | Ok _ =>
    match states m !! k with
    | None => (Raise missing, m)
    | Some st =>
      raise_in m if (active_requests st =? 0)
        (RuntimeError "cohort state has no active request to release") ;;
      let st := touch now (set_active (active_requests st - 1) st) in
      (Ok (snapshot_of m st), put k st m)
    end
  end.

Definition publish_version (k : CohortStateKey) (source_version new_version : Z)
    (now : pyfloat) (m : Manager) : result CohortStateSnapshot * Manager :=
  match require_time "now" now with
  | Raise e => (Raise e, m)
  | Ok _ =>
    match states m !! k with
    | None => (Raise (RuntimeError "only resident cohort state can publish"), m)
    | Some st =>
      raise_in m if (offloaded st) (RuntimeError "only resident cohort state can publish") ;;
      raise_in m if (negb (version st =? source_version)
                     || negb (new_version =? source_version + 1))
        (ValueError "cohort publication version conflict") ;;
      let st := touch now (set_version new_version st) in
      (Ok (snapshot_of m st), put k st m)
    end
  end.

Definition reclaim (k : CohortStateKey) (now : pyfloat) (code : string) (m : Manager)
    : result CohortReclamationReceipt * Manager :=
  match require_time "now" now with
  | Raise e => (Raise e, m)
  | Ok _ =>
    raise_in m if (negb (is_canonical_text code))
      (ValueError "reclamation requires a canonical reason code") ;;
    match states m !! k with
    | None => (Raise missing, m)
    | Some st =>
      raise_in m if (negb (active_requests st =? 0))
        (RuntimeError "active cohort state cannot be reclaimed") ;;
      let free := match slab_id st with
                  | Some s => free_slabs m ∪ {[s]} | None => free_slabs m end in
      (Ok {| rr_key := k; rr_slab_id := slab_id st; reason_code := code; reclaimed_at := now |},
       set_tables free (delete k (states m)) m)
    end
  end.

(** [tuple(self.reclaim(state.key, ...) for state in victims)]. *)
Fixpoint reclaim_all (victims : list CohortState) (now : pyfloat) (code : string) (m : Manager)
    : result (list CohortReclamationReceipt) * Manager :=
  match victims with
  | [] => (Ok [], m)
  | st :: victims =>
    r @ m <-! reclaim (key st) now code m ;;
    rs @ m <-! reclaim_all victims now code m ;;
    (Ok (r :: rs), m)
  end.

Definition expired_key (st : CohortState) : pyfloat * (string * (string * Z)) :=
  (last_used_at st,
   (tenant_id (key st), (cohort_sha256 (key st), replica_id (key st)))).
Definition lru_key (st : CohortState) : pyfloat * (pyfloat * (string * (string * Z))) :=
  (last_used_at st, (created_at st,
   (tenant_id (key st), (cohort_sha256 (key st), replica_id (key st))))).

Definition state_values (m : Manager) : list CohortState := map snd (map_to_list (states m)).

Definition is_expired (m : Manager) (now : pyfloat) (st : CohortState) : bool :=
  (active_requests st =? 0) && fle (fadd (last_used_at st) (ttl_seconds m)) now.

Definition reclaim_expired (now : pyfloat) (m : Manager)
    : result (list CohortReclamationReceipt) * Manager :=
  match require_time "now" now with
  | Raise e => (Raise e, m)
  | Ok _ =>
    let expired := sorted_by expired_key
      (filter (λ st, is_expired m now st = true) (state_values m)) in
    reclaim_all expired now "ttl_expired" m
  end.

Definition reclaim_lru (count : Z) (now : pyfloat) (m : Manager)
    : result (list CohortReclamationReceipt) * Manager :=
  match require_positive_int "count" count with
  | Raise e => (Raise e, m)
  | Ok _ =>
    match require_time "now" now with
    | Raise e => (Raise e, m)
    | Ok _ =>
      let candidates := sorted_by lru_key
        (filter (λ st, (active_requests st =? 0) = true) (state_values m)) in
      reclaim_all (take (Z.to_nat count) candidates) now "lru_reclaimed" m
    end
  end.

(** The checks [offload_cold] and [restore_cold] share. *)
Definition check_transfer (started completed : pyfloat) (late : string) (m : Manager)
    : result unit :=
  raise_if (negb (bool_decide (offload_mode m = COLD_INACTIVE_TIMED)))
    (RuntimeError "cold offload mode is not explicitly enabled") ;;
  _ <-! require_time "started_at" started ;;
  _ <-! require_time "completed_at" completed ;;
  raise_if (flt completed started) (ValueError late) ;;
  Ok tt.

Definition transfer_receipt (k : CohortStateKey) (op : string) (slab bytes : Z)
    (started completed : pyfloat) (m : Manager) : CohortTransferReceipt := {|
  tr_key := k; operation := op; tr_slab_id := slab; bytes_transferred := bytes;
  started_at := started; completed_at := completed; mode := offload_mode m |}.

Definition offload_cold (k : CohortStateKey) (started completed : pyfloat) (m : Manager)
    : result CohortTransferReceipt * Manager :=
  match check_transfer started completed "offload completion precedes its start" m with
  | Raise e => (Raise e, m)
  | Ok _ =>
    match states m !! k with
    | None => (Raise missing, m)
    | Some st =>
      raise_in m if (negb (active_requests st =? 0))
        (RuntimeError "active cohort state cannot be offloaded") ;;
      match slab_id st with
      | None => (Raise (RuntimeError "cohort state is already offloaded"), m)
      | Some slab =>
        raise_in m if (offloaded st) (RuntimeError "cohort state is already offloaded") ;;
        raise_in m if (offloaded_capacity m <=? offloaded_count m)
          (MemoryError "bounded cold-host cohort tier is full") ;;
        let st' := touch completed (set_slab None true st) in
        (Ok (transfer_receipt k "cold_offload" slab (st_slab_bytes st) started completed m),
         set_tables (free_slabs m ∪ {[slab]}) (<[k := st']> (states m)) m)
      end
    end
  end.

Definition restore_cold (k : CohortStateKey) (started completed : pyfloat) (m : Manager)
    : result CohortTransferReceipt * Manager :=
  match check_transfer started completed "restore completion precedes its start" m with
  | Raise e => (Raise e, m)
  | Ok _ =>
    match states m !! k with
    | None => (Raise missing, m)
    | Some st =>
      raise_in m if (negb (offloaded st) || bool_decide (slab_id st ≠ None))
        (RuntimeError "cohort state is already resident") ;;
      match min_slab (free_slabs m) with
      | None => (Raise (MemoryError "no fixed cohort slab is available for restore"), m)
      | Some slab =>
        let st' := touch completed (set_slab (Some slab) false st) in
        (Ok (transfer_receipt k "cold_restore" slab (st_slab_bytes st) started completed m),
         set_tables (free_slabs m ∖ {[slab]}) (<[k := st']> (states m)) m)
      end
    end
  end.

(** ** The slab invariant *)
Definition holds_slab (m : Manager) (k : CohortStateKey) (s : Z) : Prop :=
  ∃ st, states m !! k = Some st ∧ slab_id st = Some s.

Definition state_ok (m : Manager) (k : CohortStateKey) (st : CohortState) : Prop :=
  key st = k ∧ st_slab_bytes st = slab_bytes m ∧ 0 ≤ active_requests st ∧ 0 ≤ version st ∧
  (offloaded st = true ↔ slab_id st = None) ∧ (offloaded st = true → active_requests st = 0).

Record manager_inv (m : Manager) : Prop := {
  inv_caps : 0 < capacity m ∧ 0 < slab_bytes m ∧ 0 ≤ offloaded_capacity m;
  inv_state : ∀ k st, states m !! k = Some st → state_ok m k st;
  (** a slab is in the free set exactly when no state holds it *)
  inv_free : ∀ s, s ∈ free_slabs m ↔ 0 ≤ s < capacity m ∧ ∀ k, ¬ holds_slab m k s;
  inv_range : ∀ k s, holds_slab m k s → 0 ≤ s < capacity m;
  inv_owner : ∀ k1 k2 s, holds_slab m k1 s → holds_slab m k2 s → k1 = k2;
  inv_count : Z.of_nat (size (free_slabs m)) + resident_count m = capacity m;
  inv_cold : offloaded_count m ≤ offloaded_capacity m;
}.

Definition set_states_lookup (f : gset Z) (sts : gmap CohortStateKey CohortState) (m : Manager) :
  states (set_tables f sts m) = sts := eq_refl.

Lemma holds_slab_insert f m k st' k2 s :
  holds_slab (set_tables f (<[k := st']> (states m)) m) k2 s ↔
  (k2 = k ∧ slab_id st' = Some s) ∨ (k2 ≠ k ∧ holds_slab m k2 s).
Proof.
  unfold holds_slab; cbn. destruct (decide (k2 = k)) as [->|Hne].
  - rewrite lookup_insert_eq. naive_solver.
  - rewrite lookup_insert_ne by done. naive_solver.
Qed.

Lemma holds_slab_delete f m k k2 s :
  holds_slab (set_tables f (delete k (states m)) m) k2 s ↔ k2 ≠ k ∧ holds_slab m k2 s.
Proof.
  unfold holds_slab; cbn. destruct (decide (k2 = k)) as [->|Hne].
  - rewrite lookup_delete_eq. naive_solver.
  - rewrite lookup_delete_ne by done. naive_solver.
Qed.

Lemma not_holds_absent m k s : states m !! k = None → ¬ holds_slab m k s.
Proof. intros H (st & H' & _). congruence. Qed.

Lemma is_resident_true st : is_resident st = true ↔ slab_id st ≠ None.
Proof. apply bool_decide_eq_true. Qed.

Lemma resident_b2n st :
  Nat.b2n (is_resident st) = match slab_id st with Some _ => 1%nat | None => 0%nat end.
Proof. unfold is_resident. by destruct (slab_id st). Qed.

Section preservation.
Context (m : Manager) (Hinv : manager_inv m).
Implicit Types (k : CohortStateKey) (st : CohortState) (s : Z).

Lemma state_ok_tables f sts k st : state_ok (set_tables f sts m) k st ↔ state_ok m k st.
Proof. done. Qed.

Lemma state_ok_insert f k st' :
  state_ok m k st' →
  ∀ k2 st2, states (set_tables f (<[k := st']> (states m)) m) !! k2 = Some st2 →
  state_ok (set_tables f (<[k := st']> (states m)) m) k2 st2.
Proof.
  intros Hok k2 st2. cbn. rewrite state_ok_tables, lookup_insert_Some.
  intros [(<- & <-)|(_ & H)]; [done|by apply (inv_state m Hinv)].
Qed.

(** Fields other than the slab change. *)
Lemma inv_keep k st st' :
  states m !! k = Some st → slab_id st' = slab_id st → offloaded st' = offloaded st →
  state_ok m k st' → manager_inv (put k st' m).
Proof.
  intros Hk Hs Ho Hok. destruct Hinv as [C S F R O N L]. unfold put.
  assert (Heq : ∀ k2 s, holds_slab (set_tables (free_slabs m) (<[k := st']> (states m)) m) k2 s
                        ↔ holds_slab m k2 s).
  { intros k2 s. rewrite holds_slab_insert, Hs. unfold holds_slab.
    destruct (decide (k2 = k)) as [->|]; naive_solver. }
  split; [done|by apply state_ok_insert| | | | |].
  - intros s. setoid_rewrite Heq. apply F.
  - intros k2 s. rewrite Heq. apply R.
  - intros k1 k2 s. rewrite !Heq. apply O.
  - revert N. unfold resident_count; cbn.
    pose proof (count_if_update is_resident _ k st st' Hk) as U.
    rewrite !resident_b2n, Hs in U. lia.
  - revert L. unfold offloaded_count; cbn.
    pose proof (count_if_update offloaded _ k st st' Hk) as U. rewrite Ho in U. lia.
Qed.

(** A state without a slab receives the free slab [s]. *)
Lemma inv_give k st' s :
  (∀ st, states m !! k = Some st → slab_id st = None) →
  s ∈ free_slabs m → slab_id st' = Some s → offloaded st' = false → state_ok m k st' →
  manager_inv (set_tables (free_slabs m ∖ {[s]}) (<[k := st']> (states m)) m).
Proof.
  intros Hno Hs Hslab Hoff Hok. destruct Hinv as [C S F R O N L].
  assert (Hk : ∀ s', ¬ holds_slab m k s').
  { intros s' (st & H1 & H2). apply Hno in H1. congruence. }
  split; [done|by apply state_ok_insert| | | | |].
  - intros s'. setoid_rewrite holds_slab_insert. cbn. rewrite elem_of_difference, F.
    rewrite elem_of_singleton, Hslab. split.
    + intros ((Hr & Hn) & Hne). split; [done|]. intros k2 [(-> & ?)|(? & ?)]; naive_solver.
    + intros (Hr & Hn). repeat split; [lia|lia| |].
      * intros k2 H. destruct (decide (k2 = k)) as [->|]; [by eapply Hk|]. eapply Hn; eauto.
      * intros ->. eapply (Hn k). by left.
  - intros k2 s'. rewrite holds_slab_insert, Hslab. cbn.
    intros [(-> & [= <-])|(_ & H)]; [by apply F|by eapply R].
  - intros k1 k2 s'. rewrite !holds_slab_insert, Hslab.
    apply F in Hs as (_ & Hs).
    intros [(-> & [= <-])|(? & H1)] [(-> & E)|(? & H2)]; simplify_eq; [done|..|by eapply O].
    + by destruct (Hs _ H2).
    + by destruct (Hs _ H1).
  - revert N. unfold resident_count; cbn. rewrite size_difference by set_solver.
    rewrite size_singleton.
    assert (size (free_slabs m) ≠ 0%nat) by (apply size_non_empty_iff; set_solver).
    destruct (states m !! k) as [st|] eqn:E.
    + pose proof (count_if_update is_resident _ k st st' E) as U.
      rewrite !resident_b2n, Hslab, (Hno _ eq_refl) in U. lia.
    + rewrite count_if_insert by done. rewrite resident_b2n, Hslab. lia.
  - revert L. unfold offloaded_count; cbn. destruct (states m !! k) as [st|] eqn:E.
    + pose proof (count_if_update offloaded _ k st st' E) as U. rewrite Hoff in U. cbn in U. lia.
    + rewrite count_if_insert by done. rewrite Hoff. cbn. lia.
Qed.

Lemma held_not_free k s : holds_slab m k s → s ∉ free_slabs m.
Proof. intros H (_ & Hn)%(inv_free m Hinv). by eapply Hn. Qed.

(** A state gives its slab [s] back and stays in the cold tier. *)
Lemma inv_take k st st' s :
  states m !! k = Some st → slab_id st = Some s →
  slab_id st' = None → state_ok m k st' → offloaded_count m < offloaded_capacity m →
  manager_inv (set_tables (free_slabs m ∪ {[s]}) (<[k := st']> (states m)) m).
Proof.
  intros Hk Hst Hslab Hok Hcold. destruct Hinv as [C S F R O N L].
  assert (Hh : holds_slab m k s) by (by exists st).
  split; [done|by apply state_ok_insert| | | | |].
  - intros s'. setoid_rewrite holds_slab_insert. cbn.
    rewrite elem_of_union, F, elem_of_singleton, Hslab. split.
    + intros [(Hr & Hn)| ->].
      * split; [done|]. intros k2 [(_ & ?)|(_ & H)]; [done|by eapply Hn].
      * split; [by eapply R|]. intros k2 [(_ & ?)|(Hne & H)]; [done|]. by eapply Hne, O.
    + intros (Hr & Hn). destruct (decide (s' = s)) as [->|Hne]; [by right|left].
      split; [done|]. intros k2 H. destruct (decide (k2 = k)) as [->|]; [|eapply Hn; eauto].
      destruct H as (st2 & ? & ?). congruence.
  - intros k2 s'. rewrite holds_slab_insert, Hslab. intros [(_ & ?)|(_ & H)]; [done|by eapply R].
  - intros k1 k2 s'. rewrite !holds_slab_insert, Hslab.
    intros [(_ & ?)|(_ & H1)] [(_ & ?)|(_ & H2)]; try done. by eapply O.
  - revert N. unfold resident_count; cbn.
    rewrite size_union by (pose proof (held_not_free k s Hh); set_solver).
    rewrite size_singleton. pose proof (count_if_update is_resident _ k st st' Hk) as U.
    rewrite !resident_b2n, Hslab, Hst in U. lia.
  - revert Hcold. unfold offloaded_count; cbn.
    pose proof (count_if_update offloaded _ k st st' Hk) as U.
    destruct (offloaded st), (offloaded st'); cbn in U; lia.
Qed.

(** A state is removed and its slab, if any, becomes free. *)
Lemma inv_remove k st :
  states m !! k = Some st →
  manager_inv (set_tables (match slab_id st with
                           | Some s => free_slabs m ∪ {[s]} | None => free_slabs m end)
                          (delete k (states m)) m).
Proof.
  intros Hk. destruct Hinv as [C S F R O N L].
  split; [done| | | | | |].
  - intros k2 st2 H. cbn in H. apply lookup_delete_Some in H as [_ H].
    by apply state_ok_tables, S.
  - intros s'. setoid_rewrite holds_slab_delete. cbn.
    assert (Hold : ∀ s, slab_id st = Some s → holds_slab m k s) by (by exists st).
    assert (Hk' : ∀ s, holds_slab m k s → slab_id st = Some s)
      by (intros s (? & ? & ?); congruence).
    destruct (slab_id st) as [s|].
    + rewrite elem_of_union, F, elem_of_singleton. split.
      * intros [(Hr & Hn)| ->]; [split; [done|intros k2 (_ & H); by eapply Hn]|].
        split; [by eapply R, Hold|]. intros k2 (Hne & H). by eapply Hne, O, Hold.
      * intros (Hr & Hn). destruct (decide (s' = s)) as [->|Hne]; [by right|left].
        split; [done|]. intros k2 H. destruct (decide (k2 = k)) as [->|]; [|eapply Hn; eauto].
        apply Hk' in H. congruence.
    + rewrite F. split; intros (Hr & Hn); (split; [done|]); [naive_solver|].
      intros k2 H. destruct (decide (k2 = k)) as [->|]; [|eapply Hn; eauto].
      by apply Hk' in H.
  - intros k2 s'. rewrite holds_slab_delete. intros (_ & H). by eapply R.
  - intros k1 k2 s'. rewrite !holds_slab_delete. intros (_ & H1) (_ & H2). by eapply O.
  - revert N. unfold resident_count; cbn. rewrite (count_if_delete is_resident _ k st) by done.
    rewrite resident_b2n. destruct (slab_id st) as [s|] eqn:E; [|lia].
    assert (holds_slab m k s) by (by exists st).
    rewrite size_union by (pose proof (held_not_free k s); set_solver).
    rewrite size_singleton. lia.
  - revert L. unfold offloaded_count; cbn. rewrite (count_if_delete offloaded _ k st) by done. lia.
Qed.
End preservation.

Lemma min_slab_Some free s : min_slab free = Some s → s ∈ free ∧ ∀ s', s' ∈ free → s ≤ s'.
Proof.
  intros [H1 H2]%min_by_Some. split; [set_solver|]. intros s' Hs'.
  specialize (H2 s'). rewrite elem_of_elements in H2. by apply H2.
Qed.

Lemma min_slab_None free : min_slab free = None ↔ free = ∅.
Proof.
  unfold min_slab. rewrite min_by_None. split.
  - intros H. apply set_eq; intros s. rewrite <- elem_of_elements, H. set_solver.
  - intros ->. done.
Qed.

Lemma check_quotas_range cap items qs :
  check_quotas cap items = Ok qs → map_Forall (λ _ q, 0 < q ≤ cap) qs.
Proof.
  revert qs. induction items as [|[t q] items IH]; cbn; intros qs Hq; [by simplify_eq|].
  unfold require_positive_int in Hq. destruct (q <? 1) eqn:Hpos; [by split_cases_in Hq|].
  split_cases_in Hq. bools. apply map_Forall_insert_2; [lia|by apply IH].
Qed.

(** ** Every operation preserves the invariant *)
Lemma touch_ok m k st now : state_ok m k st → state_ok m k (touch now st).
Proof. done. Qed.
#[export] Hint Resolve touch_ok : lightcone.

Lemma new_Manager_inv cap bytes quotas ttl mode cold m :
  new_Manager cap bytes quotas ttl mode cold = Ok m → manager_inv m.
Proof.
  unfold new_Manager, require_positive_int, require_bytes. intros H.
  destruct (cap <? 1) eqn:?; [done|]. destruct (bytes <? 0) eqn:?; [done|].
  destruct (cold <? 0) eqn:?; [by split_cases_in H|]. split_cases_in H. bools. split; cbn.
  - lia.
  - by intros k st.
  - intros s. rewrite elem_of_list_to_set, elem_of_seqZ. split; [|lia].
    intros ?. split; [lia|]. by intros k (st & ? & _).
  - by intros k s (st & ? & _).
  - by intros k1 k2 s (st & ? & _).
  - unfold resident_count; cbn. rewrite count_if_empty, size_list_to_set by apply NoDup_seqZ.
    rewrite length_seqZ. lia.
  - unfold offloaded_count; cbn. rewrite count_if_empty. lia.
Qed.

Lemma admit_inv k now ver m : manager_inv m → manager_inv (admit_ k now ver m).2.
Proof.
  intros Hinv. unfold admit_, refuse. destruct (require_time "now" now); [|done].
  destruct (ver <? 0) eqn:Hv; [done|]. destruct (states m !! k) as [st|] eqn:Hk.
  - destruct (offloaded st) eqn:Ho; [done|]. cbn.
    apply (inv_keep m Hinv k st); [done..|]. by apply touch_ok, (inv_state m Hinv).
  - destruct (tenant_quotas m !! tenant_id k) as [quota|]; [|done].
    destruct (quota <=? _); [done|]. destruct (_ || _); [done|].
    destruct (min_slab (free_slabs m)) as [s|] eqn:Hs; [|done]. cbn.
    apply min_slab_Some in Hs as [Hs _]. bools.
    apply (inv_give m Hinv k); try done. by rewrite Hk.
Qed.

Lemma acquire_inv k now m : manager_inv m → manager_inv (acquire k now m).2.
Proof.
  intros Hinv. unfold acquire. destruct (require_time "now" now); [|done].
  destruct (states m !! k) as [st|] eqn:Hk; [|done].
  destruct (offloaded st || _) eqn:Hc; [done|]. cbn. bools.
  apply (inv_keep m Hinv k st); [done..|].
  destruct (inv_state m Hinv k st Hk) as (?&?&?&?&?&?). repeat split; cbn; try done; try tauto; try lia; congruence.
Qed.

Lemma release_inv k now m : manager_inv m → manager_inv (release k now m).2.
Proof.
  intros Hinv. unfold release. destruct (require_time "now" now); [|done].
  destruct (states m !! k) as [st|] eqn:Hk; [|done].
  destruct (active_requests st =? 0) eqn:Hc; [done|]. cbn. bools.
  apply (inv_keep m Hinv k st); [done..|].
  destruct (inv_state m Hinv k st Hk) as (?&?&?&?&?&Ho). repeat split; cbn; try done; try tauto; try lia.
Qed.

Lemma publish_version_inv k src new now m :
  manager_inv m → manager_inv (publish_version k src new now m).2.
Proof.
  intros Hinv. unfold publish_version. destruct (require_time "now" now); [|done].
  destruct (states m !! k) as [st|] eqn:Hk; [|done].
  destruct (offloaded st) eqn:Ho; [done|]. destruct (_ || _) eqn:Hc; [done|]. cbn. bools.
  apply (inv_keep m Hinv k st); [done..|].
  destruct (inv_state m Hinv k st Hk) as (?&?&?&?&?&?). repeat split; cbn; try done; try tauto; lia.
Qed.

Lemma reclaim_inv k now code m : manager_inv m → manager_inv (reclaim k now code m).2.
Proof.
  intros Hinv. unfold reclaim. destruct (require_time "now" now); [|done].
  destruct (negb _); [done|]. destruct (states m !! k) as [st|] eqn:Hk; [|done].
  destruct (negb _); [done|]. by apply inv_remove.
Qed.

Lemma reclaim_all_inv victims now code m :
  manager_inv m → manager_inv (reclaim_all victims now code m).2.
Proof.
  revert m. induction victims as [|st victims IH]; cbn; intros m Hinv; [done|].
  pose proof (reclaim_inv (key st) now code m Hinv) as H1.
  destruct (reclaim _ _ _ m) as [[r|e] m1]; [|done]. specialize (IH m1 H1).
  by destruct (reclaim_all _ _ _ m1) as [[rs|e] m2].
Qed.

Lemma reclaim_expired_inv now m : manager_inv m → manager_inv (reclaim_expired now m).2.
Proof.
  intros Hinv. unfold reclaim_expired. destruct (require_time _ _); [|done].
  by apply reclaim_all_inv.
Qed.

Lemma reclaim_lru_inv count now m : manager_inv m → manager_inv (reclaim_lru count now m).2.
Proof.
  intros Hinv. unfold reclaim_lru. destruct (require_positive_int _ _); [|done].
  destruct (require_time _ _); [|done]. by apply reclaim_all_inv.
Qed.

Lemma offload_cold_inv k started completed m :
  manager_inv m → manager_inv (offload_cold k started completed m).2.
Proof.
  intros Hinv. unfold offload_cold. destruct (check_transfer _ _ _ _); [|done].
  destruct (states m !! k) as [st|] eqn:Hk; [|done]. destruct (negb _) eqn:Ha; [done|].
  destruct (slab_id st) as [s|] eqn:Hs; [|done]. destruct (offloaded st); [done|].
  destruct (_ <=? _) eqn:Hc; [done|]. cbn. bools.
  apply (inv_take m Hinv k st); [done..| |lia].
  destruct (inv_state m Hinv k st Hk) as (?&?&?&?&?&?). by repeat split.
Qed.

Lemma restore_cold_inv k started completed m :
  manager_inv m → manager_inv (restore_cold k started completed m).2.
Proof.
  intros Hinv. unfold restore_cold. destruct (check_transfer _ _ _ _); [|done].
  destruct (states m !! k) as [st|] eqn:Hk; [|done]. destruct (_ || _) eqn:Ha; [done|].
  destruct (min_slab _) as [s|] eqn:Hs; [|done]. cbn. bools.
  apply min_slab_Some in Hs as [Hs _].
  destruct (inv_state m Hinv k st Hk) as (?&?&?&?&?&?).
  apply (inv_give m Hinv k); [|done..|by repeat split].
  intros st' ?. simplify_eq. tauto.
Qed.

(** ** Reachable managers *)
Inductive manager_step (m : Manager) : Manager → Prop :=
  | step_admit k now ver : manager_step m (admit_ k now ver m).2
  | step_acquire k now : manager_step m (acquire k now m).2
  | step_release k now : manager_step m (release k now m).2
  | step_publish k src new now : manager_step m (publish_version k src new now m).2
  | step_reclaim k now code : manager_step m (reclaim k now code m).2
  | step_reclaim_expired now : manager_step m (reclaim_expired now m).2
  | step_reclaim_lru count now : manager_step m (reclaim_lru count now m).2
  | step_offload k t0 t1 : manager_step m (offload_cold k t0 t1 m).2
  | step_restore k t0 t1 : manager_step m (restore_cold k t0 t1 m).2.

Lemma manager_step_inv m m' : manager_step m m' → manager_inv m → manager_inv m'.
Proof.
  intros [] Hinv; eauto using admit_inv, acquire_inv, release_inv, publish_version_inv,
    reclaim_inv, reclaim_expired_inv, reclaim_lru_inv, offload_cold_inv, restore_cold_inv.
Qed.

Lemma resident_not_offloaded m k st :
  manager_inv m → states m !! k = Some st → is_resident st = negb (offloaded st).
Proof.
  intros Hinv Hk. destruct (inv_state m Hinv k st Hk) as (_&_&_&_&Ho&_).
  unfold is_resident. destruct (offloaded st); cbn.
  - apply bool_decide_eq_false. intros H. by apply H, Ho.
  - apply bool_decide_eq_true. intros H. by apply Ho in H.
Qed.

Lemma manager_run_inv cap bytes quotas ttl mode cold m0 m :
  new_Manager cap bytes quotas ttl mode cold = Ok m0 → rtc manager_step m0 m → manager_inv m.
Proof.
  intros H0 Hr. apply (rtc_ind_r (R := manager_step) (λ m, manager_inv m) m0); [..|exact Hr].
  - by eapply new_Manager_inv.
  - intros m1 m2 _ Hs. by apply manager_step_inv.
Qed.

(** C27. Whatever sequence of admissions, acquisitions, releases, publications,
    reclamations, offloads and restores a manager has gone through, a slab is
    free exactly when no cohort state holds it, two states never hold the same
    slab, free and resident slabs add up to the capacity, the host tier stays
    within its bound, and a cold state has no slab and no active request. *)
Theorem slab_manager_reachable_invariant cap bytes quotas ttl mode cold m0 m :
  new_Manager cap bytes quotas ttl mode cold = Ok m0 →
  rtc manager_step m0 m →
  manager_inv m.
Proof. apply manager_run_inv. Qed.

Definition at_ (n : Z) : pyfloat := float_of_Z n.
Definition hash64 : string :=
  "0123456789abcdef0123456789abcdef0123456789abcdef0123456789abcdef".
Definition key_of (tenant : string) (replica : Z) : CohortStateKey :=
  {| tenant_id := tenant; cohort_sha256 := hash64; replica_id := replica |}.

Definition demo : Manager :=
  {| capacity := 2; slab_bytes := 4096; tenant_quotas := {["a" := 1; "b" := 2]};
     ttl_seconds := at_ 30; offload_mode := COLD_INACTIVE_TIMED; offloaded_capacity := 1;
     free_slabs := {[0; 1]}; states := ∅ |}.

Lemma demo_inv : manager_inv demo.
Proof.
  apply (new_Manager_inv 2 4096 [("a", 1); ("b", 2)] (at_ 30) COLD_INACTIVE_TIMED 1).
  reflexivity.
Qed.

Lemma slab_manager_reachable_invariant_witness :
  manager_inv (offload_cold (key_of "a" 0) (at_ 2) (at_ 3)
                 (admit_ (key_of "a" 0) (at_ 1) 0 demo).2).2.
Proof.
  apply (slab_manager_reachable_invariant 2 4096 [("a", 1); ("b", 2)] (at_ 30)
           COLD_INACTIVE_TIMED 1 demo); [reflexivity|].
  eapply rtc_l; [apply step_admit|]. apply rtc_once, step_offload.
Defined.

Lemma resident_plus_cold m :
  manager_inv m → resident_count m + offloaded_count m = state_count m.
Proof.
  intros Hinv. unfold resident_count, offloaded_count, state_count.
  rewrite <- (count_if_compl is_resident offloaded); [lia|].
  intros k st. by apply resident_not_offloaded.
Qed.

(** The least slab no state holds. *)
Definition least_unheld (m : Manager) (s : Z) : Prop :=
  0 ≤ s < capacity m ∧ (∀ k, ¬ holds_slab m k s) ∧
  ∀ s', 0 ≤ s' < capacity m → (∀ k, ¬ holds_slab m k s') → s ≤ s'.

Lemma min_slab_least_unheld m s :
  manager_inv m → min_slab (free_slabs m) = Some s → least_unheld m s.
Proof.
  intros Hinv [[Hr Hn]%(inv_free m Hinv) Hl]%min_slab_Some. split; [done|]. split; [done|].
  intros s' ? ?. by apply Hl, (inv_free m Hinv).
Qed.

Lemma min_slab_exists m :
  manager_inv m → resident_count m < capacity m →
  ∃ s, min_slab (free_slabs m) = Some s ∧ free_slabs m ≠ ∅.
Proof.
  intros Hinv Hlt. destruct (min_slab (free_slabs m)) as [s|] eqn:E.
  - exists s. split; [done|]. intros He. by apply min_slab_None in He; congruence.
  - apply min_slab_None in E. pose proof (inv_count m Hinv) as N.
    rewrite E, size_empty in N. lia.
Qed.

Definition tenant_count (m : Manager) (tenant : string) : Z :=
  Z.of_nat (count_if (tenant_resident tenant) (states m)).

Definition fresh_state (m : Manager) (k : CohortStateKey) (s ver : Z) (now : pyfloat)
    : CohortState :=
  {| key := k; slab_id := Some s; st_slab_bytes := slab_bytes m; version := ver;
     created_at := now; last_used_at := now; active_requests := 0; offloaded := false |}.

(** A cohort that is not in the manager yet is admitted exactly when its
    tenant is known, the tenant's resident cohorts are below the quota and some
    slab is not resident: the other two capacity tests of [admit_] never decide.
    It then gets the least slab that no cohort holds and becomes the only
    change; a refusal changes nothing. *)
Theorem admit_fresh_exact k now ver m :
  manager_inv m → require_time "now" now = Ok tt → 0 ≤ ver → states m !! k = None →
  (∀ quota, tenant_quotas m !! tenant_id k = Some quota →
     tenant_count m (tenant_id k) < quota → resident_count m < capacity m →
     ∃ s, least_unheld m s ∧
          admit_ k now ver m =
            (Ok {| admitted := true; reason := ADMITTED;
                   state := Some (snapshot_of m (fresh_state m k s ver now)) |},
             set_tables (free_slabs m ∖ {[s]}) (<[k := fresh_state m k s ver now]> (states m)) m))
  ∧ (tenant_quotas m !! tenant_id k = None → admit_ k now ver m = refuse UNKNOWN_TENANT m)
  ∧ (∀ quota, tenant_quotas m !! tenant_id k = Some quota →
       quota ≤ tenant_count m (tenant_id k) → admit_ k now ver m = refuse TENANT_QUOTA m)
  ∧ (∀ quota, tenant_quotas m !! tenant_id k = Some quota →
       tenant_count m (tenant_id k) < quota → capacity m ≤ resident_count m →
       admit_ k now ver m = refuse CAPACITY m).
Proof.
  intros Hinv Ht Hv Hk. unfold admit_. rewrite Ht, Hk.
  replace (ver <? 0) with false by lia. unfold tenant_count.
  repeat split.
  - intros quota -> Hq Hc.
    destruct (min_slab_exists m Hinv Hc) as (s & Hs & Hne). exists s.
    split; [by apply min_slab_least_unheld|].
    pose proof (resident_plus_cold m Hinv). pose proof (inv_cold m Hinv).
    rewrite Hs, (proj2 (Z.leb_gt _ _) Hq), (bool_decide_eq_false_2 _ Hne).
    by rewrite (proj2 (Z.leb_gt _ _) Hc), (proj2 (Z.leb_gt (capacity m + _) _)) by lia.
  - by intros ->.
  - intros quota -> Hq. by rewrite (proj2 (Z.leb_le _ _) Hq).
  - intros quota -> Hq Hc. rewrite (proj2 (Z.leb_gt _ _) Hq), (proj2 (Z.leb_le (capacity m) _) Hc).
    by rewrite orb_true_r.
Qed.

Lemma admit_fresh_exact_witness :
  ∃ s, least_unheld demo s ∧
       (admit_ (key_of "a" 0) (at_ 1) 0 demo).2 =
       set_tables (free_slabs demo ∖ {[s]})
         (<[key_of "a" 0 := fresh_state demo (key_of "a" 0) s 0 (at_ 1)]> (states demo)) demo.
Proof.
  destruct (admit_fresh_exact (key_of "a" 0) (at_ 1) 0 demo demo_inv) as [H _];
    [reflexivity|lia|reflexivity|].
  destruct (H 1) as (s & Hs & ->); [reflexivity|reflexivity|reflexivity|]. by exists s.
Defined.

(** ** Reclamation *)
Definition receipt_of (now : pyfloat) (code : string) (st : CohortState)
    : CohortReclamationReceipt :=
  {| rr_key := key st; rr_slab_id := slab_id st; reason_code := code; reclaimed_at := now |}.

Definition idle (st : CohortState) : bool := active_requests st =? 0.

(** Reclaiming a list of distinct idle states succeeds for each and removes
    exactly them. *)
Lemma reclaim_all_ok now code victims m :
  require_time "now" now = Ok tt → is_canonical_text code = true →
  NoDup (map key victims) →
  (∀ st, st ∈ victims → states m !! key st = Some st ∧ idle st = true) →
  ∃ m', reclaim_all victims now code m = (Ok (map (receipt_of now code) victims), m') ∧
        ∀ k, states m' !! k = if decide (k ∈ map key victims) then None else states m !! k.
Proof.
  intros Ht Hc. revert m. induction victims as [|st victims IH]; cbn; intros m Hnd Hv.
  - by exists m.
  - apply NoDup_cons in Hnd as [Hni Hnd].
    destruct (Hv st) as [Hk Hidle]; [set_solver|].
    unfold reclaim at 1. rewrite Ht, Hc, Hk. cbn. unfold idle in Hidle. rewrite Hidle. cbn.
    match goal with |- context [reclaim_all victims now code ?m1] =>
      destruct (IH m1 Hnd) as (m' & -> & Hm') end.
    { intros st' Hst'. cbn. rewrite lookup_delete_ne; [apply Hv; set_solver|].
      intros Heq. apply Hni. rewrite Heq. by apply list_elem_of_fmap_2. }
    exists m'. split; [done|]. intros k. rewrite Hm'. cbn.
    destruct (decide (k ∈ map key victims)) as [Hin|Hin].
    { by rewrite decide_True by (by right). }
    destruct (decide (k = key st)) as [->|Hne].
    + rewrite decide_True by (by left). apply lookup_delete_eq.
    + rewrite decide_False by (by intros [?|?]%elem_of_cons).
      apply lookup_delete_ne. congruence.
Qed.

Lemma elem_of_state_values m st :
  manager_inv m → st ∈ state_values m ↔ states m !! key st = Some st.
Proof.
  intros Hinv. unfold state_values. rewrite list_elem_of_fmap. split.
  - intros ([k st'] & -> & Hk%elem_of_map_to_list). cbn.
    by rewrite (proj1 (inv_state m Hinv k st' Hk)).
  - intros Hk. exists (key st, st). by rewrite elem_of_map_to_list.
Qed.

Lemma NoDup_state_keys m : manager_inv m → NoDup (map key (state_values m)).
Proof.
  intros Hinv. unfold state_values. rewrite map_map.
  replace (map _ _) with (map fst (map_to_list (states m))); [apply NoDup_fst_map_to_list|].
  apply map_ext_in. intros [k st] Hin%list_elem_of_In%elem_of_map_to_list. cbn.
  by rewrite (proj1 (inv_state m Hinv k st Hin)).
Qed.

Lemma NoDup_sorted_keys {K} `{PyOrdLaws K} (f : CohortState → K) (P : CohortState → Prop)
    `{∀ x, Decision (P x)} n m :
  manager_inv m → NoDup (map key (take n (sorted_by f (filter P (state_values m))))).
Proof.
  intros Hinv. set (l := take n _).
  assert (Hsub : ∀ st, st ∈ l → states m !! key st = Some st).
  { intros st (i & Hi & _)%elem_of_take.
    apply list_elem_of_lookup_2, elem_of_sorted_by, list_elem_of_filter in Hi as [_ Hin].
    by apply elem_of_state_values in Hin. }
  apply (NoDup_fmap_2_strong key).
  - intros x y Hx%Hsub Hy%Hsub Heq. rewrite Heq in Hx. congruence.
  - unfold l. pose proof (NoDup_state_keys m Hinv) as Hnd%(NoDup_fmap_1 key).
    apply (NoDup_filter P) in Hnd. rewrite <- (sorted_by_Permutation f) in Hnd.
    rewrite <- (take_drop n (sorted_by _ _)) in Hnd. by apply NoDup_app in Hnd as [? _].
Qed.

(** The victims of [reclaim_lru]. *)
Definition lru_victims (count : Z) (m : Manager) : list CohortState :=
  take (Z.to_nat count) (sorted_by lru_key
    (filter (λ st, (active_requests st =? 0) = true) (state_values m))).

Lemma lru_victim_idle count m st :
  manager_inv m → st ∈ lru_victims count m → states m !! key st = Some st ∧ idle st = true.
Proof.
  intros Hinv Hst. unfold lru_victims in Hst. apply elem_of_take in Hst as (i & Hi & _).
  apply list_elem_of_lookup_2, elem_of_sorted_by, list_elem_of_filter in Hi as [? Hin].
  by apply elem_of_state_values in Hin.
Qed.

(** [reclaim_lru] never raises part-way: it returns one receipt per victim,
    removes exactly the victims, keeps every cohort with active requests, and
    every idle cohort that survives was used no earlier than each victim.  It
    reclaims [count] cohorts, or all idle ones if there are fewer. *)
Theorem reclaim_lru_exact count now m :
  manager_inv m → 0 < count → require_time "now" now = Ok tt →
  ∃ m', reclaim_lru count now m =
          (Ok (map (receipt_of now "lru_reclaimed") (lru_victims count m)), m') ∧
    (∀ k, states m' !! k =
       if decide (k ∈ map key (lru_victims count m)) then None else states m !! k) ∧
    (∀ k st, states m !! k = Some st → idle st = false → states m' !! k = Some st) ∧
    (∀ k st v, states m' !! k = Some st → idle st = true → v ∈ lru_victims count m →
       pyle (lru_key v) (lru_key st)) ∧
    length (lru_victims count m) =
      Nat.min (Z.to_nat count) (length (filter (λ st, idle st = true) (state_values m))).
Proof.
  intros Hinv Hc Ht. unfold reclaim_lru, require_positive_int.
  replace (count <? 1) with false by lia. rewrite Ht.
  change (take _ _) with (lru_victims count m).
  destruct (reclaim_all_ok now "lru_reclaimed" (lru_victims count m) m) as (m' & -> & Hm');
    [done..|by apply NoDup_sorted_keys|by intros st; apply lru_victim_idle|].
  exists m'. repeat split; [exact Hm'|..].
  - intros k st Hk Hidle. rewrite Hm', decide_False; [done|].
    intros (v & -> & Hv)%list_elem_of_fmap. apply lru_victim_idle in Hv as [? ?]; [|done].
    congruence.
  - intros k st v Hk Hidle Hv. rewrite Hm' in Hk. case_decide as Hni; [done|].
    apply (sorted_by_take_drop _ _ _ _ _ Hv).
    pose proof (proj1 (inv_state m Hinv k st Hk)) as <-.
    assert (Hin : st ∈ sorted_by lru_key
      (filter (λ st, (active_requests st =? 0) = true) (state_values m))).
    { apply elem_of_sorted_by, list_elem_of_filter. split; [done|].
      by apply elem_of_state_values. }
    rewrite <- (take_drop (Z.to_nat count) (sorted_by _ _)) in Hin.
    apply elem_of_app in Hin as [Hin|]; [|done]. destruct Hni.
    by apply list_elem_of_fmap_2.
  - unfold lru_victims. by rewrite length_take, length_sorted_by.
Qed.

Definition demo2 : Manager :=
  (admit_ (key_of "b" 0) (at_ 5) 0 (admit_ (key_of "a" 0) (at_ 1) 0 demo).2).2.

Lemma demo2_inv : manager_inv demo2.
Proof. apply admit_inv, admit_inv, demo_inv. Qed.

(** The older cohort goes first. *)
Lemma reclaim_lru_exact_witness :
  map key (lru_victims 1 demo2) = [key_of "a" 0] ∧
  ∃ m', reclaim_lru 1 (at_ 9) demo2 =
          (Ok (map (receipt_of (at_ 9) "lru_reclaimed") (lru_victims 1 demo2)), m').
Proof.
  split; [vm_compute; reflexivity|].
  destruct (reclaim_lru_exact 1 (at_ 9) demo2 demo2_inv) as (m' & H & _); [lia|reflexivity|].
  by exists m'.
Defined.

(** [reclaim_expired] never raises part-way and removes exactly the idle
    cohorts whose last use plus the time to live is not after [now]. *)
Theorem reclaim_expired_exact now m :
  manager_inv m → require_time "now" now = Ok tt →
  ∃ rs m', reclaim_expired now m = (Ok rs, m') ∧
    states m' = filter (λ kv, is_expired m now kv.2 = false) (states m) ∧
    (∀ k, k ∈ map rr_key rs ↔
       ∃ st, states m !! k = Some st ∧ is_expired m now st = true).
Proof.
  intros Hinv Ht. unfold reclaim_expired. rewrite Ht.
  set (victims := sorted_by _ _).
  assert (Hv : ∀ st, st ∈ victims ↔ states m !! key st = Some st ∧ is_expired m now st = true).
  { intros st. unfold victims.
    rewrite elem_of_sorted_by, list_elem_of_filter, elem_of_state_values by done. tauto. }
  destruct (reclaim_all_ok now "ttl_expired" victims m) as (m' & -> & Hm'); [done..| | |].
  { rewrite <- (firstn_all victims). by apply NoDup_sorted_keys. }
  { intros st [? [? ?]%andb_true_iff]%Hv. done. }
  assert (Hkeys : ∀ k, k ∈ map key victims ↔
            ∃ st, states m !! k = Some st ∧ is_expired m now st = true).
  { intros k. rewrite list_elem_of_fmap. split.
    - intros (st & -> & []%Hv). eauto.
    - intros (st & Hk & He). pose proof (proj1 (inv_state m Hinv k st Hk)) as <-.
      exists st. by rewrite Hv. }
  eexists _, m'. repeat split.
  - apply map_eq. intros k. rewrite Hm'. case_decide as Hk.
    + apply Hkeys in Hk as (st & Hk & He). symmetry. apply map_lookup_filter_None. right.
      intros st' ?. cbn. simplify_eq. congruence.
    + destruct (states m !! k) as [st|] eqn:E.
      * symmetry. apply map_lookup_filter_Some. split; [done|]. cbn.
        apply not_true_is_false. intros He. apply Hk, Hkeys. eauto.
      * symmetry. apply map_lookup_filter_None. by left.
  - rewrite map_map. cbn. apply Hkeys.
  - rewrite map_map. cbn. apply Hkeys.
Qed.

Lemma reclaim_expired_exact_witness :
  is_ok (reclaim_expired (at_ 31) demo2).1 = true ∧
  states (reclaim_expired (at_ 31) demo2).2 =
    filter (λ kv, is_expired demo2 (at_ 31) kv.2 = false) (states demo2).
Proof.
  destruct (reclaim_expired_exact (at_ 31) demo2 demo2_inv) as (rs & m' & -> & H & _);
    [reflexivity|]. split; [reflexivity|exact H].
Defined.

(** ** The cold tier *)
Lemma flt_irrefl x : flt x x = false.
Proof.
  unfold flt, SFltb. destruct x as [[]|[]| |[] m e]; cbn; try done;
    rewrite Z.compare_refl; change (Pos.compare_cont Eq m m) with (Pos.compare m m);
    by rewrite Pos.compare_refl.
Qed.

(** What an offload followed by a restore leaves unchanged. *)
Definition same_content (st st' : CohortState) : Prop :=
  key st' = key st ∧ st_slab_bytes st' = st_slab_bytes st ∧ version st' = version st ∧
  created_at st' = created_at st ∧ active_requests st' = active_requests st ∧
  offloaded st' = offloaded st.

(** Round trip through the cold tier: when an offload succeeds, a restore at
    any later valid time succeeds as well, moves the same number of bytes, and
    brings the cohort back resident with the same version and content; every
    other cohort is untouched, and the slab it gets is the least one that was
    free or its own. *)
Theorem cold_round_trip k t0 t1 t2 t3 r m m1 :
  manager_inv m → offload_cold k t0 t1 m = (Ok r, m1) →
  require_time "started_at" t2 = Ok tt → require_time "completed_at" t3 = Ok tt →
  flt t3 t2 = false →
  ∃ st st' s r' m2,
    states m !! k = Some st ∧ slab_id st = Some (tr_slab_id r) ∧
    restore_cold k t2 t3 m1 = (Ok r', m2) ∧
    bytes_transferred r' = bytes_transferred r ∧ tr_slab_id r' = s ∧
    states m2 !! k = Some st' ∧ same_content st st' ∧ slab_id st' = Some s ∧
    (s = tr_slab_id r ∨ s ∈ free_slabs m) ∧ s ≤ tr_slab_id r ∧
    (∀ k', k' ≠ k → states m2 !! k' = states m !! k').
Proof.
  intros Hinv Hoff Ht2 Ht3 Hlt. unfold offload_cold in Hoff.
  destruct (check_transfer t0 t1 _ m) eqn:Hc; [|done].
  destruct (states m !! k) as [st|] eqn:Hk; [|done].
  destruct (negb _); [done|]. destruct (slab_id st) as [slab|] eqn:Hs; [|done].
  destruct (offloaded st) eqn:Ho; [done|]. destruct (_ <=? _); [done|]. simplify_eq/=.
  unfold restore_cold.
  assert (check_transfer t2 t3 "restore completion precedes its start"
    (set_tables (free_slabs m ∪ {[slab]}) (<[k := touch t1 (set_slab None true st)]> (states m)) m)
    = Ok tt) as ->.
  { revert Hc. unfold check_transfer; cbn. rewrite Ht2, Ht3, Hlt. by destruct (negb _). }
  cbn. rewrite lookup_insert_eq. cbn.
  destruct (min_slab (free_slabs m ∪ {[slab]})) as [s|] eqn:Hmin; cycle 1.
  { apply min_slab_None in Hmin. set_solver. }
  apply min_slab_Some in Hmin as [Hin Hmin].
  eexists st, _, s, _, _. split; [done|]. split; [done|]. split; [reflexivity|].
  split; [done|]. split; [done|]. cbn. rewrite lookup_insert_eq. split; [done|].
  repeat split; cbn; [done|set_solver|apply Hmin; set_solver|].
  intros k' Hne. by rewrite !lookup_insert_ne.
Qed.

Lemma cold_round_trip_witness :
  ∃ st st', states demo2 !! key_of "a" 0 = Some st ∧
    states (restore_cold (key_of "a" 0) (at_ 8) (at_ 9)
              (offload_cold (key_of "a" 0) (at_ 6) (at_ 7) demo2).2).2 !! key_of "a" 0 = Some st' ∧
    same_content st st'.
Proof.
  assert (Hok : is_ok (offload_cold (key_of "a" 0) (at_ 6) (at_ 7) demo2).1 = true)
    by (vm_compute; reflexivity).
  destruct (offload_cold (key_of "a" 0) (at_ 6) (at_ 7) demo2) as [[r|] m1] eqn:E;
    [|discriminate Hok].
  destruct (cold_round_trip (key_of "a" 0) (at_ 6) (at_ 7) (at_ 8) (at_ 9) r demo2 m1
    demo2_inv E) as (st & st' & s & r' & m2 & H1 & _ & H2 & _ & _ & H3 & H4 & _);
    [reflexivity..|].
  exists st, st'. cbn [snd]. rewrite H2. exact (conj H1 (conj H3 H4)).
Defined.

(** ** Tenant quotas *)
Definition quota_inv (m : Manager) : Prop :=
  ∀ t q, tenant_quotas m !! t = Some q → tenant_count m t ≤ q.

Definition over_quota (m : Manager) (t : string) : Prop :=
  ∃ q, tenant_quotas m !! t = Some q ∧ q < tenant_count m t.

(** [admit_] refuses a new cohort of a tenant that has used its quota. *)
Lemma admit_at_quota k now ver q m :
  states m !! k = None → require_time "now" now = Ok tt → 0 ≤ ver →
  tenant_quotas m !! tenant_id k = Some q → q ≤ tenant_count m (tenant_id k) →
  admit_ k now ver m = refuse TENANT_QUOTA m.
Proof.
  intros Hk Hnow Hver Hq Hc. unfold admit_. rewrite Hnow, Hk, Hq.
  rewrite (proj2 (Z.ltb_ge ver 0)) by lia. unfold tenant_count in Hc.
  by rewrite (proj2 (Z.leb_le _ _) Hc).
Qed.

(** [restore_cold] of a cold cohort makes one more cohort of its tenant resident. *)
Lemma restore_cold_counts k st t0 t1 m :
  manager_inv m → states m !! k = Some st → offloaded st = true → free_slabs m ≠ ∅ →
  check_transfer t0 t1 "restore completion precedes its start" m = Ok tt →
  ∃ r m', restore_cold k t0 t1 m = (Ok r, m') ∧ tenant_quotas m' = tenant_quotas m ∧
    tenant_count m' (tenant_id k) = tenant_count m (tenant_id k) + 1.
Proof.
  intros Hinv Hk Ho Hfree Hc. pose proof (resident_not_offloaded m k st Hinv Hk) as Hres.
  rewrite Ho in Hres. destruct (inv_state m Hinv k st Hk) as (Hkey & _).
  assert (slab_id st = None) as Hslab by (unfold is_resident in Hres; by case_bool_decide).
  unfold restore_cold. rewrite Hc, Hk, Ho, Hslab. cbn [negb orb].
  rewrite bool_decide_eq_false_2 by (intros Hn; by apply Hn).
  destruct (min_slab (free_slabs m)) as [slab|] eqn:Hmin; [|by apply min_slab_None in Hmin].
  eexists _, _. split; [reflexivity|]. split; [done|]. unfold tenant_count. cbn [states set_tables].
  pose proof (count_if_update (tenant_resident (tenant_id k)) (states m) k st
    (touch t1 (set_slab (Some slab) false st)) Hk) as Hu.
  unfold tenant_resident at 2 4 in Hu. cbn in Hu. rewrite Hkey, Ho in Hu.
  rewrite (bool_decide_eq_true_2 (tenant_id k = tenant_id k)) in Hu by done.
  cbn in Hu. lia.
Qed.

(** C38. [restore_cold] does not look at the tenant quota that [admit_] enforces.
    On every manager that a run can reach, when a tenant has used its quota and
    a slab is free, every admission of a new cohort of that tenant is refused
    with [TENANT_QUOTA], and yet the restore of any of its cold cohorts succeeds
    and leaves the tenant, in a reachable manager, above its quota. *)
Theorem restore_cold_exceeds_quota cap bytes quotas ttl mode cold m0 m k st q t0 t1 :
  new_Manager cap bytes quotas ttl mode cold = Ok m0 → rtc manager_step m0 m →
  states m !! k = Some st → offloaded st = true → free_slabs m ≠ ∅ →
  tenant_quotas m !! tenant_id k = Some q → q ≤ tenant_count m (tenant_id k) →
  check_transfer t0 t1 "restore completion precedes its start" m = Ok tt →
  (∀ k' now ver, tenant_id k' = tenant_id k → states m !! k' = None →
     require_time "now" now = Ok tt → 0 ≤ ver → admit_ k' now ver m = refuse TENANT_QUOTA m) ∧
  ∃ r m', restore_cold k t0 t1 m = (Ok r, m') ∧ rtc manager_step m0 m' ∧
    tenant_count m' (tenant_id k) = tenant_count m (tenant_id k) + 1 ∧ over_quota m' (tenant_id k).
Proof.
  intros H0 Hr Hk Ho Hfree Hq Hc Ht. pose proof (manager_run_inv _ _ _ _ _ _ _ _ H0 Hr) as Hinv.
  split.
  - intros k' now ver Hk' Hnone Hnow Hver. apply (admit_at_quota _ _ _ q); by rewrite ?Hk'.
  - destruct (restore_cold_counts k st t0 t1 m Hinv Hk Ho Hfree Ht) as (r & m' & E & Hq' & Hcount).
    exists r, m'. split; [done|]. split; [|split; [done|]].
    + eapply rtc_r; [exact Hr|]. replace m' with (restore_cold k t0 t1 m).2 by by rewrite E.
      apply step_restore.
    + exists q. rewrite Hq', Hcount. split; [done|lia].
Qed.

(** Tenant [a] of quota 1 offloads a cohort, admits another one and restores the first. *)
Definition demo_full : Manager :=
  (admit_ (key_of "a" 1) (at_ 4) 0
    (offload_cold (key_of "a" 0) (at_ 2) (at_ 3) (admit_ (key_of "a" 0) (at_ 1) 0 demo).2).2).2.
Lemma restore_cold_exceeds_quota_witness :
  rtc manager_step demo demo_full ∧ tenant_count demo_full "a" = 1 ∧
  admit_ (key_of "a" 2) (at_ 5) 0 demo_full = refuse TENANT_QUOTA demo_full ∧
  ∃ r m', restore_cold (key_of "a" 0) (at_ 5) (at_ 6) demo_full = (Ok r, m') ∧
    tenant_count m' "a" = 2 ∧ over_quota m' "a".
Proof.
  assert (Hr : rtc manager_step demo demo_full).
  { eapply rtc_l; [apply (step_admit _ (key_of "a" 0) (at_ 1) 0)|].
    eapply rtc_l; [apply (step_offload _ (key_of "a" 0) (at_ 2) (at_ 3))|].
    apply rtc_once, (step_admit _ (key_of "a" 1) (at_ 4) 0). }
  destruct (states demo_full !! key_of "a" 0) as [st|] eqn:Hk; [|vm_compute in Hk; discriminate Hk].
  destruct (restore_cold_exceeds_quota 2 4096 [("a", 1); ("b", 2)] (at_ 30) COLD_INACTIVE_TIMED 1
    demo demo_full (key_of "a" 0) st 1 (at_ 5) (at_ 6)) as [Hadmit (r & m' & E & _ & Hn & Hover)];
    [reflexivity|exact Hr|exact Hk| | |vm_compute; reflexivity|vm_compute; discriminate|
     vm_compute; reflexivity|].
  - vm_compute in Hk. injection Hk as <-. reflexivity.
  - intros Hf. apply (f_equal elements) in Hf. vm_compute in Hf. discriminate Hf.
  - split; [exact Hr|]. split; [vm_compute; reflexivity|]. split.
    + apply Hadmit; [reflexivity|vm_compute; reflexivity|reflexivity|lia].
    + exists r, m'. split; [exact E|]. split; [|exact Hover].
      change (tenant_id (key_of "a" 0)) with "a" in Hn. rewrite Hn. vm_compute. reflexivity.
Defined.
