(* ===== verification/Topology.v ===== *)
(** * Rank topology, parameter ownership and routing ([runtime/distributed.py])

    The identities of a host-local process group, the validated set of rank
    receipts, the parameter ownership rules and the sticky cohort router.  A
    frozen dataclass is a record; the constructor call is the [new_] function
    that runs [__post_init__]. *)
From S2P Require Import Prelude Hashlib.

(** ** Validators *)
Definition require_hash (name value : string) (len : nat) : result unit :=
  raise_if (negb (is_hash len value))
    (ValueError (name +:+ " must be a lowercase " +:+ pretty (Z.of_nat len * 4) +:+ "-bit hash")) ;;
  Ok tt.
Definition require_nonempty (name value : string) : result unit :=
  raise_if (negb (is_canonical_text value))
    (ValueError (name +:+ " must be a non-empty canonical identifier")) ;;
  Ok tt.
Definition require_counter (name : string) (value minimum : Z) : result unit :=
  raise_if (value <? minimum)
    (ValueError (name +:+ " must be an integer >= " +:+ pretty minimum)) ;;
  Ok tt.

Fixpoint require_counters (minimum : Z) (fields : list (string * Z)) : result unit :=
  match fields with
  | [] => Ok tt
  | (name, v) :: fields => _ <-! require_counter name v minimum ;; require_counters minimum fields
  end.
Fixpoint require_texts (fields : list (string * string)) : result unit :=
  match fields with
  | [] => Ok tt
  | (name, v) :: fields => _ <-! require_nonempty name v ;; require_texts fields
  end.

Lemma require_counters_Ok minimum fields :
  require_counters minimum fields = Ok tt ↔ Forall (λ f, minimum ≤ f.2) fields.
Proof.
  induction fields as [|[n v] fields IH]; cbn; [by split|].
  unfold require_counter. destruct (v <? minimum) eqn:E.
  - split; [done|]. inversion 1; cbn in *. lia.
  - rewrite Forall_cons, <- IH. cbn. split; [intros ?; split; [lia|done]|by intros [_ ?]].
Qed.

Lemma require_hash_Ok name v len : require_hash name v len = Ok tt ↔ is_hash len v = true.
Proof. unfold require_hash. by destruct (is_hash len v). Qed.

(** ** Registered topologies *)
Inductive RuntimeTopologyMode : Set := tp1_dp1 | tp2_dp1 | tp1_dp2.
#[export] Instance RuntimeTopologyMode_eq_dec : EqDecision RuntimeTopologyMode.
Proof. solve_decision. Defined.

Definition RuntimeTopologyMode_value (m : RuntimeTopologyMode) : string :=
  match m with tp1_dp1 => "tp1_dp1" | tp2_dp1 => "tp2_dp1" | tp1_dp2 => "tp1_dp2" end.

Definition REGISTERED_RUNTIME_TOPOLOGIES : gmap (Z * Z) RuntimeTopologyMode :=
  {[ (1, 1) := tp1_dp1; (2, 1) := tp2_dp1; (1, 2) := tp1_dp2 ]}.

Definition registered_runtime_topology_mode (tp dp nodes : Z) : result RuntimeTopologyMode :=
  _ <-! require_counters 1 [("tensor_parallel_size", tp); ("data_parallel_size", dp);
                            ("node_count", nodes)] ;;
  raise_if (negb (nodes =? 1))
    (ValueError "multi-node runtime collectives are restricted to one host") ;;
  match REGISTERED_RUNTIME_TOPOLOGIES !! (tp, dp) with
  | Some mode => Ok mode
  | None => Raise (ValueError "runtime topology must be tp1_dp1, tp2_dp1, or tp1_dp2")
  end.

Inductive DistributedControlMode : Set :=
  | single_rank | tp_all_rank_two_phase | dp_sticky_replica_local.
#[export] Instance DistributedControlMode_eq_dec : EqDecision DistributedControlMode.
Proof. solve_decision. Defined.
Inductive AdaptationCollectiveMode : Set := collective_none | tp_shard_all_rank.
#[export] Instance AdaptationCollectiveMode_eq_dec : EqDecision AdaptationCollectiveMode.
Proof. solve_decision. Defined.

Definition distributed_control_mode (m : RuntimeTopologyMode) : DistributedControlMode :=
  match m with
  | tp1_dp1 => single_rank
  | tp2_dp1 => tp_all_rank_two_phase
  | tp1_dp2 => dp_sticky_replica_local
  end.
Definition adaptation_collective_mode (m : RuntimeTopologyMode) : AdaptationCollectiveMode :=
  if bool_decide (m = tp2_dp1) then tp_shard_all_rank else collective_none.

Lemma registered_sizes tp dp nodes m :
  registered_runtime_topology_mode tp dp nodes = Ok m →
  nodes = 1 ∧ ((tp, dp) = (1, 1) ∨ (tp, dp) = (2, 1) ∨ (tp, dp) = (1, 2)).
Proof.
  unfold registered_runtime_topology_mode. intros H.
  destruct (require_counters _ _); [|done]. destruct (negb _) eqn:E; [done|]. bools.
  split; [done|]. unfold REGISTERED_RUNTIME_TOPOLOGIES in H.
  destruct (decide ((tp, dp) = (1, 1))); [by left|].
  destruct (decide ((tp, dp) = (2, 1))); [by right; left|].
  destruct (decide ((tp, dp) = (1, 2))); [by right; right|].
  by rewrite !lookup_insert_ne, lookup_singleton_ne in H.
Qed.

(** ** The identity of one rank *)
Record TopologyIdentity := {
  tensor_parallel_size : Z; data_parallel_size : Z; node_count : Z;
  node_id : string; node_rank : Z; global_rank : Z; local_rank : Z;
  tensor_parallel_rank : Z; data_parallel_rank : Z;
  device_id : string; rendezvous_id : string; ti_router_id : string; clock_id : string;
}.
#[export] Instance TopologyIdentity_eq_dec : EqDecision TopologyIdentity.
Proof. solve_decision. Defined.

Definition world_size (t : TopologyIdentity) : Z :=
  tensor_parallel_size t * data_parallel_size t.

Definition new_TopologyIdentity (t : TopologyIdentity) : result TopologyIdentity :=
  _ <-! require_counters 1 [("tensor_parallel_size", tensor_parallel_size t);
                            ("data_parallel_size", data_parallel_size t);
                            ("node_count", node_count t)] ;;
  _ <-! require_counters 0 [("node_rank", node_rank t); ("global_rank", global_rank t);
                            ("local_rank", local_rank t);
                            ("tensor_parallel_rank", tensor_parallel_rank t);
                            ("data_parallel_rank", data_parallel_rank t)] ;;
  _ <-! require_texts [("node_id", node_id t); ("device_id", device_id t);
                       ("rendezvous_id", rendezvous_id t); ("router_id", ti_router_id t);
                       ("clock_id", clock_id t)] ;;
  raise_if (node_count t <=? node_rank t)
    (ValueError "node_rank is outside the declared node topology") ;;
  raise_if (world_size t <=? global_rank t)
    (ValueError "global_rank is outside the declared world") ;;
  raise_if (tensor_parallel_size t <=? tensor_parallel_rank t)
    (ValueError "tensor_parallel_rank is outside its TP group") ;;
  raise_if (data_parallel_size t <=? data_parallel_rank t)
    (ValueError "data_parallel_rank is outside its DP topology") ;;
  _ <-! registered_runtime_topology_mode (tensor_parallel_size t) (data_parallel_size t)
          (node_count t) ;;
  let expected_rank := data_parallel_rank t * tensor_parallel_size t + tensor_parallel_rank t in
  raise_if (negb (global_rank t =? expected_rank))
    (ValueError "global rank does not match the declared TP/DP ranks") ;;
  raise_if (negb (node_rank t =? 0) || negb (local_rank t =? global_rank t))
    (ValueError "registered runtime ranks must be host-local with local_rank=global_rank") ;;
  Ok t.

Definition topology_mode (t : TopologyIdentity) : result RuntimeTopologyMode :=
  registered_runtime_topology_mode (tensor_parallel_size t) (data_parallel_size t) (node_count t).

(** [asdict(topology)]. *)
Definition topology_json (t : TopologyIdentity) : json := JObj [
  ("tensor_parallel_size", JInt (tensor_parallel_size t));
  ("data_parallel_size", JInt (data_parallel_size t)); ("node_count", JInt (node_count t));
  ("node_id", JStr (node_id t)); ("node_rank", JInt (node_rank t));
  ("global_rank", JInt (global_rank t)); ("local_rank", JInt (local_rank t));
  ("tensor_parallel_rank", JInt (tensor_parallel_rank t));
  ("data_parallel_rank", JInt (data_parallel_rank t)); ("device_id", JStr (device_id t));
  ("rendezvous_id", JStr (rendezvous_id t)); ("router_id", JStr (ti_router_id t));
  ("clock_id", JStr (clock_id t))].

Definition common_identity (t : TopologyIdentity) : Z * Z * Z * string * string * string :=
  (tensor_parallel_size t, data_parallel_size t, node_count t, rendezvous_id t,
   ti_router_id t, clock_id t).

(** ** The receipts of all ranks *)
Record RankTopologyReceipt := {
  topology : TopologyIdentity; process_id : string; observed_world_size : Z }.

Definition new_RankTopologyReceipt (r : RankTopologyReceipt) : result RankTopologyReceipt :=
  _ <-! require_nonempty "process_id" (process_id r) ;;
  _ <-! require_counter "observed_world_size" (observed_world_size r) 1 ;;
  raise_if (negb (observed_world_size r =? world_size (topology r)))
    (ValueError "rank observed a different process-group world size") ;;
  Ok r.

Definition receipt_json (r : RankTopologyReceipt) : json := JObj [
  ("topology", topology_json (topology r)); ("process_id", JStr (process_id r));
  ("observed_world_size", JInt (observed_world_size r))].
Definition rank_receipt_sha256 (r : RankTopologyReceipt) : string :=
  content_digest (receipt_json r).

Definition rank_of (r : RankTopologyReceipt) : Z := global_rank (topology r).

(** A [TopologyReceiptSet] is its tuple of receipts, never empty. *)
Definition TopologyReceiptSet : Type := RankTopologyReceipt * list RankTopologyReceipt.
Definition receipts (s : TopologyReceiptSet) : list RankTopologyReceipt := s.1 :: s.2.
Definition first (s : TopologyReceiptSet) : TopologyIdentity := topology s.1.
Definition set_world_size (s : TopologyReceiptSet) : Z := world_size (first s).
Definition set_tp (s : TopologyReceiptSet) : Z := tensor_parallel_size (first s).
Definition set_dp (s : TopologyReceiptSet) : Z := data_parallel_size (first s).
Definition set_mode (s : TopologyReceiptSet) : result RuntimeTopologyMode :=
  topology_mode (first s).

Definition new_TopologyReceiptSet (rs : list RankTopologyReceipt) : result TopologyReceiptSet :=
  match rs with
  | [] => Raise (ValueError "topology receipts cannot be empty")
  | r0 :: rs' =>
    let first := topology r0 in
    let ranks := map rank_of rs in
    raise_if (negb (bool_decide (NoDup ranks)))
      (ValueError "duplicate topology rank receipt") ;;
    raise_if (negb (bool_decide (list_to_set ranks =@{gset Z}
                                 list_to_set (seqZ 0 (world_size first)))))
      (ValueError "topology receipts do not cover every declared rank") ;;
    raise_if (negb (bool_decide (NoDup (map process_id rs))))
      (ValueError "topology process identities must be unique") ;;
    raise_if (existsb (λ r, negb (bool_decide
               (common_identity (topology r) = common_identity first))) rs)
      (ValueError "rank receipts disagree on the common topology identity") ;;
    raise_if (negb (bool_decide (NoDup (map (λ r, device_id (topology r)) rs))))
      (ValueError "each rank must bind a distinct device identity") ;;
    let node_pairs := map (λ r, (node_rank (topology r), node_id (topology r))) rs in
    raise_if (negb (Z.of_nat (size (list_to_set (map fst node_pairs) : gset Z))
                    =? node_count first))
      (ValueError "topology receipts do not cover every declared node") ;;
    raise_if (negb (Z.of_nat (size (list_to_set (map snd node_pairs) : gset string))
                    =? node_count first))
      (ValueError "node ranks and node identities are not one-to-one") ;;
    raise_if (negb (bool_decide (NoDup
               (map (λ r, (node_rank (topology r), local_rank (topology r))) rs))))
      (ValueError "local rank is duplicated within a node") ;;
    Ok (r0, rs')
  end.

Definition by_rank (s : TopologyReceiptSet) : list RankTopologyReceipt :=
  sorted_by rank_of (receipts s).
Definition topology_sha256 (s : TopologyReceiptSet) : string :=
  content_digest (JList (map (λ r, topology_json (topology r)) (by_rank s))).
Definition receipt_sha256 (s : TopologyReceiptSet) : string :=
  content_digest (JList (map (λ r, JStr (rank_receipt_sha256 r)) (by_rank s))).

Definition receipt_for_rank (rank : Z) (s : TopologyReceiptSet) : result RankTopologyReceipt :=
  _ <-! require_counter "rank" rank 0 ;;
  match list_find (λ r, rank_of r = rank) (receipts s) with
  | Some (_, r) => Ok r
  | None => Raise (KeyError ("rank " +:+ pretty rank +:+ " is outside the topology"))
  end.

Definition tensor_parallel_group (dp_rank : Z) (s : TopologyReceiptSet) : result (list Z) :=
  _ <-! require_counter "data_parallel_rank" dp_rank 0 ;;
  raise_if (set_dp s <=? dp_rank) (ValueError "data_parallel_rank is outside the topology") ;;
  let start := dp_rank * set_tp s in
  Ok (seqZ start (set_tp s)).

(** ** Parameter ownership *)
Inductive ParameterOwnership : Set := SHARDED | REPLICATED.
#[export] Instance ParameterOwnership_eq_dec : EqDecision ParameterOwnership.
Proof. solve_decision. Defined.

Record InferenceParameterOwnership := {
  parameter_name : string; ownership : ParameterOwnership;
  owner_ranks : list Z; shard_axis : option Z }.

Definition new_InferenceParameterOwnership (o : InferenceParameterOwnership)
    : result InferenceParameterOwnership :=
  _ <-! require_nonempty "parameter_name" (parameter_name o) ;;
  raise_if (match owner_ranks o with [] => true | _ => false end)
    (ValueError "parameter ownership requires at least one rank") ;;
  raise_if (negb (bool_decide (NoDup (owner_ranks o))))
    (ValueError "parameter owner ranks must be unique") ;;
  _ <-! require_counters 0 (map (λ r, ("owner rank", r)) (owner_ranks o)) ;;
  match ownership o, shard_axis o with
  | SHARDED, None => Raise (ValueError "sharded parameters require a shard axis")
  | SHARDED, Some axis => _ <-! require_counter "shard_axis" axis 0 ;; Ok o
  | REPLICATED, Some _ => Raise (ValueError "replicated parameters cannot declare a shard axis")
  | REPLICATED, None => Ok o
  end.

(** The loop over the replicas in [validate]. *)
Fixpoint check_replicas (owners : list Z) (replicas : list Z) (s : TopologyReceiptSet)
    : result unit :=
  match replicas with
  | [] => Ok tt
  | replica :: replicas =>
    members <-! tensor_parallel_group replica s ;;
    let group : gset Z := list_to_set members in
    let overlap := group ∩ list_to_set owners in
    raise_if (negb (bool_decide (overlap = ∅)) && negb (bool_decide (overlap = group)))
      (ValueError "parameter ownership partially covers a TP replica") ;;
    check_replicas owners replicas s
  end.

Definition validate (o : InferenceParameterOwnership) (s : TopologyReceiptSet) : result unit :=
  raise_if (existsb (λ r, set_world_size s <=? r) (owner_ranks o))
    (ValueError "parameter owner rank is outside the topology") ;;
  check_replicas (owner_ranks o) (seqZ 0 (set_dp s)) s.

Definition gradient_reduction_ranks (o : InferenceParameterOwnership) (rank : Z)
    (s : TopologyReceiptSet) : result (list Z) :=
  _ <-! validate o s ;;
  raise_if (negb (bool_decide (rank ∈ owner_ranks o)))
    (ValueError "rank does not own this parameter") ;;
  match ownership o with
  | SHARDED => Ok [rank]
  | REPLICATED =>
    let replica := rank / set_tp s in
    members <-! tensor_parallel_group replica s ;;
    Ok (filter (λ member, member ∈ owner_ranks o) members)
  end.

(** ** Sticky replica-local routing *)
Record CohortRouteIdentity := {
  ri_tenant_id : string; ri_cohort_sha256 : string; ri_router_id : string;
  ri_topology_sha256 : string }.

Definition new_CohortRouteIdentity (i : CohortRouteIdentity) : result CohortRouteIdentity :=
  _ <-! require_nonempty "tenant_id" (ri_tenant_id i) ;;
  _ <-! require_nonempty "router_id" (ri_router_id i) ;;
  _ <-! require_hash "cohort_sha256" (ri_cohort_sha256 i) 64 ;;
  _ <-! require_hash "topology_sha256" (ri_topology_sha256 i) 64 ;;
  Ok i.

Definition route_sha256 (i : CohortRouteIdentity) : string :=
  content_digest (JObj [("tenant_id", JStr (ri_tenant_id i));
    ("cohort_sha256", JStr (ri_cohort_sha256 i)); ("router_id", JStr (ri_router_id i));
    ("topology_sha256", JStr (ri_topology_sha256 i))]).

Definition hex_digit (c : Ascii.ascii) : Z :=
  let n := Z.of_nat (Ascii.nat_of_ascii c) in if n <=? 57 then n - 48 else n - 87.
(** [int(s, 16)] of lower-case hexadecimal digits. *)
Fixpoint int_of_hex (acc : Z) (s : string) : Z :=
  match s with
  | EmptyString => acc
  | String.String c s => int_of_hex (16 * acc + hex_digit c) s
  end.

Record ReplicaLocalRouter := { rt_topology : TopologyReceiptSet; routes : gmap string Z }.
Definition new_ReplicaLocalRouter (s : TopologyReceiptSet) : ReplicaLocalRouter :=
  {| rt_topology := s; routes := ∅ |}.

(** [identity.sha256[:16]] is [String.substring 0 16]. *)
Definition home_replica (i : CohortRouteIdentity) (s : TopologyReceiptSet) : Z :=
  int_of_hex 0 (String.substring 0 16 (route_sha256 i)) mod set_dp s.

Definition route (i : CohortRouteIdentity) (r : ReplicaLocalRouter)
    : result Z * ReplicaLocalRouter :=
  raise_in r if (negb (bool_decide (ri_topology_sha256 i = topology_sha256 (rt_topology r))))
    (ValueError "cohort route belongs to another topology") ;;
  raise_in r if (negb (bool_decide (ri_router_id i = ti_router_id (first (rt_topology r)))))
    (ValueError "cohort route belongs to another router") ;;
  match routes r !! route_sha256 i with
  | Some existing => (Ok existing, r)
  | None =>
    let replica := home_replica i (rt_topology r) in
    (Ok replica, {| rt_topology := rt_topology r;
                    routes := <[route_sha256 i := replica]> (routes r) |})
  end.

Definition ranks_for (i : CohortRouteIdentity) (r : ReplicaLocalRouter)
    : result (list Z) * ReplicaLocalRouter :=
  replica @ r <-! route i r ;;
  (tensor_parallel_group replica (rt_topology r), r).

(** ** Validated receipt sets *)
Record valid_set (s : TopologyReceiptSet) : Prop := {
  valid_set_new : new_TopologyReceiptSet (receipts s) = Ok s;
  valid_receipt : ∀ r, r ∈ receipts s → new_RankTopologyReceipt r = Ok r;
  valid_identity : ∀ r, r ∈ receipts s → new_TopologyIdentity (topology r) = Ok (topology r);
}.

(** What [TopologyIdentity.__post_init__] guarantees. *)
Lemma identity_facts t :
  new_TopologyIdentity t = Ok t →
  ((tensor_parallel_size t, data_parallel_size t) = (1, 1) ∨
   (tensor_parallel_size t, data_parallel_size t) = (2, 1) ∨
   (tensor_parallel_size t, data_parallel_size t) = (1, 2)) ∧
  node_count t = 1 ∧ node_rank t = 0 ∧ local_rank t = global_rank t ∧
  0 ≤ tensor_parallel_rank t < tensor_parallel_size t ∧
  0 ≤ data_parallel_rank t < data_parallel_size t ∧
  global_rank t = data_parallel_rank t * tensor_parallel_size t + tensor_parallel_rank t ∧
  0 ≤ global_rank t < world_size t.
Proof.
  unfold new_TopologyIdentity. intros H.
  destruct (require_counters 1 _); [|done].
  destruct (require_counters 0 _) as [[]|] eqn:H0; [|done].
  apply require_counters_Ok in H0. rewrite !Forall_cons in H0. cbn [snd] in H0.
  destruct (require_texts _); [|done].
  destruct (node_count t <=? node_rank t) eqn:E1; [done|].
  destruct (world_size t <=? global_rank t) eqn:E2; [done|].
  destruct (tensor_parallel_size t <=? _) eqn:E3; [done|].
  destruct (data_parallel_size t <=? _) eqn:E4; [done|].
  destruct (registered_runtime_topology_mode _ _ _) eqn:E5; [|done].
  apply registered_sizes in E5 as [? ?].
  destruct (negb _) eqn:E6; [done|]. destruct (_ || _) eqn:E7; [done|]. bools.
  split; [done|]. lia.
Qed.

Section valid.
Context (s : TopologyReceiptSet) (Hs : valid_set s).

Lemma first_in : s.1 ∈ receipts s.
Proof. by left. Qed.

Lemma set_checks :
  NoDup (map rank_of (receipts s)) ∧
  (∀ k, k ∈ map rank_of (receipts s) ↔ 0 ≤ k < set_world_size s) ∧
  NoDup (map process_id (receipts s)) ∧
  (∀ r, r ∈ receipts s → common_identity (topology r) = common_identity (first s)) ∧
  NoDup (map (λ r, device_id (topology r)) (receipts s)) ∧
  size (list_to_set (map (λ r, node_id (topology r)) (receipts s)) : gset string)
    = Z.to_nat (node_count (first s)).
Proof.
  pose proof (valid_set_new s Hs) as H. unfold receipts, new_TopologyReceiptSet in H.
  fold (receipts s) in H. fold (first s) in H.
  destruct (negb (bool_decide (NoDup (map rank_of _)))) eqn:E1; [done|].
  destruct (negb (bool_decide (_ =@{gset Z} _))) eqn:E2; [done|].
  destruct (negb (bool_decide (NoDup (map process_id _)))) eqn:E3; [done|].
  destruct (existsb _ _) eqn:E4; [done|].
  destruct (negb (bool_decide (NoDup (map (λ r, device_id _) _)))) eqn:E5; [done|].
  destruct (negb (_ =? _)); [done|].
  destruct (negb (_ =? _)) eqn:E6; [done|]. clear H. bools.
  repeat (split; [done|]). split; [|split; [done|split; [|split; [done|]]]].
  - intros k. rewrite <- (elem_of_list_to_set (C := gset Z)), E2, elem_of_list_to_set, elem_of_seqZ.
    unfold set_world_size. lia.
  - intros r Hr. apply list_elem_of_In in Hr.
    apply not_true_iff_false in E4.
    destruct (decide (common_identity (topology r) = common_identity (first s))); [done|].
    exfalso. apply E4, existsb_exists. exists r. split; [done|].
    by rewrite bool_decide_eq_false_2.
  - rewrite map_map in E6. cbn [snd] in E6. by rewrite <- E6, Nat2Z.id.
Qed.

Lemma sizes_agree r :
  r ∈ receipts s →
  tensor_parallel_size (topology r) = set_tp s ∧ data_parallel_size (topology r) = set_dp s.
Proof.
  intros Hr. destruct set_checks as (_&_&_&Hc&_). specialize (Hc r Hr).
  unfold common_identity in Hc. by simplify_eq.
Qed.

Lemma set_sizes :
  (set_tp s = 1 ∧ set_dp s = 1 ∨ set_tp s = 2 ∧ set_dp s = 1 ∨ set_tp s = 1 ∧ set_dp s = 2) ∧
  set_world_size s = set_tp s * set_dp s.
Proof.
  destruct (identity_facts _ (valid_identity s Hs _ first_in)) as (H & _).
  split; [|done]. unfold set_tp, set_dp, first. naive_solver.
Qed.

Lemma receipt_for_rank_Ok rank :
  0 ≤ rank < set_world_size s →
  ∃ r, receipt_for_rank rank s = Ok r ∧ r ∈ receipts s ∧ rank_of r = rank.
Proof.
  intros Hr. destruct set_checks as (_&Hk&_). apply Hk in Hr as Hin.
  apply list_elem_of_fmap in Hin as (r & -> & Hin).
  unfold receipt_for_rank, require_counter. replace (_ <? 0) with false by lia.
  destruct (list_find _ _) as [[i r']|] eqn:E.
  - apply list_find_Some in E as (Hi & Hr' & _). exists r'.
    split; [done|]. split; [by eapply list_elem_of_lookup_2|done].
  - exfalso. apply list_find_None in E. rewrite Forall_forall in E. by eapply E.
Qed.

Lemma rank_receipt_unique r1 r2 :
  r1 ∈ receipts s → r2 ∈ receipts s → rank_of r1 = rank_of r2 → r1 = r2.
Proof.
  intros [i Hi]%list_elem_of_lookup [j Hj]%list_elem_of_lookup Heq.
  destruct set_checks as (Hnd&_). assert (i = j) as ->; [|congruence].
  eapply (NoDup_lookup (map rank_of (receipts s))); [done| |];
    apply list_lookup_fmap_Some; eauto.
Qed.

Lemma group_Ok replica :
  0 ≤ replica < set_dp s →
  tensor_parallel_group replica s = Ok (seqZ (replica * set_tp s) (set_tp s)).
Proof.
  intros H. unfold tensor_parallel_group, require_counter.
  by replace (replica <? 0) with false by lia; replace (set_dp s <=? replica) with false by lia.
Qed.

Lemma group_members replica members :
  tensor_parallel_group replica s = Ok members →
  0 ≤ replica < set_dp s ∧ ∀ k, k ∈ members ↔ 0 ≤ k < set_world_size s ∧ k / set_tp s = replica.
Proof.
  unfold tensor_parallel_group, require_counter. intros H.
  destruct (replica <? 0) eqn:E1; [done|]. destruct (set_dp s <=? replica) eqn:E2; [done|].
  simplify_eq/=. bools. split; [lia|]. intros k. rewrite elem_of_seqZ.
  destruct set_sizes as [Hd ->].
  assert (0 < set_tp s) as Hpos by lia.
  pose proof (Z.div_mod k (set_tp s) ltac:(lia)). pose proof (Z.mod_pos_bound k (set_tp s) Hpos).
  destruct Hd as [[Htp Hdp]|[[Htp Hdp]|[Htp Hdp]]]; rewrite Htp, ?Hdp in *; lia.
Qed.
End valid.

(** C34. A validated receipt set covers the declared world exactly: sorted by
    rank its receipts carry the ranks 0 to [world_size - 1], every rank of the
    world and no other has a receipt, all receipts share the sizes, rendezvous,
    router and clock, devices and processes are pairwise different, and the
    sizes are those of a registered topology on one node. *)
Theorem topology_set_exact s :
  valid_set s →
  map rank_of (by_rank s) = seqZ 0 (set_world_size s) ∧
  (∀ rank, (∃ r, receipt_for_rank rank s = Ok r) ↔ 0 ≤ rank < set_world_size s) ∧
  (∀ rank r, receipt_for_rank rank s = Ok r → r ∈ receipts s ∧ rank_of r = rank) ∧
  (∀ r, r ∈ receipts s → common_identity (topology r) = common_identity (first s)) ∧
  NoDup (map (λ r, device_id (topology r)) (receipts s)) ∧
  NoDup (map process_id (receipts s)) ∧
  is_ok (set_mode s) = true ∧ node_count (first s) = 1.
Proof.
  intros Hs. destruct (set_checks s Hs) as (Hnd & Hk & Hp & Hc & Hd & _).
  assert (Hfind : ∀ rank r, receipt_for_rank rank s = Ok r → r ∈ receipts s ∧ rank_of r = rank).
  { intros rank r. unfold receipt_for_rank, require_counter. destruct (rank <? 0); [done|].
    destruct (list_find _ _) as [[i r']|] eqn:E; [|done]. intros [= <-].
    apply list_find_Some in E as (Hi & Hr' & _). split; [by eapply list_elem_of_lookup_2|done]. }
  split; [|split; [|split; [done|split; [done|split; [done|split; [done|]]]]]].
  - by apply sorted_by_range.
  - intros rank. split.
    + intros (r & [Hr <-]%Hfind). apply Hk. by apply list_elem_of_fmap_2.
    + intros Hr. destruct (receipt_for_rank_Ok s Hs rank Hr) as (r & ? & _). eauto.
  - pose proof (valid_identity s Hs _ (first_in s)) as Hid.
    destruct (identity_facts _ Hid) as (_ & Hn & _). split; [|done].
    revert Hid. unfold new_TopologyIdentity, set_mode, topology_mode, first.
    destruct (registered_runtime_topology_mode _ _ _); [done|].
    repeat (case_match; try done).
Qed.

(** Two ranks on one host: TP2/DP1 or TP1/DP2. *)
Definition demo_identity (tp dp rank : Z) (device : string) : TopologyIdentity := {|
  tensor_parallel_size := tp; data_parallel_size := dp; node_count := 1; node_id := "n0";
  node_rank := 0; global_rank := rank; local_rank := rank;
  tensor_parallel_rank := rank mod tp; data_parallel_rank := rank / tp;
  device_id := device; rendezvous_id := "rdv"; ti_router_id := "router"; clock_id := "clock" |}.
Definition demo_receipt (tp dp rank : Z) (device pid : string) : RankTopologyReceipt :=
  {| topology := demo_identity tp dp rank device; process_id := pid; observed_world_size := 2 |}.
Definition demo_set (tp dp : Z) : TopologyReceiptSet :=
  (demo_receipt tp dp 1 "gpu1" "p1", [demo_receipt tp dp 0 "gpu0" "p0"]).

Lemma demo_set_valid tp dp : (tp, dp) = (2, 1) ∨ (tp, dp) = (1, 2) → valid_set (demo_set tp dp).
Proof.
  intros H. split.
  - by destruct H; simplify_eq; vm_compute.
  - intros r [->|[->|[]%elem_of_nil]%elem_of_cons]%elem_of_cons; by destruct H; simplify_eq; vm_compute.
  - intros r [->|[->|[]%elem_of_nil]%elem_of_cons]%elem_of_cons; by destruct H; simplify_eq; vm_compute.
Qed.

Lemma topology_set_exact_witness :
  map rank_of (by_rank (demo_set 1 2)) = seqZ 0 (set_world_size (demo_set 1 2)).
Proof. apply (topology_set_exact (demo_set 1 2)). apply demo_set_valid. by right. Defined.

(** ** Reduction groups *)
Lemma check_replicas_Ok s owners replicas :
  check_replicas owners replicas s = Ok tt →
  ∀ replica members, replica ∈ replicas → tensor_parallel_group replica s = Ok members →
  (∃ k, k ∈ members ∧ k ∈ owners) → ∀ k, k ∈ members → k ∈ owners.
Proof.
  induction replicas as [|x replicas IH]; intros Hc replica members Hin Hg (k & Hk & Ho) k' Hk';
    [by apply elem_of_nil in Hin|].
  cbn in Hc. destruct (tensor_parallel_group x s) as [ms|] eqn:Ex; [|done].
  destruct (negb _ && negb _) eqn:E; [done|].
  apply elem_of_cons in Hin as [->|Hin]; [|by eapply (IH Hc replica members); eauto].
  assert (ms = members) as -> by congruence. bools.
  destruct E as [E|E]; bools.
  - exfalso. assert (Hk2 : k ∈ (list_to_set members ∩ list_to_set owners : gset Z)).
    { apply elem_of_intersection. by rewrite !elem_of_list_to_set. }
    rewrite E in Hk2. by apply elem_of_empty in Hk2.
  - apply (elem_of_list_to_set (C := gset Z)) in Hk'. rewrite <- E in Hk'.
    apply elem_of_intersection in Hk' as [_ Hk']. by apply elem_of_list_to_set in Hk'.
Qed.

(** The ranks a gradient is reduced over contain the rank itself, own the
    parameter and all lie in the rank's own data-parallel replica, so no
    reduction crosses replicas; a replicated parameter is reduced over the whole
    tensor-parallel group, a sharded one over the rank alone. *)
Theorem gradient_reduction_replica_local s o rank g :
  valid_set s → new_InferenceParameterOwnership o = Ok o →
  gradient_reduction_ranks o rank s = Ok g →
  rank ∈ owner_ranks o ∧ rank ∈ g ∧
  (∀ k, k ∈ g → k ∈ owner_ranks o ∧ 0 ≤ k < set_world_size s ∧ k / set_tp s = rank / set_tp s) ∧
  (ownership o = SHARDED → g = [rank]) ∧
  (ownership o = REPLICATED → tensor_parallel_group (rank / set_tp s) s = Ok g).
Proof.
  intros Hs Ho Hg. unfold gradient_reduction_ranks in Hg.
  destruct (validate o s) as [[]|] eqn:Hv; [|done].
  destruct (negb _) eqn:Hown; [done|]. bools.
  assert (Hrank : 0 ≤ rank < set_world_size s).
  { unfold validate in Hv. destruct (existsb _ _) eqn:E; [done|]. clear Hv Hg. split.
    - unfold new_InferenceParameterOwnership in Ho.
      destruct (require_nonempty _ _); [|done]. destruct (match owner_ranks o with [] => _ | _ => _ end); [done|].
      destruct (negb _); [done|]. destruct (require_counters 0 _) as [[]|] eqn:Hc; [|done].
      apply require_counters_Ok in Hc. rewrite Forall_forall in Hc.
      by apply (Hc ("owner rank", rank)), (list_elem_of_fmap_2 (λ r, ("owner rank", r))).
    - apply Z.nle_gt. intros Hle. apply not_true_iff_false in E. apply E, existsb_exists.
      exists rank. split; [by apply list_elem_of_In|lia]. }
  split; [done|]. destruct (ownership o) eqn:Eo.
  - simplify_eq. split; [by left|]. split; [|done].
    by intros k [->|[]%elem_of_nil]%elem_of_cons.
  - destruct (tensor_parallel_group (rank / set_tp s) s) as [members|] eqn:Eg; [|done].
    destruct (group_members s Hs _ _ Eg) as [Hrep Hmem].
    unfold validate in Hv. destruct (existsb _ _); [done|].
    assert (Hall : ∀ k, k ∈ members → k ∈ owner_ranks o).
    { eapply check_replicas_Ok; [exact Hv| |exact Eg|].
      - apply elem_of_seqZ. lia.
      - exists rank. split; [|done]. by apply Hmem. }
    assert (g = members) as ->.
    { injection Hg as <-. clear -Hall. induction members as [|k l IH]; [done|].
      rewrite filter_cons_True by (apply Hall; by left). f_equal. apply IH. intros; apply Hall. by right. }
    split; [by apply Hmem|]. split; [|done].
    intros k Hk. split; [by apply Hall|]. by apply Hmem.
Qed.

Lemma gradient_reduction_replica_local_witness :
  let o := {| parameter_name := "w"; ownership := REPLICATED; owner_ranks := [1; 0];
              shard_axis := None |} in
  gradient_reduction_ranks o 1 (demo_set 2 1) = Ok [0; 1] ∧ 1 ∈ [0; 1].
Proof.
  intros o. split; [vm_compute; reflexivity|].
  apply (gradient_reduction_replica_local (demo_set 2 1) o 1 [0; 1]);
    [apply demo_set_valid; by left|reflexivity|vm_compute; reflexivity].
Defined.

(** ** Routing *)
Inductive router_step (r : ReplicaLocalRouter) : ReplicaLocalRouter → Prop :=
  | step_route i : router_step r (route i r).2
  | step_ranks_for i : router_step r (ranks_for i r).2.

(** Every cached route is the home replica of the identities with that digest. *)
Definition router_inv (s : TopologyReceiptSet) (r : ReplicaLocalRouter) : Prop :=
  rt_topology r = s ∧
  ∀ sha replica, routes r !! sha = Some replica →
    replica = int_of_hex 0 (String.substring 0 16 sha) mod set_dp s.

Lemma route_inv s i r : router_inv s r → router_inv s (route i r).2.
Proof.
  intros [Ht Hr]. unfold route. destruct (negb _); [done|]. destruct (negb _); [done|].
  destruct (routes r !! route_sha256 i) eqn:E; [done|]. split; [done|]. cbn.
  intros sha replica [(<- & <-)|(_ & H)]%lookup_insert_Some; [|by apply Hr].
  unfold home_replica. by rewrite Ht.
Qed.

Lemma ranks_for_state i r : (ranks_for i r).2 = (route i r).2.
Proof. unfold ranks_for. by destruct (route i r) as [[]]. Qed.

Lemma router_reachable s r :
  rtc router_step (new_ReplicaLocalRouter s) r → router_inv s r.
Proof.
  intros Hr. apply (rtc_ind_r (R := router_step) (λ r, router_inv s r) (new_ReplicaLocalRouter s));
    [..|exact Hr]; [done|].
  intros r1 r2 _ [i|i] H; [|rewrite ranks_for_state]; by apply route_inv.
Qed.

(** Routing is sticky and needs no shared memory: whatever was routed
    before, a cohort of this topology and router goes to the replica that the
    first sixteen hexadecimal digits of its identity give, an existing replica,
    so two routers of one topology never disagree; its ranks are exactly the
    tensor-parallel group of that replica, and other identities are refused. *)
Theorem route_sticky s r i :
  valid_set s → rtc router_step (new_ReplicaLocalRouter s) r →
  (ri_topology_sha256 i = topology_sha256 s ∧ ri_router_id i = ti_router_id (first s) →
     (route i r).1 = Ok (home_replica i s) ∧ 0 ≤ home_replica i s < set_dp s ∧
     ∃ g, (ranks_for i r).1 = Ok g ∧
          ∀ k, k ∈ g ↔ 0 ≤ k < set_world_size s ∧ k / set_tp s = home_replica i s) ∧
  (¬ (ri_topology_sha256 i = topology_sha256 s ∧ ri_router_id i = ti_router_id (first s)) →
     is_ok (route i r).1 = false ∧ (route i r).2 = r).
Proof.
  intros Hs [Ht Hr]%router_reachable. destruct (set_sizes s Hs) as [Hd _].
  assert (Hhome : 0 ≤ home_replica i s < set_dp s) by (apply Z.mod_pos_bound; lia).
  split.
  - intros [H1 H2].
    assert (Hroute : (route i r).1 = Ok (home_replica i s) ∧ rt_topology (route i r).2 = s).
    { unfold route. rewrite Ht, !bool_decide_eq_true_2 by done. cbn.
      destruct (routes r !! route_sha256 i) as [e|] eqn:E; [|done].
      apply Hr in E as ->. done. }
    destruct Hroute as [Hroute Htop]. split; [done|]. split; [done|]. unfold ranks_for.
    destruct (route i r) as [x r']. cbn in *. subst x. rewrite Htop.
    rewrite group_Ok by done. eexists. split; [reflexivity|].
    eapply (group_members s Hs). by apply group_Ok.
  - intros Hno. unfold route. rewrite Ht.
    destruct (decide (ri_topology_sha256 i = topology_sha256 s)) as [E1|E1].
    + rewrite (bool_decide_eq_true_2 _ E1), bool_decide_eq_false_2 by tauto. done.
    + by rewrite (bool_decide_eq_false_2 _ E1).
Qed.

Lemma route_sticky_witness :
  let s := demo_set 1 2 in
  let i := {| ri_tenant_id := "a"; ri_cohort_sha256 := "c"; ri_router_id := "router";
              ri_topology_sha256 := topology_sha256 s |} in
  (route i (route i (new_ReplicaLocalRouter s)).2).1 = Ok (home_replica i s).
Proof.
  intros s i. apply (route_sticky s (route i (new_ReplicaLocalRouter s)).2 i);
    [apply demo_set_valid; by right|apply rtc_once, step_route|split; reflexivity].
Defined.
