(* ===== verification/AllRank.v ===== *)
(** * All-rank two-phase publication ([runtime/distributed.py])

    The candidate and vote data, the coordinator's prepare / decide / finalize
    protocol with its fail-closed service state, and the collective transport
    around it.  [torch.distributed] is not part of the program: what its calls
    return is an argument of the transport's methods. *)
From S2P Require Import Prelude Hashlib Topology.

(** ** Identities *)
Record UpdateIdentity := {
  ui_cohort_sha256 : string; ui_source_version : Z; ui_cohort_epoch : Z;
  sequence_number : Z; source_rows_sha256 : string }.
#[export] Instance UpdateIdentity_eq_dec : EqDecision UpdateIdentity.
Proof. solve_decision. Defined.

Definition new_UpdateIdentity (u : UpdateIdentity) : result UpdateIdentity :=
  _ <-! require_hash "cohort_sha256" (ui_cohort_sha256 u) 64 ;;
  _ <-! require_hash "source_rows_sha256" (source_rows_sha256 u) 64 ;;
  _ <-! require_counters 0 [("source_version", ui_source_version u);
                            ("cohort_epoch", ui_cohort_epoch u);
                            ("sequence_number", sequence_number u)] ;;
  Ok u.

Definition update_json (u : UpdateIdentity) : json := JObj [
  ("cohort_sha256", JStr (ui_cohort_sha256 u)); ("source_version", JInt (ui_source_version u));
  ("cohort_epoch", JInt (ui_cohort_epoch u)); ("sequence_number", JInt (sequence_number u));
  ("source_rows_sha256", JStr (source_rows_sha256 u))].
Definition update_sha256 (u : UpdateIdentity) : string := content_digest (update_json u).

Record PublicationCandidate := {
  pc_update : UpdateIdentity; pc_buffer_generation : Z; pc_optimizer_generation : Z }.
#[export] Instance PublicationCandidate_eq_dec : EqDecision PublicationCandidate.
Proof. solve_decision. Defined.

Definition new_PublicationCandidate (c : PublicationCandidate) : result PublicationCandidate :=
  _ <-! require_counter "buffer_generation" (pc_buffer_generation c) 0 ;;
  _ <-! require_counter "optimizer_generation" (pc_optimizer_generation c) 0 ;;
  Ok c.

Definition candidate_json (c : PublicationCandidate) : json := JObj [
  ("update_sha256", JStr (update_sha256 (pc_update c)));
  ("buffer_generation", JInt (pc_buffer_generation c));
  ("optimizer_generation", JInt (pc_optimizer_generation c))].
Definition candidate_sha256 (c : PublicationCandidate) : string :=
  content_digest (candidate_json c).

Record RankPrepare := {
  rank : Z; topology_receipt_sha256 : string; rp_candidate_sha256 : string;
  rp_source_version : Z; rp_cohort_epoch : Z; rp_buffer_generation : Z;
  rp_optimizer_generation : Z; ready : bool; finite : bool; memory_reserved : bool;
  safe_boundary : bool; process_group_healthy : bool }.

Definition new_RankPrepare (v : RankPrepare) : result RankPrepare :=
  _ <-! require_counter "rank" (rank v) 0 ;;
  _ <-! require_hash "topology_receipt_sha256" (topology_receipt_sha256 v) 64 ;;
  _ <-! require_hash "candidate_sha256" (rp_candidate_sha256 v) 64 ;;
  _ <-! require_counters 0 [("source_version", rp_source_version v);
                            ("cohort_epoch", rp_cohort_epoch v);
                            ("buffer_generation", rp_buffer_generation v);
                            ("optimizer_generation", rp_optimizer_generation v)] ;;
  Ok v.

(** ** Prepared publications and decisions *)
Inductive PrepareDisposition : Set :=
  | COMMIT_READY | PREPARE_ABORT_STATIC | PREPARE_PROCESS_GROUP_FAILURE.
#[export] Instance PrepareDisposition_eq_dec : EqDecision PrepareDisposition.
Proof. solve_decision. Defined.
Definition PrepareDisposition_value (d : PrepareDisposition) : string :=
  match d with
  | COMMIT_READY => "commit_ready"
  | PREPARE_ABORT_STATIC => "abort_static"
  | PREPARE_PROCESS_GROUP_FAILURE => "process_group_failure"
  end.

Inductive PublicationOutcome : Set := COMMIT | ABORT_STATIC | PROCESS_GROUP_FAILURE.
#[export] Instance PublicationOutcome_eq_dec : EqDecision PublicationOutcome.
Proof. solve_decision. Defined.
Definition PublicationOutcome_value (o : PublicationOutcome) : string :=
  match o with
  | COMMIT => "commit"
  | ABORT_STATIC => "abort_static"
  | PROCESS_GROUP_FAILURE => "process_group_failure"
  end.

(** [tuple(sorted(set(reasons)))]. *)
Definition sorted_set (l : list string) : list string :=
  sorted_by (λ s : string, s) (elements (list_to_set l : gset string)).
Definition canonical_reasons (rs : list string) : bool :=
  match rs with [] => false | _ => true end && bool_decide (rs = sorted_set rs).
(** [ranks == tuple(range(len(ranks))) and ranks]. *)
Definition exact_ranks (ranks : list Z) : bool :=
  bool_decide (ranks = seqZ 0 (Z.of_nat (length ranks)))
  && match ranks with [] => false | _ => true end.

Record PreparedPublication := {
  pp_update_sha256 : string; pp_candidate_sha256 : string; pp_topology_sha256 : string;
  disposition : PrepareDisposition; pp_reasons : list string; pp_ranks : list Z }.

Definition new_PreparedPublication (p : PreparedPublication) : result PreparedPublication :=
  _ <-! require_hash "prepared update" (pp_update_sha256 p) 64 ;;
  _ <-! require_hash "prepared candidate" (pp_candidate_sha256 p) 64 ;;
  _ <-! require_hash "prepared topology" (pp_topology_sha256 p) 64 ;;
  raise_if (negb (canonical_reasons (pp_reasons p)))
    (ValueError "prepared publication reasons must be canonical") ;;
  raise_if (negb (exact_ranks (pp_ranks p)))
    (ValueError "prepared publication requires exact all-rank coverage") ;;
  Ok p.

Definition prepared_json (p : PreparedPublication) : json := JObj [
  ("update_sha256", JStr (pp_update_sha256 p));
  ("candidate_sha256", JStr (pp_candidate_sha256 p));
  ("topology_sha256", JStr (pp_topology_sha256 p));
  ("disposition", JStr (PrepareDisposition_value (disposition p)));
  ("reasons", JList (map JStr (pp_reasons p))); ("ranks", JList (map JInt (pp_ranks p)))].
Definition prepared_sha256 (p : PreparedPublication) : string := content_digest (prepared_json p).

Record PublicationDecision := {
  pd_update_sha256 : string; pd_candidate_sha256 : string; pd_topology_sha256 : string;
  outcome : PublicationOutcome; pd_reasons : list string; pd_ranks : list Z;
  pd_service_ready : bool; pd_admission_allowed : bool; pd_restart_required : bool }.

Definition new_PublicationDecision (d : PublicationDecision) : result PublicationDecision :=
  _ <-! require_hash "decision update" (pd_update_sha256 d) 64 ;;
  _ <-! require_hash "decision candidate" (pd_candidate_sha256 d) 64 ;;
  _ <-! require_hash "decision topology" (pd_topology_sha256 d) 64 ;;
  raise_if (negb (canonical_reasons (pd_reasons d)))
    (ValueError "publication decision reasons must be canonical") ;;
  raise_if (negb (exact_ranks (pd_ranks d)))
    (ValueError "publication decision requires exact all-rank coverage") ;;
  let state := (pd_service_ready d, pd_admission_allowed d, pd_restart_required d) in
  let expected := if bool_decide (outcome d = PROCESS_GROUP_FAILURE)
                  then (false, false, true) else (false, false, false) in
  raise_if (negb (bool_decide (state = expected)))
    (ValueError "publication decision service state is not fail-closed") ;;
  Ok d.

Definition decision_json (d : PublicationDecision) : json := JObj [
  ("update_sha256", JStr (pd_update_sha256 d));
  ("candidate_sha256", JStr (pd_candidate_sha256 d));
  ("topology_sha256", JStr (pd_topology_sha256 d));
  ("outcome", JStr (PublicationOutcome_value (outcome d)));
  ("reasons", JList (map JStr (pd_reasons d))); ("ranks", JList (map JInt (pd_ranks d)));
  ("service_ready", JBool (pd_service_ready d));
  ("admission_allowed", JBool (pd_admission_allowed d));
  ("restart_required", JBool (pd_restart_required d))].
Definition decision_sha256 (d : PublicationDecision) : string := content_digest (decision_json d).

Record RankDecisionReceipt := {
  dr_rank : Z; dr_topology_receipt_sha256 : string; dr_decision_sha256 : string; applied : bool }.

Definition new_RankDecisionReceipt (r : RankDecisionReceipt) : result RankDecisionReceipt :=
  _ <-! require_counter "rank" (dr_rank r) 0 ;;
  _ <-! require_hash "topology_receipt_sha256" (dr_topology_receipt_sha256 r) 64 ;;
  _ <-! require_hash "decision_sha256" (dr_decision_sha256 r) 64 ;;
  Ok r.

(** The loop of [validate_decision_receipts]. *)
Fixpoint check_decision_receipts (d : PublicationDecision) (rs : list RankDecisionReceipt)
    (s : TopologyReceiptSet) : result unit :=
  match rs with
  | [] => Ok tt
  | r :: rs =>
    topology_receipt <-! receipt_for_rank (dr_rank r) s ;;
    raise_if (negb (bool_decide
        (dr_topology_receipt_sha256 r = rank_receipt_sha256 topology_receipt)))
      (ValueError "publication receipt binds another rank topology") ;;
    raise_if (negb (bool_decide (dr_decision_sha256 r = decision_sha256 d)))
      (ValueError "ranks did not observe one publication decision") ;;
    raise_if (negb (bool_decide (applied r = bool_decide (outcome d = COMMIT))))
      (ValueError "publication receipt would create a partial model") ;;
    check_decision_receipts d rs s
  end.

Definition validate_decision_receipts (d : PublicationDecision) (rs : list RankDecisionReceipt)
    (s : TopologyReceiptSet) : result unit :=
  raise_if (negb (bool_decide (pd_topology_sha256 d = topology_sha256 s)))
    (ValueError "publication decision belongs to another topology") ;;
  raise_if (negb (bool_decide (pd_ranks d = seqZ 0 (set_world_size s))))
    (ValueError "publication decision lacks exact all-rank coverage") ;;
  let ranks := map dr_rank rs in
  raise_if (negb (bool_decide (NoDup ranks)))
    (ValueError "duplicate publication decision receipt") ;;
  raise_if (negb (bool_decide (list_to_set ranks =@{gset Z} list_to_set (seqZ 0 (set_world_size s)))))
    (ValueError "publication decision receipts lack all-rank coverage") ;;
  check_decision_receipts d rs s.

(** ** The coordinator *)
Record Coordinator := {
  co_topology : TopologyReceiptSet;
  service_ready : bool; admission_allowed : bool; restart_required : bool;
  pending : option PreparedPublication;
  pending_decision : option PublicationDecision;
  consumed_updates : gset string;
}.

Definition new_Coordinator (s : TopologyReceiptSet) : Coordinator := {|
  co_topology := s; service_ready := true; admission_allowed := true;
  restart_required := false; pending := None; pending_decision := None;
  consumed_updates := ∅ |}.

Definition rank_reason (r : Z) (reason : string) : string :=
  "rank_" +:+ pretty r +:+ ":" +:+ reason.

(** The [checks] tuple of one vote. *)
Definition vote_checks (c : PublicationCandidate) (v : RankPrepare) : list (bool * string) := [
  (bool_decide (rp_candidate_sha256 v = candidate_sha256 c), "candidate_identity");
  (rp_source_version v =? ui_source_version (pc_update c), "source_version");
  (rp_cohort_epoch v =? ui_cohort_epoch (pc_update c), "cohort_epoch");
  (rp_buffer_generation v =? pc_buffer_generation c, "buffer_generation");
  (rp_optimizer_generation v =? pc_optimizer_generation c, "optimizer_generation");
  (ready v, "readiness"); (finite v, "finiteness");
  (memory_reserved v, "memory_reservation"); (safe_boundary v, "safe_boundary")].

Definition failed_checks (c : PublicationCandidate) (v : RankPrepare) : list string :=
  map (λ x, rank_reason (rank v) x.2) (filter (λ x, x.1 = false) (vote_checks c v)).

Definition vote_process_failures (receipt_sha : string) (v : RankPrepare) : list string :=
  (if bool_decide (topology_receipt_sha256 v = receipt_sha) then []
   else [rank_reason (rank v) "topology_receipt_mismatch"])
  ++ (if process_group_healthy v then [] else [rank_reason (rank v) "process_group_failed"]).

(** The loop over the votes, extending [process_failures] and [invalid]. *)
Fixpoint scan_votes (c : PublicationCandidate) (expected : list Z) (votes : list RankPrepare)
    (s : TopologyReceiptSet) : result (list string * list string) :=
  match votes with
  | [] => Ok ([], [])
  | v :: votes =>
    if negb (bool_decide (rank v ∈ expected)) then scan_votes c expected votes s
    else
      topology_receipt <-! receipt_for_rank (rank v) s ;;
      rest <-! scan_votes c expected votes s ;;
      Ok (vote_process_failures (rank_receipt_sha256 topology_receipt) v ++ rest.1,
          failed_checks c v ++ rest.2)
  end.

Definition sorted_ints (xs : gset Z) : list Z := sorted_by (λ z : Z, z) (elements xs).
Definition ranks_reason (prefix : string) (ranks : list Z) : list string :=
  match ranks with [] => [] | _ => [prefix +:+ String.concat "," (map pretty ranks)] end.

Definition set_pending (p : option PreparedPublication) (c : Coordinator) : Coordinator := {|
  co_topology := co_topology c; service_ready := service_ready c;
  admission_allowed := admission_allowed c; restart_required := restart_required c;
  pending := p; pending_decision := pending_decision c;
  consumed_updates := consumed_updates c |}.

Definition prepare (cand : PublicationCandidate) (votes : list RankPrepare) (c : Coordinator)
    : result PreparedPublication * Coordinator :=
  raise_in c if (restart_required c)
    (RuntimeError "process group restart is required before preparation") ;;
  raise_in c if (negb (bool_decide (pending c = None ∧ pending_decision c = None)))
    (RuntimeError "a publication decision is already pending") ;;
  let expected_ranks := seqZ 0 (set_world_size (co_topology c)) in
  let vote_ranks := map rank votes in
  raise_in c if (negb (bool_decide (NoDup vote_ranks)))
    (ValueError "duplicate rank prepare vote") ;;
  let missing := sorted_ints (list_to_set expected_ranks ∖ list_to_set vote_ranks) in
  let unexpected := sorted_ints (list_to_set vote_ranks ∖ list_to_set expected_ranks) in
  match scan_votes cand expected_ranks (sorted_by rank votes) (co_topology c) with
  | Raise e => (Raise e, c)
  | Ok (failures, failed) =>
    let process_failures := ranks_reason "missing_ranks:" missing
                            ++ ranks_reason "unexpected_ranks:" unexpected ++ failures in
    let invalid := (if bool_decide (update_sha256 (pc_update cand) ∈ consumed_updates c)
                    then ["duplicate_update_identity"] else []) ++ failed in
    let '(disp, reasons) :=
      match process_failures, invalid with
      | _ :: _, _ => (PREPARE_PROCESS_GROUP_FAILURE, sorted_set process_failures)
      | [], _ :: _ => (PREPARE_ABORT_STATIC, sorted_set invalid)
      | [], [] => (COMMIT_READY, ["all_ranks_prepared"])
      end in
    match new_PreparedPublication {|
            pp_update_sha256 := update_sha256 (pc_update cand);
            pp_candidate_sha256 := candidate_sha256 cand;
            pp_topology_sha256 := topology_sha256 (co_topology c);
            disposition := disp; pp_reasons := reasons; pp_ranks := expected_ranks |} with
    | Raise e => (Raise e, c)
    | Ok prepared => (Ok prepared, set_pending (Some prepared) c)
    end
  end.

Definition outcome_of (d : PrepareDisposition) : PublicationOutcome :=
  match d with
  | COMMIT_READY => COMMIT
  | PREPARE_ABORT_STATIC => ABORT_STATIC
  | PREPARE_PROCESS_GROUP_FAILURE => PROCESS_GROUP_FAILURE
  end.

Definition decide_ (prepared : PreparedPublication) (c : Coordinator)
    : result PublicationDecision * Coordinator :=
  raise_in c if (negb (bool_decide
      (Some (prepared_sha256 prepared) = prepared_sha256 <$> pending c)))
    (RuntimeError "prepared publication is not the active collective") ;;
  let outcome := outcome_of (disposition prepared) in
  let process_failed := bool_decide (outcome = PROCESS_GROUP_FAILURE) in
  match new_PublicationDecision {|
          pd_update_sha256 := pp_update_sha256 prepared;
          pd_candidate_sha256 := pp_candidate_sha256 prepared;
          pd_topology_sha256 := pp_topology_sha256 prepared;
          outcome := outcome; pd_reasons := pp_reasons prepared; pd_ranks := pp_ranks prepared;
          pd_service_ready := false; pd_admission_allowed := false;
          pd_restart_required := process_failed |} with
  | Raise e => (Raise e, c)
  | Ok decision =>
    (Ok decision, {|
      co_topology := co_topology c;
      service_ready := pd_service_ready decision;
      admission_allowed := pd_admission_allowed decision;
      restart_required := pd_restart_required decision;
      pending := None;
      pending_decision := if process_failed then None else Some decision;
      consumed_updates := if process_failed
                          then consumed_updates c ∪ {[pp_update_sha256 prepared]}
                          else consumed_updates c |})
  end.

Definition mark_collective_failed (c : Coordinator) : Coordinator := {|
  co_topology := co_topology c; service_ready := false; admission_allowed := false;
  restart_required := true; pending := None; pending_decision := None;
  consumed_updates := consumed_updates c |}.

Definition finalize (d : PublicationDecision) (rs : list RankDecisionReceipt) (c : Coordinator)
    : result unit * Coordinator :=
  raise_in c if (negb (bool_decide
      (Some (decision_sha256 d) = decision_sha256 <$> pending_decision c)))
    (RuntimeError "publication decision is not awaiting finalization") ;;
  match validate_decision_receipts d rs (co_topology c) with
  | Raise (ValueError msg) => (Raise (ValueError msg), mark_collective_failed c)
  | Raise e => (Raise e, c)
  | Ok _ => (Ok tt, {|
      co_topology := co_topology c; service_ready := true; admission_allowed := true;
      restart_required := false; pending := pending c; pending_decision := None;
      consumed_updates := consumed_updates c ∪ {[pd_update_sha256 d]} |})
  end.

Definition mark_process_group_restarted (s : TopologyReceiptSet) (c : Coordinator)
    : result unit * Coordinator :=
  raise_in c if (negb (restart_required c))
    (RuntimeError "no process-group restart is pending") ;;
  raise_in c if (negb (bool_decide (topology_sha256 s = topology_sha256 (co_topology c))))
    (ValueError "restart topology differs from the failed topology") ;;
  (Ok tt, {|
    co_topology := s; service_ready := true; admission_allowed := true;
    restart_required := false; pending := pending c; pending_decision := None;
    consumed_updates := consumed_updates c |}).

(** ** The collective transport *)

(** What the process group reports about itself. *)
Record GroupView := {
  gv_available : bool; gv_initialized : bool; gv_backend : string;
  gv_world_size : Z; gv_rank : Z }.

Record GlooPublicationTransport := {
  tp_topology : TopologyReceiptSet; tp_local_rank : Z; coordinator : Coordinator }.

Definition new_GlooPublicationTransport (s : TopologyReceiptSet) (local : Z)
    : result GlooPublicationTransport :=
  _ <-! require_counter "local_rank" local 0 ;;
  raise_if (set_world_size s <=? local) (ValueError "local rank is outside the topology") ;;
  Ok {| tp_topology := s; tp_local_rank := local; coordinator := new_Coordinator s |}.

Definition distributed (g : GroupView) (t : GlooPublicationTransport) : result unit :=
  raise_if (negb (gv_available g) || negb (gv_initialized g))
    (RuntimeError "a live gloo process group is required") ;;
  raise_if (negb (bool_decide (gv_backend g = "gloo")))
    (RuntimeError "CPU publication harness requires the gloo backend") ;;
  raise_if (negb (gv_world_size g =? set_world_size (tp_topology t)))
    (RuntimeError "process-group world size differs from topology receipts") ;;
  raise_if (negb (gv_rank g =? tp_local_rank t))
    (RuntimeError "process-group rank differs from the local topology rank") ;;
  Ok tt.

Definition set_coordinator (c : Coordinator) (t : GlooPublicationTransport)
    : GlooPublicationTransport :=
  {| tp_topology := tp_topology t; tp_local_rank := tp_local_rank t; coordinator := c |}.

(** The [except Exception] handler. *)
Definition fail_transport (t : GlooPublicationTransport) : GlooPublicationTransport :=
  set_coordinator (mark_collective_failed (coordinator t)) t.

(** All gathered objects are instances of the expected class; [None] is a
    gathered object of another class. *)
Definition instances {A} (gathered : list (option A)) : option (list A) := mapM id gathered.

(** [gather] and [gather_digests] are the two [all_gather_object] calls, given
    the local object. *)
Definition prepare_and_decide (g : GroupView)
    (gather : RankPrepare → result (list (option RankPrepare)))
    (gather_digests : string → result (list (option string)))
    (cand : PublicationCandidate) (local_vote : RankPrepare) (t : GlooPublicationTransport)
    : result PublicationDecision * GlooPublicationTransport :=
  raise_in t if (negb (rank local_vote =? tp_local_rank t))
    (ValueError "local prepare vote belongs to another rank") ;;
  match distributed g t with
  | Raise e => (Raise e, t)
  | Ok _ =>
    match gather local_vote with
    | Raise e => (Raise e, fail_transport t)
    | Ok gathered =>
      match instances gathered with
      | None => (Raise (RuntimeError "collective returned an invalid prepare vote"),
                 fail_transport t)
      | Some votes =>
        match prepare cand votes (coordinator t) with
        | (Raise e, c) => (Raise e, fail_transport (set_coordinator c t))
        | (Ok prepared, c) =>
          match decide_ prepared c with
          | (Raise e, c) => (Raise e, fail_transport (set_coordinator c t))
          | (Ok decision, c) =>
            let t := set_coordinator c t in
            match gather_digests (decision_sha256 decision) with
            | Raise e => (Raise e, fail_transport t)
            | Ok decisions =>
              raise_in (fail_transport t) if (negb (bool_decide (decisions =
                  replicate (Z.to_nat (set_world_size (tp_topology t)))
                            (Some (decision_sha256 decision)))))
                (RuntimeError "ranks derived different publication decisions") ;;
              (Ok decision, t)
            end
          end
        end
      end
    end
  end.

Definition transport_finalize (g : GroupView)
    (gather : RankDecisionReceipt → result (list (option RankDecisionReceipt)))
    (d : PublicationDecision) (applied : bool) (t : GlooPublicationTransport)
    : result (list RankDecisionReceipt) * GlooPublicationTransport :=
  match distributed g t with
  | Raise e => (Raise e, t)
  | Ok _ =>
    match receipt_for_rank (tp_local_rank t) (tp_topology t) with
    | Raise e => (Raise e, t)
    | Ok r =>
      match new_RankDecisionReceipt {|
              dr_rank := tp_local_rank t; dr_topology_receipt_sha256 := rank_receipt_sha256 r;
              dr_decision_sha256 := decision_sha256 d; applied := applied |} with
      | Raise e => (Raise e, t)
      | Ok local =>
        match gather local with
        | Raise e => (Raise e, fail_transport t)
        | Ok gathered =>
          match instances gathered with
          | None => (Raise (RuntimeError "collective returned an invalid decision receipt"),
                     fail_transport t)
          | Some receipts =>
            match finalize d receipts (coordinator t) with
            | (Raise e, c) => (Raise e, fail_transport (set_coordinator c t))
            | (Ok _, c) => (Ok receipts, set_coordinator c t)
            end
          end
        end
      end
    end
  end.

(** ** Canonical reasons *)
Lemma elem_of_sorted_set x l : x ∈ sorted_set l ↔ x ∈ l.
Proof. unfold sorted_set. by rewrite elem_of_sorted_by, elem_of_elements, elem_of_list_to_set. Qed.

Lemma sorted_set_idemp l : sorted_set (sorted_set l) = sorted_set l.
Proof.
  unfold sorted_set at 1. replace (list_to_set (sorted_set l) : gset string)
    with (list_to_set l : gset string); [done|].
  apply set_eq. intros x. by rewrite !elem_of_list_to_set, elem_of_sorted_set.
Qed.

Lemma canonical_sorted_set x l : canonical_reasons (sorted_set (x :: l)) = true.
Proof.
  unfold canonical_reasons. rewrite sorted_set_idemp, bool_decide_eq_true_2 by done.
  assert (x ∈ sorted_set (x :: l)) as Hx by (apply elem_of_sorted_set; by left).
  by destruct (sorted_set (x :: l)); [apply elem_of_nil in Hx|].
Qed.

Lemma exact_ranks_seqZ n : 0 < n → exact_ranks (seqZ 0 n) = true.
Proof.
  intros Hn. unfold exact_ranks. rewrite length_seqZ, Z2Nat.id by lia.
  rewrite bool_decide_eq_true_2 by done. by rewrite seqZ_cons.
Qed.

Lemma new_PreparedPublication_Ok p p' :
  new_PreparedPublication p = Ok p' → p' = p ∧
  is_hash 64 (pp_update_sha256 p) = true ∧ is_hash 64 (pp_candidate_sha256 p) = true ∧
  is_hash 64 (pp_topology_sha256 p) = true ∧ canonical_reasons (pp_reasons p) = true ∧
  exact_ranks (pp_ranks p) = true.
Proof.
  unfold new_PreparedPublication. intros H.
  destruct (require_hash _ (pp_update_sha256 p) _) as [[]|] eqn:H1; [|done].
  destruct (require_hash _ (pp_candidate_sha256 p) _) as [[]|] eqn:H2; [|done].
  destruct (require_hash _ (pp_topology_sha256 p) _) as [[]|] eqn:H3; [|done].
  destruct (negb _) eqn:H4; [done|]. destruct (negb (exact_ranks _)) eqn:H5; [done|].
  bools. rewrite require_hash_Ok in H1, H2, H3. by simplify_eq.
Qed.

(** A prepared publication yields a decision that passes its own checks. *)
Lemma decision_of_prepared p :
  new_PreparedPublication p = Ok p →
  let o := outcome_of (disposition p) in
  let d := {| pd_update_sha256 := pp_update_sha256 p; pd_candidate_sha256 := pp_candidate_sha256 p;
              pd_topology_sha256 := pp_topology_sha256 p; outcome := o;
              pd_reasons := pp_reasons p; pd_ranks := pp_ranks p;
              pd_service_ready := false; pd_admission_allowed := false;
              pd_restart_required := bool_decide (o = PROCESS_GROUP_FAILURE) |} in
  new_PublicationDecision d = Ok d.
Proof.
  intros (_ & H1 & H2 & H3 & H4 & H5)%new_PreparedPublication_Ok o d.
  unfold new_PublicationDecision, require_hash, d; cbn.
  rewrite H1, H2, H3, H4, H5; cbn. by destruct o.
Qed.

(** ** What [prepare] decides *)

(** One vote that supports the candidate. *)
Definition vote_supports (cand : PublicationCandidate) (s : TopologyReceiptSet) (v : RankPrepare)
    : Prop :=
  rp_candidate_sha256 v = candidate_sha256 cand ∧
  rp_source_version v = ui_source_version (pc_update cand) ∧
  rp_cohort_epoch v = ui_cohort_epoch (pc_update cand) ∧
  rp_buffer_generation v = pc_buffer_generation cand ∧
  rp_optimizer_generation v = pc_optimizer_generation cand ∧
  ready v = true ∧ finite v = true ∧ memory_reserved v = true ∧ safe_boundary v = true.

(** One vote from a healthy rank with the receipt of this topology. *)
Definition vote_healthy (s : TopologyReceiptSet) (v : RankPrepare) : Prop :=
  process_group_healthy v = true ∧
  ∃ r, receipt_for_rank (rank v) s = Ok r ∧ topology_receipt_sha256 v = rank_receipt_sha256 r.

Lemma failed_checks_nil cand s v : failed_checks cand v = [] ↔ vote_supports cand s v.
Proof.
  unfold failed_checks, vote_supports. split.
  - intros H%fmap_nil_inv. assert (Hall : ∀ x, x ∈ vote_checks cand v → x.1 = true).
    { intros x Hx. apply not_false_is_true. intros Hf.
      assert (x ∈ filter (λ x : bool * string, x.1 = false) (vote_checks cand v)) as Hin
        by (by apply list_elem_of_filter).
      rewrite H in Hin. by apply elem_of_nil in Hin. }
    apply Forall_forall in Hall. unfold vote_checks in Hall. rewrite !Forall_cons in Hall.
    cbn [fst] in Hall. destruct Hall as (?&?&?&?&?&?&?&?&?&_). bools. done.
  - intros (H1&H2&H3&H4&H5&H6&H7&H8&H9). unfold vote_checks.
    by rewrite H1, H2, H3, H4, H5, H6, H7, H8, H9, bool_decide_eq_true_2, !Z.eqb_refl.
Qed.

Lemma vote_process_failures_nil sha v :
  vote_process_failures sha v = [] ↔
  topology_receipt_sha256 v = sha ∧ process_group_healthy v = true.
Proof.
  unfold vote_process_failures. case_bool_decide; destruct (process_group_healthy v); naive_solver.
Qed.

Lemma scan_votes_spec cand s votes :
  valid_set s → (∀ v, v ∈ votes → rank v ∈ seqZ 0 (set_world_size s)) →
  ∃ pf inv, scan_votes cand (seqZ 0 (set_world_size s)) votes s = Ok (pf, inv) ∧
    (pf = [] ↔ ∀ v, v ∈ votes → vote_healthy s v) ∧
    (inv = [] ↔ ∀ v, v ∈ votes → vote_supports cand s v).
Proof.
  intros Hs. induction votes as [|v votes IH]; intros Hv.
  { exists [], []. split; [done|]. split; split; try done; intros _ v Hin;
      by apply elem_of_nil in Hin. }
  destruct IH as (pf & inv & Hscan & Hpf & Hinv); [intros; apply Hv; by right|].
  assert (rank v ∈ seqZ 0 (set_world_size s)) as Hr by (apply Hv; by left).
  pose proof Hr as Hr'. apply elem_of_seqZ in Hr'.
  destruct (receipt_for_rank_Ok s Hs (rank v) ltac:(lia)) as (r & Hrec & _).
  cbn [scan_votes]. rewrite bool_decide_eq_true_2 by done. cbn [negb]. rewrite Hrec, Hscan.
  eexists _, _. split; [reflexivity|]. cbn [fst snd]. split.
  - rewrite app_nil, vote_process_failures_nil, Hpf. split.
    + intros [[H1 H2] H3] v' [->|Hin]%elem_of_cons; [|by apply H3]. split; [done|]. by exists r.
    + intros H. split; [|intros v' Hin; apply H; by right].
      destruct (H v) as [Hh (r' & Hr2 & Heq)]; [by left|]. split; [|done]. congruence.
  - rewrite app_nil, (failed_checks_nil cand s), Hinv. split.
    + intros [H1 H2] v' [->|Hin]%elem_of_cons; auto.
    + intros H. split; [apply H; by left|intros v' Hin; apply H; by right].
Qed.

(** Without the restriction to expected ranks: the scan never raises. *)
Lemma scan_votes_filter cand s votes :
  scan_votes cand (seqZ 0 (set_world_size s)) votes s =
  scan_votes cand (seqZ 0 (set_world_size s))
    (filter (λ v, rank v ∈ seqZ 0 (set_world_size s)) votes) s.
Proof.
  induction votes as [|v votes IH]; [done|]. rewrite filter_cons. cbn [scan_votes].
  destruct (decide (rank v ∈ seqZ 0 (set_world_size s))) as [Hin|Hin].
  - cbn [scan_votes]. rewrite bool_decide_eq_true_2 by done. cbn [negb]. by rewrite IH.
  - by rewrite bool_decide_eq_false_2.
Qed.

Lemma ranks_reason_nil prefix (X : gset Z) : ranks_reason prefix (sorted_ints X) = [] ↔ X = ∅.
Proof.
  assert (sorted_ints X = [] ↔ X = ∅) as <-.
  { unfold sorted_ints. split.
    - intros H. apply set_eq. intros x.
      rewrite <- elem_of_elements, <- (elem_of_sorted_by (λ z : Z, z)), H. set_solver.
    - by intros ->. }
  unfold ranks_reason. by destruct (sorted_ints X).
Qed.

Lemma difference_both_empty (X Y : gset Z) : X ∖ Y = ∅ ∧ Y ∖ X = ∅ ↔ X = Y.
Proof.
  split.
  - intros [H1 H2]. apply set_eq. intros x. split; intros Hx.
    + destruct (decide (x ∈ Y)); [done|]. exfalso.
      apply (not_elem_of_empty (C := gset Z) x). rewrite <- H1. by apply elem_of_difference.
    + destruct (decide (x ∈ X)); [done|]. exfalso.
      apply (not_elem_of_empty (C := gset Z) x). rewrite <- H2. by apply elem_of_difference.
  - intros ->. by rewrite difference_diag_L.
Qed.

Lemma ranks_cover (l : list Z) n :
  (list_to_set (seqZ 0 n) : gset Z) = list_to_set l ↔ ∀ k, k ∈ l ↔ 0 <= k < n.
Proof.
  rewrite set_eq. setoid_rewrite elem_of_list_to_set. setoid_rewrite elem_of_seqZ.
  split; intros H k; specialize (H k); rewrite Z.add_0_l in *; tauto.
Qed.

(** Every rank of the world voted, nobody else did, and all are healthy. *)
Definition all_ranks_healthy (s : TopologyReceiptSet) (votes : list RankPrepare) : Prop :=
  (∀ k, k ∈ map rank votes ↔ 0 ≤ k < set_world_size s) ∧ ∀ v, v ∈ votes → vote_healthy s v.

Definition process_failures_of (s : TopologyReceiptSet) (votes : list RankPrepare)
    (failures : list string) : list string :=
  let expected : gset Z := list_to_set (seqZ 0 (set_world_size s)) in
  ranks_reason "missing_ranks:" (sorted_ints (expected ∖ list_to_set (map rank votes)))
  ++ ranks_reason "unexpected_ranks:" (sorted_ints (list_to_set (map rank votes) ∖ expected))
  ++ failures.

Lemma scan_sorted_spec cand s votes :
  valid_set s →
  ∃ pf inv, scan_votes cand (seqZ 0 (set_world_size s)) (sorted_by rank votes) s = Ok (pf, inv) ∧
    (process_failures_of s votes pf = [] ↔ all_ranks_healthy s votes) ∧
    (all_ranks_healthy s votes → inv = [] ↔ ∀ v, v ∈ votes → vote_supports cand s v).
Proof.
  intros Hs. rewrite scan_votes_filter.
  set (l := filter _ (sorted_by rank votes)).
  assert (Hl : ∀ v, v ∈ l ↔ rank v ∈ seqZ 0 (set_world_size s) ∧ v ∈ votes).
  { intros v. unfold l. by rewrite list_elem_of_filter, elem_of_sorted_by. }
  destruct (scan_votes_spec cand s l Hs) as (pf & inv & Hscan & Hpf & Hinv).
  { by intros v [? _]%Hl. }
  exists pf, inv. split; [done|].
  assert (Hall : all_ranks_healthy s votes → ∀ v, v ∈ l ↔ v ∈ votes).
  { intros [Hk _] v. rewrite Hl. split; [by intros [_ ?]|]. intros Hv. split; [|done].
    apply elem_of_seqZ. rewrite Z.add_0_l. apply Hk. by apply list_elem_of_fmap_2. }
  split.
  - unfold process_failures_of. rewrite !app_nil, !ranks_reason_nil, Hpf.
    rewrite (assoc (∧)), difference_both_empty, ranks_cover. unfold all_ranks_healthy.
    split; intros [Hk H]; (split; [exact Hk|]); intros v Hv; apply H.
    + apply Hl. split; [|done]. apply elem_of_seqZ. rewrite Z.add_0_l. apply Hk.
      by apply list_elem_of_fmap_2.
    + by apply Hl in Hv as [_ ?].
  - intros H. rewrite Hinv. by setoid_rewrite (Hall H).
Qed.

Definition can_prepare (c : Coordinator) : Prop :=
  restart_required c = false ∧ pending c = None ∧ pending_decision c = None.

(** What [prepare] answers to the votes; used for one coordinator and for all ranks. *)
Lemma prepare_answer cand votes c :
  valid_set (co_topology c) → can_prepare c → NoDup (map rank votes) →
  ∃ p, prepare cand votes c = (Ok p, set_pending (Some p) c) ∧
    pp_update_sha256 p = update_sha256 (pc_update cand) ∧
    pp_candidate_sha256 p = candidate_sha256 cand ∧
    pp_ranks p = seqZ 0 (set_world_size (co_topology c)) ∧
    (disposition p = PREPARE_PROCESS_GROUP_FAILURE ↔
       ¬ all_ranks_healthy (co_topology c) votes) ∧
    (disposition p = COMMIT_READY ↔
       all_ranks_healthy (co_topology c) votes ∧
       (∀ v, v ∈ votes → vote_supports cand (co_topology c) v) ∧
       update_sha256 (pc_update cand) ∉ consumed_updates c).
Proof.
  intros Hs (Hr & Hp & Hd) Hnd. unfold prepare.
  rewrite Hr, (bool_decide_eq_true_2 _ (conj Hp Hd)), (bool_decide_eq_true_2 _ Hnd). cbn [negb].
  destruct (scan_sorted_spec cand (co_topology c) votes Hs) as (pf & inv & -> & Hpf & Hinv).
  fold (process_failures_of (co_topology c) votes pf).
  set (dup := if bool_decide _ then _ else _).
  assert (Hdup : dup = [] ↔ update_sha256 (pc_update cand) ∉ consumed_updates c).
  { unfold dup. by case_bool_decide. }
  assert (Hnew : ∀ disp reasons, canonical_reasons reasons = true →
    let p := {| pp_update_sha256 := update_sha256 (pc_update cand);
            pp_candidate_sha256 := candidate_sha256 cand;
            pp_topology_sha256 := topology_sha256 (co_topology c);
            disposition := disp; pp_reasons := reasons;
            pp_ranks := seqZ 0 (set_world_size (co_topology c)) |} in
    new_PreparedPublication p = Ok p).
  { intros disp reasons Hc. unfold new_PreparedPublication, require_hash. cbn.
    unfold update_sha256, candidate_sha256, topology_sha256. rewrite !content_digest_is_hash.
    cbn. rewrite Hc, exact_ranks_seqZ; [done|]. destruct (set_sizes _ Hs) as [? ->]. lia. }
  destruct (process_failures_of _ votes pf) as [|f fs] eqn:Ef.
  - assert (Hall : all_ranks_healthy (co_topology c) votes) by (by apply Hpf).
    destruct (dup ++ inv) as [|i0 is0] eqn:Ei; rewrite Hnew by
      (reflexivity || apply canonical_sorted_set); eexists; (split; [reflexivity|]); cbn;
      (split; [done|split; [done|split; [done|split; [split; [done|tauto]|]]]]).
    + apply app_nil in Ei as [Hd0 Hi0]. split; [intros _|done].
      split; [done|]. split; [by apply Hinv|by apply Hdup].
    + split; [done|]. intros (_ & H1 & H2). exfalso.
      apply Hdup in H2. apply Hinv in H1; [|done]. by rewrite H1, H2 in Ei.
  - assert (Hall : ¬ all_ranks_healthy (co_topology c) votes) by (by intros H%Hpf).
    rewrite Hnew by apply canonical_sorted_set. eexists. split; [reflexivity|]. cbn.
    split; [done|split; [done|split; [done|split; [done|]]]]. split; [done|]. by intros [? _].
Qed.

(** C25. Two-phase voting.  With no publication in flight, [prepare] on one vote
    per rank always answers, and the answer is commit-ready exactly when every
    rank of the world voted, every vote comes from a healthy rank with its own
    topology receipt, every vote names this candidate with its versions,
    generations and all four readiness flags, and the update was not consumed
    before.  It is a process-group failure exactly when a rank is missing,
    foreign, unhealthy or bound to another receipt. *)
Theorem prepare_disposition_exact cand votes c :
  valid_set (co_topology c) → can_prepare c → NoDup (map rank votes) →
  ∃ p, prepare cand votes c = (Ok p, set_pending (Some p) c) ∧
    pp_update_sha256 p = update_sha256 (pc_update cand) ∧
    pp_candidate_sha256 p = candidate_sha256 cand ∧
    pp_ranks p = seqZ 0 (set_world_size (co_topology c)) ∧
    (disposition p = PREPARE_PROCESS_GROUP_FAILURE ↔
       ¬ all_ranks_healthy (co_topology c) votes) ∧
    (disposition p = COMMIT_READY ↔
       all_ranks_healthy (co_topology c) votes ∧
       (∀ v, v ∈ votes → vote_supports cand (co_topology c) v) ∧
       update_sha256 (pc_update cand) ∉ consumed_updates c).
Proof. apply prepare_answer. Qed.

Definition demo_update : UpdateIdentity :=
  {| ui_cohort_sha256 := "c"; ui_source_version := 3; ui_cohort_epoch := 0;
     sequence_number := 7; source_rows_sha256 := "r" |}.
Definition demo_candidate : PublicationCandidate :=
  {| pc_update := demo_update; pc_buffer_generation := 5; pc_optimizer_generation := 11 |}.

(** The vote of the receipt's rank for a candidate. *)
Definition vote_for (cand : PublicationCandidate) (r : RankTopologyReceipt) : RankPrepare := {|
  rank := rank_of r; topology_receipt_sha256 := rank_receipt_sha256 r;
  rp_candidate_sha256 := candidate_sha256 cand;
  rp_source_version := ui_source_version (pc_update cand);
  rp_cohort_epoch := ui_cohort_epoch (pc_update cand);
  rp_buffer_generation := pc_buffer_generation cand;
  rp_optimizer_generation := pc_optimizer_generation cand;
  ready := true; finite := true; memory_reserved := true; safe_boundary := true;
  process_group_healthy := true |}.

Lemma vote_for_supports cand s r : vote_supports cand s (vote_for cand r).
Proof. by repeat split. Qed.

Lemma votes_for_healthy cand s :
  valid_set s → all_ranks_healthy s (map (vote_for cand) (receipts s)).
Proof.
  intros Hs. destruct (set_checks s Hs) as (_ & Hk & _). split.
  - intros k. rewrite map_map. apply Hk.
  - intros v (r & -> & Hr)%list_elem_of_fmap. split; [done|].
    destruct (receipt_for_rank_Ok s Hs (rank_of r)) as (r' & H1 & H2 & H3).
    { apply Hk. by apply list_elem_of_fmap_2. }
    exists r'. split; [done|]. cbn. by rewrite (rank_receipt_unique s Hs r' r).
Qed.

Lemma votes_for_NoDup cand s : valid_set s → NoDup (map rank (map (vote_for cand) (receipts s))).
Proof. intros Hs. rewrite map_map. apply (set_checks s Hs). Qed.

Lemma prepare_disposition_exact_witness :
  let s := demo_set 2 1 in let votes := map (vote_for demo_candidate) (receipts s) in
  ∃ p, (prepare demo_candidate votes (new_Coordinator s)).1 = Ok p ∧ disposition p = COMMIT_READY.
Proof.
  intros s votes. assert (Hs : valid_set s) by (apply demo_set_valid; by left).
  destruct (prepare_disposition_exact demo_candidate votes (new_Coordinator s))
    as (p & Hp & _ & _ & _ & _ & Hc);
    [exact Hs|repeat split|by apply votes_for_NoDup|].
  exists p. rewrite Hp. split; [reflexivity|]. apply Hc.
  split; [by apply votes_for_healthy|]. split; [|by apply not_elem_of_empty].
  intros v (r & -> & _)%list_elem_of_fmap. apply vote_for_supports.
Defined.

(** ** The fail-closed service state *)
Record coordinator_inv (c : Coordinator) : Prop := {
  ci_admission : admission_allowed c = service_ready c;
  ci_ready : service_ready c = true ↔ pending_decision c = None ∧ restart_required c = false;
  ci_restart : restart_required c = true → pending c = None ∧ pending_decision c = None;
  ci_one : pending c = None ∨ pending_decision c = None;
  ci_outcome : ∀ d, pending_decision c = Some d → outcome d ≠ PROCESS_GROUP_FAILURE;
}.

Inductive coordinator_step (c : Coordinator) : Coordinator → Prop :=
  | step_prepare cand votes : coordinator_step c (prepare cand votes c).2
  | step_decide p : coordinator_step c (decide_ p c).2
  | step_finalize d rs : coordinator_step c (finalize d rs c).2
  | step_restarted s : coordinator_step c (mark_process_group_restarted s c).2
  | step_failed : coordinator_step c (mark_collective_failed c).

Lemma prepare_cases cand votes c :
  (prepare cand votes c).2 = c ∨
  can_prepare c ∧ ∃ p, (prepare cand votes c) = (Ok p, set_pending (Some p) c).
Proof.
  unfold prepare, can_prepare. destruct (restart_required c) eqn:E1; [by left|].
  destruct (negb (bool_decide (pending c = None ∧ _))) eqn:E2; [by left|]. bools.
  destruct (negb _); [by left|]. destruct (scan_votes _ _ _ _) as [[pf inv]|]; [|by left].
  destruct (match _ ++ _ ++ pf with [] => _ | _ :: _ => _ end) as [disp reasons].
  destruct (new_PreparedPublication _) as [p|]; [|by left].
  right. split; [done|]. by exists p.
Qed.

Lemma new_PublicationDecision_Ok d d' :
  new_PublicationDecision d = Ok d' → d' = d.
Proof.
  unfold new_PublicationDecision. destruct (require_hash _ _ _); [|done].
  destruct (require_hash _ _ _); [|done]. destruct (require_hash _ _ _); [|done].
  destruct (negb _); [done|]. destruct (negb _); [done|]. destruct (negb _); [done|].
  by intros [= <-].
Qed.

Lemma mark_failed_inv c : coordinator_inv (mark_collective_failed c).
Proof. split; cbn; naive_solver. Qed.

Lemma coordinator_step_inv c c' : coordinator_step c c' → coordinator_inv c → coordinator_inv c'.
Proof.
  intros [cand votes|p|d rs|s|] Hinv; [| | | |apply mark_failed_inv];
    destruct Hinv as [H1 H2 H3 H4 H5] eqn:E; clear E.
  - destruct (prepare_cases cand votes c) as [->|((?&?&?)&p&->)]; [done|].
    split; cbn; try done; [|by right]. congruence.
  - unfold decide_. destruct (negb _) eqn:Hp; [done|].
    destruct (new_PublicationDecision _) as [d|] eqn:Hd; [|done].
    apply new_PublicationDecision_Ok in Hd as ->. cbn.
    destruct (bool_decide (outcome_of (disposition p) = _)) eqn:Ho; bools;
      split; cbn; try naive_solver.
  - unfold finalize. destruct (negb _) eqn:Hp; [done|]. bools.
    assert (Hnone : pending c = None).
    { destruct H4 as [|H4]; [done|]. by rewrite H4 in Hp. }
    destruct (validate_decision_receipts _ _ _) as [[]|[]]; try done;
      [split; cbn; naive_solver|apply mark_failed_inv].
  - unfold mark_process_group_restarted.
    destruct (restart_required c) eqn:Hr; cbn [negb]; [|done].
    destruct (negb _); [done|]. destruct (H3 eq_refl) as [Hp Hd].
    split; cbn; naive_solver.
Qed.

(** C22. Fail-closed service.  In every state a coordinator can reach, whatever
    candidates, votes, receipts and restarts it was given, the service is ready
    and admission is open exactly when no decision awaits its receipts and no
    restart is required; a required restart leaves nothing in flight, and a
    prepared publication and an open decision never coexist. *)
Theorem coordinator_fail_closed s c :
  rtc coordinator_step (new_Coordinator s) c → coordinator_inv c.
Proof.
  intros Hr. apply (rtc_ind_r (R := coordinator_step) (λ c, coordinator_inv c)
    (new_Coordinator s)); [..|exact Hr].
  - split; cbn; naive_solver.
  - intros c1 c2 _ Hs. by apply coordinator_step_inv.
Qed.

Lemma coordinator_fail_closed_witness :
  coordinator_inv (mark_collective_failed (new_Coordinator (demo_set 2 1))).
Proof. apply (coordinator_fail_closed (demo_set 2 1)). apply rtc_once, step_failed. Defined.

(** ** Finalisation *)
Lemma check_decision_receipts_Ok d rs s :
  check_decision_receipts d rs s = Ok tt →
  ∀ r, r ∈ rs →
    dr_decision_sha256 r = decision_sha256 d ∧ applied r = bool_decide (outcome d = COMMIT) ∧
    ∃ t, receipt_for_rank (dr_rank r) s = Ok t ∧
         dr_topology_receipt_sha256 r = rank_receipt_sha256 t.
Proof.
  induction rs as [|r rs IH]; cbn; intros H r' Hin; [by apply elem_of_nil in Hin|].
  destruct (receipt_for_rank _ _) as [t|] eqn:Et; [|done]. repeat step_ok H. bools.
  apply elem_of_cons in Hin as [->|Hin]; [|by apply IH]. split; [done|]. split; [done|]. by exists t.
Qed.

(** The receipts prove one outcome on every rank. *)
Definition one_outcome (d : PublicationDecision) (rs : list RankDecisionReceipt)
    (s : TopologyReceiptSet) : Prop :=
  (∀ k, k ∈ map dr_rank rs ↔ 0 ≤ k < set_world_size s) ∧ NoDup (map dr_rank rs) ∧
  ∀ r, r ∈ rs →
    dr_decision_sha256 r = decision_sha256 d ∧ applied r = bool_decide (outcome d = COMMIT).

Lemma finalize_open d rs c :
  valid_set (co_topology c) → pending_decision c = Some d →
  ((finalize d rs c).1 = Ok tt ∧
     one_outcome d rs (co_topology c) ∧
     service_ready (finalize d rs c).2 = true ∧ admission_allowed (finalize d rs c).2 = true ∧
     pending_decision (finalize d rs c).2 = None ∧
     pd_update_sha256 d ∈ consumed_updates (finalize d rs c).2)
  ∨ (is_ok (finalize d rs c).1 = false ∧ (finalize d rs c).2 = mark_collective_failed c).
Proof.
  intros Hs Hd. unfold finalize. rewrite Hd. cbn [fmap option_fmap option_map].
  rewrite bool_decide_eq_true_2 by done. cbn [negb].
  destruct (validate_decision_receipts d rs (co_topology c)) as [[]|e] eqn:E.
  - left. cbn. split; [done|].
    split; [|do 3 (split; [done|]); apply elem_of_union_r, elem_of_singleton; done].
    unfold validate_decision_receipts in E.
    repeat step_ok E. bools. split; [by apply ranks_cover|]. split; [done|].
    intros r Hr. by destruct (check_decision_receipts_Ok _ _ _ E r Hr) as (? & ? & _).
  - right. unfold validate_decision_receipts in E.
    destruct (negb _); [by simplify_eq/=|]. destruct (negb _); [by simplify_eq/=|].
    destruct (negb _); [by simplify_eq/=|]. destruct (negb _) eqn:E4; [by simplify_eq/=|]. bools.
    symmetry in E4. rewrite ranks_cover in E4.
    assert (Hcheck : ∀ l, (∀ r, r ∈ l → 0 ≤ dr_rank r < set_world_size (co_topology c)) →
      check_decision_receipts d l (co_topology c) = Raise e → ∃ msg, e = ValueError msg).
    { clear E. induction l as [|r l IH]; intros Hl Hc; [done|]. cbn in Hc.
      destruct (receipt_for_rank_Ok _ Hs (dr_rank r)) as (t & Ht & _); [apply Hl; by left|].
      rewrite Ht in Hc. destruct (negb _); [injection Hc as <-; eauto|].
      destruct (negb _); [injection Hc as <-; eauto|].
      destruct (negb _); [injection Hc as <-; eauto|].
      apply IH; [|done]. intros r' Hr'. apply Hl. by right. }
    destruct (Hcheck rs) as [msg ->]; [|done|done].
    intros r Hr. apply E4. by apply list_elem_of_fmap_2.
Qed.


(** ** The protocol with callers that hand back what they were given *)
Lemma prepare_Ok_valid cand votes c p c' :
  prepare cand votes c = (Ok p, c') →
  new_PreparedPublication p = Ok p ∧ c' = set_pending (Some p) c ∧ can_prepare c ∧
  (disposition p = COMMIT_READY → pp_update_sha256 p ∉ consumed_updates c).
Proof.
  intros H. destruct (prepare_cases cand votes c) as [Hc|(Hc & p' & Hp)]; cycle 1.
  - rewrite Hp in H. injection H as -> <-. revert Hp. unfold prepare.
    destruct (restart_required c); [done|]. destruct (negb _); [done|]. destruct (negb _); [done|].
    destruct (scan_votes _ _ _ _) as [[pf inv]|]; [|done].
    set (dup := if bool_decide _ then _ else _).
    destruct (match _ ++ _ ++ pf with [] => _ | _ :: _ => _ end) as [disp reasons] eqn:Ed.
    destruct (new_PreparedPublication _) as [p1|] eqn:Hn; [|done]. intros [= <- _].
    pose proof Hn as (-> & _)%new_PreparedPublication_Ok.
    split; [done|]. split; [done|]. split; [done|]. cbn. intros ->.
    unfold dup in Ed. case_bool_decide as Hdup; [|done]. cbn in Ed.
    by destruct (ranks_reason _ _ ++ _).
  - exfalso. revert H Hc. unfold prepare.
    destruct (restart_required c); [done|]. destruct (negb (bool_decide (_ ∧ _))) eqn:Hn; [done|].
    bools. destruct Hn as [Hn _]. destruct (negb _); [done|].
    destruct (scan_votes _ _ _ _) as [[pf inv]|]; [|done].
    destruct (match _ ++ _ ++ pf with [] => _ | _ :: _ => _ end) as [disp reasons].
    destruct (new_PreparedPublication _) as [p1|]; [|done]. intros _ [= E].
    apply (f_equal pending) in E. by rewrite Hn in E.
Qed.

(** [decide_] on the pending publication itself. *)
Lemma decide_pending p c :
  pending c = Some p → new_PreparedPublication p = Ok p →
  ∃ d c', decide_ p c = (Ok d, c') ∧ outcome d = outcome_of (disposition p) ∧
    pd_update_sha256 d = pp_update_sha256 p ∧ co_topology c' = co_topology c ∧ pending c' = None ∧
    (outcome d ≠ PROCESS_GROUP_FAILURE →
       pending_decision c' = Some d ∧ consumed_updates c' = consumed_updates c) ∧
    (outcome d = PROCESS_GROUP_FAILURE → pending_decision c' = None ∧
       consumed_updates c' = consumed_updates c ∪ {[pp_update_sha256 p]}).
Proof.
  intros Hp Hn. unfold decide_. rewrite Hp. cbn [fmap option_fmap option_map].
  rewrite (bool_decide_eq_true_2 (Some _ = Some _)) by done. cbn [negb].
  rewrite (decision_of_prepared p Hn). eexists _, _. split; [reflexivity|]. cbn.
  repeat (split; [done|]). split; intros Ho.
  - by rewrite !bool_decide_eq_false_2.
  - by rewrite !bool_decide_eq_true_2.
Qed.

(** One step of the protocol, with the update it commits on all ranks. *)
Inductive protocol_step (c : Coordinator) : list string → Coordinator → Prop :=
  | ps_prepare cand votes r c' :
      prepare cand votes c = (r, c') → protocol_step c [] c'
  | ps_decide p r c' :
      pending c = Some p → decide_ p c = (r, c') → protocol_step c [] c'
  | ps_commit d rs c' :
      pending_decision c = Some d → finalize d rs c = (Ok tt, c') → outcome d = COMMIT →
      protocol_step c [pd_update_sha256 d] c'
  | ps_close d rs r c' :
      pending_decision c = Some d → finalize d rs c = (r, c') →
      is_ok r = false ∨ outcome d ≠ COMMIT → protocol_step c [] c'
  | ps_restart s r c' : mark_process_group_restarted s c = (r, c') → protocol_step c [] c'
  | ps_failed : protocol_step c [] (mark_collective_failed c).

(** A run with the updates it committed, the latest first. *)
Inductive protocol_run (c0 : Coordinator) : list string → Coordinator → Prop :=
  | pr_start : protocol_run c0 [] c0
  | pr_step l c l' c' :
      protocol_run c0 l c → protocol_step c l' c' → protocol_run c0 (l' ++ l) c'.

Record commit_inv (l : list string) (c : Coordinator) : Prop := {
  cm_once : NoDup l;
  cm_consumed : ∀ u, u ∈ l → u ∈ consumed_updates c;
  cm_valid : ∀ p, pending c = Some p → new_PreparedPublication p = Ok p;
  cm_pending : ∀ p, pending c = Some p → disposition p = COMMIT_READY →
    pp_update_sha256 p ∉ consumed_updates c;
  cm_decision : ∀ d, pending_decision c = Some d → outcome d = COMMIT →
    pd_update_sha256 d ∉ consumed_updates c;
  cm_one : pending c = None ∨ pending_decision c = None;
}.

Lemma commit_inv_failed l c : commit_inv l c → commit_inv l (mark_collective_failed c).
Proof. intros []. split; cbn; try done. by left. Qed.

Lemma finalize_cases d rs c r c' :
  finalize d rs c = (r, c') →
  (r = Ok tt ∧ c' = {| co_topology := co_topology c; service_ready := true;
     admission_allowed := true; restart_required := false; pending := pending c;
     pending_decision := None;
     consumed_updates := consumed_updates c ∪ {[pd_update_sha256 d]} |} ∧
     pending_decision c ≠ None)
  ∨ (is_ok r = false ∧ (c' = c ∨ c' = mark_collective_failed c)).
Proof.
  unfold finalize. destruct (negb _) eqn:E; [intros [= <- <-]; right; auto|].
  bools. destruct (validate_decision_receipts _ _ _) as [[]|[]]; intros [= <- <-]; auto.
  left. split; [done|]. split; [done|]. by destruct (pending_decision c).
Qed.

Lemma protocol_step_inv l c l' c' :
  commit_inv l c → protocol_step c l' c' → commit_inv (l' ++ l) c'.
Proof.
  intros Hinv Hstep. pose proof Hinv as [H1 H2 H3 H4 H5 H6].
  destruct Hstep as [cand votes r c' Hp|p r c' Hp Hd|d rs c' Hd Hf Ho|d rs r c' Hd Hf Ho|s r c' Hr|].
  - destruct r as [p|e].
    + destruct (prepare_Ok_valid _ _ _ _ _ Hp) as (Hv & -> & (_ & _ & Hn) & Hc).
      split; cbn; try done; [by intros ? [= <-]|by intros ? [= <-]|by right].
    + destruct (prepare_cases cand votes c) as [Hc|(_ & p & Hc)]; rewrite Hp in Hc; [|done].
      cbn in Hc. by subst c'.
  - destruct (decide_pending p c Hp (H3 p Hp))
      as (d & c2 & Hd2 & Ho & Hu & _ & Hnone & Hok & Hfail).
    rewrite Hd in Hd2. injection Hd2 as -> ->.
    destruct (decide (outcome d = PROCESS_GROUP_FAILURE)) as [Hpf|Hpf].
    + destruct (Hfail Hpf) as [Hpd Hcu]. split; rewrite ?Hnone, ?Hpd, ?Hcu; try done; [|by left].
      intros u Hul. apply elem_of_union_l, H2, Hul.
    + destruct (Hok Hpf) as [Hpd Hcu]. split; rewrite ?Hnone, ?Hpd, ?Hcu; try done; [|by left].
      intros d' [= <-] Hc. rewrite Hu. apply H4; [done|]. rewrite Ho in Hc.
      by destruct (disposition p).
  - destruct (finalize_cases _ _ _ _ _ Hf) as [(_ & -> & Hne)|[? _]]; [|done].
    destruct H6 as [Hn|]; [|done]. split; cbn; rewrite ?Hn; try done; [| |by left].
    + apply NoDup_cons. split; [|done]. intros Hin. by apply (H5 d Hd Ho), H2.
    + intros u [->|Hu]%elem_of_cons; [by apply elem_of_union_r, elem_of_singleton|].
      by apply elem_of_union_l, H2.
  - destruct (finalize_cases _ _ _ _ _ Hf) as [(-> & -> & Hne)|[_ [->| ->]]];
      [|done|by apply commit_inv_failed].
    destruct H6 as [Hn|]; [|done]. split; cbn; rewrite ?Hn; try done; [|by left].
    intros u Hu. by apply elem_of_union_l, H2.
  - revert Hr. unfold mark_process_group_restarted.
    destruct (negb _); [intros [= _ <-]; done|]. destruct (negb _); [intros [= _ <-]; done|].
    intros [= _ <-]. split; cbn; try done. by right.
  - by apply commit_inv_failed.
Qed.

(** C23. Exactly-once commits.  In every run of the protocol, with any votes,
    receipts, transport failures and restarts in between, no update identity is
    committed on all ranks twice, and every committed one is remembered as
    consumed. *)
Theorem committed_at_most_once s l c :
  protocol_run (new_Coordinator s) l c →
  NoDup l ∧ ∀ u, u ∈ l → u ∈ consumed_updates c.
Proof.
  intros Hr. assert (commit_inv l c) as Hinv.
  { induction Hr as [|l c l' c' _ IH Hs]; [|by eapply protocol_step_inv].
    split; cbn; try done; [apply NoDup_nil_2|by intros u ?%elem_of_nil|by left]. }
  split; apply Hinv.
Qed.

(** ** A complete run *)

(** The receipt of a rank for a decision. *)
Definition receipt_for (d : PublicationDecision) (did_apply : bool) (r : RankTopologyReceipt)
    : RankDecisionReceipt :=
  {| dr_rank := rank_of r; dr_topology_receipt_sha256 := rank_receipt_sha256 r;
     dr_decision_sha256 := decision_sha256 d; applied := did_apply |}.

Lemma receipt_lookup s r :
  valid_set s → r ∈ receipts s → receipt_for_rank (rank_of r) s = Ok r.
Proof.
  intros Hs Hr. destruct (set_checks s Hs) as (_ & Hk & _).
  destruct (receipt_for_rank_Ok s Hs (rank_of r)) as (r' & H1 & H2 & H3).
  { apply Hk. by apply list_elem_of_fmap_2. }
  by rewrite H1, (rank_receipt_unique s Hs r' r).
Qed.

Lemma validate_receipts_Ok d s :
  valid_set s → pd_topology_sha256 d = topology_sha256 s →
  pd_ranks d = seqZ 0 (set_world_size s) →
  validate_decision_receipts d
    (map (receipt_for d (bool_decide (outcome d = COMMIT))) (receipts s)) s = Ok tt.
Proof.
  intros Hs H1 H2. unfold validate_decision_receipts.
  destruct (set_checks s Hs) as (Hnd & Hk & _).
  rewrite (bool_decide_eq_true_2 _ H1), (bool_decide_eq_true_2 _ H2). cbn [negb].
  rewrite (bool_decide_eq_true_2 (NoDup _)) by (by rewrite map_map). cbn [negb].
  rewrite bool_decide_eq_true_2 by (symmetry; apply ranks_cover; rewrite map_map; apply Hk).
  cbn [negb]. assert (∀ l, (∀ r, r ∈ l → r ∈ receipts s) →
    check_decision_receipts d (map (receipt_for d (bool_decide (outcome d = COMMIT))) l) s
    = Ok tt) as Hl; [|by apply Hl].
  induction l as [|r l IH]; intros Hl; [done|]. cbn [map check_decision_receipts receipt_for dr_rank].
  rewrite receipt_lookup by (done || apply Hl; by left).
  rewrite !bool_decide_eq_true_2 by done. cbn [negb]. apply IH. intros r' ?. apply Hl. by right.
Qed.

(** The publication [prepare] builds when every rank supports a fresh candidate. *)
Definition commit_ready_publication (cand : PublicationCandidate) (s : TopologyReceiptSet)
    : PreparedPublication := {|
  pp_update_sha256 := update_sha256 (pc_update cand);
  pp_candidate_sha256 := candidate_sha256 cand; pp_topology_sha256 := topology_sha256 s;
  disposition := COMMIT_READY; pp_reasons := ["all_ranks_prepared"];
  pp_ranks := seqZ 0 (set_world_size s) |}.

Definition commit_decision (cand : PublicationCandidate) (s : TopologyReceiptSet)
    : PublicationDecision := {|
  pd_update_sha256 := update_sha256 (pc_update cand);
  pd_candidate_sha256 := candidate_sha256 cand; pd_topology_sha256 := topology_sha256 s;
  outcome := COMMIT; pd_reasons := ["all_ranks_prepared"];
  pd_ranks := seqZ 0 (set_world_size s);
  pd_service_ready := false; pd_admission_allowed := false; pd_restart_required := false |}.

Lemma commit_ready_valid cand s :
  valid_set s → new_PreparedPublication (commit_ready_publication cand s)
                = Ok (commit_ready_publication cand s).
Proof.
  intros Hs. unfold new_PreparedPublication, require_hash; cbn.
  unfold update_sha256, candidate_sha256, topology_sha256. rewrite !content_digest_is_hash.
  rewrite exact_ranks_seqZ; [done|]. destruct (set_sizes _ Hs) as [? ->]. lia.
Qed.

Lemma prepare_supported cand c :
  valid_set (co_topology c) → can_prepare c →
  update_sha256 (pc_update cand) ∉ consumed_updates c →
  let p := commit_ready_publication cand (co_topology c) in
  prepare cand (map (vote_for cand) (receipts (co_topology c))) c
  = (Ok p, set_pending (Some p) c).
Proof.
  intros Hs (H1 & H2 & H3) Hu p. set (votes := map _ _). unfold prepare.
  rewrite H1, (bool_decide_eq_true_2 _ (conj H2 H3)). cbn [negb].
  rewrite bool_decide_eq_true_2 by (by apply votes_for_NoDup). cbn [negb].
  destruct (scan_sorted_spec cand (co_topology c) votes Hs) as (pf & inv & -> & Hpf & Hinv).
  fold (process_failures_of (co_topology c) votes pf).
  rewrite (proj2 Hpf) by (by apply votes_for_healthy).
  rewrite (proj2 (Hinv (votes_for_healthy cand _ Hs))).
  - rewrite (bool_decide_eq_false_2 _ Hu). cbn [app]. fold p.
    change (new_PreparedPublication _) with (new_PreparedPublication p).
    unfold p. by rewrite commit_ready_valid.
  - intros v (r' & -> & _)%list_elem_of_fmap. apply vote_for_supports.
Qed.

(** The coordinator with an open commit decision. *)
Definition decided_commit (cand : PublicationCandidate) (c : Coordinator) : Coordinator := {|
  co_topology := co_topology c; service_ready := false; admission_allowed := false;
  restart_required := false; pending := None;
  pending_decision := Some (commit_decision cand (co_topology c));
  consumed_updates := consumed_updates c |}.

Lemma decide_supported cand c :
  valid_set (co_topology c) →
  let p := commit_ready_publication cand (co_topology c) in
  decide_ p (set_pending (Some p) c)
  = (Ok (commit_decision cand (co_topology c)), decided_commit cand c).
Proof.
  intros Hs p. unfold decide_. cbn [pending set_pending fmap option_fmap option_map].
  rewrite (bool_decide_eq_true_2 (Some _ = Some _)) by done. cbn [negb].
  by rewrite (decision_of_prepared p (commit_ready_valid cand _ Hs)).
Qed.

Lemma finalize_supported cand c :
  valid_set (co_topology c) →
  let d := commit_decision cand (co_topology c) in
  ∃ c', finalize d (map (receipt_for d true) (receipts (co_topology c))) (decided_commit cand c)
        = (Ok tt, c').
Proof.
  intros Hs d. unfold finalize. cbn [decided_commit pending_decision fmap option_fmap option_map].
  rewrite (bool_decide_eq_true_2 (Some _ = Some _)) by done. cbn [negb].
  pose proof (validate_receipts_Ok d (co_topology c) Hs eq_refl eq_refl) as Hv.
  change (bool_decide (outcome d = COMMIT)) with true in Hv.
  cbn [co_topology decided_commit]. rewrite Hv. by eexists.
Qed.


Lemma committed_at_most_once_witness :
  let s := demo_set 2 1 in
  ∃ c, protocol_run (new_Coordinator s) [update_sha256 demo_update] c ∧
       update_sha256 demo_update ∈ consumed_updates c.
Proof.
  intros s. assert (Hs : valid_set s) by (apply demo_set_valid; by left).
  set (c0 := new_Coordinator s).
  destruct (finalize_supported demo_candidate c0 Hs) as [c' Hf]. exists c'.
  assert (Hrun : protocol_run c0 [update_sha256 demo_update] c').
  { assert (R1 : protocol_run c0 [] (set_pending (Some (commit_ready_publication demo_candidate s)) c0)).
    { refine (pr_step c0 [] c0 [] _ (pr_start c0) (ps_prepare _ _ _ _ _ _)).
      apply (prepare_supported demo_candidate c0 Hs); [by repeat split|apply not_elem_of_empty]. }
    assert (R2 : protocol_run c0 [] (decided_commit demo_candidate c0)).
    { refine (pr_step c0 [] _ [] _ R1
        (ps_decide (set_pending (Some (commit_ready_publication demo_candidate s)) c0)
           (commit_ready_publication demo_candidate s) (Ok _) _ eq_refl _)).
      apply (decide_supported demo_candidate c0 Hs). }
    exact (pr_step c0 [] _ [update_sha256 demo_update] _ R2
             (ps_commit (decided_commit demo_candidate c0) (commit_decision demo_candidate s) _
                c' eq_refl Hf eq_refl)). }
  split; [exact Hrun|].
  apply (committed_at_most_once s [update_sha256 demo_update] c' Hrun). by left.
Defined.

(** ** Agreement of the ranks *)

(** The digest one rank derives from the gathered votes. *)
Definition derived_digest (cand : PublicationCandidate) (votes : list RankPrepare)
    (t : GlooPublicationTransport) : option string :=
  match prepare cand votes (coordinator t) with
  | (Ok p, c) => match decide_ p c with (Ok d, _) => Some (decision_sha256 d) | _ => None end
  | _ => None
  end.

(** What rank [k] of a live process group of this topology sees of itself. *)
Definition live_view (s : TopologyReceiptSet) (k : Z) : GroupView :=
  {| gv_available := true; gv_initialized := true; gv_backend := "gloo";
     gv_world_size := set_world_size s; gv_rank := k |}.
Definition rank_transport (s : TopologyReceiptSet) (c : Coordinator) (k : Z)
    : GlooPublicationTransport :=
  {| tp_topology := s; tp_local_rank := k; coordinator := c |}.

Lemma instances_Some {A} (l : list A) : instances (map Some l) = Some l.
Proof. unfold instances. induction l as [|x l IH]; [done|]. cbn. unfold id in *. by rewrite IH. Qed.

(** C29. Agreement.  When all ranks start from the same coordinator state and the
    collectives deliver every rank's object to every rank in rank order, every
    rank's [prepare_and_decide] succeeds with the same decision and the same
    next state, and that decision commits exactly when all ranks are healthy,
    all votes support the candidate and its update was not consumed before. *)
Theorem transports_agree s cand votes c :
  valid_set s → co_topology c = s → can_prepare c →
  map rank votes = seqZ 0 (set_world_size s) →
  ∃ d c', ∀ v, v ∈ votes →
    prepare_and_decide (live_view s (rank v))
      (λ _, Ok (map Some votes))
      (λ _, Ok (map (λ w, derived_digest cand votes (rank_transport s c (rank w))) votes))
      cand v (rank_transport s c (rank v))
    = (Ok d, rank_transport s c' (rank v)) ∧
    (outcome d = COMMIT ↔
       all_ranks_healthy s votes ∧ (∀ w, w ∈ votes → vote_supports cand s w) ∧
       update_sha256 (pc_update cand) ∉ consumed_updates c).
Proof.
  intros Hs <- Hc Hranks.
  assert (Hnd : NoDup (map rank votes)) by (rewrite Hranks; apply NoDup_seqZ).
  destruct (prepare_answer cand votes c Hs Hc Hnd)
    as (p & Hp & _ & _ & _ & _ & Hcommit).
  destruct (prepare_Ok_valid _ _ _ _ _ Hp) as (Hv & _ & _ & _).
  destruct (decide_pending p (set_pending (Some p) c) eq_refl Hv)
    as (d & c' & Hd & Ho & _).
  exists d, c'. intros v Hin. split.
  - unfold prepare_and_decide, distributed. cbn [rank_transport tp_local_rank live_view gv_available
      gv_initialized gv_backend gv_world_size gv_rank tp_topology coordinator].
    rewrite !Z.eqb_refl. cbn [negb orb]. rewrite bool_decide_eq_true_2 by done. cbn [negb].
    rewrite instances_Some, Hp, Hd.
    replace (map _ votes) with (replicate (Z.to_nat (set_world_size (co_topology c)))
                                  (Some (decision_sha256 d))).
    { cbn [set_coordinator tp_topology]. by rewrite bool_decide_eq_true_2. }
    replace (Z.to_nat _) with (length votes)
      by (rewrite <- (length_map rank), Hranks; apply length_seqZ).
    clear -Hp Hd. set (f := λ w, _).
    assert (Hf : ∀ w, f w = Some (decision_sha256 d))
      by (intros w; unfold f, derived_digest; cbn [coordinator rank_transport]; by rewrite Hp, Hd).
    generalize votes as l. intros l. induction l as [|w l IH]; [done|]. cbn. by rewrite Hf, IH.
  - rewrite Ho, <- Hcommit. by destruct (disposition p).
Qed.

Lemma transports_agree_witness :
  let s := demo_set 2 1 in
  let votes := map (vote_for demo_candidate) (by_rank s) in
  ∃ d c', ∀ v, v ∈ votes →
    (prepare_and_decide (live_view s (rank v)) (λ _, Ok (map Some votes))
      (λ _, Ok (map (λ w, derived_digest demo_candidate votes
                            (rank_transport s (new_Coordinator s) (rank w))) votes))
      demo_candidate v (rank_transport s (new_Coordinator s) (rank v)))
    = (Ok d, rank_transport s c' (rank v)).
Proof.
  intros s votes.
  destruct (transports_agree s demo_candidate votes (new_Coordinator s)) as (d & c' & H);
    [apply demo_set_valid; by left|done|by repeat split|reflexivity|].
  exists d, c'. intros v Hv. apply (H v Hv).
Defined.

(** ** An update applied by one rank and committed again *)
Definition rank0_applied (d : PublicationDecision) (s : TopologyReceiptSet)
    : list RankDecisionReceipt :=
  map (λ r, receipt_for d (rank_of r =? 0) r) (receipts s).

(** C39. A finalisation that fails because only some ranks applied the copy does
    not consume the update: after the restart the same update identity, which
    one rank reported as applied, is commit-ready again.  (A process-group
    failure at decision time does consume it.) *)
Theorem split_update_commits_again :
  let s := demo_set 2 1 in
  ∃ c1 d c3 p,
    protocol_run (new_Coordinator s) [] c1 ∧ pending_decision c1 = Some d ∧ outcome d = COMMIT ∧
    (∃ r, r ∈ rank0_applied d s ∧ applied r = true) ∧
    is_ok (finalize d (rank0_applied d s) c1).1 = false ∧
    mark_process_group_restarted s (finalize d (rank0_applied d s) c1).2 = (Ok tt, c3) ∧
    (prepare demo_candidate (map (vote_for demo_candidate) (receipts s)) c3).1 = Ok p ∧
    disposition p = COMMIT_READY ∧ pp_update_sha256 p = pd_update_sha256 d.
Proof.
  intros s. assert (Hs : valid_set s) by (apply demo_set_valid; by left).
  set (c0 := new_Coordinator s). set (c1 := decided_commit demo_candidate c0).
  set (d := commit_decision demo_candidate s).
  assert (R1 : protocol_run c0 [] (set_pending (Some (commit_ready_publication demo_candidate s)) c0)).
  { refine (pr_step c0 [] c0 [] _ (pr_start c0) (ps_prepare _ _ _ _ _ _)).
    apply (prepare_supported demo_candidate c0 Hs); [by repeat split|apply not_elem_of_empty]. }
  assert (R2 : protocol_run c0 [] c1).
  { refine (pr_step c0 [] _ [] _ R1
      (ps_decide (set_pending (Some (commit_ready_publication demo_candidate s)) c0)
         (commit_ready_publication demo_candidate s) (Ok _) _ eq_refl _)).
    apply (decide_supported demo_candidate c0 Hs). }
  destruct (finalize_open d (rank0_applied d s) c1) as [(_ & (_ & _ & Hall) & _)|[Hf Hfail]];
    [exact Hs|reflexivity| |].
  { exfalso. destruct (Hall (receipt_for d false (s.1))) as [_ Happ]; [by left|]. discriminate Happ. }
  eexists c1, d, _, (commit_ready_publication demo_candidate s).
  split; [exact R2|]. split; [reflexivity|]. split; [reflexivity|].
  split; [exists (receipt_for d true (demo_receipt 2 1 0 "gpu0" "p0")); split; [right; left|reflexivity]|].
  split; [exact Hf|]. rewrite Hfail. split.
  { unfold mark_process_group_restarted. cbn [restart_required mark_collective_failed negb].
    rewrite bool_decide_eq_true_2 by done. cbn [negb]. reflexivity. }
  split; [|split; reflexivity]. match goal with |- (prepare _ _ ?c).1 = _ =>
    pose proof (prepare_supported demo_candidate c Hs) as Hp end.
  specialize (Hp ltac:(by repeat split) ltac:(apply not_elem_of_empty)).
  exact (f_equal fst Hp).
Qed.

(** ** Restarting on the same topology *)
(** A restart is accepted only when one is pending, and only for a receipt
    set with the same rank identities (sizes, ranks, node, devices, rendezvous,
    router, clock) in rank order, unless the two identities collide under
    SHA-256; then the service reopens and the consumed updates are kept. *)
Theorem restart_same_topology s c c' :
  mark_process_group_restarted s c = (Ok tt, c') →
  restart_required c = true ∧ service_ready c' = true ∧ admission_allowed c' = true ∧
  restart_required c' = false ∧ co_topology c' = s ∧ consumed_updates c' = consumed_updates c ∧
  (map topology (by_rank s) = map topology (by_rank (co_topology c)) ∨
   collision (JList (map (λ r, topology_json (topology r)) (by_rank s)))
     (JList (map (λ r, topology_json (topology r)) (by_rank (co_topology c))))).
Proof.
  unfold mark_process_group_restarted. destruct (restart_required c); cbn [negb]; [|done].
  destruct (negb _) eqn:E; [done|]. intros [= <-]. bools. do 6 (split; [done|]).
  apply content_digest_inj in E as [E|E]; [left|by right|cbn [Json.plain]; rewrite forallb_map; by apply forallb_elem_of..]. injection E as E. revert E.
  generalize (by_rank (co_topology c)) as l2. generalize (by_rank s) as l1.
  induction l1 as [|r1 l1 IH]; intros [|r2 l2]; try done. cbn [map]. intros E.
  injection E; intros. f_equal; [|by apply IH].
  destruct (topology r1), (topology r2); cbn in *; congruence.
Qed.

Lemma restart_same_topology_witness :
  ∃ c', mark_process_group_restarted (demo_set 2 1)
          (mark_collective_failed (new_Coordinator (demo_set 2 1))) = (Ok tt, c') ∧
        service_ready c' = true.
Proof.
  set (c := mark_collective_failed (new_Coordinator (demo_set 2 1))).
  assert (H : ∃ c', mark_process_group_restarted (demo_set 2 1) c = (Ok tt, c')).
  { unfold mark_process_group_restarted. cbn [restart_required c mark_collective_failed negb].
    rewrite bool_decide_eq_true_2 by reflexivity. eexists. reflexivity. }
  destruct H as [c' H]. exists c'. split; [exact H|].
  apply (restart_same_topology (demo_set 2 1) c c' H).
Defined.
