(* ===== verification/Registry.v ===== *)
(** * Experiment cells ([experiments/registry.py])

    The content digest of the registry, the scientific identity of a cell, its
    logical resources and the cell itself.  Floats are [pyfloat]s; the digest is
    taken of validated cells, whose floats are finite. *)
From S2P Require Import Prelude PyFloat FloatRepr Hashlib.

(** [_require_text]: some non-space character and no newline. *)
Definition newline : Ascii.ascii := Ascii.ascii_of_nat 10.
Definition is_text (s : string) : bool :=
  negb (string_empty (strip s)) && string_forall (λ c, negb (bool_decide (c = newline))) s.
Definition require_text (name value : string) : result unit :=
  raise_if (negb (is_text value))
    (ValueError (name +:+ " must be non-empty single-line text")) ;;
  Ok tt.
Fixpoint require_all_text (fields : list (string * string)) : result unit :=
  match fields with
  | [] => Ok tt
  | (name, v) :: fields => _ <-! require_text name v ;; require_all_text fields
  end.

(** [_canonical] on values that are already JSON: a zero float loses its sign. *)
Fixpoint canonical (j : json) : json :=
  match j with
  | Json.JFloat (S754_zero _) => JFloat fzero
  | Json.JList l => JList (map canonical l)
  | Json.JObj fs => JObj (map (λ f, (f.1, canonical f.2)) fs)
  | j => j
  end.
Definition content_sha256 (j : json) : string := content_digest (canonical j).

Lemma content_sha256_is_hash j : is_hash 64 (content_sha256 j) = true.
Proof. apply content_digest_is_hash. Qed.
#[global] Opaque content_sha256.

(** Optional fields. *)
Definition jopt {A} (f : A → json) (x : option A) : json :=
  match x with Some a => f a | None => JNull end.
Definition jstrs (l : list string) : json := JList (map JStr l).
Definition jints (l : list Z) : json := JList (map JInt l).

Inductive WorkloadClass : Set := TUNING | CORRECTNESS | HEADLINE | PROFILE | DOWNLOAD | COMPILE.
#[export] Instance WorkloadClass_eq_dec : EqDecision WorkloadClass.
Proof. solve_decision. Defined.
Definition WorkloadClass_value (w : WorkloadClass) : string :=
  match w with
  | TUNING => "tuning" | CORRECTNESS => "correctness" | HEADLINE => "headline"
  | PROFILE => "profile" | DOWNLOAD => "download" | COMPILE => "compile"
  end.
#[export] Instance WorkloadClass_countable : Countable WorkloadClass.
Proof.
  refine (inj_countable' WorkloadClass_value (λ s,
    if bool_decide (s = "tuning") then TUNING else
    if bool_decide (s = "correctness") then CORRECTNESS else
    if bool_decide (s = "headline") then HEADLINE else
    if bool_decide (s = "profile") then PROFILE else
    if bool_decide (s = "download") then DOWNLOAD else COMPILE) _).
  by intros [].
Defined.

Inductive CellStatus : Set := UNMEASURED | BLOCKED | NOT_APPLICABLE.
#[export] Instance CellStatus_eq_dec : EqDecision CellStatus.
Proof. solve_decision. Defined.
Definition CellStatus_value (s : CellStatus) : string :=
  match s with UNMEASURED => "UNMEASURED" | BLOCKED => "BLOCKED" | NOT_APPLICABLE => "N/A" end.

Record CellIdentity := {
  experiment : string; model : string; backend : string; task : string; method : string;
  scope : option string; ci_rank : option Z; alpha_over_rank : option pyfloat;
  optimizer : option string; learning_rate : option pyfloat; schedule : option string;
  context : option Z; regime : string; width : option Z; arrival : string; slo : string;
  cohort : string; ci_topology : string; seed : Z; block : Z; ci_gpu_uuids : list string;
  parameterization : string; variant : string; concurrency : option Z;
  load_factor : option pyfloat; cohort_count : Z;
}.
#[export] Instance CellIdentity_eq_dec : EqDecision CellIdentity.
Proof. solve_decision. Defined.

(** [not math.isfinite(x) or x <= 0] is false. *)
Definition positive_finite (x : pyfloat) : bool := ffinite x && negb (fle x fzero).
(** The condition on an optional value. *)
Definition none_or {A} (p : A → bool) (x : option A) : bool :=
  match x with Some a => p a | None => true end.

Definition new_CellIdentity (c : CellIdentity) : result CellIdentity :=
  _ <-! require_all_text [("experiment", experiment c); ("model", model c);
          ("backend", backend c); ("task", task c); ("method", method c);
          ("regime", regime c); ("arrival", arrival c); ("slo", slo c); ("cohort", cohort c);
          ("topology", ci_topology c); ("parameterization", parameterization c);
          ("variant", variant c)] ;;
  _ <-! match scope c with Some s => require_text "scope" s | None => Ok tt end ;;
  _ <-! match optimizer c with Some s => require_text "optimizer" s | None => Ok tt end ;;
  _ <-! match schedule c with Some s => require_text "schedule" s | None => Ok tt end ;;
  raise_if (negb (none_or (λ r, 1 <=? r) (ci_rank c))) (ValueError "rank must be positive") ;;
  raise_if (negb (none_or positive_finite (alpha_over_rank c)))
    (ValueError "alpha_over_rank must be finite and positive") ;;
  raise_if (if bool_decide (parameterization c = "lora")
            then bool_decide (ci_rank c = None) || bool_decide (alpha_over_rank c = None)
            else false)
    (ValueError "LoRA identities require rank and alpha_over_rank") ;;
  raise_if (if bool_decide (parameterization c = "lora") then false
            else bool_decide (ci_rank c ≠ None) || bool_decide (alpha_over_rank c ≠ None))
    (ValueError "rank fields are valid only for LoRA identities") ;;
  raise_if (negb (none_or positive_finite (learning_rate c)))
    (ValueError "learning_rate must be finite and positive") ;;
  raise_if (negb (none_or (λ r, 1 <=? r) (context c))) (ValueError "context must be positive") ;;
  raise_if (negb (none_or (λ r, 1 <=? r) (width c))) (ValueError "width must be positive") ;;
  raise_if ((seed c <? 0) || (block c <? 0))
    (ValueError "seed and block must be non-negative") ;;
  raise_if (negb (none_or (λ r, 1 <=? r) (concurrency c)))
    (ValueError "concurrency must be positive") ;;
  raise_if (negb (none_or positive_finite (load_factor c)))
    (ValueError "load_factor must be finite and positive") ;;
  raise_if (cohort_count c <? 1) (ValueError "cohort_count must be positive") ;;
  raise_if (match ci_gpu_uuids c with [] => true | _ => false end
            || negb (bool_decide (NoDup (ci_gpu_uuids c))))
    (ValueError "a cell must identify one or more distinct GPU slots") ;;
  _ <-! require_all_text (map (λ u, ("GPU UUID", u)) (ci_gpu_uuids c)) ;;
  Ok c.

(** The fields of a cell identity but for the method and the GPU slots. *)
Definition identity_fields (c : CellIdentity) : list (string * json) := [
  ("experiment", JStr (experiment c)); ("model", JStr (model c));
  ("backend", JStr (backend c)); ("task", JStr (task c));
  ("scope", jopt JStr (scope c)); ("rank", jopt JInt (ci_rank c));
  ("alpha_over_rank", jopt JFloat (alpha_over_rank c));
  ("optimizer", jopt JStr (optimizer c)); ("learning_rate", jopt JFloat (learning_rate c));
  ("schedule", jopt JStr (schedule c)); ("context", jopt JInt (context c));
  ("regime", JStr (regime c)); ("width", jopt JInt (width c));
  ("arrival", JStr (arrival c)); ("slo", JStr (slo c)); ("cohort", JStr (cohort c));
  ("topology", JStr (ci_topology c)); ("seed", JInt (seed c)); ("block", JInt (block c));
  ("parameterization", JStr (parameterization c)); ("variant", JStr (variant c));
  ("concurrency", jopt JInt (concurrency c)); ("load_factor", jopt JFloat (load_factor c));
  ("cohort_count", JInt (cohort_count c))].

(** All fields, as [_canonical] of the dataclass and [_cell_identity_to_dict]. *)
Definition identity_json (c : CellIdentity) : json :=
  JObj (("method", JStr (method c)) :: ("gpu_uuids", jstrs (ci_gpu_uuids c)) :: identity_fields c).
Definition identity_sha256 (c : CellIdentity) : string := content_sha256 (identity_json c).

Record ResourceClaim := {
  rc_gpu_uuids : list string; rc_ports : list Z; rc_cache_root : string;
  rc_evidence_root : string; rc_workload_class : WorkloadClass }.
#[export] Instance ResourceClaim_eq_dec : EqDecision ResourceClaim.
Proof. solve_decision. Defined.

Definition port_ok (port : Z) : bool := (1024 <=? port) && (port <=? 65535).

Definition new_ResourceClaim (r : ResourceClaim) : result ResourceClaim :=
  raise_if (match rc_gpu_uuids r with [] => true | _ => false end
            || negb (bool_decide (NoDup (rc_gpu_uuids r))))
    (ValueError "a resource claim must reserve one or more GPUs") ;;
  raise_if (match rc_ports r with [] => true | _ => false end
            || negb (bool_decide (NoDup (rc_ports r))))
    (ValueError "resource ports must be non-empty and unique") ;;
  raise_if (negb (forallb port_ok (rc_ports r)))
    (ValueError "resource ports must be in [1024, 65535]") ;;
  _ <-! require_text "cache_root" (rc_cache_root r) ;;
  _ <-! require_text "evidence_root" (rc_evidence_root r) ;;
  Ok r.

Definition rc_gpu_count (r : ResourceClaim) : Z := Z.of_nat (length (rc_gpu_uuids r)).
Definition resource_json (r : ResourceClaim) : json := JObj [
  ("gpu_uuids", jstrs (rc_gpu_uuids r)); ("ports", jints (rc_ports r));
  ("cache_root", JStr (rc_cache_root r)); ("evidence_root", JStr (rc_evidence_root r));
  ("workload_class", JStr (WorkloadClass_value (rc_workload_class r)))].

Record ExperimentCell := {
  identity : CellIdentity; resources : ResourceClaim; status : CellStatus;
  cell_reason_code : string; cell_reason : string }.
#[export] Instance ExperimentCell_eq_dec : EqDecision ExperimentCell.
Proof. solve_decision. Defined.

(** [_REASON_CODE]: a full match of [[a-z0-9][a-z0-9_.-]*]. *)
Definition reason_char (c : Ascii.ascii) : bool :=
  let n := Ascii.nat_of_ascii c in
  ((48 <=? n)%nat && (n <=? 57)%nat) || ((97 <=? n)%nat && (n <=? 122)%nat).
Definition reason_code_ok (s : string) : bool :=
  match s with
  | EmptyString => false
  | String.String c s =>
    reason_char c && string_forall (λ c, reason_char c ||
      let n := Ascii.nat_of_ascii c in (n =? 95)%nat || (n =? 46)%nat || (n =? 45)%nat) s
  end.

Definition new_ExperimentCell (c : ExperimentCell) : result ExperimentCell :=
  raise_if (negb (bool_decide (ci_gpu_uuids (identity c) = rc_gpu_uuids (resources c))))
    (ValueError "cell identity and resource GPU assignments differ") ;;
  raise_if (negb (reason_code_ok (cell_reason_code c)))
    (ValueError "reason_code must be a stable lower-case token") ;;
  _ <-! require_text "reason" (cell_reason c) ;;
  Ok c.

Definition cell_id (c : ExperimentCell) : string := identity_sha256 (identity c).
Definition cell_json (c : ExperimentCell) : json := JObj [
  ("identity", identity_json (identity c)); ("resources", resource_json (resources c));
  ("status", JStr (CellStatus_value (status c)));
  ("reason_code", JStr (cell_reason_code c)); ("reason", JStr (cell_reason c))].
Definition cell_sha256 (c : ExperimentCell) : string := content_sha256 (cell_json c).
Definition runnable (c : ExperimentCell) : bool := bool_decide (status c = UNMEASURED).
