(* ===== verification/GpuPool.v ===== *)
(** * The GPU pool ([experiments/gpu_pool.py])

    Devices, topology groups and the inventory of one host; gang shapes, resource
    claims and work items; interference rules and the envelope; assignments,
    dispatch waves and the plan.  The placement algorithm is in [Scheduler]. *)
From S2P Require Import Prelude PyFloat FloatRepr Hashlib Registry.

Definition require_sha256 (name value : string) : result unit :=
  raise_if (negb (is_hash 64 value)) (ValueError (name +:+ " must be a lower-case SHA-256")) ;;
  Ok tt.
Definition require_positive_finite (name : string) (x : pyfloat) : result unit :=
  raise_if (negb (positive_finite x)) (ValueError (name +:+ " must be finite and positive")) ;;
  Ok tt.

(** [tuple(sorted(l)) == l]. *)
Definition is_sorted_text (l : list string) : bool :=
  bool_decide (sorted_by (λ s : string, s) l = l).
Definition unique_text (l : list string) : bool := bool_decide (NoDup l).

(** ** Devices *)
Inductive GpuAvailability : Set := READY | DRAINING | RESERVED | UNAVAILABLE.
#[export] Instance GpuAvailability_eq_dec : EqDecision GpuAvailability.
Proof. solve_decision. Defined.

Definition lower_char (c : Ascii.ascii) : Ascii.ascii :=
  let n := Ascii.nat_of_ascii c in
  if (65 <=? n)%nat && (n <=? 90)%nat then Ascii.ascii_of_nat (n + 32) else c.
Fixpoint lower (s : string) : string :=
  match s with EmptyString => EmptyString | String.String c s => String.String (lower_char c) (lower s) end.

Definition hex_value (c : Ascii.ascii) : Z :=
  let n := Z.of_nat (Ascii.nat_of_ascii c) in if n <=? 57 then n - 48 else n - 87.
Fixpoint hex_number (acc : Z) (s : string) : Z :=
  match s with
  | EmptyString => acc
  | String.String c s => hex_number (16 * acc + hex_value c) s
  end.

(** [domain:bus:device.function] with a domain of four hexadecimal digits. *)
Definition is_bdf (s : string) : bool :=
  (String.length s =? 12)%nat && is_hash 4 (String.substring 0 4 s)
  && bool_decide (String.substring 4 1 s = ":") && is_hash 2 (String.substring 5 2 s)
  && bool_decide (String.substring 7 1 s = ":") && is_hash 2 (String.substring 8 2 s)
  && bool_decide (String.substring 10 1 s = ".")
  && (let f := String.substring 11 1 s in is_hash 1 f && (hex_number 0 f <=? 7)).

(** [_canonical_pci_bus_id]: an eight-digit domain must start with four zeros. *)
Definition canonical_pci_bus_id (pci : string) : result string :=
  let normalized := lower pci in
  let short := if (String.length normalized =? 16)%nat
               then String.substring 4 12 normalized else normalized in
  raise_if (negb (is_bdf short) || (31 <? hex_number 0 (String.substring 8 2 short)))
    (ValueError "GPU PCI bus identity is invalid") ;;
  raise_if ((String.length normalized =? 16)%nat
            && negb (bool_decide (String.substring 0 4 normalized = "0000")))
    (ValueError "GPU PCI bus identity is invalid") ;;
  Ok short.

Record GpuDevice := {
  uuid : string; host_id : string; gd_model : string; memory_bytes : Z;
  compute_capability : Z * Z; pci_bus_id : string; pci_root : string; numa_node : Z;
  interconnects : list string; peer_access_class : string; clock_policy : string;
  power_limit_watts : pyfloat; thermal_limit_celsius : pyfloat;
  availability : GpuAvailability; reserved_processes : list string;
  gd_allowed_topology_groups : list string;
}.

Definition new_GpuDevice (d : GpuDevice) : result GpuDevice :=
  _ <-! require_all_text [("uuid", uuid d); ("host_id", host_id d); ("model", gd_model d);
          ("pci_bus_id", pci_bus_id d); ("pci_root", pci_root d);
          ("peer_access_class", peer_access_class d); ("clock_policy", clock_policy d)] ;;
  pci <-! canonical_pci_bus_id (pci_bus_id d) ;;
  raise_if (negb (bool_decide (pci_bus_id d = pci)))
    (ValueError "pci_bus_id must be a canonical lower-case PCI BDF") ;;
  raise_if (memory_bytes d <=? 0) (ValueError "memory_bytes must be a positive integer") ;;
  raise_if ((fst (compute_capability d) <? 0) || (snd (compute_capability d) <? 0))
    (ValueError "compute_capability must be two non-negative integers") ;;
  raise_if (numa_node d <? 0) (ValueError "numa_node must be a non-negative integer") ;;
  raise_if (match interconnects d with [] => true | _ => false end
            || negb (unique_text (interconnects d)))
    (ValueError "interconnects must be non-empty and unique") ;;
  raise_if (negb (is_sorted_text (interconnects d)))
    (ValueError "interconnects must be canonically sorted") ;;
  _ <-! require_all_text (map (λ s, ("interconnect", s)) (interconnects d)) ;;
  _ <-! require_positive_finite "power_limit_watts" (power_limit_watts d) ;;
  _ <-! require_positive_finite "thermal_limit_celsius" (thermal_limit_celsius d) ;;
  raise_if (negb (unique_text (reserved_processes d)))
    (ValueError "reserved_processes must be unique") ;;
  raise_if (negb (is_sorted_text (reserved_processes d)))
    (ValueError "reserved_processes must be canonically sorted") ;;
  _ <-! require_all_text (map (λ s, ("reserved process", s)) (reserved_processes d)) ;;
  raise_if (negb (unique_text (gd_allowed_topology_groups d)))
    (ValueError "allowed_topology_groups must be unique") ;;
  raise_if (negb (is_sorted_text (gd_allowed_topology_groups d)))
    (ValueError "allowed_topology_groups must be canonically sorted") ;;
  _ <-! require_all_text (map (λ s, ("allowed topology group", s)) (gd_allowed_topology_groups d)) ;;
  Ok d.

Definition device_ready (d : GpuDevice) : bool :=
  bool_decide (availability d = READY) && match reserved_processes d with [] => true | _ => false end.

Definition hardware_envelope_sha256 (d : GpuDevice) : string := content_sha256 (JObj [
  ("host_id", JStr (host_id d)); ("model", JStr (gd_model d));
  ("memory_bytes", JInt (memory_bytes d));
  ("compute_capability", jints [fst (compute_capability d); snd (compute_capability d)]);
  ("interconnects", jstrs (interconnects d));
  ("peer_access_class", JStr (peer_access_class d)); ("clock_policy", JStr (clock_policy d));
  ("power_limit_watts", JFloat (power_limit_watts d));
  ("thermal_limit_celsius", JFloat (thermal_limit_celsius d))]).

Record GpuTopologyGroup := {
  group_id : string; tg_host_id : string; tg_gpu_uuids : list string;
  fabric : string; bandwidth_class : string }.

Definition new_GpuTopologyGroup (g : GpuTopologyGroup) : result GpuTopologyGroup :=
  _ <-! require_all_text [("group_id", group_id g); ("host_id", tg_host_id g);
          ("fabric", fabric g); ("bandwidth_class", bandwidth_class g)] ;;
  raise_if (match tg_gpu_uuids g with [] => true | _ => false end
            || negb (unique_text (tg_gpu_uuids g)))
    (ValueError "topology-group GPU UUIDs must be non-empty and unique") ;;
  raise_if (negb (is_sorted_text (tg_gpu_uuids g)))
    (ValueError "topology-group GPU UUIDs must be canonically sorted") ;;
  _ <-! require_all_text (map (λ s, ("topology-group GPU UUID", s)) (tg_gpu_uuids g)) ;;
  Ok g.

(** ** Inventory *)
Record GpuInventory := {
  schema_version : Z; devices : list GpuDevice; topology_groups : list GpuTopologyGroup;
  source_receipt_sha256 : string }.

Definition device_uuids (i : GpuInventory) : list string := map uuid (devices i).

(** [GpuInventory.device]. *)
Definition device (u : string) (i : GpuInventory) : result GpuDevice :=
  match list_find (λ d, uuid d = u) (devices i) with
  | Some (_, d) => Ok d
  | None => Raise (ValueError ("unknown GPU UUID " +:+ u))
  end.

Definition distinct (l : list string) : Z := Z.of_nat (size (list_to_set l : gset string)).

(** The loop over the topology groups. *)
Fixpoint check_groups (groups : list GpuTopologyGroup) (i : GpuInventory) : result unit :=
  match groups with
  | [] => Ok tt
  | g :: groups =>
    raise_if (negb (forallb (λ u, bool_decide (u ∈ device_uuids i)) (tg_gpu_uuids g)))
      (ValueError "topology group references a GPU outside inventory") ;;
    ds <-! mapR (λ u, device u i) (tg_gpu_uuids g) ;;
    raise_if (existsb (λ d, negb (bool_decide (host_id d = tg_host_id g))) ds)
      (ValueError "topology group cannot span hosts") ;;
    raise_if (existsb (λ d, negb (bool_decide (group_id g ∈ gd_allowed_topology_groups d))) ds)
      (ValueError "device does not allow its declared topology group") ;;
    check_groups groups i
  end.

Definition new_GpuInventory (i : GpuInventory) : result GpuInventory :=
  raise_if (negb (schema_version i =? 1))
    (ValueError "only GPU inventory schema version 1 is supported") ;;
  raise_if (match devices i with [] => true | _ => false end)
    (ValueError "GPU inventory must contain at least one device") ;;
  raise_if (negb (distinct (map host_id (devices i)) =? 1))
    (ValueError "one GPU inventory must describe exactly one host; use a fleet inventory to aggregate hosts") ;;
  raise_if (negb (unique_text (device_uuids i)))
    (ValueError "GPU inventory contains duplicate UUIDs") ;;
  raise_if (negb (unique_text (map pci_bus_id (devices i))))
    (ValueError "GPU inventory contains duplicate PCI bus identities") ;;
  raise_if (negb (is_sorted_text (device_uuids i)))
    (ValueError "GPU inventory devices must be sorted by UUID") ;;
  let group_ids := map group_id (topology_groups i) in
  raise_if (negb (unique_text group_ids))
    (ValueError "GPU inventory contains duplicate topology groups") ;;
  raise_if (negb (is_sorted_text group_ids))
    (ValueError "topology groups must be sorted by group_id") ;;
  _ <-! check_groups (topology_groups i) i ;;
  raise_if (existsb (λ d, existsb (λ g, negb (bool_decide (g ∈ group_ids)))
                                  (gd_allowed_topology_groups d)) (devices i))
    (ValueError "device references an undeclared topology group") ;;
  _ <-! require_sha256 "source_receipt_sha256" (source_receipt_sha256 i) ;;
  Ok i.

Definition GpuAvailability_value (a : GpuAvailability) : string :=
  match a with
  | READY => "READY" | DRAINING => "DRAINING" | RESERVED => "RESERVED"
  | UNAVAILABLE => "UNAVAILABLE"
  end.
Definition device_json (d : GpuDevice) : json := JObj [
  ("uuid", JStr (uuid d)); ("host_id", JStr (host_id d)); ("model", JStr (gd_model d));
  ("memory_bytes", JInt (memory_bytes d));
  ("compute_capability", jints [fst (compute_capability d); snd (compute_capability d)]);
  ("pci_bus_id", JStr (pci_bus_id d)); ("pci_root", JStr (pci_root d));
  ("numa_node", JInt (numa_node d)); ("interconnects", jstrs (interconnects d));
  ("peer_access_class", JStr (peer_access_class d)); ("clock_policy", JStr (clock_policy d));
  ("power_limit_watts", JFloat (power_limit_watts d));
  ("thermal_limit_celsius", JFloat (thermal_limit_celsius d));
  ("availability", JStr (GpuAvailability_value (availability d)));
  ("reserved_processes", jstrs (reserved_processes d));
  ("allowed_topology_groups", jstrs (gd_allowed_topology_groups d))].
Definition group_json (g : GpuTopologyGroup) : json := JObj [
  ("group_id", JStr (group_id g)); ("host_id", JStr (tg_host_id g));
  ("gpu_uuids", jstrs (tg_gpu_uuids g)); ("fabric", JStr (fabric g));
  ("bandwidth_class", JStr (bandwidth_class g))].
Definition inventory_json (i : GpuInventory) : json := JObj [
  ("schema_version", JInt (schema_version i)); ("devices", JList (map device_json (devices i)));
  ("topology_groups", JList (map group_json (topology_groups i)));
  ("source_receipt_sha256", JStr (source_receipt_sha256 i))].
Definition inventory_digest (i : GpuInventory) : string := content_sha256 (inventory_json i).

(** ** Claims *)
Record GangShape := { tensor_parallel_size : Z; data_parallel_size : Z }.
#[export] Instance GangShape_eq_dec : EqDecision GangShape.
Proof. solve_decision. Defined.

Definition new_GangShape (g : GangShape) : result GangShape :=
  raise_if (tensor_parallel_size g <? 1)
    (ValueError "tensor_parallel_size must be a positive integer") ;;
  raise_if (data_parallel_size g <? 1)
    (ValueError "data_parallel_size must be a positive integer") ;;
  Ok g.
Definition gpu_count (g : GangShape) : Z := tensor_parallel_size g * data_parallel_size g.
Definition signature (g : GangShape) : string :=
  "tp" +:+ pretty (tensor_parallel_size g) +:+ "_dp" +:+ pretty (data_parallel_size g).
Definition gang_json (g : GangShape) : json := JObj [
  ("tensor_parallel_size", JInt (tensor_parallel_size g));
  ("data_parallel_size", JInt (data_parallel_size g))].

Record HomogeneousDeviceConstraint := {
  hc_model : option string; minimum_memory_bytes : Z; minimum_compute_capability : Z * Z;
  allowed_peer_access_classes : list string }.
#[export] Instance HomogeneousDeviceConstraint_eq_dec : EqDecision HomogeneousDeviceConstraint.
Proof. solve_decision. Defined.

Definition default_constraint : HomogeneousDeviceConstraint :=
  {| hc_model := None; minimum_memory_bytes := 1; minimum_compute_capability := (0, 0);
     allowed_peer_access_classes := [] |}.

Definition new_HomogeneousDeviceConstraint (h : HomogeneousDeviceConstraint)
    : result HomogeneousDeviceConstraint :=
  _ <-! match hc_model h with Some s => require_text "constraint model" s | None => Ok tt end ;;
  raise_if (minimum_memory_bytes h <? 1)
    (ValueError "minimum_memory_bytes must be a positive integer") ;;
  raise_if ((fst (minimum_compute_capability h) <? 0) || (snd (minimum_compute_capability h) <? 0))
    (ValueError "minimum_compute_capability must be two non-negative integers") ;;
  raise_if (negb (unique_text (allowed_peer_access_classes h)))
    (ValueError "allowed peer-access classes must be unique") ;;
  raise_if (negb (is_sorted_text (allowed_peer_access_classes h)))
    (ValueError "allowed peer-access classes must be canonically sorted") ;;
  _ <-! require_all_text (map (λ s, ("allowed peer-access class", s)) (allowed_peer_access_classes h)) ;;
  Ok h.

(** Tuples compare lexicographically. *)
Definition accepts (h : HomogeneousDeviceConstraint) (d : GpuDevice) : bool :=
  device_ready d
  && none_or (λ m, bool_decide (gd_model d = m)) (hc_model h)
  && (minimum_memory_bytes h <=? memory_bytes d)
  && bool_decide (pyle (minimum_compute_capability h) (compute_capability d))
  && (match allowed_peer_access_classes h with [] => true | _ => false end
      || bool_decide (peer_access_class d ∈ allowed_peer_access_classes h)).

Definition constraint_json (h : HomogeneousDeviceConstraint) : json := JObj [
  ("model", jopt JStr (hc_model h)); ("minimum_memory_bytes", JInt (minimum_memory_bytes h));
  ("minimum_compute_capability",
   jints [fst (minimum_compute_capability h); snd (minimum_compute_capability h)]);
  ("allowed_peer_access_classes", jstrs (allowed_peer_access_classes h))].

Definition exclusive_host_class (w : WorkloadClass) : bool :=
  bool_decide (w ∈ [PROFILE; DOWNLOAD; COMPILE]).

Record PoolResourceClaim := {
  gang_shape : GangShape; exact_gpu_uuids : list string;
  homogeneous : HomogeneousDeviceConstraint; allowed_topology_groups : list string;
  allowed_fabrics : list string; same_host : bool; exclusive_gpu : bool; exclusive_host : bool;
  cpu_cores : Z; numa_nodes : list Z; ram_bytes : Z; disk_io_class : string;
  network_class : string; port_count : Z; exact_ports : list Z; cache_root : string;
  evidence_root : string; workload_class : WorkloadClass; interference_class : string;
  load_thermal_power_envelope : string; estimated_duration_seconds : pyfloat;
  estimated_gpu_seconds : pyfloat;
}.
#[export] Instance PoolResourceClaim_eq_dec : EqDecision PoolResourceClaim.
Proof. solve_decision. Defined.

(** [math.isclose(a, b, rel_tol=0.0, abs_tol=1e-9)]. *)
Definition is_close (a b : pyfloat) : bool :=
  feq a b || (ffinite a && ffinite b && fle (fabs (fsub b a)) (ratio 1 1000000000)).

Definition new_PoolResourceClaim (c : PoolResourceClaim) : result PoolResourceClaim :=
  raise_if (match exact_gpu_uuids c with [] => false | _ =>
              negb (Z.of_nat (length (exact_gpu_uuids c)) =? gpu_count (gang_shape c))
              || negb (unique_text (exact_gpu_uuids c)) end)
    (ValueError "exact GPU UUIDs must cover the complete gang") ;;
  _ <-! require_all_text (map (λ s, ("exact GPU UUID", s)) (exact_gpu_uuids c)) ;;
  raise_if (negb (unique_text (allowed_topology_groups c)))
    (ValueError "allowed topology groups must be unique") ;;
  raise_if (negb (unique_text (allowed_fabrics c)))
    (ValueError "allowed fabrics must be unique") ;;
  raise_if (negb (is_sorted_text (allowed_topology_groups c)))
    (ValueError "allowed topology groups must be canonically sorted") ;;
  raise_if (negb (is_sorted_text (allowed_fabrics c)))
    (ValueError "allowed fabrics must be canonically sorted") ;;
  _ <-! require_all_text (map (λ s, ("allowed topology group", s)) (allowed_topology_groups c)) ;;
  _ <-! require_all_text (map (λ s, ("allowed fabric", s)) (allowed_fabrics c)) ;;
  raise_if (negb (same_host c))
    (ValueError "this release supports same-host resource claims only") ;;
  raise_if (cpu_cores c <? 1) (ValueError "cpu_cores is outside its supported range") ;;
  raise_if (ram_bytes c <? 0) (ValueError "ram_bytes is outside its supported range") ;;
  raise_if (port_count c <? 1) (ValueError "port_count is outside its supported range") ;;
  raise_if (negb (bool_decide (NoDup (numa_nodes c))) || existsb (λ n, n <? 0) (numa_nodes c))
    (ValueError "NUMA nodes must be unique non-negative integers") ;;
  raise_if (negb (bool_decide (sorted_by (λ z : Z, z) (numa_nodes c) = numa_nodes c)))
    (ValueError "NUMA nodes must be canonically sorted") ;;
  raise_if (match exact_ports c with [] => false | _ =>
              negb (Z.of_nat (length (exact_ports c)) =? port_count c) end)
    (ValueError "exact ports must cover port_count") ;;
  raise_if (negb (bool_decide (NoDup (exact_ports c))))
    (ValueError "exact ports must be unique") ;;
  raise_if (negb (forallb port_ok (exact_ports c)))
    (ValueError "exact ports must be in [1024, 65535]") ;;
  _ <-! require_all_text [("disk_io_class", disk_io_class c); ("network_class", network_class c);
          ("cache_root", cache_root c); ("evidence_root", evidence_root c);
          ("interference_class", interference_class c);
          ("load_thermal_power_envelope", load_thermal_power_envelope c)] ;;
  _ <-! require_positive_finite "estimated_duration_seconds" (estimated_duration_seconds c) ;;
  _ <-! require_positive_finite "estimated_gpu_seconds" (estimated_gpu_seconds c) ;;
  raise_if (negb (is_close (estimated_gpu_seconds c)
              (fmul (estimated_duration_seconds c) (float_of_Z (gpu_count (gang_shape c))))))
    (ValueError "estimated_gpu_seconds must equal duration times requested GPUs") ;;
  raise_if (exclusive_host_class (workload_class c) && negb (exclusive_host c))
    (ValueError "profile/download/compile claims must request exclusive-host access") ;;
  Ok c.

Definition contention_json (cores : Z) (numa : list Z) (disk net : string) : json := JObj [
  ("cpu_cores", JInt cores); ("numa_nodes", jints numa); ("disk_io_class", JStr disk);
  ("network_class", JStr net)].
Definition contention_class (c : PoolResourceClaim) : string :=
  content_sha256 (contention_json (cpu_cores c) (numa_nodes c) (disk_io_class c) (network_class c)).

Definition claim_json (c : PoolResourceClaim) : json := JObj [
  ("gang_shape", gang_json (gang_shape c)); ("exact_gpu_uuids", jstrs (exact_gpu_uuids c));
  ("homogeneous", constraint_json (homogeneous c));
  ("allowed_topology_groups", jstrs (allowed_topology_groups c));
  ("allowed_fabrics", jstrs (allowed_fabrics c)); ("same_host", JBool (same_host c));
  ("exclusive_gpu", JBool (exclusive_gpu c)); ("exclusive_host", JBool (exclusive_host c));
  ("cpu_cores", JInt (cpu_cores c)); ("numa_nodes", jints (numa_nodes c));
  ("ram_bytes", JInt (ram_bytes c)); ("disk_io_class", JStr (disk_io_class c));
  ("network_class", JStr (network_class c)); ("port_count", JInt (port_count c));
  ("exact_ports", jints (exact_ports c)); ("cache_root", JStr (cache_root c));
  ("evidence_root", JStr (evidence_root c));
  ("workload_class", JStr (WorkloadClass_value (workload_class c)));
  ("interference_class", JStr (interference_class c));
  ("load_thermal_power_envelope", JStr (load_thermal_power_envelope c));
  ("estimated_duration_seconds", JFloat (estimated_duration_seconds c));
  ("estimated_gpu_seconds", JFloat (estimated_gpu_seconds c))].

(** ** Work items *)
Record PoolWorkItem := {
  cell : ExperimentCell; claim : PoolResourceClaim;
  affinity_key : option string; serial_group_key : option string }.
#[export] Instance PoolWorkItem_eq_dec : EqDecision PoolWorkItem.
Proof. solve_decision. Defined.

Definition new_PoolWorkItem (w : PoolWorkItem) : result PoolWorkItem :=
  _ <-! match affinity_key w with Some s => require_sha256 "affinity_key" s | None => Ok tt end ;;
  _ <-! match serial_group_key w with
        | Some s => require_sha256 "serial_group_key" s | None => Ok tt end ;;
  Ok w.

Definition item_id (w : PoolWorkItem) : string := cell_id (cell w).
Definition work_item_json (w : PoolWorkItem) : json := JObj [
  ("cell", cell_json (cell w)); ("cell_sha256", JStr (cell_sha256 (cell w)));
  ("claim", claim_json (claim w)); ("affinity_key", jopt JStr (affinity_key w));
  ("serial_group_key", jopt JStr (serial_group_key w))].
Definition work_item_sha256 (w : PoolWorkItem) : string := content_sha256 (work_item_json w).

(** ** Assignments *)
Record GpuAssignment := {
  work_item : PoolWorkItem; gpu_uuids : list string; rank_groups : list (list string);
  ports : list Z }.
#[export] Instance GpuAssignment_eq_dec : EqDecision GpuAssignment.
Proof. solve_decision. Defined.

Definition zlength {A} (l : list A) : Z := Z.of_nat (length l).

Definition new_GpuAssignment (a : GpuAssignment) : result GpuAssignment :=
  let c := claim (work_item a) in
  raise_if (negb (zlength (gpu_uuids a) =? gpu_count (gang_shape c))
            || negb (unique_text (gpu_uuids a)))
    (ValueError "assignment must bind every gang rank to one unique GPU") ;;
  raise_if (negb (bool_decide (concat (rank_groups a) = gpu_uuids a)))
    (ValueError "rank groups must exactly partition ordered GPU UUIDs") ;;
  raise_if (negb (zlength (rank_groups a) =? data_parallel_size (gang_shape c))
            || existsb (λ g, negb (zlength g =? tensor_parallel_size (gang_shape c)))
                       (rank_groups a))
    (ValueError "rank groups do not match the TP/DP gang shape") ;;
  raise_if (negb (zlength (ports a) =? port_count c) || negb (bool_decide (NoDup (ports a))))
    (ValueError "assignment ports must exactly satisfy port_count") ;;
  raise_if (negb (forallb port_ok (ports a)))
    (ValueError "assignment ports must be in [1024, 65535]") ;;
  raise_if (match exact_gpu_uuids c with [] => false | _ =>
              negb (bool_decide (gpu_uuids a = exact_gpu_uuids c)) end)
    (ValueError "assignment differs from exact requested GPU UUIDs") ;;
  raise_if (match exact_ports c with [] => false | _ =>
              negb (bool_decide (ports a = exact_ports c)) end)
    (ValueError "assignment differs from exact requested ports") ;;
  Ok a.

Definition assignment_json (a : GpuAssignment) : json := JObj [
  ("work_item", work_item_json (work_item a));
  ("work_item_sha256", JStr (work_item_sha256 (work_item a)));
  ("gpu_uuids", jstrs (gpu_uuids a)); ("rank_groups", JList (map jstrs (rank_groups a)));
  ("ports", jints (ports a))].
Definition assignment_id (a : GpuAssignment) : string := content_sha256 (assignment_json a).

(** ** Interference *)
Record InterferenceRule := {
  ir_hardware_envelope_sha256 : string; ir_workload_class : WorkloadClass;
  co_run_signature : string; simultaneous_jobs : Z; ir_gang_shape : string;
  ir_load_thermal_power_envelope : string; ir_contention_class : string;
  evidence_sha256 : string; ir_status : string }.

Definition new_InterferenceRule (r : InterferenceRule) : result InterferenceRule :=
  _ <-! require_sha256 "hardware_envelope_sha256" (ir_hardware_envelope_sha256 r) ;;
  _ <-! require_all_text [("co_run_signature", co_run_signature r);
          ("gang_shape", ir_gang_shape r);
          ("load_thermal_power_envelope", ir_load_thermal_power_envelope r);
          ("contention_class", ir_contention_class r)] ;;
  raise_if (simultaneous_jobs r <? 2)
    (ValueError "interference rules require at least two jobs") ;;
  _ <-! require_sha256 "interference evidence_sha256" (evidence_sha256 r) ;;
  raise_if (negb (bool_decide (ir_status r ∈ ["PASS"; "FAIL"])))
    (ValueError "interference rule status must be PASS or FAIL") ;;
  Ok r.

Definition RuleKey : Type := string * (string * (string * (Z * (string * (string * string))))).
Definition rule_key (r : InterferenceRule) : RuleKey :=
  (ir_hardware_envelope_sha256 r, (WorkloadClass_value (ir_workload_class r),
   (co_run_signature r, (simultaneous_jobs r, (ir_gang_shape r,
    (ir_load_thermal_power_envelope r, ir_contention_class r)))))).

(** [InterferenceRule.for_claim]. *)
Definition for_claim (d : GpuDevice) (c : PoolResourceClaim) (jobs : Z) (evidence rule_status : string)
    : result InterferenceRule :=
  new_InterferenceRule {|
    ir_hardware_envelope_sha256 := hardware_envelope_sha256 d;
    ir_workload_class := workload_class c; co_run_signature := interference_class c;
    simultaneous_jobs := jobs; ir_gang_shape := signature (gang_shape c);
    ir_load_thermal_power_envelope := load_thermal_power_envelope c;
    ir_contention_class := contention_class c; evidence_sha256 := evidence;
    ir_status := rule_status |}.

Record InterferenceEnvelope := {
  ie_schema_version : Z; rules : list InterferenceRule; ie_source_receipt_sha256 : string }.

Definition new_InterferenceEnvelope (e : InterferenceEnvelope) : result InterferenceEnvelope :=
  raise_if (negb (ie_schema_version e =? 1))
    (ValueError "only interference-envelope schema version 1 is supported") ;;
  _ <-! require_sha256 "source_receipt_sha256" (ie_source_receipt_sha256 e) ;;
  let keys := map rule_key (rules e) in
  raise_if (negb (bool_decide (NoDup keys)))
    (ValueError "interference envelope contains duplicate rule keys") ;;
  raise_if (negb (bool_decide (sorted_by (λ k : RuleKey, k) keys = keys)))
    (ValueError "interference rules must be in canonical key order") ;;
  Ok e.

Definition rule_json (r : InterferenceRule) : json := JObj [
  ("hardware_envelope_sha256", JStr (ir_hardware_envelope_sha256 r));
  ("workload_class", JStr (WorkloadClass_value (ir_workload_class r)));
  ("co_run_signature", JStr (co_run_signature r)); ("simultaneous_jobs", JInt (simultaneous_jobs r));
  ("gang_shape", JStr (ir_gang_shape r));
  ("load_thermal_power_envelope", JStr (ir_load_thermal_power_envelope r));
  ("contention_class", JStr (ir_contention_class r)); ("evidence_sha256", JStr (evidence_sha256 r));
  ("status", JStr (ir_status r))].
Definition envelope_json (e : InterferenceEnvelope) : json := JObj [
  ("schema_version", JInt (ie_schema_version e)); ("rules", JList (map rule_json (rules e)));
  ("source_receipt_sha256", JStr (ie_source_receipt_sha256 e))].
Definition envelope_sha256 (e : InterferenceEnvelope) : string := content_sha256 (envelope_json e).

(** [InterferenceEnvelope.serial]. *)
Definition serial (source : string) : result InterferenceEnvelope :=
  new_InterferenceEnvelope
    {| ie_schema_version := 1; rules := []; ie_source_receipt_sha256 := source |}.

(** [len({...}) == 1] with its only element. *)
Definition the_only {A} `{EqDecision A} (l : list A) : option A :=
  match l with
  | [] => None
  | x :: l => if forallb (λ y, bool_decide (y = x)) l then Some x else None
  end.

(** [permits]: the five sets and the key.  [HEADLINE] claims already share one
    class here, so the third early return of the code never decides. *)
Definition permits (assignments : list GpuAssignment) (inv : GpuInventory)
    (e : InterferenceEnvelope) : result bool :=
  if zlength assignments <=? 1 then Ok true
  else
    let claims := map (λ a, claim (work_item a)) assignments in
    match the_only (map workload_class claims) with
    | None => Ok false
    | Some w =>
      if existsb exclusive_host claims then Ok false
      else if exclusive_host_class w then Ok false
      else if bool_decide (w = HEADLINE)
              && existsb (λ c, negb (bool_decide (workload_class c = HEADLINE))) claims
      then Ok false
      else
        ds <-! mapR (λ u, device u inv) (concat (map gpu_uuids assignments)) ;;
        match the_only (map interference_class claims),
              the_only (map (λ c, signature (gang_shape c)) claims),
              the_only (map load_thermal_power_envelope claims),
              the_only (map contention_class claims),
              the_only (map hardware_envelope_sha256 ds) with
        | Some co_run, Some shape, Some load, Some contention, Some envelope =>
          let key : RuleKey :=
            (envelope, (WorkloadClass_value w, (co_run, (zlength assignments,
             (shape, (load, contention)))))) in
          Ok (existsb (λ r, bool_decide (rule_key r = key) && bool_decide (ir_status r = "PASS"))
                (rules e))
        | _, _, _, _, _ => Ok false
        end
    end.

(** ** Waves *)

(** The sets the wave loops accumulate. *)
Record WaveUse := {
  used_gpus : list string; used_ports : list Z; caches : list string;
  evidence : list string; serial_groups : list string }.
Definition no_use : WaveUse :=
  {| used_gpus := []; used_ports := []; caches := []; evidence := []; serial_groups := [] |}.

Definition overlap {A} `{EqDecision A} (l1 l2 : list A) : bool :=
  existsb (λ x, bool_decide (x ∈ l2)) l1.

(** The check of one assignment, with the message of [GpuDispatchWave]. *)
Definition use_conflict (u : WaveUse) (a : GpuAssignment) : option string :=
  let c := claim (work_item a) in
  if overlap (used_gpus u) (gpu_uuids a) then Some "dispatch wave overlaps a GPU"
  else if overlap (used_ports u) (ports a) then Some "dispatch wave overlaps a port"
  else if bool_decide (cache_root c ∈ caches u) then Some "dispatch wave overlaps a cache writer"
  else if bool_decide (evidence_root c ∈ evidence u)
  then Some "dispatch wave overlaps an evidence root"
  else if match serial_group_key (work_item a) with
          | Some k => bool_decide (k ∈ serial_groups u) | None => false end
  then Some "serial scientific group cannot share a wave"
  else None.

Definition add_use (u : WaveUse) (a : GpuAssignment) : WaveUse :=
  let c := claim (work_item a) in
  {| used_gpus := gpu_uuids a ++ used_gpus u; used_ports := ports a ++ used_ports u;
     caches := cache_root c :: caches u; evidence := evidence_root c :: evidence u;
     serial_groups := match serial_group_key (work_item a) with
                      | Some k => k :: serial_groups u | None => serial_groups u end |}.

(** The first conflict along the assignments. *)
Fixpoint first_conflict (u : WaveUse) (l : list GpuAssignment) : option string :=
  match l with
  | [] => None
  | a :: l =>
    match use_conflict u a with Some msg => Some msg | None => first_conflict (add_use u a) l end
  end.

Record GpuDispatchWave := {
  wave_index : Z; assignments : list GpuAssignment; dw_interference_envelope_sha256 : string }.

Definition new_GpuDispatchWave (w : GpuDispatchWave) : result GpuDispatchWave :=
  raise_if (wave_index w <? 0) (ValueError "wave_index must be a non-negative integer") ;;
  raise_if (match assignments w with [] => true | _ => false end)
    (ValueError "a dispatch wave cannot be empty") ;;
  _ <-! require_sha256 "interference_envelope_sha256" (dw_interference_envelope_sha256 w) ;;
  raise_if (negb (unique_text (map assignment_id (assignments w))))
    (ValueError "dispatch wave contains duplicate assignments") ;;
  match first_conflict no_use (assignments w) with
  | Some msg => Raise (ValueError msg)
  | None =>
    raise_if ((1 <? zlength (assignments w))
              && existsb (λ a, exclusive_host (claim (work_item a))) (assignments w))
      (ValueError "exclusive-host work cannot share a dispatch wave") ;;
    Ok w
  end.

(** [max(...)] of the durations. *)
Definition estimated_wall_seconds (w : GpuDispatchWave) : pyfloat :=
  match map (λ a, estimated_duration_seconds (claim (work_item a))) (assignments w) with
  | [] => fzero
  | x :: l => foldl fmax x l
  end.

(** ** Plan *)
Record GpuDispatchPlan := {
  dp_schema_version : Z; registry_sha256 : string; inventory_sha256 : string;
  receipts_sha256 : string; dp_interference_envelope_sha256 : string;
  budget_sha256_by_cell : list (string * string); dp_seed : Z;
  waves : list GpuDispatchWave; completed_cell_ids : list string }.

Definition plan_assignments (p : GpuDispatchPlan) : list GpuAssignment :=
  concat (map assignments (waves p)).
Definition plan_cell_ids (p : GpuDispatchPlan) : list string :=
  map (λ a, item_id (work_item a)) (plan_assignments p).

Fixpoint require_all_sha256 (fields : list (string * string)) : result unit :=
  match fields with
  | [] => Ok tt
  | (name, v) :: fields => _ <-! require_sha256 name v ;; require_all_sha256 fields
  end.

Definition same_text_set (l1 l2 : list string) : bool :=
  bool_decide (list_to_set l1 =@{gset string} list_to_set l2).

Definition new_GpuDispatchPlan (p : GpuDispatchPlan) : result GpuDispatchPlan :=
  raise_if (negb (dp_schema_version p =? 1))
    (ValueError "only GPU dispatch-plan schema version 1 is supported") ;;
  _ <-! require_all_sha256 [("registry_sha256", registry_sha256 p);
          ("inventory_sha256", inventory_sha256 p); ("receipts_sha256", receipts_sha256 p);
          ("interference_envelope_sha256", dp_interference_envelope_sha256 p)] ;;
  raise_if (dp_seed p <? 0) (ValueError "seed must be a non-negative integer") ;;
  raise_if (negb (bool_decide (map wave_index (waves p) = seqZ 0 (zlength (waves p)))))
    (ValueError "dispatch wave indexes must be contiguous") ;;
  raise_if (negb (unique_text (map assignment_id (plan_assignments p))))
    (ValueError "dispatch plan contains duplicate assignments") ;;
  raise_if (negb (unique_text (plan_cell_ids p)))
    (ValueError "dispatch plan contains duplicate cells") ;;
  let budget_cells := map fst (budget_sha256_by_cell p) in
  raise_if (negb (bool_decide (sorted_by (λ b : string * string, b) (budget_sha256_by_cell p)
                               = budget_sha256_by_cell p))
            || negb (unique_text budget_cells))
    (ValueError "dispatch budget bindings must be canonical and unique") ;;
  raise_if (match budget_sha256_by_cell p with [] => false | _ =>
              negb (same_text_set budget_cells (plan_cell_ids p)) end)
    (ValueError "dispatch budget bindings must cover every scheduled cell exactly") ;;
  _ <-! require_all_sha256 (concat (map (λ b : string * string,
          [("dispatch budget cell ID", fst b); ("dispatch ExperimentBudget SHA-256", snd b)])
          (budget_sha256_by_cell p))) ;;
  raise_if (negb (unique_text (completed_cell_ids p)))
    (ValueError "completed cell IDs must be unique") ;;
  raise_if (negb (forallb (is_hash 64) (completed_cell_ids p)))
    (ValueError "completed cell IDs must be lower-case SHA-256") ;;
  raise_if (negb (is_sorted_text (completed_cell_ids p)))
    (ValueError "completed cell IDs must be canonically sorted") ;;
  raise_if (overlap (completed_cell_ids p) (plan_cell_ids p))
    (ValueError "completed cells cannot remain in dispatch waves") ;;
  Ok p.

Definition scientific_budget_bound (p : GpuDispatchPlan) : bool :=
  match budget_sha256_by_cell p, waves p with [], _ :: _ => false | _, _ => true end.

Definition budget_sha256_for (cid : string) (p : GpuDispatchPlan) : result string :=
  match filter (λ b, fst b = cid) (budget_sha256_by_cell p) with
  | [b] => Ok (snd b)
  | _ => Raise (ValueError "dispatch cell lacks one exact ExperimentBudget binding")
  end.
