(* ===== verification/PoolParsing.v ===== *)
(** * Parsing of pool artifacts ([from_dict] of [experiments/gpu_pool.py])

    The strict readers of JSON values and the [from_dict] class methods, from the
    device to the dispatch plan.  Every parser ends in the constructor of its
    class, so what it accepts passed the checks of [__post_init__]. *)
From S2P Require Import Prelude PyFloat FloatRepr Hashlib Registry GpuPool.

(** ** Strict readers *)
Definition Row : Type := list (string * json).

(** [row[key]] after [_strict_object] has checked the keys. *)
Fixpoint get (key : string) (row : Row) : json :=
  match row with
  | [] => JNull
  | (k, v) :: row => if String.eqb k key then v else get key row
  end.

Definition mentions (l : list string) (k : string) : bool := existsb (String.eqb k) l.
(** No missing and no unknown key. *)
Definition same_keys (actual fields : list string) : bool :=
  forallb (mentions actual) fields && forallb (mentions fields) actual.

(** The message does not list the keys here. *)
Definition strict_object (name : string) (value : json) (fields : list string) : result Row :=
  match value with
  | JObj row =>
    raise_if (negb (same_keys (map fst row) fields)) (ValueError (name +:+ " fields differ")) ;;
    Ok row
  | _ => Raise (TypeError (name +:+ " must be an object with string keys"))
  end.
Definition strict_list (name : string) (value : json) : result (list json) :=
  match value with JList l => Ok l | _ => Raise (TypeError (name +:+ " must be a JSON array")) end.
Definition strict_int (name : string) (value : json) : result Z :=
  match value with JInt z => Ok z | _ => Raise (TypeError (name +:+ " must be an integer")) end.
Definition strict_bool (name : string) (value : json) : result bool :=
  match value with JBool b => Ok b | _ => Raise (TypeError (name +:+ " must be a boolean")) end.
(** [float(value)] of an integer beyond the largest float overflows. *)
Definition strict_float (name : string) (value : json) : result pyfloat :=
  converted <-! match value with
    | JFloat x => Ok x
    | JInt z => raise_if (negb (ffinite (float_of_Z z)))
                  (OverflowError "int too large to convert to float") ;; Ok (float_of_Z z)
    | _ => Raise (TypeError (name +:+ " must be numeric"))
    end ;;
  raise_if (negb (ffinite converted)) (ValueError (name +:+ " must be finite")) ;;
  Ok converted.
Definition strict_text (name : string) (value : json) : result string :=
  match value with
  | JStr s => _ <-! require_text name s ;; Ok s
  | _ => Raise (TypeError (name +:+ " must be text"))
  end.
Definition optional {A} (read : json → result A) (value : json) : result (option A) :=
  match value with JNull => Ok None | v => x <-! read v ;; Ok (Some x) end.
Definition optional_text (name : string) : json → result (option string) :=
  optional (strict_text name).
Definition optional_int (name : string) : json → result (option Z) := optional (strict_int name).
Definition optional_float (name : string) : json → result (option pyfloat) :=
  optional (strict_float name).

(** [tuple(read(item) for item in _strict_list(name, value))]. *)
Definition list_of {A} (name : string) (read : json → result A) (value : json)
    : result (list A) :=
  l <-! strict_list name value ;; mapR read l.
(** Two components.  A tuple of another length fails where the constructor asks
    for two non-negative integers; the pair here fails the same test. *)
Definition pair_of (l : list Z) : Z * Z := match l with [a; b] => (a, b) | _ => (-1, -1) end.

(** [Class(value)] of a string enumeration. *)
Definition enum_of {A} (cls : string) (members : list A) (value_of : A → string) (s : string)
    : result A :=
  match list_find (λ m, value_of m = s) members with
  | Some (_, m) => Ok m
  | None => Raise (ValueError ("'" +:+ s +:+ "' is not a valid " +:+ cls))
  end.

Definition parse_availability : string → result GpuAvailability :=
  enum_of "GpuAvailability" [READY; DRAINING; RESERVED; UNAVAILABLE] GpuAvailability_value.
Definition parse_workload_class : string → result WorkloadClass :=
  enum_of "WorkloadClass" [TUNING; CORRECTNESS; HEADLINE; PROFILE; DOWNLOAD; COMPILE]
    WorkloadClass_value.
Definition parse_cell_status : string → result CellStatus :=
  enum_of "CellStatus" [UNMEASURED; BLOCKED; NOT_APPLICABLE] CellStatus_value.

(** ** Sidecars *)
Record ArtifactSidecar := {
  sc_schema_version : Z; artifact_kind : string; artifact_sha256 : string }.
Definition new_ArtifactSidecar (s : ArtifactSidecar) : result ArtifactSidecar :=
  raise_if (negb (sc_schema_version s =? 1))
    (ValueError "only artifact-sidecar schema version 1 is supported") ;;
  _ <-! require_text "artifact_kind" (artifact_kind s) ;;
  _ <-! require_sha256 "artifact_sha256" (artifact_sha256 s) ;;
  Ok s.
Definition sidecar_json (s : ArtifactSidecar) : json := JObj [
  ("schema_version", JInt (sc_schema_version s)); ("artifact_kind", JStr (artifact_kind s));
  ("artifact_sha256", JStr (artifact_sha256 s))].
Definition sidecar_from_dict (value : json) : result ArtifactSidecar :=
  row <-! strict_object "artifact sidecar" value
            ["schema_version"; "artifact_kind"; "artifact_sha256"] ;;
  version <-! strict_int "sidecar schema_version" (get "schema_version" row) ;;
  kind <-! strict_text "artifact_kind" (get "artifact_kind" row) ;;
  sha <-! strict_text "artifact_sha256" (get "artifact_sha256" row) ;;
  new_ArtifactSidecar {|
    sc_schema_version := version; artifact_kind := kind; artifact_sha256 := sha |}.

(** [_validate_sidecar]; a sidecar is given parsed or as JSON. *)
Definition validate_sidecar (kind sha : string) (sidecar : option (ArtifactSidecar + json))
    : result unit :=
  match sidecar with
  | None => Ok tt
  | Some given =>
    parsed <-! match given with inl s => Ok s | inr v => sidecar_from_dict v end ;;
    raise_if (negb (bool_decide (artifact_kind parsed = kind)))
      (ValueError "artifact sidecar kind mismatch") ;;
    raise_if (negb (bool_decide (artifact_sha256 parsed = sha)))
      (ValueError "artifact sidecar SHA-256 mismatch") ;;
    Ok tt
  end.

(** ** Inventory *)
Definition GpuDevice_fields : list string := [
  "uuid"; "host_id"; "model"; "memory_bytes"; "compute_capability"; "pci_bus_id"; "pci_root";
  "numa_node"; "interconnects"; "peer_access_class"; "clock_policy"; "power_limit_watts";
  "thermal_limit_celsius"; "availability"; "reserved_processes"; "allowed_topology_groups"].
Definition device_from_dict (value : json) : result GpuDevice :=
  row <-! strict_object "GPU device" value GpuDevice_fields ;;
  compute <-! strict_list "compute_capability" (get "compute_capability" row) ;;
  uuid <-! strict_text "GPU UUID" (get "uuid" row) ;;
  host <-! strict_text "host_id" (get "host_id" row) ;;
  model <-! strict_text "GPU model" (get "model" row) ;;
  memory <-! strict_int "memory_bytes" (get "memory_bytes" row) ;;
  capability <-! mapR (strict_int "compute capability component") compute ;;
  bus <-! strict_text "pci_bus_id" (get "pci_bus_id" row) ;;
  root <-! strict_text "pci_root" (get "pci_root" row) ;;
  numa <-! strict_int "numa_node" (get "numa_node" row) ;;
  links <-! list_of "interconnects" (strict_text "interconnect") (get "interconnects" row) ;;
  peer <-! strict_text "peer_access_class" (get "peer_access_class" row) ;;
  clock <-! strict_text "clock_policy" (get "clock_policy" row) ;;
  power <-! strict_float "power_limit_watts" (get "power_limit_watts" row) ;;
  thermal <-! strict_float "thermal_limit_celsius" (get "thermal_limit_celsius" row) ;;
  state <-! strict_text "availability" (get "availability" row) ;;
  state <-! parse_availability state ;;
  reserved <-! list_of "reserved_processes" (strict_text "reserved process")
                 (get "reserved_processes" row) ;;
  groups <-! list_of "allowed_topology_groups" (strict_text "allowed topology group")
               (get "allowed_topology_groups" row) ;;
  new_GpuDevice {|
    uuid := uuid; host_id := host; gd_model := model; memory_bytes := memory;
    compute_capability := pair_of capability; pci_bus_id := bus; pci_root := root;
    numa_node := numa; interconnects := links; peer_access_class := peer; clock_policy := clock;
    power_limit_watts := power; thermal_limit_celsius := thermal; availability := state;
    reserved_processes := reserved; gd_allowed_topology_groups := groups |}.

Definition group_from_dict (value : json) : result GpuTopologyGroup :=
  row <-! strict_object "GPU topology group" value
            ["group_id"; "host_id"; "gpu_uuids"; "fabric"; "bandwidth_class"] ;;
  group <-! strict_text "group_id" (get "group_id" row) ;;
  host <-! strict_text "host_id" (get "host_id" row) ;;
  uuids <-! list_of "gpu_uuids" (strict_text "topology GPU UUID") (get "gpu_uuids" row) ;;
  fabric <-! strict_text "fabric" (get "fabric" row) ;;
  bandwidth <-! strict_text "bandwidth_class" (get "bandwidth_class" row) ;;
  new_GpuTopologyGroup {|
    group_id := group; tg_host_id := host; tg_gpu_uuids := uuids; fabric := fabric;
    bandwidth_class := bandwidth |}.

Definition inventory_from_dict (value : json) (sidecar : option (ArtifactSidecar + json))
    : result GpuInventory :=
  row <-! strict_object "GPU inventory" value
            ["schema_version"; "devices"; "topology_groups"; "source_receipt_sha256"] ;;
  version <-! strict_int "schema_version" (get "schema_version" row) ;;
  devices <-! list_of "devices" device_from_dict (get "devices" row) ;;
  groups <-! list_of "topology_groups" group_from_dict (get "topology_groups" row) ;;
  source <-! strict_text "source_receipt_sha256" (get "source_receipt_sha256" row) ;;
  inventory <-! new_GpuInventory {|
    schema_version := version; devices := devices; topology_groups := groups;
    source_receipt_sha256 := source |} ;;
  _ <-! validate_sidecar "gpu_inventory.v1" (inventory_digest inventory) sidecar ;;
  Ok inventory.

(** ** Claims *)
Definition gang_from_dict (value : json) : result GangShape :=
  row <-! strict_object "gang shape" value ["tensor_parallel_size"; "data_parallel_size"] ;;
  tp <-! strict_int "tensor_parallel_size" (get "tensor_parallel_size" row) ;;
  dp <-! strict_int "data_parallel_size" (get "data_parallel_size" row) ;;
  new_GangShape {| tensor_parallel_size := tp; data_parallel_size := dp |}.

Definition constraint_from_dict (value : json) : result HomogeneousDeviceConstraint :=
  row <-! strict_object "homogeneous device constraint" value
            ["model"; "minimum_memory_bytes"; "minimum_compute_capability";
             "allowed_peer_access_classes"] ;;
  compute <-! strict_list "minimum_compute_capability" (get "minimum_compute_capability" row) ;;
  model <-! optional_text "constraint model" (get "model" row) ;;
  memory <-! strict_int "minimum_memory_bytes" (get "minimum_memory_bytes" row) ;;
  capability <-! mapR (strict_int "minimum compute capability component") compute ;;
  peers <-! list_of "allowed_peer_access_classes" (strict_text "allowed peer-access class")
              (get "allowed_peer_access_classes" row) ;;
  new_HomogeneousDeviceConstraint {|
    hc_model := model; minimum_memory_bytes := memory;
    minimum_compute_capability := pair_of capability; allowed_peer_access_classes := peers |}.

Definition PoolResourceClaim_fields : list string := [
  "gang_shape"; "exact_gpu_uuids"; "homogeneous"; "allowed_topology_groups"; "allowed_fabrics";
  "same_host"; "exclusive_gpu"; "exclusive_host"; "cpu_cores"; "numa_nodes"; "ram_bytes";
  "disk_io_class"; "network_class"; "port_count"; "exact_ports"; "cache_root"; "evidence_root";
  "workload_class"; "interference_class"; "load_thermal_power_envelope";
  "estimated_duration_seconds"; "estimated_gpu_seconds"].
Definition claim_from_dict (value : json) : result PoolResourceClaim :=
  row <-! strict_object "pool resource claim" value PoolResourceClaim_fields ;;
  gang <-! gang_from_dict (get "gang_shape" row) ;;
  uuids <-! list_of "exact_gpu_uuids" (strict_text "exact GPU UUID") (get "exact_gpu_uuids" row) ;;
  constraint <-! constraint_from_dict (get "homogeneous" row) ;;
  groups <-! list_of "allowed_topology_groups" (strict_text "allowed topology group")
               (get "allowed_topology_groups" row) ;;
  fabrics <-! list_of "allowed_fabrics" (strict_text "allowed fabric") (get "allowed_fabrics" row) ;;
  same <-! strict_bool "same_host" (get "same_host" row) ;;
  alone <-! strict_bool "exclusive_gpu" (get "exclusive_gpu" row) ;;
  alone_host <-! strict_bool "exclusive_host" (get "exclusive_host" row) ;;
  cores <-! strict_int "cpu_cores" (get "cpu_cores" row) ;;
  numa <-! list_of "numa_nodes" (strict_int "NUMA node") (get "numa_nodes" row) ;;
  ram <-! strict_int "ram_bytes" (get "ram_bytes" row) ;;
  disk <-! strict_text "disk_io_class" (get "disk_io_class" row) ;;
  network <-! strict_text "network_class" (get "network_class" row) ;;
  count <-! strict_int "port_count" (get "port_count" row) ;;
  ports <-! list_of "exact_ports" (strict_int "exact port") (get "exact_ports" row) ;;
  cache <-! strict_text "cache_root" (get "cache_root" row) ;;
  evidence <-! strict_text "evidence_root" (get "evidence_root" row) ;;
  workload <-! strict_text "workload_class" (get "workload_class" row) ;;
  workload <-! parse_workload_class workload ;;
  interference <-! strict_text "interference_class" (get "interference_class" row) ;;
  load <-! strict_text "load_thermal_power_envelope" (get "load_thermal_power_envelope" row) ;;
  duration <-! strict_float "estimated_duration_seconds" (get "estimated_duration_seconds" row) ;;
  seconds <-! strict_float "estimated_gpu_seconds" (get "estimated_gpu_seconds" row) ;;
  new_PoolResourceClaim {|
    gang_shape := gang; exact_gpu_uuids := uuids; homogeneous := constraint;
    allowed_topology_groups := groups; allowed_fabrics := fabrics; same_host := same;
    exclusive_gpu := alone; exclusive_host := alone_host; cpu_cores := cores; numa_nodes := numa;
    ram_bytes := ram; disk_io_class := disk; network_class := network; port_count := count;
    exact_ports := ports; cache_root := cache; evidence_root := evidence;
    workload_class := workload; interference_class := interference;
    load_thermal_power_envelope := load; estimated_duration_seconds := duration;
    estimated_gpu_seconds := seconds |}.

(** ** Cells and work items *)
Definition _CELL_IDENTITY_FIELDS : list string := [
  "experiment"; "model"; "backend"; "task"; "method"; "scope"; "rank"; "alpha_over_rank";
  "optimizer"; "learning_rate"; "schedule"; "context"; "regime"; "width"; "arrival"; "slo";
  "cohort"; "topology"; "seed"; "block"; "gpu_uuids"; "parameterization"; "variant";
  "concurrency"; "load_factor"; "cohort_count"].
Definition cell_identity_from_dict (value : json) : result CellIdentity :=
  row <-! strict_object "cell identity" value _CELL_IDENTITY_FIELDS ;;
  experiment <-! strict_text "experiment" (get "experiment" row) ;;
  model <-! strict_text "model" (get "model" row) ;;
  backend <-! strict_text "backend" (get "backend" row) ;;
  task <-! strict_text "task" (get "task" row) ;;
  method <-! strict_text "method" (get "method" row) ;;
  scope <-! optional_text "scope" (get "scope" row) ;;
  rank <-! optional_int "rank" (get "rank" row) ;;
  alpha <-! optional_float "alpha_over_rank" (get "alpha_over_rank" row) ;;
  optimizer <-! optional_text "optimizer" (get "optimizer" row) ;;
  rate <-! optional_float "learning_rate" (get "learning_rate" row) ;;
  schedule <-! optional_text "schedule" (get "schedule" row) ;;
  context <-! optional_int "context" (get "context" row) ;;
  regime <-! strict_text "regime" (get "regime" row) ;;
  width <-! optional_int "width" (get "width" row) ;;
  arrival <-! strict_text "arrival" (get "arrival" row) ;;
  slo <-! strict_text "slo" (get "slo" row) ;;
  cohort <-! strict_text "cohort" (get "cohort" row) ;;
  topology <-! strict_text "topology" (get "topology" row) ;;
  seed <-! strict_int "seed" (get "seed" row) ;;
  block <-! strict_int "block" (get "block" row) ;;
  uuids <-! list_of "gpu_uuids" (strict_text "cell GPU UUID") (get "gpu_uuids" row) ;;
  parameterization <-! strict_text "parameterization" (get "parameterization" row) ;;
  variant <-! strict_text "variant" (get "variant" row) ;;
  concurrency <-! optional_int "concurrency" (get "concurrency" row) ;;
  load <-! optional_float "load_factor" (get "load_factor" row) ;;
  count <-! strict_int "cohort_count" (get "cohort_count" row) ;;
  new_CellIdentity {|
    experiment := experiment; model := model; backend := backend; task := task; method := method;
    scope := scope; ci_rank := rank; alpha_over_rank := alpha; optimizer := optimizer;
    learning_rate := rate; schedule := schedule; context := context; regime := regime;
    width := width; arrival := arrival; slo := slo; cohort := cohort; ci_topology := topology;
    seed := seed; block := block; ci_gpu_uuids := uuids; parameterization := parameterization;
    variant := variant; concurrency := concurrency; load_factor := load; cohort_count := count |}.

Definition resource_claim_from_dict (value : json) : result ResourceClaim :=
  row <-! strict_object "registered resource claim" value
            ["gpu_uuids"; "ports"; "cache_root"; "evidence_root"; "workload_class"] ;;
  uuids <-! list_of "gpu_uuids" (strict_text "registered GPU UUID") (get "gpu_uuids" row) ;;
  ports <-! list_of "ports" (strict_int "registered port") (get "ports" row) ;;
  cache <-! strict_text "cache_root" (get "cache_root" row) ;;
  evidence <-! strict_text "evidence_root" (get "evidence_root" row) ;;
  workload <-! strict_text "workload_class" (get "workload_class" row) ;;
  workload <-! parse_workload_class workload ;;
  new_ResourceClaim {|
    rc_gpu_uuids := uuids; rc_ports := ports; rc_cache_root := cache;
    rc_evidence_root := evidence; rc_workload_class := workload |}.

Definition experiment_cell_from_dict (value : json) : result ExperimentCell :=
  row <-! strict_object "experiment cell" value
            ["identity"; "resources"; "status"; "reason_code"; "reason"] ;;
  identity <-! cell_identity_from_dict (get "identity" row) ;;
  resources <-! resource_claim_from_dict (get "resources" row) ;;
  state <-! strict_text "cell status" (get "status" row) ;;
  state <-! parse_cell_status state ;;
  code <-! strict_text "reason_code" (get "reason_code" row) ;;
  reason <-! strict_text "reason" (get "reason" row) ;;
  new_ExperimentCell {|
    identity := identity; resources := resources; status := state; cell_reason_code := code;
    cell_reason := reason |}.

Definition work_item_from_dict (value : json) : result PoolWorkItem :=
  row <-! strict_object "pool work item" value
            ["cell"; "cell_sha256"; "claim"; "affinity_key"; "serial_group_key"] ;;
  cell <-! experiment_cell_from_dict (get "cell" row) ;;
  declared <-! strict_text "cell_sha256" (get "cell_sha256" row) ;;
  _ <-! require_sha256 "cell_sha256" declared ;;
  raise_if (negb (bool_decide (declared = cell_sha256 cell)))
    (ValueError "work-item cell SHA-256 mismatch") ;;
  claim <-! claim_from_dict (get "claim" row) ;;
  affinity <-! optional_text "affinity_key" (get "affinity_key" row) ;;
  serial_group <-! optional_text "serial_group_key" (get "serial_group_key" row) ;;
  new_PoolWorkItem {|
    cell := cell; claim := claim; affinity_key := affinity; serial_group_key := serial_group |}.

(** ** Interference *)
Definition rule_from_dict (value : json) : result InterferenceRule :=
  row <-! strict_object "interference rule" value
            ["hardware_envelope_sha256"; "workload_class"; "co_run_signature";
             "simultaneous_jobs"; "gang_shape"; "load_thermal_power_envelope";
             "contention_class"; "evidence_sha256"; "status"] ;;
  hardware <-! strict_text "hardware_envelope_sha256" (get "hardware_envelope_sha256" row) ;;
  workload <-! strict_text "workload_class" (get "workload_class" row) ;;
  workload <-! parse_workload_class workload ;;
  co_run <-! strict_text "co_run_signature" (get "co_run_signature" row) ;;
  jobs <-! strict_int "simultaneous_jobs" (get "simultaneous_jobs" row) ;;
  gang <-! strict_text "gang_shape" (get "gang_shape" row) ;;
  load <-! strict_text "load_thermal_power_envelope" (get "load_thermal_power_envelope" row) ;;
  contention <-! strict_text "contention_class" (get "contention_class" row) ;;
  evidence <-! strict_text "evidence_sha256" (get "evidence_sha256" row) ;;
  state <-! strict_text "interference status" (get "status" row) ;;
  new_InterferenceRule {|
    ir_hardware_envelope_sha256 := hardware; ir_workload_class := workload;
    co_run_signature := co_run; simultaneous_jobs := jobs; ir_gang_shape := gang;
    ir_load_thermal_power_envelope := load; ir_contention_class := contention;
    evidence_sha256 := evidence; ir_status := state |}.

Definition envelope_from_dict (value : json) (sidecar : option (ArtifactSidecar + json))
    : result InterferenceEnvelope :=
  row <-! strict_object "interference envelope" value
            ["schema_version"; "rules"; "source_receipt_sha256"] ;;
  version <-! strict_int "schema_version" (get "schema_version" row) ;;
  rules <-! list_of "rules" rule_from_dict (get "rules" row) ;;
  source <-! strict_text "source_receipt_sha256" (get "source_receipt_sha256" row) ;;
  envelope <-! new_InterferenceEnvelope {|
    ie_schema_version := version; rules := rules; ie_source_receipt_sha256 := source |} ;;
  _ <-! validate_sidecar "interference_envelope.v1" (envelope_sha256 envelope) sidecar ;;
  Ok envelope.

(** ** Assignments *)
Definition assignment_from_dict (value : json) : result GpuAssignment :=
  row <-! strict_object "GPU assignment" value
            ["work_item"; "work_item_sha256"; "gpu_uuids"; "rank_groups"; "ports"] ;;
  item <-! work_item_from_dict (get "work_item" row) ;;
  declared <-! strict_text "work_item_sha256" (get "work_item_sha256" row) ;;
  _ <-! require_sha256 "work_item_sha256" declared ;;
  raise_if (negb (bool_decide (declared = work_item_sha256 item)))
    (ValueError "assignment work-item SHA-256 mismatch") ;;
  groups <-! list_of "rank_groups" (list_of "rank group" (strict_text "rank GPU UUID"))
               (get "rank_groups" row) ;;
  uuids <-! list_of "gpu_uuids" (strict_text "assigned GPU UUID") (get "gpu_uuids" row) ;;
  ports <-! list_of "ports" (strict_int "assigned port") (get "ports" row) ;;
  new_GpuAssignment {|
    work_item := item; gpu_uuids := uuids; rank_groups := groups; ports := ports |}.
