(* ===== verification/PoolRoundTrip.v ===== *)
(** * Pool artifacts read back what was written

    [from_dict] after [to_dict] is the identity on constructed objects, from the
    device to the assignment. *)
From S2P Require Import Prelude PyFloat FloatRepr Hashlib Registry GpuPool PoolParsing.

(** ** Leaves *)
Create Rewrite HintDb wire.

Definition texts (l : list string) : Prop := ∀ s, s ∈ l → is_text s = true.

Lemma strict_object_ok name row fields :
  same_keys (map fst row) fields = true → strict_object name (JObj row) fields = Ok row.
Proof. intros H. unfold strict_object. by rewrite H. Qed.

Lemma strict_text_ok name s : is_text s = true → strict_text name (JStr s) = Ok s.
Proof. intros H. unfold strict_text, require_text. by rewrite H. Qed.
Lemma strict_float_ok name x : ffinite x = true → strict_float name (JFloat x) = Ok x.
Proof. intros H. unfold strict_float. by rewrite H. Qed.
Lemma optional_text_ok name o : none_or is_text o = true → optional_text name (jopt JStr o) = Ok o.
Proof.
  destruct o as [s|]; [|done]. cbn [none_or]. intros H. unfold optional_text, optional.
  cbn [jopt]. by rewrite strict_text_ok.
Qed.
Lemma optional_int_ok name o : optional_int name (jopt JInt o) = Ok o.
Proof. by destruct o. Qed.
Lemma optional_float_ok name o :
  none_or ffinite o = true → optional_float name (jopt JFloat o) = Ok o.
Proof.
  destruct o as [x|]; [|done]. cbn [none_or]. intros H. unfold optional_float, optional.
  cbn [jopt]. by rewrite strict_float_ok.
Qed.

Lemma list_of_ok {A} name (read : json → result A) (write : A → json) l :
  (∀ x, x ∈ l → read (write x) = Ok x) → list_of name read (JList (map write l)) = Ok l.
Proof.
  intros H. unfold list_of. cbn [strict_list]. induction l as [|x l IH]; [done|].
  cbn [map mapR]. rewrite H by by left. rewrite IH; [done|]. intros y Hy. apply H. by right.
Qed.
Lemma list_text_ok name item l : texts l → list_of name (strict_text item) (jstrs l) = Ok l.
Proof. intros H. apply list_of_ok. intros s Hs. by apply strict_text_ok, H. Qed.
Lemma list_int_ok name item l : list_of name (strict_int item) (jints l) = Ok l.
Proof. by apply list_of_ok. Qed.

Lemma parse_availability_ok a : parse_availability (GpuAvailability_value a) = Ok a.
Proof. by destruct a. Qed.
Lemma parse_workload_class_ok w : parse_workload_class (WorkloadClass_value w) = Ok w.
Proof. by destruct w. Qed.
Lemma parse_cell_status_ok s : parse_cell_status (CellStatus_value s) = Ok s.
Proof. by destruct s. Qed.
Lemma availability_text a : is_text (GpuAvailability_value a) = true.
Proof. by destruct a. Qed.
Lemma workload_text w : is_text (WorkloadClass_value w) = true.
Proof. by destruct w. Qed.
Lemma cell_status_text s : is_text (CellStatus_value s) = true.
Proof. by destruct s. Qed.

(** What the constructors guarantee of the leaves. *)
Lemma require_text_Ok name s u : require_text name s = Ok u → is_text s = true.
Proof. unfold require_text. by destruct (is_text s). Qed.

Lemma require_all_text_Ok fields u :
  require_all_text fields = Ok u → Forall (λ f, is_text f.2 = true) fields.
Proof.
  induction fields as [|[n v] fields IH]; cbn [require_all_text]; [by constructor|].
  intros H. step_ok H. constructor; [by eapply require_text_Ok|by apply IH].
Qed.
Lemma require_list_text_Ok name l u :
  require_all_text (map (λ s, (name, s)) l) = Ok u → texts l.
Proof.
  intros H%require_all_text_Ok s Hs. rewrite Forall_map, Forall_forall in H. by apply H.
Qed.
Lemma require_optional_text_Ok name o u :
  match o with Some s => require_text name s | None => Ok tt end = Ok u → none_or is_text o = true.
Proof. destruct o as [s|]; [apply require_text_Ok|done]. Qed.
Lemma require_positive_finite_Ok name x u :
  require_positive_finite name x = Ok u → ffinite x = true.
Proof.
  unfold require_positive_finite, positive_finite. by destruct (ffinite x).
Qed.
Lemma none_or_positive_finite o : none_or positive_finite o = true → none_or ffinite o = true.
Proof. destruct o as [x|]; [|done]. cbn. unfold positive_finite. by destruct (ffinite x). Qed.

(** A nonempty string without spaces and newlines is text. *)
Definition solid (c : Ascii.ascii) : bool := negb (is_space c) && negb (bool_decide (c = newline)).

Lemma string_forall_impl (p q : Ascii.ascii → bool) s :
  (∀ c, p c = true → q c = true) → string_forall p s = true → string_forall q s = true.
Proof.
  intros Hpq. induction s as [|c s IH]; [done|]. cbn. intros [Hc Hs]%andb_true_iff.
  by rewrite (Hpq c Hc), IH.
Qed.
Lemma lstrip_solid s : string_forall solid s = true → lstrip s = s.
Proof.
  destruct s as [|c s]; [done|]. cbn. intros [[Hc _]%andb_true_iff _]%andb_true_iff.
  apply negb_true_iff in Hc. by rewrite Hc.
Qed.
Lemma rev_app_solid s1 s2 :
  string_forall solid s1 = true → string_forall solid s2 = true →
  string_forall solid (String.rev_app s1 s2) = true ∧
  String.length (String.rev_app s1 s2) = (String.length s1 + String.length s2)%nat.
Proof.
  revert s2. induction s1 as [|c s1 IH]; intros s2 H1 H2; [done|]. cbn [string_forall] in H1.
  apply andb_true_iff in H1 as [Hc H1].
  destruct (IH (String.String c s2) H1) as [IH1 IH2]; [cbn [string_forall]; by rewrite Hc|].
  split; [done|]. cbn [String.rev_app]. rewrite IH2. cbn [String.length]. lia.
Qed.
Lemma solid_text s : string_forall solid s = true → s ≠ EmptyString → is_text s = true.
Proof.
  intros Hs Hne. unfold is_text, strip, rstrip. rewrite (lstrip_solid s Hs). unfold String.rev.
  destruct (rev_app_solid s EmptyString Hs eq_refl) as [Hr Hlr].
  rewrite (lstrip_solid _ Hr). destruct (rev_app_solid _ EmptyString Hr eq_refl) as [_ Hlrr].
  apply andb_true_iff. split.
  - destruct (String.rev_app (String.rev_app s "") ""); [|done].
    rewrite Hlr in Hlrr. destruct s; [done|]. cbn [String.length] in Hlrr. lia.
  - eapply string_forall_impl; [|exact Hs]. intros c Hc. unfold solid in Hc.
    by apply andb_true_iff in Hc as [_ Hc].
Qed.

(** [lia] on the code of a character that passes a test. *)
Ltac char_solid H :=
  apply andb_true_iff; split; [apply negb_true_iff|
    apply negb_true_iff, bool_decide_eq_false_2; by intros ->];
  unfold is_space; repeat (apply orb_true_iff in H as [H|H]);
  rewrite ?andb_true_iff, ?Nat.leb_le, ?Nat.eqb_eq in H;
  repeat (apply orb_false_iff; split);
  rewrite ?andb_false_iff, ?Nat.leb_gt, ?Nat.eqb_neq; lia.
Lemma hex_solid c : is_hex_char c = true → solid c = true.
Proof. intros H. unfold is_hex_char in H. char_solid H. Qed.
Lemma reason_char_solid c :
  (reason_char c || let n := Ascii.nat_of_ascii c in (n =? 95)%nat || (n =? 46)%nat || (n =? 45)%nat)
    = true → solid c = true.
Proof. intros H. unfold reason_char in H. char_solid H. Qed.

Lemma hash_text n s : is_hash (S n) s = true → is_text s = true.
Proof.
  unfold is_hash. intros [Hl Hs]%andb_true_iff. apply Nat.eqb_eq in Hl.
  apply solid_text; [|by intros ->]. eapply string_forall_impl; [apply hex_solid|exact Hs].
Qed.
Lemma reason_code_text s : reason_code_ok s = true → is_text s = true.
Proof.
  destruct s as [|c s]; [done|]. cbn [reason_code_ok]. intros [Hc Hs]%andb_true_iff.
  apply solid_text; [|done]. cbn [string_forall].
  rewrite (reason_char_solid c) by (by rewrite Hc). cbn [andb].
  eapply string_forall_impl; [apply reason_char_solid|exact Hs].
Qed.
Lemma require_sha256_Ok name s u : require_sha256 name s = Ok u → is_hash 64 s = true.
Proof. unfold require_sha256. by destruct (is_hash 64 s). Qed.
Lemma sha256_text name s u : require_sha256 name s = Ok u → is_text s = true.
Proof. intros H%require_sha256_Ok. by eapply hash_text. Qed.
Lemma optional_sha256_text name o u :
  match o with Some s => require_sha256 name s | None => Ok tt end = Ok u →
  none_or is_text o = true.
Proof. destruct o as [s|]; [apply sha256_text|done]. Qed.
Lemma content_sha256_text j : is_text (content_sha256 j) = true.
Proof. eapply hash_text, content_sha256_is_hash. Qed.

#[export] Hint Rewrite strict_text_ok strict_float_ok optional_text_ok @optional_int_ok
  optional_float_ok list_text_ok list_int_ok parse_availability_ok parse_workload_class_ok
  parse_cell_status_ok using first [assumption | simple apply content_sha256_text | simple apply availability_text
  | simple apply workload_text | simple apply cell_status_text | apply content_sha256_text] : wire.

(** [H : constructor checks = Ok _]: collect what they say of the leaves. *)
Ltac text_facts :=
  repeat match goal with
  | H : require_all_text (map _ _) = Ok _ |- _ => apply require_list_text_Ok in H
  | H : require_all_text _ = Ok _ |- _ => apply require_all_text_Ok in H
  | H : match ?o with Some s => require_text _ s | None => Ok tt end = Ok _ |- _ =>
      apply require_optional_text_Ok in H
  | H : match ?o with Some s => require_sha256 _ s | None => Ok tt end = Ok _ |- _ =>
      apply optional_sha256_text in H
  | H : require_text _ _ = Ok _ |- _ => apply require_text_Ok in H
  | H : require_sha256 _ _ = Ok _ |- _ => apply sha256_text in H
  | H : require_positive_finite _ _ = Ok _ |- _ => apply require_positive_finite_Ok in H
  | H : negb (none_or positive_finite _) = false |- _ =>
      apply negb_false_iff, none_or_positive_finite in H
  | H : Forall _ (_ :: _) |- _ => apply Forall_cons in H as [? H]
  end; cbn [snd] in *.
(** Read the fields of a row that was just written. *)
Ltac read_row :=
  rewrite strict_object_ok by reflexivity;
  cbn [get fst snd String.eqb Ascii.eqb Bool.eqb];
  autorewrite with wire; cbn [strict_int strict_bool strict_list jints map].

(** ** Objects *)
Lemma device_round_trip d : new_GpuDevice d = Ok d → device_from_dict (device_json d) = Ok d.
Proof.
  intros Hd. pose proof Hd as H. unfold new_GpuDevice in H. repeat step_ok H. text_facts.
  unfold device_from_dict, device_json. read_row.
  cbn [mapR strict_int pair_of]. rewrite <- surjective_pairing. by destruct d.
Qed.

Lemma group_round_trip g : new_GpuTopologyGroup g = Ok g → group_from_dict (group_json g) = Ok g.
Proof.
  intros Hg. pose proof Hg as H. unfold new_GpuTopologyGroup in H. repeat step_ok H. text_facts.
  unfold group_from_dict, group_json. read_row. by destruct g.
Qed.

Lemma inventory_round_trip i :
  new_GpuInventory i = Ok i → (∀ d, d ∈ devices i → new_GpuDevice d = Ok d) →
  (∀ g, g ∈ topology_groups i → new_GpuTopologyGroup g = Ok g) →
  inventory_from_dict (inventory_json i) None = Ok i.
Proof.
  intros Hi Hd Hg. pose proof Hi as H. unfold new_GpuInventory in H. repeat step_ok H. text_facts.
  unfold inventory_from_dict, inventory_json. read_row.
  rewrite (list_of_ok _ device_from_dict device_json) by (intros; by apply device_round_trip, Hd).
  rewrite (list_of_ok _ group_from_dict group_json) by (intros; by apply group_round_trip, Hg).
  destruct i. cbn in *. by rewrite Hi.
Qed.

(** ** Claims *)
Lemma gang_round_trip g : new_GangShape g = Ok g → gang_from_dict (gang_json g) = Ok g.
Proof. intros Hg. unfold gang_from_dict, gang_json. read_row. by destruct g. Qed.

Lemma constraint_round_trip h :
  new_HomogeneousDeviceConstraint h = Ok h → constraint_from_dict (constraint_json h) = Ok h.
Proof.
  intros Hh. pose proof Hh as H. unfold new_HomogeneousDeviceConstraint in H.
  repeat step_ok H. text_facts. unfold constraint_from_dict, constraint_json. read_row.
  cbn [mapR strict_int pair_of]. rewrite <- surjective_pairing. by destruct h.
Qed.

(** A claim and its parts passed their constructors. *)
Definition claim_valid (c : PoolResourceClaim) : Prop :=
  new_PoolResourceClaim c = Ok c ∧ new_GangShape (gang_shape c) = Ok (gang_shape c) ∧
  new_HomogeneousDeviceConstraint (homogeneous c) = Ok (homogeneous c).

Lemma claim_round_trip c : claim_valid c → claim_from_dict (claim_json c) = Ok c.
Proof.
  intros (Hc & Hg & Hh). pose proof Hc as H. unfold new_PoolResourceClaim in H.
  repeat step_ok H. text_facts. unfold claim_from_dict, claim_json. read_row.
  rewrite (gang_round_trip _ Hg), (constraint_round_trip _ Hh). autorewrite with wire.
  by destruct c.
Qed.

(** ** Cells and work items *)
Lemma identity_round_trip c :
  new_CellIdentity c = Ok c → cell_identity_from_dict (identity_json c) = Ok c.
Proof.
  intros Hc. pose proof Hc as H. unfold new_CellIdentity in H. repeat step_ok H. text_facts.
  unfold cell_identity_from_dict, identity_json, identity_fields. read_row. by destruct c.
Qed.

Lemma identity_gpus c : new_CellIdentity c = Ok c → texts (ci_gpu_uuids c).
Proof. unfold new_CellIdentity. intros H. repeat step_ok H. text_facts. assumption. Qed.

Lemma resource_round_trip r :
  new_ResourceClaim r = Ok r → texts (rc_gpu_uuids r) →
  resource_claim_from_dict (resource_json r) = Ok r.
Proof.
  intros Hr Ht. pose proof Hr as H. unfold new_ResourceClaim in H. repeat step_ok H. text_facts.
  unfold resource_claim_from_dict, resource_json. read_row. by destruct r.
Qed.

Definition cell_valid (c : ExperimentCell) : Prop :=
  new_ExperimentCell c = Ok c ∧ new_CellIdentity (identity c) = Ok (identity c) ∧
  new_ResourceClaim (resources c) = Ok (resources c).

Lemma cell_round_trip c : cell_valid c → experiment_cell_from_dict (cell_json c) = Ok c.
Proof.
  intros (Hc & Hi & Hr). pose proof Hc as H. unfold new_ExperimentCell in H.
  repeat step_ok H. text_facts. bools.
  assert (is_text (cell_reason_code c) = true) by (by apply reason_code_text).
  unfold experiment_cell_from_dict, cell_json. read_row.
  rewrite (identity_round_trip _ Hi), resource_round_trip; [by destruct c|exact Hr|].
  match goal with Hg : ci_gpu_uuids _ = _ |- _ => rewrite <- Hg end. by apply identity_gpus.
Qed.

Definition item_valid (w : PoolWorkItem) : Prop :=
  new_PoolWorkItem w = Ok w ∧ cell_valid (cell w) ∧ claim_valid (claim w).

Lemma require_content_sha256 name j : require_sha256 name (content_sha256 j) = Ok tt.
Proof. unfold require_sha256. by rewrite content_sha256_is_hash. Qed.

Lemma item_round_trip w : item_valid w → work_item_from_dict (work_item_json w) = Ok w.
Proof.
  intros (Hw & Hc & Hcl). pose proof Hw as H. unfold new_PoolWorkItem in H. repeat step_ok H.
  text_facts. unfold work_item_from_dict, work_item_json. read_row.
  rewrite (cell_round_trip _ Hc), (claim_round_trip _ Hcl). unfold cell_sha256.
  autorewrite with wire. rewrite require_content_sha256, bool_decide_eq_true_2 by done.
  cbn [negb]. by destruct w.
Qed.

(** ** Interference *)
Lemma rule_round_trip r : new_InterferenceRule r = Ok r → rule_from_dict (rule_json r) = Ok r.
Proof.
  intros Hr. pose proof Hr as H. unfold new_InterferenceRule in H. repeat step_ok H. text_facts.
  bools. assert (is_text (ir_status r) = true).
  { match goal with Hs : ir_status r ∈ _ |- _ => revert Hs end.
    intros [->|[->|?%elem_of_nil]%elem_of_cons]%elem_of_cons; done. }
  unfold rule_from_dict, rule_json. read_row. by destruct r.
Qed.

Lemma envelope_round_trip e :
  new_InterferenceEnvelope e = Ok e → (∀ r, r ∈ rules e → new_InterferenceRule r = Ok r) →
  envelope_from_dict (envelope_json e) None = Ok e.
Proof.
  intros He Hr. pose proof He as H. unfold new_InterferenceEnvelope in H. repeat step_ok H.
  text_facts. unfold envelope_from_dict, envelope_json. read_row.
  rewrite (list_of_ok _ rule_from_dict rule_json) by (intros; by apply rule_round_trip, Hr).
  destruct e. cbn in *. by rewrite He.
Qed.

(** ** Assignments *)
Definition assignment_valid (a : GpuAssignment) : Prop :=
  new_GpuAssignment a = Ok a ∧ item_valid (work_item a) ∧ texts (gpu_uuids a).

Lemma assignment_groups a :
  new_GpuAssignment a = Ok a → texts (gpu_uuids a) → ∀ g, g ∈ rank_groups a → texts g.
Proof.
  unfold new_GpuAssignment. intros H Ht g Hg s Hs. do 2 step_ok H. bools.
  apply Ht. match goal with Hc : concat _ = _ |- _ => rewrite <- Hc end.
  apply list_elem_of_In, in_concat. exists g. split; by apply list_elem_of_In.
Qed.

Lemma assignment_round_trip a :
  assignment_valid a → assignment_from_dict (assignment_json a) = Ok a.
Proof.
  intros (Ha & Hi & Ht). unfold assignment_from_dict, assignment_json. read_row.
  rewrite (item_round_trip _ Hi). unfold work_item_sha256. autorewrite with wire.
  rewrite require_content_sha256, bool_decide_eq_true_2 by done. cbn [negb].
  rewrite (list_of_ok _ _ jstrs); [by destruct a|].
  intros g Hg. by eapply list_text_ok, assignment_groups.
Qed.
