(* ===== verification/Scheduler.v ===== *)
(** * The same-host scheduler ([GpuPoolScheduler] of [experiments/gpu_pool.py])

    Candidate gangs, deterministic placement with load balancing and affinity,
    port binding and greedy wave packing.  The two release predicates of
    [stage_activation.py] are the interface [ReleaseGate]; the registry is its
    list of cells and its digest. *)
From S2P Require Import Prelude PyFloat FloatRepr Hashlib Registry GpuPool.

(** What the scheduler asks of the release gate: why a cell is rejected. *)
Class ReleaseGate := {
  release_execution_capability_rejection_reason : ExperimentCell → option string;
  release_dispatch_rejection_reason : ExperimentCell → option string;
}.

Record ExperimentRegistry := { cells : list ExperimentCell; er_sha256 : string }.

(** ** Work items from registry cells *)
Definition PILOT_BLOCKS : list Z := [0; 1; 2; 3].

Definition identity_without_method_or_gpu (c : ExperimentCell) : list (string * json) :=
  identity_fields (identity c).

Definition confirmation_serial_key (c : ExperimentCell) : string :=
  let i := identity c in
  let backend := if bool_decide (experiment i = "E3b") && bool_decide (backend i = "NONE")
                 then "DFLASH" else backend i in
  content_sha256 (JObj [
    ("experiment", JStr (experiment i)); ("model", JStr (model i));
    ("backend_family", JStr backend); ("task", JStr (task i));
    ("context", jopt JInt (context i)); ("regime", JStr (regime i));
    ("arrival", JStr (arrival i)); ("slo", JStr (slo i)); ("cohort", JStr (cohort i));
    ("topology", JStr (ci_topology i)); ("seed", JInt (seed i)); ("block", JInt (block i));
    ("variant", JStr (variant i)); ("concurrency", jopt JInt (concurrency i));
    ("load_factor", jopt JFloat (load_factor i)); ("cohort_count", JInt (cohort_count i))]).

Definition registry_gang_shape (c : ExperimentCell) : result GangShape :=
  let topology := lower (ci_topology (identity c)) in
  let n := rc_gpu_count (resources c) in
  shape <-! (if bool_decide (topology = "two_replica_tp1_dp2")
                || contains "two_independent_tp1" topology
             then new_GangShape {| tensor_parallel_size := 1; data_parallel_size := n |}
             else if contains "tp2" topology
             then new_GangShape {| tensor_parallel_size := 2; data_parallel_size := n / 2 |}
             else new_GangShape {| tensor_parallel_size := n; data_parallel_size := 1 |}) ;;
  raise_if (negb (gpu_count shape =? n))
    (ValueError "registry topology and resource GPU count disagree") ;;
  Ok shape.

Inductive CalibrationMode : Set := isolated | concurrent.
#[export] Instance CalibrationMode_eq_dec : EqDecision CalibrationMode.
Proof. solve_decision. Defined.

Definition is_calibration (i : CellIdentity) : bool :=
  bool_decide (experiment i = "preflight")
  && bool_decide (task i = "simultaneous_single_gpu_interference").

(** [str(variant).split("_slot_", maxsplit=1)[0]]. *)
Fixpoint before_slot (s : string) : string :=
  if String.prefix "_slot_" s then EmptyString
  else match s with
       | EmptyString => EmptyString
       | String.String c s => String.String c (before_slot s)
       end.

Definition registry_pool_work_item (c : ExperimentCell) (duration : pyfloat) : result PoolWorkItem :=
  _ <-! require_positive_finite "estimated_duration_seconds" duration ;;
  shape <-! registry_gang_shape c ;;
  let i := identity c in
  let confirmation := bool_decide (experiment i ∈ ["E3b"; "E5"]) in
  let serial_key := if confirmation then Some (confirmation_serial_key c) else None in
  let affinity :=
    if confirmation then serial_key
    else if bool_decide (method i ∈ ["tts"; "l0"]) && bool_decide (experiment i ∈ ["E1"; "E2"; "E1a"])
    then Some (content_sha256 (JObj (identity_without_method_or_gpu c))) else None in
  let contention := content_sha256 (contention_json 1 [] "registered" "registered") in
  let mode := before_slot (variant i) in
  raise_if (is_calibration i && negb (bool_decide (mode ∈ ["isolated"; "concurrent"])))
    (ValueError "calibration cell has an invalid registered mode") ;;
  let w := rc_workload_class (resources c) in
  let interference :=
    if is_calibration i then content_sha256 (JObj [
      ("schema_version", JInt 1); ("kind", JStr "interference_calibration_bootstrap_class");
      ("model", JStr (model i)); ("backend", JStr (backend i)); ("task", JStr (task i));
      ("repetition", JInt (block i)); ("context", jopt JInt (context i));
      ("arrival", JStr (arrival i)); ("concurrency", jopt JInt (concurrency i));
      ("gang_shape", JStr (signature shape)); ("contention_class", JStr contention)])
    else content_sha256 (JObj [
      ("workload_class", JStr (WorkloadClass_value w)); ("experiment", JStr (experiment i));
      ("gang_shape", JStr (signature shape)); ("contention_class", JStr contention)]) in
  cl <-! new_PoolResourceClaim {|
    gang_shape := shape; exact_gpu_uuids := []; homogeneous := default_constraint;
    allowed_topology_groups := []; allowed_fabrics := []; same_host := true;
    exclusive_gpu := true;
    exclusive_host := exclusive_host_class w || (is_calibration i && bool_decide (mode = "isolated"));
    cpu_cores := 1; numa_nodes := []; ram_bytes := 0; disk_io_class := "registered";
    network_class := "registered"; port_count := zlength (rc_ports (resources c));
    exact_ports := []; cache_root := rc_cache_root (resources c);
    evidence_root := rc_evidence_root (resources c); workload_class := w;
    interference_class := interference; load_thermal_power_envelope := "registered";
    estimated_duration_seconds := duration;
    estimated_gpu_seconds := fmul duration (float_of_Z (gpu_count shape)) |} ;;
  new_PoolWorkItem {| cell := c; claim := cl; affinity_key := affinity;
                      serial_group_key := serial_key |}.

(** ** Order keys *)
Definition dispatch_order_key (registry_seed : Z) (item : PoolWorkItem)
    : Z * (Z * (string * (string * string))) :=
  let i := identity (cell item) in
  let phase := if bool_decide (block i ∈ PILOT_BLOCKS) then 0 else 1 in
  let paired_group := match serial_group_key item with
    | Some k => k
    | None => content_sha256 (JObj (("registry_seed", JInt registry_seed)
                                    :: identity_without_method_or_gpu (cell item)))
    end in
  let method_order := content_sha256 (JObj [("paired_group", JStr paired_group);
    ("method", JStr (method i)); ("seed", JInt (seed i))]) in
  (phase, (block i, (paired_group, (method_order, item_id item)))).

(** [_calibration_concurrent_slot]. *)
Definition calibration_concurrent_slot (item : PoolWorkItem) : result (option Z) :=
  let i := identity (cell item) in
  if negb (is_calibration i && bool_decide (method i = "static")
           && bool_decide (workload_class (claim item) = CORRECTNESS)) then Ok None
  else if negb (String.prefix "concurrent_slot_" (variant i)) then Ok None
  else
    let raw := String.substring 16 (String.length (variant i) - 16) (variant i) in
    if bool_decide (raw = "0") then Ok (Some 0)
    else if bool_decide (raw = "1") then Ok (Some 1)
    else Raise (ValueError "calibration concurrent slot is not registered").

(** ** The scheduler *)
Record GpuPoolScheduler := {
  registry : ExperimentRegistry; inventory : GpuInventory;
  interference_envelope : InterferenceEnvelope; port_start : Z; port_end : Z; sc_seed : Z }.

Definition new_GpuPoolScheduler (s : GpuPoolScheduler) : result GpuPoolScheduler :=
  raise_if (negb (distinct (map host_id (devices (inventory s))) =? 1))
    (ValueError "multi-host inventories are unsupported; use one same-host inventory") ;;
  raise_if (negb ((1024 <=? port_start s) && (port_start s <=? port_end s)
                  && (port_end s <=? 65535)))
    (ValueError "scheduler port range is invalid") ;;
  raise_if (sc_seed s <? 0) (ValueError "scheduler seed must be a non-negative integer") ;;
  Ok s.

(** [itertools.combinations]. *)
Fixpoint combinations {A} (n : nat) (l : list A) : list (list A) :=
  match n, l with
  | O, _ => [[]]
  | S _, [] => []
  | S n', x :: l' => map (cons x) (combinations n' l') ++ combinations n l'
  end.

Section scheduler.
Context (s : GpuPoolScheduler).

(** [device_by_uuid[uuid]] of a known device. *)
Definition devices_of (gang : list string) : option (list GpuDevice) :=
  mapM (λ u, snd <$> list_find (λ d, uuid d = u) (devices (inventory s))) gang.

Definition replica_group (tp : Z) (candidate : list string) (replica : Z) : list string :=
  take (Z.to_nat tp) (drop (Z.to_nat (replica * tp)) candidate).

Definition topology_accepts (candidate : list string) (c : PoolResourceClaim) : bool :=
  let tp := tensor_parallel_size (gang_shape c) in
  if tp =? 1 then true
  else
    let groups := filter (λ g,
      (allowed_topology_groups c = [] ∨ group_id g ∈ allowed_topology_groups c) ∧
      (allowed_fabrics c = [] ∨ fabric g ∈ allowed_fabrics c)) (topology_groups (inventory s)) in
    match groups with
    | [] => false
    | _ => forallb (λ replica,
             existsb (λ g, forallb (λ u, bool_decide (u ∈ tg_gpu_uuids g))
                             (replica_group tp candidate replica)) groups)
           (seqZ 0 (data_parallel_size (gang_shape c)))
    end.

Definition gang_accepted (c : PoolResourceClaim) (candidate : list string) : bool :=
  match devices_of candidate with
  | None => false
  | Some ds =>
    forallb (accepts (homogeneous c)) ds
    && (distinct (map host_id ds) =? 1)
    && (distinct (map hardware_envelope_sha256 ds) =? 1)
    && topology_accepts candidate c
  end.

Definition candidate_gangs (item : PoolWorkItem) : list (list string) :=
  let c := claim item in
  let raw := match exact_gpu_uuids c with
    | [] => combinations (Z.to_nat (gpu_count (gang_shape c)))
              (map uuid (filter (λ d, accepts (homogeneous c) d = true) (devices (inventory s))))
    | exact => if forallb (λ u, bool_decide (u ∈ device_uuids (inventory s))) exact
               then [exact] else []
    end in
  sorted_by (λ g : list string, g) (filter (λ g, gang_accepted c g = true) raw).

Definition placeholder_ports (c : PoolResourceClaim) : list Z :=
  match exact_ports c with [] => seqZ (port_start s) (port_count c) | exact => exact end.

(** The ports of one assignment given the ports its wave already uses. *)
Definition bind_ports (used : list Z) (c : PoolResourceClaim) : option (list Z) :=
  match exact_ports c with
  | [] =>
    let free := filter (λ p, p ∉ used) (seqZ (port_start s) (port_end s - port_start s + 1)) in
    let chosen := take (Z.to_nat (port_count c)) free in
    if zlength chosen =? port_count c then Some chosen else None
  | exact =>
    if overlap used exact || existsb (λ p, (p <? port_start s) || (port_end s <? p)) exact
    then None else Some exact
  end.

Definition set_ports (ps : list Z) (a : GpuAssignment) : GpuAssignment :=
  {| work_item := work_item a; gpu_uuids := gpu_uuids a; rank_groups := rank_groups a;
     ports := ps |}.

(** [_bind_wave_ports]; [replace] runs the assignment's checks again. *)
Fixpoint bind_wave_ports (used : list Z) (l : list GpuAssignment)
    : result (option (list GpuAssignment)) :=
  match l with
  | [] => Ok (Some [])
  | a :: l =>
    match bind_ports used (claim (work_item a)) with
    | None => Ok None
    | Some ps =>
      a <-! new_GpuAssignment (set_ports ps a) ;;
      rest <-! bind_wave_ports (ps ++ used) l ;;
      Ok (cons a <$> rest)
    end
  end.

Definition wave_compatible (l : list GpuAssignment) : result bool :=
  match first_conflict no_use l with
  | Some _ => Ok false
  | None => permits l (inventory s) (interference_envelope s)
  end.

(** ** Placement *)
Record PlacementState := {
  affinity_assignments : gmap string (list string);
  device_load_seconds : gmap string pyfloat;
}.

Definition load_of (st : PlacementState) (u : string) : pyfloat :=
  default fzero (device_load_seconds st !! u).

Definition device_order (u : string) : Z :=
  match list_find (λ x, x = u) (device_uuids (inventory s)) with
  | Some (i, _) => Z.of_nat i | None => 0 end.

(** [_gang_load_key]. *)
Definition gang_load_key (st : PlacementState) (rotation : Z) (gang : list string)
    : pyfloat * (list Z * list string) :=
  let peak := match map (load_of st) gang with [] => fzero | x :: l => foldl fmax x l end in
  (peak, (map (λ u, (device_order u - rotation) mod zlength (devices (inventory s))) gang, gang)).

Definition rotation_of (item : PoolWorkItem) : Z :=
  hex_number 0 (String.substring 0 16 (content_sha256 (JObj [("seed", JInt (sc_seed s));
    ("affinity_key", jopt JStr (affinity_key item)); ("item_id", JStr (item_id item))]))).

Definition allowed_gangs (st : PlacementState) (item : PoolWorkItem)
    : result (list (list string)) :=
  let gangs := candidate_gangs item in
  match affinity_key item ≫= λ k, affinity_assignments st !! k with
  | Some bound =>
    match filter (λ g, g = bound) gangs with
    | [] => Raise (CapabilityRejectionError "affinity group has no common capability/topology placement")
    | gangs => Ok gangs
    end
  | None =>
    match gangs with
    | [] => Raise (CapabilityRejectionError ("cell " +:+ item_id item +:+ " has no ready capability/topology placement"))
    | gangs => Ok gangs
    end
  end.

Definition select_gang (st : PlacementState) (item : PoolWorkItem) (gangs : list (list string))
    : result (list string) :=
  slot <-! calibration_concurrent_slot item ;;
  match slot with
  | Some slot =>
    raise_if (zlength gangs <? 2)
      (CapabilityRejectionError "two-way calibration has fewer than two compatible GPUs") ;;
    let ordered := sorted_by (λ g, map device_order g) gangs in
    match ordered !! Z.to_nat ((block (identity (cell item)) + slot) mod zlength ordered) with
    | Some gang => Ok gang
    | None => Raise (IndexError (block (identity (cell item)) + slot))
    end
  | None =>
    match min_by (gang_load_key st (rotation_of item)) gangs with
    | Some gang => Ok gang
    | None => Raise (ValueError "min() iterable argument is empty")
    end
  end.

Definition place_item (st : PlacementState) (item : PoolWorkItem)
    : result (GpuAssignment * PlacementState) :=
  gangs <-! allowed_gangs st item ;;
  selected <-! select_gang st item gangs ;;
  let c := claim item in
  let affinity := match affinity_key item with
    | Some k => match affinity_assignments st !! k with
                | Some _ => affinity_assignments st
                | None => <[k := selected]> (affinity_assignments st) end
    | None => affinity_assignments st end in
  let loads := foldl (λ m u, <[u := fadd (default fzero (m !! u)) (estimated_duration_seconds c)]> m)
                 (device_load_seconds st) selected in
  let groups := map (replica_group (tensor_parallel_size (gang_shape c)) selected)
                  (seqZ 0 (data_parallel_size (gang_shape c))) in
  a <-! new_GpuAssignment {| work_item := item; gpu_uuids := selected; rank_groups := groups;
                             ports := placeholder_ports c |} ;;
  Ok (a, {| affinity_assignments := affinity; device_load_seconds := loads |}).

Fixpoint place_items (st : PlacementState) (items : list PoolWorkItem)
    : result (list GpuAssignment) :=
  match items with
  | [] => Ok []
  | item :: items =>
    r <-! place_item st item ;;
    rest <-! place_items r.2 items ;;
    Ok (r.1 :: rest)
  end.

(** ** Wave packing: first wave that can take the placement, else a new one *)
Fixpoint add_to_waves (placement : GpuAssignment) (ws : list (list GpuAssignment))
    : result (option (list (list GpuAssignment))) :=
  match ws with
  | [] => Ok None
  | w :: ws =>
    candidate <-! bind_wave_ports [] (w ++ [placement]) ;;
    fits <-! match candidate with Some c => wave_compatible c | None => Ok false end ;;
    match candidate with
    | Some c => if fits : bool then Ok (Some (c :: ws))
                else rest <-! add_to_waves placement ws ;; Ok (cons w <$> rest)
    | None => rest <-! add_to_waves placement ws ;; Ok (cons w <$> rest)
    end
  end.

Definition pack_one (placement : GpuAssignment) (ws : list (list GpuAssignment))
    : result (list (list GpuAssignment)) :=
  placed <-! add_to_waves placement ws ;;
  match placed with
  | Some ws => Ok ws
  | None =>
    bound <-! bind_wave_ports [] [placement] ;;
    match bound with
    | None => Raise (CapabilityRejectionError "scheduler port range cannot satisfy one atomic assignment")
    | Some w =>
      fits <-! wave_compatible w ;;
      raise_if (negb fits)
        (CapabilityRejectionError "single assignment violates its resource declaration") ;;
      Ok (ws ++ [w])
    end
  end.

Fixpoint pack_waves (placements : list GpuAssignment) (ws : list (list GpuAssignment))
    : result (list (list GpuAssignment)) :=
  match placements with
  | [] => Ok ws
  | p :: placements => ws <-! pack_one p ws ;; pack_waves placements ws
  end.

Definition initial_placement : PlacementState := {|
  affinity_assignments := ∅;
  device_load_seconds := list_to_map (map (λ u, (u, fzero)) (device_uuids (inventory s))) |}.

Fixpoint freeze_waves (index : Z) (ws : list (list GpuAssignment)) : result (list GpuDispatchWave) :=
  match ws with
  | [] => Ok []
  | w :: ws =>
    fw <-! new_GpuDispatchWave {| wave_index := index; assignments := w;
             dw_interference_envelope_sha256 := envelope_sha256 (interference_envelope s) |} ;;
    rest <-! freeze_waves (index + 1) ws ;;
    Ok (fw :: rest)
  end.

(** ** Admission of the work items *)
Context `{ReleaseGate}.

Definition dispatchable (c : ExperimentCell) (reducer_authorized : bool) : bool :=
  if reducer_authorized then bool_decide (release_execution_capability_rejection_reason c = None)
  else bool_decide (release_dispatch_rejection_reason c = None).

Definition registered (item : PoolWorkItem) : option ExperimentCell :=
  snd <$> list_find (λ c, cell_id c = item_id item) (reverse (cells (registry s))).

(** The loop that compares every item with its registered cell. *)
Definition check_item (item : PoolWorkItem) : result unit :=
  match registered item with
  | None => Raise (KeyError (item_id item))
  | Some r =>
    raise_if (negb (bool_decide (cell_sha256 (cell item) = cell_sha256 r)))
      (ValueError "work item changes its registered cell declaration") ;;
    let c := claim item in
    shape <-! registry_gang_shape r ;;
    raise_if (negb (bool_decide (gang_shape c = shape))
              || negb (port_count c =? zlength (rc_ports (resources r)))
              || negb (bool_decide (cache_root c = rc_cache_root (resources r)))
              || negb (bool_decide (evidence_root c = rc_evidence_root (resources r)))
              || negb (bool_decide (workload_class c = rc_workload_class (resources r))))
      (ValueError "pool claim changes a registered resource invariant") ;;
    canonical <-! registry_pool_work_item r (estimated_duration_seconds c) ;;
    let k := claim canonical in
    raise_if (negb (Bool.eqb (exclusive_gpu c) (exclusive_gpu k))
              || negb (Bool.eqb (exclusive_host c) (exclusive_host k))
              || negb (cpu_cores c =? cpu_cores k)
              || negb (bool_decide (numa_nodes c = numa_nodes k))
              || negb (ram_bytes c =? ram_bytes k)
              || negb (bool_decide (disk_io_class c = disk_io_class k))
              || negb (bool_decide (network_class c = network_class k))
              || negb (bool_decide (interference_class c = interference_class k))
              || negb (bool_decide (load_thermal_power_envelope c = load_thermal_power_envelope k)))
      (ValueError "pool claim changes its registered isolation class") ;;
    Ok tt
  end.

Fixpoint check_items (items : list PoolWorkItem) : result unit :=
  match items with
  | [] => Ok tt
  | item :: items => _ <-! check_item item ;; check_items items
  end.

Definition dispatch_order (items : list PoolWorkItem) : list PoolWorkItem :=
  sorted_by (dispatch_order_key (sc_seed s)) items.

(** [_schedule_work_items].  [budgets] are the items of the budget mapping. *)
Definition schedule_work_items_authorized (items : list PoolWorkItem) (receipts : string)
    (completed : list string) (budgets : list (string * string))
    (reducer_authorized_cell_ids : list string) : result GpuDispatchPlan :=
  _ <-! require_sha256 "receipts_sha256" receipts ;;
  let ids := map item_id items in
  raise_if (negb (unique_text ids))
    (ValueError "work items contain duplicate cell identities") ;;
  raise_if (match budgets with [] => false | _ => negb (same_text_set (map fst budgets) ids) end)
    (ValueError "dispatch budget bindings must cover every work item exactly") ;;
  _ <-! require_all_sha256 (concat (map (λ b : string * string,
          [("dispatch budget cell ID", fst b); ("dispatch ExperimentBudget SHA-256", snd b)])
          budgets)) ;;
  raise_if (negb (forallb (λ x, bool_decide (x ∈ ids)) reducer_authorized_cell_ids))
    (ValueError "reducer-authorized cells differ from the work-item set") ;;
  raise_if (existsb (λ item, negb (dispatchable (cell item)
              (bool_decide (item_id item ∈ reducer_authorized_cell_ids)))) items)
    (ValueError "work items contain a blocked or non-executable method/capability") ;;
  let registry_ids := map cell_id (cells (registry s)) in
  raise_if (existsb (λ x, negb (bool_decide (x ∈ registry_ids))) ids)
    (ValueError "work item is not bound to this registry") ;;
  raise_if (negb (unique_text completed))
    (ValueError "completed cell identities must be unique") ;;
  raise_if (negb (forallb (is_hash 64) completed))
    (ValueError "completed cell identities must be lower-case SHA-256") ;;
  raise_if (existsb (λ x, negb (bool_decide (x ∈ registry_ids))) completed)
    (ValueError "completed cells include an identity outside the registry") ;;
  raise_if (overlap completed ids)
    (ValueError "completed cells cannot remain in the work-item set") ;;
  _ <-! check_items items ;;
  placements <-! place_items initial_placement (dispatch_order items) ;;
  packed <-! pack_waves placements [] ;;
  frozen <-! freeze_waves 0 packed ;;
  new_GpuDispatchPlan {|
    dp_schema_version := 1; registry_sha256 := er_sha256 (registry s);
    inventory_sha256 := inventory_digest (inventory s); receipts_sha256 := receipts;
    dp_interference_envelope_sha256 := envelope_sha256 (interference_envelope s);
    budget_sha256_by_cell := sorted_by (λ b : string * string, b) budgets;
    dp_seed := sc_seed s; waves := frozen;
    completed_cell_ids := sorted_by (λ x : string, x) completed |}.

(** [schedule_work_items]: no reducer authority. *)
Definition schedule_work_items (items : list PoolWorkItem) (receipts : string)
    (completed : list string) (budgets : list (string * string)) : result GpuDispatchPlan :=
  schedule_work_items_authorized items receipts completed budgets [].
End scheduler.
