(* ===== verification/PoolSafety.v ===== *)
(** * Safety of the dispatch plan

    What a plan returned by the scheduler guarantees: every work item is placed
    exactly once on an acceptable gang, waves are isolated, ports are in range,
    affinity groups share a placement, and the plan does not depend on the order
    in which the work items are given. *)
From S2P Require Import Prelude PyFloat FloatRepr Hashlib Registry GpuPool Scheduler.

(** ** Isolation of a wave *)
Lemma overlap_false {A} `{EqDecision A} (l1 l2 : list A) :
  overlap l1 l2 = false ↔ ∀ x, x ∈ l1 → x ∉ l2.
Proof.
  unfold overlap. rewrite <- not_true_iff_false, existsb_exists. split.
  - intros Hn x H1 H2. apply Hn. exists x. split; [by apply list_elem_of_In|].
    by apply bool_decide_eq_true_2.
  - intros H (x & H1%list_elem_of_In & H2%bool_decide_eq_true_1). by apply (H x).
Qed.

(** A resource that the wave loop tracks: what an assignment takes of it, and
    the list that records what is taken. *)
Record tracked {A : Type} (take_of : GpuAssignment → list A) (used_of : WaveUse → list A) : Prop := {
  tracked_add : (∀ u a, used_of (add_use u a) = (take_of a ++ used_of u)%list);
  tracked_ok : (∀ u a, use_conflict u a = None → (∀ x, x ∈ used_of u → x ∉ take_of a));
}.

Lemma use_conflict_None u a :
  use_conflict u a = None →
  overlap (used_gpus u) (gpu_uuids a) = false ∧ overlap (used_ports u) (ports a) = false ∧
  (cache_root (claim (work_item a)) ∉ caches u) ∧ (evidence_root (claim (work_item a)) ∉ evidence u) ∧
  ∀ k, serial_group_key (work_item a) = Some k → k ∉ serial_groups u.
Proof.
  unfold use_conflict. destruct (overlap (used_gpus u) _); [done|].
  destruct (overlap (used_ports u) _); [done|]. case_bool_decide; [done|].
  case_bool_decide; [done|]. destruct (serial_group_key (work_item a)) as [k|].
  - case_bool_decide; [done|]. intros _. split_and!; try done. by intros ? [= <-].
  - done.
Qed.

Definition serial_key_of (a : GpuAssignment) : list string :=
  match serial_group_key (work_item a) with Some k => [k] | None => [] end.

Lemma tracked_gpus : tracked gpu_uuids used_gpus.
Proof. split; [done|]. intros u a (H & _)%use_conflict_None. by apply overlap_false. Qed.
Lemma tracked_ports : tracked ports used_ports.
Proof. split; [done|]. intros u a (_ & H & _)%use_conflict_None. by apply overlap_false. Qed.
Lemma tracked_caches : tracked (λ a, [cache_root (claim (work_item a))]) caches.
Proof.
  split; [done|]. intros u a (_ & _ & H & _)%use_conflict_None x Hx.
  by intros ->%list_elem_of_singleton.
Qed.
Lemma tracked_evidence : tracked (λ a, [evidence_root (claim (work_item a))]) evidence.
Proof.
  split; [done|]. intros u a (_ & _ & _ & H & _)%use_conflict_None x Hx.
  by intros ->%list_elem_of_singleton.
Qed.
Lemma tracked_serial : tracked serial_key_of serial_groups.
Proof.
  split.
  - intros u a. unfold serial_key_of. cbn. by destruct (serial_group_key (work_item a)).
  - intros u a (_ & _ & _ & _ & H)%use_conflict_None x Hx. unfold serial_key_of.
    destruct (serial_group_key (work_item a)) as [k|]; [|by apply not_elem_of_nil].
    intros ->%list_elem_of_singleton. by apply (H k).
Qed.

Lemma tracked_NoDup {A} (take_of : GpuAssignment → list A) used_of u l :
  tracked take_of used_of → first_conflict u l = None →
  (∀ a, a ∈ l → NoDup (take_of a)) → NoDup (used_of u) →
  NoDup (concat (map take_of l) ++ used_of u).
Proof.
  intros Ht. revert u. induction l as [|a l IH]; intros u Hc Hnd Hu; [done|].
  cbn in Hc. destruct (use_conflict u a) eqn:Ea; [done|].
  cbn [map concat]. rewrite <- app_assoc, (Permutation_app_swap_app (take_of a)).
  rewrite <- (tracked_add _ _ Ht). apply IH; [done| |].
  - intros a' Ha'. apply Hnd. by right.
  - rewrite (tracked_add _ _ Ht). apply NoDup_app. split; [apply Hnd; by left|].
    split; [|done]. intros x Hx Hx'. by eapply (tracked_ok _ _ Ht).
Qed.

(** No two assignments of the wave share a GPU, a port, a cache root, an evidence
    root or a serial scientific group. *)
Definition isolated (l : list GpuAssignment) : Prop :=
  NoDup (concat (map gpu_uuids l)) ∧ NoDup (concat (map ports l)) ∧
  NoDup (map (λ a, cache_root (claim (work_item a))) l) ∧
  NoDup (map (λ a, evidence_root (claim (work_item a))) l) ∧
  NoDup (concat (map serial_key_of l)).

Lemma concat_singletons {A B} (f : A → B) l : concat (map (λ a, [f a]) l) = map f l.
Proof. induction l as [|x l IH]; cbn; [done|]. by rewrite IH. Qed.

Lemma new_GpuAssignment_Ok a a' :
  new_GpuAssignment a = Ok a' →
  a' = a ∧ NoDup (gpu_uuids a) ∧ NoDup (ports a) ∧ concat (rank_groups a) = gpu_uuids a ∧
  zlength (gpu_uuids a) = gpu_count (gang_shape (claim (work_item a))) ∧
  zlength (ports a) = port_count (claim (work_item a)).
Proof.
  unfold new_GpuAssignment. intros H. repeat step_ok H. injection H as <-.
  unfold unique_text in *. bools. done.
Qed.

Lemma first_conflict_isolated l :
  first_conflict no_use l = None → (∀ a, a ∈ l → new_GpuAssignment a = Ok a) → isolated l.
Proof.
  intros Hc Hok.
  assert (Hone : ∀ {A} (t : GpuAssignment → list A) u, tracked t u → u no_use = [] →
            (∀ a, a ∈ l → NoDup (t a)) → NoDup (concat (map t l))).
  { intros A t u Ht Hu Hnd. rewrite <- (app_nil_r (concat _)), <- Hu.
    apply tracked_NoDup; [done..|]. rewrite Hu. by apply NoDup_nil_2. }
  unfold isolated. split_and!.
  - apply (Hone _ _ used_gpus tracked_gpus eq_refl).
    intros a Ha. by destruct (new_GpuAssignment_Ok a a (Hok a Ha)) as (_ & ? & ? & _).
  - apply (Hone _ _ used_ports tracked_ports eq_refl).
    intros a Ha. by destruct (new_GpuAssignment_Ok a a (Hok a Ha)) as (_ & ? & ? & _).
  - rewrite <- concat_singletons. apply (Hone _ _ caches tracked_caches eq_refl). intros; apply NoDup_singleton.
  - rewrite <- concat_singletons. apply (Hone _ _ evidence tracked_evidence eq_refl). intros; apply NoDup_singleton.
  - apply (Hone _ _ serial_groups tracked_serial eq_refl). intros a _. unfold serial_key_of.
    destruct (serial_group_key _); [apply NoDup_singleton|apply NoDup_nil_2; done].
Qed.

Section safety.
Context (s : GpuPoolScheduler).

(** ** Port binding *)
Definition in_range (p : Z) : Prop := port_start s ≤ p ≤ port_end s.

Lemma bind_ports_Some used c ps :
  bind_ports s used c = Some ps → (∀ p, p ∈ ps → in_range p ∧ p ∉ used).
Proof.
  unfold bind_ports, in_range. destruct (exact_ports c) as [|p0 exact].
  - destruct (_ =? _); [|done]. intros [= <-] p (i & Hi & _)%elem_of_take.
    apply list_elem_of_lookup_2, list_elem_of_filter in Hi as [Hu Hr%elem_of_seqZ].
    split; [lia|done].
  - destruct (overlap _ _) eqn:E1; [done|]. cbn [orb].
    destruct (existsb _ _) eqn:E2; [done|]. intros [= <-] p Hp. split.
    + apply not_true_iff_false in E2. split; apply Z.nlt_ge; intros Hlt;
        apply E2, existsb_exists; exists p; (split; [by apply list_elem_of_In|lia]).
    + intros Hu. by eapply overlap_false.
Qed.

(** What port binding keeps of an assignment. *)
Definition placement_of (a : GpuAssignment) : PoolWorkItem * list string :=
  (work_item a, gpu_uuids a).

Lemma bind_wave_ports_Some used l l' :
  bind_wave_ports s used l = Ok (Some l') →
  map placement_of l' = map placement_of l ∧
  ∀ a, a ∈ l' → new_GpuAssignment a = Ok a ∧ ∀ p, p ∈ ports a → in_range p.
Proof.
  revert used l'. induction l as [|a l IH]; cbn; intros used l' H.
  { injection H as <-. split; [done|]. by intros a ?%elem_of_nil. }
  destruct (bind_ports s used _) as [ps|] eqn:Eb; [|done].
  destruct (new_GpuAssignment _) as [a'|] eqn:Ea; [|done].
  destruct (bind_wave_ports s _ l) as [[rest|]|] eqn:Er; [|done..].
  injection H as <-. destruct (IH _ _ Er) as [Hm Hall].
  destruct (new_GpuAssignment_Ok _ _ Ea) as (-> & _).
  split; [cbn; by rewrite Hm|]. intros b [->|Hb]%elem_of_cons; [|by apply Hall].
  split; [done|]. intros p Hp. by apply (bind_ports_Some _ _ _ Eb).
Qed.

(** ** Packing *)
Record wave_ok (l : list GpuAssignment) : Prop := {
  wk_conflict : first_conflict no_use l = None;
  wk_permits : permits l (inventory s) (interference_envelope s) = Ok true;
  wk_valid : ∀ a, a ∈ l → new_GpuAssignment a = Ok a;
  wk_ports : ∀ a p, a ∈ l → p ∈ ports a → in_range p;
}.

Lemma bound_compatible_ok used l l' :
  bind_wave_ports s used l = Ok (Some l') → wave_compatible s l' = Ok true → wave_ok l'.
Proof.
  intros [_ H]%bind_wave_ports_Some. unfold wave_compatible.
  destruct (first_conflict no_use l') eqn:E; [done|]. intros Hp.
  split; [done|done|intros a Ha; by destruct (H a Ha)|].
  intros a p Ha. destruct (H a Ha) as [_ Hr]. apply Hr.
Qed.

Lemma add_to_waves_Some p ws ws' :
  add_to_waves s p ws = Ok (Some ws') → Forall wave_ok ws →
  Forall wave_ok ws' ∧
  concat (map (map placement_of) ws') ≡ₚ placement_of p :: concat (map (map placement_of) ws).
Proof.
  revert ws'. induction ws as [|w ws IH]; cbn; intros ws' H Hok; [done|].
  apply Forall_cons in Hok as [Hw Hws].
  assert (Hrest : (match add_to_waves s p ws with
            | Ok rest => Ok (cons w <$> rest) | Raise e => Raise e end) = Ok (Some ws') →
    Forall wave_ok ws' ∧ concat (map (map placement_of) ws')
      ≡ₚ placement_of p :: map placement_of w ++ concat (map (map placement_of) ws)).
  { destruct (add_to_waves s p ws) as [[rest|]|]; [|done..]. intros [= <-].
    destruct (IH rest eq_refl Hws) as [H1 H2]. split; [by constructor|]. cbn. rewrite H2.
    by rewrite Permutation_middle. }
  destruct (bind_wave_ports s [] (w ++ [p])) as [[c|]|] eqn:Eb; [| |done].
  - destruct (wave_compatible s c) as [[]|] eqn:Ec; [| |done].
    + injection H as <-. split; [constructor; [by eapply bound_compatible_ok|done]|].
      apply bind_wave_ports_Some in Eb as [Hm _]. cbn. rewrite Hm, map_app. cbn.
      rewrite <- app_assoc. cbn. by rewrite <- Permutation_middle.
    + by apply Hrest.
  - by apply Hrest.
Qed.

Lemma pack_one_Ok p ws ws' :
  pack_one s p ws = Ok ws' → Forall wave_ok ws →
  Forall wave_ok ws' ∧
  concat (map (map placement_of) ws') ≡ₚ placement_of p :: concat (map (map placement_of) ws).
Proof.
  unfold pack_one. intros H Hok.
  destruct (add_to_waves s p ws) as [[ws1|]|] eqn:Ea; [| |done].
  - injection H as <-. by apply add_to_waves_Some.
  - destruct (bind_wave_ports s [] [p]) as [[w|]|] eqn:Eb; [|done..].
    destruct (wave_compatible s w) as [[]|] eqn:Ec; [|done..]. injection H as <-. split.
    + apply Forall_app. split; [done|]. constructor; [by eapply bound_compatible_ok|done].
    + apply bind_wave_ports_Some in Eb as [Hm _].
      rewrite map_app, concat_app. cbn. rewrite Hm, app_nil_r. cbn.
      by rewrite <- Permutation_cons_append.
Qed.

Lemma pack_waves_Ok ps ws ws' :
  pack_waves s ps ws = Ok ws' → Forall wave_ok ws →
  Forall wave_ok ws' ∧
  concat (map (map placement_of) ws')
    ≡ₚ map placement_of ps ++ concat (map (map placement_of) ws).
Proof.
  revert ws. induction ps as [|p ps IH]; cbn; intros ws H Hok; [by simplify_eq|].
  destruct (pack_one s p ws) as [ws1|] eqn:E; [|done].
  destruct (pack_one_Ok _ _ _ E Hok) as [H1 H2].
  destruct (IH _ H H1) as [H3 H4]. split; [done|]. rewrite H4, H2.
  by rewrite <- Permutation_middle.
Qed.

Lemma freeze_waves_Ok i ws fs :
  freeze_waves s i ws = Ok fs →
  map assignments fs = ws ∧ ∀ w, w ∈ fs → new_GpuDispatchWave w = Ok w.
Proof.
  revert i fs. induction ws as [|w ws IH]; cbn; intros i fs H.
  { injection H as <-. split; [done|]. by intros ? ?%elem_of_nil. }
  destruct (new_GpuDispatchWave _) as [fw|] eqn:Ew; [|done].
  destruct (freeze_waves s _ ws) as [rest|] eqn:Er; [|done]. injection H as <-.
  destruct (IH _ _ Er) as [H1 H2].
  assert (Hfw : fw = {| wave_index := i; assignments := w; dw_interference_envelope_sha256 :=
      envelope_sha256 (interference_envelope s) |}).
  { unfold new_GpuDispatchWave in Ew. repeat step_ok Ew.
    destruct (first_conflict _ _); [done|]. by repeat step_ok Ew; simplify_eq. }
  subst fw. split; [cbn; by rewrite H1|].
  intros x [->|Hx]%elem_of_cons; [done|by apply H2].
Qed.

(** ** Placement *)
Lemma allowed_gangs_Ok st item gangs :
  allowed_gangs s st item = Ok gangs →
  (∀ g, g ∈ gangs → g ∈ candidate_gangs s item) ∧
  ∀ k bound, affinity_key item = Some k → affinity_assignments st !! k = Some bound →
    ∀ g, g ∈ gangs → g = bound.
Proof.
  unfold allowed_gangs. destruct (affinity_key item ≫= _) as [bound|] eqn:E.
  - destruct (filter _ _) as [|g0 gs] eqn:Ef; [done|]. intros [= <-].
    assert (Hin : ∀ g, g ∈ g0 :: gs → g = bound ∧ g ∈ candidate_gangs s item).
    { intros g Hg. rewrite <- Ef in Hg. by apply list_elem_of_filter in Hg. }
    split; [intros g Hg; by apply Hin|].
    intros k b Hk Hb g Hg. rewrite Hk in E. cbn in E. destruct (Hin g Hg) as [-> _]. congruence.
  - destruct (candidate_gangs s item) as [|g0 gs]; [done|]. intros [= <-]. split; [done|].
    intros k b Hk Hb. rewrite Hk in E. cbn in E. congruence.
Qed.

Lemma select_gang_in st item gangs g : select_gang s st item gangs = Ok g → g ∈ gangs.
Proof.
  unfold select_gang. destruct (calibration_concurrent_slot item) as [[slot|]|]; [| |done].
  - destruct (_ <? 2); [done|].
    destruct (sorted_by _ gangs !! _) as [g'|] eqn:E; [|done]. intros [= <-].
    apply list_elem_of_lookup_2 in E. by apply elem_of_sorted_by in E.
  - destruct (min_by _ gangs) as [g'|] eqn:E; [|done]. intros [= <-].
    by apply min_by_Some in E as [? _].
Qed.

(** Affinity: placed assignments with a key sit where the map says. *)
Definition affinity_inv (st : PlacementState) (placed : list GpuAssignment) : Prop :=
  ∀ a k, a ∈ placed → affinity_key (work_item a) = Some k →
    affinity_assignments st !! k = Some (gpu_uuids a).

Lemma place_item_Ok st item a st' placed :
  place_item s st item = Ok (a, st') → affinity_inv st placed →
  work_item a = item ∧ new_GpuAssignment a = Ok a ∧
  gpu_uuids a ∈ candidate_gangs s item ∧ affinity_inv st' (a :: placed).
Proof.
  unfold place_item. intros H Hinv. repeat step_ok H. injection H as -> <-.
  destruct (new_GpuAssignment_Ok _ _ E1) as (-> & _). cbn.
  destruct (allowed_gangs_Ok _ _ _ E) as [Hc Hb]. apply select_gang_in in E0.
  split; [done|]. split; [done|]. split; [by apply Hc|].
  intros b k Hin Hk. cbn. apply elem_of_cons in Hin as [->|Hin].
  - cbn in *. rewrite Hk. destruct (affinity_assignments st !! k) as [bound|] eqn:Ek.
    + rewrite (Hb k bound Hk Ek _ E0) in *. done.
    + apply lookup_insert_eq.
  - pose proof (Hinv b k Hin Hk) as Hbk. destruct (affinity_key item) as [k'|]; [|done].
    destruct (affinity_assignments st !! k') as [bound|] eqn:Ek; [done|].
    rewrite lookup_insert_ne; [done|]. congruence.
Qed.

Lemma place_items_Ok st items placements placed :
  place_items s st items = Ok placements → affinity_inv st placed →
  map work_item placements = items ∧
  (∀ a, a ∈ placements → gpu_uuids a ∈ candidate_gangs s (work_item a)) ∧
  ∃ st', affinity_inv st' (reverse placements ++ placed).
Proof.
  revert st placements placed. induction items as [|item items IH]; cbn;
    intros st placements placed H Hinv.
  { injection H as <-. split; [done|]. split; [by intros a ?%elem_of_nil|]. by exists st. }
  destruct (place_item s st item) as [[a st1]|] eqn:E; [|done].
  destruct (place_items s _ items) as [rest|] eqn:Er; [|done]. injection H as <-.
  destruct (place_item_Ok _ _ _ _ _ E Hinv) as (H1 & _ & H2 & H3).
  destruct (IH _ _ _ Er H3) as (H4 & H5 & st' & H6). cbn [fst snd map] in *.
  split; [by rewrite H1, H4|]. split.
  - intros b [->|Hb]%elem_of_cons; [by rewrite H1|by apply H5].
  - exists st'. by rewrite reverse_cons, <- app_assoc.
Qed.
End safety.

(** ** The returned plan *)
Lemma new_GpuDispatchPlan_Ok p p' : new_GpuDispatchPlan p = Ok p' → p' = p.
Proof. unfold new_GpuDispatchPlan. intros H. repeat step_ok H. by injection H as <-. Qed.

Lemma concat_map_map {A B} (f : A → B) (ls : list (list A)) :
  concat (map (map f) ls) = map f (concat ls).
Proof. by rewrite concat_map. Qed.

Lemma schedule_cases `{ReleaseGate} s items receipts completed budgets auth plan :
  schedule_work_items_authorized s items receipts completed budgets auth = Ok plan →
  NoDup (map item_id items) ∧
  ∃ placements,
    place_items s (initial_placement s) (dispatch_order s items) = Ok placements ∧
    map placement_of (plan_assignments plan) ≡ₚ map placement_of placements ∧
    (∀ w, w ∈ waves plan → wave_ok s (assignments w) ∧ new_GpuDispatchWave w = Ok w).
Proof.
  unfold schedule_work_items_authorized. intros Hp. repeat step_ok Hp.
  apply new_GpuDispatchPlan_Ok in Hp as ->. unfold unique_text in *. bools. split; [done|].
  match goal with
  | Hf : freeze_waves _ _ ?ws = Ok ?fs, Hk : pack_waves _ ?ps [] = Ok ?ws |- _ =>
    exists ps; destruct (freeze_waves_Ok _ _ _ _ Hf) as [Hm Hw];
    destruct (pack_waves_Ok _ _ _ _ Hk) as [Hok Hperm]; [constructor|]
  end.
  split; [done|]. unfold plan_assignments. cbn [waves]. split.
  - rewrite Hm, <- concat_map_map, Hperm. cbn. by rewrite app_nil_r.
  - intros w Hin. split; [|by apply Hw]. rewrite Forall_forall in Hok. apply Hok.
    rewrite <- Hm. by apply list_elem_of_fmap_2.
Qed.

Lemma affinity_initial s : affinity_inv (initial_placement s) [].
Proof. by intros a k ?%elem_of_nil. Qed.

Lemma plan_placements_in plan placements a :
  map placement_of (plan_assignments plan) ≡ₚ map placement_of placements →
  a ∈ plan_assignments plan →
  ∃ b, b ∈ placements ∧ work_item b = work_item a ∧ gpu_uuids b = gpu_uuids a.
Proof.
  intros Hp Ha. assert (Hin : placement_of a ∈ map placement_of placements).
  { rewrite <- Hp. by apply list_elem_of_fmap_2. }
  apply list_elem_of_fmap in Hin as (b & Heq & Hb). exists b.
  unfold placement_of in Heq. by simplify_eq.
Qed.

(** What a returned plan guarantees. *)
Lemma schedule_facts `{ReleaseGate} s items receipts completed budgets auth plan :
  schedule_work_items_authorized s items receipts completed budgets auth = Ok plan →
  map work_item (plan_assignments plan) ≡ₚ items ∧ NoDup (plan_cell_ids plan) ∧
  (∀ a, a ∈ plan_assignments plan → gpu_uuids a ∈ candidate_gangs s (work_item a)) ∧
  (∀ w, w ∈ waves plan →
     isolated (assignments w) ∧
     (∀ a p, a ∈ assignments w → p ∈ ports a → port_start s ≤ p ≤ port_end s) ∧
     (1 < zlength (assignments w) →
        ∀ a, a ∈ assignments w → exclusive_host (claim (work_item a)) = false) ∧
     permits (assignments w) (inventory s) (interference_envelope s) = Ok true).
Proof.
  intros (Hnd & placements & Hpl & Hperm & Hw)%schedule_cases.
  destruct (place_items_Ok _ _ _ _ [] Hpl (affinity_initial s)) as (Hitems & Hcand & _).
  assert (Hall : map work_item (plan_assignments plan) ≡ₚ items).
  { rewrite <- (sorted_by_Permutation (dispatch_order_key (sc_seed s)) items).
    fold (dispatch_order s items). rewrite <- Hitems.
    apply (Permutation_map fst) in Hperm. by rewrite !map_map in Hperm. }
  split; [done|]. split.
  { unfold plan_cell_ids. rewrite <- (map_map work_item item_id), Hall. done. }
  split.
  - intros a Ha. destruct (plan_placements_in _ _ _ Hperm Ha) as (b & Hb & <- & <-).
    by apply Hcand.
  - intros w Hin. destruct (Hw w Hin) as [[H1 H2 H3 H4] Hnew].
    split; [by apply first_conflict_isolated|]. split; [exact H4|]. split; [|done].
    intros Hlen a Ha. unfold new_GpuDispatchWave in Hnew. repeat step_ok Hnew.
    rewrite H1 in Hnew. step_ok Hnew. apply not_true_is_false. intros He.
    apply andb_false_iff in E3 as [E3|E3]; [lia|]. apply not_true_iff_false in E3.
    apply E3, existsb_exists. exists a. split; [by apply list_elem_of_In|done].
Qed.

(** C1. Every plan the scheduler returns is safe.  Each work item is placed
    exactly once, on a gang that is acceptable for it.  In every wave no two
    assignments share a GPU, a port, a cache root, an evidence root or a serial
    scientific group; all ports lie in the scheduler's range; exclusive-host
    work runs alone; and a wave with several assignments is permitted by the
    interference envelope. *)
Theorem schedule_safe `{ReleaseGate} s items receipts completed budgets auth plan :
  schedule_work_items_authorized s items receipts completed budgets auth = Ok plan →
  map work_item (plan_assignments plan) ≡ₚ items ∧ NoDup (plan_cell_ids plan) ∧
  (∀ a, a ∈ plan_assignments plan → gpu_uuids a ∈ candidate_gangs s (work_item a)) ∧
  (∀ w, w ∈ waves plan →
     isolated (assignments w) ∧
     (∀ a p, a ∈ assignments w → p ∈ ports a → port_start s ≤ p ≤ port_end s) ∧
     (1 < zlength (assignments w) →
        ∀ a, a ∈ assignments w → exclusive_host (claim (work_item a)) = false) ∧
     permits (assignments w) (inventory s) (interference_envelope s) = Ok true).
Proof. apply schedule_facts. Qed.

(** C31. Matched comparisons stay on the same hardware: all work items with one
    affinity key (the methods of a paired group) run on the same gang, in the
    same rank order, whatever the load of the devices. *)
Theorem affinity_shares_gang `{ReleaseGate} s items receipts completed budgets auth plan a b k :
  schedule_work_items_authorized s items receipts completed budgets auth = Ok plan →
  a ∈ plan_assignments plan → b ∈ plan_assignments plan →
  affinity_key (work_item a) = Some k → affinity_key (work_item b) = Some k →
  gpu_uuids a = gpu_uuids b.
Proof.
  intros (_ & placements & Hpl & Hperm & _)%schedule_cases Ha Hb Ka Kb.
  destruct (place_items_Ok _ _ _ _ [] Hpl (affinity_initial s)) as (_ & _ & st & Hinv).
  rewrite app_nil_r in Hinv.
  destruct (plan_placements_in _ _ _ Hperm Ha) as (a' & Ha' & Ha1 & <-).
  destruct (plan_placements_in _ _ _ Hperm Hb) as (b' & Hb' & Hb1 & <-).
  assert (affinity_assignments st !! k = Some (gpu_uuids a')) as H1.
  { apply Hinv; [by apply elem_of_reverse|]. by rewrite Ha1. }
  assert (affinity_assignments st !! k = Some (gpu_uuids b')) as H2.
  { apply Hinv; [by apply elem_of_reverse|]. by rewrite Hb1. }
  congruence.
Qed.

(** ** Independence of the order of the work items *)
Lemma existsb_perm {A} (f : A → bool) l l' : l ≡ₚ l' → existsb f l = existsb f l'.
Proof.
  intros Hp. apply eq_true_iff_eq. rewrite !existsb_exists.
  by setoid_rewrite <- list_elem_of_In; setoid_rewrite Hp.
Qed.
Lemma forallb_perm {A} (f : A → bool) l l' : l ≡ₚ l' → forallb f l = forallb f l'.
Proof. intros Hp. apply eq_true_iff_eq. rewrite !forallb_elem_of. by setoid_rewrite Hp. Qed.

Lemma unique_text_perm l l' : l ≡ₚ l' → unique_text l = unique_text l'.
Proof. intros Hp. unfold unique_text. apply bool_decide_ext. by rewrite Hp. Qed.

Lemma same_text_set_perm l0 l l' : l ≡ₚ l' → same_text_set l0 l = same_text_set l0 l'.
Proof.
  intros Hp. unfold same_text_set. apply bool_decide_ext.
  by rewrite (list_to_set_perm_L l l' Hp).
Qed.

Lemma bool_decide_in_perm {A} `{EqDecision A} (x : A) l l' :
  l ≡ₚ l' → bool_decide (x ∈ l) = bool_decide (x ∈ l').
Proof. intros Hp. apply bool_decide_ext. by rewrite Hp. Qed.

Lemma overlap_perm {A} `{EqDecision A} (l0 l l' : list A) : l ≡ₚ l' → overlap l0 l = overlap l0 l'.
Proof.
  intros Hp. unfold overlap. induction l0 as [|x l0 IH]; [done|]. cbn.
  by rewrite IH, (bool_decide_in_perm x l l').
Qed.
Lemma subset_perm {A} `{EqDecision A} (l0 l l' : list A) :
  l ≡ₚ l' → forallb (λ x, bool_decide (x ∈ l)) l0 = forallb (λ x, bool_decide (x ∈ l')) l0.
Proof.
  intros Hp. induction l0 as [|x l0 IH]; [done|]. cbn.
  by rewrite IH, (bool_decide_in_perm x l l').
Qed.

Lemma check_items_Ok `{ReleaseGate} s items :
  check_items s items = Ok tt ↔ ∀ i, i ∈ items → check_item s i = Ok tt.
Proof.
  induction items as [|i items IH]; cbn.
  - split; [|done]. intros _ ? ?%elem_of_nil. done.
  - destruct (check_item s i) as [[]|] eqn:E.
    + rewrite IH. split; [|set_solver]. intros Hi j [->|Hj]%elem_of_cons; auto.
    + split; [done|]. intros Hi. rewrite (Hi i) in E; [done|by left].
Qed.

Lemma dispatch_order_perm s items items' :
  NoDup (map item_id items) → items ≡ₚ items' → dispatch_order s items = dispatch_order s items'.
Proof.
  intros Hnd. apply sorted_by_unique. intros x y Hx Hy Heq.
  apply pycmp_eq in Heq. unfold dispatch_order_key in Heq.
  assert (item_id x = item_id y) as Hid by congruence.
  apply list_elem_of_lookup in Hx as [i Hi], Hy as [j Hj].
  assert (i = j) as ->; [|congruence].
  eapply (NoDup_lookup (map item_id items)); [done| |]; apply list_lookup_fmap_Some; eauto.
Qed.

(** C32. The plan is a function of the set of work items: given in any other
    order, the same items yield the same plan. *)
Theorem schedule_order_irrelevant `{ReleaseGate} s items items' receipts completed budgets auth plan :
  items ≡ₚ items' →
  schedule_work_items_authorized s items receipts completed budgets auth = Ok plan →
  schedule_work_items_authorized s items' receipts completed budgets auth = Ok plan.
Proof.
  intros Hp H1. destruct (schedule_cases _ _ _ _ _ _ _ H1) as (Hnd & _).
  rewrite <- H1. unfold schedule_work_items_authorized in *.
  assert (Hids : map item_id items' ≡ₚ map item_id items) by (by rewrite Hp).
  rewrite (unique_text_perm _ _ Hids), (same_text_set_perm _ _ _ Hids), (subset_perm _ _ _ Hids).
  rewrite (existsb_perm _ _ _ Hids), (overlap_perm _ _ _ Hids).
  rewrite <- (dispatch_order_perm s items items' Hnd Hp).
  rewrite (existsb_perm _ items' items) by done.
  assert (Hcheck : check_items s items = Ok tt → check_items s items' = Ok tt).
  { rewrite !check_items_Ok. intros Hi i Hin. apply Hi. by rewrite Hp. }
  repeat step_ok H1. by rewrite Hcheck by (by destruct a1).
Qed.

(** ** Absent rules deny concurrency *)
Lemma the_only_Some {A} `{EqDecision A} (l : list A) x :
  the_only l = Some x ↔ l ≠ [] ∧ ∀ y, y ∈ l → y = x.
Proof.
  destruct l as [|z l]; cbn; [naive_solver|].
  destruct (forallb _ l) eqn:E.
  - rewrite forallb_elem_of in E. split.
    + intros [= ->]. split; [done|]. intros y [->|Hy]%elem_of_cons; [done|].
      by apply E, bool_decide_eq_true_1 in Hy.
    + intros [_ H]. f_equal. apply H. by left.
  - split; [done|]. intros [_ H]. apply not_true_iff_false in E. destruct E.
    apply forallb_elem_of. intros y Hy. apply bool_decide_eq_true_2.
    rewrite (H y) by (by right). symmetry. apply H. by left.
Qed.

(** Concurrency needs evidence.  A wave with at least two assignments is
    permitted only if the envelope holds a passing rule for exactly that
    hardware envelope, workload class, co-run class, number of jobs, gang shape,
    load envelope and contention class, shared by all assignments, and none of
    them is exclusive; hence under the empty envelope every wave of a plan has
    one assignment. *)
Theorem concurrency_needs_rule `{ReleaseGate} s items receipts completed budgets auth plan w :
  schedule_work_items_authorized s items receipts completed budgets auth = Ok plan →
  w ∈ waves plan →
  zlength (assignments w) = 1 ∨
  ∃ r, r ∈ rules (interference_envelope s) ∧ ir_status r = "PASS" ∧
    simultaneous_jobs r = zlength (assignments w) ∧
    ∀ a, a ∈ assignments w →
      let c := claim (work_item a) in
      WorkloadClass_value (workload_class c) = WorkloadClass_value (ir_workload_class r) ∧
      interference_class c = co_run_signature r ∧ signature (gang_shape c) = ir_gang_shape r ∧
      load_thermal_power_envelope c = ir_load_thermal_power_envelope r ∧
      contention_class c = ir_contention_class r ∧ exclusive_host c = false ∧
      ∀ u, u ∈ gpu_uuids a → ∃ d, device u (inventory s) = Ok d ∧
        hardware_envelope_sha256 d = ir_hardware_envelope_sha256 r.
Proof.
  intros (_ & _ & _ & _ & Hw)%schedule_cases Hin.
  destruct (Hw w Hin) as [[_ Hp _ _] Hnew].
  assert (Hne : assignments w ≠ []).
  { unfold new_GpuDispatchWave in Hnew. repeat step_ok Hnew. by destruct (assignments w). }
  unfold permits in Hp. destruct (zlength (assignments w) <=? 1) eqn:E1.
  { left. apply Z.leb_le in E1. unfold zlength in *.
    destruct (assignments w) as [|a0 [|a1 l]]; [done|done|cbn [length] in E1; lia]. }
  right. set (cls := map (λ a, claim (work_item a)) (assignments w)) in *.
  assert (Hcl : ∀ a, a ∈ assignments w → claim (work_item a) ∈ cls).
  { intros a Ha. by apply (list_elem_of_fmap_2 (λ a, claim (work_item a))). }
  destruct (the_only (map workload_class cls)) as [wc|] eqn:O1; [|done].
  destruct (existsb exclusive_host cls) eqn:Ex; [done|].
  destruct (exclusive_host_class wc); [done|]. destruct (_ && _); [done|].
  destruct (mapR _ _) as [ds|] eqn:Ed; [|done]. apply mapR_Ok in Ed.
  destruct (the_only (map interference_class cls)) as [co|] eqn:O2; [|done].
  destruct (the_only (map (λ c, signature (gang_shape c)) cls)) as [sh|] eqn:O3; [|done].
  destruct (the_only (map load_thermal_power_envelope cls)) as [ld|] eqn:O4; [|done].
  destruct (the_only (map contention_class cls)) as [ct|] eqn:O5; [|done].
  destruct (the_only (map hardware_envelope_sha256 ds)) as [hw|] eqn:O6; [|done].
  injection Hp as (r & Hr & Hk)%existsb_exists. apply andb_true_iff in Hk as [Hk Hs]. bools.
  apply the_only_Some in O1 as [_ O1], O2 as [_ O2], O3 as [_ O3], O4 as [_ O4],
    O5 as [_ O5], O6 as [_ O6].
  exists r. unfold rule_key in Hk. injection Hk as K1 K2 K3 K4 K5 K6 K7.
  split; [by apply list_elem_of_In|]. split; [done|]. split; [done|]. intros a Ha c.
  assert (Hc : c ∈ cls) by (by apply Hcl).
  rewrite K2, K3, K5, K6, K7, K1.
  split; [f_equal; apply O1; by apply list_elem_of_fmap_2|].
  split; [apply O2; by apply list_elem_of_fmap_2|].
  split; [apply O3; by apply (list_elem_of_fmap_2 (λ c, signature (gang_shape c)))|].
  split; [apply O4; by apply list_elem_of_fmap_2|].
  split; [apply O5; by apply list_elem_of_fmap_2|]. split.
  { apply not_true_is_false. intros He. apply not_true_iff_false in Ex.
    apply Ex, existsb_exists. exists c. split; [by apply list_elem_of_In|done]. }
  intros u Hu. assert (Hu' : u ∈ concat (map gpu_uuids (assignments w))).
  { apply list_elem_of_In, in_concat. exists (gpu_uuids a). split; [|by apply list_elem_of_In].
    apply in_map. by apply list_elem_of_In. }
  apply list_elem_of_lookup in Hu' as [i Hi].
  destruct (Forall2_lookup_l _ _ _ _ _ Ed Hi) as (d & Hdi & Hdev).
  exists d. split; [done|]. apply O6. apply list_elem_of_fmap_2. by eapply list_elem_of_lookup_2.
Qed.

(** ** Acceptable gangs *)
Lemma combinations_sub {A} n (l g : list A) :
  g ∈ combinations n l → length g = n ∧ sublist g l.
Proof.
  revert n g. induction l as [|x l IH]; intros [|n] g; cbn.
  - intros ->%list_elem_of_singleton. split; [done|constructor].
  - by intros ?%elem_of_nil.
  - intros ->%list_elem_of_singleton. split; [done|apply sublist_nil_l].
  - intros [(g' & -> & Hg)%list_elem_of_fmap|Hg]%elem_of_app.
    + destruct (IH _ _ Hg) as [<- ?]. split; [done|by apply sublist_skip].
    + destruct (IH _ _ Hg) as [? ?]. split; [done|by apply sublist_cons].
Qed.

Lemma distinct_one l x y : distinct l = 1 → x ∈ l → y ∈ l → x = y.
Proof.
  unfold distinct. intros H Hx Hy.
  assert (Hsz : size (list_to_set l : gset string) = 1%nat) by lia.
  apply size_1_elem_of in Hsz as [z Hz].
  assert (Hz' : ∀ w, w ∈ l → w = z).
  { intros w Hw. apply (elem_of_list_to_set (C := gset string)) in Hw.
    rewrite Hz in Hw. by apply elem_of_singleton in Hw. }
  by rewrite (Hz' x), (Hz' y).
Qed.

Lemma devices_of_spec s gang ds :
  devices_of s gang = Some ds → Forall2 (λ u d, d ∈ devices (inventory s) ∧ uuid d = u) gang ds.
Proof.
  unfold devices_of. intros H%mapM_Some. eapply Forall2_impl; [exact H|].
  intros u d Hd. apply fmap_Some in Hd as ([i d'] & Hf & ->).
  apply list_find_Some in Hf as (Hi & Hu & _). split; [by eapply list_elem_of_lookup_2|done].
Qed.

(** A candidate gang has one distinct GPU of the inventory per rank; all its
    devices are ready, meet the claim's constraint and share one host and one
    hardware envelope; and with tensor parallelism every replica lies inside one
    topology group that the claim allows. *)
Theorem candidate_gang_sound s item g :
  new_GpuInventory (inventory s) = Ok (inventory s) →
  new_PoolResourceClaim (claim item) = Ok (claim item) →
  0 ≤ gpu_count (gang_shape (claim item)) →
  g ∈ candidate_gangs s item →
  zlength g = gpu_count (gang_shape (claim item)) ∧ NoDup g ∧
  ∃ ds, Forall2 (λ u d, d ∈ devices (inventory s) ∧ uuid d = u) g ds ∧
    (∀ d, d ∈ ds → accepts (homogeneous (claim item)) d = true ∧ device_ready d = true) ∧
    (∀ d1 d2, d1 ∈ ds → d2 ∈ ds →
       host_id d1 = host_id d2 ∧ hardware_envelope_sha256 d1 = hardware_envelope_sha256 d2) ∧
    (tensor_parallel_size (gang_shape (claim item)) ≠ 1 →
     ∀ replica, 0 ≤ replica < data_parallel_size (gang_shape (claim item)) →
     ∃ grp, grp ∈ topology_groups (inventory s) ∧
       (allowed_topology_groups (claim item) = [] ∨
        group_id grp ∈ allowed_topology_groups (claim item)) ∧
       (allowed_fabrics (claim item) = [] ∨ fabric grp ∈ allowed_fabrics (claim item)) ∧
       ∀ u, u ∈ replica_group (tensor_parallel_size (gang_shape (claim item))) g replica →
         u ∈ tg_gpu_uuids grp).
Proof.
  intros Hinv Hclaim Hcount Hg. unfold candidate_gangs in Hg.
  apply elem_of_sorted_by, list_elem_of_filter in Hg as [Hacc Hraw].
  assert (Hshape : zlength g = gpu_count (gang_shape (claim item)) ∧ NoDup g).
  { unfold zlength. unfold new_PoolResourceClaim in Hclaim. step_ok Hclaim.
    destruct (exact_gpu_uuids (claim item)) as [|u0 exact] eqn:Ee.
    - apply combinations_sub in Hraw as [-> Hsub]. split; [lia|].
      eapply sublist_NoDup; [|exact Hsub]. unfold new_GpuInventory in Hinv.
      repeat step_ok Hinv. unfold unique_text, device_uuids in *. bools.
      by apply NoDup_map_filter.
    - destruct (forallb (λ u, bool_decide (u ∈ device_uuids (inventory s))) (u0 :: exact));
        [|by apply elem_of_nil in Hraw].
      apply list_elem_of_singleton in Hraw as ->. unfold unique_text in *. bools.
      destruct_and?. bools. split; [lia|done]. }
  destruct Hshape as [Hlen Hnd]. split; [done|]. split; [done|].
  unfold gang_accepted in Hacc. destruct (devices_of s g) as [ds|] eqn:Ed; [|done].
  exists ds. split; [by apply devices_of_spec|].
  apply andb_true_iff in Hacc as [Hacc Htop]. apply andb_true_iff in Hacc as [Hacc Henv].
  apply andb_true_iff in Hacc as [Hacc Hhost]. rewrite forallb_elem_of in Hacc. bools.
  split.
  { intros d Hd. split; [by apply Hacc|]. apply Hacc in Hd. unfold accepts in Hd.
    by destruct (device_ready d). }
  split.
  { intros d1 d2 H1 H2. split.
    - eapply (distinct_one _ _ _ Hhost); by apply list_elem_of_fmap_2.
    - eapply (distinct_one _ _ _ Henv); by apply list_elem_of_fmap_2. }
  intros Htp replica Hrep. unfold topology_accepts in Htop.
  destruct (tensor_parallel_size _ =? 1) eqn:E; [lia|].
  destruct (filter _ (topology_groups (inventory s))) as [|g0 gs] eqn:Ef; [done|].
  rewrite forallb_elem_of in Htop. specialize (Htop replica).
  rewrite elem_of_seqZ in Htop. specialize (Htop ltac:(lia)).
  apply existsb_exists in Htop as (grp & Hgrp & Hall). apply list_elem_of_In in Hgrp.
  rewrite <- Ef in Hgrp. apply list_elem_of_filter in Hgrp as [[Ha Hb] Hgin].
  exists grp. split; [done|]. split; [done|]. split; [done|].
  rewrite forallb_elem_of in Hall. intros u Hu. by apply Hall, bool_decide_eq_true_1 in Hu.
Qed.

(** ** A pool of one device and a matched pair of methods *)
Definition demo_receipt : string :=
  "e3b0c44298fc1c149afbf4c8996fb92427ae41e4649b934ca495991b7852b855".
Definition demo_device (u pci : string) (groups : list string) : GpuDevice := {|
  uuid := u; host_id := "h"; gd_model := "H100"; memory_bytes := 80; compute_capability := (9, 0);
  pci_bus_id := pci; pci_root := "r"; numa_node := 0; interconnects := ["nvlink"];
  peer_access_class := "p"; clock_policy := "c"; power_limit_watts := float_of_Z 700;
  thermal_limit_celsius := float_of_Z 80; availability := READY; reserved_processes := [];
  gd_allowed_topology_groups := groups |}.
Definition demo_inventory : GpuInventory := {|
  schema_version := 1; devices := [demo_device "g0" "0000:01:00.0" []];
  topology_groups := []; source_receipt_sha256 := demo_receipt |}.
Definition demo_cell (m : string) : ExperimentCell := {|
  identity := {|
    experiment := "E1"; model := "m"; backend := "DFLASH"; task := "t"; method := m;
    scope := None; ci_rank := None; alpha_over_rank := None; optimizer := None;
    learning_rate := None; schedule := None; context := None; regime := "r"; width := None;
    arrival := "a"; slo := "s"; cohort := "k"; ci_topology := "tp1_dp1"; seed := 1; block := 0;
    ci_gpu_uuids := ["slot"]; parameterization := "none"; variant := "default";
    concurrency := None; load_factor := None; cohort_count := 1 |};
  resources := {| rc_gpu_uuids := ["slot"]; rc_ports := [30000]; rc_cache_root := "c" +:+ m;
                  rc_evidence_root := "e" +:+ m; rc_workload_class := TUNING |};
  status := UNMEASURED; cell_reason_code := "ok"; cell_reason := "ok" |}.
Definition demo_scheduler : GpuPoolScheduler := {|
  registry := {| cells := [demo_cell "tts"; demo_cell "l0"]; er_sha256 := demo_receipt |};
  inventory := demo_inventory;
  interference_envelope := {| ie_schema_version := 1; rules := [];
    ie_source_receipt_sha256 := demo_receipt |};
  port_start := 24000; port_end := 24010; sc_seed := 1 |}.
#[local] Instance demo_gate : ReleaseGate :=
  {| release_execution_capability_rejection_reason := λ _, None;
     release_dispatch_rejection_reason := λ _, None |}.

Definition demo_shape : GangShape := {| tensor_parallel_size := 1; data_parallel_size := 1 |}.
(** What [registry_pool_work_item] makes of a demo cell. *)
Definition demo_item (m : string) : PoolWorkItem := {|
  cell := demo_cell m;
  claim := {|
    gang_shape := demo_shape; exact_gpu_uuids := []; homogeneous := default_constraint;
    allowed_topology_groups := []; allowed_fabrics := []; same_host := true;
    exclusive_gpu := true; exclusive_host := false; cpu_cores := 1; numa_nodes := [];
    ram_bytes := 0; disk_io_class := "registered"; network_class := "registered";
    port_count := 1; exact_ports := []; cache_root := "c" +:+ m; evidence_root := "e" +:+ m;
    workload_class := TUNING;
    interference_class := content_sha256 (JObj [("workload_class", JStr "tuning");
      ("experiment", JStr "E1"); ("gang_shape", JStr (signature demo_shape));
      ("contention_class", JStr (content_sha256 (contention_json 1 [] "registered" "registered")))]);
    load_thermal_power_envelope := "registered"; estimated_duration_seconds := float_of_Z 60;
    estimated_gpu_seconds := fmul (float_of_Z 60) (float_of_Z 1) |};
  affinity_key := Some (content_sha256 (JObj (identity_without_method_or_gpu (demo_cell m))));
  serial_group_key := None |}.
Definition demo_items : list PoolWorkItem := [demo_item "tts"; demo_item "l0"].
Definition demo_assignment (m : string) : GpuAssignment := {|
  work_item := demo_item m; gpu_uuids := ["g0"]; rank_groups := [["g0"]]; ports := [24000] |}.

Lemma demo_item_registered m :
  m = "tts" ∨ m = "l0" → registry_pool_work_item (demo_cell m) (float_of_Z 60) = Ok (demo_item m).
Proof. by intros [->| ->]; vm_compute. Qed.

Lemma demo_ids_ne : cell_id (demo_cell "tts") ≠ cell_id (demo_cell "l0").
Proof. apply (bool_decide_unpack _). by vm_compute. Qed.
Lemma demo_assignment_ids_ne :
  assignment_id (demo_assignment "tts") ≠ assignment_id (demo_assignment "l0").
Proof. apply (bool_decide_unpack _). by vm_compute. Qed.

Lemma demo_check : check_items demo_scheduler demo_items = Ok tt.
Proof.
  apply check_items_Ok. intros i Hi.
  assert (∃ m, i = demo_item m ∧ (m = "tts" ∨ m = "l0")) as (m & -> & Hm) by set_solver.
  unfold check_item.
  assert (registered demo_scheduler (demo_item m) = Some (demo_cell m)) as ->.
  { unfold registered. cbn [demo_scheduler registry cells reverse rev_append].
    unfold item_id. cbn [demo_item cell]. destruct Hm as [->| ->]; cbn [list_find].
    - rewrite decide_False by apply not_eq_sym, demo_ids_ne. by rewrite decide_True.
    - by rewrite decide_True. }
  cbn [demo_item cell]. rewrite bool_decide_eq_true_2 by done. cbn [negb].
  change (estimated_duration_seconds (claim _)) with (float_of_Z 60).
  rewrite (demo_item_registered m Hm). destruct Hm as [->| ->]; by vm_compute.
Qed.

Lemma demo_place m1 m2 :
  (m1, m2) = ("tts", "l0") ∨ (m1, m2) = ("l0", "tts") →
  place_items demo_scheduler (initial_placement demo_scheduler) [demo_item m1; demo_item m2]
    = Ok [demo_assignment m1; demo_assignment m2].
Proof. by intros [[= -> ->]|[= -> ->]]; vm_compute. Qed.

Lemma demo_pack m1 m2 :
  (m1, m2) = ("tts", "l0") ∨ (m1, m2) = ("l0", "tts") →
  pack_waves demo_scheduler [demo_assignment m1; demo_assignment m2] []
    = Ok [[demo_assignment m1]; [demo_assignment m2]].
Proof. by intros [[= -> ->]|[= -> ->]]; vm_compute. Qed.

Definition demo_wave (i : Z) (m : string) : GpuDispatchWave := {|
  wave_index := i; assignments := [demo_assignment m];
  dw_interference_envelope_sha256 := envelope_sha256 (interference_envelope demo_scheduler) |}.
Definition demo_plan (m1 m2 : string) : GpuDispatchPlan := {|
  dp_schema_version := 1; registry_sha256 := demo_receipt;
  inventory_sha256 := inventory_digest demo_inventory; receipts_sha256 := demo_receipt;
  dp_interference_envelope_sha256 := envelope_sha256 (interference_envelope demo_scheduler);
  budget_sha256_by_cell := []; dp_seed := 1; waves := [demo_wave 0 m1; demo_wave 1 m2];
  completed_cell_ids := [] |}.

Lemma demo_pair m1 m2 (f : string → string) :
  (m1, m2) = ("tts", "l0") ∨ (m1, m2) = ("l0", "tts") → f "tts" ≠ f "l0" →
  unique_text [f m1; f m2] = true.
Proof.
  intros Hm Hne. apply bool_decide_eq_true_2. apply NoDup_cons. split; [|apply NoDup_singleton].
  intros Heq%list_elem_of_singleton. by destruct Hm as [[= -> ->]|[= -> ->]].
Qed.

Lemma demo_wave_valid i m : 0 ≤ i → new_GpuDispatchWave (demo_wave i m) = Ok (demo_wave i m).
Proof.
  intros Hi. unfold new_GpuDispatchWave. cbn [demo_wave wave_index assignments map
    dw_interference_envelope_sha256].
  replace (i <? 0) with false by lia. unfold require_sha256, envelope_sha256.
  rewrite content_sha256_is_hash. cbn [negb]. unfold unique_text.
  rewrite bool_decide_eq_true_2 by apply NoDup_singleton. cbn [negb].
  by vm_compute.
Qed.

Lemma demo_freeze m1 m2 :
  freeze_waves demo_scheduler 0 [[demo_assignment m1]; [demo_assignment m2]]
    = Ok [demo_wave 0 m1; demo_wave 1 m2].
Proof.
  cbn [freeze_waves]. pose proof (demo_wave_valid 0 m1 ltac:(lia)) as H0.
  pose proof (demo_wave_valid 1 m2 ltac:(lia)) as H1.
  unfold demo_wave in *. rewrite H0. change (0 + 1) with 1. by rewrite H1.
Qed.

Lemma demo_plan_valid m1 m2 :
  (m1, m2) = ("tts", "l0") ∨ (m1, m2) = ("l0", "tts") →
  new_GpuDispatchPlan (demo_plan m1 m2) = Ok (demo_plan m1 m2).
Proof.
  intros Hm. unfold new_GpuDispatchPlan, require_sha256.
  cbn [demo_plan dp_schema_version require_all_sha256 registry_sha256 inventory_sha256
    receipts_sha256 dp_interference_envelope_sha256 dp_seed budget_sha256_by_cell map
    completed_cell_ids concat].
  unfold require_sha256, envelope_sha256, inventory_digest. rewrite !content_sha256_is_hash.
  change (is_hash 64 demo_receipt) with true. cbn [negb Z.eqb Pos.eqb].
  unfold plan_cell_ids, plan_assignments.
  cbn [demo_plan waves map concat assignments demo_wave app work_item demo_assignment].
  rewrite (demo_pair _ _ (λ m, assignment_id (demo_assignment m)) Hm demo_assignment_ids_ne).
  rewrite (demo_pair _ _ (λ m, item_id (demo_item m)) Hm demo_ids_ne). by cbn.
Qed.

Lemma demo_in_registry :
  existsb (λ x, negb (bool_decide (x ∈ map cell_id (cells (registry demo_scheduler)))))
    (map item_id demo_items) = false.
Proof.
  assert (map item_id demo_items = map cell_id (cells (registry demo_scheduler))) as -> by done.
  apply not_true_is_false. intros (x & Hx%list_elem_of_In & Hn)%existsb_exists.
  by rewrite bool_decide_eq_true_2 in Hn.
Qed.

(** The pair is scheduled, in two waves on the one device. *)
Lemma demo_schedules items :
  items ≡ₚ demo_items →
  ∃ m1 m2, ((m1, m2) = ("tts", "l0") ∨ (m1, m2) = ("l0", "tts")) ∧
    schedule_work_items demo_scheduler items demo_receipt [] [] = Ok (demo_plan m1 m2).
Proof.
  intros Hp.
  assert (Hord : dispatch_order demo_scheduler items ≡ₚ demo_items).
  { rewrite <- Hp. apply sorted_by_Permutation. }
  assert (Hids : map item_id items ≡ₚ map item_id demo_items) by by rewrite Hp.
  apply Permutation_sym, Permutation_length_2_inv in Hord.
  assert (∃ m1 m2, ((m1, m2) = ("tts", "l0") ∨ (m1, m2) = ("l0", "tts")) ∧
    dispatch_order demo_scheduler items = [demo_item m1; demo_item m2]) as (m1 & m2 & Hm & Hd).
  { destruct Hord as [->| ->]; eauto. }
  exists m1, m2. split; [done|].
  unfold schedule_work_items, schedule_work_items_authorized.
  change (require_sha256 "receipts_sha256" demo_receipt) with (Ok tt).
  rewrite (unique_text_perm _ _ Hids).
  rewrite (existsb_perm _ (map item_id items) (map item_id demo_items)) by done.
  rewrite demo_in_registry.
  assert (unique_text (map item_id demo_items) = true) as ->
    by exact (demo_pair _ _ (λ m, item_id (demo_item m)) (or_introl eq_refl) demo_ids_ne).
  cbn [negb map concat require_all_sha256 forallb].
  assert (existsb (λ item, negb (dispatchable (cell item)
    (bool_decide (item_id item ∈ [])))) items = false) as ->.
  { apply not_true_is_false. by intros (i & _ & Hi)%existsb_exists. }
  cbn [existsb overlap].
  assert (unique_text [] = true) as -> by (apply bool_decide_eq_true_2, NoDup_nil_2). cbn [negb].
  rewrite (proj2 (check_items_Ok _ items)).
  2:{ intros i Hi. rewrite Hp in Hi. revert i Hi. apply check_items_Ok, demo_check. }
  rewrite Hd, (demo_place _ _ Hm), (demo_pack _ _ Hm), demo_freeze.
  exact (demo_plan_valid _ _ Hm).
Qed.

Lemma demo_schedules_pair :
  ∃ m1 m2, ((m1, m2) = ("tts", "l0") ∨ (m1, m2) = ("l0", "tts")) ∧
    schedule_work_items demo_scheduler demo_items demo_receipt [] [] = Ok (demo_plan m1 m2).
Proof. by apply demo_schedules. Qed.

Lemma schedule_safe_witness :
  ∃ plan, schedule_work_items demo_scheduler demo_items demo_receipt [] [] = Ok plan ∧
    map work_item (plan_assignments plan) ≡ₚ demo_items ∧ length (waves plan) = 2%nat ∧
    ∀ w, w ∈ waves plan → isolated (assignments w).
Proof.
  destruct demo_schedules_pair as (m1 & m2 & _ & H). exists (demo_plan m1 m2). split; [exact H|].
  destruct (schedule_safe _ _ _ _ _ _ _ H) as (Hi & _ & _ & Hw).
  split; [exact Hi|]. split; [reflexivity|]. intros w Hin. exact (proj1 (Hw w Hin)).
Defined.

Lemma affinity_shares_gang_witness :
  ∃ plan a b, schedule_work_items demo_scheduler demo_items demo_receipt [] [] = Ok plan ∧
    a ∈ plan_assignments plan ∧ b ∈ plan_assignments plan ∧ work_item a ≠ work_item b ∧
    gpu_uuids a = gpu_uuids b.
Proof.
  destruct demo_schedules_pair as (m1 & m2 & Hm & H).
  exists (demo_plan m1 m2), (demo_assignment m1), (demo_assignment m2).
  assert (Ha : demo_assignment m1 ∈ plan_assignments (demo_plan m1 m2))
    by apply list_elem_of_here.
  assert (Hb : demo_assignment m2 ∈ plan_assignments (demo_plan m1 m2))
    by apply list_elem_of_further, list_elem_of_here.
  split; [exact H|]. split; [exact Ha|]. split; [exact Hb|]. split.
  - intros Heq. apply (f_equal (λ i, cache_root (claim i))) in Heq.
    cbn [work_item demo_assignment claim demo_item cache_root] in Heq.
    destruct Hm as [Hm|Hm]; injection Hm as -> ->; discriminate Heq.
  - apply (affinity_shares_gang _ _ _ _ _ _ _ _ _
      (content_sha256 (JObj (identity_without_method_or_gpu (demo_cell m1)))) H Ha Hb);
      [reflexivity|].
    destruct Hm as [Hm|Hm]; injection Hm as -> ->; reflexivity.
Defined.

Lemma schedule_order_irrelevant_witness :
  ∃ plan, schedule_work_items demo_scheduler demo_items demo_receipt [] [] = Ok plan ∧
    schedule_work_items demo_scheduler (reverse demo_items) demo_receipt [] [] = Ok plan.
Proof.
  destruct demo_schedules_pair as (m1 & m2 & _ & H). exists (demo_plan m1 m2). split; [exact H|].
  apply (schedule_order_irrelevant demo_scheduler demo_items); [|exact H].
  symmetry. apply reverse_Permutation.
Defined.

Lemma concurrency_needs_rule_witness :
  ∃ plan, schedule_work_items demo_scheduler demo_items demo_receipt [] [] = Ok plan ∧
    ∀ w, w ∈ waves plan → zlength (assignments w) = 1.
Proof.
  destruct demo_schedules_pair as (m1 & m2 & _ & H). exists (demo_plan m1 m2). split; [exact H|].
  intros w Hw. destruct (concurrency_needs_rule _ _ _ _ _ _ _ w H Hw) as [H1|(r & Hr & _)]; [exact H1|].
  elim (not_elem_of_nil r). exact Hr.
Defined.

(** Two devices in one topology group and a claim with tensor parallelism. *)
Definition demo_tp_inventory : GpuInventory := {|
  schema_version := 1;
  devices := [demo_device "g0" "0000:01:00.0" ["nv"]; demo_device "g1" "0000:02:00.0" ["nv"]];
  topology_groups := [{| group_id := "nv"; tg_host_id := "h"; tg_gpu_uuids := ["g0"; "g1"];
                         fabric := "nvlink"; bandwidth_class := "b" |}];
  source_receipt_sha256 := demo_receipt |}.
Definition demo_tp_scheduler : GpuPoolScheduler := {|
  registry := registry demo_scheduler; inventory := demo_tp_inventory;
  interference_envelope := interference_envelope demo_scheduler;
  port_start := 24000; port_end := 24010; sc_seed := 1 |}.
Definition demo_tp_item : PoolWorkItem := {|
  cell := demo_cell "tts";
  claim := {|
    gang_shape := {| tensor_parallel_size := 2; data_parallel_size := 1 |};
    exact_gpu_uuids := []; homogeneous := default_constraint;
    allowed_topology_groups := ["nv"]; allowed_fabrics := []; same_host := true;
    exclusive_gpu := true; exclusive_host := false; cpu_cores := 1; numa_nodes := [];
    ram_bytes := 0; disk_io_class := "registered"; network_class := "registered";
    port_count := 1; exact_ports := []; cache_root := "c"; evidence_root := "e";
    workload_class := TUNING; interference_class := "i"; load_thermal_power_envelope := "registered";
    estimated_duration_seconds := float_of_Z 60; estimated_gpu_seconds := float_of_Z 120 |};
  affinity_key := None; serial_group_key := None |}.

Lemma candidate_gang_sound_witness :
  candidate_gangs demo_tp_scheduler demo_tp_item = [["g0"; "g1"]] ∧
  zlength ["g0"; "g1"] = 2 ∧
  ∃ grp, grp ∈ topology_groups demo_tp_inventory ∧ ∀ u, u ∈ ["g0"; "g1"] → u ∈ tg_gpu_uuids grp.
Proof.
  assert (H2 : 0 ≤ 2) by lia. assert (H1 : 2 ≠ 1) by lia. assert (H0 : 0 ≤ 0 < 1) by lia.
  assert (Hc : candidate_gangs demo_tp_scheduler demo_tp_item = [["g0"; "g1"]])
    by (vm_compute; reflexivity).
  split; [exact Hc|].
  destruct (candidate_gang_sound demo_tp_scheduler demo_tp_item ["g0"; "g1"])
    as (Hl & _ & ds & _ & _ & _ & Htop); [vm_compute; reflexivity..|exact H2| |].
  - rewrite Hc. apply list_elem_of_here.
  - split; [exact Hl|]. destruct (Htop H1 0 H0) as (grp & Hg & _ & _ & Hu).
    exists grp. split; [exact Hg|]. exact Hu.
Defined.
