(* ===== verification/Execution.v ===== *)
(** * Execution of a dispatch plan ([experiments/gpu_pool.py])

    Monotonic intervals and their billing, execution receipts of assignments,
    waves and schedules, the wave-ordered state machine, and
    [execute_dispatch_plan] with resume.  What runs an assignment is a parameter:
    the runner's outcome and the clock readings around it. *)
From S2P Require Import Prelude PyFloat FloatRepr Hashlib Registry GpuPool.

(** ** Monotonic intervals *)
Definition Interval : Type := Z * Z.

(** The loop of [_merge_monotonic_intervals]; [last] is [merged[-1]]. *)
Fixpoint merge_sorted (last : option Interval) (l : list Interval) : result (list Interval) :=
  match l with
  | [] => Ok (match last with Some i => [i] | None => [] end)
  | (start, finish) :: l =>
    raise_if ((start <? 0) || (finish <? start))
      (ValueError "monotonic intervals require 0 <= start <= finish") ;;
    match last with
    | None => merge_sorted (Some (start, finish)) l
    | Some (prior_start, prior_finish) =>
      if prior_finish <? start then
        rest <-! merge_sorted (Some (start, finish)) l ;;
        Ok ((prior_start, prior_finish) :: rest)
      else merge_sorted (Some (prior_start, Z.max prior_finish finish)) l
    end
  end.

Definition merge_monotonic_intervals (l : list Interval) : result (list Interval) :=
  merge_sorted None (sorted_by (λ i : Interval, i) l).

Definition sum_Z (l : list Z) : Z := foldr Z.add 0 l.

Definition interval_union_ns (l : list Interval) : result Z :=
  merged <-! merge_monotonic_intervals l ;;
  Ok (sum_Z (map (λ i : Interval, i.2 - i.1) merged)).

Definition intervals_json (l : list Interval) : json :=
  JList (map (λ i : Interval, jints [i.1; i.2]) l).
(** The [..._union_ns] field of a receipt; a receipt's intervals are valid. *)
Definition union_json (l : list Interval) : json :=
  match interval_union_ns l with Ok n => JInt n | Raise _ => JNull end.

(** ** Digests of waves and plans *)
Definition jsum (l : list pyfloat) : json :=
  match fsum l with Some x => JFloat x | None => JInt 0 end.

Definition wave_gpu_seconds (w : GpuDispatchWave) : option pyfloat :=
  fsum (map (λ a, estimated_gpu_seconds (claim (work_item a))) (assignments w)).
Definition wave_json (w : GpuDispatchWave) : json := JObj [
  ("wave_index", JInt (wave_index w)); ("assignments", JList (map assignment_json (assignments w)));
  ("assignment_sha256", jstrs (map assignment_id (assignments w)));
  ("interference_envelope_sha256", JStr (dw_interference_envelope_sha256 w))].
Definition wave_sha256 (w : GpuDispatchWave) : string := content_sha256 (wave_json w).

(** Waves are not empty, so their sums are floats. *)
Definition plan_gpu_seconds (p : GpuDispatchPlan) : option pyfloat :=
  fsum (map (λ w, default fzero (wave_gpu_seconds w)) (waves p)).
Definition plan_json (p : GpuDispatchPlan) : json := JObj [
  ("schema_version", JInt (dp_schema_version p)); ("registry_sha256", JStr (registry_sha256 p));
  ("inventory_sha256", JStr (inventory_sha256 p)); ("receipts_sha256", JStr (receipts_sha256 p));
  ("interference_envelope_sha256", JStr (dp_interference_envelope_sha256 p));
  ("budget_sha256_by_cell", JList (map (λ b : string * string,
     JObj [("cell_id", JStr b.1); ("experiment_budget_sha256", JStr b.2)])
     (budget_sha256_by_cell p)));
  ("scientific_budget_bound", JBool (scientific_budget_bound p)); ("seed", JInt (dp_seed p));
  ("waves", JList (map wave_json (waves p))); ("wave_sha256", jstrs (map wave_sha256 (waves p)));
  ("completed_cell_ids", jstrs (completed_cell_ids p));
  ("estimated_wall_seconds", jsum (map estimated_wall_seconds (waves p)));
  ("estimated_gpu_seconds", match plan_gpu_seconds p with Some x => JFloat x | None => JInt 0 end);
  ("estimated_gpu_hours",
   JFloat (fdiv (default fzero (plan_gpu_seconds p)) (float_of_Z 3600)))].
Definition plan_sha256 (p : GpuDispatchPlan) : string := content_sha256 (plan_json p).

#[export] Instance GpuDispatchWave_eq_dec : EqDecision GpuDispatchWave.
Proof. solve_decision. Defined.
#[export] Instance GpuDispatchPlan_eq_dec : EqDecision GpuDispatchPlan.
Proof. solve_decision. Defined.

(** ** Assignment receipts *)
Inductive AssignmentExecutionStatus : Set := SUCCEEDED | FAILED.
#[export] Instance AssignmentExecutionStatus_eq_dec : EqDecision AssignmentExecutionStatus.
Proof. solve_decision. Defined.
Definition AssignmentExecutionStatus_value (s : AssignmentExecutionStatus) : string :=
  match s with SUCCEEDED => "SUCCEEDED" | FAILED => "FAILED" end.

(** [AssignmentTerminalBinding] of [completion_authority.py]: the raw-file
    pointer of a successful assignment. *)
Record AssignmentTerminalBinding := {
  tb_authority_sha256 : string; tb_cell_id : string; tb_assignment_sha256 : string;
  tb_budget_sha256 : string; tb_inventory_sha256 : string; tb_physical_gpu_uuids : list string;
  tb_execution_plan_sha256 : string; tb_dispatch_plan_sha256 : string; tb_run_id : string;
  tb_run_nonce_sha256 : string; tb_terminal_receipt_path : string;
  tb_terminal_receipt_sha256 : string; tb_budget_observation_path : string;
  tb_budget_observation_sha256 : string; tb_budget_observation_sidecar_path : string;
  tb_budget_observation_sidecar_sha256 : string; tb_native_terminal_artifact_path : string;
  tb_native_terminal_raw_sha256 : string; tb_native_terminal_sha256 : string;
  tb_trusted_attester_policy_sha256 : string; tb_evidence_file_paths : list string;
  tb_evidence_file_sha256s : list string }.
#[export] Instance AssignmentTerminalBinding_eq_dec : EqDecision AssignmentTerminalBinding.
Proof. solve_decision. Defined.

Definition binding_json (b : AssignmentTerminalBinding) : json := JObj [
  ("authority_sha256", JStr (tb_authority_sha256 b)); ("cell_id", JStr (tb_cell_id b));
  ("assignment_sha256", JStr (tb_assignment_sha256 b)); ("budget_sha256", JStr (tb_budget_sha256 b));
  ("inventory_sha256", JStr (tb_inventory_sha256 b));
  ("physical_gpu_uuids", jstrs (tb_physical_gpu_uuids b));
  ("execution_plan_sha256", JStr (tb_execution_plan_sha256 b));
  ("dispatch_plan_sha256", JStr (tb_dispatch_plan_sha256 b)); ("run_id", JStr (tb_run_id b));
  ("run_nonce_sha256", JStr (tb_run_nonce_sha256 b));
  ("terminal_receipt_path", JStr (tb_terminal_receipt_path b));
  ("terminal_receipt_sha256", JStr (tb_terminal_receipt_sha256 b));
  ("budget_observation_path", JStr (tb_budget_observation_path b));
  ("budget_observation_sha256", JStr (tb_budget_observation_sha256 b));
  ("budget_observation_sidecar_path", JStr (tb_budget_observation_sidecar_path b));
  ("budget_observation_sidecar_sha256", JStr (tb_budget_observation_sidecar_sha256 b));
  ("native_terminal_artifact_path", JStr (tb_native_terminal_artifact_path b));
  ("native_terminal_raw_sha256", JStr (tb_native_terminal_raw_sha256 b));
  ("native_terminal_sha256", JStr (tb_native_terminal_sha256 b));
  ("trusted_attester_policy_sha256", JStr (tb_trusted_attester_policy_sha256 b));
  ("evidence_file_paths", jstrs (tb_evidence_file_paths b));
  ("evidence_file_sha256s", jstrs (tb_evidence_file_sha256s b))].
Definition binding_sha256 (b : AssignmentTerminalBinding) : string :=
  content_sha256 (binding_json b).

Definition assignment_semantics : string := "per_assignment_attribution_not_schedule_ledger_v1".
Definition ledger_semantics : string := "interval_union_schedule_ledger_v1".

Record AssignmentExecutionReceipt := {
  ar_plan_sha256 : string; ar_wave_sha256 : string; ar_assignment_sha256 : string;
  ar_budget_sha256 : string; attempt : Z; ar_status : AssignmentExecutionStatus;
  ar_terminal_receipt_sha256 : option string; terminal_binding : option AssignmentTerminalBinding;
  failure_sha256 : option string; prior_attempt_receipt_sha256 : option string;
  ar_gpu_count : Z; ar_fixed_instance_gpu_count : Z; attempt_intervals : list Interval;
  attributed_gpu_ns : Z; attributed_fixed_instance_gpu_ns : Z; ar_accounting_semantics : string }.
#[export] Instance AssignmentExecutionReceipt_eq_dec : EqDecision AssignmentExecutionReceipt.
Proof. solve_decision. Defined.

Definition is_sha256_opt (x : option string) : bool :=
  match x with Some s => is_hash 64 s | None => false end.

Definition new_AssignmentExecutionReceipt (r : AssignmentExecutionReceipt)
    : result AssignmentExecutionReceipt :=
  _ <-! require_all_sha256 [("plan_sha256", ar_plan_sha256 r); ("wave_sha256", ar_wave_sha256 r);
          ("assignment_sha256", ar_assignment_sha256 r); ("budget_sha256", ar_budget_sha256 r)] ;;
  raise_if (attempt r <? 1) (ValueError "attempt must be a positive integer") ;;
  raise_if (negb (attempt r =? zlength (attempt_intervals r)))
    (ValueError "attempt intervals must cover every cumulative attempt") ;;
  canonical_intervals <-! merge_monotonic_intervals (attempt_intervals r) ;;
  raise_if (negb (bool_decide (canonical_intervals = attempt_intervals r)))
    (ValueError "assignment attempt intervals must be sorted and non-overlapping") ;;
  raise_if ((attempt r =? 1) && negb (bool_decide (prior_attempt_receipt_sha256 r = None)))
    (ValueError "first attempt cannot bind a prior attempt receipt") ;;
  raise_if (negb (attempt r =? 1) && negb (is_sha256_opt (prior_attempt_receipt_sha256 r)))
    (ValueError "retried assignment must bind its prior attempt receipt") ;;
  raise_if (ar_gpu_count r <? 1) (ValueError "gpu_count must be a positive integer") ;;
  raise_if (ar_fixed_instance_gpu_count r <? 1)
    (ValueError "fixed_instance_gpu_count must be a positive integer") ;;
  raise_if (ar_fixed_instance_gpu_count r <? ar_gpu_count r)
    (ValueError "fixed-instance GPU count cannot be below gang size") ;;
  elapsed <-! interval_union_ns (attempt_intervals r) ;;
  raise_if (negb (attributed_gpu_ns r =? elapsed * ar_gpu_count r))
    (ValueError "assignment GPU attribution differs from monotonic time") ;;
  raise_if (negb (attributed_fixed_instance_gpu_ns r =? elapsed * ar_fixed_instance_gpu_count r))
    (ValueError "assignment fixed-instance attribution differs from monotonic time") ;;
  raise_if (negb (bool_decide (ar_accounting_semantics r = assignment_semantics)))
    (ValueError "assignment accounting semantics are unsupported") ;;
  match ar_status r with
  | SUCCEEDED =>
    raise_if (negb (is_sha256_opt (ar_terminal_receipt_sha256 r)))
      (ValueError "successful assignment needs a terminal receipt") ;;
    match terminal_binding r with
    | None => Raise (TypeError "successful assignment needs an exact raw terminal binding")
    | Some b =>
      raise_if (negb (bool_decide (ar_terminal_receipt_sha256 r = Some (binding_sha256 b)))
                || negb (bool_decide (tb_assignment_sha256 b = ar_assignment_sha256 r))
                || negb (bool_decide (tb_budget_sha256 b = ar_budget_sha256 r)))
        (ValueError "successful assignment terminal binding identity mismatch") ;;
      raise_if (negb (bool_decide (failure_sha256 r = None)))
        (ValueError "successful assignment cannot carry failure evidence") ;;
      Ok r
    end
  | FAILED =>
    raise_if (negb (is_sha256_opt (failure_sha256 r)))
      (ValueError "failed assignment needs bound failure evidence") ;;
    raise_if (negb (bool_decide (ar_terminal_receipt_sha256 r = None)))
      (ValueError "failed assignment cannot carry a terminal receipt") ;;
    raise_if (negb (bool_decide (terminal_binding r = None)))
      (ValueError "failed assignment cannot carry a terminal binding") ;;
    Ok r
  end.

Definition assignment_receipt_json (r : AssignmentExecutionReceipt) : json := JObj [
  ("plan_sha256", JStr (ar_plan_sha256 r)); ("wave_sha256", JStr (ar_wave_sha256 r));
  ("assignment_sha256", JStr (ar_assignment_sha256 r));
  ("budget_sha256", JStr (ar_budget_sha256 r)); ("attempt", JInt (attempt r));
  ("status", JStr (AssignmentExecutionStatus_value (ar_status r)));
  ("terminal_receipt_sha256", jopt JStr (ar_terminal_receipt_sha256 r));
  ("terminal_binding", jopt binding_json (terminal_binding r));
  ("failure_sha256", jopt JStr (failure_sha256 r));
  ("prior_attempt_receipt_sha256", jopt JStr (prior_attempt_receipt_sha256 r));
  ("gpu_count", JInt (ar_gpu_count r));
  ("fixed_instance_gpu_count", JInt (ar_fixed_instance_gpu_count r));
  ("attempt_intervals_monotonic_ns", intervals_json (attempt_intervals r));
  ("cumulative_elapsed_ns", union_json (attempt_intervals r));
  ("attributed_gpu_ns", JInt (attributed_gpu_ns r));
  ("attributed_fixed_instance_gpu_ns", JInt (attributed_fixed_instance_gpu_ns r));
  ("accounting_semantics", JStr (ar_accounting_semantics r))].
Definition assignment_receipt_sha256 (r : AssignmentExecutionReceipt) : string :=
  content_sha256 (assignment_receipt_json r).

(** ** Wave receipts *)
Record DispatchWaveExecutionReceipt := {
  wr_plan_sha256 : string; wr_wave_index : Z; wr_wave_sha256 : string;
  assignment_receipts : list AssignmentExecutionReceipt; wr_inventory_sha256 : string;
  wr_fixed_instance_gpu_count : Z; wr_active_intervals : list Interval; wr_billed_gpu_ns : Z;
  wr_attributed_gpu_ns : Z; wr_attributed_fixed_gpu_ns : Z; wr_accounting_semantics : string }.
#[export] Instance DispatchWaveExecutionReceipt_eq_dec : EqDecision DispatchWaveExecutionReceipt.
Proof. solve_decision. Defined.

Definition new_DispatchWaveExecutionReceipt (r : DispatchWaveExecutionReceipt)
    : result DispatchWaveExecutionReceipt :=
  _ <-! require_all_sha256 [("plan_sha256", wr_plan_sha256 r); ("wave_sha256", wr_wave_sha256 r);
          ("inventory_sha256", wr_inventory_sha256 r)] ;;
  raise_if (wr_wave_index r <? 0) (ValueError "wave_index must be a non-negative integer") ;;
  raise_if (match assignment_receipts r with [] => true | _ => false end)
    (ValueError "wave receipt requires assignment receipts") ;;
  raise_if (negb (unique_text (map ar_assignment_sha256 (assignment_receipts r))))
    (ValueError "wave receipt contains duplicate assignment receipts") ;;
  raise_if (wr_fixed_instance_gpu_count r <? 1)
    (ValueError "wave fixed-instance GPU count must be positive") ;;
  expected <-! merge_monotonic_intervals (concat (map attempt_intervals (assignment_receipts r))) ;;
  raise_if (negb (bool_decide (wr_active_intervals r = expected)))
    (ValueError "wave active intervals differ from assignment attempts") ;;
  union_ns <-! interval_union_ns (wr_active_intervals r) ;;
  raise_if (negb (wr_billed_gpu_ns r =? union_ns * wr_fixed_instance_gpu_count r))
    (ValueError "wave fixed-instance ledger differs from interval union") ;;
  raise_if (negb (wr_attributed_gpu_ns r =?
                  sum_Z (map attributed_gpu_ns (assignment_receipts r))))
    (ValueError "wave per-assignment GPU attribution mismatch") ;;
  raise_if (negb (wr_attributed_fixed_gpu_ns r =?
                  sum_Z (map attributed_fixed_instance_gpu_ns (assignment_receipts r))))
    (ValueError "wave per-assignment fixed attribution mismatch") ;;
  raise_if (existsb (λ a, negb (ar_fixed_instance_gpu_count a =? wr_fixed_instance_gpu_count r))
              (assignment_receipts r))
    (ValueError "wave assignments disagree on fixed-instance GPU count") ;;
  raise_if (negb (bool_decide (wr_accounting_semantics r = ledger_semantics)))
    (ValueError "wave accounting semantics are unsupported") ;;
  Ok r.

(** [DispatchWaveExecutionReceipt.succeeded] and [partial_sibling_failure]. *)
Definition succeeded (r : DispatchWaveExecutionReceipt) : bool :=
  forallb (λ a, bool_decide (ar_status a = SUCCEEDED)) (assignment_receipts r).
Definition partial_sibling_failure (r : DispatchWaveExecutionReceipt) : bool :=
  existsb (λ a, bool_decide (ar_status a = SUCCEEDED)) (assignment_receipts r)
  && existsb (λ a, bool_decide (ar_status a = FAILED)) (assignment_receipts r).

Definition wave_receipt_json (r : DispatchWaveExecutionReceipt) : json := JObj [
  ("plan_sha256", JStr (wr_plan_sha256 r)); ("wave_index", JInt (wr_wave_index r));
  ("wave_sha256", JStr (wr_wave_sha256 r));
  ("assignment_receipts", JList (map assignment_receipt_json (assignment_receipts r)));
  ("assignment_receipt_sha256", jstrs (map assignment_receipt_sha256 (assignment_receipts r)));
  ("inventory_sha256", JStr (wr_inventory_sha256 r));
  ("fixed_instance_gpu_count", JInt (wr_fixed_instance_gpu_count r));
  ("active_intervals_monotonic_ns", intervals_json (wr_active_intervals r));
  ("active_interval_union_ns", union_json (wr_active_intervals r));
  ("fixed_instance_actual_billed_gpu_ns", JInt (wr_billed_gpu_ns r));
  ("per_assignment_attributed_gpu_ns", JInt (wr_attributed_gpu_ns r));
  ("per_assignment_attributed_fixed_instance_gpu_ns", JInt (wr_attributed_fixed_gpu_ns r));
  ("accounting_semantics", JStr (wr_accounting_semantics r))].
Definition wave_receipt_sha256 (r : DispatchWaveExecutionReceipt) : string :=
  content_sha256 (wave_receipt_json r).

(** ** The wave-ordered state machine *)
Inductive DispatchExecutionPhase : Set :=
  | PHASE_PLANNED | PHASE_RUNNING | PHASE_FAILED | PHASE_COMPLETE.
#[export] Instance DispatchExecutionPhase_eq_dec : EqDecision DispatchExecutionPhase.
Proof. solve_decision. Defined.
Definition DispatchExecutionPhase_value (p : DispatchExecutionPhase) : string :=
  match p with
  | PHASE_PLANNED => "PLANNED" | PHASE_RUNNING => "RUNNING"
  | PHASE_FAILED => "FAILED" | PHASE_COMPLETE => "COMPLETE"
  end.

Record DispatchExecutionState := {
  es_plan_sha256 : string; es_phase : DispatchExecutionPhase; next_wave_index : Z;
  es_wave_receipt_sha256 : list string }.

Definition new_DispatchExecutionState (s : DispatchExecutionState) : result DispatchExecutionState :=
  _ <-! require_sha256 "plan_sha256" (es_plan_sha256 s) ;;
  raise_if (next_wave_index s <? 0) (ValueError "next_wave_index must be non-negative") ;;
  raise_if (negb (zlength (es_wave_receipt_sha256 s) =? next_wave_index s))
    (ValueError "state receipt chain must cover every attempted wave") ;;
  _ <-! require_all_sha256 (map (λ d, ("wave receipt digest", d)) (es_wave_receipt_sha256 s)) ;;
  Ok s.

(** [begin]; [replace] runs the checks again. *)
Definition begin_state (total_waves : Z) (s : DispatchExecutionState)
    : result DispatchExecutionState :=
  raise_if (negb (bool_decide (es_phase s ∈ [PHASE_PLANNED; PHASE_FAILED])))
    (ValueError "only planned or failed execution can begin") ;;
  raise_if (total_waves <? next_wave_index s)
    (ValueError "execution state exceeds dispatch-plan wave count") ;;
  new_DispatchExecutionState {|
    es_plan_sha256 := es_plan_sha256 s; es_phase := PHASE_RUNNING;
    next_wave_index := next_wave_index s; es_wave_receipt_sha256 := es_wave_receipt_sha256 s |}.

Definition accept (r : DispatchWaveExecutionReceipt) (total_waves : Z)
    (s : DispatchExecutionState) : result DispatchExecutionState :=
  raise_if (negb (bool_decide (es_phase s = PHASE_RUNNING)))
    (ValueError "wave receipt requires RUNNING execution state") ;;
  raise_if (negb (bool_decide (wr_plan_sha256 r = es_plan_sha256 s)))
    (ValueError "wave receipt belongs to another dispatch plan") ;;
  raise_if (negb (wr_wave_index r =? next_wave_index s))
    (ValueError "wave receipt is not the next contiguous wave") ;;
  let next_index := next_wave_index s + 1 in
  new_DispatchExecutionState {|
    es_plan_sha256 := es_plan_sha256 s;
    es_phase := if negb (succeeded r) then PHASE_FAILED
                else if next_index =? total_waves then PHASE_COMPLETE else PHASE_RUNNING;
    next_wave_index := next_index;
    es_wave_receipt_sha256 := es_wave_receipt_sha256 s ++ [wave_receipt_sha256 r] |}.

(** ** Schedule receipts *)
Record DispatchScheduleReceipt := {
  sr_plan_sha256 : string; sr_phase : DispatchExecutionPhase;
  wave_receipts : list DispatchWaveExecutionReceipt; sr_inventory_sha256 : string;
  sr_fixed_instance_gpu_count : Z; sr_active_intervals : list Interval; sr_billed_gpu_ns : Z;
  sr_attributed_gpu_ns : Z; sr_attributed_fixed_gpu_ns : Z;
  prior_schedule_receipt_sha256 : option string; sr_accounting_semantics : string }.

Definition no_receipts {A} (l : list A) : bool := match l with [] => true | _ => false end.
Definition last_succeeded (l : list DispatchWaveExecutionReceipt) : bool :=
  match last l with Some r => succeeded r | None => false end.

Definition new_DispatchScheduleReceipt (r : DispatchScheduleReceipt)
    : result DispatchScheduleReceipt :=
  let ws := wave_receipts r in
  _ <-! require_all_sha256 [("plan_sha256", sr_plan_sha256 r);
          ("inventory_sha256", sr_inventory_sha256 r)] ;;
  raise_if (negb (bool_decide (map wr_wave_index ws = seqZ 0 (zlength ws))))
    (ValueError "schedule receipt must be a contiguous wave prefix") ;;
  raise_if (existsb (λ w, negb (bool_decide (wr_plan_sha256 w = sr_plan_sha256 r))) ws)
    (ValueError "schedule receipt mixes dispatch plans") ;;
  raise_if (sr_fixed_instance_gpu_count r <? 1)
    (ValueError "schedule fixed-instance GPU count must be positive") ;;
  raise_if (existsb (λ w, negb (bool_decide (wr_inventory_sha256 w = sr_inventory_sha256 r))
              || negb (wr_fixed_instance_gpu_count w =? sr_fixed_instance_gpu_count r)) ws)
    (ValueError "schedule receipt mixes inventory billing identities") ;;
  expected <-! merge_monotonic_intervals (concat (map wr_active_intervals ws)) ;;
  raise_if (negb (bool_decide (sr_active_intervals r = expected)))
    (ValueError "schedule intervals differ from its wave receipts") ;;
  union_ns <-! interval_union_ns (sr_active_intervals r) ;;
  raise_if (negb (sr_billed_gpu_ns r =? union_ns * sr_fixed_instance_gpu_count r))
    (ValueError "schedule fixed-instance ledger differs from interval union") ;;
  raise_if (negb (sr_attributed_gpu_ns r =? sum_Z (map wr_attributed_gpu_ns ws)))
    (ValueError "schedule per-assignment GPU attribution mismatch") ;;
  raise_if (negb (sr_attributed_fixed_gpu_ns r =? sum_Z (map wr_attributed_fixed_gpu_ns ws)))
    (ValueError "schedule per-assignment fixed attribution mismatch") ;;
  raise_if (negb (bool_decide (sr_accounting_semantics r = ledger_semantics)))
    (ValueError "schedule accounting semantics are unsupported") ;;
  _ <-! match prior_schedule_receipt_sha256 r with
        | Some s => require_sha256 "prior_schedule_receipt_sha256" s | None => Ok tt end ;;
  match sr_phase r with
  | PHASE_COMPLETE =>
    raise_if (negb (forallb succeeded ws))
      (ValueError "COMPLETE schedule receipt contains failed work") ;; Ok r
  | PHASE_RUNNING =>
    raise_if (no_receipts ws || negb (forallb succeeded ws))
      (ValueError "RUNNING schedule receipt must contain a successful wave prefix") ;; Ok r
  | PHASE_FAILED =>
    raise_if (no_receipts ws || last_succeeded ws)
      (ValueError "FAILED schedule receipt lacks a failed terminal wave") ;; Ok r
  | PHASE_PLANNED =>
    Raise (ValueError "durable schedule receipts must be RUNNING, COMPLETE, or FAILED")
  end.

Definition schedule_receipt_json (r : DispatchScheduleReceipt) : json := JObj [
  ("plan_sha256", JStr (sr_plan_sha256 r));
  ("phase", JStr (DispatchExecutionPhase_value (sr_phase r)));
  ("wave_receipts", JList (map wave_receipt_json (wave_receipts r)));
  ("wave_receipt_sha256", jstrs (map wave_receipt_sha256 (wave_receipts r)));
  ("inventory_sha256", JStr (sr_inventory_sha256 r));
  ("fixed_instance_gpu_count", JInt (sr_fixed_instance_gpu_count r));
  ("active_intervals_monotonic_ns", intervals_json (sr_active_intervals r));
  ("active_interval_union_ns", union_json (sr_active_intervals r));
  ("fixed_instance_actual_billed_gpu_ns", JInt (sr_billed_gpu_ns r));
  ("per_assignment_attributed_gpu_ns", JInt (sr_attributed_gpu_ns r));
  ("per_assignment_attributed_fixed_instance_gpu_ns", JInt (sr_attributed_fixed_gpu_ns r));
  ("prior_schedule_receipt_sha256", jopt JStr (prior_schedule_receipt_sha256 r));
  ("accounting_semantics", JStr (sr_accounting_semantics r))].
Definition schedule_receipt_sha256 (r : DispatchScheduleReceipt) : string :=
  content_sha256 (schedule_receipt_json r).

(** ** What the executor asks of its context

    The parts of [GpuDispatchExecutionContext] the executor uses: the inventory,
    the plan that replaying the scheduler issues, the budgets and the raw
    authorities for resume, whose revalidation reads files. *)
Record BudgetView := { budget_sha256 : string; retry_allowance : Z }.
Record TerminalAuthority := {
  ta_sha256 : string;
  ta_revalidate : string → string → list string → result AssignmentTerminalBinding }.

Class ExecutionContext := {
  ec_inventory : GpuInventory;
  issue_plan : result GpuDispatchPlan;
  budgets_by_cell_id : gmap string BudgetView;
  resume_terminal_authorities : list TerminalAuthority;
}.

Record Pending := {
  pa_assignment : GpuAssignment; pa_attempt : Z; pa_budget : BudgetView;
  pa_prior : option AssignmentExecutionReceipt }.

(** What runs an assignment, and the journal around it.  Without a journal
    [begin_wave_attempts] and [finish_attempt] return and [begin_attempt] reads
    the clock.  [run_terminal] is the runner followed by the revalidation of its
    terminal authority: an exception (its class and text) or the binding.  The
    clock is read again at the end of the [try] block and in the handler. *)
Record Runner := {
  begin_wave_attempts : GpuDispatchWave → list Pending → option string → result unit;
  begin_attempt : GpuDispatchWave → Pending → option string → result Z;
  run_terminal : Pending → (string * string) + AssignmentTerminalBinding;
  finished_clock : Pending → Z;
  failed_clock : Pending → Z;
  finish_attempt : AssignmentExecutionReceipt → result unit }.

Record DispatchAttemptJournalReplay := {
  journal_path : string; manifest_sha256 : string; head_event_sha256 : string;
  event_count : Z; jr_schedule_receipt_sha256 : string }.

Definition new_DispatchAttemptJournalReplay (j : DispatchAttemptJournalReplay)
    : result DispatchAttemptJournalReplay :=
  _ <-! require_text "attempt journal path" (journal_path j) ;;
  _ <-! require_all_sha256 [("manifest_sha256", manifest_sha256 j);
          ("head_event_sha256", head_event_sha256 j);
          ("schedule_receipt_sha256", jr_schedule_receipt_sha256 j)] ;;
  raise_if (event_count j <? 1)
    (ValueError "attempt journal replay requires at least one event") ;;
  Ok j.

(** [type(error).__qualname__] and [str(error)] of what the [try] block itself
    can raise. *)
Definition exn_name (e : exn) : string :=
  match e with
  | ValueError _ => "ValueError" | TypeError _ => "TypeError" | RuntimeError _ => "RuntimeError"
  | KeyError _ => "KeyError" | IndexError _ => "IndexError" | MemoryError _ => "MemoryError"
  | ExceptionGroup _ => "ExceptionGroup" | OverflowError _ => "OverflowError"
  | StopIteration => "StopIteration" | AssertionError _ => "AssertionError"
  | ZeroDivisionError _ => "ZeroDivisionError"
  | CapabilityRejectionError _ => "CapabilityRejectionError"
  | FleetCapabilityRejectionError _ _ => "FleetCapabilityRejectionError"
  end.
Definition exn_text (e : exn) : string :=
  match e with
  | ValueError s | TypeError s | RuntimeError s | KeyError s | MemoryError s
  | ExceptionGroup s | OverflowError s | AssertionError s | ZeroDivisionError s
  | CapabilityRejectionError s => s
  | StopIteration => EmptyString
  | FleetCapabilityRejectionError reason detail => reason +:+ ": " +:+ detail
  | IndexError n => pretty n
  end.

Section executor.
Context `{ExecutionContext} (runner : Runner).

Definition inventory_sha : string := inventory_digest ec_inventory.
Definition fixed_count : Z := zlength (devices ec_inventory).

(** [self.budgets_by_cell_id[cell_id]]. *)
Definition budget_for (cid : string) : result BudgetView :=
  match budgets_by_cell_id !! cid with Some b => Ok b | None => Raise (KeyError cid) end.

Definition prior_intervals (p : Pending) : list Interval :=
  match pa_prior p with Some r => attempt_intervals r | None => [] end.

Definition make_receipt (plan : GpuDispatchPlan) (wave : GpuDispatchWave) (p : Pending)
    (started finished : Z) (terminal : option AssignmentTerminalBinding)
    (failure : option string) : result AssignmentExecutionReceipt :=
  let intervals := prior_intervals p ++ [(started, finished)] in
  let gpus := zlength (gpu_uuids (pa_assignment p)) in
  elapsed <-! interval_union_ns intervals ;;
  new_AssignmentExecutionReceipt {|
    ar_plan_sha256 := plan_sha256 plan; ar_wave_sha256 := wave_sha256 wave;
    ar_assignment_sha256 := assignment_id (pa_assignment p);
    ar_budget_sha256 := budget_sha256 (pa_budget p); attempt := pa_attempt p;
    ar_status := match terminal with Some _ => SUCCEEDED | None => FAILED end;
    ar_terminal_receipt_sha256 := binding_sha256 <$> terminal; terminal_binding := terminal;
    failure_sha256 := failure;
    prior_attempt_receipt_sha256 := assignment_receipt_sha256 <$> pa_prior p;
    ar_gpu_count := gpus; ar_fixed_instance_gpu_count := fixed_count;
    attempt_intervals := intervals; attributed_gpu_ns := elapsed * gpus;
    attributed_fixed_instance_gpu_ns := elapsed * fixed_count;
    ar_accounting_semantics := assignment_semantics |}.

Definition failure_json (p : Pending) (started finished : Z) (e : string * string) : json := JObj [
  ("exception_type", JStr e.1); ("message", JStr e.2);
  ("assignment_sha256", JStr (assignment_id (pa_assignment p)));
  ("budget_sha256", JStr (budget_sha256 (pa_budget p))); ("attempt", JInt (pa_attempt p));
  ("started_monotonic_ns", JInt started); ("finished_monotonic_ns", JInt finished)].

(** The [except Exception] handler. *)
Definition failed_receipt (plan : GpuDispatchPlan) (wave : GpuDispatchWave) (p : Pending)
    (started : Z) (e : string * string) : result AssignmentExecutionReceipt :=
  let finished := failed_clock runner p in
  make_receipt plan wave p started finished None
    (Some (content_sha256 (failure_json p started finished e))).

(** [_run_assignment]. *)
Definition run_assignment (plan : GpuDispatchPlan) (wave : GpuDispatchWave)
    (prior_schedule : option string) (p : Pending) : result AssignmentExecutionReceipt :=
  started <-! begin_attempt runner wave p prior_schedule ;;
  receipt <-! match run_terminal runner p with
    | inl e => failed_receipt plan wave p started e
    | inr b =>
      match make_receipt plan wave p started (finished_clock runner p) (Some b) None with
      | Ok r => Ok r
      | Raise e => failed_receipt plan wave p started (exn_name e, exn_text e)
      end
    end ;;
  _ <-! finish_attempt runner receipt ;;
  Ok receipt.

(** [asyncio.TaskGroup]: all tasks return, or the group raises.  A task only
    depends on its own attempt, so their interleaving does not show. *)
Definition task_group {A} (tasks : list (result A)) : result (list A) :=
  match mapR id tasks with
  | Ok l => Ok l
  | Raise _ => Raise (ExceptionGroup "unhandled errors in a TaskGroup")
  end.

(** [_make_wave_execution_receipt]. *)
Definition make_wave_receipt (plan : GpuDispatchPlan) (wave : GpuDispatchWave)
    (rows : list AssignmentExecutionReceipt) : result DispatchWaveExecutionReceipt :=
  intervals <-! merge_monotonic_intervals (concat (map attempt_intervals rows)) ;;
  union_ns <-! interval_union_ns intervals ;;
  new_DispatchWaveExecutionReceipt {|
    wr_plan_sha256 := plan_sha256 plan; wr_wave_index := wave_index wave;
    wr_wave_sha256 := wave_sha256 wave; assignment_receipts := rows;
    wr_inventory_sha256 := inventory_sha; wr_fixed_instance_gpu_count := fixed_count;
    wr_active_intervals := intervals; wr_billed_gpu_ns := union_ns * fixed_count;
    wr_attributed_gpu_ns := sum_Z (map attributed_gpu_ns rows);
    wr_attributed_fixed_gpu_ns := sum_Z (map attributed_fixed_instance_gpu_ns rows);
    wr_accounting_semantics := ledger_semantics |}.

(** [_make_schedule_receipt]. *)
Definition make_schedule_receipt (plan : GpuDispatchPlan) (phase : DispatchExecutionPhase)
    (ws : list DispatchWaveExecutionReceipt) (prior : option string)
    : result DispatchScheduleReceipt :=
  intervals <-! merge_monotonic_intervals (concat (map wr_active_intervals ws)) ;;
  union_ns <-! interval_union_ns intervals ;;
  new_DispatchScheduleReceipt {|
    sr_plan_sha256 := plan_sha256 plan; sr_phase := phase; wave_receipts := ws;
    sr_inventory_sha256 := inventory_sha; sr_fixed_instance_gpu_count := fixed_count;
    sr_active_intervals := intervals; sr_billed_gpu_ns := union_ns * fixed_count;
    sr_attributed_gpu_ns := sum_Z (map wr_attributed_gpu_ns ws);
    sr_attributed_fixed_gpu_ns := sum_Z (map wr_attributed_fixed_gpu_ns ws);
    prior_schedule_receipt_sha256 := prior; sr_accounting_semantics := ledger_semantics |}.

(** ** Resume validation *)

(** One row of [_validate_wave_receipt]. *)
Definition validate_row (plan : GpuDispatchPlan) (wave : GpuDispatchWave)
    (row : AssignmentExecutionReceipt) : result unit :=
  match list_find (λ a, assignment_id a = ar_assignment_sha256 row) (assignments wave) with
  | None => Raise (KeyError (ar_assignment_sha256 row))
  | Some (_, a) =>
    budget <-! budget_for (item_id (work_item a)) ;;
    raise_if (negb (bool_decide (ar_plan_sha256 row = plan_sha256 plan))
              || negb (bool_decide (ar_wave_sha256 row = wave_sha256 wave)))
      (ValueError "resume assignment receipt plan/wave mismatch") ;;
    raise_if (negb (bool_decide (ar_budget_sha256 row = budget_sha256 budget)))
      (ValueError "resume assignment receipt budget mismatch") ;;
    raise_if (negb (ar_gpu_count row =? zlength (gpu_uuids a)))
      (ValueError "resume assignment receipt gang-size mismatch") ;;
    raise_if (retry_allowance budget + 1 <? attempt row)
      (ValueError "resume assignment receipt exceeds retry allowance") ;;
    match ar_status row with
    | FAILED => Ok tt
    | SUCCEEDED =>
      match terminal_binding row with
      | None => Raise (ValueError "resume success lacks a raw terminal binding")
      | Some b =>
        raise_if (negb (bool_decide (tb_cell_id b = item_id (work_item a)))
                  || negb (bool_decide (tb_inventory_sha256 b = inventory_sha))
                  || negb (bool_decide (tb_physical_gpu_uuids b = gpu_uuids a)))
          (ValueError "resume terminal binding differs from its assignment/inventory") ;;
        Ok tt
      end
    end
  end.


(** [_validate_wave_receipt]. *)
Definition validate_wave_receipt (plan : GpuDispatchPlan) (wave : GpuDispatchWave)
    (r : DispatchWaveExecutionReceipt) : result unit :=
  raise_if (negb (bool_decide (wr_plan_sha256 r = plan_sha256 plan))
            || negb (bool_decide (wr_wave_sha256 r = wave_sha256 wave)))
    (ValueError "resume wave receipt identity mismatch") ;;
  raise_if (negb (same_text_set (map assignment_id (assignments wave))
                    (map ar_assignment_sha256 (assignment_receipts r))))
    (ValueError "resume wave receipt has incomplete or extra assignments") ;;
  raise_if (negb (bool_decide (wr_inventory_sha256 r = inventory_sha))
            || negb (wr_fixed_instance_gpu_count r =? fixed_count))
    (ValueError "resume wave receipt belongs to another inventory ledger") ;;
  all_ok (validate_row plan wave) (assignment_receipts r).

(** [validate_dispatch_plan_for_execution]. *)
Definition validate_dispatch_plan (plan : GpuDispatchPlan) : result unit :=
  expected <-! issue_plan ;;
  raise_if (negb (bool_decide (plan = expected)))
    (ValueError "dispatch plan is not the exact plan issued from its planning context") ;;
  Ok tt.

(** [plan.waves[wave_receipt.wave_index]]. *)
Definition wave_at (plan : GpuDispatchPlan) (i : Z) : result GpuDispatchWave :=
  match waves plan !! Z.to_nat i with Some w => Ok w | None => Raise (IndexError i) end.

(** [_validate_dispatch_resume_structure]. *)
Definition validate_resume_structure (plan : GpuDispatchPlan) (r : DispatchScheduleReceipt)
    : result unit :=
  let ws := wave_receipts r in
  let ok := map succeeded ws in
  _ <-! validate_dispatch_plan plan ;;
  raise_if (negb (bool_decide (sr_plan_sha256 r = plan_sha256 plan)))
    (ValueError "resume receipt belongs to another dispatch plan") ;;
  raise_if (negb (bool_decide (sr_inventory_sha256 r = inventory_sha))
            || negb (sr_fixed_instance_gpu_count r =? fixed_count))
    (ValueError "resume receipt belongs to another inventory ledger") ;;
  raise_if (zlength (waves plan) <? zlength ws)
    (ValueError "resume receipt exceeds dispatch-plan wave count") ;;
  _ <-! all_ok (λ w, wave <-! wave_at plan (wr_wave_index w) ;;
                     validate_wave_receipt plan wave w) ws ;;
  raise_if (bool_decide (sr_phase r = PHASE_COMPLETE)
            && negb (zlength ws =? zlength (waves plan)))
    (ValueError "complete resume receipt does not cover the whole plan") ;;
  match sr_phase r with
  | PHASE_PLANNED =>
    raise_if (negb (no_receipts ws)) (ValueError "planned resume receipt cannot contain a wave") ;;
    Ok tt
  | PHASE_RUNNING =>
    raise_if (no_receipts ws || (zlength (waves plan) <=? zlength ws) || negb (forallb id ok))
      (ValueError "running resume receipt must be a nonempty successful wave prefix") ;;
    Ok tt
  | PHASE_FAILED =>
    raise_if (no_receipts ws || last_succeeded ws || negb (forallb id (removelast ok)))
      (ValueError "failed resume receipt must end in one failed wave after a successful prefix") ;;
    Ok tt
  | PHASE_COMPLETE =>
    raise_if (negb (forallb id ok)) (ValueError "complete resume receipt contains a failed wave") ;;
    Ok tt
  end.

Definition succeeded_bindings (r : DispatchScheduleReceipt) : list AssignmentTerminalBinding :=
  omap (λ a, if bool_decide (ar_status a = SUCCEEDED) then terminal_binding a else None)
    (concat (map assignment_receipts (wave_receipts r))).

(** The revalidation of one successful row. *)
Definition revalidate_row (wave : GpuDispatchWave) (row : AssignmentExecutionReceipt)
    : result unit :=
  match ar_status row with
  | FAILED => Ok tt
  | SUCCEEDED =>
    match terminal_binding row with
    | None => Raise (ValueError "resume success lacks a raw terminal binding")
    | Some b =>
      match list_find (λ a, assignment_id a = ar_assignment_sha256 row) (assignments wave),
            list_find (λ t, ta_sha256 t = tb_authority_sha256 b)
              (reverse resume_terminal_authorities) with
      | None, _ => Raise (KeyError (ar_assignment_sha256 row))
      | _, None => Raise (KeyError (tb_authority_sha256 b))
      | Some (_, a), Some (_, t) =>
        budget <-! budget_for (item_id (work_item a)) ;;
        expected <-! ta_revalidate t (assignment_id a) (budget_sha256 budget) (gpu_uuids a) ;;
        raise_if (negb (bool_decide (b = expected)))
          (ValueError "resume terminal binding differs from freshly revalidated raw files") ;;
        Ok tt
      end
    end
  end.

(** [validate_dispatch_resume]. *)
Definition validate_dispatch_resume (plan : GpuDispatchPlan) (r : DispatchScheduleReceipt)
    (replay : option DispatchAttemptJournalReplay) : result unit :=
  _ <-! validate_resume_structure plan r ;;
  raise_if (negb (no_receipts (wave_receipts r)) && bool_decide (jr_schedule_receipt_sha256 <$> replay = None))
    (ValueError "dispatch resume is blocked without a release-owned append-only attempt/cost authority") ;;
  raise_if (match replay with
            | Some j => negb (bool_decide (jr_schedule_receipt_sha256 j = schedule_receipt_sha256 r))
            | None => false end)
    (ValueError "attempt journal replay differs from the resumed schedule receipt") ;;
  raise_if (negb (same_text_set (map ta_sha256 resume_terminal_authorities)
                    (map tb_authority_sha256 (succeeded_bindings r))))
    (ValueError "resume requires the exact raw terminal authority set referenced by successful assignments") ;;
  all_ok (λ x : GpuDispatchWave * DispatchWaveExecutionReceipt,
            all_ok (revalidate_row x.1) (assignment_receipts x.2))
    (zip (waves plan) (wave_receipts r)).

(** ** One wave *)
Definition receipts_by_id (status : AssignmentExecutionStatus)
    (l : list AssignmentExecutionReceipt) : gmap string AssignmentExecutionReceipt :=
  list_to_map (map (λ r, (ar_assignment_sha256 r, r))
    (reverse (filter (λ r, ar_status r = status) l))).

(** The loop that fills [pending]. *)
Fixpoint pending_of (successful prior : gmap string AssignmentExecutionReceipt)
    (l : list GpuAssignment) : result (list Pending) :=
  match l with
  | [] => Ok []
  | a :: l =>
    if bool_decide (is_Some (successful !! assignment_id a)) then pending_of successful prior l
    else
      let prior_attempt := prior !! assignment_id a in
      let n := match prior_attempt with Some r => attempt r + 1 | None => 1 end in
      budget <-! budget_for (item_id (work_item a)) ;;
      raise_if (retry_allowance budget + 1 <? n)
        (ValueError "dispatch retry would exceed the ExperimentBudget allowance") ;;
      rest <-! pending_of successful prior l ;;
      Ok ({| pa_assignment := a; pa_attempt := n; pa_budget := budget;
             pa_prior := prior_attempt |} :: rest)
  end.

(** The receipt of each assignment of the wave: the kept success or the task's. *)
Definition collect (successful tasks : gmap string AssignmentExecutionReceipt)
    (l : list GpuAssignment) : result (list AssignmentExecutionReceipt) :=
  mapR (λ a, match successful !! assignment_id a, tasks !! assignment_id a with
             | Some r, _ | None, Some r => Ok r
             | None, None => Raise (KeyError (assignment_id a))
             end) l.

Definition run_wave (plan : GpuDispatchPlan) (wave : GpuDispatchWave)
    (failed_prior : option DispatchWaveExecutionReceipt) (prior_schedule : option string)
    : result DispatchWaveExecutionReceipt :=
  let rows := match failed_prior with
    | Some f => if wave_index wave =? wr_wave_index f then assignment_receipts f else []
    | None => [] end in
  let successful := receipts_by_id SUCCEEDED rows in
  pending <-! pending_of successful (receipts_by_id FAILED rows) (assignments wave) ;;
  _ <-! begin_wave_attempts runner wave pending prior_schedule ;;
  results <-! task_group (map (run_assignment plan wave prior_schedule) pending) ;;
  let tasks := list_to_map (reverse (zip (map (λ p, assignment_id (pa_assignment p)) pending)
                                       results)) in
  receipts <-! collect successful tasks (assignments wave) ;;
  make_wave_receipt plan wave receipts.

(** ** The loop over the waves *)
Fixpoint run_waves (plan : GpuDispatchPlan) (ws : list GpuDispatchWave)
    (state : DispatchExecutionState) (prior : list DispatchWaveExecutionReceipt)
    (failed_prior : option DispatchWaveExecutionReceipt)
    (current : option DispatchScheduleReceipt) : result (option DispatchScheduleReceipt) :=
  match ws with
  | [] => Ok current
  | wave :: ws =>
    let current_sha := schedule_receipt_sha256 <$> current in
    wave_receipt <-! run_wave plan wave failed_prior current_sha ;;
    let failed_prior := match failed_prior with
      | Some f => if wave_index wave =? wr_wave_index f then None else Some f
      | None => None end in
    let prior := prior ++ [wave_receipt] in
    state <-! accept wave_receipt (zlength (waves plan)) state ;;
    receipt <-! make_schedule_receipt plan (es_phase state) prior current_sha ;;
    if bool_decide (es_phase state = PHASE_FAILED) then Ok (Some receipt)
    else run_waves plan ws state prior failed_prior (Some receipt)
  end.

(** [plan.waves[start:stop + 1]]. *)
Definition wave_slice (plan : GpuDispatchPlan) (start stop : Z) : list GpuDispatchWave :=
  drop (Z.to_nat start) (take (Z.to_nat (stop + 1)) (waves plan)).

(** What a resume keeps: the successful prefix and the failed wave, if any. *)
Definition resume_prefix (r : option DispatchScheduleReceipt)
    : result (list DispatchWaveExecutionReceipt * option DispatchWaveExecutionReceipt * Z) :=
  match r with
  | None => Ok ([], None, 0)
  | Some r =>
    if bool_decide (sr_phase r = PHASE_FAILED) then
      match last (wave_receipts r) with
      | None => Raise (IndexError 0)
      | Some f => Ok (removelast (wave_receipts r), Some f, wr_wave_index f)
      end
    else Ok (wave_receipts r, None, zlength (wave_receipts r))
  end.

(** The part of [execute_dispatch_plan] after the resume has been read. *)
Definition execute_from (plan : GpuDispatchPlan) (resume : option DispatchScheduleReceipt)
    (prior : list DispatchWaveExecutionReceipt) (failed_prior : option DispatchWaveExecutionReceipt)
    (start : Z) (stop_after : option Z) : result DispatchScheduleReceipt :=
  raise_if (match stop_after with Some n => n <? start | None => false end)
    (ValueError "dispatch stop wave precedes the receipt-authorized prefix") ;;
  if no_receipts (waves plan) then
    make_schedule_receipt plan PHASE_COMPLETE [] (schedule_receipt_sha256 <$> resume)
  else
    fresh <-! new_DispatchExecutionState {|
      es_plan_sha256 := plan_sha256 plan;
      es_phase := match failed_prior with Some _ => PHASE_FAILED | None => PHASE_PLANNED end;
      next_wave_index := start; es_wave_receipt_sha256 := map wave_receipt_sha256 prior |} ;;
    state <-! begin_state (zlength (waves plan)) fresh ;;
    let stop := match stop_after with Some n => n | None => zlength (waves plan) - 1 end in
    final <-! run_waves plan (wave_slice plan start stop) state prior failed_prior resume ;;
    match final with
    | Some r => Ok r
    | None => Raise (RuntimeError "dispatch execution produced no schedule receipt")
    end.

Definition execute_dispatch_plan (plan : GpuDispatchPlan) (resume : option DispatchScheduleReceipt)
    (replay : option DispatchAttemptJournalReplay) (stop_after : option Z)
    : result DispatchScheduleReceipt :=
  raise_if (negb (scientific_budget_bound plan))
    (ValueError "dispatch plan lacks exact per-cell ExperimentBudget bindings") ;;
  _ <-! validate_dispatch_plan plan ;;
  raise_if (match stop_after with
            | Some n => (n <? 0) || (zlength (waves plan) <=? n) | None => false end)
    (ValueError "dispatch stop wave index is outside the frozen plan") ;;
  _ <-! match resume with Some r => validate_dispatch_resume plan r replay | None => Ok tt end ;;
  let continue :=
    prefix <-! resume_prefix resume ;;
    let '(prior, failed_prior, start) := prefix in
    execute_from plan resume prior failed_prior start stop_after in
  match resume with
  | Some r => if bool_decide (sr_phase r = PHASE_COMPLETE) then Ok r else continue
  | None => continue
  end.
End executor.
