(* ===== verification/ReceiptParsing.v ===== *)
(** * Parsing of plans and receipts ([from_dict] of [experiments/gpu_pool.py])

    Waves and plans, then the execution receipts that a resume reads back.  A
    plan is accepted only when replaying its planning context issues it again. *)
From S2P Require Import Prelude PyFloat FloatRepr Hashlib Registry GpuPool PoolParsing Execution.

(** ** Waves and plans *)
Definition wave_from_dict (value : json) : result GpuDispatchWave :=
  row <-! strict_object "GPU dispatch wave" value
            ["wave_index"; "assignments"; "assignment_sha256"; "interference_envelope_sha256"] ;;
  assignments <-! list_of "assignments" assignment_from_dict (get "assignments" row) ;;
  declared <-! list_of "assignment_sha256" (strict_text "assignment_sha256")
                 (get "assignment_sha256" row) ;;
  raise_if (negb (bool_decide (declared = map assignment_id assignments)))
    (ValueError "dispatch-wave assignment SHA-256 list mismatch") ;;
  index <-! strict_int "wave_index" (get "wave_index" row) ;;
  envelope <-! strict_text "interference_envelope_sha256"
                 (get "interference_envelope_sha256" row) ;;
  new_GpuDispatchWave {|
    wave_index := index; assignments := assignments;
    dw_interference_envelope_sha256 := envelope |}.

Definition budget_binding_from_dict (value : json) : result (string * string) :=
  row <-! strict_object "dispatch budget binding" value ["cell_id"; "experiment_budget_sha256"] ;;
  cell_id <-! strict_text "budget cell_id" (get "cell_id" row) ;;
  budget <-! strict_text "experiment_budget_sha256" (get "experiment_budget_sha256" row) ;;
  Ok (cell_id, budget).

(** [math.isclose(a, b, rel_tol=0.0, abs_tol=1e-12)]. *)
Definition cost_close (a b : pyfloat) : bool :=
  feq a b || (ffinite a && ffinite b && fle (fabs (fsub b a)) (ratio 1 1000000000000)).

(** The three cost summaries; a sum over no waves is the integer 0. *)
Definition plan_costs (p : GpuDispatchPlan) : pyfloat * pyfloat * pyfloat :=
  let wall := default fzero (fsum (map estimated_wall_seconds (waves p))) in
  let gpu := default fzero (plan_gpu_seconds p) in
  (wall, gpu, fdiv gpu (float_of_Z 3600)).

Definition GpuDispatchPlan_fields : list string := [
  "schema_version"; "registry_sha256"; "inventory_sha256"; "receipts_sha256";
  "interference_envelope_sha256"; "budget_sha256_by_cell"; "scientific_budget_bound"; "seed";
  "waves"; "wave_sha256"; "completed_cell_ids"; "estimated_wall_seconds";
  "estimated_gpu_seconds"; "estimated_gpu_hours"].

(** [validate_dispatch_plan_for_planning]; the context replays the scheduler. *)
Definition validate_for_planning (issued : result GpuDispatchPlan) (plan : GpuDispatchPlan)
    : result unit :=
  expected <-! issued ;;
  raise_if (negb (bool_decide (plan = expected)))
    (ValueError "dispatch plan is not the exact plan issued from its planning context") ;;
  Ok tt.

Definition plan_from_dict (value : json) (issued : result GpuDispatchPlan)
    (sidecar : option (ArtifactSidecar + json)) : result GpuDispatchPlan :=
  row <-! strict_object "GPU dispatch plan" value GpuDispatchPlan_fields ;;
  waves <-! list_of "waves" wave_from_dict (get "waves" row) ;;
  declared <-! list_of "wave_sha256" (strict_text "wave_sha256") (get "wave_sha256" row) ;;
  raise_if (negb (bool_decide (declared = map wave_sha256 waves)))
    (ValueError "dispatch-plan wave SHA-256 list mismatch") ;;
  budgets <-! list_of "budget_sha256_by_cell" budget_binding_from_dict
                (get "budget_sha256_by_cell" row) ;;
  version <-! strict_int "schema_version" (get "schema_version" row) ;;
  registry <-! strict_text "registry_sha256" (get "registry_sha256" row) ;;
  inventory <-! strict_text "inventory_sha256" (get "inventory_sha256" row) ;;
  receipts <-! strict_text "receipts_sha256" (get "receipts_sha256" row) ;;
  envelope <-! strict_text "interference_envelope_sha256"
                 (get "interference_envelope_sha256" row) ;;
  seed <-! strict_int "seed" (get "seed" row) ;;
  completed <-! list_of "completed_cell_ids" (strict_text "completed cell ID")
                  (get "completed_cell_ids" row) ;;
  plan <-! new_GpuDispatchPlan {|
    dp_schema_version := version; registry_sha256 := registry; inventory_sha256 := inventory;
    receipts_sha256 := receipts; dp_interference_envelope_sha256 := envelope;
    budget_sha256_by_cell := budgets; dp_seed := seed; waves := waves;
    completed_cell_ids := completed |} ;;
  bound <-! strict_bool "scientific_budget_bound" (get "scientific_budget_bound" row) ;;
  raise_if (negb (Bool.eqb bound (scientific_budget_bound plan)))
    (ValueError "dispatch-plan budget-bound status mismatch") ;;
  wall <-! strict_float "estimated_wall_seconds" (get "estimated_wall_seconds" row) ;;
  gpu <-! strict_float "estimated_gpu_seconds" (get "estimated_gpu_seconds" row) ;;
  hours <-! strict_float "estimated_gpu_hours" (get "estimated_gpu_hours" row) ;;
  let '(wall', gpu', hours') := plan_costs plan in
  raise_if (negb (cost_close wall' wall) || negb (cost_close gpu' gpu)
            || negb (cost_close hours' hours))
    (ValueError "dispatch-plan cost summary mismatch") ;;
  _ <-! validate_for_planning issued plan ;;
  _ <-! validate_sidecar "gpu_dispatch_plan.v1" (plan_sha256 plan) sidecar ;;
  Ok plan.

(** ** Terminal bindings *)

(** [Path(path).is_absolute() and Path(path).resolve() == Path(path)]: resolving
    follows the links of the file system. *)
Class FileSystem := { absolute_resolved : string → bool }.

Section receipts.
Context `{FileSystem}.

Definition new_AssignmentTerminalBinding (b : AssignmentTerminalBinding)
    : result AssignmentTerminalBinding :=
  _ <-! require_all_sha256 [("authority_sha256", tb_authority_sha256 b); ("cell_id", tb_cell_id b);
          ("assignment_sha256", tb_assignment_sha256 b); ("budget_sha256", tb_budget_sha256 b);
          ("inventory_sha256", tb_inventory_sha256 b);
          ("execution_plan_sha256", tb_execution_plan_sha256 b);
          ("dispatch_plan_sha256", tb_dispatch_plan_sha256 b);
          ("run_nonce_sha256", tb_run_nonce_sha256 b);
          ("terminal_receipt_sha256", tb_terminal_receipt_sha256 b);
          ("budget_observation_sha256", tb_budget_observation_sha256 b);
          ("budget_observation_sidecar_sha256", tb_budget_observation_sidecar_sha256 b);
          ("native_terminal_raw_sha256", tb_native_terminal_raw_sha256 b);
          ("native_terminal_sha256", tb_native_terminal_sha256 b);
          ("trusted_attester_policy_sha256", tb_trusted_attester_policy_sha256 b)] ;;
  raise_if (no_receipts (tb_physical_gpu_uuids b) || negb (unique_text (tb_physical_gpu_uuids b)))
    (ValueError "assignment terminal binding has invalid GPU coverage") ;;
  raise_if (string_empty (tb_run_id b)
            || negb (string_forall (λ c, negb (bool_decide (c = newline))) (tb_run_id b)))
    (ValueError "assignment terminal run ID is invalid") ;;
  raise_if (negb (forallb absolute_resolved
              ([tb_terminal_receipt_path b; tb_budget_observation_path b;
                tb_budget_observation_sidecar_path b; tb_native_terminal_artifact_path b]
               ++ tb_evidence_file_paths b)))
    (ValueError "assignment terminal path must be absolute and resolved") ;;
  raise_if (no_receipts (tb_evidence_file_paths b)
            || negb (is_sorted_text (tb_evidence_file_paths b))
            || negb (unique_text (tb_evidence_file_paths b))
            || negb (length (tb_evidence_file_paths b) =? length (tb_evidence_file_sha256s b))%nat
            || negb (forallb (is_hash 64) (tb_evidence_file_sha256s b)))
    (ValueError "assignment terminal evidence coverage is malformed") ;;
  Ok b.

(** A field the code hands to the constructor unread; the record only holds
    text, so a value of another type is refused here. *)
Definition raw_text (value : json) : result string :=
  match value with JStr s => Ok s | _ => Raise (TypeError "expected text") end.

Definition AssignmentTerminalBinding_fields : list string := [
  "authority_sha256"; "cell_id"; "assignment_sha256"; "budget_sha256"; "inventory_sha256";
  "physical_gpu_uuids"; "execution_plan_sha256"; "dispatch_plan_sha256"; "run_id";
  "run_nonce_sha256"; "terminal_receipt_path"; "terminal_receipt_sha256";
  "budget_observation_path"; "budget_observation_sha256"; "budget_observation_sidecar_path";
  "budget_observation_sidecar_sha256"; "native_terminal_artifact_path";
  "native_terminal_raw_sha256"; "native_terminal_sha256"; "trusted_attester_policy_sha256";
  "evidence_file_paths"; "evidence_file_sha256s"].
Definition binding_from_dict (value : json) : result AssignmentTerminalBinding :=
  row <-! strict_object "assignment terminal binding" value AssignmentTerminalBinding_fields ;;
  authority <-! raw_text (get "authority_sha256" row) ;;
  cell_id <-! raw_text (get "cell_id" row) ;;
  assignment <-! raw_text (get "assignment_sha256" row) ;;
  budget <-! raw_text (get "budget_sha256" row) ;;
  inventory <-! raw_text (get "inventory_sha256" row) ;;
  uuids <-! list_of "terminal physical GPUs" raw_text (get "physical_gpu_uuids" row) ;;
  execution_plan <-! raw_text (get "execution_plan_sha256" row) ;;
  dispatch_plan <-! raw_text (get "dispatch_plan_sha256" row) ;;
  run_id <-! raw_text (get "run_id" row) ;;
  nonce <-! raw_text (get "run_nonce_sha256" row) ;;
  receipt_path <-! raw_text (get "terminal_receipt_path" row) ;;
  receipt <-! raw_text (get "terminal_receipt_sha256" row) ;;
  observation_path <-! raw_text (get "budget_observation_path" row) ;;
  observation <-! raw_text (get "budget_observation_sha256" row) ;;
  sidecar_path <-! raw_text (get "budget_observation_sidecar_path" row) ;;
  sidecar <-! raw_text (get "budget_observation_sidecar_sha256" row) ;;
  artifact_path <-! raw_text (get "native_terminal_artifact_path" row) ;;
  raw_sha <-! raw_text (get "native_terminal_raw_sha256" row) ;;
  native <-! raw_text (get "native_terminal_sha256" row) ;;
  policy <-! raw_text (get "trusted_attester_policy_sha256" row) ;;
  paths <-! list_of "terminal evidence paths" raw_text (get "evidence_file_paths" row) ;;
  shas <-! list_of "terminal evidence SHA-256s" raw_text (get "evidence_file_sha256s" row) ;;
  new_AssignmentTerminalBinding {|
    tb_authority_sha256 := authority; tb_cell_id := cell_id; tb_assignment_sha256 := assignment;
    tb_budget_sha256 := budget; tb_inventory_sha256 := inventory; tb_physical_gpu_uuids := uuids;
    tb_execution_plan_sha256 := execution_plan; tb_dispatch_plan_sha256 := dispatch_plan;
    tb_run_id := run_id; tb_run_nonce_sha256 := nonce; tb_terminal_receipt_path := receipt_path;
    tb_terminal_receipt_sha256 := receipt; tb_budget_observation_path := observation_path;
    tb_budget_observation_sha256 := observation;
    tb_budget_observation_sidecar_path := sidecar_path;
    tb_budget_observation_sidecar_sha256 := sidecar;
    tb_native_terminal_artifact_path := artifact_path; tb_native_terminal_raw_sha256 := raw_sha;
    tb_native_terminal_sha256 := native; tb_trusted_attester_policy_sha256 := policy;
    tb_evidence_file_paths := paths; tb_evidence_file_sha256s := shas |}.

(** ** Receipts *)
Definition parse_status : string → result AssignmentExecutionStatus :=
  enum_of "AssignmentExecutionStatus" [SUCCEEDED; FAILED] AssignmentExecutionStatus_value.
Definition parse_phase : string → result DispatchExecutionPhase :=
  enum_of "DispatchExecutionPhase" [PHASE_PLANNED; PHASE_RUNNING; PHASE_FAILED; PHASE_COMPLETE]
    DispatchExecutionPhase_value.

(** A list of intervals; one that is not a pair fails where intervals are
    checked. *)
Definition intervals_of (name item endpoint : string) (value : json) : result (list Interval) :=
  l <-! list_of name (list_of item (strict_int endpoint)) value ;; Ok (map pair_of l).

Definition AssignmentExecutionReceipt_fields : list string := [
  "plan_sha256"; "wave_sha256"; "assignment_sha256"; "budget_sha256"; "attempt"; "status";
  "terminal_receipt_sha256"; "terminal_binding"; "failure_sha256";
  "prior_attempt_receipt_sha256"; "gpu_count"; "fixed_instance_gpu_count";
  "attempt_intervals_monotonic_ns"; "cumulative_elapsed_ns"; "attributed_gpu_ns";
  "attributed_fixed_instance_gpu_ns"; "accounting_semantics"].
Definition assignment_receipt_from_dict (value : json) : result AssignmentExecutionReceipt :=
  row <-! strict_object "assignment execution receipt" value AssignmentExecutionReceipt_fields ;;
  binding <-! optional binding_from_dict (get "terminal_binding" row) ;;
  intervals <-! intervals_of "attempt_intervals_monotonic_ns" "attempt monotonic interval"
                  "attempt monotonic endpoint" (get "attempt_intervals_monotonic_ns" row) ;;
  plan <-! strict_text "plan_sha256" (get "plan_sha256" row) ;;
  wave <-! strict_text "wave_sha256" (get "wave_sha256" row) ;;
  assignment <-! strict_text "assignment_sha256" (get "assignment_sha256" row) ;;
  budget <-! strict_text "budget_sha256" (get "budget_sha256" row) ;;
  attempts <-! strict_int "attempt" (get "attempt" row) ;;
  state <-! strict_text "assignment status" (get "status" row) ;;
  state <-! parse_status state ;;
  terminal <-! optional_text "terminal_receipt_sha256" (get "terminal_receipt_sha256" row) ;;
  failure <-! optional_text "failure_sha256" (get "failure_sha256" row) ;;
  prior <-! optional_text "prior_attempt_receipt_sha256" (get "prior_attempt_receipt_sha256" row) ;;
  gpus <-! strict_int "gpu_count" (get "gpu_count" row) ;;
  fixed <-! strict_int "fixed_instance_gpu_count" (get "fixed_instance_gpu_count" row) ;;
  attributed <-! strict_int "attributed_gpu_ns" (get "attributed_gpu_ns" row) ;;
  attributed_fixed <-! strict_int "attributed_fixed_instance_gpu_ns"
                         (get "attributed_fixed_instance_gpu_ns" row) ;;
  semantics <-! strict_text "accounting_semantics" (get "accounting_semantics" row) ;;
  receipt <-! new_AssignmentExecutionReceipt {|
    ar_plan_sha256 := plan; ar_wave_sha256 := wave; ar_assignment_sha256 := assignment;
    ar_budget_sha256 := budget; attempt := attempts; ar_status := state;
    ar_terminal_receipt_sha256 := terminal; terminal_binding := binding;
    failure_sha256 := failure; prior_attempt_receipt_sha256 := prior; ar_gpu_count := gpus;
    ar_fixed_instance_gpu_count := fixed; attempt_intervals := intervals;
    attributed_gpu_ns := attributed; attributed_fixed_instance_gpu_ns := attributed_fixed;
    ar_accounting_semantics := semantics |} ;;
  elapsed <-! strict_int "cumulative_elapsed_ns" (get "cumulative_elapsed_ns" row) ;;
  expected <-! interval_union_ns (attempt_intervals receipt) ;;
  raise_if (negb (elapsed =? expected))
    (ValueError "assignment cumulative elapsed time mismatch") ;;
  Ok receipt.

Definition DispatchWaveExecutionReceipt_fields : list string := [
  "plan_sha256"; "wave_index"; "wave_sha256"; "assignment_receipts";
  "assignment_receipt_sha256"; "inventory_sha256"; "fixed_instance_gpu_count";
  "active_intervals_monotonic_ns"; "active_interval_union_ns";
  "fixed_instance_actual_billed_gpu_ns"; "per_assignment_attributed_gpu_ns";
  "per_assignment_attributed_fixed_instance_gpu_ns"; "accounting_semantics"].
Definition wave_receipt_from_dict (value : json) : result DispatchWaveExecutionReceipt :=
  row <-! strict_object "dispatch-wave execution receipt" value
            DispatchWaveExecutionReceipt_fields ;;
  receipts <-! list_of "assignment_receipts" assignment_receipt_from_dict
                 (get "assignment_receipts" row) ;;
  declared <-! list_of "assignment_receipt_sha256" (strict_text "assignment_receipt_sha256")
                 (get "assignment_receipt_sha256" row) ;;
  raise_if (negb (bool_decide (declared = map assignment_receipt_sha256 receipts)))
    (ValueError "wave receipt assignment SHA-256 list mismatch") ;;
  intervals <-! intervals_of "active_intervals_monotonic_ns" "wave monotonic interval"
                  "wave monotonic endpoint" (get "active_intervals_monotonic_ns" row) ;;
  plan <-! strict_text "plan_sha256" (get "plan_sha256" row) ;;
  index <-! strict_int "wave_index" (get "wave_index" row) ;;
  wave <-! strict_text "wave_sha256" (get "wave_sha256" row) ;;
  inventory <-! strict_text "inventory_sha256" (get "inventory_sha256" row) ;;
  fixed <-! strict_int "fixed_instance_gpu_count" (get "fixed_instance_gpu_count" row) ;;
  billed <-! strict_int "fixed_instance_actual_billed_gpu_ns"
               (get "fixed_instance_actual_billed_gpu_ns" row) ;;
  attributed <-! strict_int "per_assignment_attributed_gpu_ns"
                   (get "per_assignment_attributed_gpu_ns" row) ;;
  attributed_fixed <-! strict_int "per_assignment_attributed_fixed_instance_gpu_ns"
                         (get "per_assignment_attributed_fixed_instance_gpu_ns" row) ;;
  semantics <-! strict_text "accounting_semantics" (get "accounting_semantics" row) ;;
  receipt <-! new_DispatchWaveExecutionReceipt {|
    wr_plan_sha256 := plan; wr_wave_index := index; wr_wave_sha256 := wave;
    assignment_receipts := receipts; wr_inventory_sha256 := inventory;
    wr_fixed_instance_gpu_count := fixed; wr_active_intervals := intervals;
    wr_billed_gpu_ns := billed; wr_attributed_gpu_ns := attributed;
    wr_attributed_fixed_gpu_ns := attributed_fixed; wr_accounting_semantics := semantics |} ;;
  union_ns <-! strict_int "active_interval_union_ns" (get "active_interval_union_ns" row) ;;
  expected <-! interval_union_ns (wr_active_intervals receipt) ;;
  raise_if (negb (union_ns =? expected)) (ValueError "wave active interval union mismatch") ;;
  Ok receipt.

Definition DispatchScheduleReceipt_fields : list string := [
  "plan_sha256"; "phase"; "wave_receipts"; "wave_receipt_sha256"; "inventory_sha256";
  "fixed_instance_gpu_count"; "active_intervals_monotonic_ns"; "active_interval_union_ns";
  "fixed_instance_actual_billed_gpu_ns"; "per_assignment_attributed_gpu_ns";
  "per_assignment_attributed_fixed_instance_gpu_ns"; "prior_schedule_receipt_sha256";
  "accounting_semantics"].
Definition schedule_receipt_from_dict `{ExecutionContext} (value : json) (plan : GpuDispatchPlan)
    (sidecar : option (ArtifactSidecar + json)) : result DispatchScheduleReceipt :=
  row <-! strict_object "dispatch schedule receipt" value DispatchScheduleReceipt_fields ;;
  ws <-! list_of "wave_receipts" wave_receipt_from_dict (get "wave_receipts" row) ;;
  declared <-! list_of "wave_receipt_sha256" (strict_text "wave_receipt_sha256")
                 (get "wave_receipt_sha256" row) ;;
  raise_if (negb (bool_decide (declared = map wave_receipt_sha256 ws)))
    (ValueError "schedule receipt wave SHA-256 list mismatch") ;;
  intervals <-! intervals_of "active_intervals_monotonic_ns" "schedule monotonic interval"
                  "schedule monotonic endpoint" (get "active_intervals_monotonic_ns" row) ;;
  plan_sha <-! strict_text "plan_sha256" (get "plan_sha256" row) ;;
  phase <-! strict_text "dispatch phase" (get "phase" row) ;;
  phase <-! parse_phase phase ;;
  inventory <-! strict_text "inventory_sha256" (get "inventory_sha256" row) ;;
  fixed <-! strict_int "fixed_instance_gpu_count" (get "fixed_instance_gpu_count" row) ;;
  billed <-! strict_int "fixed_instance_actual_billed_gpu_ns"
               (get "fixed_instance_actual_billed_gpu_ns" row) ;;
  attributed <-! strict_int "per_assignment_attributed_gpu_ns"
                   (get "per_assignment_attributed_gpu_ns" row) ;;
  attributed_fixed <-! strict_int "per_assignment_attributed_fixed_instance_gpu_ns"
                         (get "per_assignment_attributed_fixed_instance_gpu_ns" row) ;;
  prior <-! optional_text "prior_schedule_receipt_sha256"
              (get "prior_schedule_receipt_sha256" row) ;;
  semantics <-! strict_text "accounting_semantics" (get "accounting_semantics" row) ;;
  receipt <-! new_DispatchScheduleReceipt {|
    sr_plan_sha256 := plan_sha; sr_phase := phase; wave_receipts := ws;
    sr_inventory_sha256 := inventory; sr_fixed_instance_gpu_count := fixed;
    sr_active_intervals := intervals; sr_billed_gpu_ns := billed;
    sr_attributed_gpu_ns := attributed; sr_attributed_fixed_gpu_ns := attributed_fixed;
    prior_schedule_receipt_sha256 := prior; sr_accounting_semantics := semantics |} ;;
  union_ns <-! strict_int "active_interval_union_ns" (get "active_interval_union_ns" row) ;;
  expected <-! interval_union_ns (sr_active_intervals receipt) ;;
  raise_if (negb (union_ns =? expected)) (ValueError "schedule active interval union mismatch") ;;
  _ <-! validate_resume_structure plan receipt ;;
  _ <-! validate_sidecar "dispatch_schedule_receipt.v1" (schedule_receipt_sha256 receipt) sidecar ;;
  Ok receipt.
End receipts.
