(* ===== verification/Intervals.v ===== *)
(** * Billing of monotonic intervals

    [merge_monotonic_intervals] against the set of nanoseconds it covers, and the
    ledgers of receipts against the nanoseconds in which some attempt ran. *)
From S2P Require Import Prelude PyFloat FloatRepr Hashlib Registry GpuPool Execution.

(** ** The nanoseconds of a list of intervals *)
Definition ticks (i : Interval) : gset Z := list_to_set (seqZ i.1 (i.2 - i.1)).
Definition active_ticks (l : list Interval) : gset Z := ⋃ map ticks l.
Definition interval_ok (i : Interval) : Prop := 0 ≤ i.1 ≤ i.2.

(** Pairwise separated, in order. *)
Fixpoint separated (l : list Interval) : Prop :=
  match l with
  | [] => True
  | i :: l => interval_ok i ∧ match l with j :: _ => i.2 < j.1 | [] => True end ∧ separated l
  end.

Definition elapsed_of (l : list Interval) : Z := Z.of_nat (size (active_ticks l)).

Lemma elem_of_ticks t i : t ∈ ticks i ↔ i.1 ≤ t < i.2.
Proof. unfold ticks. rewrite elem_of_list_to_set, elem_of_seqZ. lia. Qed.

Lemma elem_of_active_ticks t l : t ∈ active_ticks l ↔ ∃ i, i ∈ l ∧ i.1 ≤ t < i.2.
Proof.
  unfold active_ticks. rewrite elem_of_union_list. split.
  - intros (X & (i & -> & Hi)%list_elem_of_fmap & Ht). exists i. by rewrite elem_of_ticks in Ht.
  - intros (i & Hi & Ht). exists (ticks i). rewrite elem_of_ticks.
    split; [by apply list_elem_of_fmap_2|done].
Qed.

Lemma active_ticks_perm l l' : l ≡ₚ l' → active_ticks l = active_ticks l'.
Proof. intros Hp. apply set_eq. intros t. rewrite !elem_of_active_ticks. by setoid_rewrite Hp. Qed.

Lemma active_ticks_cons i l : active_ticks (i :: l) = ticks i ∪ active_ticks l.
Proof. done. Qed.

Lemma size_ticks i : interval_ok i → Z.of_nat (size (ticks i)) = i.2 - i.1.
Proof.
  unfold ticks, interval_ok. intros Hi. rewrite size_list_to_set by apply NoDup_seqZ.
  rewrite length_seqZ. lia.
Qed.

Lemma separated_after i l : separated (i :: l) → ∀ j, j ∈ l → i.2 < j.1.
Proof.
  revert i. induction l as [|j l IH]; intros i; [by intros _ ? ?%elem_of_nil|].
  intros (Hi & Hij & Hl) k [->|Hk]%elem_of_cons; [done|].
  destruct Hl as (Hj & ? & ?). pose proof (IH j (conj Hj (conj H H0)) k Hk).
  unfold interval_ok in *. lia.
Qed.

(** The sum of the lengths counts each nanosecond once. *)
Lemma separated_sum l :
  separated l → sum_Z (map (λ i : Interval, i.2 - i.1) l) = elapsed_of l.
Proof.
  unfold elapsed_of. induction l as [|i l IH]; intros Hs; [done|].
  rewrite active_ticks_cons. rewrite size_union.
  - pose proof (size_ticks i (proj1 Hs)). rewrite Nat2Z.inj_add, <- IH by apply Hs.
    unfold sum_Z in *. cbn [map foldr]. lia.
  - intros t Ht. rewrite elem_of_ticks in Ht. rewrite elem_of_active_ticks. intros (j & Hj & Htj).
    pose proof (separated_after i l Hs j Hj). lia.
Qed.

(** ** The merge loop *)
Lemma merge_sorted_spec last l :
  StronglySorted (λ i j : Interval, i.1 ≤ j.1) l → (∀ i, i ∈ l → interval_ok i) →
  (∀ p, last = Some p → interval_ok p ∧ ∀ i, i ∈ l → p.1 ≤ i.1) →
  ∃ m, merge_sorted last l = Ok m ∧ separated m ∧
    active_ticks m = active_ticks (match last with Some p => [p] | None => [] end ++ l) ∧
    ∀ p, last = Some p → ∃ q m', m = (p.1, q) :: m'.
Proof.
  revert last. induction l as [|[s f] l IH]; intros last Hsort Hok Hlast.
  { destruct last as [p|]; cbn [merge_sorted app]; eexists; (split; [reflexivity|]).
    - split; [split; [by apply (Hlast p)|done]|]. split; [done|].
      intros p' [= <-]. exists p.2, []. by destruct p.
    - by split_and!. }
  inversion Hsort as [|? ? Hsort' Hall]; subst. rewrite Forall_forall in Hall.
  assert (Hi : interval_ok (s, f)) by (apply Hok; left). unfold interval_ok in Hi; cbn in Hi.
  assert (Hok' : ∀ i, i ∈ l → interval_ok i) by (intros i ?; apply Hok; by right).
  cbn [merge_sorted].
  assert ((s <? 0) || (f <? s) = false) as -> by (apply orb_false_iff; lia).
  destruct last as [[ps pf]|].
  - destruct (Hlast _ eq_refl) as [Hp Hbefore]. unfold interval_ok in Hp; cbn in Hp.
    pose proof (Hbefore (s, f) ltac:(left)) as Hps; cbn in Hps.
    destruct (pf <? s) eqn:E.
    + destruct (IH (Some (s, f)) Hsort' Hok') as (m & -> & Hm & Ht & Hhd).
      { intros p [= <-]. split; [done|]. intros i Hin. by apply (Hall i). }
      destruct (Hhd _ eq_refl) as (q & m' & ->). eexists. split; [reflexivity|].
      split; [split; [done|]; split; [cbn; lia|done]|].
      split; [rewrite active_ticks_cons, Ht; done|].
      intros p [= <-]. by eexists _, _.
    + destruct (IH (Some (ps, Z.max pf f)) Hsort' Hok') as (m & -> & Hm & Ht & Hhd).
      { intros p [= <-]. split; [unfold interval_ok; cbn; lia|]. cbn. intros i Hin.
        pose proof (Hall i Hin). cbn in *. lia. }
      exists m. split; [done|]. split; [done|]. split.
      * rewrite Ht. apply set_eq. intros t. cbn [app]. rewrite !active_ticks_cons.
        rewrite !elem_of_union, !elem_of_ticks. cbn.
        destruct (decide (t < pf)); intuition lia.
      * intros p [= <-]. apply (Hhd _ eq_refl).
  - destruct (IH (Some (s, f)) Hsort' Hok') as (m & -> & Hm & Ht & Hhd).
    { intros p [= <-]. split; [done|]. intros i Hin. by apply (Hall i). }
    exists m. done.
Qed.

Lemma pycmp_interval_start (i j : Interval) : pyle i j → i.1 ≤ j.1.
Proof.
  unfold pyle, pycmp, pair_ord, pycmp, Z_ord. destruct (i.1 ?= j.1) eqn:E.
  - intros _. apply Z.compare_eq in E. by rewrite E.
  - intros _. apply Z.compare_lt_iff in E. by apply Z.lt_le_incl.
  - done.
Qed.

Lemma sorted_starts (l : list Interval) :
  StronglySorted (λ i j : Interval, i.1 ≤ j.1) (sorted_by (λ i : Interval, i) l).
Proof.
  rewrite <- (list_fmap_id (sorted_by _ l)).
  apply (StronglySorted_fmap id _ _ _ pycmp_interval_start), sorted_by_sorted.
Qed.

Lemma merge_spec l :
  (∀ i, i ∈ l → interval_ok i) →
  ∃ m, merge_monotonic_intervals l = Ok m ∧ separated m ∧ active_ticks m = active_ticks l.
Proof.
  intros Hok. unfold merge_monotonic_intervals.
  destruct (merge_sorted_spec None (sorted_by (λ i : Interval, i) l)) as (m & Hm & Hs & Ht & _).
  - apply sorted_starts.
  - intros i. rewrite elem_of_sorted_by. apply Hok.
  - done.
  - exists m. rewrite Hm, Ht. split; [done|]. split; [done|]. apply active_ticks_perm.
    by rewrite sorted_by_Permutation.
Qed.

Lemma merge_invalid last l :
  (∃ i, i ∈ l ∧ ¬ interval_ok i) →
  merge_sorted last l = Raise (ValueError "monotonic intervals require 0 <= start <= finish").
Proof.
  revert last. induction l as [|[s f] l IH]; intros last (i & Hi & Hbad); [by apply elem_of_nil in Hi|].
  cbn [merge_sorted]. unfold interval_ok in Hbad.
  destruct ((s <? 0) || (f <? s)) eqn:E; [done|]. apply orb_false_iff in E as [E1 E2].
  assert (Hl : ∃ i, i ∈ l ∧ ¬ interval_ok i).
  { exists i. split; [|done]. apply elem_of_cons in Hi as [->|Hi]; [cbn in Hbad; lia|done]. }
  destruct last as [[ps pf]|]; [destruct (pf <? s)|]; by rewrite ?(IH _ Hl).
Qed.

(** [merge] and the union in one statement. *)
Lemma interval_union_spec l :
  (∀ i, i ∈ l → interval_ok i) → interval_union_ns l = Ok (elapsed_of l).
Proof.
  intros Hok. unfold interval_union_ns. destruct (merge_spec l Hok) as (m & -> & Hs & Ht).
  rewrite (separated_sum m Hs). unfold elapsed_of. by rewrite Ht.
Qed.

Lemma interval_union_Ok l n :
  interval_union_ns l = Ok n → (∀ i, i ∈ l → interval_ok i) ∧ n = elapsed_of l.
Proof.
  intros H. assert (Hok : ∀ i, i ∈ l → interval_ok i).
  { intros i Hi. destruct (decide (0 ≤ i.1 ∧ i.1 ≤ i.2)) as [|Hbad]; [unfold interval_ok; lia|].
    exfalso. unfold interval_union_ns, merge_monotonic_intervals in H.
    rewrite merge_invalid in H; [done|]. exists i. rewrite elem_of_sorted_by. split; [done|].
    unfold interval_ok. lia. }
  split; [done|]. rewrite (interval_union_spec l Hok) in H. congruence.
Qed.

Lemma merge_Ok l m :
  merge_monotonic_intervals l = Ok m →
  (∀ i, i ∈ l → interval_ok i) ∧ separated m ∧ active_ticks m = active_ticks l.
Proof.
  intros H. assert (Hu : ∃ n, interval_union_ns l = Ok n).
  { unfold interval_union_ns. rewrite H. by eexists. }
  destruct Hu as [n [Hok _]%interval_union_Ok]. split; [done|].
  destruct (merge_spec l Hok) as (m' & Hm & Hs & Ht). rewrite H in Hm. by injection Hm as ->.
Qed.

Lemma merge_sorted_separated last l :
  separated (match last with Some p => [p] | None => [] end ++ l) →
  merge_sorted last l = Ok (match last with Some p => [p] | None => [] end ++ l).
Proof.
  revert last. induction l as [|[s f] l IH]; intros last Hs; [by destruct last|].
  assert (Hsf : interval_ok (s, f)) by (destruct last; cbn in Hs; tauto).
  unfold interval_ok in Hsf. cbn [merge_sorted]. cbn in Hsf.
  assert ((s <? 0) || (f <? s) = false) as -> by (apply orb_false_iff; lia).
  destruct last as [[ps pf]|].
  - cbn [app] in Hs. destruct Hs as (Hp & Hlt & Hrest). cbn in Hlt.
    replace (pf <? s) with true by lia. by rewrite (IH (Some (s, f)) Hrest).
  - by apply (IH (Some (s, f))).
Qed.

Lemma sorted_by_separated l : separated l → sorted_by (λ i : Interval, i) l = l.
Proof.
  intros Hs. eapply (StronglySorted_unique_strong (key_le (λ i : Interval, i)));
    [|apply sorted_by_sorted| |apply sorted_by_Permutation].
  { intros i j _ _ H1 H2. apply pycmp_eq, pycmp_Eq_le. by split. }
  induction l as [|i l IH]; [constructor|]. constructor; [apply IH, Hs|].
  apply Forall_forall. intros j Hj. pose proof (separated_after i l Hs j Hj) as Hlt.
  destruct Hs as (Hi & _). unfold interval_ok in Hi.
  unfold key_le, pyle, pycmp, pair_ord, pycmp, Z_ord.
  assert ((i.1 ?= j.1) = Lt) as -> by (apply Z.compare_lt_iff; lia). done.
Qed.

Lemma merge_separated l : separated l → merge_monotonic_intervals l = Ok l.
Proof.
  intros Hs. unfold merge_monotonic_intervals. rewrite sorted_by_separated by done.
  by apply (merge_sorted_separated None).
Qed.

(** Merging intervals is exact.  Intervals that are all valid merge into a
    sorted list of pairwise separated intervals over the same nanoseconds, in
    whatever order they are given, and merging again changes nothing; the union
    length counts every nanosecond of the input once.  One invalid interval
    anywhere in the list makes both raise. *)
Theorem merge_intervals_exact l :
  ((∀ i, i ∈ l → 0 ≤ i.1 ≤ i.2) →
   ∃ m, merge_monotonic_intervals l = Ok m ∧ separated m ∧
     (∀ t, t ∈ active_ticks m ↔ ∃ i, i ∈ l ∧ i.1 ≤ t < i.2) ∧
     merge_monotonic_intervals m = Ok m ∧
     interval_union_ns l = Ok (Z.of_nat (size (active_ticks l))) ∧
     ∀ l', l ≡ₚ l' → merge_monotonic_intervals l' = Ok m)
  ∧ ((∃ i, i ∈ l ∧ ¬ 0 ≤ i.1 ≤ i.2) →
     ∃ msg, merge_monotonic_intervals l = Raise (ValueError msg)
            ∧ interval_union_ns l = Raise (ValueError msg)).
Proof.
  split.
  - intros Hok. destruct (merge_spec l Hok) as (m & Hm & Hs & Ht). exists m.
    split; [done|]. split; [done|].
    split; [intros t; by rewrite Ht, elem_of_active_ticks|].
    split; [by apply merge_separated|]. split; [by apply interval_union_spec|].
    intros l' Hp. rewrite <- Hm. unfold merge_monotonic_intervals. f_equal. symmetry.
    apply sorted_by_unique; [|done]. intros x y _ _. apply pycmp_eq.
  - intros (i & Hi & Hbad). eexists. unfold interval_union_ns, merge_monotonic_intervals.
    rewrite merge_invalid; [by split|]. exists i. by rewrite elem_of_sorted_by.
Qed.

Lemma merge_intervals_exact_witness :
  merge_monotonic_intervals [(5, 9); (0, 2); (1, 5)] = Ok [(0, 9)] ∧
  (∃ msg, merge_monotonic_intervals [(0, 2); (7, 6)] = Raise (ValueError msg)) ∧
  interval_union_ns [(5, 9); (0, 2); (1, 5)] = Ok (elapsed_of [(5, 9); (0, 2); (1, 5)]).
Proof.
  split; [reflexivity|]. split.
  - destruct (proj2 (merge_intervals_exact [(0, 2); (7, 6)])) as (msg & H & _); [|by exists msg].
    exists (7, 6). split; [by right; left|cbn; lia].
  - destruct (proj1 (merge_intervals_exact [(5, 9); (0, 2); (1, 5)])) as (m & _ & _ & _ & _ & H & _);
      [|exact H].
    intros i [->|[->|[->|?%elem_of_nil]%elem_of_cons]%elem_of_cons]%elem_of_cons; cbn; [lia..|done].
Defined.

(** ** The ledgers of receipts *)
Lemma elapsed_app l1 l2 : elapsed_of (l1 ++ l2) ≤ elapsed_of l1 + elapsed_of l2.
Proof.
  unfold elapsed_of, active_ticks. rewrite map_app, union_list_app_L, size_union_alt.
  assert (size (⋃ map ticks l2 ∖ ⋃ map ticks l1) ≤ size (⋃ map ticks l2))%nat
    by (apply subseteq_size; set_solver). lia.
Qed.

Lemma elapsed_concat ls : elapsed_of (concat ls) ≤ sum_Z (map elapsed_of ls).
Proof.
  induction ls as [|l ls IH]; [done|]. cbn [concat map]. pose proof (elapsed_app l (concat ls)).
  unfold sum_Z in *. cbn [foldr]. lia.
Qed.

Lemma active_ticks_concat ls ls' :
  Forall2 (λ l l', active_ticks l = active_ticks l') ls ls' →
  active_ticks (concat ls) = active_ticks (concat ls').
Proof.
  unfold active_ticks. induction 1 as [|l l' ls ls' Hl _ IH]; [done|].
  cbn [concat]. by rewrite !map_app, !union_list_app_L, Hl, IH.
Qed.

Lemma elapsed_nonneg l : 0 ≤ elapsed_of l.
Proof. unfold elapsed_of. lia. Qed.

Lemma sum_Z_le {A} (f g : A → Z) l :
  (∀ x, x ∈ l → f x ≤ g x) → sum_Z (map f l) ≤ sum_Z (map g l).
Proof.
  unfold sum_Z. induction l as [|x l IH]; intros H; cbn [map foldr]; [done|].
  pose proof (H x ltac:(left)). pose proof (IH ltac:(intros; apply H; by right)). lia.
Qed.
Lemma sum_Z_mul {A} (f : A → Z) k l : sum_Z (map (λ x, f x * k) l) = sum_Z (map f l) * k.
Proof. unfold sum_Z. induction l as [|x l IH]; cbn [map foldr]; [done|]. rewrite IH. lia. Qed.
Lemma sum_Z_ext {A} (f g : A → Z) l :
  (∀ x, x ∈ l → f x = g x) → sum_Z (map f l) = sum_Z (map g l).
Proof. intros H. apply Z.le_antisymm; apply sum_Z_le; intros x Hx; by rewrite H. Qed.

Lemma new_AssignmentExecutionReceipt_Ok r r' :
  new_AssignmentExecutionReceipt r = Ok r' →
  r' = r ∧ separated (attempt_intervals r) ∧ attempt r = zlength (attempt_intervals r) ∧
  1 ≤ attempt r ∧ 1 ≤ ar_gpu_count r ≤ ar_fixed_instance_gpu_count r ∧
  attributed_gpu_ns r = elapsed_of (attempt_intervals r) * ar_gpu_count r ∧
  attributed_fixed_instance_gpu_ns r
    = elapsed_of (attempt_intervals r) * ar_fixed_instance_gpu_count r.
Proof.
  unfold new_AssignmentExecutionReceipt. intros H. repeat step_ok H.
  match goal with Hu : interval_union_ns _ = Ok ?n |- _ =>
    apply interval_union_Ok in Hu as [_ ->] end.
  match goal with Hm : merge_monotonic_intervals _ = Ok ?l |- _ =>
    apply merge_Ok in Hm as (_ & Hs & _) end.
  bools. assert (r' = r) as ->.
  { destruct (ar_status r); [|by repeat step_ok H; injection H as <-].
    repeat step_ok H. destruct (terminal_binding r); [|done]. by repeat step_ok H; injection H as <-. }
  subst. by split_and!; try lia.
Qed.

Lemma new_DispatchWaveExecutionReceipt_Ok r r' :
  new_DispatchWaveExecutionReceipt r = Ok r' →
  r' = r ∧ assignment_receipts r ≠ [] ∧
  active_ticks (wr_active_intervals r)
    = active_ticks (concat (map attempt_intervals (assignment_receipts r))) ∧
  NoDup (map ar_assignment_sha256 (assignment_receipts r)) ∧
  wr_attributed_gpu_ns r = sum_Z (map attributed_gpu_ns (assignment_receipts r)) ∧
  wr_attributed_fixed_gpu_ns r = sum_Z (map attributed_fixed_instance_gpu_ns (assignment_receipts r)) ∧
  ∀ a, a ∈ assignment_receipts r → ar_fixed_instance_gpu_count a = wr_fixed_instance_gpu_count r.
Proof.
  unfold new_DispatchWaveExecutionReceipt. intros H. repeat step_ok H. injection H as <-.
  match goal with Hm : merge_monotonic_intervals _ = Ok ?l |- _ =>
    apply merge_Ok in Hm as (_ & _ & Hm) end.
  unfold unique_text in *. bools. split; [done|]. split; [by destruct (assignment_receipts r)|].
  split; [congruence|]. split; [done|]. split; [done|]. split; [done|]. intros a' Ha'.
  match goal with He : existsb _ _ = false |- _ => apply not_true_iff_false in He;
    destruct (Z.eq_dec (ar_fixed_instance_gpu_count a') (wr_fixed_instance_gpu_count r)); [done|];
    exfalso; apply He, existsb_exists; exists a' end.
  split; [by apply list_elem_of_In|]. by apply negb_true_iff, Z.eqb_neq.
Qed.

Lemma new_DispatchScheduleReceipt_Ok r r' :
  new_DispatchScheduleReceipt r = Ok r' →
  r' = r ∧
  active_ticks (sr_active_intervals r)
    = active_ticks (concat (map wr_active_intervals (wave_receipts r))) ∧
  sr_billed_gpu_ns r = elapsed_of (sr_active_intervals r) * sr_fixed_instance_gpu_count r ∧
  1 ≤ sr_fixed_instance_gpu_count r ∧
  sr_attributed_gpu_ns r = sum_Z (map wr_attributed_gpu_ns (wave_receipts r)) ∧
  sr_attributed_fixed_gpu_ns r = sum_Z (map wr_attributed_fixed_gpu_ns (wave_receipts r)) ∧
  ∀ w, w ∈ wave_receipts r → wr_fixed_instance_gpu_count w = sr_fixed_instance_gpu_count r.
Proof.
  unfold new_DispatchScheduleReceipt. intros H. repeat step_ok H.
  match goal with Hm : merge_monotonic_intervals _ = Ok ?l |- _ =>
    apply merge_Ok in Hm as (_ & _ & Hm) end.
  match goal with Hu : interval_union_ns _ = Ok ?n |- _ =>
    apply interval_union_Ok in Hu as [_ ->] end.
  bools. assert (r' = r) as ->.
  { destruct (sr_phase r); [done|..]; by repeat step_ok H; injection H as <-. }
  split; [done|]. split; [congruence|]. split; [done|]. split; [lia|]. split; [done|].
  split; [done|]. intros w Hw.
  match goal with He : existsb (λ w, _ || _) _ = false |- _ => apply not_true_iff_false in He;
    destruct (Z.eq_dec (wr_fixed_instance_gpu_count w) (sr_fixed_instance_gpu_count r)); [done|];
    exfalso; apply He, existsb_exists; exists w end.
  split; [by apply list_elem_of_In|]. apply orb_true_iff. right. by apply negb_true_iff, Z.eqb_neq.
Qed.

(** A schedule receipt all of whose parts passed their constructors. *)
Definition valid_schedule (r : DispatchScheduleReceipt) : Prop :=
  new_DispatchScheduleReceipt r = Ok r ∧
  ∀ w, w ∈ wave_receipts r → new_DispatchWaveExecutionReceipt w = Ok w ∧
    ∀ a, a ∈ assignment_receipts w → new_AssignmentExecutionReceipt a = Ok a.

(** Every attempt of every assignment of every wave. *)
Definition schedule_attempts (r : DispatchScheduleReceipt) : list Interval :=
  concat (map (λ w, concat (map attempt_intervals (assignment_receipts w))) (wave_receipts r)).

Lemma wave_attributed_ge w :
  new_DispatchWaveExecutionReceipt w = Ok w →
  (∀ a, a ∈ assignment_receipts w → new_AssignmentExecutionReceipt a = Ok a) →
  wr_attributed_gpu_ns w ≤ wr_attributed_fixed_gpu_ns w ∧
  wr_attributed_fixed_gpu_ns w
    = sum_Z (map (λ a, elapsed_of (attempt_intervals a)) (assignment_receipts w))
      * wr_fixed_instance_gpu_count w.
Proof.
  intros (_ & _ & _ & _ & -> & -> & Hf)%new_DispatchWaveExecutionReceipt_Ok Ha. split.
  - apply sum_Z_le. intros a Hin.
    destruct (new_AssignmentExecutionReceipt_Ok a a (Ha a Hin)) as (_ & _ & _ & _ & [? ?] & -> & ->).
    pose proof (elapsed_nonneg (attempt_intervals a)). nia.
  - rewrite <- sum_Z_mul. apply sum_Z_ext. intros a Hin.
    destruct (new_AssignmentExecutionReceipt_Ok a a (Ha a Hin)) as (_ & _ & _ & _ & _ & _ & ->).
    by rewrite (Hf a Hin).
Qed.

(** C9. The bill counts every nanosecond once.  A valid schedule receipt bills
    the instance for exactly the nanoseconds in which at least one attempt of
    at least one assignment ran, times the GPUs of the instance; the
    per-assignment attribution, which counts concurrent attempts each, is never
    below the bill, and the attribution to the gangs never above it. *)
Theorem billed_once r :
  valid_schedule r →
  sr_billed_gpu_ns r
    = Z.of_nat (size (active_ticks (schedule_attempts r))) * sr_fixed_instance_gpu_count r ∧
  0 ≤ sr_billed_gpu_ns r ≤ sr_attributed_fixed_gpu_ns r ∧
  sr_attributed_gpu_ns r ≤ sr_attributed_fixed_gpu_ns r.
Proof.
  intros [(_ & Ht & Hb & Hone & Hg & Hf & Hcount)%new_DispatchScheduleReceipt_Ok Hws].
  assert (Hticks : elapsed_of (sr_active_intervals r) = elapsed_of (schedule_attempts r)).
  { unfold elapsed_of. rewrite Ht. unfold schedule_attempts. do 2 f_equal.
    apply active_ticks_concat. rewrite Forall2_fmap. apply Forall_Forall2_diag, Forall_forall.
    intros w Hw. by destruct (new_DispatchWaveExecutionReceipt_Ok w w (proj1 (Hws w Hw)))
      as (_ & _ & ? & _). }
  rewrite Hb, Hticks. split; [done|]. rewrite Hf, Hg. split.
  - pose proof (elapsed_nonneg (schedule_attempts r)). split; [nia|].
    unfold schedule_attempts. etrans.
    { apply Z.mul_le_mono_nonneg_r; [lia|]. apply elapsed_concat. }
    rewrite map_map, <- sum_Z_mul. apply sum_Z_le. intros w Hw.
    destruct (Hws w Hw) as [Hnew Ha]. destruct (wave_attributed_ge w Hnew Ha) as [_ ->].
    rewrite (Hcount w Hw). apply Z.mul_le_mono_nonneg_r; [lia|].
    etrans; [apply elapsed_concat|]. by rewrite map_map.
  - apply sum_Z_le. intros w Hw. destruct (Hws w Hw) as [Hnew Ha].
    by destruct (wave_attributed_ge w Hnew Ha).
Qed.

(** Two overlapping failed attempts on a two-GPU instance: 15 ns of wall time,
    20 ns of attempts. *)
Definition demo_hash (c : string) : string :=
  String.concat EmptyString (replicate 64 c).
Definition demo_row (c : string) (i : Interval) : AssignmentExecutionReceipt := {|
  ar_plan_sha256 := demo_hash "a"; ar_wave_sha256 := demo_hash "b";
  ar_assignment_sha256 := demo_hash c; ar_budget_sha256 := demo_hash "d"; attempt := 1;
  ar_status := FAILED; ar_terminal_receipt_sha256 := None; terminal_binding := None;
  failure_sha256 := Some (demo_hash "f"); prior_attempt_receipt_sha256 := None;
  ar_gpu_count := 1; ar_fixed_instance_gpu_count := 2; attempt_intervals := [i];
  attributed_gpu_ns := i.2 - i.1; attributed_fixed_instance_gpu_ns := (i.2 - i.1) * 2;
  ar_accounting_semantics := assignment_semantics |}.
Definition demo_wave_receipt : DispatchWaveExecutionReceipt := {|
  wr_plan_sha256 := demo_hash "a"; wr_wave_index := 0; wr_wave_sha256 := demo_hash "b";
  assignment_receipts := [demo_row "1" (10, 20); demo_row "2" (15, 25)];
  wr_inventory_sha256 := demo_hash "e"; wr_fixed_instance_gpu_count := 2;
  wr_active_intervals := [(10, 25)]; wr_billed_gpu_ns := 30; wr_attributed_gpu_ns := 20;
  wr_attributed_fixed_gpu_ns := 40; wr_accounting_semantics := ledger_semantics |}.
Definition demo_schedule_receipt : DispatchScheduleReceipt := {|
  sr_plan_sha256 := demo_hash "a"; sr_phase := PHASE_FAILED;
  wave_receipts := [demo_wave_receipt]; sr_inventory_sha256 := demo_hash "e";
  sr_fixed_instance_gpu_count := 2; sr_active_intervals := [(10, 25)]; sr_billed_gpu_ns := 30;
  sr_attributed_gpu_ns := 20; sr_attributed_fixed_gpu_ns := 40;
  prior_schedule_receipt_sha256 := None; sr_accounting_semantics := ledger_semantics |}.

Lemma billed_once_witness :
  valid_schedule demo_schedule_receipt ∧
  Z.of_nat (size (active_ticks (schedule_attempts demo_schedule_receipt))) * 2 = 30 ∧
  sr_billed_gpu_ns demo_schedule_receipt < sr_attributed_fixed_gpu_ns demo_schedule_receipt.
Proof.
  assert (Hv : valid_schedule demo_schedule_receipt).
  { split; [vm_compute; reflexivity|]. intros w ->%list_elem_of_singleton.
    split; [vm_compute; reflexivity|].
    intros a [->|[->|Ha%elem_of_nil]%elem_of_cons]%elem_of_cons;
      [vm_compute; reflexivity..|destruct Ha]. }
  split; [exact Hv|]. destruct (billed_once demo_schedule_receipt Hv) as (H & _ & _).
  split; [symmetry; exact H|reflexivity].
Defined.
