(* ===== verification/ExecutionSafety.v ===== *)
(** * Safety of plan execution

    What [execute_dispatch_plan] returns is a valid ledger that a later resume
    accepts; a retry runs exactly the assignments that failed; and when every
    assignment succeeds the plan completes. *)
From S2P Require Import Prelude PyFloat FloatRepr Hashlib Registry GpuPool Execution Intervals.

(** ** Shared facts *)
Lemma list_find_unique {A B} `{EqDecision B} (f : A → B) l a :
  NoDup (map f l) → a ∈ l → ∃ i, list_find (λ x, f x = f a) l = Some (i, a).
Proof.
  intros Hnd Ha. destruct (list_find_elem_of (λ x, f x = f a) l a Ha eq_refl) as [[i b] Hb].
  exists i. rewrite Hb. apply list_find_Some in Hb as (Hi & Heq & _).
  apply list_elem_of_lookup in Ha as [j Hj].
  assert (i = j) as ->; [|congruence].
  eapply (NoDup_lookup (map f l)); [done| |]; apply list_lookup_fmap_Some; eauto.
Qed.

Lemma list_to_map_reverse_Some {A} (l : list (string * A)) k x :
  (list_to_map (reverse l) : gmap string A) !! k = Some x → (k, x) ∈ l.
Proof. intros H%elem_of_list_to_map_2. by rewrite elem_of_reverse in H. Qed.

Lemma receipts_by_id_Some st l k r :
  receipts_by_id st l !! k = Some r →
  r ∈ l ∧ ar_status r = st ∧ ar_assignment_sha256 r = k.
Proof.
  unfold receipts_by_id. intros (r' & Heq & Hr)%elem_of_list_to_map_2%list_elem_of_fmap.
  injection Heq as -> ->. rewrite elem_of_reverse in Hr. by apply list_elem_of_filter in Hr as [? ?].
Qed.

Lemma receipts_by_id_lookup st l r :
  NoDup (map ar_assignment_sha256 l) → r ∈ l → ar_status r = st →
  receipts_by_id st l !! ar_assignment_sha256 r = Some r.
Proof.
  intros Hnd Hr Hst. unfold receipts_by_id. apply elem_of_list_to_map_1.
  - rewrite <- list_fmap_compose. unfold compose. cbn. rewrite fmap_reverse.
    rewrite reverse_Permutation. by apply NoDup_map_filter.
  - apply list_elem_of_fmap. exists r. split; [done|]. apply elem_of_reverse.
    by apply list_elem_of_filter.
Qed.

Lemma receipts_by_id_None st l r k :
  NoDup (map ar_assignment_sha256 l) → r ∈ l → ar_status r ≠ st → ar_assignment_sha256 r = k →
  receipts_by_id st l !! k = None.
Proof.
  intros Hnd Hr Hst Hk. destruct (_ !! k) as [r'|] eqn:E; [|done].
  apply receipts_by_id_Some in E as (Hr' & Hst' & Hk').
  apply list_elem_of_lookup in Hr as [i Hi], Hr' as [j Hj].
  assert (i = j) as ->; [|congruence].
  apply (NoDup_lookup (map ar_assignment_sha256 l) i j k); [done| |];
    apply list_lookup_fmap_Some; eexists; (split; [|eassumption]); congruence.
Qed.

Section runs.
Context `{ExecutionContext} (runner : Runner).

(** What the revalidation of a terminal authority guarantees of its binding. *)
Definition faithful_runner : Prop := ∀ p b, run_terminal runner p = inr b →
  tb_cell_id b = item_id (work_item (pa_assignment p)) ∧
  tb_inventory_sha256 b = inventory_sha ∧ tb_physical_gpu_uuids b = gpu_uuids (pa_assignment p).

(** ** One assignment *)
Record row_of (plan : GpuDispatchPlan) (wave : GpuDispatchWave) (sched : option string)
    (p : Pending) (r : AssignmentExecutionReceipt) : Prop := {
  ro_run : run_assignment runner plan wave sched p = Ok r;
  ro_new : new_AssignmentExecutionReceipt r = Ok r;
  ro_plan : ar_plan_sha256 r = plan_sha256 plan;
  ro_wave : ar_wave_sha256 r = wave_sha256 wave;
  ro_id : ar_assignment_sha256 r = assignment_id (pa_assignment p);
  ro_budget : ar_budget_sha256 r = budget_sha256 (pa_budget p);
  ro_attempt : attempt r = pa_attempt p;
  ro_fixed : ar_fixed_instance_gpu_count r = fixed_count;
  ro_gpus : ar_gpu_count r = zlength (gpu_uuids (pa_assignment p));
  ro_prior : prior_attempt_receipt_sha256 r = assignment_receipt_sha256 <$> pa_prior p;
  ro_start : ∃ s f, begin_attempt runner wave p sched = Ok s ∧
    attempt_intervals r = (prior_intervals p ++ [(s, f)])%list;
  ro_binding : ∀ b, terminal_binding r = Some b → run_terminal runner p = inr b;
}.

Lemma make_receipt_Ok plan wave sched p s f term fail r :
  run_assignment runner plan wave sched p = Ok r →
  make_receipt plan wave p s f term fail = Ok r → begin_attempt runner wave p sched = Ok s →
  (∀ b, term = Some b → run_terminal runner p = inr b) → row_of plan wave sched p r.
Proof.
  unfold make_receipt. intros Hrun Hr Hs Hb. step_ok Hr.
  pose proof (new_AssignmentExecutionReceipt_Ok _ _ Hr) as [Heq _].
  rewrite <- Heq in Hr. subst r. split; try done. by eexists _, _.
Qed.

Lemma run_assignment_Ok plan wave sched p r :
  run_assignment runner plan wave sched p = Ok r → row_of plan wave sched p r.
Proof.
  intros Hrun. pose proof Hrun as Hr. unfold run_assignment in Hr. step_ok Hr.
  match type of Hr with (match ?m with _ => _ end) = _ => destruct m as [r'|] eqn:E1; [|done] end.
  step_ok Hr. injection Hr as ->.
  destruct (run_terminal runner p) as [e|b] eqn:Eb.
  - eapply make_receipt_Ok; [exact Hrun|exact E1|exact E|discriminate].
  - destruct (make_receipt plan wave p a (finished_clock runner p) (Some b) None) eqn:E2.
    + injection E1 as ->. eapply make_receipt_Ok; [done|done|done|]. by intros ? [= <-].
    + eapply make_receipt_Ok; [exact Hrun|exact E1|exact E|discriminate].
Qed.

(** ** The pending attempts of a wave *)
Lemma pending_of_Ok succ prior l ps :
  pending_of succ prior l = Ok ps →
  ∀ p, p ∈ ps → pa_assignment p ∈ l ∧ succ !! assignment_id (pa_assignment p) = None ∧
    pa_prior p = prior !! assignment_id (pa_assignment p) ∧
    pa_attempt p = match pa_prior p with Some r => attempt r + 1 | None => 1 end ∧
    budget_for (item_id (work_item (pa_assignment p))) = Ok (pa_budget p) ∧
    pa_attempt p ≤ retry_allowance (pa_budget p) + 1.
Proof.
  revert ps. induction l as [|a l IH]; cbn; intros ps Hps p Hp.
  { injection Hps as <-. by apply elem_of_nil in Hp. }
  case_bool_decide as Hs.
  { destruct (IH _ Hps p Hp) as (? & ?). split; [by right|done]. }
  step_ok Hps. step_ok Hps. step_ok Hps. injection Hps as <-.
  apply elem_of_cons in Hp as [->|Hp].
  - cbn. split; [by left|]. split; [by apply eq_None_not_Some|]. split; [done|].
    split; [done|]. split; [done|]. bools. lia.
  - destruct (IH _ eq_refl p Hp) as (? & ?). split; [by right|done].
Qed.

Lemma task_group_Ok {A} (l : list (result A)) rs :
  task_group l = Ok rs → Forall2 (λ t r, t = Ok r) l rs.
Proof.
  unfold task_group. destruct (mapR id l) as [x|] eqn:E; [|done]. intros [= ->].
  by apply mapR_Ok in E.
Qed.

(** ** One wave *)
Definition kept_rows (wave : GpuDispatchWave) (failed : option DispatchWaveExecutionReceipt)
    : list AssignmentExecutionReceipt :=
  match failed with
  | Some f => if wave_index wave =? wr_wave_index f then assignment_receipts f else []
  | None => []
  end.

(** Where the row of an assignment comes from: kept from the failed wave, or one
    new attempt. *)
Definition row_source (plan : GpuDispatchPlan) (wave : GpuDispatchWave) (sched : option string)
    (kept : list AssignmentExecutionReceipt) (a : GpuAssignment)
    (r : AssignmentExecutionReceipt) : Prop :=
  (r ∈ kept ∧ ar_status r = SUCCEEDED ∧ ar_assignment_sha256 r = assignment_id a) ∨
  ∃ p, pa_assignment p ∈ assignments wave ∧ assignment_id (pa_assignment p) = assignment_id a ∧
    receipts_by_id SUCCEEDED kept !! assignment_id a = None ∧
    pa_prior p = receipts_by_id FAILED kept !! assignment_id a ∧
    pa_attempt p = match pa_prior p with Some q => attempt q + 1 | None => 1 end ∧
    budget_for (item_id (work_item (pa_assignment p))) = Ok (pa_budget p) ∧
    pa_attempt p ≤ retry_allowance (pa_budget p) + 1 ∧ row_of plan wave sched p r.

Lemma make_wave_receipt_Ok plan wave rows w :
  make_wave_receipt plan wave rows = Ok w →
  new_DispatchWaveExecutionReceipt w = Ok w ∧ assignment_receipts w = rows ∧
  wr_plan_sha256 w = plan_sha256 plan ∧ wr_wave_sha256 w = wave_sha256 wave ∧
  wr_wave_index w = wave_index wave ∧ wr_inventory_sha256 w = inventory_sha ∧
  wr_fixed_instance_gpu_count w = fixed_count.
Proof.
  unfold make_wave_receipt. intros Hw. step_ok Hw. step_ok Hw.
  pose proof (new_DispatchWaveExecutionReceipt_Ok _ _ Hw) as [Heq _].
  rewrite <- Heq in Hw. by subst w.
Qed.

Lemma wave_rows_Ok plan wave sched kept ps rs rows :
  pending_of (receipts_by_id SUCCEEDED kept) (receipts_by_id FAILED kept) (assignments wave)
    = Ok ps →
  task_group (map (run_assignment runner plan wave sched) ps) = Ok rs →
  collect (receipts_by_id SUCCEEDED kept)
    (list_to_map (reverse (zip (map (λ p, assignment_id (pa_assignment p)) ps) rs)))
    (assignments wave) = Ok rows →
  Forall2 (row_source plan wave sched kept) (assignments wave) rows.
Proof.
  intros Hpend Htasks Hrows. pose proof (pending_of_Ok _ _ _ _ Hpend) as Hin.
  apply mapR_Ok in Hrows. apply task_group_Ok in Htasks.
  eapply Forall2_impl; [exact Hrows|]. intros x r Hr. cbn in Hr.
  destruct (receipts_by_id SUCCEEDED kept !! assignment_id x) as [s|] eqn:Es.
  { injection Hr as ->. left. by apply receipts_by_id_Some. }
  destruct (_ !! assignment_id x) as [t|] eqn:Et in Hr; [|done]. injection Hr as ->.
  right. apply list_to_map_reverse_Some in Et.
  apply list_elem_of_lookup in Et as [i Hi]. apply lookup_zip_Some in Hi as [Hi1 Hi2].
  apply list_lookup_fmap_Some in Hi1 as (p & Hp & Hpi).
  pose proof (Forall2_lookup_r _ _ _ _ _ Htasks Hi2) as (tk & Htk & Hrun).
  apply list_lookup_fmap_Some in Htk as (p' & -> & Hp'). rewrite Hpi in Hp'. injection Hp' as <-.
  destruct (Hin p) as (Ha & Hs & Hpr & Hat & Hb & Hle); [by eapply list_elem_of_lookup_2|].
  exists p. rewrite Hp.
  exact (conj Ha (conj eq_refl (conj Hs (conj Hpr (conj Hat (conj Hb (conj Hle
    (run_assignment_Ok _ _ _ _ _ Hrun)))))))).
Qed.

Lemma run_wave_Ok plan wave failed sched w :
  run_wave runner plan wave failed sched = Ok w →
  new_DispatchWaveExecutionReceipt w = Ok w ∧
  wr_plan_sha256 w = plan_sha256 plan ∧ wr_wave_sha256 w = wave_sha256 wave ∧
  wr_wave_index w = wave_index wave ∧ wr_inventory_sha256 w = inventory_sha ∧
  wr_fixed_instance_gpu_count w = fixed_count ∧
  Forall2 (row_source plan wave sched (kept_rows wave failed)) (assignments wave)
    (assignment_receipts w).
Proof.
  unfold run_wave. fold (kept_rows wave failed).
  intros Hw. step_ok Hw. step_ok Hw. step_ok Hw. step_ok Hw.
  apply make_wave_receipt_Ok in Hw as (Hnew & Hrows & ? & ? & ? & ? & ?).
  split_and!; try done. rewrite Hrows. by eapply wave_rows_Ok.
Qed.

Lemma kept_rows_same wave f :
  wave_index wave = wr_wave_index f → kept_rows wave (Some f) = assignment_receipts f.
Proof. intros H0. cbn. by rewrite H0, Z.eqb_refl. Qed.

Lemma wave_ids_NoDup wave :
  new_GpuDispatchWave wave = Ok wave → NoDup (map assignment_id (assignments wave)).
Proof.
  unfold new_GpuDispatchWave. intros Hw. repeat step_ok Hw. unfold unique_text in *. by bools.
Qed.

Lemma row_source_id plan wave sched kept a r :
  row_source plan wave sched kept a r → ar_assignment_sha256 r = assignment_id a.
Proof.
  intros [(_ & _ & Hid)|(p & _ & Hid & _ & _ & _ & _ & _ & Hrow)]; [exact Hid|].
  rewrite (ro_id _ _ _ _ _ Hrow). exact Hid.
Qed.

(** The row of [w] that stands for a row of the failed wave. *)
Lemma row_of_kept plan wave f sched w r :
  new_DispatchWaveExecutionReceipt f = Ok f → wave_index wave = wr_wave_index f →
  same_text_set (map assignment_id (assignments wave))
    (map ar_assignment_sha256 (assignment_receipts f)) = true →
  run_wave runner plan wave (Some f) sched = Ok w → r ∈ assignment_receipts f →
  ∃ a r', a ∈ assignments wave ∧ r' ∈ assignment_receipts w ∧
    assignment_id a = ar_assignment_sha256 r ∧
    row_source plan wave sched (assignment_receipts f) a r'.
Proof.
  intros _ Hidx Hids (_ & _ & _ & _ & _ & _ & Hrows)%run_wave_Ok Hr.
  rewrite kept_rows_same in Hrows by done.
  unfold same_text_set in Hids. bools.
  assert (Hin : ar_assignment_sha256 r ∈ map assignment_id (assignments wave)).
  { apply (elem_of_list_to_set (C := gset string)). rewrite Hids.
    apply (elem_of_list_to_set (C := gset string)). by apply list_elem_of_fmap_2. }
  apply list_elem_of_fmap in Hin as (a & Ha & Hin).
  apply list_elem_of_lookup in Hin as [i Hi].
  destruct (Forall2_lookup_l _ _ _ _ _ Hrows Hi) as (r' & Hr' & Hsrc).
  exists a, r'. split; [by eapply list_elem_of_lookup_2|].
  split; [by eapply list_elem_of_lookup_2|]. split; [by symmetry|exact Hsrc].
Qed.

Lemma unique_row f r r' :
  new_DispatchWaveExecutionReceipt f = Ok f → r ∈ assignment_receipts f →
  r' ∈ assignment_receipts f → ar_assignment_sha256 r' = ar_assignment_sha256 r → r' = r.
Proof.
  intros (_ & _ & _ & Hnd & _)%new_DispatchWaveExecutionReceipt_Ok Hr Hr' Heq.
  apply list_elem_of_lookup in Hr as [i Hi], Hr' as [j Hj].
  assert (i = j) as ->; [|congruence].
  apply (NoDup_lookup (map ar_assignment_sha256 (assignment_receipts f)) i j
           (ar_assignment_sha256 r)); [done| |];
    apply list_lookup_fmap_Some; eexists; (split; [|eassumption]); congruence.
Qed.

Lemma separated_snoc l s f i :
  separated (l ++ [(s, f)]) → last l = Some i → i.2 < s.
Proof.
  induction l as [|j l IH]; [done|]. cbn [app]. intros Hs Hl.
  destruct l as [|k l]; [injection Hl as ->; by destruct Hs as (_ & ? & _)|].
  apply IH; [by destruct Hs as (_ & _ & ?)|done].
Qed.
End runs.


(** C37. A retry needs a clock that has passed the previous attempt.  When a
    failed row of the wave ended at or after the monotonic time at which its
    retry begins (the clock restarts with the host), the wave returns no
    receipt at all, whatever the runner returns: neither the retry, even if it
    succeeds, nor its siblings are recorded. *)
Theorem late_clock_loses_wave `{ExecutionContext} runner plan wave f sched r last_attempt :
  new_DispatchWaveExecutionReceipt f = Ok f → wave_index wave = wr_wave_index f →
  same_text_set (map assignment_id (assignments wave))
    (map ar_assignment_sha256 (assignment_receipts f)) = true →
  r ∈ assignment_receipts f → ar_status r = FAILED →
  last (attempt_intervals r) = Some last_attempt →
  (∀ p s, pa_prior p = Some r → begin_attempt runner wave p sched = Ok s → s ≤ last_attempt.2) →
  is_ok (run_wave runner plan wave (Some f) sched) = false.
Proof.
  intros Hf Hidx Hids Hr Hst Hlast Hclock.
  destruct (run_wave runner plan wave (Some f) sched) as [w|] eqn:Hrun; [exfalso|done].
  pose proof (new_DispatchWaveExecutionReceipt_Ok f f Hf) as (_ & _ & _ & Hnd & _).
  destruct (row_of_kept _ _ _ _ _ _ r Hf Hidx Hids Hrun Hr) as (a & r' & _ & Hr' & Hid & Hsrc).
  destruct Hsrc as [(Hk & Hst' & Hkid)|(p & _ & _ & _ & Hprior & _ & _ & _ & Hrow)].
  - rewrite (unique_row f r r' Hf Hr Hk) in Hst'; [congruence|]. by rewrite Hkid.
  - rewrite Hid, (receipts_by_id_lookup FAILED _ r Hnd Hr Hst) in Hprior.
    destruct (ro_start _ _ _ _ _ _ Hrow) as (s & e & Hbegin & Hi).
    pose proof (Hclock p s Hprior Hbegin) as Hle.
    destruct (new_AssignmentExecutionReceipt_Ok _ _ (ro_new _ _ _ _ _ _ Hrow)) as (_ & Hsep & _).
    rewrite Hi in Hsep. unfold prior_intervals in Hsep. rewrite Hprior in Hsep.
    pose proof (separated_snoc _ _ _ _ Hsep Hlast). lia.
Qed.

(** ** Sound prefixes *)
Section soundness.
Context `{ExecutionContext} (runner : Runner) (plan : GpuDispatchPlan).
Hypothesis plan_valid : new_GpuDispatchPlan plan = Ok plan.
Hypothesis waves_valid : ∀ w, w ∈ waves plan → new_GpuDispatchWave w = Ok w.
Hypothesis plan_issued : validate_dispatch_plan plan = Ok tt.
Hypothesis faithful : faithful_runner runner.

Definition wave_sound (wave : GpuDispatchWave) (w : DispatchWaveExecutionReceipt) : Prop :=
  new_DispatchWaveExecutionReceipt w = Ok w ∧
  (∀ a, a ∈ assignment_receipts w → new_AssignmentExecutionReceipt a = Ok a) ∧
  validate_wave_receipt plan wave w = Ok tt.

Definition prefix_sound (ws : list DispatchWaveExecutionReceipt) : Prop :=
  ∀ i w, ws !! i = Some w → wr_wave_index w = Z.of_nat i ∧
    ∃ wave, waves plan !! i = Some wave ∧ wave_sound wave w.

Definition good_receipt (r : DispatchScheduleReceipt) : Prop :=
  valid_schedule r ∧ validate_resume_structure plan r = Ok tt.

Lemma wave_position i wave : waves plan !! i = Some wave → wave_index wave = Z.of_nat i.
Proof.
  intros Hi. pose proof plan_valid as Hp. unfold new_GpuDispatchPlan in Hp.
  repeat step_ok Hp. bools.
  match goal with Hm : map wave_index _ = _ |- _ =>
    assert (Hl : map wave_index (waves plan) !! i = Some (wave_index wave))
      by (by rewrite list_lookup_fmap, Hi); rewrite Hm in Hl end.
  apply lookup_seqZ in Hl. lia.
Qed.

Lemma produced_row_valid wave sched kept a r :
  new_GpuDispatchWave wave = Ok wave → a ∈ assignments wave →
  row_source runner plan wave sched kept a r →
  (∀ k, k ∈ kept → new_AssignmentExecutionReceipt k = Ok k ∧ validate_row plan wave k = Ok tt) →
  new_AssignmentExecutionReceipt r = Ok r ∧ validate_row plan wave r = Ok tt.
Proof.
  intros Hw Ha [(Hk & _)|(p & Hin & _ & _ & _ & _ & Hb & Hle & Hrow)] Hkept; [by apply Hkept|].
  split; [exact (ro_new _ _ _ _ _ _ Hrow)|]. unfold validate_row.
  rewrite (ro_id _ _ _ _ _ _ Hrow).
  destruct (list_find_unique assignment_id (assignments wave) (pa_assignment p)
    (wave_ids_NoDup wave Hw) Hin) as [i ->].
  rewrite Hb, (ro_plan _ _ _ _ _ _ Hrow), (ro_wave _ _ _ _ _ _ Hrow),
    (ro_budget _ _ _ _ _ _ Hrow), (ro_gpus _ _ _ _ _ _ Hrow), (ro_attempt _ _ _ _ _ _ Hrow).
  rewrite !bool_decide_eq_true_2 by reflexivity. rewrite Z.eqb_refl. cbn [negb orb].
  replace (_ <? pa_attempt p) with false by (symmetry; apply Z.ltb_ge; exact Hle).
  destruct (ar_status r) eqn:Est; [|reflexivity].
  destruct (terminal_binding r) as [b|] eqn:Eb.
  - destruct (faithful p b (ro_binding _ _ _ _ _ _ Hrow b Eb)) as (-> & -> & ->).
    by rewrite !bool_decide_eq_true_2 by reflexivity.
  - exfalso. pose proof (ro_new _ _ _ _ _ _ Hrow) as Hn.
    unfold new_AssignmentExecutionReceipt in Hn. repeat step_ok Hn.
    rewrite Est, Eb in Hn. by step_ok Hn.
Qed.

Lemma run_wave_sound wave failed sched w :
  new_GpuDispatchWave wave = Ok wave →
  (∀ f, failed = Some f → wave_index wave = wr_wave_index f → wave_sound wave f) →
  run_wave runner plan wave failed sched = Ok w →
  wave_sound wave w ∧ wr_wave_index w = wave_index wave ∧ wr_plan_sha256 w = plan_sha256 plan.
Proof.
  intros Hw Hfail (Hnew & Hp & Hws & Hidx & Hinv & Hcount & Hrows)%run_wave_Ok.
  assert (Hkept : ∀ k, k ∈ kept_rows wave failed →
            new_AssignmentExecutionReceipt k = Ok k ∧ validate_row plan wave k = Ok tt).
  { intros k Hk. destruct failed as [f|]; [|by apply elem_of_nil in Hk]. cbn in Hk.
    destruct (_ =? _) eqn:Ei; [|by apply elem_of_nil in Hk]. apply Z.eqb_eq in Ei.
    destruct (Hfail f eq_refl Ei) as (_ & Ha & Hv). split; [by apply Ha|].
    unfold validate_wave_receipt in Hv. repeat step_ok Hv.
    rewrite all_ok_Ok in Hv. by apply Hv. }
  assert (Hvalid : ∀ r, r ∈ assignment_receipts w →
            new_AssignmentExecutionReceipt r = Ok r ∧ validate_row plan wave r = Ok tt).
  { intros r [i Hi]%list_elem_of_lookup.
    destruct (Forall2_lookup_r _ _ _ _ _ Hrows Hi) as (a & Ha & Hsrc).
    eapply produced_row_valid; [exact Hw| |exact Hsrc|exact Hkept].
    by eapply list_elem_of_lookup_2. }
  split; [|by split]. split; [exact Hnew|]. split; [intros a Ha; by apply Hvalid|].
  unfold validate_wave_receipt. rewrite Hp, Hws, Hinv, Hcount, Z.eqb_refl.
  rewrite !bool_decide_eq_true_2 by reflexivity. cbn [negb orb].
  assert (map ar_assignment_sha256 (assignment_receipts w) = map assignment_id (assignments wave))
    as ->.
  { symmetry. apply list_eq_Forall2, Forall2_fmap. eapply Forall2_impl; [exact Hrows|].
    intros a r Hsrc. by rewrite (row_source_id _ _ _ _ _ _ _ Hsrc). }
  unfold same_text_set. rewrite bool_decide_eq_true_2 by reflexivity. cbn [negb].
  apply all_ok_Ok. intros r Hr. by apply Hvalid.
Qed.

(** ** Schedule receipts over a sound prefix *)
Definition phase_fits (phase : DispatchExecutionPhase) (ws : list DispatchWaveExecutionReceipt)
    : Prop :=
  match phase with
  | PHASE_PLANNED => False
  | PHASE_RUNNING => forallb succeeded ws = true ∧ ws ≠ [] ∧ zlength ws < zlength (waves plan)
  | PHASE_FAILED => ∃ front w, ws = (front ++ [w])%list ∧ forallb succeeded front = true
                              ∧ succeeded w = false
  | PHASE_COMPLETE => forallb succeeded ws = true ∧ zlength ws = zlength (waves plan)
  end.

Lemma prefix_sound_length ws : prefix_sound ws → zlength ws ≤ zlength (waves plan).
Proof.
  intros Hs. unfold zlength. apply Nat2Z.inj_le. apply Nat.nlt_ge. intros Hlt.
  destruct (lookup_lt_is_Some_2 ws (length (waves plan)) Hlt) as [w Hw].
  destruct (Hs _ _ Hw) as (_ & wave & Hl & _). apply lookup_lt_Some in Hl. lia.
Qed.

Lemma prefix_sound_snoc ws w wave :
  prefix_sound ws → waves plan !! length ws = Some wave → wave_sound wave w →
  wr_wave_index w = zlength ws → prefix_sound (ws ++ [w]).
Proof.
  intros Hs Hl Hw Hi i x [Hx|[Hlen Hx]]%lookup_app_Some; [by apply Hs|].
  destruct (i - length ws)%nat as [|n] eqn:E; [|done]. injection Hx as <-.
  assert (i = length ws) as -> by lia. split; [exact Hi|]. by exists wave.
Qed.

Lemma prefix_sound_app ws ws' : prefix_sound (ws ++ ws') → prefix_sound ws.
Proof. intros Hs i w Hw. apply Hs. by apply lookup_app_l_Some. Qed.

Lemma prefix_sound_waves ws :
  prefix_sound ws →
  all_ok (λ w, wave <-! wave_at plan (wr_wave_index w) ;; validate_wave_receipt plan wave w) ws
    = Ok tt.
Proof.
  intros Hs. apply all_ok_Ok. intros w [i Hi]%list_elem_of_lookup.
  destruct (Hs i w Hi) as (-> & wave & Hl & _ & _ & Hv).
  unfold wave_at. by rewrite Nat2Z.id, Hl.
Qed.

Lemma forallb_succeeded ws : forallb id (map succeeded ws) = forallb succeeded ws.
Proof. induction ws as [|w ws IH]; [done|]. cbn. by rewrite IH. Qed.

Lemma structure_ok r :
  sr_plan_sha256 r = plan_sha256 plan → sr_inventory_sha256 r = inventory_sha →
  sr_fixed_instance_gpu_count r = fixed_count → prefix_sound (wave_receipts r) →
  phase_fits (sr_phase r) (wave_receipts r) → validate_resume_structure plan r = Ok tt.
Proof.
  intros Hp Hi Hc Hs Hfit. unfold validate_resume_structure.
  rewrite plan_issued, Hp, Hi, Hc, prefix_sound_waves by done.
  rewrite !bool_decide_eq_true_2 by reflexivity. rewrite Z.eqb_refl. cbn [negb orb].
  pose proof (prefix_sound_length _ Hs).
  replace (_ <? zlength (wave_receipts r)) with false by lia.
  rewrite forallb_succeeded. destruct (sr_phase r); cbn in Hfit.
  - done.
  - destruct Hfit as (-> & Hne & Hlt). rewrite bool_decide_eq_false_2 by done. cbn.
    replace (zlength (waves plan) <=? _) with false by lia.
    by destruct (wave_receipts r).
  - destruct Hfit as (front & w & -> & Hf & Hw). rewrite bool_decide_eq_false_2 by done. cbn.
    unfold last_succeeded. rewrite last_snoc, Hw, map_app. cbn [map].
    rewrite removelast_last, forallb_succeeded, Hf. by destruct front.
  - destruct Hfit as (-> & ->). by rewrite Z.eqb_refl, andb_false_r.
Qed.

Lemma make_schedule_receipt_Ok phase ws prior r :
  make_schedule_receipt plan phase ws prior = Ok r →
  new_DispatchScheduleReceipt r = Ok r ∧ sr_phase r = phase ∧ wave_receipts r = ws ∧
  sr_plan_sha256 r = plan_sha256 plan ∧ sr_inventory_sha256 r = inventory_sha ∧
  sr_fixed_instance_gpu_count r = fixed_count ∧ prior_schedule_receipt_sha256 r = prior.
Proof.
  unfold make_schedule_receipt. intros Hr. step_ok Hr. step_ok Hr.
  pose proof (new_DispatchScheduleReceipt_Ok _ _ Hr) as [Heq _].
  rewrite <- Heq in Hr. by subst r.
Qed.

Lemma made_receipt_good phase ws prior r :
  prefix_sound ws → phase_fits phase ws → make_schedule_receipt plan phase ws prior = Ok r →
  good_receipt r.
Proof.
  intros Hs Hfit (Hnew & Hph & Hws & Hp & Hi & Hc & _)%make_schedule_receipt_Ok.
  rewrite <- Hws in Hs. rewrite <- Hws, <- Hph in Hfit.
  split; [|by apply structure_ok]. split; [exact Hnew|].
  intros w [i Hl]%list_elem_of_lookup. destruct (Hs i w Hl) as (_ & wave & _ & Hn & Ha & _).
  by split.
Qed.

Lemma schedule_indices r i w :
  new_DispatchScheduleReceipt r = Ok r → wave_receipts r !! i = Some w →
  wr_wave_index w = Z.of_nat i.
Proof.
  unfold new_DispatchScheduleReceipt. intros Hr Hi. do 2 step_ok Hr. bools.
  match goal with Hm : map wr_wave_index _ = _ |- _ =>
    assert (Hl : map wr_wave_index (wave_receipts r) !! i = Some (wr_wave_index w))
      by (by rewrite list_lookup_fmap, Hi); rewrite Hm in Hl end.
  apply lookup_seqZ in Hl. lia.
Qed.

Lemma good_prefix_sound r : good_receipt r → prefix_sound (wave_receipts r).
Proof.
  intros [[Hnew Hws] Hv] i w Hi. pose proof (schedule_indices r i w Hnew Hi) as Hidx.
  split; [exact Hidx|]. unfold validate_resume_structure in Hv.
  step_ok Hv. step_ok Hv. step_ok Hv. step_ok Hv. step_ok Hv.
  match goal with Ha : all_ok _ _ = Ok ?u |- _ => destruct u; rewrite all_ok_Ok in Ha;
    pose proof (Ha w (list_elem_of_lookup_2 _ _ _ Hi)) as Hw end.
  unfold wave_at in Hw. rewrite Hidx, Nat2Z.id in Hw.
  destruct (waves plan !! i) as [wave|]; [|done]. exists wave. split; [done|].
  destruct (Hws w (list_elem_of_lookup_2 _ _ _ Hi)) as [Hn Ha]. exact (conj Hn (conj Ha Hw)).
Qed.

Lemma good_phase_fits r : good_receipt r → phase_fits (sr_phase r) (wave_receipts r).
Proof.
  intros [[Hnew _] Hv].
  assert (Hph : sr_phase r ≠ PHASE_PLANNED).
  { intros Hph. unfold new_DispatchScheduleReceipt in Hnew. repeat step_ok Hnew.
    by rewrite Hph in Hnew. }
  unfold validate_resume_structure in Hv. repeat step_ok Hv. rewrite forallb_succeeded in Hv.
  destruct (sr_phase r); cbn [phase_fits]; [done|..].
  - step_ok Hv. bools. destruct (wave_receipts r); [done|].
    split; [assumption|]. split; [done|lia].
  - step_ok Hv. bools.
    destruct (wave_receipts r) as [|w ws _] using rev_ind; [done|].
    unfold last_succeeded in *. rewrite last_snoc in *. rewrite map_app in *. cbn [map] in *.
    rewrite removelast_last, forallb_succeeded in *. by exists ws, w.
  - rewrite bool_decide_eq_true_2 in * by reflexivity. cbn [andb] in *.
    step_ok Hv. bools. by split.
Qed.

(** ** The loop over the waves *)
Definition failed_sound (failed : option DispatchWaveExecutionReceipt) : Prop :=
  ∀ f, failed = Some f → ∃ wave, waves plan !! Z.to_nat (wr_wave_index f) = Some wave ∧
    wave_sound wave f.

(** What the loop returns: a sound receipt over the waves it had, then the waves
    it ran, all of them unless one failed. *)
Definition loop_result (prior : list DispatchWaveExecutionReceipt) (ws : list GpuDispatchWave)
    (r : DispatchScheduleReceipt) : Prop :=
  good_receipt r ∧ prior `prefix_of` wave_receipts r ∧
  zlength prior ≤ zlength (wave_receipts r) ≤ zlength prior + zlength ws ∧
  (sr_phase r ≠ PHASE_FAILED → zlength (wave_receipts r) = zlength prior + zlength ws).

Lemma accept_Ok w total s s' :
  accept w total s = Ok s' →
  wr_wave_index w = next_wave_index s ∧ next_wave_index s' = next_wave_index s + 1 ∧
  es_phase s' = if negb (succeeded w) then PHASE_FAILED
                else if next_wave_index s + 1 =? total then PHASE_COMPLETE else PHASE_RUNNING.
Proof.
  unfold accept, new_DispatchExecutionState. intros Hs. repeat step_ok Hs. injection Hs as <-.
  bools. by split_and!.
Qed.

Lemma accepted_phase_fits prior w wave :
  prefix_sound (prior ++ [w]) → forallb succeeded prior = true →
  waves plan !! length prior = Some wave →
  phase_fits (if negb (succeeded w) then PHASE_FAILED
              else if zlength prior + 1 =? zlength (waves plan) then PHASE_COMPLETE
              else PHASE_RUNNING) (prior ++ [w]).
Proof.
  intros Hs Hok Hl. apply lookup_lt_Some in Hl. unfold zlength.
  destruct (succeeded w) eqn:Ew; cbn [negb]; [|by exists prior, w].
  assert (forallb succeeded (prior ++ [w]) = true) as Hall
    by (by rewrite forallb_app, Hok; cbn; rewrite Ew).
  destruct (_ =? _) eqn:E; cbn [phase_fits]; unfold zlength; rewrite Hall, length_app; cbn [length];
    bools; (split; [done|]); [lia|]. split; [by destruct prior|lia].
Qed.

Lemma next_wave_sound wave failed (prior : list DispatchWaveExecutionReceipt) :
  waves plan !! length prior = Some wave → failed_sound failed →
  ∀ f, failed = Some f → wave_index wave = wr_wave_index f → wave_sound wave f.
Proof.
  intros Hl Hfail f Hf Hidx. destruct (Hfail f Hf) as (wave' & Hl' & Hw).
  rewrite <- Hidx, (wave_position _ _ Hl), Nat2Z.id, Hl in Hl'. by injection Hl' as ->.
Qed.

Lemma run_waves_sound ws post state (prior : list DispatchWaveExecutionReceipt) failed current r :
  prefix_sound prior → forallb succeeded prior = true →
  drop (length prior) (waves plan) = (ws ++ post)%list →
  next_wave_index state = zlength prior →
  failed_sound failed → (ws = [] → ∀ c, current = Some c → loop_result prior ws c) →
  run_waves runner plan ws state prior failed current = Ok (Some r) → loop_result prior ws r.
Proof.
  revert state prior failed current. induction ws as [|wave ws IH];
    intros state prior failed current Hs Hok Hdrop Hnext Hfail Hcur Hrun.
  { cbn in Hrun. injection Hrun as ->. by apply Hcur. }
  cbn [run_waves] in Hrun.
  assert (Hl : waves plan !! length prior = Some wave).
  { rewrite <- (Nat.add_0_r (length prior)), <- lookup_drop, Hdrop. done. }
  assert (Hwave : new_GpuDispatchWave wave = Ok wave)
    by (apply waves_valid; by eapply list_elem_of_lookup_2).
  pose proof (wave_position _ _ Hl) as Hpos.
  step_ok Hrun. rename a into w. step_ok Hrun. rename a into s'. step_ok Hrun. rename a into r'.
  destruct (run_wave_sound _ _ _ _ Hwave (next_wave_sound _ _ _ Hl Hfail) E) as (Hw & Hidx & _).
  destruct (accept_Ok _ _ _ _ E0) as (_ & Hnext' & Hphase).
  pose proof (prefix_sound_snoc _ _ _ Hs Hl Hw (eq_trans Hidx Hpos)) as Hs'.
  pose proof (accepted_phase_fits _ _ _ Hs' Hok Hl) as Hfit.
  rewrite Hnext in Hphase, Hnext'. rewrite <- Hphase in Hfit.
  pose proof (made_receipt_good _ _ _ _ Hs' Hfit E1) as Hgood.
  destruct (make_schedule_receipt_Ok _ _ _ _ E1) as (_ & Hrp & Hrw & _).
  destruct (bool_decide (es_phase s' = PHASE_FAILED)) eqn:Ef; bools.
  - injection Hrun as <-. split; [exact Hgood|]. rewrite Hrw. unfold zlength.
    rewrite length_app. cbn [length].
    split; [by apply prefix_app_r|]. split; [lia|]. by rewrite Hrp, Ef.
  - assert (Hsw : succeeded w = true).
    { destruct (succeeded w); [done|]. by rewrite Hphase in Ef. }
    eapply IH in Hrun as (Hg & Hpre & Hle & Hlen); [|exact Hs'|..].
    + split; [exact Hg|]. unfold zlength in *. rewrite length_app in *. cbn [length] in *.
      split; [etrans; [|exact Hpre]; by apply prefix_app_r|]. split; [lia|].
      intros Hne. rewrite (Hlen Hne). lia.
    + by rewrite forallb_app, Hok; cbn; rewrite Hsw.
    + rewrite length_app. cbn [length]. rewrite <- drop_drop, Hdrop. done.
    + rewrite Hnext'. unfold zlength. rewrite length_app. cbn [length]. lia.
    + destruct failed as [f|]; [|done]. destruct (_ =? _); [done|exact Hfail].
    + intros -> c [= <-]. split; [exact Hgood|]. rewrite Hrw. unfold zlength. cbn [length].
      split; [done|]. split; [lia|]. intros _. lia.
Qed.

(** ** The whole plan *)
Definition keeps_successes (c : option DispatchScheduleReceipt)
    (ws : list DispatchWaveExecutionReceipt) : Prop :=
  ∀ r i w, c = Some r → wave_receipts r !! i = Some w → succeeded w = true → ws !! i = Some w.

Lemma resume_prefix_sound resume prior failed start :
  (∀ c, resume = Some c → good_receipt c ∧ sr_phase c ≠ PHASE_COMPLETE) →
  resume_prefix resume = Ok (prior, failed, start) →
  prefix_sound prior ∧ forallb succeeded prior = true ∧ start = zlength prior ∧
  (waves plan ≠ [] → zlength prior < zlength (waves plan)) ∧ failed_sound failed ∧
  keeps_successes resume prior.
Proof.
  intros Hres. destruct resume as [c|]; cbn [resume_prefix].
  2:{ intros [= <- <- <-]. split; [by intros ? ?|]. split; [done|]. split; [done|].
      split; [intros Hne; destruct (waves plan); [done|unfold zlength; cbn [length]; lia]|]. by split. }
  destruct (Hres c eq_refl) as [Hg Hc]. pose proof (good_prefix_sound _ Hg) as Hs.
  pose proof (good_phase_fits _ Hg) as Hfit. destruct (sr_phase c); cbn [phase_fits] in Hfit.
  - done.
  - rewrite bool_decide_eq_false_2 by done. intros [= <- <- <-].
    destruct Hfit as (Hok & _ & Hlt). repeat (split; [done|]). by intros ? ? ? [= <-] ? ?.
  - rewrite bool_decide_eq_true_2 by done. destruct Hfit as (front & f & Hws & Hok & Hf).
    rewrite Hws, last_snoc, removelast_last. intros [= <- <- <-]. rewrite Hws in Hs.
    destruct (Hs (length front) f) as (Hi & wave & Hl & Hw).
    { rewrite lookup_app_r, Nat.sub_diag by lia. done. }
    split; [by eapply prefix_sound_app|]. split; [done|]. split; [by rewrite Hi|].
    split; [apply lookup_lt_Some in Hl; unfold zlength; lia|]. split.
    + intros f' [= <-]. exists wave. by rewrite Hi, Nat2Z.id.
    + intros ? i w [= <-] Hlw Hsw. rewrite Hws in Hlw.
      apply lookup_app_Some in Hlw as [Hlw|[_ Hlw]]; [done|].
      apply list_elem_of_lookup_2, list_elem_of_singleton in Hlw as ->. congruence.
  - done.
Qed.

Lemma wave_slice_drop start stop :
  0 ≤ start ≤ stop → stop < zlength (waves plan) →
  drop (Z.to_nat start) (waves plan)
    = (wave_slice plan start stop ++ drop (Z.to_nat (stop + 1)) (waves plan))%list ∧
  zlength (wave_slice plan start stop) = stop + 1 - start.
Proof.
  unfold wave_slice, zlength. intros Hs Hl. split.
  - rewrite <- drop_app_le by (rewrite length_take; lia). by rewrite take_drop.
  - rewrite length_drop, length_take. lia.
Qed.

Lemma execute_from_good resume prior failed start stop_after r :
  prefix_sound prior → forallb succeeded prior = true → start = zlength prior →
  (waves plan ≠ [] → zlength prior < zlength (waves plan)) → failed_sound failed →
  (∀ n, stop_after = Some n → n < zlength (waves plan)) →
  execute_from runner plan resume prior failed start stop_after = Ok r →
  good_receipt r ∧ prior `prefix_of` wave_receipts r ∧
  (sr_phase r = PHASE_RUNNING →
   ∃ n, stop_after = Some n ∧ zlength (wave_receipts r) = n + 1).
Proof.
  intros Hs Hok -> Hlt Hfail Hstop Hrun. unfold execute_from in Hrun. step_ok Hrun.
  destruct (no_receipts (waves plan)) eqn:Ew.
  { assert (Hnil : waves plan = []) by (by destruct (waves plan)).
    pose proof (prefix_sound_length _ Hs) as Hlen. rewrite Hnil in Hlen.
    destruct prior as [|w prior]; [|unfold zlength in Hlen; cbn [length] in Hlen; lia].
    destruct (make_schedule_receipt_Ok _ _ _ _ Hrun) as (_ & Hp & _). split.
    - eapply made_receipt_good; [exact Hs| |exact Hrun]. cbn. by rewrite Hnil.
    - split; [apply prefix_nil|]. by rewrite Hp. }
  assert (Hne : waves plan ≠ []) by (by destruct (waves plan)). specialize (Hlt Hne).
  step_ok Hrun. step_ok Hrun. step_ok Hrun. destruct a1 as [r'|]; [|done]. injection Hrun as ->.
  set (stop := match stop_after with Some n => n | None => _ end) in *.
  assert (Hb : 0 ≤ zlength prior ≤ stop ∧ stop < zlength (waves plan)).
  { unfold stop. split; [split; [apply Nat2Z.is_nonneg|]|]; destruct stop_after as [n|];
      bools; [lia|lia|by apply Hstop|lia]. }
  destruct (wave_slice_drop (zlength prior) stop (proj1 Hb) (proj2 Hb)) as [Hd Hlen].
  unfold zlength in Hd at 1. rewrite Nat2Z.id in Hd.
  eapply run_waves_sound in E2 as (Hg & Hpre & _ & Hphase);
    [|exact Hs|exact Hok|exact Hd| |exact Hfail|].
  - split; [exact Hg|]. split; [exact Hpre|]. intros Hr. rewrite Hphase by congruence.
    rewrite Hlen. pose proof (good_phase_fits _ Hg) as Hfit. rewrite Hr in Hfit.
    destruct Hfit as (_ & _ & Hshort). rewrite Hphase in Hshort by congruence.
    unfold stop in *. destruct stop_after as [n|]; [exists n; split; [done|lia]|lia].
  - unfold begin_state, new_DispatchExecutionState in E0, E1. repeat step_ok E1.
    repeat step_ok E0. injection E0 as <-. by injection E1 as <-.
  - intros Hnil. rewrite Hnil in Hlen. unfold zlength in Hlen at 1. cbn [length] in Hlen. lia.
Qed.

Lemma execute_good resume replay stop_after r :
  (∀ c, resume = Some c → valid_schedule c) →
  execute_dispatch_plan runner plan resume replay stop_after = Ok r →
  good_receipt r ∧ keeps_successes resume (wave_receipts r) ∧
  (sr_phase r = PHASE_RUNNING →
   ∃ n, stop_after = Some n ∧ zlength (wave_receipts r) = n + 1).
Proof.
  intros Hres Hrun. unfold execute_dispatch_plan in Hrun. rewrite plan_issued in Hrun.
  step_ok Hrun. step_ok Hrun.
  match type of Hrun with (match ?m with _ => _ end) = _ => destruct m eqn:Ev; [|done] end.
  assert (Hgood : ∀ c, resume = Some c → good_receipt c).
  { intros c ->. split; [by apply Hres|]. unfold validate_dispatch_resume in Ev.
    step_ok Ev. by match goal with u : unit |- _ => destruct u end. }
  assert (Hcont : (∀ c, resume = Some c → sr_phase c ≠ PHASE_COMPLETE) →
    (prefix <-! resume_prefix resume ;;
     let '(prior, failed_prior, start) := prefix in
     execute_from runner plan resume prior failed_prior start stop_after) = Ok r →
    good_receipt r ∧ keeps_successes resume (wave_receipts r) ∧
    (sr_phase r = PHASE_RUNNING →
     ∃ n, stop_after = Some n ∧ zlength (wave_receipts r) = n + 1)).
  { intros Hphase Hc. destruct (resume_prefix resume) as [[[prior failed] start]|] eqn:Ep; [|done].
    destruct (resume_prefix_sound _ _ _ _ (λ c Hc, conj (Hgood c Hc) (Hphase c Hc)) Ep)
      as (Hs & Hok & Hstart & Hlt & Hfail & Hkeep).
    apply execute_from_good in Hc as (Hg & Hpre & Hn); [|done..|].
    2:{ intros n ->. bools. lia. }
    split; [exact Hg|]. split; [|exact Hn]. intros c i w Hc' Hi Hw.
    eapply prefix_lookup_Some; [by eapply Hkeep|exact Hpre]. }
  destruct resume as [c|]; [|by apply Hcont].
  case_bool_decide as Hp; [|apply Hcont; [by intros ? [= <-]|exact Hrun]].
  injection Hrun as <-. split; [by apply Hgood|]. split; [by intros ? ? ? [= <-]|]. by rewrite Hp.
Qed.
End soundness.

Lemma wave_sound_rows `{ExecutionContext} plan wave w :
  wave_sound plan wave w →
  wr_wave_sha256 w = wave_sha256 wave ∧
  same_text_set (map assignment_id (assignments wave))
    (map ar_assignment_sha256 (assignment_receipts w)) = true ∧
  ∀ a, a ∈ assignment_receipts w → validate_row plan wave a = Ok tt.
Proof.
  intros (_ & _ & Hv). unfold validate_wave_receipt in Hv. repeat step_ok Hv.
  rewrite all_ok_Ok in Hv. bools. by split_and!.
Qed.

(** C3. Whatever the runner does, a receipt that [execute_dispatch_plan] returns
    is sound.  All its parts pass their constructors and the structural check of
    a later resume; its [i]-th wave receipt is for the plan's [i]-th wave, with
    one row per assignment whose plan, wave, budget, gang, attempt and terminal
    binding match; the phase is COMPLETE when every wave of the plan succeeded,
    FAILED when a successful prefix ends in one failed wave, and RUNNING only
    when the caller asked to stop at that wave; and every successful wave of the
    resumed receipt is kept, unchanged and in place. *)
Theorem execute_dispatch_sound `{ExecutionContext} runner plan resume replay stop_after r :
  new_GpuDispatchPlan plan = Ok plan →
  (∀ wave, wave ∈ waves plan → new_GpuDispatchWave wave = Ok wave) →
  faithful_runner runner → (∀ c, resume = Some c → valid_schedule c) →
  execute_dispatch_plan runner plan resume replay stop_after = Ok r →
  valid_schedule r ∧ validate_resume_structure plan r = Ok tt ∧
  (∀ i w, wave_receipts r !! i = Some w → ∃ wave, waves plan !! i = Some wave ∧
     wr_wave_sha256 w = wave_sha256 wave ∧
     same_text_set (map assignment_id (assignments wave))
       (map ar_assignment_sha256 (assignment_receipts w)) = true ∧
     ∀ a, a ∈ assignment_receipts w → validate_row plan wave a = Ok tt) ∧
  match sr_phase r with
  | PHASE_PLANNED => False
  | PHASE_RUNNING => forallb succeeded (wave_receipts r) = true ∧ wave_receipts r ≠ [] ∧
      zlength (wave_receipts r) < zlength (waves plan) ∧
      stop_after = Some (zlength (wave_receipts r) - 1)
  | PHASE_FAILED => ∃ front w, wave_receipts r = (front ++ [w])%list ∧
      forallb succeeded front = true ∧ succeeded w = false
  | PHASE_COMPLETE => forallb succeeded (wave_receipts r) = true ∧
      zlength (wave_receipts r) = zlength (waves plan)
  end ∧
  (∀ c i w, resume = Some c → wave_receipts c !! i = Some w → succeeded w = true →
     wave_receipts r !! i = Some w).
Proof.
  intros Hp Hw Hf Hc Hr.
  assert (Hi : validate_dispatch_plan plan = Ok tt).
  { unfold execute_dispatch_plan in Hr. step_ok Hr. step_ok Hr. by destruct a. }
  destruct (execute_good runner plan Hp Hw Hi Hf _ _ _ _ Hc Hr) as (Hg & Hkeep & Hrun).
  split; [apply Hg|]. split; [apply Hg|]. split; [|split; [|exact Hkeep]].
  - intros i w Hl. destruct (good_prefix_sound plan Hi r Hg i w Hl) as (_ & wave & Hwave & Hs).
    exists wave. split; [exact Hwave|]. by apply wave_sound_rows.
  - pose proof (good_phase_fits plan Hi r Hg) as Hfit. destruct (sr_phase r); [exact Hfit| |exact Hfit..].
    destruct Hfit as (Hok & Hne & Hlt). destruct (Hrun eq_refl) as (n & -> & Hn).
    split; [exact Hok|]. split; [exact Hne|]. split; [exact Hlt|]. f_equal. lia.
Qed.
