(* ===== verification/ExecutionTotal.v ===== *)
(** * Execution always ends in a receipt

    When the clocks advance, the journal accepts and the budgets leave room for
    the retries, [execute_dispatch_plan] returns a receipt whatever the runs do,
    and a COMPLETE one when they all succeed. *)
From S2P Require Import Prelude PyFloat FloatRepr Hashlib Registry GpuPool Execution Intervals.
From S2P Require Import ExecutionSafety.

Lemma require_all_sha256_Ok fields :
  (∀ f, f ∈ fields → is_hash 64 f.2 = true) → require_all_sha256 fields = Ok tt.
Proof.
  induction fields as [|[n v] fields IH]; intros Hf; [done|]. cbn [require_all_sha256].
  unfold require_sha256. pose proof (Hf (n, v) (list_elem_of_here _ _)) as Hv. cbn in Hv.
  rewrite Hv. apply IH. intros f Hin. apply Hf. by right.
Qed.

Lemma mapR_total {A B} (f : A → result B) l :
  (∀ x, x ∈ l → ∃ y, f x = Ok y) → ∃ ys, mapR f l = Ok ys.
Proof.
  induction l as [|x l IH]; intros Hf; [by eexists|]. cbn [mapR].
  destruct (Hf x) as [y ->]; [by left|]. destruct IH as [ys ->]; [|by eexists].
  intros z Hz. apply Hf. by right.
Qed.

Lemma separated_app_one l i :
  separated l → (∀ j, j ∈ l → j.2 < i.1) → interval_ok i → separated (l ++ [i]).
Proof.
  induction l as [|j l IH]; intros Hs Hlt Hi; [done|]. destruct Hs as (Hj & Hjl & Hs).
  cbn [app]. split; [exact Hj|]. split.
  - destruct l as [|k l]; [apply Hlt; by left|exact Hjl].
  - apply IH; [exact Hs| |exact Hi]. intros k Hk. apply Hlt. by right.
Qed.

Lemma separated_ok l : separated l → ∀ i, i ∈ l → interval_ok i.
Proof.
  induction l as [|j l IH]; intros Hs i Hi; [by apply elem_of_nil in Hi|].
  destruct Hs as (Hj & _ & Hs). apply elem_of_cons in Hi as [->|Hi]; [done|by apply IH].
Qed.

Lemma wave_intervals_ok w :
  new_DispatchWaveExecutionReceipt w = Ok w → ∀ i, i ∈ wr_active_intervals w → interval_ok i.
Proof.
  unfold new_DispatchWaveExecutionReceipt. intros Hw. repeat step_ok Hw.
  match goal with Hu : interval_union_ns _ = Ok _ |- _ => by apply interval_union_Ok in Hu as [? _] end.
Qed.

(** The ledger of a collection of interval lists can be computed. *)
Lemma ledger_total {A} (f : A → list Interval) (l : list A) :
  (∀ x i, x ∈ l → i ∈ f x → interval_ok i) →
  ∃ m, merge_monotonic_intervals (concat (map f l)) = Ok m ∧
       interval_union_ns m = Ok (elapsed_of m).
Proof.
  intros Hf. destruct (merge_spec (concat (map f l))) as (m & Hm & Hs & _).
  - intros i (k & Hk & Hi)%list_elem_of_In%in_concat. apply list_elem_of_In in Hk, Hi.
    apply list_elem_of_fmap in Hk as (x & -> & Hx). by eapply Hf.
  - exists m. split; [exact Hm|]. apply interval_union_spec, separated_ok, Hs.
Qed.

Lemma existsb_false {A} (f : A → bool) l : (∀ x, x ∈ l → f x = false) → existsb f l = false.
Proof.
  intros Hf. apply not_true_is_false. intros (x & Hx & Ht)%existsb_exists.
  rewrite Hf in Ht; [done|by apply list_elem_of_In].
Qed.

Section total.
Context `{ExecutionContext} (runner : Runner) (plan : GpuDispatchPlan).

(** What one attempt needs to be recorded. *)
Record pending_ok (p : Pending) : Prop := {
  po_budget : is_hash 64 (budget_sha256 (pa_budget p)) = true;
  po_gpus : 1 ≤ zlength (gpu_uuids (pa_assignment p)) ≤ fixed_count;
  po_prior : match pa_prior p with
    | None => pa_attempt p = 1
    | Some r => new_AssignmentExecutionReceipt r = Ok r ∧ pa_attempt p = attempt r + 1
    end }.

Definition clock_ok (p : Pending) (s f : Z) : Prop :=
  0 ≤ s ≤ f ∧ ∀ i, i ∈ prior_intervals p → i.2 < s.

Lemma pending_intervals p s f :
  pending_ok p → clock_ok p s f →
  separated (prior_intervals p ++ [(s, f)]) ∧
  pa_attempt p = zlength (prior_intervals p ++ [(s, f)]) ∧ 1 ≤ pa_attempt p ∧
  (pa_attempt p =? 1) = bool_decide (pa_prior p = None).
Proof.
  intros [_ _ Hprior] [Hs Hlt]. unfold prior_intervals in *. destruct (pa_prior p) as [r|].
  - destruct Hprior as [Hr ->].
    destruct (new_AssignmentExecutionReceipt_Ok r r Hr) as (_ & Hsep & Hat & Hone & _).
    split; [by apply separated_app_one|]. unfold zlength in *. rewrite length_app. cbn [length].
    split; [lia|]. split; [lia|]. rewrite bool_decide_eq_false_2 by done. lia.
  - rewrite Hprior. split; [split; [exact Hs|by split]|]. by rewrite bool_decide_eq_true_2.
Qed.

(** Either a binding that names the assignment and its budget, or a failure. *)
Definition outcome_ok (p : Pending) (t : option AssignmentTerminalBinding) (fail : option string)
    : Prop :=
  match t with
  | Some b => tb_assignment_sha256 b = assignment_id (pa_assignment p) ∧
              tb_budget_sha256 b = budget_sha256 (pa_budget p) ∧ fail = None
  | None => is_sha256_opt fail = true
  end.

(** The tests on the prior digest. *)
Lemma prior_tests (q : option AssignmentExecutionReceipt) :
  bool_decide (q = None) && negb (bool_decide (assignment_receipt_sha256 <$> q = None)) = false ∧
  negb (bool_decide (q = None)) && negb (is_sha256_opt (assignment_receipt_sha256 <$> q)) = false.
Proof.
  destruct q as [r|]; cbn [fmap option_fmap option_map]; [|done].
  rewrite bool_decide_eq_false_2 by done. cbn [is_sha256_opt]. unfold assignment_receipt_sha256.
  by rewrite content_sha256_is_hash.
Qed.

Lemma make_receipt_total wave p s f t fail :
  pending_ok p → clock_ok p s f → outcome_ok p t fail →
  ∃ r, make_receipt plan wave p s f t fail = Ok r ∧
    ar_status r = match t with Some _ => SUCCEEDED | None => FAILED end.
Proof.
  intros Hp Hc Ht. destruct (pending_intervals p s f Hp Hc) as (Hsep & Hat & Hone & Hfirst).
  pose proof (interval_union_spec _ (separated_ok _ Hsep)) as Hu.
  destruct (po_gpus p Hp) as [Hg1 Hg2]. destruct (prior_tests (pa_prior p)) as [Hq1 Hq2].
  unfold make_receipt. rewrite Hu.
  unfold new_AssignmentExecutionReceipt.
  cbn [ar_plan_sha256 ar_wave_sha256 ar_assignment_sha256 ar_budget_sha256 attempt ar_status
    ar_terminal_receipt_sha256 terminal_binding failure_sha256 prior_attempt_receipt_sha256
    ar_gpu_count ar_fixed_instance_gpu_count attempt_intervals attributed_gpu_ns
    attributed_fixed_instance_gpu_ns ar_accounting_semantics].
  rewrite require_all_sha256_Ok.
  2:{ intros x. unfold plan_sha256, wave_sha256, assignment_id.
      intros [->|[->|[->|[->|?%elem_of_nil]%elem_of_cons]%elem_of_cons]%elem_of_cons]%elem_of_cons;
        [apply content_sha256_is_hash..|apply Hp|done]. }
  rewrite <- Hat, Z.eqb_refl, (merge_separated _ Hsep), (bool_decide_eq_true_2 (_ = _)) by done.
  cbn [negb]. rewrite Hfirst, Hq1, Hq2, Hu, !Z.eqb_refl.
  replace (pa_attempt p <? 1) with false by lia.
  replace (zlength (gpu_uuids _) <? 1) with false by lia.
  replace (fixed_count <? 1) with false by lia.
  replace (fixed_count <? zlength _) with false by lia.
  rewrite (bool_decide_eq_true_2 (assignment_semantics = _)) by done. cbn [negb].
  destruct t as [b|]; cbn [outcome_ok fmap option_fmap option_map is_sha256_opt] in *.
  - destruct Ht as (-> & -> & ->). unfold binding_sha256. rewrite content_sha256_is_hash.
    rewrite !bool_decide_eq_true_2 by done. cbn [negb orb]. by eexists.
  - rewrite Ht. rewrite !bool_decide_eq_true_2 by done. cbn [negb]. by eexists.
Qed.

(** The clock advances and the journal accepts. *)
Record orderly_runner : Prop := {
  or_waves : ∀ wave ps sched, begin_wave_attempts runner wave ps sched = Ok tt;
  or_finish : ∀ r, finish_attempt runner r = Ok tt;
  or_clock : ∀ wave p sched, ∃ s, begin_attempt runner wave p sched = Ok s ∧
    clock_ok p s (failed_clock runner p) }.

(** Every run ends well. *)
Definition successful_runner : Prop := ∀ p,
  (∃ b, run_terminal runner p = inr b ∧
     tb_assignment_sha256 b = assignment_id (pa_assignment p) ∧
     tb_budget_sha256 b = budget_sha256 (pa_budget p)) ∧
  ∀ wave sched s, begin_attempt runner wave p sched = Ok s → s ≤ finished_clock runner p.

Lemma run_assignment_total wave sched p :
  orderly_runner → pending_ok p →
  ∃ r, run_assignment runner plan wave sched p = Ok r ∧
    (successful_runner → ar_status r = SUCCEEDED).
Proof.
  intros Hor Hp. destruct (or_clock Hor wave p sched) as (s & Hs & Hc).
  unfold run_assignment. rewrite Hs.
  assert (Hfail : ∀ e, ∃ r, failed_receipt runner plan wave p s e = Ok r).
  { intros e. unfold failed_receipt.
    destruct (make_receipt_total wave p s (failed_clock runner p) None
      (Some (content_sha256 (failure_json p s (failed_clock runner p) e))) Hp Hc) as (r & -> & _);
      [apply content_sha256_is_hash|by eexists]. }
  destruct (run_terminal runner p) as [e|b] eqn:Eb.
  - destruct (Hfail e) as [r ->]. rewrite (or_finish Hor). exists r. split; [done|].
    intros Hok. destruct (Hok p) as [(b & Hb & _) _]. congruence.
  - destruct (make_receipt plan wave p s (finished_clock runner p) (Some b) None) as [r|e] eqn:Em.
    + rewrite (or_finish Hor). exists r. split; [done|]. intros _.
      unfold make_receipt in Em. step_ok Em.
      pose proof (new_AssignmentExecutionReceipt_Ok _ _ Em) as [-> _]. done.
    + destruct (Hfail (exn_name e, exn_text e)) as [r ->]. rewrite (or_finish Hor). exists r.
      split; [done|]. intros Hok. destruct (Hok p) as [(b' & Hb & Ha & Hbud) Hclk].
      assert (b' = b) as -> by congruence.
      destruct (make_receipt_total wave p s (finished_clock runner p) (Some b) None Hp)
        as (r' & Hr' & _); [|by split_and!|congruence].
      destruct Hc as [? ?]. pose proof (Hclk _ _ _ Hs). split; [lia|done].
Qed.

Lemma make_wave_receipt_total wave rows :
  new_GpuDispatchWave wave = Ok wave → rows ≠ [] →
  NoDup (map ar_assignment_sha256 rows) → 1 ≤ fixed_count →
  (∀ r, r ∈ rows → new_AssignmentExecutionReceipt r = Ok r ∧
                   ar_fixed_instance_gpu_count r = fixed_count) →
  ∃ w, make_wave_receipt plan wave rows = Ok w.
Proof.
  intros Hw Hne Hnd Hone Hrows. unfold make_wave_receipt.
  destruct (ledger_total attempt_intervals rows) as (m & Hm & Hu).
  { intros r i Hr. apply separated_ok.
    by destruct (new_AssignmentExecutionReceipt_Ok r r (proj1 (Hrows r Hr))) as (_ & ? & _). }
  rewrite Hm, Hu. unfold new_DispatchWaveExecutionReceipt.
  cbn [wr_plan_sha256 wr_wave_index wr_wave_sha256 assignment_receipts wr_inventory_sha256
    wr_fixed_instance_gpu_count wr_active_intervals wr_billed_gpu_ns wr_attributed_gpu_ns
    wr_attributed_fixed_gpu_ns wr_accounting_semantics].
  rewrite require_all_sha256_Ok.
  2:{ intros x. unfold plan_sha256, wave_sha256, inventory_sha, inventory_digest.
      intros [->|[->|[->|?%elem_of_nil]%elem_of_cons]%elem_of_cons]%elem_of_cons;
        [apply content_sha256_is_hash..|done]. }
  assert ((wave_index wave <? 0) = false) as ->
    by (unfold new_GpuDispatchWave in Hw; by destruct (wave_index wave <? 0)).
  rewrite Hm, Hu, !Z.eqb_refl. unfold unique_text.
  rewrite (bool_decide_eq_true_2 (NoDup _)) by done.
  rewrite (bool_decide_eq_true_2 (m = m)), (bool_decide_eq_true_2 (ledger_semantics = _)) by done.
  replace (fixed_count <? 1) with false by lia.
  rewrite existsb_false by (intros r Hr; by rewrite (proj2 (Hrows r Hr)), Z.eqb_refl).
  destruct rows; [done|]. by eexists.
Qed.

(** ** One wave *)
Lemma pending_of_total succ prior l :
  (∀ a, a ∈ l → succ !! assignment_id a = None → ∃ b : BudgetView,
     budget_for (item_id (work_item a)) = Ok b ∧
     (match prior !! assignment_id a with Some r => attempt r + 1 | None => 1 end)
       ≤ retry_allowance b + 1) →
  ∃ ps, pending_of succ prior l = Ok ps ∧
    ∀ a, a ∈ l → succ !! assignment_id a = None →
      assignment_id a ∈ map (λ p, assignment_id (pa_assignment p)) ps.
Proof.
  induction l as [|a l IH]; intros Hb; cbn [pending_of].
  { exists []. split; [done|]. by intros a ?%elem_of_nil. }
  destruct IH as (ps & Hps & Hin); [intros x Hx; apply Hb; by right|].
  case_bool_decide as Hs.
  - exists ps. split; [exact Hps|]. intros x [->|Hx]%elem_of_cons Hn; [|by apply Hin].
    rewrite Hn in Hs. by destruct Hs.
  - destruct (Hb a) as (b & -> & Hle); [by left|by apply eq_None_not_Some|].
    replace (retry_allowance b + 1 <? _) with false by lia. rewrite Hps.
    eexists. split; [reflexivity|]. intros x [->|Hx]%elem_of_cons Hn; cbn [map pa_assignment].
    + by left.
    + right. by apply Hin.
Qed.

Lemma tasks_lookup (ids : list string) (rs : list AssignmentExecutionReceipt) k :
  length ids = length rs → k ∈ ids →
  is_Some ((list_to_map (reverse (zip ids rs)) : gmap string _) !! k).
Proof.
  intros Hlen Hk. destruct (_ !! k) eqn:E; [by eexists|]. exfalso.
  apply not_elem_of_list_to_map in E. apply E. rewrite fmap_reverse. apply elem_of_reverse.
  by rewrite fst_zip by lia.
Qed.

Lemma task_group_total {A} (l : list (result A)) :
  (∀ t, t ∈ l → ∃ y, t = Ok y) → ∃ rs, task_group l = Ok rs ∧ Forall2 (λ t r, t = Ok r) l rs.
Proof.
  intros Hl. destruct (mapR_total id l Hl) as [rs Hrs]. exists rs. unfold task_group.
  rewrite Hrs. split; [done|]. by apply mapR_Ok in Hrs.
Qed.

(** The instance has a GPU, and every assignment has a hashed budget, a retry
    allowance and a gang that fits the instance. *)
Definition funded : Prop := 1 ≤ fixed_count ∧ ∀ a, a ∈ plan_assignments plan →
  1 ≤ zlength (gpu_uuids a) ≤ fixed_count ∧
  ∃ b, budget_for (item_id (work_item a)) = Ok b ∧ is_hash 64 (budget_sha256 b) = true ∧
    0 ≤ retry_allowance b.

(** No failed row has used up its retries. *)
Definition retries_left (rows : list AssignmentExecutionReceipt) : Prop :=
  ∀ row a b, row ∈ rows → ar_status row = FAILED → a ∈ plan_assignments plan →
    ar_assignment_sha256 row = assignment_id a →
    budget_for (item_id (work_item a)) = Ok b → attempt row ≤ retry_allowance b.

Definition rows_ok (rows : list AssignmentExecutionReceipt) : Prop :=
  ∀ r, r ∈ rows → new_AssignmentExecutionReceipt r = Ok r ∧
                  ar_fixed_instance_gpu_count r = fixed_count.

Lemma wave_sound_rows_ok wave w : wave_sound plan wave w → rows_ok (assignment_receipts w).
Proof.
  intros (Hn & Ha & Hv) r Hr. split; [by apply Ha|].
  destruct (new_DispatchWaveExecutionReceipt_Ok w w Hn) as (_ & _ & _ & _ & _ & _ & ->);
    [|exact Hr].
  unfold validate_wave_receipt in Hv. repeat step_ok Hv. by bools.
Qed.

Lemma pending_all_ok kept p k :
  funded → rows_ok kept → pa_assignment p ∈ plan_assignments plan →
  pa_prior p = receipts_by_id FAILED kept !! k →
  pa_attempt p = match pa_prior p with Some r => attempt r + 1 | None => 1 end →
  budget_for (item_id (work_item (pa_assignment p))) = Ok (pa_budget p) → pending_ok p.
Proof.
  intros Hf Hk Ha Hprior Hat Hb.
  destruct (proj2 Hf _ Ha) as (Hg & b & Hb' & Hh & _). rewrite Hb in Hb'. injection Hb' as <-.
  split; [exact Hh|exact Hg|]. destruct (pa_prior p) as [r|]; [|exact Hat].
  split; [|exact Hat]. apply Hk. by eapply receipts_by_id_Some.
Qed.

Section wave.
Variables (wave : GpuDispatchWave) (kept : list AssignmentExecutionReceipt) (sched : option string).
Hypothesis orderly : orderly_runner.
Hypothesis plan_funded : funded.
Hypothesis in_plan : ∀ a, a ∈ assignments wave → a ∈ plan_assignments plan.
Hypothesis kept_ok : rows_ok kept.
Hypothesis kept_left : retries_left kept.

Lemma wave_rows_total :
  ∃ ps rs rows,
    pending_of (receipts_by_id SUCCEEDED kept) (receipts_by_id FAILED kept) (assignments wave)
      = Ok ps ∧
    task_group (map (run_assignment runner plan wave sched) ps) = Ok rs ∧
    collect (receipts_by_id SUCCEEDED kept)
      (list_to_map (reverse (zip (map (λ p, assignment_id (pa_assignment p)) ps) rs)))
      (assignments wave) = Ok rows.
Proof.
  destruct (pending_of_total (receipts_by_id SUCCEEDED kept) (receipts_by_id FAILED kept)
    (assignments wave)) as (ps & Hps & Hcover).
  { intros a Ha _. destruct (proj2 plan_funded a (in_plan a Ha)) as (_ & b & Hb & _ & Hz). exists b.
    split; [exact Hb|]. destruct (_ !! _) as [r|] eqn:Er; [|lia].
    apply receipts_by_id_Some in Er as (Hr & Hst & Hid).
    pose proof (kept_left r a b Hr Hst (in_plan a Ha) Hid Hb). lia. }
  destruct (task_group_total (map (run_assignment runner plan wave sched) ps)) as (rs & Hrs & Hall).
  { intros t (p & -> & Hp)%list_elem_of_fmap.
    destruct (pending_of_Ok _ _ _ _ Hps p Hp) as (Ha & _ & Hprior & Hat & Hb & _).
    destruct (run_assignment_total wave sched p orderly) as (r & -> & _); [|by eexists].
    by eapply pending_all_ok; [..|exact Hprior| |]; auto. }
  exists ps, rs.
  edestruct (mapR_total (λ a, match receipts_by_id SUCCEEDED kept !! assignment_id a,
      (list_to_map (reverse (zip (map (λ p, assignment_id (pa_assignment p)) ps) rs))
        : gmap string _) !! assignment_id a with
    | Some r, _ | None, Some r => Ok r | None, None => Raise (KeyError (assignment_id a)) end)
    (assignments wave)) as [rows Hrows]; [|by exists rows].
  intros a Ha. destruct (receipts_by_id SUCCEEDED kept !! assignment_id a) eqn:Es; [by eexists|].
  destruct (tasks_lookup (map (λ p, assignment_id (pa_assignment p)) ps) rs (assignment_id a))
    as [r ->]; [|by apply Hcover|by eexists].
  apply Forall2_length in Hall. by rewrite !length_map in *.
Qed.

Lemma source_row_ok a r :
  row_source runner plan wave sched kept a r →
  (new_AssignmentExecutionReceipt r = Ok r ∧ ar_fixed_instance_gpu_count r = fixed_count) ∧
  (successful_runner → ar_status r = SUCCEEDED).
Proof.
  intros [(Hr & Hst & _)|(p & Ha & _ & _ & Hprior & Hat & Hb & _ & Hrow)].
  - split; [by apply kept_ok|done].
  - split; [exact (conj (ro_new _ _ _ _ _ _ Hrow) (ro_fixed _ _ _ _ _ _ Hrow))|]. intros Hok.
    pose proof (pending_all_ok _ _ _ plan_funded kept_ok (in_plan _ Ha) Hprior Hat Hb) as Hp.
    destruct (run_assignment_total wave sched p orderly Hp) as (r' & Hr' & Hst).
    rewrite (ro_run _ _ _ _ _ _ Hrow) in Hr'. injection Hr' as <-. by apply Hst.
Qed.
End wave.

Lemma run_wave_total wave failed sched :
  orderly_runner → funded → new_GpuDispatchWave wave = Ok wave →
  (∀ a, a ∈ assignments wave → a ∈ plan_assignments plan) →
  rows_ok (kept_rows wave failed) → retries_left (kept_rows wave failed) →
  ∃ w, run_wave runner plan wave failed sched = Ok w ∧ (successful_runner → succeeded w = true).
Proof.
  intros Hor Hf Hw Hin Hk Hleft. unfold run_wave. fold (kept_rows wave failed).
  destruct (wave_rows_total wave _ sched Hor Hf Hin Hk Hleft) as (ps & rs & rows & Hps & Hrs & Hrows).
  pose proof (wave_rows_Ok _ _ _ _ _ _ _ _ Hps Hrs Hrows) as Hsrc.
  assert (Hrow : ∀ r, r ∈ rows → ∃ a, a ∈ assignments wave ∧
            row_source runner plan wave sched (kept_rows wave failed) a r).
  { intros r [i Hi]%list_elem_of_lookup.
    destruct (Forall2_lookup_r _ _ _ _ _ Hsrc Hi) as (a & Ha & Hs). exists a.
    split; [by eapply list_elem_of_lookup_2|exact Hs]. }
  rewrite Hps, (or_waves Hor), Hrs, Hrows.
  destruct (make_wave_receipt_total wave rows Hw) as [w Hmake].
  - intros ->. apply Forall2_length in Hsrc. unfold new_GpuDispatchWave in Hw.
    do 2 step_ok Hw. by destruct (assignments wave).
  - assert (map ar_assignment_sha256 rows = map assignment_id (assignments wave)) as ->;
      [|by apply wave_ids_NoDup].
    symmetry. apply list_eq_Forall2, Forall2_fmap. eapply Forall2_impl; [exact Hsrc|].
    intros a r Hs. by rewrite (row_source_id _ _ _ _ _ _ _ Hs).
  - apply Hf.
  - intros r Hr. destruct (Hrow r Hr) as (a & _ & Hs). by eapply source_row_ok.
  - exists w. split; [exact Hmake|]. intros Hok.
    apply make_wave_receipt_Ok in Hmake as (_ & Hws & _). unfold succeeded. rewrite Hws.
    apply forallb_forall. intros r Hr%list_elem_of_In. destruct (Hrow r Hr) as (a & _ & Hs).
    apply bool_decide_eq_true_2. by eapply source_row_ok.
Qed.

(** ** Schedule receipts *)
Lemma prefix_sound_member ws w :
  prefix_sound plan ws → w ∈ ws →
  new_DispatchWaveExecutionReceipt w = Ok w ∧ wr_plan_sha256 w = plan_sha256 plan ∧
  wr_inventory_sha256 w = inventory_sha ∧ wr_fixed_instance_gpu_count w = fixed_count.
Proof.
  intros Hs [i Hi]%list_elem_of_lookup. destruct (Hs i w Hi) as (_ & wave & _ & Hn & _ & Hv).
  unfold validate_wave_receipt in Hv. repeat step_ok Hv. by bools.
Qed.

Lemma prefix_sound_indices ws : prefix_sound plan ws → map wr_wave_index ws = seqZ 0 (zlength ws).
Proof.
  intros Hs. apply list_eq. intros i. destruct (ws !! i) as [w|] eqn:Hi.
  - rewrite list_lookup_fmap, Hi. cbn. rewrite (proj1 (Hs i w Hi)). symmetry.
    apply lookup_seqZ. apply lookup_lt_Some in Hi. unfold zlength. lia.
  - rewrite list_lookup_fmap, Hi. cbn. symmetry. apply lookup_seqZ_ge.
    apply lookup_ge_None in Hi. unfold zlength. lia.
Qed.

Lemma make_schedule_receipt_total phase ws (current : option DispatchScheduleReceipt) :
  prefix_sound plan ws → phase_fits plan phase ws → 1 ≤ fixed_count →
  ∃ r, make_schedule_receipt plan phase ws (schedule_receipt_sha256 <$> current) = Ok r.
Proof.
  intros Hs Hfit Hone. unfold make_schedule_receipt.
  pose proof (prefix_sound_member ws) as Hmem.
  destruct (ledger_total wr_active_intervals ws) as (m & Hm & Hu).
  { intros w i Hw. apply wave_intervals_ok. by apply Hmem. }
  rewrite Hm, Hu. unfold new_DispatchScheduleReceipt.
  cbn [sr_plan_sha256 sr_phase wave_receipts sr_inventory_sha256 sr_fixed_instance_gpu_count
    sr_active_intervals sr_billed_gpu_ns sr_attributed_gpu_ns sr_attributed_fixed_gpu_ns
    prior_schedule_receipt_sha256 sr_accounting_semantics].
  rewrite require_all_sha256_Ok.
  2:{ intros x. unfold plan_sha256, inventory_sha, inventory_digest.
      intros [->|[->|?%elem_of_nil]%elem_of_cons]%elem_of_cons;
        [apply content_sha256_is_hash..|done]. }
  rewrite (prefix_sound_indices ws Hs), (bool_decide_eq_true_2 (seqZ _ _ = _)) by done.
  rewrite existsb_false
    by (intros w Hw; destruct (Hmem w Hs Hw) as (_ & -> & _); by rewrite bool_decide_eq_true_2).
  replace (fixed_count <? 1) with false by lia.
  rewrite existsb_false.
  2:{ intros w Hw. destruct (Hmem w Hs Hw) as (_ & _ & -> & ->).
      by rewrite bool_decide_eq_true_2, Z.eqb_refl. }
  rewrite Hm, Hu, !Z.eqb_refl. rewrite (bool_decide_eq_true_2 (m = m)) by done.
  rewrite (bool_decide_eq_true_2 (ledger_semantics = _)) by done. cbn [negb].
  assert (match schedule_receipt_sha256 <$> current with
    | Some s => require_sha256 "prior_schedule_receipt_sha256" s | None => Ok tt end = Ok tt) as ->.
  { destruct current as [c|]; [|done]. cbn [fmap option_fmap option_map].
    unfold require_sha256, schedule_receipt_sha256. by rewrite content_sha256_is_hash. }
  destruct phase; cbn [phase_fits] in Hfit.
  - done.
  - destruct Hfit as (-> & Hne & _). destruct ws; [done|]. by eexists.
  - destruct Hfit as (front & w & -> & _ & Hw). unfold last_succeeded. rewrite last_snoc, Hw.
    destruct (front ++ [w])%list eqn:E; [by destruct front|]. by eexists.
  - destruct Hfit as (-> & _). by eexists.
Qed.

(** ** The state machine *)
Definition state_at (prior : list DispatchWaveExecutionReceipt)
    (phase : DispatchExecutionPhase) : DispatchExecutionState := {|
  es_plan_sha256 := plan_sha256 plan; es_phase := phase; next_wave_index := zlength prior;
  es_wave_receipt_sha256 := map wave_receipt_sha256 prior |}.

Lemma state_total prior phase :
  new_DispatchExecutionState (state_at prior phase) = Ok (state_at prior phase).
Proof.
  unfold new_DispatchExecutionState, require_sha256, state_at, plan_sha256.
  cbn [es_plan_sha256 es_phase next_wave_index es_wave_receipt_sha256].
  rewrite content_sha256_is_hash. cbn [negb].
  assert ((zlength prior <? 0) = false) as -> by (apply Z.ltb_ge, Nat2Z.is_nonneg).
  assert (zlength (map wave_receipt_sha256 prior) = zlength prior) as ->
    by (unfold zlength; by rewrite length_map).
  rewrite Z.eqb_refl. cbn [negb].
  rewrite require_all_sha256_Ok; [done|].
  intros f (d & -> & (w & -> & _)%list_elem_of_fmap)%list_elem_of_fmap. cbn.
  apply content_sha256_is_hash.
Qed.

Lemma accept_total prior w wave :
  wr_plan_sha256 w = plan_sha256 plan → wr_wave_index w = wave_index wave →
  wave_index wave = zlength prior →
  accept w (zlength (waves plan)) (state_at prior PHASE_RUNNING) = Ok (state_at (prior ++ [w])
    (if negb (succeeded w) then PHASE_FAILED
     else if zlength prior + 1 =? zlength (waves plan) then PHASE_COMPLETE else PHASE_RUNNING)).
Proof.
  intros Hp Hi Hw. rewrite <- state_total. unfold accept, state_at.
  cbn [es_plan_sha256 es_phase next_wave_index es_wave_receipt_sha256].
  rewrite Hp, Hi, Hw, Z.eqb_refl, !bool_decide_eq_true_2 by done. cbn [negb].
  f_equal. f_equal; [|by rewrite map_app]. unfold zlength. rewrite length_app. cbn [length]. lia.
Qed.

(** ** The waves of the plan *)
Hypothesis plan_valid : new_GpuDispatchPlan plan = Ok plan.
Hypothesis waves_valid : ∀ w, w ∈ waves plan → new_GpuDispatchWave w = Ok w.
Hypothesis plan_issued : validate_dispatch_plan plan = Ok tt.
Hypothesis faithful : faithful_runner runner.
Hypothesis orderly : orderly_runner.
Hypothesis plan_funded : funded.

Lemma wave_in_plan wave a :
  wave ∈ waves plan → a ∈ assignments wave → a ∈ plan_assignments plan.
Proof.
  intros Hw Ha. unfold plan_assignments. apply list_elem_of_In, in_concat.
  exists (assignments wave). split; apply list_elem_of_In; [by apply list_elem_of_fmap_2|done].
Qed.

Definition failed_left (failed : option DispatchWaveExecutionReceipt) : Prop :=
  ∀ f, failed = Some f → retries_left (assignment_receipts f).

Lemma next_wave_total prior failed sched wave :
  prefix_sound plan prior → forallb succeeded prior = true →
  waves plan !! length prior = Some wave → failed_sound plan failed → failed_left failed →
  ∃ w, run_wave runner plan wave failed sched = Ok w ∧ prefix_sound plan (prior ++ [w]) ∧
    (successful_runner → succeeded w = true) ∧
    wr_plan_sha256 w = plan_sha256 plan ∧ wr_wave_index w = wave_index wave.
Proof.
  intros Hs Hok Hl Hfail Hleft.
  assert (Hin : wave ∈ waves plan) by (by eapply list_elem_of_lookup_2).
  pose proof (next_wave_sound plan plan_valid wave failed prior Hl Hfail) as Hkept.
  assert (Hrows : ∀ f, failed = Some f → rows_ok (kept_rows wave failed)
                                        ∧ retries_left (kept_rows wave failed)).
  { intros f ->. cbn. destruct (wave_index wave =? wr_wave_index f) eqn:Ei.
    - apply Z.eqb_eq in Ei. split; [|by apply Hleft].
      eapply wave_sound_rows_ok. by apply Hkept.
    - split; [by intros ? ?%elem_of_nil|by intros ? ? ? ?%elem_of_nil]. }
  destruct (run_wave_total wave failed sched orderly plan_funded (waves_valid _ Hin)
    (λ a, wave_in_plan wave a Hin)) as (w & Hw & Hsucc).
  { destruct failed as [f|]; [by apply Hrows with f|by intros ? ?%elem_of_nil]. }
  { destruct failed as [f|]; [by apply Hrows with f|by intros ? ? ? ?%elem_of_nil]. }
  destruct (run_wave_sound runner plan faithful wave failed sched w (waves_valid _ Hin) Hkept Hw)
    as (Hsound & Hidx & Hplan).
  exists w. split; [exact Hw|]. split; [|by split].
  eapply prefix_sound_snoc; [exact Hs|exact Hl|exact Hsound|].
  rewrite Hidx. by apply (wave_position plan plan_valid).
Qed.

Lemma run_waves_total ws post (prior : list DispatchWaveExecutionReceipt) failed current :
  prefix_sound plan prior → forallb succeeded prior = true →
  drop (length prior) (waves plan) = (ws ++ post)%list → ws ≠ [] →
  failed_sound plan failed → failed_left failed →
  ∃ r, run_waves runner plan ws (state_at prior PHASE_RUNNING) prior failed current = Ok (Some r) ∧
    (successful_runner → sr_phase r ≠ PHASE_FAILED).
Proof.
  revert prior failed current. induction ws as [|wave ws IH];
    intros prior failed current Hs Hok Hdrop Hne Hfail Hleft; [done|].
  assert (Hl : waves plan !! length prior = Some wave).
  { rewrite <- (Nat.add_0_r (length prior)), <- lookup_drop, Hdrop. done. }
  cbn [run_waves].
  destruct (next_wave_total prior failed (schedule_receipt_sha256 <$> current) wave)
    as (w & -> & Hs' & Hsucc & Hplan & Hidx); [done..|].
  pose proof (wave_position plan plan_valid _ _ Hl) as Hpos.
  rewrite (accept_total prior w wave Hplan Hidx Hpos).
  set (phase := if negb (succeeded w) then _ else _).
  pose proof (accepted_phase_fits plan prior w wave Hs' Hok Hl) as Hfit. fold phase in Hfit.
  cbn [state_at es_phase].
  destruct (make_schedule_receipt_total phase (prior ++ [w]) current Hs' Hfit) as [r Hr].
  { apply plan_funded. }
  rewrite Hr. destruct (make_schedule_receipt_Ok _ _ _ _ _ Hr) as (_ & Hph & _).
  case_bool_decide as Hf.
  - exists r. split; [done|]. intros Hok'. unfold phase in Hf. rewrite (Hsucc Hok') in Hf.
    cbn in Hf. by destruct (_ =? _).
  - destruct ws as [|wave' ws]; [exists r; split; [done|]; by rewrite Hph|].
    assert (phase = PHASE_RUNNING ∧ succeeded w = true) as [-> Hsw].
    { unfold phase in *. destruct (succeeded w); [|done]. cbn [negb]. split; [|done].
      destruct (_ =? _) eqn:E; [|done]. apply Z.eqb_eq in E. exfalso.
      apply (f_equal length) in Hdrop. rewrite length_drop, length_app in Hdrop.
      unfold zlength in E. cbn [length] in Hdrop. lia. }
    apply IH; [exact Hs'|by rewrite forallb_app, Hok; cbn; rewrite Hsw| |done|..].
    + rewrite length_app. cbn [length]. by rewrite <- drop_drop, Hdrop.
    + destruct failed as [f|]; [|done]. destruct (_ =? _); [done|exact Hfail].
    + destruct failed as [f|]; [|done]. destruct (_ =? _); [done|exact Hleft].
Qed.

Lemma execute_from_total resume prior failed :
  prefix_sound plan prior → forallb succeeded prior = true →
  (waves plan ≠ [] → zlength prior < zlength (waves plan)) →
  failed_sound plan failed → failed_left failed →
  ∃ r, execute_from runner plan resume prior failed (zlength prior) None = Ok r ∧
    (successful_runner → sr_phase r ≠ PHASE_FAILED).
Proof.
  intros Hs Hok Hlt Hfail Hleft. unfold execute_from.
  destruct (no_receipts (waves plan)) eqn:Ew.
  - destruct (make_schedule_receipt_total PHASE_COMPLETE [] resume) as [r Hr].
    + by intros ? ?.
    + split; [done|]. by destruct (waves plan).
    + apply plan_funded.
    + rewrite Hr. exists r. split; [done|].
      destruct (make_schedule_receipt_Ok _ _ _ _ _ Hr) as (_ & -> & _). done.
  - assert (Hne : waves plan ≠ []) by (by destruct (waves plan)). specialize (Hlt Hne).
    pose proof (state_total prior (match failed with Some _ => PHASE_FAILED
                                   | None => PHASE_PLANNED end)) as Hst.
    unfold state_at in Hst. rewrite Hst. unfold begin_state.
    cbn [es_plan_sha256 es_phase next_wave_index es_wave_receipt_sha256].
    rewrite bool_decide_eq_true_2 by (destruct failed; [right; left|left]). cbn [negb].
    replace (zlength (waves plan) <? zlength prior) with false by lia.
    pose proof (state_total prior PHASE_RUNNING) as Hst'. unfold state_at in Hst'. rewrite Hst'.
    assert (Hz : 0 ≤ zlength prior) by apply Nat2Z.is_nonneg.
    destruct (wave_slice_drop plan (zlength prior) (zlength (waves plan) - 1)) as [Hd Hlen];
      [lia|lia|].
    unfold zlength in Hd at 1. rewrite Nat2Z.id in Hd.
    destruct (run_waves_total _ _ prior failed resume Hs Hok Hd) as (r & Hr & Hp); [|done|done|].
    + intros Hnil. rewrite Hnil in Hlen. unfold zlength in Hlen at 1. cbn [length] in Hlen. lia.
    + unfold state_at in Hr. rewrite Hr. by exists r.
Qed.

Lemma resume_prefix_total resume :
  (∀ c, resume = Some c → good_receipt plan c) →
  ∃ prior failed start, resume_prefix resume = Ok (prior, failed, start) ∧
    ∀ f, failed = Some f → ∃ c, resume = Some c ∧ f ∈ wave_receipts c.
Proof.
  intros Hg. destruct resume as [c|]; cbn [resume_prefix]; [|by eexists _, _, _].
  case_bool_decide as Hc; [|by eexists _, _, _].
  pose proof (good_phase_fits plan plan_issued c (Hg c eq_refl)) as Hfit. rewrite Hc in Hfit.
  destruct Hfit as (front & f & Hws & _). rewrite Hws, last_snoc. eexists _, _, _.
  split; [reflexivity|]. intros ? [= <-]. exists c. split; [done|]. rewrite Hws.
  apply elem_of_app. right. by left.
Qed.

Lemma continue_total resume :
  (∀ c, resume = Some c → good_receipt plan c ∧ sr_phase c ≠ PHASE_COMPLETE ∧
     ∀ w, w ∈ wave_receipts c → retries_left (assignment_receipts w)) →
  ∃ r, (prefix <-! resume_prefix resume ;;
        let '(prior, failed_prior, start) := prefix in
        execute_from runner plan resume prior failed_prior start None) = Ok r ∧
    (successful_runner → sr_phase r ≠ PHASE_FAILED).
Proof.
  intros Hres.
  destruct (resume_prefix_total resume) as (prior & failed & start & Hpre & Hin);
    [intros c Hc; by apply Hres|].
  destruct (resume_prefix_sound plan waves_valid plan_issued resume prior failed start) as
    (Hs & Hok & -> & Hlt & Hfail & _); [|exact Hpre|].
  { intros c Hc. destruct (Hres c Hc) as (? & ? & _). by split. }
  rewrite Hpre. apply execute_from_total; [done..|].
  intros f Hf. destruct (Hin f Hf) as (c & Hc & Hw). by apply (Hres c Hc).
Qed.
End total.

(** C4. Execution always ends in a receipt.  When the clock advances past
    earlier attempts, the journal accepts, every cell has a budget and no
    resumed failure has used up its retries, [execute_dispatch_plan] without a
    stop returns a receipt, COMPLETE or FAILED, whatever the runs return; and
    it is COMPLETE when every run succeeds. *)
Theorem execute_total `{ExecutionContext} runner plan resume replay :
  new_GpuDispatchPlan plan = Ok plan →
  (∀ wave, wave ∈ waves plan → new_GpuDispatchWave wave = Ok wave) →
  scientific_budget_bound plan = true → validate_dispatch_plan plan = Ok tt →
  faithful_runner runner → orderly_runner runner → funded plan →
  (∀ c, resume = Some c → valid_schedule c ∧ validate_dispatch_resume plan c replay = Ok tt ∧
     ∀ w, w ∈ wave_receipts c → retries_left plan (assignment_receipts w)) →
  ∃ r, execute_dispatch_plan runner plan resume replay None = Ok r ∧
    (sr_phase r = PHASE_COMPLETE ∨ sr_phase r = PHASE_FAILED) ∧
    (successful_runner runner → sr_phase r = PHASE_COMPLETE).
Proof.
  intros Hp Hw Hb Hi Hf Hor Hfund Hres.
  assert (Hgood : ∀ c, resume = Some c → good_receipt plan c).
  { intros c Hc. destruct (Hres c Hc) as (Hv & Hr & _). split; [exact Hv|].
    unfold validate_dispatch_resume in Hr. step_ok Hr. by destruct a. }
  assert (Hrun : ∃ r, execute_dispatch_plan runner plan resume replay None = Ok r ∧
            (successful_runner runner → sr_phase r ≠ PHASE_FAILED)).
  { unfold execute_dispatch_plan. rewrite Hb, Hi. cbn [negb].
    assert (match resume with Some r => validate_dispatch_resume plan r replay
                            | None => Ok tt end = Ok tt) as ->
      by (destruct resume as [c|]; [by apply Hres|done]).
    pose proof (continue_total runner plan Hp Hw Hi Hf Hor Hfund resume) as Hcont.
    destruct resume as [c|]; [|by apply Hcont].
    case_bool_decide as Hc; [|apply Hcont; intros ? [= <-]; split_and!; [by apply Hgood|done|]].
    - exists c. split; [done|]. by rewrite Hc.
    - by apply (Hres c eq_refl). }
  destruct Hrun as (r & Hr & Hsucc). exists r. split; [exact Hr|].
  destruct (execute_good runner plan Hp Hw Hi Hf _ _ _ _
    (λ c Hc, proj1 (Hres c Hc)) Hr) as (Hg & _ & Hstop).
  pose proof (good_phase_fits plan Hi r Hg) as Hfit.
  destruct (sr_phase r) eqn:Hph; [done|by destruct (Hstop eq_refl) as (? & ? & _)|..].
  - split; [by right|]. intros Hok. by destruct (Hsucc Hok).
  - split; [by left|done].
Qed.
