(* ===== verification/ExecutionDemo.v ===== *)
(** * A plan that is executed

    One assignment on one device: a run that fails, its retry, and a clock that
    has gone back.  The properties of [ExecutionSafety] and [ExecutionTotal] are
    applied to it. *)
From S2P Require Import Prelude PyFloat FloatRepr Hashlib Registry GpuPool Scheduler PoolSafety.
From S2P Require Import Execution Intervals ExecutionSafety ExecutionTotal.

Definition run_hash : string := String.concat EmptyString (replicate 64 "d").
Definition run_item : PoolWorkItem := demo_item "tts".
Definition run_budget : BudgetView := {| budget_sha256 := run_hash; retry_allowance := 1 |}.
Definition run_plan : GpuDispatchPlan := {|
  dp_schema_version := 1; registry_sha256 := demo_receipt;
  inventory_sha256 := inventory_digest demo_inventory; receipts_sha256 := demo_receipt;
  dp_interference_envelope_sha256 := envelope_sha256 (interference_envelope demo_scheduler);
  budget_sha256_by_cell := [(item_id run_item, run_hash)]; dp_seed := 1;
  waves := [demo_wave 0 "tts"]; completed_cell_ids := [] |}.
#[export] Instance run_context : ExecutionContext := {|
  ec_inventory := demo_inventory; issue_plan := Ok run_plan;
  budgets_by_cell_id := {[ item_id run_item := run_budget ]}; resume_terminal_authorities := [] |}.

(** The clock reads one past the earlier attempts and five later at the end. *)
Definition run_start (p : Pending) : Z :=
  foldr (λ i m, Z.max (snd i + 1) m) 10 (prior_intervals p).
Definition run_binding (p : Pending) : AssignmentTerminalBinding := {|
  tb_authority_sha256 := run_hash; tb_cell_id := item_id (work_item (pa_assignment p));
  tb_assignment_sha256 := assignment_id (pa_assignment p);
  tb_budget_sha256 := budget_sha256 (pa_budget p); tb_inventory_sha256 := inventory_sha;
  tb_physical_gpu_uuids := gpu_uuids (pa_assignment p); tb_execution_plan_sha256 := run_hash;
  tb_dispatch_plan_sha256 := run_hash; tb_run_id := "run"; tb_run_nonce_sha256 := run_hash;
  tb_terminal_receipt_path := "terminal.json"; tb_terminal_receipt_sha256 := run_hash;
  tb_budget_observation_path := "budget.json"; tb_budget_observation_sha256 := run_hash;
  tb_budget_observation_sidecar_path := "budget.sha256";
  tb_budget_observation_sidecar_sha256 := run_hash;
  tb_native_terminal_artifact_path := "native.json"; tb_native_terminal_raw_sha256 := run_hash;
  tb_native_terminal_sha256 := run_hash; tb_trusted_attester_policy_sha256 := run_hash;
  tb_evidence_file_paths := []; tb_evidence_file_sha256s := [] |}.
Definition run_with (outcome : Pending → (string * string) + AssignmentTerminalBinding)
    (start : Pending → Z) : Runner := {|
  begin_wave_attempts := λ _ _ _, Ok tt; begin_attempt := λ _ p _, Ok (start p);
  run_terminal := outcome; finished_clock := λ p, start p + 5; failed_clock := λ p, start p + 5;
  finish_attempt := λ _, Ok tt |}.
Definition good_run : Runner := run_with (λ p, inr (run_binding p)) run_start.
Definition bad_run : Runner := run_with (λ _, inl ("RuntimeError", "lost device")) run_start.
(** After a restart of the host. *)
Definition late_run : Runner := run_with (λ p, inr (run_binding p)) (λ _, 0).

Lemma run_clock p : clock_ok p (run_start p) (run_start p + 5).
Proof.
  unfold clock_ok, run_start. induction (prior_intervals p) as [|i l [IH1 IH2]]; cbn [foldr].
  - split; [lia|]. by intros ? ?%elem_of_nil.
  - split; [lia|]. intros j [->|Hj]%elem_of_cons; [lia|]. pose proof (IH2 j Hj). lia.
Qed.

Lemma run_orderly outcome : orderly_runner (run_with outcome run_start).
Proof. split; [done..|]. intros wave p sched. exists (run_start p). split; [done|apply run_clock]. Qed.

Lemma good_faithful start : faithful_runner (run_with (λ p, inr (run_binding p)) start).
Proof. by intros p b [= <-]. Qed.
Lemma bad_faithful : faithful_runner bad_run.
Proof. by intros p b. Qed.
Lemma good_successful : successful_runner good_run.
Proof.
  intros p. split; [by exists (run_binding p)|]. intros wave sched s [= <-]. cbn. lia.
Qed.

Lemma run_waves_valid w : w ∈ waves run_plan → new_GpuDispatchWave w = Ok w.
Proof. intros ->%list_elem_of_singleton. by apply demo_wave_valid. Qed.

Lemma run_funded : funded run_plan.
Proof.
  assert (Hc : fixed_count = 1) by reflexivity. unfold funded. rewrite Hc. split; [done|].
  intros a ->%list_elem_of_singleton. split; [by vm_compute|]. exists run_budget.
  split; [|by split]. unfold budget_for. cbn [budgets_by_cell_id run_context].
  change (item_id (work_item (demo_assignment "tts"))) with (item_id run_item).
  by rewrite lookup_singleton_eq.
Qed.

Lemma run_issued : validate_dispatch_plan run_plan = Ok tt.
Proof. unfold validate_dispatch_plan. cbn [issue_plan run_context]. by rewrite bool_decide_eq_true_2. Qed.

Lemma run_plan_valid : new_GpuDispatchPlan run_plan = Ok run_plan.
Proof.
  unfold new_GpuDispatchPlan.
  cbn [run_plan dp_schema_version registry_sha256 inventory_sha256
    receipts_sha256 dp_interference_envelope_sha256 dp_seed budget_sha256_by_cell map
    completed_cell_ids concat app].
  change (map wave_index (waves run_plan)) with [0].
  change (map assignment_id (plan_assignments run_plan)) with [assignment_id (demo_assignment "tts")].
  change (plan_cell_ids run_plan) with [item_id run_item]. cbn [fst snd].
  change (seqZ 0 (zlength (waves run_plan))) with [0].
  change (sorted_by (λ b : string * string, b) [(item_id run_item, run_hash)])
    with [(item_id run_item, run_hash)].
  rewrite require_all_sha256_Ok.
  2:{ intros f. unfold inventory_digest, envelope_sha256.
      intros [->|[->|[->|[->|?%elem_of_nil]%elem_of_cons]%elem_of_cons]%elem_of_cons]%elem_of_cons;
        [reflexivity|apply content_sha256_is_hash|reflexivity|apply content_sha256_is_hash|done]. }
  rewrite require_all_sha256_Ok.
  2:{ intros f [->|[->|?%elem_of_nil]%elem_of_cons]%elem_of_cons;
        [apply content_sha256_is_hash|reflexivity|done]. }
  unfold unique_text, same_text_set.
  rewrite !bool_decide_eq_true_2; [reflexivity|..];
    first [apply NoDup_singleton|apply NoDup_nil_2|reflexivity].
Qed.

(** ** The first attempt fails *)
Lemma run_in_plan a : a ∈ assignments (demo_wave 0 "tts") → a ∈ plan_assignments run_plan.
Proof. done. Qed.

Lemma run_fails :
  ∃ f r, run_wave bad_run run_plan (demo_wave 0 "tts") None None = Ok f ∧
    wave_sound run_plan (demo_wave 0 "tts") f ∧ wr_wave_index f = 0 ∧
    assignment_receipts f = [r] ∧ ar_status r = FAILED ∧ attempt r = 1 ∧
    ∃ e, attempt_intervals r = [(10, e)].
Proof.
  destruct (run_wave_total bad_run run_plan (demo_wave 0 "tts") None None) as (f & Hf & _).
  - apply run_orderly.
  - apply run_funded.
  - by apply demo_wave_valid.
  - apply run_in_plan.
  - intros row Hr. destruct (not_elem_of_nil row Hr).
  - intros row a b Hr. destruct (not_elem_of_nil row Hr).
  - destruct (run_wave_sound bad_run run_plan bad_faithful (demo_wave 0 "tts") None None f)
      as (Hs & Hi & _); [by apply demo_wave_valid|intros f' Hf'; discriminate Hf'|exact Hf|].
    pose proof (run_wave_Ok _ _ _ _ _ _ Hf) as (_ & _ & _ & _ & _ & _ & Hrows).
    change (assignments (demo_wave 0 "tts")) with [demo_assignment "tts"] in Hrows.
    apply Forall2_cons_inv_l in Hrows as (r & rest & Hsrc & Hnil & Hl).
    apply Forall2_nil_inv_l in Hnil as ->. exists f, r.
    destruct Hsrc as [(Hk & _)|(p & _ & _ & _ & Hprior & Hat & _ & _ & Hrow)];
      [destruct (not_elem_of_nil _ Hk)|]. change (pa_prior p = None) in Hprior.
    destruct (ro_start _ _ _ _ _ _ Hrow) as (s & e & Hbegin & Hints).
    assert (s = 10) as ->.
    { cbn in Hbegin. unfold run_start, prior_intervals in Hbegin. rewrite Hprior in Hbegin.
      cbn in Hbegin. injection Hbegin as <-. reflexivity. }
    unfold prior_intervals in Hints. rewrite Hprior in Hints, Hat.
    split; [exact Hf|]. split; [exact Hs|]. split; [exact Hi|]. split; [exact Hl|].
    split; [|split; [rewrite (ro_attempt _ _ _ _ _ _ Hrow); exact Hat|exists e; exact Hints]].
    destruct (ar_status r) eqn:Est; [exfalso|reflexivity].
    pose proof (ro_new _ _ _ _ _ _ Hrow) as Hn. unfold new_AssignmentExecutionReceipt in Hn.
    repeat step_ok Hn. rewrite Est in Hn. step_ok Hn.
    destruct (terminal_binding r) as [b|] eqn:Eb; [|discriminate Hn].
    pose proof (ro_binding _ _ _ _ _ _ Hrow b Eb) as Hb. discriminate Hb.
Qed.

Lemma run_ids f :
  wave_sound run_plan (demo_wave 0 "tts") f →
  same_text_set (map assignment_id (assignments (demo_wave 0 "tts")))
    (map ar_assignment_sha256 (assignment_receipts f)) = true.
Proof. intros Hs. exact (proj1 (proj2 (wave_sound_rows _ _ _ Hs))). Qed.


Lemma late_clock_loses_wave_witness :
  ∃ f, run_wave bad_run run_plan (demo_wave 0 "tts") None None = Ok f ∧
    is_ok (run_wave late_run run_plan (demo_wave 0 "tts") (Some f) None) = false.
Proof.
  destruct run_fails as (f & r & Hf & Hs & Hi & Hl & Hst & _ & e & Hints). exists f.
  split; [exact Hf|].
  apply (late_clock_loses_wave late_run run_plan (demo_wave 0 "tts") f None r (10, e)
    (proj1 Hs) (eq_sym Hi) (run_ids f Hs)).
  - rewrite Hl. apply list_elem_of_here.
  - exact Hst.
  - rewrite Hints. reflexivity.
  - intros p s _ Hb. cbn in Hb. injection Hb as <-. cbn [snd].
    assert (Hr : r ∈ assignment_receipts f) by (rewrite Hl; apply list_elem_of_here).
    destruct (new_AssignmentExecutionReceipt_Ok r r (proj1 (proj2 Hs) r Hr)) as (_ & Hsep & _).
    rewrite Hints in Hsep. destruct Hsep as ([_ He] & _). cbn in He. lia.
Defined.

Lemma run_returns :
  ∃ r, execute_dispatch_plan good_run run_plan None None None = Ok r.
Proof.
  destruct (continue_total good_run run_plan run_plan_valid run_waves_valid run_issued
    (good_faithful run_start) (run_orderly _) run_funded None) as (r & Hr & _).
  { intros c Hc. discriminate Hc. }
  exists r. unfold execute_dispatch_plan. rewrite run_issued.
  change (negb (scientific_budget_bound run_plan)) with false. exact Hr.
Qed.

Lemma execute_dispatch_sound_witness :
  ∃ r, execute_dispatch_plan good_run run_plan None None None = Ok r ∧ valid_schedule r ∧
    zlength (wave_receipts r) = 1.
Proof.
  destruct run_returns as (r & Hr). exists r. split; [exact Hr|].
  destruct (execute_dispatch_sound good_run run_plan None None None r run_plan_valid
    run_waves_valid (good_faithful run_start)) as (Hv & _ & Hws & Hphase & _).
  - intros c Hc. discriminate Hc.
  - exact Hr.
  - split; [exact Hv|].
    assert (Hle : (length (wave_receipts r) ≤ 1)%nat).
    { apply Nat.nlt_ge. intros Hlt.
      destruct (lookup_lt_is_Some_2 (wave_receipts r) 1 Hlt) as [w Hw].
      destruct (Hws 1%nat w Hw) as (wave & Hl & _). discriminate Hl. }
    assert (Hne : wave_receipts r ≠ []).
    { destruct (sr_phase r); [destruct Hphase|apply Hphase| |].
      - destruct Hphase as (front & w & -> & _). destruct front; discriminate.
      - destruct Hphase as [_ Hlen]. intros Hnil. rewrite Hnil in Hlen. discriminate Hlen. }
    unfold zlength. destruct (wave_receipts r) as [|w [|w' ws]]; [destruct (Hne eq_refl)|reflexivity|].
    cbn [length] in Hle. lia.
Defined.

Lemma execute_total_witness :
  (∃ r, execute_dispatch_plan good_run run_plan None None None = Ok r ∧
     sr_phase r = PHASE_COMPLETE) ∧
  ∃ r, execute_dispatch_plan bad_run run_plan None None None = Ok r ∧
    (sr_phase r = PHASE_COMPLETE ∨ sr_phase r = PHASE_FAILED).
Proof.
  split.
  - destruct (execute_total good_run run_plan None None run_plan_valid run_waves_valid eq_refl
      run_issued (good_faithful run_start) (run_orderly _) run_funded) as (r & Hr & _ & Hc).
    { intros c Hc. discriminate Hc. }
    exists r. split; [exact Hr|]. exact (Hc good_successful).
  - destruct (execute_total bad_run run_plan None None run_plan_valid run_waves_valid eq_refl
      run_issued bad_faithful (run_orderly _) run_funded) as (r & Hr & Hp & _).
    { intros c Hc. discriminate Hc. }
    exists r. split; [exact Hr|exact Hp].
Defined.
