(* ===== verification/ReceiptRoundTrip.v ===== *)
(** * Plans and receipts read back what was written

    [from_dict] after [to_dict] is the identity on the plans the scheduler issues
    and on the receipts the executor returns, and what is read has passed the
    checks of its constructors. *)
From S2P Require Import Prelude PyFloat FloatRepr Hashlib Registry GpuPool PoolParsing.
From S2P Require Import PoolRoundTrip Execution ReceiptParsing Intervals ExecutionSafety.

(** ** Leaves *)
Lemma texts_map {A} (f : A → string) l : (∀ x, is_text (f x) = true) → texts (map f l).
Proof. intros H s (x & -> & _)%list_elem_of_fmap. apply H. Qed.

Lemma parse_status_ok s : parse_status (AssignmentExecutionStatus_value s) = Ok s.
Proof. by destruct s. Qed.
Lemma status_text s : is_text (AssignmentExecutionStatus_value s) = true.
Proof. by destruct s. Qed.
Lemma parse_phase_ok p : parse_phase (DispatchExecutionPhase_value p) = Ok p.
Proof. by destruct p. Qed.
Lemma phase_text p : is_text (DispatchExecutionPhase_value p) = true.
Proof. by destruct p. Qed.
#[export] Hint Rewrite parse_status_ok parse_phase_ok : wire.
#[export] Hint Rewrite strict_text_ok list_text_ok using first [apply status_text | apply phase_text
  | apply texts_map; intros ?; apply content_sha256_text] : wire.

Lemma intervals_of_ok name item endpoint l :
  intervals_of name item endpoint (intervals_json l) = Ok l.
Proof.
  unfold intervals_of, intervals_json.
  replace (map (λ i : Interval, jints [i.1; i.2]) l)
    with (map jints (map (λ i : Interval, [i.1; i.2]) l)) by (by rewrite map_map).
  rewrite (list_of_ok _ _ jints) by (intros; apply list_int_ok). f_equal.
  induction l as [|[s e] l IH]; [done|]. cbn [map pair_of fst snd]. by rewrite IH.
Qed.
#[export] Hint Rewrite intervals_of_ok : wire.

Lemma require_all_sha256_text fields u :
  require_all_sha256 fields = Ok u → Forall (λ f, is_text f.2 = true) fields.
Proof.
  induction fields as [|[n v] fields IH]; cbn [require_all_sha256]; [by constructor|].
  intros H. step_ok H. constructor; [by eapply sha256_text|by apply IH].
Qed.
Lemma sha256_opt_text o : is_sha256_opt o = true → none_or is_text o = true.
Proof. destruct o as [s|]; [|done]. apply hash_text. Qed.

Ltac sha_facts :=
  repeat match goal with
  | H : require_all_sha256 _ = Ok _ |- _ => apply require_all_sha256_text in H
  end; text_facts.

(** ** Waves and plans *)
Definition wave_valid (w : GpuDispatchWave) : Prop :=
  new_GpuDispatchWave w = Ok w ∧ ∀ a, a ∈ assignments w → assignment_valid a.

Lemma wave_round_trip w : wave_valid w → wave_from_dict (wave_json w) = Ok w.
Proof.
  intros [Hw Ha]. pose proof Hw as H. unfold new_GpuDispatchWave in H. do 3 step_ok H. text_facts.
  unfold wave_from_dict, wave_json. read_row.
  rewrite (list_of_ok _ assignment_from_dict assignment_json)
    by (intros; by apply assignment_round_trip, Ha).
  rewrite bool_decide_eq_true_2 by done. cbn [negb]. by destruct w.
Qed.

Definition budget_json (b : string * string) : json :=
  JObj [("cell_id", JStr b.1); ("experiment_budget_sha256", JStr b.2)].
Lemma budget_round_trip b :
  is_text b.1 = true → is_text b.2 = true → budget_binding_from_dict (budget_json b) = Ok b.
Proof.
  intros H1 H2. unfold budget_binding_from_dict, budget_json. read_row. by destruct b.
Qed.

Lemma feq_refl x : ffinite x = true → feq x x = true.
Proof.
  unfold feq, SFeqb, SFcompare. destruct x as [[]|[]| |[] m e]; try done; intros _;
    by rewrite Z.compare_refl, Pos.compare_cont_refl.
Qed.
Lemma cost_close_refl x : ffinite x = true → cost_close x x = true.
Proof. intros H. unfold cost_close. by rewrite feq_refl. Qed.

Definition plan_valid (p : GpuDispatchPlan) : Prop :=
  new_GpuDispatchPlan p = Ok p ∧ (∀ w, w ∈ waves p → wave_valid w) ∧
  let '(wall, gpu, hours) := plan_costs p in
  ffinite wall = true ∧ ffinite gpu = true ∧ ffinite hours = true.

Lemma strict_sum name o :
  ffinite (default fzero o) = true →
  strict_float name (match o with Some x => JFloat x | None => JInt 0 end) = Ok (default fzero o).
Proof. destruct o; cbn [default]; intros H; [by apply strict_float_ok|by vm_compute]. Qed.

(** The text a plan holds. *)
Lemma plan_texts p :
  new_GpuDispatchPlan p = Ok p →
  (∀ b, b ∈ budget_sha256_by_cell p → is_text b.1 = true ∧ is_text b.2 = true) ∧
  texts (completed_cell_ids p).
Proof.
  unfold new_GpuDispatchPlan. intros H. repeat step_ok H. sha_facts. split.
  - intros b Hb. match goal with Hc : Forall _ (concat _) |- _ => rewrite Forall_forall in Hc;
      rename Hc into Hall end.
    assert (∀ f, f ∈ [("dispatch budget cell ID", b.1); ("dispatch ExperimentBudget SHA-256", b.2)] →
      is_text f.2 = true) as Hf.
    { intros f Hf. apply Hall. apply list_elem_of_In, in_concat. eexists.
      split; [apply in_map; by apply list_elem_of_In|by apply list_elem_of_In]. }
    split; [apply (Hf _ (list_elem_of_here _ _))|].
    apply (Hf _ (list_elem_of_further _ _ _ (list_elem_of_here _ _))).
  - intros s Hs. match goal with Hf : negb (forallb (is_hash 64) _) = false |- _ =>
      apply negb_false_iff in Hf; rewrite forallb_forall in Hf end.
    eapply hash_text. by match goal with Hf : ∀ x, _ |- _ => apply Hf, list_elem_of_In end.
Qed.

Lemma plan_round_trip p :
  plan_valid p → plan_from_dict (plan_json p) (Ok p) None = Ok p.
Proof.
  intros (Hp & Hw & Hwall & Hgpu & Hhours). destruct (plan_texts p Hp) as [Hbud Hdone].
  pose proof Hp as H. unfold new_GpuDispatchPlan in H.
  do 2 step_ok H. clear H. sha_facts.
  unfold plan_from_dict, plan_json. read_row.
  rewrite (list_of_ok _ wave_from_dict wave_json) by (intros; by apply wave_round_trip, Hw).
  rewrite (bool_decide_eq_true_2 (_ = _)) by done. cbn [negb].
  rewrite (list_of_ok _ budget_binding_from_dict budget_json)
    by (intros b Hb; apply budget_round_trip; by apply Hbud).
  unfold jsum. rewrite !strict_sum by assumption. autorewrite with wire.
  replace {| dp_schema_version := _ |} with p by (by destruct p). rewrite Hp.
  rewrite Bool.eqb_reflx. cbn [negb plan_costs]. rewrite !cost_close_refl by assumption.
  cbn [negb orb validate_for_planning validate_sidecar].
  by rewrite bool_decide_eq_true_2.
Qed.

(** ** Receipts *)
Section receipts.
Context `{FileSystem}.

Definition binding_valid (b : AssignmentTerminalBinding) : Prop :=
  new_AssignmentTerminalBinding b = Ok b.

Lemma list_raw_ok name l : list_of name raw_text (jstrs l) = Ok l.
Proof. by apply list_of_ok. Qed.

Lemma binding_round_trip b : binding_valid b → binding_from_dict (binding_json b) = Ok b.
Proof.
  intros Hb. unfold binding_from_dict, binding_json. read_row. cbn [raw_text].
  rewrite !list_raw_ok. by destruct b.
Qed.

Definition row_valid (r : AssignmentExecutionReceipt) : Prop :=
  new_AssignmentExecutionReceipt r = Ok r ∧
  ∀ b, terminal_binding r = Some b → binding_valid b.

Lemma optional_ok {A} (read : json → result A) (write : A → json) o :
  (∀ x, o = Some x → read (write x) = Ok x) → (∀ x, write x ≠ JNull) →
  optional read (jopt write o) = Ok o.
Proof.
  intros Hr Hn. destruct o as [x|]; [|done]. cbn [jopt]. unfold optional.
  pose proof (Hn x). rewrite (Hr x eq_refl). by destruct (write x).
Qed.

Lemma union_json_ok name l n : interval_union_ns l = Ok n → strict_int name (union_json l) = Ok n.
Proof. unfold union_json. by intros ->. Qed.

(** The optional digests of a receipt. *)
Lemma receipt_texts r :
  new_AssignmentExecutionReceipt r = Ok r →
  none_or is_text (ar_terminal_receipt_sha256 r) = true ∧
  none_or is_text (failure_sha256 r) = true ∧
  none_or is_text (prior_attempt_receipt_sha256 r) = true ∧
  is_text (ar_accounting_semantics r) = true ∧
  ∃ n, interval_union_ns (attempt_intervals r) = Ok n.
Proof.
  unfold new_AssignmentExecutionReceipt. intros Hr. repeat step_ok Hr. bools.
  assert (none_or is_text (prior_attempt_receipt_sha256 r) = true) as Hp.
  { destruct (prior_attempt_receipt_sha256 r) as [s|] eqn:Es; [|done].
    destruct (attempt r =? 1) eqn:Ea.
    - match goal with Hx : _ = false ∨ negb (bool_decide (Some s = None)) = false |- _ =>
        by destruct Hx end.
    - match goal with Hx : _ = false ∨ negb (is_sha256_opt _) = false |- _ =>
        destruct Hx as [|Hx]; [done|] end.
      bools. by apply sha256_opt_text. }
  assert (is_text (ar_accounting_semantics r) = true) as Hs.
  { match goal with Hx : ar_accounting_semantics r = _ |- _ => by rewrite Hx end. }
  destruct (ar_status r).
  - repeat step_ok Hr. destruct (terminal_binding r); [|done]. repeat step_ok Hr. bools.
    match goal with Hx : failure_sha256 r = None |- _ => rewrite Hx end.
    split; [by apply sha256_opt_text|]. by split_and!; eauto.
  - repeat step_ok Hr. bools.
    match goal with Hx : ar_terminal_receipt_sha256 r = None |- _ => rewrite Hx end.
    split; [done|]. split; [by apply sha256_opt_text|]. by split_and!; eauto.
Qed.

Lemma assignment_receipt_round_trip r :
  row_valid r → assignment_receipt_from_dict (assignment_receipt_json r) = Ok r.
Proof.
  intros [Hr Hb]. destruct (receipt_texts r Hr) as (H1 & H2 & H3 & H4 & n & Hn).
  pose proof Hr as Hx. unfold new_AssignmentExecutionReceipt in Hx. step_ok Hx. clear Hx. sha_facts.
  unfold assignment_receipt_from_dict, assignment_receipt_json. read_row.
  rewrite (optional_ok binding_from_dict binding_json)
    by (first [intros; by apply binding_round_trip, Hb | done]).
  autorewrite with wire.
  replace {| ar_plan_sha256 := _ |} with r by (by destruct r). rewrite Hr.
  rewrite (union_json_ok _ _ _ Hn), Hn, Z.eqb_refl. done.
Qed.

Definition wave_receipt_valid (w : DispatchWaveExecutionReceipt) : Prop :=
  new_DispatchWaveExecutionReceipt w = Ok w ∧ ∀ r, r ∈ assignment_receipts w → row_valid r.

Lemma wave_receipt_round_trip w :
  wave_receipt_valid w → wave_receipt_from_dict (wave_receipt_json w) = Ok w.
Proof.
  intros [Hw Hr]. pose proof Hw as Hx. unfold new_DispatchWaveExecutionReceipt in Hx.
  repeat step_ok Hx. sha_facts. bools.
  assert (is_text (wr_accounting_semantics w) = true) as Hs
    by (match goal with Hx : wr_accounting_semantics w = _ |- _ => by rewrite Hx end).
  match goal with Hu : interval_union_ns _ = Ok _ |- _ => rename Hu into Hn end.
  unfold wave_receipt_from_dict, wave_receipt_json. read_row.
  rewrite (list_of_ok _ assignment_receipt_from_dict assignment_receipt_json)
    by (intros; by apply assignment_receipt_round_trip, Hr).
  autorewrite with wire. rewrite (bool_decide_eq_true_2 (_ = _)) by done. cbn [negb].
  replace {| wr_plan_sha256 := _ |} with w by (by destruct w). rewrite Hw.
  rewrite (union_json_ok _ _ _ Hn), Hn, Z.eqb_refl. done.
Qed.

(** A schedule receipt all of whose parts, bindings included, were constructed. *)
Definition schedule_valid (r : DispatchScheduleReceipt) : Prop :=
  valid_schedule r ∧ ∀ w a b, w ∈ wave_receipts r → a ∈ assignment_receipts w →
    terminal_binding a = Some b → binding_valid b.

Lemma schedule_valid_waves r :
  schedule_valid r → ∀ w, w ∈ wave_receipts r → wave_receipt_valid w.
Proof.
  intros [[_ Hws] Hb] w Hw. destruct (Hws w Hw) as [Hn Ha]. split; [exact Hn|].
  intros a Hin. split; [by apply Ha|]. intros b. by eapply Hb.
Qed.

Lemma schedule_receipt_round_trip `{ExecutionContext} plan r :
  schedule_valid r → validate_resume_structure plan r = Ok tt →
  schedule_receipt_from_dict (schedule_receipt_json r) plan None = Ok r.
Proof.
  intros Hv Hs. pose proof (schedule_valid_waves r Hv) as Hws. destruct Hv as [[Hr _] _].
  pose proof Hr as Hx. unfold new_DispatchScheduleReceipt in Hx. repeat step_ok Hx. clear Hx.
  assert (none_or is_text (prior_schedule_receipt_sha256 r) = true) as Hprior.
  { match goal with Hp : match prior_schedule_receipt_sha256 r with _ => _ end = Ok _ |- _ =>
      by apply optional_sha256_text in Hp end. }
  sha_facts. bools.
  assert (is_text (sr_accounting_semantics r) = true) as Hsem
    by (match goal with Hx : sr_accounting_semantics r = _ |- _ => by rewrite Hx end).
  match goal with Hu : interval_union_ns _ = Ok _ |- _ => rename Hu into Hn end.
  unfold schedule_receipt_from_dict, schedule_receipt_json. read_row.
  rewrite (list_of_ok _ wave_receipt_from_dict wave_receipt_json)
    by (intros; by apply wave_receipt_round_trip, Hws).
  autorewrite with wire. rewrite (bool_decide_eq_true_2 (_ = _)) by done. cbn [negb].
  replace {| sr_plan_sha256 := _ |} with r by (by destruct r). rewrite Hr.
  rewrite (union_json_ok _ _ _ Hn), Hn, Z.eqb_refl. cbn [negb]. by rewrite Hs.
Qed.
End receipts.
