(* ===== verification/ParseSound.v ===== *)
(** * What is read is valid

    A value that [from_dict] accepts passed the constructors of its class and of
    all its parts, so it can be written and read again. *)
From S2P Require Import Prelude PyFloat FloatRepr Hashlib Registry GpuPool PoolParsing.
From S2P Require Import PoolRoundTrip Execution ReceiptParsing Intervals ExecutionSafety.
From S2P Require Import Scheduler PoolSafety ExecutionTotal ExecutionDemo ReceiptRoundTrip.

(** ** Readers *)
Lemma list_of_Ok {A} name (read : json → result A) v l x :
  list_of name read v = Ok l → x ∈ l → ∃ j, read j = Ok x.
Proof.
  unfold list_of. intros H [i Hi]%list_elem_of_lookup. step_ok H. apply mapR_Ok in H.
  destruct (Forall2_lookup_r _ _ _ _ _ H Hi) as (j & _ & Hj). by exists j.
Qed.
Lemma strict_text_Ok name v s : strict_text name v = Ok s → is_text s = true.
Proof.
  destruct v; try done. cbn. intros H. step_ok H. injection H as <-. by eapply require_text_Ok.
Qed.
Lemma list_text_Ok name item v l : list_of name (strict_text item) v = Ok l → texts l.
Proof. intros H s Hs. destruct (list_of_Ok _ _ _ _ _ H Hs) as [j Hj]. by eapply strict_text_Ok. Qed.
Lemma strict_float_Ok name v x : strict_float name v = Ok x → ffinite x = true.
Proof.
  unfold strict_float. intros H. step_ok H. step_ok H. injection H as <-. by bools.
Qed.
Lemma optional_Ok {A} (read : json → result A) v x :
  optional read v = Ok (Some x) → ∃ j, read j = Ok x.
Proof.
  destruct v; cbn; try done; intros H; step_ok H; injection H as ->; by eexists.
Qed.
Lemma cost_close_finite a b : cost_close a b = true → ffinite b = true → ffinite a = true.
Proof.
  unfold cost_close. intros [H|[[H _]%andb_true_iff _]%andb_true_iff]%orb_true_iff Hb; [|done].
  unfold feq, SFeqb, SFcompare in H. by destruct a as [[]|[]| |[] m e], b as [[]|[]| |[] m' e'].
Qed.

(** The constructor call that ends a parser returns its argument. *)
Ltac constructed H :=
  lazymatch type of H with
  | ?f ?a = Ok ?x =>
      let Heq := fresh in
      assert (x = a) as Heq
        by (let H' := fresh in pose proof H as H'; unfold f in H';
            repeat (step_ok H'); by injection H' as <-);
      rewrite Heq; rewrite Heq in H
  end.

(** ** Objects *)
Lemma device_parsed v d : device_from_dict v = Ok d → new_GpuDevice d = Ok d.
Proof. unfold device_from_dict. intros H. repeat step_ok H. constructed H. exact H. Qed.
Lemma group_parsed v g : group_from_dict v = Ok g → new_GpuTopologyGroup g = Ok g.
Proof. unfold group_from_dict. intros H. repeat step_ok H. constructed H. exact H. Qed.

Lemma inventory_parsed v sidecar i :
  inventory_from_dict v sidecar = Ok i →
  new_GpuInventory i = Ok i ∧ (∀ d, d ∈ devices i → new_GpuDevice d = Ok d) ∧
  (∀ g, g ∈ topology_groups i → new_GpuTopologyGroup g = Ok g).
Proof.
  unfold inventory_from_dict. intros H. repeat step_ok H. injection H as <-.
  match goal with Hi : new_GpuInventory _ = Ok _ |- _ => constructed Hi end.
  cbn [devices topology_groups]. split; [assumption|]. split; intros x Hx.
  - destruct (list_of_Ok _ _ _ _ _ E1 Hx) as [j Hj]. by eapply device_parsed.
  - destruct (list_of_Ok _ _ _ _ _ E2 Hx) as [j Hj]. by eapply group_parsed.
Qed.

Lemma gang_parsed v g : gang_from_dict v = Ok g → new_GangShape g = Ok g.
Proof. unfold gang_from_dict. intros H. repeat step_ok H. constructed H. exact H. Qed.
Lemma constraint_parsed v h :
  constraint_from_dict v = Ok h → new_HomogeneousDeviceConstraint h = Ok h.
Proof. unfold constraint_from_dict. intros H. repeat step_ok H. constructed H. exact H. Qed.
Lemma claim_parsed v c : claim_from_dict v = Ok c → claim_valid c.
Proof.
  unfold claim_from_dict. intros H. repeat step_ok H. constructed H.
  split; [exact H|]. cbn [gang_shape homogeneous].
  split; [by eapply gang_parsed|by eapply constraint_parsed].
Qed.

Lemma identity_parsed v c : cell_identity_from_dict v = Ok c → new_CellIdentity c = Ok c.
Proof. unfold cell_identity_from_dict. intros H. repeat step_ok H. constructed H. exact H. Qed.
Lemma resource_parsed v r : resource_claim_from_dict v = Ok r → new_ResourceClaim r = Ok r.
Proof. unfold resource_claim_from_dict. intros H. repeat step_ok H. constructed H. exact H. Qed.
Lemma cell_parsed v c : experiment_cell_from_dict v = Ok c → cell_valid c.
Proof.
  unfold experiment_cell_from_dict. intros H. repeat step_ok H. constructed H.
  split; [exact H|]. cbn [identity resources].
  split; [by eapply identity_parsed|by eapply resource_parsed].
Qed.

Lemma item_parsed v w : work_item_from_dict v = Ok w → item_valid w.
Proof.
  unfold work_item_from_dict. intros H. repeat step_ok H. constructed H.
  split; [exact H|]. cbn [cell claim]. split; [by eapply cell_parsed|by eapply claim_parsed].
Qed.

Lemma rule_parsed v r : rule_from_dict v = Ok r → new_InterferenceRule r = Ok r.
Proof. unfold rule_from_dict. intros H. repeat step_ok H. constructed H. exact H. Qed.
Lemma envelope_parsed v sidecar e :
  envelope_from_dict v sidecar = Ok e →
  new_InterferenceEnvelope e = Ok e ∧ ∀ r, r ∈ rules e → new_InterferenceRule r = Ok r.
Proof.
  unfold envelope_from_dict. intros H. repeat step_ok H. injection H as <-.
  match goal with Hi : new_InterferenceEnvelope _ = Ok _ |- _ => constructed Hi end.
  cbn [rules]. split; [assumption|]. intros x Hx.
  destruct (list_of_Ok _ _ _ _ _ E1 Hx) as [j Hj]. by eapply rule_parsed.
Qed.

Lemma assignment_parsed v a : assignment_from_dict v = Ok a → assignment_valid a.
Proof.
  unfold assignment_from_dict. intros H. repeat step_ok H. constructed H.
  split; [exact H|]. cbn [work_item gpu_uuids].
  split; [by eapply item_parsed|by eapply list_text_Ok].
Qed.

Lemma new_GpuDispatchWave_id a b : new_GpuDispatchWave a = Ok b → b = a.
Proof.
  unfold new_GpuDispatchWave. intros H. repeat step_ok H.
  destruct (first_conflict _ _); [done|]. step_ok H. by injection H as <-.
Qed.
Lemma wave_parsed v w : wave_from_dict v = Ok w → wave_valid w.
Proof.
  unfold wave_from_dict. intros H. repeat step_ok H. pose proof (new_GpuDispatchWave_id _ _ H) as ->.
  split; [exact H|]. cbn [assignments]. intros x Hx.
  destruct (list_of_Ok _ _ _ _ _ E0 Hx) as [j Hj]. by eapply assignment_parsed.
Qed.

Lemma plan_parsed v issued sidecar p :
  plan_from_dict v issued sidecar = Ok p → plan_valid p ∧ issued = Ok p.
Proof.
  unfold plan_from_dict. intros H. do 16 step_ok H.
  match goal with Hp : new_GpuDispatchPlan _ = Ok ?q |- _ => rename Hp into Hnew; set (x := q) in * end.
  destruct (plan_costs x) as [[wall gpu] hours] eqn:Ec. repeat step_ok H. injection H as <-.
  bools. unfold plan_valid. rewrite Ec. split.
  - constructed Hnew. split; [exact Hnew|]. split.
    + intros w Hw. destruct (list_of_Ok _ _ _ _ _ E0 Hw) as [j Hj]. by eapply wave_parsed.
    + split_and!; (eapply cost_close_finite; [eassumption|by eapply strict_float_Ok]).
  - match goal with Hv : validate_for_planning _ _ = Ok _ |- _ => unfold validate_for_planning in Hv;
      step_ok Hv; step_ok Hv; bools; by subst end.
Qed.

(** ** Receipts *)
Section receipts.
Context `{FileSystem}.

Lemma new_AssignmentTerminalBinding_id a b : new_AssignmentTerminalBinding a = Ok b → b = a.
Proof. unfold new_AssignmentTerminalBinding. intros H0. repeat step_ok H0. by injection H0 as <-. Qed.
Lemma binding_parsed v b : binding_from_dict v = Ok b → binding_valid b.
Proof.
  unfold binding_from_dict. intros H0. repeat step_ok H0.
  pose proof (new_AssignmentTerminalBinding_id _ _ H0) as ->. exact H0.
Qed.

Lemma receipt_parsed v r : assignment_receipt_from_dict v = Ok r → row_valid r.
Proof.
  unfold assignment_receipt_from_dict. intros H0. repeat step_ok H0. injection H0 as <-.
  match goal with Hn : new_AssignmentExecutionReceipt _ = Ok _ |- _ =>
    destruct (new_AssignmentExecutionReceipt_Ok _ _ Hn) as [-> _]; split; [exact Hn|] end.
  cbn [terminal_binding]. intros b ->. by destruct (optional_Ok _ _ _ E0) as [j ?%binding_parsed].
Qed.

Lemma wave_receipt_parsed v w : wave_receipt_from_dict v = Ok w → wave_receipt_valid w.
Proof.
  unfold wave_receipt_from_dict. intros H0. repeat step_ok H0. injection H0 as <-.
  match goal with Hn : new_DispatchWaveExecutionReceipt _ = Ok _ |- _ =>
    destruct (new_DispatchWaveExecutionReceipt_Ok _ _ Hn) as [-> _]; split; [exact Hn|] end.
  cbn [assignment_receipts]. intros r Hr.
  destruct (list_of_Ok _ _ _ _ _ E0 Hr) as [j Hj]. by eapply receipt_parsed.
Qed.

Lemma schedule_receipt_parsed `{ExecutionContext} v plan sidecar r :
  schedule_receipt_from_dict v plan sidecar = Ok r →
  schedule_valid r ∧ validate_resume_structure plan r = Ok tt.
Proof.
  unfold schedule_receipt_from_dict. intros H1. repeat step_ok H1. injection H1 as <-.
  match goal with Hs : validate_resume_structure _ _ = Ok ?u |- _ =>
    destruct u; split; [|exact Hs] end.
  match goal with Hn : new_DispatchScheduleReceipt _ = Ok _ |- _ => rename Hn into Hnew end.
  destruct (new_DispatchScheduleReceipt_Ok _ _ Hnew) as [Heq _].
  assert (Hws : ∀ w, w ∈ a0 → wave_receipt_valid w).
  { intros w Hw. destruct (list_of_Ok _ _ _ _ _ E0 Hw) as [j Hj]. by eapply wave_receipt_parsed. }
  rewrite Heq. rewrite Heq in Hnew. split; [split; [exact Hnew|]|]; cbn [wave_receipts].
  - intros w Hw. destruct (Hws w Hw) as [Hn Ha]. split; [exact Hn|]. intros x Hx. by apply Ha.
  - intros w x b Hw Hx Hb. by eapply (proj2 (Hws w Hw) x Hx).
Qed.
End receipts.

(** ** The properties *)

(** C12. A plan survives its file.  Every constructed plan with finite costs,
    written by [to_dict], is read back by [from_dict] as the same plan when its
    context still issues it; and whatever value, with whatever sidecar,
    [from_dict] accepts is the plan the context issues, all of its waves,
    assignments, work items, claims and cells passed their constructors, and it
    can be written and read again. *)
Theorem plan_reads_back p :
  (plan_valid p → plan_from_dict (plan_json p) (Ok p) None = Ok p) ∧
  (∀ v issued sidecar, plan_from_dict v issued sidecar = Ok p →
     issued = Ok p ∧ plan_valid p ∧ plan_from_dict (plan_json p) issued None = Ok p).
Proof.
  split; [apply plan_round_trip|]. intros v issued sidecar H.
  destruct (plan_parsed _ _ _ _ H) as [Hv ->]. split; [done|]. split; [exact Hv|].
  by apply plan_round_trip.
Qed.

(** C13. A schedule receipt survives the restart of the executor.  A receipt
    whose parts were constructed and that passes the structural resume check,
    written by [to_dict], is read back as the same receipt; and every value that
    [from_dict] accepts is such a receipt, so its digest, its bill and its
    phase are those of an execution of this plan. *)
Theorem receipt_reads_back `{FileSystem} `{ExecutionContext} plan r :
  (schedule_valid r → validate_resume_structure plan r = Ok tt →
   schedule_receipt_from_dict (schedule_receipt_json r) plan None = Ok r) ∧
  (∀ v sidecar, schedule_receipt_from_dict v plan sidecar = Ok r →
     schedule_valid r ∧ validate_resume_structure plan r = Ok tt ∧
     schedule_receipt_from_dict (schedule_receipt_json r) plan None = Ok r).
Proof.
  split; [apply schedule_receipt_round_trip|]. intros v sidecar H1.
  destruct (schedule_receipt_parsed _ _ _ _ H1) as [Hv Hs]. split; [exact Hv|].
  split; [exact Hs|]. by apply schedule_receipt_round_trip.
Qed.

(** ** A scheduled plan and its file *)
Lemma candidate_gang_texts s item g :
  (∀ d, d ∈ devices (inventory s) → new_GpuDevice d = Ok d) → g ∈ candidate_gangs s item → texts g.
Proof.
  intros Hd Hg u Hu. unfold candidate_gangs in Hg.
  apply elem_of_sorted_by, list_elem_of_filter in Hg as [Hacc _]. unfold gang_accepted in Hacc.
  destruct (devices_of s g) as [ds|] eqn:Ed; [|done].
  apply list_elem_of_lookup in Hu as [i Hi].
  destruct (Forall2_lookup_l _ _ _ _ _ (devices_of_spec _ _ _ Ed) Hi) as (d & _ & Hin & <-).
  pose proof (Hd d Hin) as H. unfold new_GpuDevice in H. repeat step_ok H. by text_facts.
Qed.

Lemma scheduled_plan_valid `{ReleaseGate} s items receipts completed budgets auth plan :
  schedule_work_items_authorized s items receipts completed budgets auth = Ok plan →
  (∀ d, d ∈ devices (inventory s) → new_GpuDevice d = Ok d) →
  (∀ item, item ∈ items → item_valid item) →
  new_GpuDispatchPlan plan = Ok plan ∧ ∀ w, w ∈ waves plan → wave_valid w.
Proof.
  intros Hs Hd Hi. split.
  { unfold schedule_work_items_authorized in Hs. repeat step_ok Hs.
    pose proof (new_GpuDispatchPlan_Ok _ _ Hs) as ->. exact Hs. }
  apply schedule_cases in Hs as (_ & placements & Hpl & Hperm & Hw).
  destruct (place_items_Ok _ _ _ _ [] Hpl (affinity_initial s)) as (Hitems & Hcand & _).
  intros w Hin. destruct (Hw w Hin) as [[_ _ Hok _] Hnew]. split; [done|]. intros a Ha.
  destruct (plan_placements_in _ _ a Hperm) as (b & Hb & Hbi & Hbg).
  { unfold plan_assignments. apply list_elem_of_In, in_concat. exists (assignments w).
    split; apply list_elem_of_In; [by apply list_elem_of_fmap_2|done]. }
  split; [by apply Hok|]. rewrite <- Hbi, <- Hbg. split.
  - apply Hi, (elem_of_sorted_by (dispatch_order_key (sc_seed s))).
    fold (dispatch_order s items). rewrite <- Hitems. by apply list_elem_of_fmap_2.
  - eapply candidate_gang_texts; [done|by apply Hcand].
Qed.

(** C11. Planning and execution agree through the file.  The plan the scheduler
    returns for valid work items and devices, written by [to_dict] and read by
    another process whose scheduler has the same inputs, is that plan: nothing
    the scheduler decides is lost or refused (the total costs must be finite,
    since [to_dict] writes them as JSON numbers). *)
Theorem scheduled_plan_persists `{ReleaseGate} s items receipts completed budgets auth plan :
  let scheduled := schedule_work_items_authorized s items receipts completed budgets auth in
  (∀ d, d ∈ devices (inventory s) → new_GpuDevice d = Ok d) →
  (∀ item, item ∈ items → item_valid item) → scheduled = Ok plan →
  (let '(wall, gpu, hours) := plan_costs plan in
   ffinite wall && ffinite gpu && ffinite hours = true) →
  plan_from_dict (plan_json plan) scheduled None = Ok plan.
Proof.
  intros scheduled Hd Hi Hs Hc. rewrite Hs. apply plan_round_trip.
  destruct (scheduled_plan_valid _ _ _ _ _ _ _ Hs Hd Hi) as [Hp Hw].
  split; [exact Hp|]. split; [exact Hw|]. destruct (plan_costs plan) as [[wall gpu] hours].
  by rewrite !andb_true_iff in Hc; destruct Hc as [[? ?] ?].
Qed.

(** ** The properties at the plan of [ExecutionDemo] *)
Lemma run_item_valid : item_valid run_item.
Proof. split_and!; by vm_compute. Qed.
Lemma run_assignment_valid : assignment_valid (demo_assignment "tts").
Proof.
  split; [by vm_compute|]. split; [exact run_item_valid|].
  by intros s ->%list_elem_of_singleton.
Qed.
Lemma run_plan_file : plan_valid run_plan.
Proof.
  split; [exact run_plan_valid|]. split.
  - intros w Hw. split; [by apply run_waves_valid|].
    apply list_elem_of_singleton in Hw as ->. intros a ->%list_elem_of_singleton.
    exact run_assignment_valid.
  - by vm_compute.
Qed.

Lemma plan_reads_back_witness :
  plan_from_dict (plan_json run_plan) (Ok run_plan) None = Ok run_plan.
Proof. apply (proj1 (plan_reads_back run_plan)). exact run_plan_file. Defined.

(** The receipt of the run that fails: its only wave has a failed row. *)
#[export] Instance run_files : FileSystem := {| absolute_resolved := String.prefix "/" |}.

Lemma run_fails_receipt :
  ∃ r, make_schedule_receipt run_plan PHASE_FAILED (wave_receipts r) None = Ok r ∧
    schedule_valid r ∧ validate_resume_structure run_plan r = Ok tt ∧
    wave_receipts r ≠ [].
Proof.
  destruct run_fails as (f & row & _ & Hs & Hi & Hl & Hst & _).
  assert (Hp : prefix_sound run_plan [f]).
  { intros [|i] w [= <-]. split; [exact Hi|]. exists (demo_wave 0 "tts"). by split. }
  assert (Hfit : phase_fits run_plan PHASE_FAILED [f]).
  { exists [], f. split; [done|]. split; [done|]. unfold succeeded. by rewrite Hl; cbn; rewrite Hst. }
  destruct (make_schedule_receipt_total run_plan PHASE_FAILED [f] None Hp Hfit) as [r Hr];
    [apply run_funded|].
  destruct (make_schedule_receipt_Ok _ _ _ _ _ Hr) as (_ & _ & Hw & _).
  destruct (made_receipt_good run_plan run_issued PHASE_FAILED [f] None r Hp Hfit Hr) as [Hv Hstr].
  exists r. rewrite Hw. split; [exact Hr|]. split; [|by split]. split; [exact Hv|].
  intros w a b Hin Ha Hb. rewrite Hw in Hin. apply list_elem_of_singleton in Hin as ->.
  rewrite Hl in Ha. apply list_elem_of_singleton in Ha as ->.
  destruct (proj2 Hv f) as [_ Hrows]; [rewrite Hw; apply list_elem_of_here|].
  pose proof (Hrows row) as Hn. rewrite Hl in Hn. specialize (Hn (list_elem_of_here _ _)).
  unfold new_AssignmentExecutionReceipt in Hn. repeat step_ok Hn. rewrite Hst, Hb in Hn.
  repeat step_ok Hn. by bools.
Qed.

Lemma receipt_reads_back_witness :
  ∃ r, schedule_receipt_from_dict (schedule_receipt_json r) run_plan None = Ok r ∧
    wave_receipts r ≠ [].
Proof.
  destruct run_fails_receipt as (r & _ & Hv & Hs & Hne). exists r. split; [|exact Hne].
  exact (proj1 (receipt_reads_back run_plan r) Hv Hs).
Defined.

#[local] Existing Instance demo_gate.
Lemma demo_item_valid m : m = "tts" ∨ m = "l0" → item_valid (demo_item m).
Proof. by intros [->| ->]; split_and!; vm_compute. Qed.

Lemma scheduled_plan_persists_witness :
  ∃ plan, schedule_work_items demo_scheduler demo_items demo_receipt [] [] = Ok plan ∧
    plan_from_dict (plan_json plan)
      (schedule_work_items demo_scheduler demo_items demo_receipt [] []) None = Ok plan.
Proof.
  destruct demo_schedules_pair as (m1 & m2 & Hm & H). exists (demo_plan m1 m2).
  split; [exact H|]. unfold schedule_work_items in *.
  apply (scheduled_plan_persists demo_scheduler demo_items demo_receipt [] [] [] (demo_plan m1 m2)).
  - by intros d ->%list_elem_of_singleton.
  - intros i [->|[->|Hn]%elem_of_cons]%elem_of_cons;
      [exact (demo_item_valid _ (or_introl eq_refl))|exact (demo_item_valid _ (or_intror eq_refl))|].
    destruct (not_elem_of_nil _ Hn).
  - exact H.
  - destruct Hm as [Hm|Hm]; injection Hm as -> ->; by vm_compute.
Defined.
