(* ===== verification/Fleet.v ===== *)
(** * GPU fleets: the data ([experiments/gpu_fleet.py])

    Canonical POSIX namespaces, host and fleet inventories, execution bindings,
    host plans, fleet assignments, fleet waves and fleet plans with the checks of
    their constructors and their JSON.  The strict readers and the text and
    digest checks of this file repeat those of [experiments/gpu_pool.py]. *)
From S2P Require Import Prelude PyFloat FloatRepr Hashlib Registry GpuPool Execution.

(** ** Namespaces

    [PurePosixPath(value)]: the root, the components and the text it prints. *)
Definition slash : Ascii.ascii := Ascii.ascii_of_nat 47.
Definition backslash : Ascii.ascii := Ascii.ascii_of_nat 92.
Definition nul : Ascii.ascii := Ascii.ascii_of_nat 0.

(** [s.split("/")]; [word] is the component read so far, reversed. *)
Fixpoint split_slash (word : string) (s : string) : list string :=
  match s with
  | EmptyString => [String.rev word]
  | String.String c s =>
    if bool_decide (c = slash) then String.rev word :: split_slash EmptyString s
    else split_slash (String.String c word) s
  end.
(** POSIX keeps exactly two leading slashes apart. *)
Definition path_root (s : string) : string :=
  if String.prefix "///" s then "/" else if String.prefix "//" s then "//"
  else if String.prefix "/" s then "/" else EmptyString.
Definition path_names (s : string) : list string :=
  filter (λ p, p ≠ EmptyString ∧ p ≠ ".") (split_slash EmptyString s).
(** [PurePosixPath(value).parts] and [str(PurePosixPath(value))]. *)
Definition path_parts (s : string) : list string :=
  if string_empty (path_root s) then path_names s else path_root s :: path_names s.
Definition path_str (s : string) : string :=
  let text := path_root s +:+ String.concat "/" (path_names s) in
  if string_empty text then "." else text.

Definition has_char (c : Ascii.ascii) (s : string) : bool :=
  negb (string_forall (λ d, negb (bool_decide (d = c))) s).

Definition require_namespace (name value : string) : result unit :=
  _ <-! require_text name value ;;
  raise_if (has_char nul value || has_char backslash value)
    (ValueError (name +:+ " must use canonical POSIX path syntax")) ;;
  raise_if (bool_decide (value = ".") || bool_decide (value = "/")
            || bool_decide (".." ∈ path_parts value)
            || negb (bool_decide (path_str value = value)))
    (ValueError (name +:+ " must be a canonical non-root namespace")) ;;
  Ok tt.

(** [_qualify]. *)
Definition qualify (namespace logical_root : string) : result string :=
  _ <-! require_namespace "host namespace" namespace ;;
  _ <-! require_namespace "logical resource root" logical_root ;;
  raise_if (String.prefix "/" logical_root)
    (ValueError "logical resource roots must be relative") ;;
  let qualified := namespace +:+ "/" +:+ logical_root in
  _ <-! require_namespace "qualified resource root" qualified ;;
  Ok qualified.

(** ** Host and fleet inventories *)

(** [GpuInventory.host_ids]. *)
Definition inventory_host_ids (i : GpuInventory) : list string :=
  sorted_by (λ h, h) (remove_dups (map host_id (devices i))).

Record HostInventoryBinding := {
  hb_schema_version : Z; hb_host_id : string; hb_inventory : GpuInventory;
  hb_interference_envelope : InterferenceEnvelope }.

Definition new_HostInventoryBinding (b : HostInventoryBinding) : result HostInventoryBinding :=
  raise_if (negb (hb_schema_version b =? 1))
    (ValueError "only host-inventory binding schema version 1 is supported") ;;
  _ <-! require_text "host_id" (hb_host_id b) ;;
  raise_if (negb (bool_decide (inventory_host_ids (hb_inventory b) = [hb_host_id b])))
    (ValueError "host inventory binding must contain exactly its host") ;;
  raise_if (existsb (λ r, negb (bool_decide (ir_hardware_envelope_sha256 r
                                  ∈ map hardware_envelope_sha256 (devices (hb_inventory b)))))
              (rules (hb_interference_envelope b)))
    (ValueError "host interference envelope references another hardware envelope") ;;
  Ok b.

Definition host_binding_json (b : HostInventoryBinding) : json := JObj [
  ("schema_version", JInt (hb_schema_version b)); ("host_id", JStr (hb_host_id b));
  ("inventory", inventory_json (hb_inventory b));
  ("inventory_sha256", JStr (inventory_digest (hb_inventory b)));
  ("interference_envelope", envelope_json (hb_interference_envelope b));
  ("interference_envelope_sha256", JStr (envelope_sha256 (hb_interference_envelope b)))].
Definition host_binding_sha256 (b : HostInventoryBinding) : string :=
  content_sha256 (host_binding_json b).

Record GpuFleetInventory := { fi_schema_version : Z; hosts : list HostInventoryBinding }.

Definition fleet_host_ids (f : GpuFleetInventory) : list string := map hb_host_id (hosts f).
Definition fleet_gpu_uuids (f : GpuFleetInventory) : list string :=
  concat (map (λ b, device_uuids (hb_inventory b)) (hosts f)).

Definition new_GpuFleetInventory (f : GpuFleetInventory) : result GpuFleetInventory :=
  raise_if (negb (fi_schema_version f =? 1))
    (ValueError "only GPU fleet inventory schema version 1 is supported") ;;
  raise_if (match hosts f with [] => true | _ => false end)
    (ValueError "GPU fleet inventory must contain at least one host") ;;
  raise_if (negb (is_sorted_text (fleet_host_ids f)) || negb (unique_text (fleet_host_ids f)))
    (ValueError "fleet host bindings must be sorted and unique") ;;
  raise_if (negb (unique_text (fleet_gpu_uuids f)))
    (ValueError "fleet inventories contain a duplicate physical GPU UUID") ;;
  Ok f.

(** [GpuFleetInventory.gpu_count]. *)
Definition fleet_gpu_count (f : GpuFleetInventory) : Z :=
  foldr (λ b n, zlength (devices (hb_inventory b)) + n) 0 (hosts f).

(** [GpuFleetInventory.host]: the only binding of that host. *)
Definition fleet_host (f : GpuFleetInventory) (h : string) : result HostInventoryBinding :=
  match filter (λ b, hb_host_id b = h) (hosts f) with
  | [b] => Ok b
  | _ => Raise (ValueError ("unknown fleet host '" +:+ h +:+ "'"))
  end.

Definition fleet_inventory_json (f : GpuFleetInventory) : json := JObj [
  ("schema_version", JInt (fi_schema_version f));
  ("hosts", JList (map host_binding_json (hosts f)));
  ("host_binding_sha256", jstrs (map host_binding_sha256 (hosts f)))].
Definition fleet_inventory_digest (f : GpuFleetInventory) : string :=
  content_sha256 (fleet_inventory_json f).

(** [assemble_gpu_fleet_inventory]. *)
Definition assemble_gpu_fleet_inventory (rows : list HostInventoryBinding)
    : result GpuFleetInventory :=
  new_GpuFleetInventory {| fi_schema_version := 1; hosts := sorted_by hb_host_id rows |}.

(** ** Execution bindings *)
Record HostExecutionBinding := {
  xb_schema_version : Z; xb_host_id : string; xb_inventory_sha256 : string;
  xb_interference_envelope_sha256 : string; xb_port_start : Z; xb_port_end : Z;
  cache_namespace : string; evidence_namespace : string; xb_contention_domain : string }.
#[export] Instance HostExecutionBinding_eq_dec : EqDecision HostExecutionBinding.
Proof. solve_decision. Defined.

(** One list of path components starts with the other. *)
Definition path_prefix (l1 l2 : list string) : bool :=
  bool_decide (take (length l2) l1 = l2).

Definition new_HostExecutionBinding (b : HostExecutionBinding) : result HostExecutionBinding :=
  raise_if (negb (xb_schema_version b =? 1))
    (ValueError "only host-execution binding schema version 1 is supported") ;;
  _ <-! require_text "host_id" (xb_host_id b) ;;
  _ <-! require_sha256 "inventory_sha256" (xb_inventory_sha256 b) ;;
  _ <-! require_sha256 "interference_envelope_sha256" (xb_interference_envelope_sha256 b) ;;
  raise_if (negb ((1024 <=? xb_port_start b) && (xb_port_start b <=? xb_port_end b)
                  && (xb_port_end b <=? 65535)))
    (ValueError "host execution port range is invalid") ;;
  _ <-! require_namespace "cache_namespace" (cache_namespace b) ;;
  _ <-! require_namespace "evidence_namespace" (evidence_namespace b) ;;
  let cache_parts := path_parts (cache_namespace b) in
  let evidence_parts := path_parts (evidence_namespace b) in
  raise_if (path_prefix cache_parts evidence_parts || path_prefix evidence_parts cache_parts)
    (ValueError "cache and evidence namespaces must not overlap") ;;
  _ <-! require_text "contention_domain" (xb_contention_domain b) ;;
  Ok b.

Definition cache_root_for (b : HostExecutionBinding) (a : GpuAssignment) : result string :=
  qualify (cache_namespace b) (cache_root (claim (work_item a))).
Definition evidence_root_for (b : HostExecutionBinding) (a : GpuAssignment) : result string :=
  qualify (evidence_namespace b) (evidence_root (claim (work_item a))).

Definition execution_binding_json (b : HostExecutionBinding) : json := JObj [
  ("schema_version", JInt (xb_schema_version b)); ("host_id", JStr (xb_host_id b));
  ("inventory_sha256", JStr (xb_inventory_sha256 b));
  ("interference_envelope_sha256", JStr (xb_interference_envelope_sha256 b));
  ("port_start", JInt (xb_port_start b)); ("port_end", JInt (xb_port_end b));
  ("cache_namespace", JStr (cache_namespace b));
  ("evidence_namespace", JStr (evidence_namespace b));
  ("contention_domain", JStr (xb_contention_domain b))].
Definition execution_binding_sha256 (b : HostExecutionBinding) : string :=
  content_sha256 (execution_binding_json b).

(** ** Host plans *)
Record HostDispatchPlan := {
  hp_host_id : string; host_inventory_sha256 : string;
  execution_binding : HostExecutionBinding; dispatch_plan : GpuDispatchPlan }.

(** The loop over the waves of the plan. *)
Definition check_host_wave (b : HostExecutionBinding) (w : GpuDispatchWave) : result unit :=
  raise_if (existsb (λ p, (p <? xb_port_start b) || (xb_port_end b <? p))
              (concat (map ports (assignments w))))
    (ValueError "host assignment uses a port outside its binding") ;;
  cache_roots <-! mapR (cache_root_for b) (assignments w) ;;
  evidence_roots <-! mapR (evidence_root_for b) (assignments w) ;;
  raise_if (negb (unique_text cache_roots))
    (ValueError "host wave overlaps a qualified cache root") ;;
  raise_if (negb (unique_text evidence_roots))
    (ValueError "host wave overlaps a qualified evidence root") ;;
  Ok tt.
Fixpoint check_host_waves (b : HostExecutionBinding) (ws : list GpuDispatchWave) : result unit :=
  match ws with
  | [] => Ok tt
  | w :: ws => _ <-! check_host_wave b w ;; check_host_waves b ws
  end.

Definition new_HostDispatchPlan (p : HostDispatchPlan) : result HostDispatchPlan :=
  _ <-! require_text "host_id" (hp_host_id p) ;;
  _ <-! require_sha256 "host_inventory_sha256" (host_inventory_sha256 p) ;;
  let b := execution_binding p in
  let d := dispatch_plan p in
  raise_if (negb (bool_decide (xb_host_id b = hp_host_id p)))
    (ValueError "host execution binding identity mismatch") ;;
  raise_if (negb (bool_decide (xb_inventory_sha256 b = host_inventory_sha256 p))
            || negb (bool_decide (inventory_sha256 d = host_inventory_sha256 p)))
    (ValueError "host dispatch inventory identity mismatch") ;;
  raise_if (negb (bool_decide (dp_interference_envelope_sha256 d
                               = xb_interference_envelope_sha256 b)))
    (ValueError "host dispatch interference identity mismatch") ;;
  raise_if (match waves d with [] => true | _ => false end)
    (ValueError "host dispatch wrapper cannot contain an empty plan") ;;
  _ <-! check_host_waves b (waves d) ;;
  Ok p.

Definition host_plan_json (p : HostDispatchPlan) : json := JObj [
  ("host_id", JStr (hp_host_id p)); ("host_inventory_sha256", JStr (host_inventory_sha256 p));
  ("execution_binding", execution_binding_json (execution_binding p));
  ("execution_binding_sha256", JStr (execution_binding_sha256 (execution_binding p)));
  ("dispatch_plan", plan_json (dispatch_plan p));
  ("dispatch_plan_sha256", JStr (plan_sha256 (dispatch_plan p)))].
Definition host_plan_sha256 (p : HostDispatchPlan) : string := content_sha256 (host_plan_json p).

(** ** Fleet assignments *)
Record GpuFleetAssignment := {
  fa_host_id : string; fa_host_inventory_sha256 : string; host_dispatch_plan_sha256 : string;
  fa_execution_binding_sha256 : string; local_wave_index : Z; local_wave_sha256 : string;
  assignment : GpuAssignment; fa_cache_root : string; fa_evidence_root : string;
  contention_domain : string }.
#[export] Instance GpuFleetAssignment_eq_dec : EqDecision GpuFleetAssignment.
Proof. solve_decision. Defined.

Definition new_GpuFleetAssignment (a : GpuFleetAssignment) : result GpuFleetAssignment :=
  _ <-! require_text "host_id" (fa_host_id a) ;;
  _ <-! require_all_sha256 [("host_inventory_sha256", fa_host_inventory_sha256 a);
          ("host_dispatch_plan_sha256", host_dispatch_plan_sha256 a);
          ("execution_binding_sha256", fa_execution_binding_sha256 a);
          ("local_wave_sha256", local_wave_sha256 a)] ;;
  raise_if (local_wave_index a <? 0) (ValueError "local_wave_index must be non-negative") ;;
  _ <-! require_namespace "fleet cache root" (fa_cache_root a) ;;
  _ <-! require_namespace "fleet evidence root" (fa_evidence_root a) ;;
  _ <-! require_text "contention_domain" (contention_domain a) ;;
  Ok a.

Definition fleet_assignment_json (a : GpuFleetAssignment) : json := JObj [
  ("host_id", JStr (fa_host_id a)); ("host_inventory_sha256", JStr (fa_host_inventory_sha256 a));
  ("host_dispatch_plan_sha256", JStr (host_dispatch_plan_sha256 a));
  ("execution_binding_sha256", JStr (fa_execution_binding_sha256 a));
  ("local_wave_index", JInt (local_wave_index a)); ("local_wave_sha256", JStr (local_wave_sha256 a));
  ("assignment", assignment_json (assignment a));
  ("assignment_sha256", JStr (assignment_id (assignment a)));
  ("cache_root", JStr (fa_cache_root a)); ("evidence_root", JStr (fa_evidence_root a));
  ("contention_domain", JStr (contention_domain a))].
Definition fleet_assignment_id (a : GpuFleetAssignment) : string :=
  content_sha256 (fleet_assignment_json a).

(** ** Fleet waves: host-local waves that run together *)
Record GpuFleetDispatchWave := { fw_wave_index : Z; fw_assignments : list GpuFleetAssignment }.
#[export] Instance GpuFleetDispatchWave_eq_dec : EqDecision GpuFleetDispatchWave.
Proof. solve_decision. Defined.

Definition HOST_EXCLUSIVE_IO_CLASSES : list WorkloadClass := [PROFILE; DOWNLOAD; COMPILE].

(** The four sets of one host and the dictionaries the loop fills. *)
Record HostUse := {
  hu_gpus : list string; hu_ports : list Z; hu_caches : list string; hu_evidence : list string }.
Definition no_host_use : HostUse :=
  {| hu_gpus := []; hu_ports := []; hu_caches := []; hu_evidence := [] |}.
Record FleetUse := {
  local_waves : gmap string (Z * string); resources_of : gmap string HostUse;
  domain_classes : gmap string (list WorkloadClass); domain_hosts : gmap string (list string) }.
Definition no_fleet_use : FleetUse :=
  {| local_waves := ∅; resources_of := ∅; domain_classes := ∅; domain_hosts := ∅ |}.

Definition host_use (u : FleetUse) (h : string) : HostUse := default no_host_use (resources_of u !! h).
Definition local_identity (r : GpuFleetAssignment) : Z * string :=
  (local_wave_index r, local_wave_sha256 r).

Definition fleet_conflict (u : FleetUse) (r : GpuFleetAssignment) : option string :=
  let hu := host_use u (fa_host_id r) in
  if match local_waves u !! fa_host_id r with
     | Some i => negb (bool_decide (i = local_identity r)) | None => false end
  then Some "fleet wave mixes local waves from one host"
  else if overlap (hu_gpus hu) (gpu_uuids (assignment r))
  then Some "fleet wave overlaps a host-local GPU"
  else if overlap (hu_ports hu) (ports (assignment r))
  then Some "fleet wave overlaps a host-local port"
  else if bool_decide (fa_cache_root r ∈ hu_caches hu)
          || bool_decide (fa_evidence_root r ∈ hu_evidence hu)
  then Some "fleet wave overlaps a host-local resource root"
  else None.

Definition add_fleet_use (u : FleetUse) (r : GpuFleetAssignment) : FleetUse :=
  let h := fa_host_id r in
  let hu := host_use u h in
  let d := contention_domain r in
  {| local_waves := <[h := local_identity r]> (local_waves u);
     resources_of := <[h := {|
       hu_gpus := gpu_uuids (assignment r) ++ hu_gpus hu;
       hu_ports := ports (assignment r) ++ hu_ports hu;
       hu_caches := fa_cache_root r :: hu_caches hu;
       hu_evidence := fa_evidence_root r :: hu_evidence hu |}]> (resources_of u);
     domain_classes := <[d := workload_class (claim (work_item (assignment r)))
                              :: default [] (domain_classes u !! d)]> (domain_classes u);
     domain_hosts := <[d := h :: default [] (domain_hosts u !! d)]> (domain_hosts u) |}.

Fixpoint fleet_uses (u : FleetUse) (l : list GpuFleetAssignment) : string + FleetUse :=
  match l with
  | [] => inr u
  | r :: l =>
    match fleet_conflict u r with Some msg => inl msg | None => fleet_uses (add_fleet_use u r) l end
  end.

(** Some domain of several hosts holds work that must be alone in it. *)
Definition domain_overlap (u : FleetUse) : bool :=
  existsb (λ dc : string * list WorkloadClass,
    (1 <? distinct (default [] (domain_hosts u !! dc.1)))
    && overlap dc.2 HOST_EXCLUSIVE_IO_CLASSES) (map_to_list (domain_classes u)).

Definition shared_domain_message : string :=
  "shared contention domain overlaps download/compile/profile work".
Definition fleet_order (r : GpuFleetAssignment) : string * string :=
  (fa_host_id r, assignment_id (assignment r)).

Definition new_GpuFleetDispatchWave (w : GpuFleetDispatchWave) : result GpuFleetDispatchWave :=
  raise_if (fw_wave_index w <? 0) (ValueError "fleet wave index must be non-negative") ;;
  raise_if (match fw_assignments w with [] => true | _ => false end)
    (ValueError "fleet dispatch wave cannot be empty") ;;
  let order := map fleet_order (fw_assignments w) in
  raise_if (negb (bool_decide (sorted_by (λ o : string * string, o) order = order))
            || negb (bool_decide (NoDup order)))
    (ValueError "fleet wave assignments must be canonical and unique") ;;
  match fleet_uses no_fleet_use (fw_assignments w) with
  | inl msg => Raise (ValueError msg)
  | inr u => raise_if (domain_overlap u) (ValueError shared_domain_message) ;; Ok w
  end.

(** The largest duration and the sum of the GPU seconds of the rows. *)
Definition fw_wall_seconds (w : GpuFleetDispatchWave) : pyfloat :=
  match map (λ r, estimated_duration_seconds (claim (work_item (assignment r))))
          (fw_assignments w) with
  | [] => fzero
  | x :: l => foldl fmax x l
  end.
Definition fw_gpu_seconds (w : GpuFleetDispatchWave) : option pyfloat :=
  fsum (map (λ r, estimated_gpu_seconds (claim (work_item (assignment r)))) (fw_assignments w)).
Definition fleet_wave_json (w : GpuFleetDispatchWave) : json := JObj [
  ("wave_index", JInt (fw_wave_index w));
  ("assignments", JList (map fleet_assignment_json (fw_assignments w)));
  ("assignment_sha256", jstrs (map fleet_assignment_id (fw_assignments w)));
  ("estimated_wall_seconds", JFloat (fw_wall_seconds w));
  ("estimated_gpu_seconds", JFloat (default fzero (fw_gpu_seconds w)))].
Definition fleet_wave_sha256 (w : GpuFleetDispatchWave) : string := content_sha256 (fleet_wave_json w).

(** ** Fleet plans *)
Record GpuFleetDispatchPlan := {
  fp_schema_version : Z; fp_registry_sha256 : string; fleet_inventory_sha256 : string;
  fp_receipts_sha256 : string; fp_seed : Z; host_plans : list HostDispatchPlan;
  fp_waves : list GpuFleetDispatchWave; fp_completed_cell_ids : list string }.

(** [GpuFleetDispatchPlan.assignments]. *)
Definition fleet_assignments (ws : list GpuFleetDispatchWave) : list GpuFleetAssignment :=
  concat (map fw_assignments ws).
Definition fa_item_id (r : GpuFleetAssignment) : string := item_id (work_item (assignment r)).

Definition host_plan_by_id (l : list HostDispatchPlan) : gmap string HostDispatchPlan :=
  list_to_map (reverse (map (λ p, (hp_host_id p, p)) l)).
Definition expected_local_waves (l : list HostDispatchPlan) : gmap (string * Z) GpuDispatchWave :=
  list_to_map (reverse (concat (map (λ p,
    map (λ w, ((hp_host_id p, wave_index w), w)) (waves (dispatch_plan p))) l))).

(** [observed] and [serial_hosts]. *)
Record Coverage := {
  observed : gmap (string * Z) (list GpuFleetAssignment); serial_hosts : gmap string string }.

Section coverage.
Context (plans : gmap string HostDispatchPlan) (locals : gmap (string * Z) GpuDispatchWave).

(** The loop over all fleet assignments: one row. *)
Definition cover_row (c : Coverage) (r : GpuFleetAssignment) : result Coverage :=
  match plans !! fa_host_id r with
  | None => Raise (ValueError "fleet assignment references an unknown host plan")
  | Some p =>
    let b := execution_binding p in
    let differs := ValueError "fleet assignment differs from its host binding" in
    raise_if (negb (bool_decide (fa_host_inventory_sha256 r = host_inventory_sha256 p))
              || negb (bool_decide (host_dispatch_plan_sha256 r = plan_sha256 (dispatch_plan p)))
              || negb (bool_decide (fa_execution_binding_sha256 r = execution_binding_sha256 b)))
      differs ;;
    cache <-! cache_root_for b (assignment r) ;;
    raise_if (negb (bool_decide (fa_cache_root r = cache))) differs ;;
    evidence <-! evidence_root_for b (assignment r) ;;
    raise_if (negb (bool_decide (fa_evidence_root r = evidence))
              || negb (bool_decide (contention_domain r = xb_contention_domain b))) differs ;;
    let key := (fa_host_id r, local_wave_index r) in
    match locals !! key with
    | None => Raise (ValueError "fleet assignment references an unknown local wave")
    | Some local =>
      raise_if (negb (bool_decide (local_wave_sha256 r = wave_sha256 local)))
        (ValueError "fleet assignment references an unknown local wave") ;;
      raise_if (negb (bool_decide (assignment_id (assignment r)
                                   ∈ map assignment_id (assignments local))))
        (ValueError "fleet assignment is absent from its local wave") ;;
      let seen := <[key := default [] (observed c !! key) ++ [r]]> (observed c) in
      match serial_group_key (work_item (assignment r)) with
      | None => Ok {| observed := seen; serial_hosts := serial_hosts c |}
      | Some k =>
        let prior := default (fa_host_id r) (serial_hosts c !! k) in
        raise_if (negb (bool_decide (prior = fa_host_id r)))
          (ValueError "serial scientific group spans fleet hosts") ;;
        Ok {| observed := seen; serial_hosts := <[k := prior]> (serial_hosts c) |}
      end
    end
  end.
Fixpoint cover_rows (c : Coverage) (l : list GpuFleetAssignment) : result Coverage :=
  match l with
  | [] => Ok c
  | r :: l => c <-! cover_row c r ;; cover_rows c l
  end.
End coverage.

Definition new_GpuFleetDispatchPlan (p : GpuFleetDispatchPlan) : result GpuFleetDispatchPlan :=
  raise_if (negb (fp_schema_version p =? 1))
    (ValueError "only GPU fleet dispatch schema version 1 is supported") ;;
  _ <-! require_all_sha256 [("registry_sha256", fp_registry_sha256 p);
          ("fleet_inventory_sha256", fleet_inventory_sha256 p);
          ("receipts_sha256", fp_receipts_sha256 p)] ;;
  raise_if (fp_seed p <? 0) (ValueError "fleet dispatch seed must be non-negative") ;;
  let plans := host_plans p in
  let host_ids := map hp_host_id plans in
  raise_if (negb (is_sorted_text host_ids) || negb (unique_text host_ids))
    (ValueError "fleet host plans must be sorted and unique") ;;
  raise_if (existsb (λ h, negb (bool_decide (registry_sha256 (dispatch_plan h)
                                             = fp_registry_sha256 p))) plans)
    (ValueError "fleet host plans mix registries") ;;
  raise_if (existsb (λ h, negb (bool_decide (receipts_sha256 (dispatch_plan h)
                                             = fp_receipts_sha256 p))) plans)
    (ValueError "fleet host plans mix receipt authorities") ;;
  raise_if (negb (Bool.eqb (bool_decide (plans = [])) (bool_decide (fp_waves p = []))))
    (ValueError "fleet host plans and fleet waves must be empty or non-empty together") ;;
  raise_if (negb (bool_decide (map fw_wave_index (fp_waves p) = seqZ 0 (zlength (fp_waves p)))))
    (ValueError "fleet wave indexes must be contiguous") ;;
  let rows := fleet_assignments (fp_waves p) in
  raise_if (negb (unique_text (map fleet_assignment_id rows)))
    (ValueError "fleet dispatch plan contains duplicate assignments") ;;
  raise_if (negb (unique_text (map fa_item_id rows)))
    (ValueError "fleet dispatch plan contains duplicate cells") ;;
  let locals := expected_local_waves plans in
  c <-! cover_rows (host_plan_by_id plans) locals
          {| observed := ∅; serial_hosts := ∅ |} rows ;;
  raise_if (negb (bool_decide (dom (observed c) = dom locals)))
    (ValueError "fleet waves do not cover every host-local wave") ;;
  raise_if (existsb (λ kw : string * Z * GpuDispatchWave,
      negb (same_text_set (map (λ r, assignment_id (assignment r)) (default [] (observed c !! kw.1)))
              (map assignment_id (assignments kw.2)))) (map_to_list locals))
    (ValueError "fleet wave has incomplete host-local coverage") ;;
  let completed := fp_completed_cell_ids p in
  raise_if (negb (bool_decide (sorted_by (λ x : string, x) (remove_dups completed) = completed))
            || negb (forallb (is_hash 64) completed))
    (ValueError "fleet completed cell IDs must be canonical SHA-256s") ;;
  raise_if (existsb (λ h, negb (bool_decide (completed_cell_ids (dispatch_plan h) = completed))) plans)
    (ValueError "fleet host plans disagree on completed cells") ;;
  Ok p.

(** A sum over no waves is the integer 0. *)
Definition fleet_plan_json (p : GpuFleetDispatchPlan) : json := JObj [
  ("schema_version", JInt (fp_schema_version p)); ("registry_sha256", JStr (fp_registry_sha256 p));
  ("fleet_inventory_sha256", JStr (fleet_inventory_sha256 p));
  ("receipts_sha256", JStr (fp_receipts_sha256 p)); ("seed", JInt (fp_seed p));
  ("host_plans", JList (map host_plan_json (host_plans p)));
  ("host_plan_sha256", jstrs (map host_plan_sha256 (host_plans p)));
  ("waves", JList (map fleet_wave_json (fp_waves p)));
  ("wave_sha256", jstrs (map fleet_wave_sha256 (fp_waves p)));
  ("completed_cell_ids", jstrs (fp_completed_cell_ids p));
  ("estimated_wall_seconds", jsum (map fw_wall_seconds (fp_waves p)));
  ("estimated_gpu_seconds", jsum (map (λ w, default fzero (fw_gpu_seconds w)) (fp_waves p)))].
Definition fleet_plan_sha256 (p : GpuFleetDispatchPlan) : string :=
  content_sha256 (fleet_plan_json p).
