(* ===== verification/FleetPaths.v ===== *)
(** * Qualified resource roots stay in their namespace

    What [_qualify] computes on path components, the directory that a path leads
    to, and that the cache roots and the evidence roots of a host never contain
    one another when their namespaces have the same root. *)
From S2P Require Import Prelude PyFloat FloatRepr Hashlib Registry GpuPool Execution Fleet.

Lemma split_slash_app word a b :
  split_slash word (a +:+ "/" +:+ b) = (split_slash word a ++ split_slash EmptyString b)%list.
Proof.
  revert word. induction a as [|c a IH]; intros word; [done|].
  change (String.String c a +:+ "/" +:+ b) with (String.String c (a +:+ "/" +:+ b)).
  cbn [split_slash]. destruct (bool_decide (c = slash)); cbn [app]; [f_equal; apply IH|apply IH].
Qed.
Lemma path_names_app a b : path_names (a +:+ "/" +:+ b) = (path_names a ++ path_names b)%list.
Proof. unfold path_names. by rewrite split_slash_app, filter_app. Qed.

Lemma require_namespace_Ok name v :
  require_namespace name v = Ok tt →
  v ≠ EmptyString ∧ v ≠ "." ∧ v ≠ "/" ∧ path_str v = v ∧ ".." ∉ path_parts v.
Proof.
  unfold require_namespace, require_text. intros H. repeat step_ok H. bools.
  split_and!; try done. intros ->. done.
Qed.

Ltac next_char :=
  match goal with
  | H : context [Ascii.ascii_dec ?x ?c] |- _ => destruct (Ascii.ascii_dec x c) as [<-|]
  | |- context [Ascii.ascii_dec ?x ?c] => destruct (Ascii.ascii_dec x c) as [<-|]
  end.

Lemma prefix_empty s : String.prefix EmptyString s = true.
Proof. by destruct s. Qed.

(** A canonical path that is not absolute is its components. *)
Lemma relative_text v :
  String.prefix "/" v = false → v ≠ "." → path_str v = v → v = String.concat "/" (path_names v).
Proof.
  intros Hp Hd Hs. unfold path_str in Hs.
  assert (Hr : path_root v = EmptyString).
  { unfold path_root. destruct v as [|c v]; [done|]. cbn [String.prefix] in *.
    next_char; [by destruct v|done]. }
  rewrite Hr in Hs. change (EmptyString +:+ ?x) with x in Hs. cbn zeta in Hs.
  destruct (string_empty _) in Hs; [congruence|done].
Qed.

Lemma path_root_app ns lr :
  ns ≠ EmptyString → ns ≠ "/" → ns ≠ "//" → path_root (ns +:+ "/" +:+ lr) = path_root ns.
Proof.
  intros H1 H2 H3. destruct ns as [|a ns]; [done|].
  change (String.String a ns +:+ ?x) with (String.String a (ns +:+ x)).
  destruct ns as [|b ns].
  { unfold path_root. cbn [String.prefix]. next_char; [done|done]. }
  change (String.String b ns +:+ ?x) with (String.String b (ns +:+ x)).
  destruct ns as [|c ns].
  { unfold path_root. cbn [String.prefix]. next_char; [|done]. next_char; [done|done]. }
  change (String.String c ns +:+ ?x) with (String.String c (ns +:+ x)).
  unfold path_root. cbn [String.prefix]. repeat next_char; try done.
  by rewrite !prefix_empty.
Qed.

Lemma qualify_parts ns lr q :
  qualify ns lr = Ok q → path_parts q = (path_parts ns ++ path_names lr)%list.
Proof.
  unfold qualify. intros H. step_ok H. step_ok H. step_ok H. step_ok H. injection H as <-.
  destruct a, a0, a1. apply require_namespace_Ok in E as (N1 & N2 & N3 & N4 & _).
  apply require_namespace_Ok in E0 as (L1 & L2 & L3 & L4 & _).
  apply require_namespace_Ok in E2 as (Q1 & Q2 & Q3 & Q4 & _).
  destruct (decide (ns = "//")) as [->|Hns].
  - exfalso. pose proof (relative_text lr E1 L2 L4) as Hlr. unfold path_str in Q4.
    rewrite path_names_app in Q4. change (path_names "//") with (@nil string) in Q4.
    assert (Hr : path_root ("//" +:+ "/" +:+ lr) = "/") by (clear; by destruct lr).
    rewrite Hr in Q4. cbn [app] in Q4. rewrite <- Hlr in Q4.
    apply (f_equal String.length) in Q4.
    change (S (String.length lr) = S (S (S (String.length lr)))) in Q4. lia.
  - unfold path_parts. rewrite path_root_app, path_names_app by done.
    by destruct (string_empty (path_root ns)).
Qed.

Lemma qualify_strict ns lr q : qualify ns lr = Ok q → path_names lr ≠ [].
Proof.
  unfold qualify. intros H. step_ok H. step_ok H. step_ok H.
  destruct a0. apply require_namespace_Ok in E0 as (L1 & L2 & _ & L4 & _).
  intros Hn. apply L1. rewrite (relative_text lr E1 L2 L4), Hn. done.
Qed.

(** Two lists that start a common list are comparable. *)
Lemma prefix_common (l1 l2 k1 k2 : list string) :
  (l1 ++ k1 = l2 ++ k2)%list → path_prefix l1 l2 || path_prefix l2 l1 = true.
Proof.
  intros H. unfold path_prefix. apply orb_true_iff.
  destruct (Nat.le_ge_cases (length l2) (length l1)) as [Hl|Hl]; [left|right];
    apply bool_decide_eq_true_2.
  - rewrite <- (take_app_le _ k1) by done. rewrite H. by apply take_app_length'.
  - rewrite <- (take_app_le _ k2) by done. rewrite <- H. by apply take_app_length'.
Qed.
Lemma path_prefix_Some l1 l2 : path_prefix l1 l2 = true → ∃ k, (l1 = l2 ++ k)%list.
Proof.
  intros H%bool_decide_eq_true_1. exists (drop (length l2) l1).
  rewrite <- (take_drop (length l2) l1) at 1. by rewrite H.
Qed.
Lemma prefix_apart l1 l2 k1 k2 :
  path_prefix l1 l2 || path_prefix l2 l1 = false →
  path_prefix (l1 ++ k1) (l2 ++ k2) || path_prefix (l2 ++ k2) (l1 ++ k1) = false.
Proof.
  intros H. apply not_true_is_false. intros Hp. apply not_true_iff_false in H. apply H.
  apply orb_true_iff in Hp as [[k Hk]%path_prefix_Some|[k Hk]%path_prefix_Some].
  - apply (prefix_common _ _ k1 (k2 ++ k)). by rewrite Hk, <- app_assoc.
  - apply (prefix_common _ _ (k1 ++ k) k2). by rewrite Hk, <- app_assoc.
Qed.

(** ** The directory of a path

    A component [..] leaves the directory read so far, any other component enters
    one; a relative path starts at the working directory [cwd], and "//" is "/",
    as on Linux.  No component is a symbolic link. *)
Definition walk (d : list string) (name : string) : list string :=
  if bool_decide (name = "..") then take (length d - 1) d else d ++ [name].
Definition base (cwd : list string) (p : string) : list string :=
  if string_empty (path_root p) then cwd else [].
Definition directory (cwd : list string) (p : string) : list string :=
  foldl walk (base cwd p) (path_names p).

Lemma path_names_parts p x : x ∈ path_names p → x ∈ path_parts p.
Proof. unfold path_parts. destruct (string_empty _); [done|]. by right. Qed.
Lemma walk_plain d l : ".." ∉ l → foldl walk d l = (d ++ l)%list.
Proof.
  revert d. induction l as [|x l IH]; intros d Hl; cbn; [by rewrite app_nil_r|].
  apply not_elem_of_cons in Hl as [Hx Hl]. rewrite IH by done. unfold walk.
  rewrite bool_decide_eq_false_2 by congruence. by rewrite <- app_assoc.
Qed.
Lemma directory_namespace name cwd p :
  require_namespace name p = Ok tt → directory cwd p = (base cwd p ++ path_names p)%list.
Proof.
  intros (_ & _ & _ & _ & Hdots)%require_namespace_Ok. apply walk_plain.
  intros H. by apply Hdots, path_names_parts.
Qed.

Lemma qualify_namespaces ns lr q :
  qualify ns lr = Ok q →
  require_namespace "host namespace" ns = Ok tt ∧ require_namespace "qualified resource root" q = Ok tt.
Proof.
  unfold qualify. intros H. step_ok H. step_ok H. step_ok H. step_ok H. injection H as <-.
  by destruct a, a1.
Qed.
(** Qualification keeps the root, which is not a component. *)
Lemma qualify_root_names ns lr q :
  qualify ns lr = Ok q →
  path_root q = path_root ns ∧ path_names q = (path_names ns ++ path_names lr)%list.
Proof.
  intros Hq. pose proof (qualify_parts ns lr q Hq) as Hp.
  assert (q = ns +:+ "/" +:+ lr) as Eq.
  { unfold qualify in Hq. do 4 step_ok Hq. by injection Hq. }
  assert (Hn : path_names q = (path_names ns ++ path_names lr)%list) by by rewrite Eq, path_names_app.
  split; [|exact Hn]. unfold path_parts in Hp. rewrite Hn in Hp.
  destruct (string_empty (path_root q)) eqn:E1, (string_empty (path_root ns)) eqn:E2.
  - destruct (path_root q), (path_root ns); done.
  - apply (f_equal length) in Hp. cbn in Hp. lia.
  - apply (f_equal length) in Hp. cbn in Hp. lia.
  - by injection Hp.
Qed.
(** The qualified root is a proper descendant of its namespace. *)
Lemma qualify_below cwd ns lr q :
  qualify ns lr = Ok q → directory cwd q = (directory cwd ns ++ path_names lr)%list.
Proof.
  intros Hq. destruct (qualify_root_names ns lr q Hq) as [Hr Hn].
  apply qualify_namespaces in Hq as [Hns Hqual].
  rewrite (directory_namespace _ _ _ Hns), (directory_namespace _ _ _ Hqual), Hn.
  unfold base. by rewrite Hr, app_assoc.
Qed.

Lemma path_prefix_shared l x y : path_prefix (l ++ x) (l ++ y) = true → path_prefix x y = true.
Proof.
  intros [k Hk]%path_prefix_Some. rewrite <- app_assoc in Hk. apply app_inv_head in Hk as ->.
  apply bool_decide_eq_true_2. by rewrite take_app_length.
Qed.
(** Namespaces with one root that are apart by components are apart as directories. *)
Lemma namespaces_apart n1 n2 cwd p q :
  require_namespace n1 p = Ok tt → require_namespace n2 q = Ok tt → path_root p = path_root q →
  path_prefix (path_parts p) (path_parts q) = false →
  path_prefix (directory cwd p) (directory cwd q) = false.
Proof.
  intros Hp Hq Hroot Happart. apply not_true_is_false. intros H.
  rewrite (directory_namespace _ _ _ Hp), (directory_namespace _ _ _ Hq) in H.
  unfold base in H. rewrite Hroot in H. apply path_prefix_shared in H.
  apply not_true_iff_false in Happart. apply Happart. unfold path_parts. rewrite Hroot.
  destruct (string_empty _); [done|]. apply path_prefix_Some in H as [k ->].
  apply bool_decide_eq_true_2. cbn. by rewrite take_app_length.
Qed.

(** C33. The roots of a host stay apart.  For a constructed execution binding and
    any working directory, the cache root of an assignment and the evidence root
    of any assignment lead to directories strictly below those of the two
    namespaces, every [..] followed; neither path contains the other by
    components, and when the two namespaces have the same root ("", "/" or "//")
    neither directory contains the other.  (Namespaces with different roots, as
    "/data" and "//data", may be one directory.) *)
Theorem roots_stay_apart b a a' cache evidence :
  new_HostExecutionBinding b = Ok b → cache_root_for b a = Ok cache →
  evidence_root_for b a' = Ok evidence →
  (∀ cwd, ∃ rest, rest ≠ [] ∧ directory cwd cache = (directory cwd (cache_namespace b) ++ rest)%list) ∧
  (∀ cwd, ∃ rest, rest ≠ [] ∧
     directory cwd evidence = (directory cwd (evidence_namespace b) ++ rest)%list) ∧
  path_prefix (path_parts cache) (path_parts evidence) = false ∧
  path_prefix (path_parts evidence) (path_parts cache) = false ∧
  (path_root (cache_namespace b) = path_root (evidence_namespace b) → ∀ cwd,
     path_prefix (directory cwd cache) (directory cwd evidence) = false ∧
     path_prefix (directory cwd evidence) (directory cwd cache) = false).
Proof.
  unfold cache_root_for, evidence_root_for. intros Hb Hc He.
  split; [intros cwd; exists (path_names (cache_root (claim (work_item a))));
    split; [by eapply qualify_strict|by apply qualify_below]|].
  split; [intros cwd; exists (path_names (evidence_root (claim (work_item a'))));
    split; [by eapply qualify_strict|by apply qualify_below]|].
  rewrite (qualify_parts _ _ _ Hc), (qualify_parts _ _ _ He).
  unfold new_HostExecutionBinding in Hb. do 8 step_ok Hb.
  pose proof (prefix_apart _ _ (path_names (cache_root (claim (work_item a))))
    (path_names (evidence_root (claim (work_item a')))) E6) as H.
  apply orb_false_iff in H as [H1 H2]. split; [done|]. split; [done|]. intros Hroot cwd.
  rewrite (qualify_below cwd _ _ _ Hc), (qualify_below cwd _ _ _ He).
  apply orb_false_iff, prefix_apart, orb_false_iff. apply orb_false_iff in E6 as [P1 P2].
  apply qualify_namespaces in Hc as [Hc _], He as [He _].
  split; eapply namespaces_apart; first [exact Hc|exact He|done].
Qed.

(** The components do not see that "/x" and "//x" are one directory on POSIX
    systems that give the double slash no meaning of its own: a binding whose
    namespaces are the same directory is constructed. *)
Lemma double_slash_overlap inventory envelope :
  is_hash 64 inventory = true → is_hash 64 envelope = true →
  ∃ b, new_HostExecutionBinding b = Ok b ∧
    cache_namespace b = "/data" ∧ evidence_namespace b = "//data" ∧
    (∀ cwd, directory cwd (cache_namespace b) = directory cwd (evidence_namespace b)) ∧
    xb_inventory_sha256 b = inventory ∧ xb_interference_envelope_sha256 b = envelope.
Proof.
  intros Hi He. exists {| xb_schema_version := 1; xb_host_id := "h"; xb_inventory_sha256 := inventory;
    xb_interference_envelope_sha256 := envelope; xb_port_start := 24000; xb_port_end := 24010;
    cache_namespace := "/data"; evidence_namespace := "//data"; xb_contention_domain := "rack" |}.
  split; [|done]. unfold new_HostExecutionBinding, require_sha256.
  cbn [xb_inventory_sha256 xb_interference_envelope_sha256]. by rewrite Hi, He.
Qed.
