(* ===== verification/FleetScheduler.v ===== *)
(** * GPU fleets: scheduling ([GpuFleetScheduler], [GpuFleetPlanningContext])

    Affinity groups are assigned to hosts, each host's items are scheduled by the
    pool scheduler, and the host-local waves are composed into fleet waves.  The
    release gate of the pool scheduler stays a class. *)
From S2P Require Import Prelude PyFloat FloatRepr Hashlib Registry GpuPool Scheduler Execution.
From S2P Require Import Fleet.

Definition CROSS_HOST_COLLECTIVES_UNVALIDATED : string := "cross_host_collectives_unvalidated".

Record GpuFleetScheduler := {
  fs_registry : ExperimentRegistry; fleet_inventory : GpuFleetInventory;
  execution_bindings : list HostExecutionBinding; fs_seed : Z }.

(** The loop over the execution bindings. *)
Fixpoint check_bindings (f : GpuFleetInventory) (l : list HostExecutionBinding) : result unit :=
  match l with
  | [] => Ok tt
  | x :: l =>
    b <-! fleet_host f (xb_host_id x) ;;
    raise_if (negb (bool_decide (xb_inventory_sha256 x = inventory_digest (hb_inventory b)))
              || negb (bool_decide (xb_interference_envelope_sha256 x
                                    = envelope_sha256 (hb_interference_envelope b))))
      (ValueError "fleet execution binding differs from host inventory") ;;
    check_bindings f l
  end.

Definition new_GpuFleetScheduler (s : GpuFleetScheduler) : result GpuFleetScheduler :=
  let host_ids := map xb_host_id (execution_bindings s) in
  raise_if (negb (is_sorted_text host_ids) || negb (unique_text host_ids))
    (ValueError "fleet execution bindings must be sorted and unique") ;;
  raise_if (negb (bool_decide (host_ids = fleet_host_ids (fleet_inventory s))))
    (ValueError "fleet execution bindings must cover every host exactly") ;;
  _ <-! check_bindings (fleet_inventory s) (execution_bindings s) ;;
  raise_if (fs_seed s <? 0) (ValueError "fleet scheduler seed must be non-negative") ;;
  Ok s.

(** [x or y] on optional text: the empty text counts as absent. *)
Definition truthy (x : option string) : option string :=
  x ≫= λ s, if string_empty s then None else Some s.

(** The key under which an item is grouped. *)
Definition fleet_group_key (item : PoolWorkItem) : string :=
  match truthy (serial_group_key item), truthy (affinity_key item) with
  | Some k, _ => k
  | None, Some k => k
  | None, None => content_sha256 (JObj [("kind", JStr "independent_fleet_item");
                                        ("item_id", JStr (item_id item))])
  end.

(** [groups]: the sorted keys, each with its items sorted by identity. *)
Definition fleet_group (items : list PoolWorkItem) (k : string) : list PoolWorkItem :=
  sorted_by item_id (filter (λ i, fleet_group_key i = k) items).
Definition fleet_groups (items : list PoolWorkItem) : list (string * list PoolWorkItem) :=
  map (λ k, (k, fleet_group items k))
    (sorted_by (λ k, k) (remove_dups (map fleet_group_key items))).

Section fleet.
Context `{ReleaseGate} (s : GpuFleetScheduler).

Definition host_ids : list string := fleet_host_ids (fleet_inventory s).
Definition host_index (h : string) : Z :=
  match list_find (λ x, x = h) host_ids with Some (i, _) => Z.of_nat i | None => -1 end.
Definition binding_for (h : string) : result HostExecutionBinding :=
  match list_find (λ b, xb_host_id b = h) (execution_bindings s) with
  | Some (_, b) => Ok b
  | None => Raise (KeyError h)
  end.

(** [{item.item_id: budgets[item.item_id] for item in items}], or [None]. *)
Definition budget_of (budgets : list (string * string)) (item : PoolWorkItem)
    : result (string * string) :=
  match list_find (λ b : string * string, b.1 = item_id item) budgets with
  | Some (_, b) => Ok (item_id item, b.2)
  | None => Raise (KeyError (item_id item))
  end.
Definition budgets_for (budgets : list (string * string)) (items : list PoolWorkItem)
    : result (list (string * string)) :=
  match budgets with [] => Ok [] | _ => mapR (budget_of budgets) items end.

(** The pool scheduler of a host, run on some items. *)
Definition schedule_on (inv : HostInventoryBinding) (x : HostExecutionBinding)
    (items : list PoolWorkItem) (receipts : string) (completed : list string)
    (budgets : list (string * string)) : result GpuDispatchPlan :=
  pool <-! new_GpuPoolScheduler {|
    registry := fs_registry s; inventory := hb_inventory inv;
    interference_envelope := hb_interference_envelope inv;
    port_start := xb_port_start x; port_end := xb_port_end x; sc_seed := fs_seed s |} ;;
  bound <-! budgets_for budgets items ;;
  schedule_work_items pool items receipts completed bound.

(** [_host_accepts_group]: only a capability rejection is an answer. *)
Definition host_accepts_group (receipts : string) (completed : list string)
    (budgets : list (string * string)) (group : list PoolWorkItem) (h : string) : result bool :=
  inv <-! fleet_host (fleet_inventory s) h ;;
  x <-! binding_for h ;;
  match schedule_on inv x group receipts completed budgets with
  | Ok _ => Ok true
  | Raise (CapabilityRejectionError _) => Ok false
  | Raise e => Raise e
  end.

(** The hosts that accept, in fleet order. *)
Fixpoint feasible_hosts (accepts_on : string → result bool) (hs : list string)
    : result (list string) :=
  match hs with
  | [] => Ok []
  | h :: hs =>
    ok <-! accepts_on h ;;
    rest <-! feasible_hosts accepts_on hs ;;
    Ok (if ok : bool then h :: rest else rest)
  end.

(** [max] with a key: the first largest element. *)
Fixpoint max_from (key : PoolWorkItem → Z) (best : PoolWorkItem) (l : list PoolWorkItem)
    : PoolWorkItem :=
  match l with
  | [] => best
  | x :: l => max_from key (if key best <? key x then x else best) l
  end.
(** [_looks_cross_host_only]. *)
Definition looks_cross_host_only (group : list PoolWorkItem) : bool :=
  match group with
  | [] => false
  | i :: rest =>
    let item := max_from (λ w, gpu_count (gang_shape (claim w))) i rest in
    let requested := gpu_count (gang_shape (claim item)) in
    let capable d := accepts (homogeneous (claim item)) d
      && (match exact_gpu_uuids (claim item) with [] => true | exact => bool_decide (uuid d ∈ exact) end) in
    let by_host := map (λ b, zlength (filter (λ d, capable d = true) (devices (hb_inventory b))))
                     (hosts (fleet_inventory s)) in
    if requested <=? 1 then false
    else (requested <=? foldr Z.add 0 by_host) && (foldr Z.max 0 by_host <? requested)
  end.

(** ** Assignment of groups to hosts *)
Record FleetPlacement := {
  items_by_host : gmap string (list PoolWorkItem); normalized_load : gmap string pyfloat }.

Definition group_rotation (k : string) : Z :=
  hex_number 0 (String.substring 0 16 (content_sha256 (JObj [
    ("seed", JInt (fs_seed s)); ("affinity_group", JStr k)]))) mod zlength host_ids.
Definition host_key (p : FleetPlacement) (rotation : Z) (h : string) : pyfloat * (Z * string) :=
  (default fzero (normalized_load p !! h),
   ((host_index h - rotation) mod zlength host_ids, h)).

Definition place_group (accepts_on : list PoolWorkItem → string → result bool)
    (p : FleetPlacement) (k : string) (group : list PoolWorkItem) : result FleetPlacement :=
  feasible <-! feasible_hosts (accepts_on group) host_ids ;;
  match min_by (host_key p (group_rotation k)) feasible with
  | None =>
    let reason := if looks_cross_host_only group then CROSS_HOST_COLLECTIVES_UNVALIDATED
                  else "no_same_host_capability_placement" in
    let detail := "affinity group " +:+ k +:+ " has no complete single-host placement" in
    _ <-! require_text "fleet rejection reason_code" reason ;;
    _ <-! require_text "fleet rejection detail" detail ;;
    Raise (FleetCapabilityRejectionError reason detail)
  | Some h =>
    inv <-! fleet_host (fleet_inventory s) h ;;
    let capacity := zlength (filter (λ d, device_ready d = true) (devices (hb_inventory inv))) in
    let gpu_seconds := default fzero (fsum (map (λ i, estimated_gpu_seconds (claim i)) group)) in
    Ok {| items_by_host := <[h := default [] (items_by_host p !! h) ++ group]> (items_by_host p);
          normalized_load := <[h := fadd (default fzero (normalized_load p !! h))
                                      (fdiv gpu_seconds (float_of_Z (Z.max capacity 1)))]>
                               (normalized_load p) |}
  end.
Fixpoint place_groups (accepts_on : list PoolWorkItem → string → result bool)
    (p : FleetPlacement) (groups : list (string * list PoolWorkItem)) : result FleetPlacement :=
  match groups with
  | [] => Ok p
  | (k, group) :: groups =>
    p <-! place_group accepts_on p k group ;; place_groups accepts_on p groups
  end.
Definition empty_placement : FleetPlacement := {|
  items_by_host := list_to_map (map (λ h, (h, [])) host_ids);
  normalized_load := list_to_map (map (λ h, (h, fzero)) host_ids) |}.

(** ** Host plans *)
Fixpoint make_host_plans (p : FleetPlacement) (receipts : string) (completed : list string)
    (budgets : list (string * string)) (hs : list string) : result (list HostDispatchPlan) :=
  match hs with
  | [] => Ok []
  | h :: hs =>
    match default [] (items_by_host p !! h) with
    | [] => make_host_plans p receipts completed budgets hs
    | items =>
      inv <-! fleet_host (fleet_inventory s) h ;;
      x <-! binding_for h ;;
      local <-! schedule_on inv x items receipts completed budgets ;;
      plan <-! new_HostDispatchPlan {|
        hp_host_id := h; host_inventory_sha256 := inventory_digest (hb_inventory inv);
        execution_binding := x; dispatch_plan := local |} ;;
      rest <-! make_host_plans p receipts completed budgets hs ;;
      Ok (plan :: rest)
    end
  end.

(** ** Composition of fleet waves *)

(** [_wrap_local_wave]. *)
Definition wrap_assignment (p : HostDispatchPlan) (w : GpuDispatchWave) (a : GpuAssignment)
    : result GpuFleetAssignment :=
  let b := execution_binding p in
  cache <-! cache_root_for b a ;;
  evidence <-! evidence_root_for b a ;;
  new_GpuFleetAssignment {|
    fa_host_id := hp_host_id p; fa_host_inventory_sha256 := host_inventory_sha256 p;
    host_dispatch_plan_sha256 := plan_sha256 (dispatch_plan p);
    fa_execution_binding_sha256 := execution_binding_sha256 b;
    local_wave_index := wave_index w; local_wave_sha256 := wave_sha256 w; assignment := a;
    fa_cache_root := cache; fa_evidence_root := evidence;
    contention_domain := xb_contention_domain b |}.
Definition wrap_local_wave (p : HostDispatchPlan) (w : GpuDispatchWave)
    : result (list GpuFleetAssignment) :=
  mapR (wrap_assignment p w) (assignments w).

(** The selected rows and hosts of the wave under construction. *)
Record Selection := { selected : list GpuFleetAssignment; selected_hosts : list string }.

Definition next_of (next : gmap string nat) (p : HostDispatchPlan) : nat :=
  default 0%nat (next !! hp_host_id p).
Definition next_wave (next : gmap string nat) (p : HostDispatchPlan) : option GpuDispatchWave :=
  waves (dispatch_plan p) !! next_of next p.

(** One host of the inner loop: its next wave joins unless a shared domain
    forbids it. *)
Definition offer_host (index : Z) (next : gmap string nat) (sel : Selection) (p : HostDispatchPlan)
    : result Selection :=
  match next_wave next p with
  | None => Ok sel
  | Some w =>
    wrapped <-! wrap_local_wave p w ;;
    let joined := selected sel ++ wrapped in
    match new_GpuFleetDispatchWave
            {| fw_wave_index := index; fw_assignments := sorted_by fleet_order joined |} with
    | Ok _ => Ok {| selected := joined; selected_hosts := selected_hosts sel ++ [hp_host_id p] |}
    | Raise (ValueError msg) =>
      if contains "shared contention domain" msg then Ok sel else Raise (ValueError msg)
    | Raise e => Raise e
    end
  end.
Fixpoint offer_hosts (index : Z) (next : gmap string nat) (sel : Selection)
    (plans : list HostDispatchPlan) : result Selection :=
  match plans with
  | [] => Ok sel
  | p :: plans => sel <-! offer_host index next sel p ;; offer_hosts index next sel plans
  end.

Definition wave_rotation (index : Z) (n : Z) : Z :=
  hex_number 0 (String.substring 0 16 (content_sha256 (JObj [
    ("seed", JInt (fs_seed s)); ("fleet_wave_index", JInt index)]))) mod Z.max n 1.
Definition host_turn (rotation : Z) (p : HostDispatchPlan) : Z * string :=
  ((host_index (hp_host_id p) - rotation) mod zlength host_ids, hp_host_id p).

Definition advance (next : gmap string nat) (hs : list string) : gmap string nat :=
  foldl (λ m h, <[h := S (default 0%nat (m !! h))]> m) next hs.

(** One turn of the outer loop: a fleet wave and the advanced indexes. *)
Definition compose_one (plans : list HostDispatchPlan) (index : Z) (next : gmap string nat)
    : result (GpuFleetDispatchWave * gmap string nat) :=
  raise_if (existsb (λ p, negb (bool_decide (hp_host_id p ∈ host_ids))) plans)
    (ValueError "tuple.index(x): x not in tuple") ;;
  let ordered := sorted_by (host_turn (wave_rotation index (zlength plans))) plans in
  sel <-! offer_hosts index next {| selected := []; selected_hosts := [] |} ordered ;;
  raise_if (bool_decide (selected sel = []))
    (RuntimeError "fleet wave composition made no progress") ;;
  w <-! new_GpuFleetDispatchWave
          {| fw_wave_index := index; fw_assignments := sorted_by fleet_order (selected sel) |} ;;
  Ok (w, advance next (selected_hosts sel)).

(** The outer loop.  Every turn takes a local wave, so their number is fuel
    enough; [None] is running out of it. *)
Fixpoint compose_loop (fuel : nat) (plans : list HostDispatchPlan) (index : Z)
    (next : gmap string nat) : option (result (list GpuFleetDispatchWave)) :=
  if forallb (λ p, bool_decide (next_wave next p = None)) plans then Some (Ok [])
  else match fuel with
  | O => None
  | S fuel =>
    match compose_one plans index next with
    | Raise e => Some (Raise e)
    | Ok (w, next) =>
      match compose_loop fuel plans (index + 1) next with
      | Some (Ok ws) => Some (Ok (w :: ws))
      | other => other
      end
    end
  end.
Definition local_wave_count (plans : list HostDispatchPlan) : nat :=
  foldr (λ p n, length (waves (dispatch_plan p)) + n)%nat 0%nat plans.
Definition compose_fleet_waves (plans : list HostDispatchPlan) : result (list GpuFleetDispatchWave) :=
  match compose_loop (local_wave_count plans) plans 0 ∅ with
  | Some r => r
  | None => Raise (RuntimeError "fleet wave composition made no progress")
  end.

(** ** [schedule_work_items] *)
Definition fleet_schedule_work_items (items : list PoolWorkItem) (receipts : string)
    (completed_ids : list string) (budgets : list (string * string)) : result GpuFleetDispatchPlan :=
  _ <-! require_sha256 "receipts_sha256" receipts ;;
  raise_if (negb (unique_text (map item_id items)))
    (ValueError "fleet work items contain duplicate cells") ;;
  let completed := sorted_by (λ x, x) completed_ids in
  raise_if (negb (bool_decide (completed = completed_ids)) || negb (unique_text completed))
    (ValueError "completed cell IDs must be sorted and unique") ;;
  raise_if (match budgets with [] => false
            | _ => negb (same_text_set (map fst budgets) (map item_id items)) end)
    (ValueError "fleet budget bindings must cover every work item") ;;
  _ <-! require_all_sha256 (concat (map (λ b : string * string,
          [("fleet budget cell ID", fst b); ("fleet budget SHA-256", snd b)]) budgets)) ;;
  placement <-! place_groups (host_accepts_group receipts completed budgets)
                  empty_placement (fleet_groups items) ;;
  plans <-! make_host_plans placement receipts completed budgets host_ids ;;
  ws <-! compose_fleet_waves plans ;;
  raise_if (negb (bool_decide (items = []))
            && (bool_decide (plans = []) || bool_decide (ws = [])))
    (RuntimeError "non-empty fleet work produced an empty dispatch plan") ;;
  new_GpuFleetDispatchPlan {|
    fp_schema_version := 1; fp_registry_sha256 := er_sha256 (fs_registry s);
    fleet_inventory_sha256 := fleet_inventory_digest (fleet_inventory s);
    fp_receipts_sha256 := receipts; fp_seed := fs_seed s; host_plans := plans; fp_waves := ws;
    fp_completed_cell_ids := completed |}.
End fleet.

(** ** Planning context *)
Record GpuFleetPlanningContext := {
  fc_registry : ExperimentRegistry; fc_fleet_inventory : GpuFleetInventory;
  fc_execution_bindings : list HostExecutionBinding; fc_work_items : list PoolWorkItem;
  fc_receipts_sha256 : string; fc_completed_cell_ids : list string;
  fc_budget_sha256_by_cell : list (string * string); fc_seed : Z }.
Definition context_scheduler (c : GpuFleetPlanningContext) : GpuFleetScheduler := {|
  fs_registry := fc_registry c; fleet_inventory := fc_fleet_inventory c;
  execution_bindings := fc_execution_bindings c; fs_seed := fc_seed c |}.

Definition new_GpuFleetPlanningContext (c : GpuFleetPlanningContext)
    : result GpuFleetPlanningContext :=
  _ <-! require_sha256 "receipts_sha256" (fc_receipts_sha256 c) ;;
  raise_if (negb (bool_decide (fc_completed_cell_ids c
                               = sorted_by (λ x, x) (remove_dups (fc_completed_cell_ids c)))))
    (ValueError "fleet planning completed cells must be canonical") ;;
  raise_if (negb (bool_decide (fc_budget_sha256_by_cell c
                               = sorted_by (λ b, b) (fc_budget_sha256_by_cell c))))
    (ValueError "fleet planning budget bindings must be canonical") ;;
  raise_if (negb (unique_text (map fst (fc_budget_sha256_by_cell c))))
    (ValueError "fleet planning budget bindings contain duplicate cells") ;;
  _ <-! new_GpuFleetScheduler (context_scheduler c) ;;
  Ok c.

(** [GpuFleetPlanningContext.issue_plan]. *)
Definition fleet_issue_plan `{ReleaseGate} (c : GpuFleetPlanningContext)
    : result GpuFleetDispatchPlan :=
  s <-! new_GpuFleetScheduler (context_scheduler c) ;;
  fleet_schedule_work_items s (fc_work_items c) (fc_receipts_sha256 c) (fc_completed_cell_ids c)
    (fc_budget_sha256_by_cell c).

Definition fleet_context_sha256 (c : GpuFleetPlanningContext) : string :=
  content_sha256 (JObj [
    ("schema_version", JInt 1); ("kind", JStr "gpu_fleet_planning_context");
    ("registry_sha256", JStr (er_sha256 (fc_registry c)));
    ("fleet_inventory_sha256", JStr (fleet_inventory_digest (fc_fleet_inventory c)));
    ("execution_binding_sha256s", jstrs (map execution_binding_sha256 (fc_execution_bindings c)));
    ("work_item_sha256s", jstrs (sorted_by (λ x, x) (map work_item_sha256 (fc_work_items c))));
    ("receipts_sha256", JStr (fc_receipts_sha256 c));
    ("completed_cell_ids", jstrs (fc_completed_cell_ids c));
    ("budget_sha256_by_cell", JList (map (λ b : string * string, jstrs [b.1; b.2])
                                        (fc_budget_sha256_by_cell c)));
    ("seed", JInt (fc_seed c))]).
