(* ===== verification/FleetReceipts.v ===== *)
(** * GPU fleets: receipts ([HostWaveReceipt], [FleetWaveReceipt])

    The outcome of one host for a fleet wave, the failure-isolated aggregate of
    a wave's hosts, its retry chain, and the [from_dict] of both. *)
From S2P Require Import Prelude PyFloat FloatRepr Hashlib Registry GpuPool PoolParsing Execution.
From S2P Require Import ReceiptParsing Fleet.

Inductive HostWaveStatus : Set := HOST_SUCCEEDED | HOST_FAILED.
#[export] Instance HostWaveStatus_eq_dec : EqDecision HostWaveStatus.
Proof. solve_decision. Defined.
Definition HostWaveStatus_value (x : HostWaveStatus) : string :=
  match x with HOST_SUCCEEDED => "SUCCEEDED" | HOST_FAILED => "FAILED" end.

Record HostWaveReceipt := {
  hr_host_id : string; hr_fleet_plan_sha256 : string; hr_fleet_wave_sha256 : string;
  hr_host_dispatch_plan_sha256 : string; hr_local_wave_index : Z; hr_local_wave_sha256 : string;
  hr_attempt : Z; hr_status : HostWaveStatus;
  dispatch_receipt : option DispatchWaveExecutionReceipt; hr_failure_sha256 : option string;
  prior_host_receipt_sha256 : option string }.
#[export] Instance HostWaveReceipt_eq_dec : EqDecision HostWaveReceipt.
Proof. solve_decision. Defined.

(** [_is_sha256] of a value that may be [None]. *)
Definition some_sha256 (x : option string) : bool :=
  match x with Some d => is_hash 64 d | None => false end.

Definition new_HostWaveReceipt (r : HostWaveReceipt) : result HostWaveReceipt :=
  _ <-! require_text "host_id" (hr_host_id r) ;;
  _ <-! require_all_sha256 [("fleet_plan_sha256", hr_fleet_plan_sha256 r);
          ("fleet_wave_sha256", hr_fleet_wave_sha256 r);
          ("host_dispatch_plan_sha256", hr_host_dispatch_plan_sha256 r);
          ("local_wave_sha256", hr_local_wave_sha256 r)] ;;
  raise_if (hr_local_wave_index r <? 0)
    (ValueError "host receipt local wave index must be non-negative") ;;
  raise_if (hr_attempt r <? 1) (ValueError "host receipt attempt must be positive") ;;
  raise_if (match dispatch_receipt r with
            | None => false
            | Some d => negb (bool_decide (wr_plan_sha256 d = hr_host_dispatch_plan_sha256 r))
                        || negb (wr_wave_index d =? hr_local_wave_index r)
                        || negb (bool_decide (wr_wave_sha256 d = hr_local_wave_sha256 r))
            end) (ValueError "host receipt dispatch identity mismatch") ;;
  let wrapped_success := match dispatch_receipt r with Some d => succeeded d | None => false end in
  _ <-! match hr_status r with
    | HOST_SUCCEEDED =>
      raise_if (negb wrapped_success)
        (ValueError "successful host receipt needs a successful raw receipt") ;;
      raise_if (negb (bool_decide (hr_failure_sha256 r = None)))
        (ValueError "successful host receipt cannot carry failure evidence") ;;
      Ok tt
    | HOST_FAILED =>
      raise_if (negb (some_sha256 (hr_failure_sha256 r)))
        (ValueError "failed host receipt needs content-bound failure evidence") ;;
      raise_if wrapped_success
        (ValueError "failed host receipt cannot wrap a successful wave") ;;
      Ok tt
    end ;;
  raise_if ((hr_attempt r =? 1) && negb (bool_decide (prior_host_receipt_sha256 r = None)))
    (ValueError "first host attempt cannot bind a prior receipt") ;;
  raise_if (negb (hr_attempt r =? 1) && negb (some_sha256 (prior_host_receipt_sha256 r)))
    (ValueError "retried host receipt must bind its prior receipt") ;;
  Ok r.

Definition host_receipt_json (r : HostWaveReceipt) : json := JObj [
  ("host_id", JStr (hr_host_id r)); ("fleet_plan_sha256", JStr (hr_fleet_plan_sha256 r));
  ("fleet_wave_sha256", JStr (hr_fleet_wave_sha256 r));
  ("host_dispatch_plan_sha256", JStr (hr_host_dispatch_plan_sha256 r));
  ("local_wave_index", JInt (hr_local_wave_index r));
  ("local_wave_sha256", JStr (hr_local_wave_sha256 r)); ("attempt", JInt (hr_attempt r));
  ("status", JStr (HostWaveStatus_value (hr_status r)));
  ("dispatch_receipt", jopt wave_receipt_json (dispatch_receipt r));
  ("dispatch_receipt_sha256", jopt JStr (wave_receipt_sha256 <$> dispatch_receipt r));
  ("failure_sha256", jopt JStr (hr_failure_sha256 r));
  ("prior_host_receipt_sha256", jopt JStr (prior_host_receipt_sha256 r))].
Definition host_receipt_sha256 (r : HostWaveReceipt) : string :=
  content_sha256 (host_receipt_json r).

Record FleetWaveReceipt := {
  fr_schema_version : Z; fr_fleet_plan_sha256 : string; fleet_wave_index : Z;
  fr_fleet_wave_sha256 : string; fr_attempt : Z; host_receipts : list HostWaveReceipt;
  prior_fleet_receipt_sha256 : option string }.
#[export] Instance FleetWaveReceipt_eq_dec : EqDecision FleetWaveReceipt.
Proof. solve_decision. Defined.

Definition new_FleetWaveReceipt (r : FleetWaveReceipt) : result FleetWaveReceipt :=
  raise_if (negb (fr_schema_version r =? 1))
    (ValueError "only fleet-wave receipt schema version 1 is supported") ;;
  _ <-! require_sha256 "fleet_plan_sha256" (fr_fleet_plan_sha256 r) ;;
  _ <-! require_sha256 "fleet_wave_sha256" (fr_fleet_wave_sha256 r) ;;
  raise_if (fleet_wave_index r <? 0)
    (ValueError "fleet receipt wave index must be non-negative") ;;
  raise_if (fr_attempt r <? 1) (ValueError "fleet receipt attempt must be positive") ;;
  raise_if (bool_decide (host_receipts r = []))
    (ValueError "fleet wave receipt needs host outcomes") ;;
  let host_ids := map hr_host_id (host_receipts r) in
  raise_if (negb (is_sorted_text host_ids) || negb (unique_text host_ids))
    (ValueError "fleet host receipts must be sorted and unique") ;;
  raise_if (existsb (λ h,
      negb (bool_decide (hr_fleet_plan_sha256 h = fr_fleet_plan_sha256 r))
      || negb (bool_decide (hr_fleet_wave_sha256 h = fr_fleet_wave_sha256 r))) (host_receipts r))
    (ValueError "fleet receipt mixes plan/wave identities") ;;
  raise_if ((fr_attempt r =? 1) && negb (bool_decide (prior_fleet_receipt_sha256 r = None)))
    (ValueError "first fleet attempt cannot bind a prior receipt") ;;
  raise_if (negb (fr_attempt r =? 1) && negb (some_sha256 (prior_fleet_receipt_sha256 r)))
    (ValueError "retried fleet receipt must bind its prior receipt") ;;
  Ok r.

Definition fleet_succeeded (r : FleetWaveReceipt) : bool :=
  forallb (λ h, bool_decide (hr_status h = HOST_SUCCEEDED)) (host_receipts r).
Definition failed_host_ids (r : FleetWaveReceipt) : list string :=
  map hr_host_id (filter (λ h, hr_status h = HOST_FAILED) (host_receipts r)).

Definition fleet_receipt_json (r : FleetWaveReceipt) : json := JObj [
  ("schema_version", JInt (fr_schema_version r));
  ("fleet_plan_sha256", JStr (fr_fleet_plan_sha256 r));
  ("fleet_wave_index", JInt (fleet_wave_index r));
  ("fleet_wave_sha256", JStr (fr_fleet_wave_sha256 r)); ("attempt", JInt (fr_attempt r));
  ("host_receipts", JList (map host_receipt_json (host_receipts r)));
  ("host_receipt_sha256", jstrs (map host_receipt_sha256 (host_receipts r)));
  ("prior_fleet_receipt_sha256", jopt JStr (prior_fleet_receipt_sha256 r))].
Definition fleet_receipt_sha256 (r : FleetWaveReceipt) : string :=
  content_sha256 (fleet_receipt_json r).

(** ** [validate_for_plan] *)

(** [assignments_by_host]: its keys in order, and the rows of a host. *)
Definition rows_of_host (w : GpuFleetDispatchWave) (h : string) : list GpuFleetAssignment :=
  filter (λ r, fa_host_id r = h) (fw_assignments w).
Definition wave_host_ids (w : GpuFleetDispatchWave) : list string :=
  sorted_by (λ h, h) (remove_dups (map fa_host_id (fw_assignments w))).

(** The loop over the host receipts: one receipt. *)
Definition validate_host_receipt (plan : GpuFleetDispatchPlan) (w : GpuFleetDispatchWave)
    (h : HostWaveReceipt) : result unit :=
  match rows_of_host w (hr_host_id h) with
  | [] => Raise (KeyError (hr_host_id h))
  | (first :: _) as rows =>
    match host_plan_by_id (host_plans plan) !! hr_host_id h with
    | None => Raise (KeyError (hr_host_id h))
    | Some p =>
      raise_if (negb (bool_decide (hr_host_dispatch_plan_sha256 h = plan_sha256 (dispatch_plan p)))
                || negb (hr_local_wave_index h =? local_wave_index first)
                || negb (bool_decide (hr_local_wave_sha256 h = local_wave_sha256 first)))
        (ValueError "host receipt differs from its fleet assignment") ;;
      raise_if (match dispatch_receipt h with
                | None => false
                | Some d => negb (same_text_set (map ar_assignment_sha256 (assignment_receipts d))
                                    (map (λ r, assignment_id (assignment r)) rows))
                end) (ValueError "host receipt has incomplete assignment coverage") ;;
      Ok tt
    end
  end.
Fixpoint validate_host_receipts (plan : GpuFleetDispatchPlan) (w : GpuFleetDispatchWave)
    (l : list HostWaveReceipt) : result unit :=
  match l with
  | [] => Ok tt
  | h :: l => _ <-! validate_host_receipt plan w h ;; validate_host_receipts plan w l
  end.

(** [seq[i]] of Python: a negative index counts from the end. *)
Definition py_index {A} (l : list A) (i : Z) : option A :=
  let j := if i <? 0 then i + zlength l else i in
  if j <? 0 then None else l !! Z.to_nat j.

Definition validate_for_plan (plan : GpuFleetDispatchPlan) (r : FleetWaveReceipt) : result unit :=
  raise_if (negb (bool_decide (fr_fleet_plan_sha256 r = fleet_plan_sha256 plan)))
    (ValueError "fleet receipt belongs to another plan") ;;
  raise_if (zlength (fp_waves plan) <=? fleet_wave_index r)
    (ValueError "fleet receipt references an unknown wave") ;;
  match py_index (fp_waves plan) (fleet_wave_index r) with
  | None => Raise (IndexError (fleet_wave_index r))
  | Some w =>
    raise_if (negb (bool_decide (fr_fleet_wave_sha256 r = fleet_wave_sha256 w)))
      (ValueError "fleet receipt wave identity mismatch") ;;
    raise_if (negb (bool_decide (map hr_host_id (host_receipts r) = wave_host_ids w)))
      (ValueError "fleet receipt must cover every participating host") ;;
    validate_host_receipts plan w (host_receipts r)
  end.

(** ** [aggregate] *)

(** [prior_by_host]. *)
Definition receipts_by_host (l : list HostWaveReceipt) : gmap string HostWaveReceipt :=
  list_to_map (reverse (map (λ h, (hr_host_id h, h)) l)).

(** The loop over the new rows: whether a failed host advanced. *)
Fixpoint retry_rows (prior_by_host : gmap string HostWaveReceipt) (changed : bool)
    (l : list HostWaveReceipt) : result bool :=
  match l with
  | [] => Ok changed
  | row :: l =>
    match prior_by_host !! hr_host_id row with
    | None => Raise (KeyError (hr_host_id row))
    | Some prior =>
      if bool_decide (hr_status prior = HOST_SUCCEEDED) then
        raise_if (negb (bool_decide (row = prior)))
          (ValueError "successful host evidence must be preserved") ;;
        retry_rows prior_by_host changed l
      else if bool_decide (row = prior) then retry_rows prior_by_host changed l
      else
        raise_if (negb (hr_attempt row =? hr_attempt prior + 1)
                  || negb (bool_decide (prior_host_receipt_sha256 row
                                        = Some (host_receipt_sha256 prior)))
                  || negb (bool_decide (hr_host_dispatch_plan_sha256 row
                                        = hr_host_dispatch_plan_sha256 prior))
                  || negb (bool_decide (hr_local_wave_sha256 row = hr_local_wave_sha256 prior)))
          (ValueError "failed host retry is not receipt-bound") ;;
        retry_rows prior_by_host true l
    end
  end.

Definition wave_digest_at (plan : GpuFleetDispatchPlan) (i : Z) : result string :=
  match py_index (fp_waves plan) i with
  | Some w => Ok (fleet_wave_sha256 w)
  | None => Raise (IndexError i)
  end.

Definition aggregate (plan : GpuFleetDispatchPlan) (index : Z) (receipts : list HostWaveReceipt)
    (prior_receipt : option FleetWaveReceipt) : result FleetWaveReceipt :=
  let rows := sorted_by hr_host_id receipts in
  receipt <-! match prior_receipt with
    | None =>
      wave <-! wave_digest_at plan index ;;
      receipt <-! new_FleetWaveReceipt {|
        fr_schema_version := 1; fr_fleet_plan_sha256 := fleet_plan_sha256 plan;
        fleet_wave_index := index; fr_fleet_wave_sha256 := wave; fr_attempt := 1;
        host_receipts := rows; prior_fleet_receipt_sha256 := None |} ;;
      raise_if (existsb (λ h, negb (hr_attempt h =? 1)) rows)
        (ValueError "initial fleet receipt requires first host attempts") ;;
      Ok receipt
    | Some prior =>
      _ <-! validate_for_plan plan prior ;;
      raise_if (fleet_succeeded prior)
        (ValueError "a successful fleet wave cannot be retried") ;;
      raise_if (negb (fleet_wave_index prior =? index))
        (ValueError "fleet retry cannot move to another wave") ;;
      let by_host := receipts_by_host (host_receipts prior) in
      raise_if (negb (same_text_set (map hr_host_id rows) (map hr_host_id (host_receipts prior))))
        (ValueError "fleet retry cannot add, remove, or migrate hosts") ;;
      changed <-! retry_rows by_host false rows ;;
      raise_if (negb changed)
        (ValueError "fleet retry must advance at least one failed host") ;;
      wave <-! wave_digest_at plan index ;;
      new_FleetWaveReceipt {|
        fr_schema_version := 1; fr_fleet_plan_sha256 := fleet_plan_sha256 plan;
        fleet_wave_index := index; fr_fleet_wave_sha256 := wave;
        fr_attempt := fr_attempt prior + 1; host_receipts := rows;
        prior_fleet_receipt_sha256 := Some (fleet_receipt_sha256 prior) |}
    end ;;
  _ <-! validate_for_plan plan receipt ;;
  Ok receipt.

(** ** [from_dict] *)
Section parsing.
Context `{FileSystem}.

Definition parse_host_status : string → result HostWaveStatus :=
  enum_of "HostWaveStatus" [HOST_SUCCEEDED; HOST_FAILED] HostWaveStatus_value.
Definition HostWaveReceipt_fields : list string := [
  "host_id"; "fleet_plan_sha256"; "fleet_wave_sha256"; "host_dispatch_plan_sha256";
  "local_wave_index"; "local_wave_sha256"; "attempt"; "status"; "dispatch_receipt";
  "dispatch_receipt_sha256"; "failure_sha256"; "prior_host_receipt_sha256"].

Definition host_receipt_from_dict (value : json) : result HostWaveReceipt :=
  row <-! strict_object "host wave receipt" value HostWaveReceipt_fields ;;
  receipt <-! optional wave_receipt_from_dict (get "dispatch_receipt" row) ;;
  let declared := get "dispatch_receipt_sha256" row in
  _ <-! match receipt with
    | None => raise_if (match declared with JNull => false | _ => true end)
                (ValueError "absent host dispatch receipt has a digest") ;; Ok tt
    | Some d =>
      sha <-! strict_text "dispatch_receipt_sha256" declared ;;
      raise_if (negb (bool_decide (sha = wave_receipt_sha256 d)))
        (ValueError "host dispatch receipt digest mismatch") ;; Ok tt
    end ;;
  host <-! strict_text "host_id" (get "host_id" row) ;;
  plan <-! strict_text "fleet_plan_sha256" (get "fleet_plan_sha256" row) ;;
  wave <-! strict_text "fleet_wave_sha256" (get "fleet_wave_sha256" row) ;;
  dispatch <-! strict_text "host_dispatch_plan_sha256" (get "host_dispatch_plan_sha256" row) ;;
  index <-! strict_int "local_wave_index" (get "local_wave_index" row) ;;
  local <-! strict_text "local_wave_sha256" (get "local_wave_sha256" row) ;;
  attempts <-! strict_int "attempt" (get "attempt" row) ;;
  state <-! strict_text "status" (get "status" row) ;;
  state <-! parse_host_status state ;;
  failure <-! optional_text "failure_sha256" (get "failure_sha256" row) ;;
  prior <-! optional_text "prior_host_receipt_sha256" (get "prior_host_receipt_sha256" row) ;;
  new_HostWaveReceipt {|
    hr_host_id := host; hr_fleet_plan_sha256 := plan; hr_fleet_wave_sha256 := wave;
    hr_host_dispatch_plan_sha256 := dispatch; hr_local_wave_index := index;
    hr_local_wave_sha256 := local; hr_attempt := attempts; hr_status := state;
    dispatch_receipt := receipt; hr_failure_sha256 := failure;
    prior_host_receipt_sha256 := prior |}.

Definition FleetWaveReceipt_fields : list string := [
  "schema_version"; "fleet_plan_sha256"; "fleet_wave_index"; "fleet_wave_sha256"; "attempt";
  "host_receipts"; "host_receipt_sha256"; "prior_fleet_receipt_sha256"].

Definition fleet_receipt_from_dict (value : json) (plan : GpuFleetDispatchPlan)
    (prior_receipt : option FleetWaveReceipt) (sidecar : option (ArtifactSidecar + json))
    : result FleetWaveReceipt :=
  row <-! strict_object "fleet wave receipt" value FleetWaveReceipt_fields ;;
  receipts <-! list_of "host_receipts" host_receipt_from_dict (get "host_receipts" row) ;;
  declared <-! list_of "host_receipt_sha256" (strict_text "host receipt SHA-256")
                 (get "host_receipt_sha256" row) ;;
  raise_if (negb (bool_decide (declared = map host_receipt_sha256 receipts)))
    (ValueError "fleet host-receipt digest list mismatch") ;;
  version <-! strict_int "schema_version" (get "schema_version" row) ;;
  plan_sha <-! strict_text "fleet_plan_sha256" (get "fleet_plan_sha256" row) ;;
  index <-! strict_int "fleet_wave_index" (get "fleet_wave_index" row) ;;
  wave <-! strict_text "fleet_wave_sha256" (get "fleet_wave_sha256" row) ;;
  attempts <-! strict_int "attempt" (get "attempt" row) ;;
  prior <-! optional_text "prior_fleet_receipt_sha256" (get "prior_fleet_receipt_sha256" row) ;;
  receipt <-! new_FleetWaveReceipt {|
    fr_schema_version := version; fr_fleet_plan_sha256 := plan_sha; fleet_wave_index := index;
    fr_fleet_wave_sha256 := wave; fr_attempt := attempts; host_receipts := receipts;
    prior_fleet_receipt_sha256 := prior |} ;;
  _ <-! validate_for_plan plan receipt ;;
  _ <-! (if 1 <? fr_attempt receipt then
           match prior_receipt with
           | None => Raise (ValueError "retried fleet receipt needs its prior raw receipt")
           | Some p =>
             expected <-! aggregate plan (fleet_wave_index receipt) (host_receipts receipt) (Some p) ;;
             raise_if (negb (bool_decide (receipt = expected)))
               (ValueError "fleet retry differs from its prior receipt chain") ;; Ok tt
           end
         else raise_if (match prior_receipt with Some _ => true | None => false end)
                (ValueError "first fleet receipt cannot consume prior evidence") ;; Ok tt) ;;
  _ <-! validate_sidecar "fleet_wave_receipt.v1" (fleet_receipt_sha256 receipt) sidecar ;;
  Ok receipt.
End parsing.
