(* ===== verification/FleetParsing.v ===== *)
(** * GPU fleets: reading the data back

    [from_dict] of host and fleet inventories, execution bindings, fleet
    assignments, waves and plans.  A plan is not rebuilt from its file: the file
    must be the JSON of the plan that the planning context issues. *)
From S2P Require Import Prelude PyFloat FloatRepr Hashlib Registry GpuPool PoolParsing Scheduler.
From S2P Require Import Execution ReceiptParsing Fleet FleetScheduler.

Definition host_binding_from_dict (value : json) : result HostInventoryBinding :=
  row <-! strict_object "host inventory binding" value
            ["schema_version"; "host_id"; "inventory"; "inventory_sha256";
             "interference_envelope"; "interference_envelope_sha256"] ;;
  inventory <-! inventory_from_dict (get "inventory" row) None ;;
  interference <-! envelope_from_dict (get "interference_envelope" row) None ;;
  inventory_sha <-! strict_text "host inventory SHA-256" (get "inventory_sha256" row) ;;
  interference_sha <-! strict_text "host interference SHA-256"
                         (get "interference_envelope_sha256" row) ;;
  raise_if (negb (bool_decide (inventory_sha = inventory_digest inventory)))
    (ValueError "host inventory digest mismatch") ;;
  raise_if (negb (bool_decide (interference_sha = envelope_sha256 interference)))
    (ValueError "host interference-envelope digest mismatch") ;;
  version <-! strict_int "schema_version" (get "schema_version" row) ;;
  host <-! strict_text "host_id" (get "host_id" row) ;;
  new_HostInventoryBinding {|
    hb_schema_version := version; hb_host_id := host; hb_inventory := inventory;
    hb_interference_envelope := interference |}.

Definition fleet_inventory_from_dict (value : json) (sidecar : option (ArtifactSidecar + json))
    : result GpuFleetInventory :=
  row <-! strict_object "GPU fleet inventory" value
            ["schema_version"; "hosts"; "host_binding_sha256"] ;;
  bindings <-! list_of "fleet hosts" host_binding_from_dict (get "hosts" row) ;;
  declared <-! list_of "host_binding_sha256" (strict_text "host binding SHA-256")
                 (get "host_binding_sha256" row) ;;
  raise_if (negb (bool_decide (declared = map host_binding_sha256 bindings)))
    (ValueError "fleet host-binding digest list mismatch") ;;
  version <-! strict_int "schema_version" (get "schema_version" row) ;;
  fleet <-! new_GpuFleetInventory {| fi_schema_version := version; hosts := bindings |} ;;
  _ <-! validate_sidecar "gpu_fleet_inventory.v1" (fleet_inventory_digest fleet) sidecar ;;
  Ok fleet.

Definition execution_binding_from_dict (value : json) : result HostExecutionBinding :=
  row <-! strict_object "host execution binding" value
            ["schema_version"; "host_id"; "inventory_sha256"; "interference_envelope_sha256";
             "port_start"; "port_end"; "cache_namespace"; "evidence_namespace";
             "contention_domain"] ;;
  version <-! strict_int "schema_version" (get "schema_version" row) ;;
  host <-! strict_text "host_id" (get "host_id" row) ;;
  inventory <-! strict_text "inventory_sha256" (get "inventory_sha256" row) ;;
  envelope <-! strict_text "interference_envelope_sha256"
                 (get "interference_envelope_sha256" row) ;;
  first_port <-! strict_int "port_start" (get "port_start" row) ;;
  last_port <-! strict_int "port_end" (get "port_end" row) ;;
  cache <-! strict_text "cache_namespace" (get "cache_namespace" row) ;;
  evidence <-! strict_text "evidence_namespace" (get "evidence_namespace" row) ;;
  domain <-! strict_text "contention_domain" (get "contention_domain" row) ;;
  new_HostExecutionBinding {|
    xb_schema_version := version; xb_host_id := host; xb_inventory_sha256 := inventory;
    xb_interference_envelope_sha256 := envelope; xb_port_start := first_port;
    xb_port_end := last_port; cache_namespace := cache; evidence_namespace := evidence;
    xb_contention_domain := domain |}.

Definition GpuFleetAssignment_fields : list string := [
  "host_id"; "host_inventory_sha256"; "host_dispatch_plan_sha256"; "execution_binding_sha256";
  "local_wave_index"; "local_wave_sha256"; "assignment"; "assignment_sha256"; "cache_root";
  "evidence_root"; "contention_domain"].
Definition fleet_assignment_from_dict (value : json) : result GpuFleetAssignment :=
  row <-! strict_object "GPU fleet assignment" value GpuFleetAssignment_fields ;;
  a <-! assignment_from_dict (get "assignment" row) ;;
  declared <-! strict_text "assignment_sha256" (get "assignment_sha256" row) ;;
  raise_if (negb (bool_decide (declared = assignment_id a)))
    (ValueError "fleet assignment local-assignment digest mismatch") ;;
  host <-! strict_text "host_id" (get "host_id" row) ;;
  inventory <-! strict_text "host_inventory_sha256" (get "host_inventory_sha256" row) ;;
  plan <-! strict_text "host_dispatch_plan_sha256" (get "host_dispatch_plan_sha256" row) ;;
  binding <-! strict_text "execution_binding_sha256" (get "execution_binding_sha256" row) ;;
  index <-! strict_int "local_wave_index" (get "local_wave_index" row) ;;
  wave <-! strict_text "local_wave_sha256" (get "local_wave_sha256" row) ;;
  cache <-! strict_text "cache_root" (get "cache_root" row) ;;
  evidence <-! strict_text "evidence_root" (get "evidence_root" row) ;;
  domain <-! strict_text "contention_domain" (get "contention_domain" row) ;;
  new_GpuFleetAssignment {|
    fa_host_id := host; fa_host_inventory_sha256 := inventory; host_dispatch_plan_sha256 := plan;
    fa_execution_binding_sha256 := binding; local_wave_index := index; local_wave_sha256 := wave;
    assignment := a; fa_cache_root := cache; fa_evidence_root := evidence;
    contention_domain := domain |}.

(** A cost of the file and the cost of the wave. *)
Definition check_cost (name : string) (value : json) (expected : pyfloat) : result unit :=
  actual <-! match value with
    | JFloat x => Ok x
    | JInt z => raise_if (negb (ffinite (float_of_Z z)))
                  (OverflowError "int too large to convert to float") ;; Ok (float_of_Z z)
    | _ => Raise (TypeError (name +:+ " must be numeric"))
    end ;;
  raise_if (negb (ffinite actual) || negb (cost_close actual expected))
    (ValueError ("fleet wave " +:+ name +:+ " mismatch")) ;;
  Ok tt.

Definition fleet_wave_from_dict (value : json) : result GpuFleetDispatchWave :=
  row <-! strict_object "GPU fleet dispatch wave" value
            ["wave_index"; "assignments"; "assignment_sha256"; "estimated_wall_seconds";
             "estimated_gpu_seconds"] ;;
  rows <-! list_of "fleet assignments" fleet_assignment_from_dict (get "assignments" row) ;;
  declared <-! list_of "assignment_sha256" (strict_text "fleet assignment SHA-256")
                 (get "assignment_sha256" row) ;;
  raise_if (negb (bool_decide (declared = map fleet_assignment_id rows)))
    (ValueError "fleet wave assignment digest list mismatch") ;;
  index <-! strict_int "wave_index" (get "wave_index" row) ;;
  wave <-! new_GpuFleetDispatchWave {| fw_wave_index := index; fw_assignments := rows |} ;;
  _ <-! check_cost "estimated_wall_seconds" (get "estimated_wall_seconds" row)
          (fw_wall_seconds wave) ;;
  _ <-! check_cost "estimated_gpu_seconds" (get "estimated_gpu_seconds" row)
          (default fzero (fw_gpu_seconds wave)) ;;
  Ok wave.

(** ** [_require_exact_json]

    Equality of JSON values by structure and type: the keys of an object in any
    order, numbers by value within one type. *)
Fixpoint same_json (actual expected : json) {struct expected} : bool :=
  match expected, actual with
  | JObj fields, JObj row =>
    same_keys (map fst row) (map fst fields)
    && forallb (λ kv : string * json, same_json (get kv.1 row) kv.2) fields
  | JList l, JList l' =>
    (fix all2 (l l' : list json) {struct l} : bool :=
       match l, l' with
       | [], [] => true
       | x :: l, x' :: l' => same_json x' x && all2 l l'
       | _, _ => false
       end) l l'
  | JNull, JNull => true
  | JBool b, JBool b' => Bool.eqb b' b
  | JInt z, JInt z' => z' =? z
  | JFloat x, JFloat x' => feq x' x
  | JStr t, JStr t' => bool_decide (t' = t)
  | _, _ => false
  end.

Definition GpuFleetDispatchPlan_fields : list string := [
  "schema_version"; "registry_sha256"; "fleet_inventory_sha256"; "receipts_sha256"; "seed";
  "host_plans"; "host_plan_sha256"; "waves"; "wave_sha256"; "completed_cell_ids";
  "estimated_wall_seconds"; "estimated_gpu_seconds"].
Definition fleet_plan_from_dict `{ReleaseGate} (value : json) (context : GpuFleetPlanningContext)
    (sidecar : option (ArtifactSidecar + json)) : result GpuFleetDispatchPlan :=
  _ <-! strict_object "GPU fleet dispatch plan" value GpuFleetDispatchPlan_fields ;;
  expected <-! fleet_issue_plan context ;;
  raise_if (negb (same_json value (fleet_plan_json expected)))
    (ValueError "fleet_plan differs from the issued canonical value") ;;
  _ <-! validate_sidecar "gpu_fleet_dispatch_plan.v1" (fleet_plan_sha256 expected) sidecar ;;
  Ok expected.
