(* ===== verification/FleetWaves.v ===== *)
(** * What a fleet wave admits

    The dictionaries of the constructor against the rows they come from: a fleet
    wave is accepted exactly when its rows are canonically ordered, rows of one
    host belong to one local wave and share no resource, and no contention domain
    that spans hosts holds work that must be alone. *)
From S2P Require Import Prelude PyFloat FloatRepr Hashlib Registry GpuPool Scheduler PoolSafety.
From S2P Require Import Execution Fleet.

(** ** Pairs of elements *)
Section pairs.
Context {A : Type} (R : A → A → Prop) {Hsym : Symmetric R}.

Lemma all_pairs_perm l l' : l ≡ₚ l' → ForallOrdPairs R l → ForallOrdPairs R l'.
Proof.
  induction 1 as [|x l l' Hp IH|x y l|l1 l2 l3 H12 IH1 H23 IH2]; intros H; [done| | |by auto].
  - inversion H as [|? ? Hx Hl]; subst. constructor; [by rewrite <- Hp|by apply IH].
  - inversion H as [|? ? Hy Hl]; subst. inversion Hl as [|? ? Hx Hl']; subst.
    apply Forall_cons in Hy as [Hxy Hy]. constructor; [|by constructor].
    apply Forall_cons. by split; [symmetry|].
Qed.

Lemma all_pairs_app l1 l2 :
  ForallOrdPairs R (l1 ++ l2) ↔
  ForallOrdPairs R l1 ∧ ForallOrdPairs R l2 ∧ ∀ x y, x ∈ l1 → y ∈ l2 → R x y.
Proof.
  induction l1 as [|z l1 IH]; cbn.
  - split; [intros H; split_and!; [constructor|done|by intros ? ? ?%elem_of_nil]|by intros (_ & H & _)].
  - split.
    + intros H. inversion H as [|? ? Hz Hl]; subst. apply IH in Hl as (H1 & H2 & H3).
      apply Forall_app in Hz as [Hz1 Hz2]. split; [by constructor|]. split; [done|].
      intros x y [->|Hx]%elem_of_cons Hy; [|by apply H3]. rewrite Forall_forall in Hz2. by apply Hz2.
    + intros (H1 & H2 & H3). inversion H1 as [|? ? Hz Hl]; subst. constructor.
      * apply Forall_app. split; [done|]. apply Forall_forall. intros y Hy. apply H3; [by left|done].
      * apply IH. split; [done|]. split; [done|]. intros x y Hx Hy. apply H3; [by right|done].
Qed.

Lemma all_pairs_NoDup l x y : ForallOrdPairs R l → x ∈ l → y ∈ l → x ≠ y → R x y.
Proof.
  induction 1 as [|z l Hz Hl IH]; [by intros ?%elem_of_nil|].
  rewrite Forall_forall in Hz.
  intros [->|Hx]%elem_of_cons [->|Hy]%elem_of_cons Hne; [done|by apply Hz| |by apply IH].
  symmetry. by apply Hz.
Qed.
End pairs.

(** ** Rows of one wave *)

(** Two rows of one host: the same local wave, nothing shared. *)
Definition compatible (r1 r2 : GpuFleetAssignment) : Prop :=
  fa_host_id r1 = fa_host_id r2 →
  local_identity r1 = local_identity r2 ∧
  (∀ u, u ∈ gpu_uuids (assignment r1) → u ∉ gpu_uuids (assignment r2)) ∧
  (∀ p, p ∈ ports (assignment r1) → p ∉ ports (assignment r2)) ∧
  fa_cache_root r1 ≠ fa_cache_root r2 ∧ fa_evidence_root r1 ≠ fa_evidence_root r2.
#[export] Instance compatible_sym : Symmetric compatible.
Proof.
  intros x y H Hh. destruct (H (eq_sym Hh)) as (H1 & H2 & H3 & H4 & H5).
  split_and!; [done|by intros u Hu Hu'; apply (H2 u)|by intros p Hp Hp'; apply (H3 p)|congruence..].
Qed.

Definition row_class (r : GpuFleetAssignment) : WorkloadClass :=
  workload_class (claim (work_item (assignment r))).

(** Work that must be alone in its domain keeps the domain on one host. *)
Definition domain_free (l : list GpuFleetAssignment) : Prop :=
  ∀ r r1 r2, r ∈ l → r1 ∈ l → r2 ∈ l →
    contention_domain r1 = contention_domain r → contention_domain r2 = contention_domain r →
    row_class r ∈ HOST_EXCLUSIVE_IO_CLASSES → fa_host_id r1 = fa_host_id r2.

Lemma domain_free_perm l l' : l ≡ₚ l' → domain_free l → domain_free l'.
Proof. intros Hp H r r1 r2. rewrite <- Hp. apply H. Qed.

(** What the dictionaries hold after the rows [l]. *)
Definition rows_with {X} (key : GpuFleetAssignment → string) (take_of : GpuFleetAssignment → list X)
    (l : list GpuFleetAssignment) (k : string) (x : X) : Prop :=
  ∃ r, r ∈ l ∧ key r = k ∧ x ∈ take_of r.
Record holds_rows (u : FleetUse) (l : list GpuFleetAssignment) : Prop := {
  hr_waves : ∀ h i, local_waves u !! h = Some i → ∃ r, r ∈ l ∧ fa_host_id r = h ∧ local_identity r = i;
  hr_known : ∀ r, r ∈ l → local_waves u !! fa_host_id r = Some (local_identity r);
  hr_gpus : ∀ h x, x ∈ hu_gpus (host_use u h) ↔ rows_with fa_host_id (λ r, gpu_uuids (assignment r)) l h x;
  hr_ports : ∀ h x, x ∈ hu_ports (host_use u h) ↔ rows_with fa_host_id (λ r, ports (assignment r)) l h x;
  hr_caches : ∀ h x, x ∈ hu_caches (host_use u h) ↔ rows_with fa_host_id (λ r, [fa_cache_root r]) l h x;
  hr_evidence : ∀ h x,
    x ∈ hu_evidence (host_use u h) ↔ rows_with fa_host_id (λ r, [fa_evidence_root r]) l h x;
  hr_classes : ∀ d x,
    x ∈ default [] (domain_classes u !! d) ↔ rows_with contention_domain (λ r, [row_class r]) l d x;
  hr_hosts : ∀ d x,
    x ∈ default [] (domain_hosts u !! d) ↔ rows_with contention_domain (λ r, [fa_host_id r]) l d x;
}.

Lemma rows_with_cons {X} key (take_of : _ → list X) r l k x :
  rows_with key take_of (r :: l) k x ↔ key r = k ∧ x ∈ take_of r ∨ rows_with key take_of l k x.
Proof.
  unfold rows_with. split.
  - intros (r' & [->|Hr]%elem_of_cons & Hk & Hx); [by left|right; by exists r'].
  - intros [[Hk Hx]|(r' & Hr & Hk & Hx)]; [exists r|exists r']; (split; [|done]).
    + apply list_elem_of_here.
    + by apply list_elem_of_further.
Qed.

Lemma holds_nil : holds_rows no_fleet_use [].
Proof.
  assert (Hn : ∀ X key (t : _ → list X) k x, ¬ rows_with key t [] k x)
    by (intros X key t k x (r & Hr%elem_of_nil & _); done).
  split; unfold no_fleet_use, host_use; cbn [local_waves resources_of domain_classes domain_hosts].
  1: intros h i; by rewrite lookup_empty.
  1: by intros r ?%elem_of_nil.
  all: intros h x; rewrite lookup_empty; cbn; split; [by intros ?%elem_of_nil|by intros ?%Hn].
Qed.

(** One more key of a dictionary of lists. *)
Lemma add_row_members {X} key (take_of : _ → list X) r l (held : string → list X) (k : string) x
    (new : string → list X) :
  (∀ k x, x ∈ held k ↔ rows_with key take_of l k x) →
  new (key r) = take_of r ++ held (key r) → (∀ k, k ≠ key r → new k = held k) →
  x ∈ new k ↔ rows_with key take_of (r :: l) k x.
Proof.
  intros Hh Hk Hn. rewrite rows_with_cons, <- Hh. destruct (decide (k = key r)) as [->|Hne].
  - rewrite Hk, elem_of_app. naive_solver.
  - rewrite Hn by done. naive_solver.
Qed.

Lemma holds_add u l r :
  holds_rows u l → fleet_conflict u r = None → holds_rows (add_fleet_use u r) (r :: l).
Proof.
  intros [Hw Hk Hg Hp Hc He Hcl Hho] Hn.
  assert (Hid : ∀ i, local_waves u !! fa_host_id r = Some i → i = local_identity r).
  { intros i Hi. unfold fleet_conflict in Hn. rewrite Hi in Hn.
    case_bool_decide; [done|discriminate Hn]. }
  split; unfold add_fleet_use, host_use; cbn [local_waves resources_of domain_classes domain_hosts].
  - intros h i. destruct (decide (fa_host_id r = h)) as [<-|Hne].
    + rewrite lookup_insert_eq. intros [= <-]. exists r. split; [apply list_elem_of_here|done].
    + rewrite lookup_insert_ne by done. intros (r' & Hr & H1 & H2)%Hw. exists r'.
      split; [by apply list_elem_of_further|done].
  - intros r' [->|Hr]%elem_of_cons; [apply lookup_insert_eq|].
    destruct (decide (fa_host_id r = fa_host_id r')) as [E|Hne].
    + rewrite E, lookup_insert_eq. f_equal. symmetry. apply Hid. rewrite E. by apply Hk.
    + rewrite lookup_insert_ne by done. by apply Hk.
  - intros h x. apply (add_row_members fa_host_id _ r l (λ h, hu_gpus (host_use u h)) h x
      (λ h, hu_gpus (default no_host_use (_ !! h)))); [done|by rewrite lookup_insert_eq|].
    intros k Hne. by rewrite lookup_insert_ne.
  - intros h x. apply (add_row_members fa_host_id _ r l (λ h, hu_ports (host_use u h)) h x
      (λ h, hu_ports (default no_host_use (_ !! h)))); [done|by rewrite lookup_insert_eq|].
    intros k Hne. by rewrite lookup_insert_ne.
  - intros h x. apply (add_row_members fa_host_id _ r l (λ h, hu_caches (host_use u h)) h x
      (λ h, hu_caches (default no_host_use (_ !! h)))); [done|by rewrite lookup_insert_eq|].
    intros k Hne. by rewrite lookup_insert_ne.
  - intros h x. apply (add_row_members fa_host_id _ r l (λ h, hu_evidence (host_use u h)) h x
      (λ h, hu_evidence (default no_host_use (_ !! h)))); [done|by rewrite lookup_insert_eq|].
    intros k Hne. by rewrite lookup_insert_ne.
  - intros d x. apply (add_row_members contention_domain _ r l (λ d, default [] (domain_classes u !! d))
      d x (λ d, default [] (_ !! d))); [done|by rewrite lookup_insert_eq|].
    intros k Hne. by rewrite lookup_insert_ne.
  - intros d x. apply (add_row_members contention_domain _ r l (λ d, default [] (domain_hosts u !! d))
      d x (λ d, default [] (_ !! d))); [done|by rewrite lookup_insert_eq|].
    intros k Hne. by rewrite lookup_insert_ne.
Qed.

(** ** The checks *)
Lemma fleet_conflict_None u l r :
  holds_rows u l → fleet_conflict u r = None ↔ ∀ r', r' ∈ l → compatible r' r.
Proof.
  intros [Hw Hk Hg Hp Hc He _ _]. unfold fleet_conflict. split.
  - intros H r' Hr Hh.
    rewrite <- Hh, (Hk r' Hr) in H.
    case_bool_decide as Hi; [|discriminate H]. cbn [negb] in H.
    destruct (overlap (hu_gpus _) _) eqn:E1; [discriminate H|].
    destruct (overlap (hu_ports _) _) eqn:E2; [discriminate H|].
    pose proof (proj1 (overlap_false _ _) E1) as E1'. pose proof (proj1 (overlap_false _ _) E2) as E2'.
    case_bool_decide as E3; [discriminate H|]. case_bool_decide as E4; [discriminate H|].
    split; [done|]. split; [|split; [|split]].
    + intros x Hx. apply E1', Hg. by exists r'.
    + intros x Hx. apply E2', Hp. by exists r'.
    + intros Heq. apply E3, Hc. exists r'. rewrite Heq. split; [done|]. split; [done|].
      apply list_elem_of_here.
    + intros Heq. apply E4, He. exists r'. rewrite Heq. split; [done|]. split; [done|].
      apply list_elem_of_here.
  - intros H.
    assert (overlap (hu_gpus (host_use u (fa_host_id r))) (gpu_uuids (assignment r)) = false) as ->.
    { apply overlap_false. intros x (r' & Hr & Hh & Hx)%Hg Hx'.
      by apply (proj1 (proj2 (H r' Hr Hh)) x). }
    assert (overlap (hu_ports (host_use u (fa_host_id r))) (ports (assignment r)) = false) as ->.
    { apply overlap_false. intros x (r' & Hr & Hh & Hx)%Hp Hx'.
      by apply (proj1 (proj2 (proj2 (H r' Hr Hh))) x). }
    rewrite (bool_decide_eq_false_2 (fa_cache_root r ∈ _)).
    2:{ intros (r' & Hr & Hh & Hx%list_elem_of_singleton)%Hc.
        by apply (proj1 (proj2 (proj2 (proj2 (H r' Hr Hh))))). }
    rewrite (bool_decide_eq_false_2 (fa_evidence_root r ∈ _)).
    2:{ intros (r' & Hr & Hh & Hx%list_elem_of_singleton)%He.
        by apply (proj2 (proj2 (proj2 (proj2 (H r' Hr Hh))))). }
    destruct (local_waves u !! fa_host_id r) as [i|] eqn:E; [|done].
    destruct (Hw _ _ E) as (r' & Hr & Hh & <-). destruct (H r' Hr Hh) as [Hi _].
    by rewrite bool_decide_eq_true_2.
Qed.

Lemma fleet_uses_Ok u l u' rows :
  holds_rows u l → fleet_uses u rows = inr u' →
  holds_rows u' (reverse rows ++ l) ∧ ForallOrdPairs compatible rows ∧
  ∀ r' r, r' ∈ l → r ∈ rows → compatible r' r.
Proof.
  revert u l. induction rows as [|r rows IH]; intros u l Hu H; cbn in H.
  { injection H as <-. split; [done|]. split; [constructor|by intros ? ? ? ?%elem_of_nil]. }
  destruct (fleet_conflict u r) eqn:E; [discriminate H|].
  destruct (IH _ _ (holds_add _ _ _ Hu E) H) as (H1 & H2 & H3).
  rewrite (fleet_conflict_None _ _ _ Hu) in E. split; [|split].
  - by rewrite reverse_cons, <- app_assoc.
  - constructor; [|done]. apply Forall_forall. intros x Hx. apply H3; [by left|done].
  - intros r' x Hr' [->|Hx]%elem_of_cons; [by apply E|]. apply H3; [by right|done].
Qed.

Lemma fleet_uses_total u l rows :
  holds_rows u l → ForallOrdPairs compatible rows →
  (∀ r' r, r' ∈ l → r ∈ rows → compatible r' r) → ∃ u', fleet_uses u rows = inr u'.
Proof.
  revert u l. induction rows as [|r rows IH]; intros u l Hu Hp Hl; cbn; [by exists u|].
  inversion Hp as [|? ? Hr Hrows]; subst.
  assert (E : fleet_conflict u r = None).
  { apply (fleet_conflict_None _ _ _ Hu). intros r' Hr'. apply Hl; [done|by left]. }
  rewrite E. apply (IH _ (r :: l)); [by apply holds_add|done|].
  intros r' x [->|Hr']%elem_of_cons Hx; [rewrite Forall_forall in Hr; by apply Hr|].
  apply Hl; [done|by right].
Qed.

Lemma distinct_many l : 1 < distinct l ↔ ∃ x y, x ∈ l ∧ y ∈ l ∧ x ≠ y.
Proof.
  unfold distinct. split.
  - intros H. assert (Hs : (1 < size (list_to_set l : gset string))%nat) by lia.
    destruct (set_choose_or_empty (list_to_set l : gset string)) as [[x Hx]|He];
      [|rewrite He, size_empty in Hs; lia].
    destruct (set_choose_or_empty ((list_to_set l : gset string) ∖ {[x]})) as [[y Hy]|He].
    + apply elem_of_difference in Hy as [Hy Hne]. exists x, y.
      rewrite elem_of_list_to_set in Hx, Hy. split; [done|]. split; [done|].
      intros ->. by apply Hne, elem_of_singleton.
    + exfalso. assert (Hsub : (list_to_set l : gset string) ⊆ {[x]}).
      { intros z Hz. destruct (decide (z = x)) as [->|Hne]; [by apply elem_of_singleton|].
        assert (Hin : z ∈ (list_to_set l : gset string) ∖ {[x]})
          by (apply elem_of_difference; split; [done|by intros ?%elem_of_singleton]).
        rewrite He in Hin. by apply elem_of_empty in Hin. }
      apply subseteq_size in Hsub. rewrite size_singleton in Hsub. lia.
  - intros (x & y & Hx & Hy & Hne).
    assert (Hsub : ({[x; y]} : gset string) ⊆ list_to_set l).
    { intros z [->%elem_of_singleton| ->%elem_of_singleton]%elem_of_union;
        by apply elem_of_list_to_set. }
    apply subseteq_size in Hsub. rewrite size_union, !size_singleton in Hsub; [lia|].
    intros z ->%elem_of_singleton Hz%elem_of_singleton. by apply Hne.
Qed.

Lemma domain_overlap_spec u l : holds_rows u l → domain_overlap u = false ↔ domain_free l.
Proof.
  intros [_ _ _ _ _ _ Hcl Hho]. unfold domain_overlap. rewrite <- not_true_iff_false, existsb_exists.
  split.
  - intros Hn r r1 r2 Hr Hr1 Hr2 Hd1 Hd2 Hx.
    destruct (decide (fa_host_id r1 = fa_host_id r2)) as [|Hne]; [done|]. destruct Hn.
    assert (Hc : row_class r ∈ default [] (domain_classes u !! contention_domain r)).
    { apply Hcl. exists r. split; [done|]. split; [done|]. apply list_elem_of_here. }
    destruct (domain_classes u !! contention_domain r) as [cs|] eqn:E; [|by apply elem_of_nil in Hc].
    exists (contention_domain r, cs). split; [by apply list_elem_of_In, elem_of_map_to_list|].
    cbn [fst snd]. apply andb_true_iff. split.
    + apply Z.ltb_lt, distinct_many. exists (fa_host_id r1), (fa_host_id r2).
      split; [apply Hho; exists r1|split; [apply Hho; exists r2|done]];
        (split; [done|]); (split; [done|]); apply list_elem_of_here.
    + apply not_false_iff_true. rewrite overlap_false. intros Ho. by apply (Ho (row_class r)).
  - intros Hf ([d cs] & Hin%list_elem_of_In%elem_of_map_to_list & Ht). cbn [fst snd] in *.
    apply andb_true_iff in Ht as [H1%Z.ltb_lt H2]. apply distinct_many in H1 as (h1 & h2 & Hh1 & Hh2 & Hne).
    apply Hho in Hh1 as (r1 & Hr1 & Hd1 & ->%list_elem_of_singleton).
    apply Hho in Hh2 as (r2 & Hr2 & Hd2 & ->%list_elem_of_singleton).
    apply existsb_exists in H2 as (c & Hc%list_elem_of_In & Hx%bool_decide_eq_true_1).
    assert (Hc' : c ∈ default [] (domain_classes u !! d)) by by rewrite Hin.
    apply Hcl in Hc' as (r & Hr & Hd & ->%list_elem_of_singleton).
    apply Hne, (Hf r r1 r2); [done..|congruence|congruence|done].
Qed.

(** ** The constructor *)
Definition canonical_rows (l : list GpuFleetAssignment) : Prop :=
  sorted_by (λ o : string * string, o) (map fleet_order l) = map fleet_order l ∧
  NoDup (map fleet_order l).

Lemma fleet_wave_dec (w : GpuFleetDispatchWave) :
  0 ≤ fw_wave_index w → fw_assignments w ≠ [] → canonical_rows (fw_assignments w) →
  ForallOrdPairs compatible (fw_assignments w) →
  (new_GpuFleetDispatchWave w = Ok w ∧ domain_free (fw_assignments w)) ∨
  (new_GpuFleetDispatchWave w = Raise (ValueError shared_domain_message) ∧
   ¬ domain_free (fw_assignments w)).
Proof.
  intros Hi Hne [Hs Hnd] Hp. unfold new_GpuFleetDispatchWave.
  replace (_ <? 0) with false by lia. rewrite !bool_decide_eq_true_2 by done. cbn [negb orb].
  destruct (fleet_uses_total _ [] _ holds_nil Hp) as [u Hu]; [by intros ? ? ?%elem_of_nil|].
  destruct (fleet_uses_Ok _ [] _ _ holds_nil Hu) as [Hh _]. rewrite Hu.
  rewrite app_nil_r in Hh.
  assert (Hd : domain_overlap u = false ↔ domain_free (fw_assignments w)).
  { rewrite (domain_overlap_spec _ _ Hh). split; apply domain_free_perm;
      [apply reverse_Permutation|symmetry; apply reverse_Permutation]. }
  destruct (fw_assignments w) as [|r0 rows] eqn:E; [done|].
  destruct (domain_overlap u) eqn:Ed; [right|left]; (split; [done|]).
  - intros Hf%Hd. discriminate Hf.
  - by apply Hd.
Qed.

Lemma new_fleet_wave_Ok w w' :
  new_GpuFleetDispatchWave w = Ok w' →
  w' = w ∧ 0 ≤ fw_wave_index w ∧ fw_assignments w ≠ [] ∧ canonical_rows (fw_assignments w) ∧
  ForallOrdPairs compatible (fw_assignments w) ∧ domain_free (fw_assignments w).
Proof.
  unfold new_GpuFleetDispatchWave. intros H. do 3 step_ok H. bools.
  destruct (fleet_uses no_fleet_use (fw_assignments w)) as [|u] eqn:Hu; [discriminate H|].
  destruct (domain_overlap u) eqn:Ed; [discriminate H|]. injection H as <-.
  destruct (fleet_uses_Ok _ [] _ _ holds_nil Hu) as (Hh & Hp & _). rewrite app_nil_r in Hh.
  split; [done|]. split; [done|]. split; [by intros E'; rewrite E' in *|].
  split; [done|]. split; [done|]. apply (domain_overlap_spec _ _ Hh) in Ed.
  eapply domain_free_perm; [apply reverse_Permutation|exact Ed].
Qed.
