(* ===== verification/FleetCompose.v ===== *)
(** * Composition of fleet waves

    The loop that composes host-local waves into fleet waves always ends with a
    result; every host runs its local waves in order, each of them whole and in
    one fleet wave, and nothing else runs. *)
From S2P Require Import Prelude PyFloat FloatRepr Hashlib Registry GpuPool Scheduler PoolSafety.
From S2P Require Import Execution Fleet FleetScheduler FleetReceipts FleetWaves.

(** ** Pairs of a list without duplicates *)
Lemma all_pairs_impl {A} (P Q : A → A → Prop) l :
  (∀ x y, x ∈ l → y ∈ l → P x y → Q x y) → ForallOrdPairs P l → ForallOrdPairs Q l.
Proof.
  intros Hi H. induction H as [|x l Hx Hl IH]; constructor.
  - rewrite Forall_forall in *. intros y Hy. apply Hi; [by left|by right|by apply Hx].
  - apply IH. intros y z Hy Hz. apply Hi; by right.
Qed.
Lemma all_pairs_and {A} (P Q : A → A → Prop) l :
  ForallOrdPairs P l → ForallOrdPairs Q l → ForallOrdPairs (λ x y, P x y ∧ Q x y) l.
Proof.
  intros H. induction H as [|x l Hx Hl IH]; intros HQ; [constructor|].
  inversion HQ as [|? ? Hq Hql]; subst. constructor; [|by apply IH].
  rewrite Forall_forall in *. intros y Hy. split; [by apply Hx|by apply Hq].
Qed.
Lemma all_pairs_map {A B} (f : A → B) l :
  NoDup (map f l) → ForallOrdPairs (λ x y, f x ≠ f y) l.
Proof.
  induction l as [|x l IH]; intros H; [constructor|]. apply NoDup_cons in H as [Hx Hl].
  constructor; [|by apply IH]. apply Forall_forall. intros y Hy Heq. apply Hx.
  rewrite Heq. by apply list_elem_of_fmap_2.
Qed.
Lemma all_pairs_concat {A B} (f : A → list B) l :
  NoDup (concat (map f l)) → ForallOrdPairs (λ x y, ∀ z, z ∈ f x → z ∉ f y) l.
Proof.
  induction l as [|x l IH]; intros H; [constructor|]. cbn in H. apply NoDup_app in H as (_ & Hx & Hl).
  constructor; [|by apply IH]. apply Forall_forall. intros y Hy z Hz Hz'. apply (Hx z Hz).
  apply list_elem_of_In, in_concat. exists (f y).
  split; apply list_elem_of_In; [by apply list_elem_of_fmap_2|done].
Qed.
Lemma all_pairs_of_map {A B} (R : B → B → Prop) (f : A → B) l :
  ForallOrdPairs R (map f l) → ForallOrdPairs (λ x y, R (f x) (f y)) l.
Proof.
  induction l as [|x l IH]; intros H; [constructor|]. inversion H as [|? ? Hx Hl]; subst.
  constructor; [|by apply IH]. apply Forall_forall. intros y Hy. rewrite Forall_forall in Hx.
  apply Hx. by apply list_elem_of_fmap_2.
Qed.

Lemma sorted_by_id {K} `{PyOrdLaws K, !PyOrdEq K} (l : list K) :
  StronglySorted pyle l → sorted_by (λ x, x) l = l.
Proof.
  intros Hs. apply (StronglySorted_unique_strong (key_le (λ x : K, x))).
  - intros x y _ _ Hxy Hyx. by apply pycmp_eq, pycmp_Eq_le.
  - apply sorted_by_sorted.
  - exact Hs.
  - apply sorted_by_Permutation.
Qed.

(** ** Wrapped local waves *)
Section compose.
Context (s : GpuFleetScheduler).

(** A host plan built by the scheduler. *)
Record plan_ready (p : HostDispatchPlan) : Prop := {
  pr_host : hp_host_id p ∈ host_ids s;
  pr_new : new_HostDispatchPlan p = Ok p;
  pr_binding : new_HostExecutionBinding (execution_binding p) = Ok (execution_binding p);
  pr_waves : ∀ w, w ∈ waves (dispatch_plan p) →
    new_GpuDispatchWave w = Ok w ∧ ∀ a, a ∈ assignments w → new_GpuAssignment a = Ok a }.

(** The row that stands for the assignment [a] of the local wave [w]. *)
Record wraps (p : HostDispatchPlan) (w : GpuDispatchWave) (a : GpuAssignment)
    (r : GpuFleetAssignment) : Prop := {
  wr_host : fa_host_id r = hp_host_id p;
  wr_inventory : fa_host_inventory_sha256 r = host_inventory_sha256 p;
  wr_plan : host_dispatch_plan_sha256 r = plan_sha256 (dispatch_plan p);
  wr_binding : fa_execution_binding_sha256 r = execution_binding_sha256 (execution_binding p);
  wr_identity : local_identity r = (wave_index w, wave_sha256 w);
  wr_assignment : assignment r = a;
  wr_cache : cache_root_for (execution_binding p) a = Ok (fa_cache_root r);
  wr_evidence : evidence_root_for (execution_binding p) a = Ok (fa_evidence_root r);
  wr_domain : contention_domain r = xb_contention_domain (execution_binding p) }.

Lemma wrap_assignment_Ok p w a r : wrap_assignment p w a = Ok r → wraps p w a r.
Proof.
  unfold wrap_assignment. intros H. step_ok H. step_ok H. unfold new_GpuFleetAssignment in H.
  repeat step_ok H. injection H as <-. by split.
Qed.
Lemma wrap_Ok p w rows : wrap_local_wave p w = Ok rows → Forall2 (wraps p w) (assignments w) rows.
Proof.
  unfold wrap_local_wave. rewrite mapR_Ok. intros H. eapply Forall2_impl; [exact H|].
  intros a r. apply wrap_assignment_Ok.
Qed.

Lemma require_namespace_name n n' q u :
  require_namespace n q = Ok u → require_namespace n' q = Ok tt.
Proof.
  unfold require_namespace, require_text. destruct (negb (is_text q)); [done|].
  destruct (_ || _); [done|]. by destruct (_ || _).
Qed.
Lemma qualify_namespace name a b q : qualify a b = Ok q → require_namespace name q = Ok tt.
Proof.
  unfold qualify. intros H. repeat step_ok H. injection H as <-.
  by eapply require_namespace_name.
Qed.

Lemma check_host_waves_Ok b ws : check_host_waves b ws = Ok tt ↔ ∀ w, w ∈ ws → check_host_wave b w = Ok tt.
Proof.
  induction ws as [|w ws IH]; cbn.
  - split; [by intros _ ? ?%elem_of_nil|done].
  - split.
    + intros H. step_ok H. destruct a. rewrite IH in H. intros x [->|Hx]%elem_of_cons; [done|by apply H].
    + intros H. rewrite (H w) by by left. apply IH. intros x Hx. apply H. by right.
Qed.

Lemma ready_host_wave p w :
  plan_ready p → w ∈ waves (dispatch_plan p) → check_host_wave (execution_binding p) w = Ok tt.
Proof.
  intros [_ Hn _ _] Hw. unfold new_HostDispatchPlan in Hn. repeat step_ok Hn.
  match goal with Hc : check_host_waves _ _ = Ok ?u |- _ =>
    destruct u; by apply (proj1 (check_host_waves_Ok _ _) Hc) end.
Qed.

Lemma wrap_total p w :
  plan_ready p → w ∈ waves (dispatch_plan p) → ∃ rows, wrap_local_wave p w = Ok rows.
Proof.
  intros Hp Hw. pose proof (ready_host_wave p w Hp Hw) as Hc. destruct Hp as [_ Hn Hb Hws].
  destruct (Hws w Hw) as [Hnew _]. unfold new_HostDispatchPlan in Hn. do 2 step_ok Hn.
  unfold new_HostExecutionBinding in Hb. repeat step_ok Hb.
  unfold new_GpuDispatchWave in Hnew. step_ok Hnew. bools.
  unfold check_host_wave in Hc. repeat step_ok Hc.
  assert (Hd : ∀ name j, require_sha256 name (content_sha256 j) = Ok tt)
    by (intros; unfold require_sha256; by rewrite content_sha256_is_hash).
  assert (Hone : ∀ x c e, cache_root_for (execution_binding p) x = Ok c →
    evidence_root_for (execution_binding p) x = Ok e → ∃ r, wrap_assignment p w x = Ok r).
  { intros x c e Hc1 He1. unfold wrap_assignment. rewrite Hc1, He1.
    apply qualify_namespace with (name := "fleet cache root") in Hc1.
    apply qualify_namespace with (name := "fleet evidence root") in He1.
    unfold new_GpuFleetAssignment.
    cbn [fa_host_id fa_host_inventory_sha256 host_dispatch_plan_sha256
      fa_execution_binding_sha256 local_wave_index local_wave_sha256 fa_cache_root
      fa_evidence_root contention_domain require_all_sha256].
    rewrite Hc1, He1. unfold plan_sha256, execution_binding_sha256, wave_sha256.
    rewrite !Hd, E, E0, (proj2 (Z.ltb_ge _ _)) by done.
    match goal with Ht : require_text "contention_domain" _ = Ok _ |- _ => rewrite Ht end.
    by eexists. }
  assert (Hall : ∀ l cs es, mapR (cache_root_for (execution_binding p)) l = Ok cs →
    mapR (evidence_root_for (execution_binding p)) l = Ok es →
    ∃ rows, mapR (wrap_assignment p w) l = Ok rows).
  { induction l as [|x l IH]; intros cs es Hcs Hes; cbn [mapR] in *; [by exists []|].
    destruct (cache_root_for _ x) as [c|] eqn:Hc1; [|done].
    destruct (evidence_root_for _ x) as [e|] eqn:He1; [|done].
    destruct (Hone x c e Hc1 He1) as [r Hr]. rewrite Hr.
    step_ok Hcs. step_ok Hes. destruct (IH _ _ eq_refl eq_refl) as [rows Hrows].
    rewrite Hrows. by eexists. }
  by eapply Hall.
Qed.

Lemma wrapped_assignments p w l rows : Forall2 (wraps p w) l rows → map assignment rows = l.
Proof. induction 1 as [|a r l rows Hr _ IH]; [done|]. cbn. by rewrite (wr_assignment _ _ _ _ Hr), IH. Qed.
Lemma wrapped_row p w rows r :
  Forall2 (wraps p w) (assignments w) rows → r ∈ rows → wraps p w (assignment r) r.
Proof.
  intros Hf [i Hi]%list_elem_of_lookup.
  destruct (Forall2_lookup_r _ _ _ _ _ Hf Hi) as (a & _ & Hr).
  by rewrite (wr_assignment _ _ _ _ Hr).
Qed.
Lemma wrapped_roots (root_for : HostExecutionBinding → GpuAssignment → result string)
    (root : GpuFleetAssignment → string) p w rows roots :
  (∀ a r, wraps p w a r → root_for (execution_binding p) a = Ok (root r)) →
  Forall2 (wraps p w) (assignments w) rows →
  mapR (root_for (execution_binding p)) (assignments w) = Ok roots → map root rows = roots.
Proof.
  intros Hr Hf. revert roots. induction Hf as [|a r l rows Ha _ IH]; cbn [mapR]; intros roots H.
  - by injection H as <-.
  - rewrite (Hr _ _ Ha) in H. step_ok H. injection H as <-. cbn. by rewrite (IH _ eq_refl).
Qed.

Lemma wrapped_compatible p w rows :
  plan_ready p → w ∈ waves (dispatch_plan p) → Forall2 (wraps p w) (assignments w) rows →
  ForallOrdPairs compatible rows.
Proof.
  intros Hp Hw Hf. pose proof (ready_host_wave p w Hp Hw) as Hc.
  destruct (pr_waves _ Hp w Hw) as [Hnew Hok].
  unfold check_host_wave in Hc. repeat step_ok Hc. unfold unique_text in *. bools.
  match goal with Hca : mapR (cache_root_for _) _ = Ok ?cs, Hev : mapR (evidence_root_for _) _ = Ok ?es |- _ =>
    assert (Hcs : NoDup (map fa_cache_root rows))
      by (by rewrite (wrapped_roots cache_root_for fa_cache_root p w rows cs (wr_cache p w) Hf Hca));
    assert (Hes : NoDup (map fa_evidence_root rows))
      by (by rewrite (wrapped_roots evidence_root_for fa_evidence_root p w rows es (wr_evidence p w) Hf Hev))
  end.
  assert (Hiso : isolated (assignments w)).
  { apply first_conflict_isolated; [|exact Hok]. unfold new_GpuDispatchWave in Hnew.
    do 4 step_ok Hnew. by destruct (first_conflict no_use (assignments w)). }
  destruct Hiso as (Hg & Hpo & _). rewrite <- (wrapped_assignments _ _ _ _ Hf) in Hg, Hpo.
  pose proof (all_pairs_and _ _ _ (all_pairs_of_map _ _ _ (all_pairs_concat _ _ Hg))
    (all_pairs_and _ _ _ (all_pairs_of_map _ _ _ (all_pairs_concat _ _ Hpo))
      (all_pairs_and _ _ _ (all_pairs_map _ _ Hcs) (all_pairs_map _ _ Hes)))) as Hall.
  eapply all_pairs_impl; [|exact Hall]. intros x y Hx Hy (H1 & H2 & H3 & H4) _.
  pose proof (wr_identity _ _ _ _ (wrapped_row _ _ _ _ Hf Hx)) as Ix.
  pose proof (wr_identity _ _ _ _ (wrapped_row _ _ _ _ Hf Hy)) as Iy.
  rewrite Ix, Iy. done.
Qed.

Lemma wrapped_order p w rows :
  plan_ready p → w ∈ waves (dispatch_plan p) → Forall2 (wraps p w) (assignments w) rows →
  NoDup (map fleet_order rows) ∧ rows ≠ [].
Proof.
  intros Hp Hw Hf. destruct (pr_waves _ Hp w Hw) as [Hnew _]. unfold new_GpuDispatchWave in Hnew.
  do 4 step_ok Hnew. unfold unique_text in *. bools. split.
  - match goal with Hu : NoDup _ |- _ => rewrite <- (wrapped_assignments _ _ _ _ Hf), map_map in Hu;
      apply (NoDup_fmap_1 snd); change (NoDup (map snd (map fleet_order rows))) end.
    by rewrite map_map.
  - intros ->. inversion Hf as [Hn|]. rewrite <- Hn in *. done.
Qed.

(** ** One fleet wave *)
Definition turn_wave (index : Z) (rows : list GpuFleetAssignment) : GpuFleetDispatchWave :=
  {| fw_wave_index := index; fw_assignments := sorted_by fleet_order rows |}.

Lemma canonical_sorted rows : NoDup (map fleet_order rows) → canonical_rows (sorted_by fleet_order rows).
Proof.
  intros Hnd. split.
  - apply sorted_by_id. clear Hnd. pose proof (sorted_by_sorted fleet_order rows) as Hs.
    induction Hs as [|r l Hl IH Hr]; cbn; constructor; [exact IH|].
    apply Forall_map. exact Hr.
  - eapply NoDup_Permutation_proper; [|exact Hnd].
    apply (Permutation_map fleet_order), sorted_by_Permutation.
Qed.

Definition rows_in (h : string) (rows : list GpuFleetAssignment) : list GpuFleetAssignment :=
  filter (λ r, fa_host_id r = h) rows.
Lemma rows_in_other h rows : (∀ r, r ∈ rows → fa_host_id r ≠ h) → rows_in h rows = [].
Proof.
  intros Hn. unfold rows_in. induction rows as [|r rows IH]; [done|].
  rewrite filter_cons_False by (apply Hn; by left). apply IH. intros x Hx. apply Hn. by right.
Qed.
Lemma rows_in_all h rows : (∀ r, r ∈ rows → fa_host_id r = h) → rows_in h rows = rows.
Proof.
  intros Ha. unfold rows_in. induction rows as [|r rows IH]; [done|].
  rewrite filter_cons_True by (apply Ha; by left). f_equal. apply IH. intros x Hx. apply Ha. by right.
Qed.

Record sel_ok (sel : Selection) : Prop := {
  so_compatible : ForallOrdPairs compatible (selected sel);
  so_unique : NoDup (map fleet_order (selected sel));
  so_free : domain_free (selected sel);
  so_rows : ∀ r, r ∈ selected sel → fa_host_id r ∈ selected_hosts sel;
  so_hosts : NoDup (selected_hosts sel);
  so_filled : selected_hosts sel ≠ [] → selected sel ≠ [] }.

Lemma sel_ok_wave index sel :
  0 ≤ index → sel_ok sel → selected sel ≠ [] →
  new_GpuFleetDispatchWave (turn_wave index (selected sel)) = Ok (turn_wave index (selected sel)).
Proof.
  intros Hi [H1 H2 H3 _ _ _] Hne.
  pose proof (sorted_by_Permutation fleet_order (selected sel)) as Hp.
  destruct (fleet_wave_dec (turn_wave index (selected sel))) as [[H _]|[_ []]]; cbn.
  - done.
  - intros Hn. rewrite Hn in Hp. by apply Permutation_nil_l in Hp.
  - by apply canonical_sorted.
  - by eapply all_pairs_perm; [apply _|symmetry; exact Hp|].
  - exact H.
  - eapply domain_free_perm; [symmetry; exact Hp|exact H3].
Qed.

(** The next wave [lw] of [p] with its rows. *)
Definition next_rows (next : gmap string nat) (p : HostDispatchPlan) (rows : list GpuFleetAssignment)
    : Prop :=
  ∃ lw, next_wave next p = Some lw ∧ Forall2 (wraps p lw) (assignments lw) rows.
Definition joined (sel : Selection) (p : HostDispatchPlan) (rows : list GpuFleetAssignment)
    : Selection :=
  {| selected := selected sel ++ rows; selected_hosts := selected_hosts sel ++ [hp_host_id p] |}.

Lemma next_rows_host next p rows r : next_rows next p rows → r ∈ rows → fa_host_id r = hp_host_id p.
Proof. intros (lw & _ & Hf) Hr. apply (wr_host _ _ _ _ (wrapped_row _ _ _ _ Hf Hr)). Qed.

Lemma next_wave_in next p lw : next_wave next p = Some lw → lw ∈ waves (dispatch_plan p).
Proof. apply list_elem_of_lookup_2. Qed.

Lemma joined_pairs next sel p rows :
  plan_ready p → hp_host_id p ∉ selected_hosts sel → sel_ok sel → next_rows next p rows →
  ForallOrdPairs compatible (selected sel ++ rows) ∧
  NoDup (map fleet_order (selected sel ++ rows)) ∧ rows ≠ [].
Proof.
  intros Hp Hh [H1 H2 _ H4 _ _] Hn. pose proof Hn as (lw & Hw%next_wave_in & Hf).
  destruct (wrapped_order p lw rows Hp Hw Hf) as [Hnd Hne].
  assert (Hdiff : ∀ r r', r ∈ selected sel → r' ∈ rows → fa_host_id r ≠ fa_host_id r').
  { intros r r' Hr Hr' Heq. apply Hh. rewrite <- (next_rows_host _ _ _ _ Hn Hr'), <- Heq. by apply H4. }
  split; [|split; [|done]].
  - apply all_pairs_app. split; [done|]. split; [by eapply wrapped_compatible|].
    intros r r' Hr Hr' Heq. by destruct (Hdiff r r').
  - rewrite map_app. apply NoDup_app. split; [done|]. split; [|done].
    intros o (r & -> & Hr)%list_elem_of_fmap (r' & Heq & Hr')%list_elem_of_fmap.
    exact (Hdiff r r' Hr Hr' (f_equal fst Heq)).
Qed.

Lemma joined_ok next sel p rows :
  plan_ready p → hp_host_id p ∉ selected_hosts sel → sel_ok sel → next_rows next p rows →
  domain_free (selected sel ++ rows) → sel_ok (joined sel p rows).
Proof.
  intros Hp Hh Hs Hn Hfree. destruct (joined_pairs _ _ _ _ Hp Hh Hs Hn) as (Hc & Hu & Hne).
  destruct Hs as [_ _ _ H4 H5 _]. split; unfold joined; cbn [selected selected_hosts]; [done..| | |].
  - intros r [Hr|Hr]%elem_of_app; apply elem_of_app; [left; by apply H4|right].
    rewrite (next_rows_host _ _ _ _ Hn Hr). apply list_elem_of_here.
  - apply NoDup_app. split; [done|]. split; [|apply NoDup_singleton].
    by intros x Hx ->%list_elem_of_singleton.
  - intros _. by destruct (selected sel), rows.
Qed.

(** A host alone never conflicts with its domain. *)
Lemma alone_free next p rows : next_rows next p rows → domain_free rows.
Proof.
  intros Hn r r1 r2 _ Hr1 Hr2 _ _ _.
  by rewrite (next_rows_host _ _ _ _ Hn Hr1), (next_rows_host _ _ _ _ Hn Hr2).
Qed.

Lemma offer_host_spec index next sel p :
  0 ≤ index → plan_ready p → hp_host_id p ∉ selected_hosts sel → sel_ok sel →
  ∃ sel', offer_host index next sel p = Ok sel' ∧ sel_ok sel' ∧
    ((sel' = sel ∧ (next_wave next p = None ∨ selected sel ≠ [])) ∨
     ∃ rows, next_rows next p rows ∧ sel' = joined sel p rows).
Proof.
  intros Hi Hp Hh Hs. unfold offer_host. destruct (next_wave next p) as [lw|] eqn:E.
  2:{ exists sel. split; [done|]. split; [done|]. left. split; [done|by left]. }
  destruct (wrap_total p lw Hp (next_wave_in _ _ _ E)) as [rows Hrows]. rewrite Hrows.
  assert (Hn : next_rows next p rows) by (exists lw; split; [done|by apply wrap_Ok]).
  fold (turn_wave index (selected sel ++ rows)).
  destruct (joined_pairs _ _ _ _ Hp Hh Hs Hn) as (Hc & Hu & Hne).
  pose proof (sorted_by_Permutation fleet_order (selected sel ++ rows)) as Hperm.
  destruct (fleet_wave_dec (turn_wave index (selected sel ++ rows))) as [[H Hf]|[H Hf]].
  - done.
  - cbn. intros Hnil. rewrite Hnil in Hperm. apply Permutation_nil_l in Hperm.
    by destruct (selected sel), rows.
  - by apply canonical_sorted.
  - by eapply all_pairs_perm; [apply _|symmetry; exact Hperm|].
  - rewrite H. exists (joined sel p rows). split; [done|]. split; [|right; by exists rows].
    eapply joined_ok; [done..|]. eapply domain_free_perm; [exact Hperm|exact Hf].
  - rewrite H. exists sel. split; [done|]. split; [done|]. left. split; [done|]. right.
    intros He. apply Hf. eapply domain_free_perm; [symmetry; exact Hperm|].
    rewrite He. by eapply alone_free.
Qed.

Lemma rows_in_app h l1 l2 : rows_in h (l1 ++ l2) = rows_in h l1 ++ rows_in h l2.
Proof. apply filter_app. Qed.

(** The inner loop over hosts not yet selected. *)
Lemma offer_hosts_spec index next sel plans :
  0 ≤ index → Forall plan_ready plans → NoDup (map hp_host_id plans) →
  (∀ p, p ∈ plans → hp_host_id p ∉ selected_hosts sel) → sel_ok sel →
  ∃ sel', offer_hosts index next sel plans = Ok sel' ∧ sel_ok sel' ∧
    (∀ h, h ∈ selected_hosts sel' → h ∈ selected_hosts sel ∨ ∃ p, p ∈ plans ∧ hp_host_id p = h) ∧
    (∀ h, (∀ p, p ∈ plans → hp_host_id p ≠ h) →
       rows_in h (selected sel') = rows_in h (selected sel) ∧
       (h ∈ selected_hosts sel' ↔ h ∈ selected_hosts sel)) ∧
    (∀ p, p ∈ plans → hp_host_id p ∈ selected_hosts sel' →
       next_rows next p (rows_in (hp_host_id p) (selected sel'))) ∧
    (selected sel ≠ [] ∨ (∃ p, p ∈ plans ∧ next_wave next p ≠ None) → selected sel' ≠ []).
Proof.
  intros Hi Hp. revert sel. induction Hp as [|p plans Hr Hp IH]; intros sel Hnd Hfresh Hs.
  { exists sel. split; [done|]. split; [done|]. split; [by left|]. split; [done|].
    split; [by intros ? ?%elem_of_nil|]. intros [H|(p & ?%elem_of_nil & _)]; done. }
  cbn [offer_hosts]. apply NoDup_cons in Hnd as [Hnp Hnd].
  assert (Hnp' : ∀ q, q ∈ plans → hp_host_id q ≠ hp_host_id p).
  { intros q Hq Heq. apply Hnp. rewrite <- Heq. by apply list_elem_of_fmap_2. }
  destruct (offer_host_spec index next sel p Hi Hr (Hfresh p (list_elem_of_here _ _)) Hs)
    as (sel1 & Ho & Hs1 & Hcase). rewrite Ho.
  assert (Hf1 : ∀ q, q ∈ plans → hp_host_id q ∉ selected_hosts sel1).
  { intros q Hq. pose proof (Hfresh q (list_elem_of_further _ _ _ Hq)) as Hq'.
    destruct Hcase as [[-> _]|(rows & _ & ->)]; [done|]. cbn.
    intros [?|?%list_elem_of_singleton]%elem_of_app; [done|]. by apply (Hnp' q). }
  destruct (IH sel1 Hnd Hf1 Hs1) as (sel' & Hos & Hs' & Hin & Hstay & Htook & Hfill).
  exists sel'. split; [done|]. split; [done|]. split; [|split; [|split]].
  - intros h [Hh|(q & Hq & <-)]%Hin; [|right; exists q; split; [by right|done]].
    destruct Hcase as [[-> _]|(rows & _ & ->)]; [by left|].
    apply elem_of_app in Hh as [?| ->%list_elem_of_singleton]; [by left|right].
    exists p. split; [by left|done].
  - intros h Hh. destruct (Hstay h) as [H1 H2]; [intros q Hq; apply Hh; by right|].
    rewrite H1, H2. destruct Hcase as [[-> _]|(rows & Hn & ->)]; [done|].
    cbn [joined selected selected_hosts]. rewrite rows_in_app, (rows_in_other _ rows), app_nil_r.
    2:{ intros r Hr'. rewrite (next_rows_host _ _ _ _ Hn Hr'). apply Hh. by left. }
    split; [done|]. rewrite elem_of_app, list_elem_of_singleton. split; [|by left].
    intros [?| ->]; [done|]. exfalso. by apply (Hh p (list_elem_of_here _ _)).
  - intros q [->|Hq]%elem_of_cons Hin'; [|by apply Htook].
    destruct (Hstay (hp_host_id p) Hnp') as [H1 H2]. rewrite H1. apply H2 in Hin'.
    destruct Hcase as [[-> _]|(rows & Hn & ->)].
    + destruct (Hfresh p (list_elem_of_here _ _) Hin').
    + cbn [joined selected]. rewrite rows_in_app, (rows_in_other _ (selected sel)), app_nil_l.
      2:{ intros r Hr' Heq. apply (Hfresh p (list_elem_of_here _ _)). rewrite <- Heq.
          by apply (so_rows _ Hs). }
      by rewrite rows_in_all by (intros; by eapply next_rows_host).
  - intros Hne. apply Hfill. destruct Hcase as [[-> Hw]|(rows & Hn & ->)].
    + destruct Hne as [Hne|(q & [->|Hq]%elem_of_cons & Hq')]; [by left| |right; by exists q].
      destruct Hw as [Hw|Hw]; [done|by left].
    + left. apply (so_filled _ Hs1). cbn. by destruct (selected_hosts sel).
Qed.

Lemma advance_spec next hs h :
  NoDup hs → default 0%nat (advance next hs !! h) =
    if decide (h ∈ hs) then S (default 0%nat (next !! h)) else default 0%nat (next !! h).
Proof.
  unfold advance. revert next. induction hs as [|h' hs IH]; intros next Hnd; cbn [foldl].
  { by rewrite decide_False by apply not_elem_of_nil. }
  apply NoDup_cons in Hnd as [Hn Hnd]. rewrite IH by done. destruct (decide (h = h')) as [->|Hne].
  - rewrite decide_False, (decide_True (P := h' ∈ h' :: hs)) by (done || left). by rewrite lookup_insert_eq.
  - rewrite lookup_insert_ne by done. destruct (decide (h ∈ hs)) as [Hin|Hin].
    + rewrite decide_True; [done|by right].
    + rewrite decide_False; [done|by intros [->|?]%elem_of_cons].
Qed.

(** What a turn of the outer loop does for one host. *)
Definition turn (next : gmap string nat) (w : GpuFleetDispatchWave) (next' : gmap string nat)
    (p : HostDispatchPlan) : Prop :=
  (∃ rows, next_rows next p rows ∧ rows_in (hp_host_id p) (fw_assignments w) ≡ₚ rows ∧
     next_of next' p = S (next_of next p)) ∨
  (rows_in (hp_host_id p) (fw_assignments w) = [] ∧ next_of next' p = next_of next p).

Lemma ready_hosts plans :
  Forall plan_ready plans →
  existsb (λ p, negb (bool_decide (hp_host_id p ∈ host_ids s))) plans = false.
Proof.
  intros Hp. apply not_true_is_false. intros (p & Hin%list_elem_of_In & Hn)%existsb_exists.
  rewrite Forall_forall in Hp. by rewrite (bool_decide_eq_true_2 _ (pr_host _ (Hp p Hin))) in Hn.
Qed.

Lemma rows_in_empty rows : (∀ h, rows_in h rows = []) → rows = [].
Proof.
  destruct rows as [|r rows]; [done|]. intros H. specialize (H (fa_host_id r)).
  unfold rows_in in H. by rewrite filter_cons_True in H by done.
Qed.

Lemma compose_one_spec plans index next :
  0 ≤ index → Forall plan_ready plans → NoDup (map hp_host_id plans) →
  (∃ p, p ∈ plans ∧ next_wave next p ≠ None) →
  ∃ w next', compose_one s plans index next = Ok (w, next') ∧
    new_GpuFleetDispatchWave w = Ok w ∧ fw_wave_index w = index ∧
    (∀ r, r ∈ fw_assignments w → ∃ p, p ∈ plans ∧ fa_host_id r = hp_host_id p) ∧
    (∀ p, p ∈ plans → turn next w next' p) ∧
    (∃ p, p ∈ plans ∧ next_wave next p ≠ None ∧ next_of next' p = S (next_of next p)).
Proof.
  intros Hi Hp Hnd Hsome. unfold compose_one. rewrite ready_hosts by done.
  set (key := host_turn s (wave_rotation s index (zlength plans))).
  pose proof (sorted_by_Permutation key plans) as Hperm.
  assert (Hempty : sel_ok {| selected := []; selected_hosts := [] |}).
  { split; cbn; [constructor|constructor|by intros ? ? ? ?%elem_of_nil|by intros ? ?%elem_of_nil|
      constructor|done]. }
  destruct (offer_hosts_spec index next {| selected := []; selected_hosts := [] |}
    (sorted_by key plans) Hi) as (sel & Ho & Hs & Hin & _ & Htook & Hfill);
    [by rewrite Hperm|by rewrite Hperm|intros p _; apply not_elem_of_nil|exact Hempty|].
  assert (Hne : selected sel ≠ []).
  { apply Hfill. right. destruct Hsome as (p & Hpin & Hw). exists p. by rewrite Hperm. }
  rewrite Ho, bool_decide_eq_false_2 by done. fold (turn_wave index (selected sel)).
  rewrite (sel_ok_wave index sel Hi Hs Hne).
  pose proof (sorted_by_Permutation fleet_order (selected sel)) as Hrows.
  exists (turn_wave index (selected sel)), (advance next (selected_hosts sel)).
  split; [done|]. split; [by apply sel_ok_wave|]. split; [done|].
  assert (Hslice : ∀ h, rows_in h (fw_assignments (turn_wave index (selected sel)))
    ≡ₚ rows_in h (selected sel)) by (intros h; unfold rows_in; cbn; by rewrite Hrows).
  assert (Hturn : ∀ p, p ∈ plans → turn next (turn_wave index (selected sel))
    (advance next (selected_hosts sel)) p).
  { intros p Hpin. unfold turn, next_of. rewrite advance_spec by apply Hs.
    destruct (decide (hp_host_id p ∈ selected_hosts sel)) as [Hh|Hh]; [left|right].
    - exists (rows_in (hp_host_id p) (selected sel)). split; [|by split].
      apply Htook; [by rewrite Hperm|done].
    - split; [|done]. apply Permutation_nil_r. rewrite Hslice. apply Permutation_refl'.
      apply rows_in_other. intros r Hr Heq. apply Hh. rewrite <- Heq. by apply (so_rows _ Hs). }
  split; [|split; [exact Hturn|]].
  - intros r Hr. cbn in Hr. rewrite Hrows in Hr. apply (so_rows _ Hs) in Hr.
    destruct (Hin _ Hr) as [?%elem_of_nil|(p & Hpin & Heq)]; [done|].
    exists p. rewrite Hperm in Hpin. by split.
  - destruct (selected_hosts sel) as [|h hs] eqn:Eh.
    { exfalso. destruct (selected sel) as [|r rows] eqn:Er; [done|].
      pose proof (so_rows _ Hs r) as Hr. rewrite Er, Eh in Hr.
      by specialize (Hr (list_elem_of_here _ _)) as ?%elem_of_nil. }
    rewrite <- Eh in *. assert (Hh : h ∈ selected_hosts sel) by (rewrite Eh; left).
    destruct (Hin _ Hh) as [?%elem_of_nil|(p & Hpin & Heq)]; [done|].
    exists p. rewrite Hperm in Hpin. split; [done|].
    rewrite <- Heq in Hh. split.
    + destruct (Htook p) as (lw & Hw & _); [by rewrite Hperm|done|]. by rewrite Hw.
    + unfold next_of. rewrite advance_spec by apply Hs. by rewrite decide_True.
Qed.

(** ** The outer loop *)

(** The rows are those of the local wave [lw]. *)
Definition runs (p : HostDispatchPlan) (lw : GpuDispatchWave) (rows : list GpuFleetAssignment) : Prop :=
  ∃ wrapped, Forall2 (wraps p lw) (assignments lw) wrapped ∧ rows ≡ₚ wrapped.
(** The rows of one host, fleet wave by fleet wave. *)
Definition host_slices (h : string) (ws : list GpuFleetDispatchWave) : list (list GpuFleetAssignment) :=
  filter (λ rows, rows ≠ []) (map (λ w, rows_in h (fw_assignments w)) ws).

(** Every host runs its remaining local waves in order, each of them whole and
    in one fleet wave, and nothing else runs. *)
Record composed (plans : list HostDispatchPlan) (index : Z) (next : gmap string nat)
    (ws : list GpuFleetDispatchWave) : Prop := {
  cm_indexes : map fw_wave_index ws = seqZ index (zlength ws);
  cm_valid : ∀ w, w ∈ ws → new_GpuFleetDispatchWave w = Ok w;
  cm_rows : ∀ w r, w ∈ ws → r ∈ fw_assignments w → ∃ p, p ∈ plans ∧ fa_host_id r = hp_host_id p;
  cm_slices : ∀ p, p ∈ plans →
    Forall2 (runs p) (drop (next_of next p) (waves (dispatch_plan p))) (host_slices (hp_host_id p) ws) }.

Definition waves_left (next : gmap string nat) (plans : list HostDispatchPlan) : nat :=
  foldr (λ p n, length (waves (dispatch_plan p)) - next_of next p + n)%nat 0%nat plans.

Lemma waves_left_decreases next next' plans :
  (∀ p, p ∈ plans → (next_of next p ≤ next_of next' p)%nat) →
  (∃ p, p ∈ plans ∧ next_wave next p ≠ None ∧ next_of next' p = S (next_of next p)) →
  (waves_left next' plans < waves_left next plans)%nat.
Proof.
  assert (Hle : ∀ l, (∀ p, p ∈ l → (next_of next p ≤ next_of next' p)%nat) →
    (waves_left next' l ≤ waves_left next l)%nat).
  { unfold waves_left. induction l as [|p l IH]; cbn [foldr]; intros H; [lia|].
    pose proof (H p (list_elem_of_here _ _)). specialize (IH (λ q Hq, H q (list_elem_of_further _ _ _ Hq))). lia. }
  induction plans as [|q plans IH]; intros H (p & Hin & Hw & Hn); [by apply elem_of_nil in Hin|].
  pose proof (H q (list_elem_of_here _ _)).
  assert (Hcons : ∀ n, waves_left n (q :: plans) =
    (length (waves (dispatch_plan q)) - next_of n q + waves_left n plans)%nat) by done.
  rewrite !Hcons. assert (Hq : ∀ p, p ∈ plans → (next_of next p ≤ next_of next' p)%nat) by (intros; apply H; by right).
  apply elem_of_cons in Hin as [->|Hin].
  - pose proof (Hle plans Hq). unfold next_wave in Hw. apply not_eq_None_Some, lookup_lt_is_Some in Hw. lia.
  - assert (waves_left next' plans < waves_left next plans)%nat by (apply IH; [done|by exists p]). lia.
Qed.

Lemma turn_wave_nonempty next p rows :
  plan_ready p → next_rows next p rows → rows ≠ [].
Proof. intros Hp (lw & Hw%next_wave_in & Hf). by destruct (wrapped_order p lw rows Hp Hw Hf). Qed.

Lemma composed_step plans index next w next' ws :
  0 ≤ index → Forall plan_ready plans → new_GpuFleetDispatchWave w = Ok w → fw_wave_index w = index →
  (∀ r, r ∈ fw_assignments w → ∃ p, p ∈ plans ∧ fa_host_id r = hp_host_id p) →
  (∀ p, p ∈ plans → turn next w next' p) → composed plans (index + 1) next' ws →
  composed plans index next (w :: ws).
Proof.
  intros Hi Hp Hw Hx Hr Ht [H1 H2 H3 H4]. split.
  - unfold zlength. cbn [map length]. rewrite Hx, H1, Nat2Z.inj_succ, (seqZ_cons index) by lia.
    unfold zlength. f_equal. f_equal; lia.
  - intros w' [->|Hw']%elem_of_cons; [done|by apply H2].
  - intros w' r [->|Hw']%elem_of_cons Hin; [by apply Hr|by eapply H3].
  - intros p Hin. unfold host_slices. cbn [map]. rewrite Forall_forall in Hp.
    destruct (Ht p Hin) as [(rows & Hn & Hperm & Hnext)|[Hnil Hnext]].
    + pose proof Hn as (lw & Hlw & Hf).
      assert (Hne : rows ≠ []) by (apply (turn_wave_nonempty next p); [by apply Hp|done]).
      rewrite filter_cons_True.
      2:{ intros Hn'. rewrite Hn' in Hperm. by apply Permutation_nil_l in Hperm. }
      rewrite (drop_S _ lw) by exact Hlw. constructor; [by exists rows|].
      rewrite <- Hnext. by apply H4.
    + rewrite filter_cons_False by (intros Hn'; by apply Hn'). rewrite <- Hnext. by apply H4.
Qed.

Lemma compose_loop_total fuel plans index next :
  0 ≤ index → Forall plan_ready plans → NoDup (map hp_host_id plans) →
  (waves_left next plans ≤ fuel)%nat →
  ∃ ws, compose_loop s fuel plans index next = Some (Ok ws) ∧ composed plans index next ws.
Proof.
  intros Hi Hp Hnd. revert index next Hi. induction fuel as [|fuel IH]; intros index next Hi Hfuel;
    cbn [compose_loop]; destruct (forallb _ plans) eqn:Edone.
  1, 3: exists []; split; [done|]; split; [done|by intros ? ?%elem_of_nil|
    by intros ? ? ?%elem_of_nil|]; intros p Hin; rewrite forallb_elem_of in Edone;
    apply Edone in Hin as Hw; apply bool_decide_eq_true_1, lookup_ge_None in Hw;
    rewrite drop_ge by done; constructor.
  all: assert (Hsome : ∃ p, p ∈ plans ∧ next_wave next p ≠ None)
    by (apply not_true_iff_false in Edone; rewrite forallb_elem_of in Edone;
        destruct (decide (Exists (λ p, next_wave next p ≠ None) plans)) as [He|He];
        [by apply Exists_exists in He|];
        destruct Edone; intros p Hin; apply bool_decide_eq_true_2;
        destruct (decide (next_wave next p = None)); [done|]; destruct He; apply Exists_exists; by exists p);
    destruct (compose_one_spec plans index next Hi Hp Hnd Hsome)
      as (w & next' & Hone & Hw & Hx & Hr & Ht & Hadv);
    pose proof (waves_left_decreases next next' plans) as Hdec;
    assert (Hlt : (waves_left next' plans < waves_left next plans)%nat)
      by (apply Hdec; [|exact Hadv]; intros p Hin;
          destruct (Ht p Hin) as [(rows & _ & _ & Hn)|[_ Hn]]; lia).
  - lia.
  - rewrite Hone. destruct (IH (index + 1) next') as (ws & Hws & Hc); [lia|lia|].
    rewrite Hws. exists (w :: ws). split; [done|]. by eapply composed_step.
Qed.

Lemma waves_left_start plans : waves_left ∅ plans = local_wave_count plans.
Proof.
  unfold local_wave_count. induction plans as [|p plans IH]; [done|].
  unfold waves_left in *. cbn [foldr]. rewrite IH. unfold next_of. rewrite lookup_empty. cbn. lia.
Qed.

(** What a whole composition guarantees. *)
Record fleet_composed (plans : list HostDispatchPlan) (ws : list GpuFleetDispatchWave) : Prop := {
  fc_hosts : NoDup (map hp_host_id plans);
  fc_valid : ∀ w, w ∈ ws → new_GpuFleetDispatchWave w = Ok w;
  fc_rows : ∀ r, r ∈ fleet_assignments ws → ∃ p, p ∈ plans ∧ fa_host_id r = hp_host_id p;
  fc_slices : ∀ p, p ∈ plans →
    Forall2 (runs p) (waves (dispatch_plan p)) (host_slices (hp_host_id p) ws) }.

Lemma compose_composed plans :
  Forall plan_ready plans → NoDup (map hp_host_id plans) →
  ∃ ws, compose_fleet_waves s plans = Ok ws ∧ map fw_wave_index ws = seqZ 0 (zlength ws) ∧
    fleet_composed plans ws.
Proof.
  intros Hp Hnd. unfold compose_fleet_waves.
  destruct (compose_loop_total (local_wave_count plans) plans 0 ∅) as (ws & Hws & [H1 H2 H3 H4]);
    [lia|done..|by rewrite waves_left_start|].
  rewrite Hws. exists ws. split; [done|]. split; [done|]. split; [done|done| |].
  - intros r Hr%list_elem_of_In%in_concat. destruct Hr as (rows & Hrows & Hr).
    apply list_elem_of_In, list_elem_of_fmap in Hrows as (w & -> & Hw).
    apply (H3 w r Hw). by apply list_elem_of_In.
  - intros p Hin. specialize (H4 p Hin). unfold next_of in H4. by rewrite lookup_empty in H4.
Qed.

(** C17. Composition always ends and loses nothing.  For plans of distinct hosts
    built by the pool scheduler, [_compose_fleet_waves] returns (the number of
    local waves is enough fuel, and "no progress" is never raised): the fleet
    waves are valid and numbered from 0, every host runs its local waves in
    order, each whole and in exactly one fleet wave, and nothing else runs. *)
Theorem compose_total plans :
  Forall plan_ready plans → NoDup (map hp_host_id plans) →
  ∃ ws, compose_fleet_waves s plans = Ok ws ∧
    map fw_wave_index ws = seqZ 0 (zlength ws) ∧
    (∀ w, w ∈ ws → new_GpuFleetDispatchWave w = Ok w) ∧
    (∀ r, r ∈ fleet_assignments ws → ∃ p, p ∈ plans ∧ fa_host_id r = hp_host_id p) ∧
    (∀ p, p ∈ plans → Forall2 (runs p) (waves (dispatch_plan p)) (host_slices (hp_host_id p) ws)).
Proof.
  intros Hp Hnd. destruct (compose_composed plans Hp Hnd) as (ws & H1 & H2 & [_ H3 H4 H5]).
  by exists ws.
Qed.
End compose.
