(* ===== verification/FleetSafety.v ===== *)
(** * Safety of fleet plans

    A plan that the fleet scheduler returns runs every work item exactly once,
    keeps every affinity group on one host, and never runs two assignments on one
    physical GPU of the fleet at the same time; after the hosts are planned
    nothing can fail. *)
From S2P Require Import Prelude PyFloat FloatRepr Hashlib Registry GpuPool Scheduler PoolSafety.
From S2P Require Import Execution Fleet FleetScheduler FleetReceipts FleetWaves FleetCompose.

(** ** Lists *)
Lemma NoDup_remove_dups_sorted (l : list string) : NoDup (sorted_by (λ k, k) (remove_dups l)).
Proof. rewrite sorted_by_Permutation. apply NoDup_remove_dups. Qed.

(** Elements gathered by a key that ranges over a list of keys. *)
Lemma gather_by_key {A} (key : A → string) (ks : list string) (l : list A) :
  NoDup ks → (∀ x, x ∈ l → key x ∈ ks) →
  concat (map (λ k, filter (λ x, key x = k) l) ks) ≡ₚ l.
Proof.
  intros Hnd. revert l. induction ks as [|k ks IH]; intros l Hk; cbn [map concat].
  { destruct l as [|x l]; [done|]. by specialize (Hk x (list_elem_of_here _ _)) as ?%elem_of_nil. }
  apply NoDup_cons in Hnd as [Hn Hnd].
  rewrite <- (filter_app_complement (λ x, key x = k) l) at 2. apply Permutation_app_head.
  rewrite <- (IH Hnd (filter (λ x, key x ≠ k) l)).
  - apply Permutation_refl'. f_equal. apply list_fmap_ext. intros i k' Hi.
    apply list_elem_of_lookup_2 in Hi. rewrite list_filter_filter.
    apply list_filter_iff. intros x. split; [|by intros [? _]]. intros Hx. split; [done|].
    intros Hx'. apply Hn. by rewrite <- Hx', Hx.
  - intros x [Hx Hin]%list_elem_of_filter. specialize (Hk x Hin).
    by apply elem_of_cons in Hk as [?|?].
Qed.

(** ** Groups *)
Lemma fleet_groups_items items : concat (map snd (fleet_groups items)) ≡ₚ items.
Proof.
  unfold fleet_groups. rewrite map_map. cbn [snd].
  set (ks := sorted_by (λ k, k) (remove_dups (map fleet_group_key items))).
  transitivity (concat (map (λ k, filter (λ x, fleet_group_key x = k) items) ks)).
  - unfold fleet_group. induction ks as [|k ks IH]; [done|]. cbn [map concat].
    by rewrite IH, sorted_by_Permutation.
  - apply gather_by_key; [apply NoDup_remove_dups_sorted|]. intros x Hx. unfold ks. apply elem_of_sorted_by, elem_of_remove_dups.
    by apply list_elem_of_fmap_2.
Qed.

Lemma fleet_group_member items k g i :
  (k, g) ∈ fleet_groups items → i ∈ g ↔ i ∈ items ∧ fleet_group_key i = k.
Proof.
  intros (k' & [= <- ->] & _)%list_elem_of_fmap. unfold fleet_group.
  rewrite elem_of_sorted_by, list_elem_of_filter. naive_solver.
Qed.
Lemma fleet_group_of items i :
  i ∈ items → ∃ g, (fleet_group_key i, g) ∈ fleet_groups items ∧ i ∈ g.
Proof.
  intros Hi. exists (fleet_group items (fleet_group_key i)).
  assert (Hin : (fleet_group_key i, fleet_group items (fleet_group_key i)) ∈ fleet_groups items).
  { unfold fleet_groups. apply list_elem_of_fmap. exists (fleet_group_key i). split; [done|].
    apply elem_of_sorted_by, elem_of_remove_dups. by apply list_elem_of_fmap_2. }
  split; [done|]. by apply (fleet_group_member _ _ _ _ Hin).
Qed.

(** The groups do not depend on the order of the items. *)
Lemma fleet_groups_perm items items' :
  NoDup (map item_id items) → items ≡ₚ items' → fleet_groups items = fleet_groups items'.
Proof.
  intros Hnd Hp. unfold fleet_groups.
  assert (Hk : sorted_by (λ k, k) (remove_dups (map fleet_group_key items)) =
    sorted_by (λ k, k) (remove_dups (map fleet_group_key items'))).
  { apply sorted_by_unique; [by intros x y _ _ ->%pycmp_eq|].
    apply NoDup_Permutation; [apply NoDup_remove_dups..|]. intros k.
    rewrite !elem_of_remove_dups. by rewrite Hp. }
  rewrite Hk. apply list_fmap_ext. intros i k _. f_equal. unfold fleet_group.
  apply sorted_by_unique; [|by rewrite Hp].
  intros x y [_ Hx]%list_elem_of_filter [_ Hy]%list_elem_of_filter Heq%pycmp_eq.
  apply list_elem_of_lookup in Hx as [m Hm], Hy as [n Hn].
  assert (m = n) as ->.
  { eapply NoDup_lookup; [exact Hnd|..]; by rewrite list_lookup_fmap, ?Hm, ?Hn; cbn; rewrite ?Heq. }
  congruence.
Qed.

(** ** Placement *)
Section placement.
Context `{ReleaseGate} (s : GpuFleetScheduler).

Definition items_on (p : FleetPlacement) (h : string) : list PoolWorkItem :=
  default [] (items_by_host p !! h).
Definition placed_items (p : FleetPlacement) : list PoolWorkItem :=
  concat (map (items_on p) (host_ids s)).

Lemma feasible_hosts_Ok acc hs feasible h :
  feasible_hosts acc hs = Ok feasible → h ∈ feasible → h ∈ hs ∧ acc h = Ok true.
Proof.
  revert feasible. induction hs as [|h' hs IH]; cbn; intros feasible Hf Hin.
  { injection Hf as <-. by apply elem_of_nil in Hin. }
  destruct (acc h') as [ok|] eqn:E; [|done].
  destruct (feasible_hosts acc hs) as [rest|]; [|done]. injection Hf as <-.
  destruct ok.
  - apply elem_of_cons in Hin as [->|Hin]; [split; [by left|done]|].
    destruct (IH _ eq_refl Hin). split; [by right|done].
  - destruct (IH _ eq_refl Hin). split; [by right|done].
Qed.

Lemma place_group_Ok acc p k g p' :
  place_group s acc p k g = Ok p' →
  ∃ h, h ∈ host_ids s ∧ acc g h = Ok true ∧
    items_on p' h = items_on p h ++ g ∧ ∀ h', h' ≠ h → items_on p' h' = items_on p h'.
Proof.
  unfold place_group. intros Hp. step_ok Hp. destruct (min_by _ _) as [h|] eqn:Em.
  2:{ repeat step_ok Hp. done. }
  step_ok Hp. injection Hp as <-. apply min_by_Some in Em as [Hin _].
  destruct (feasible_hosts_Ok _ _ _ _ E Hin) as [Hh Ha]. exists h. split; [done|].
  split; [done|]. unfold items_on. cbn [items_by_host]. split.
  - by rewrite lookup_insert_eq.
  - intros h' Hne. by rewrite lookup_insert_ne.
Qed.

Lemma placed_items_step p p' h g (hs : list string) :
  NoDup hs → h ∈ hs → items_on p' h = items_on p h ++ g →
  (∀ h', h' ≠ h → items_on p' h' = items_on p h') →
  concat (map (items_on p') hs) ≡ₚ concat (map (items_on p) hs) ++ g.
Proof.
  intros Hnd Hin Hh Hother. induction hs as [|x hs IH]; [by apply elem_of_nil in Hin|].
  apply NoDup_cons in Hnd as [Hn Hnd]. cbn [map concat].
  destruct (decide (x = h)) as [->|Hne].
  - rewrite Hh. assert (map (items_on p') hs = map (items_on p) hs) as ->.
    { apply list_fmap_ext. intros i h' Hi. apply Hother. intros ->. apply Hn.
      by eapply list_elem_of_lookup_2. }
    by rewrite <- !app_assoc, (Permutation_app_comm g).
  - apply elem_of_cons in Hin as [?|Hin]; [by subst|]. rewrite Hother by done.
    by rewrite (IH Hnd Hin), app_assoc.
Qed.

Lemma place_groups_Ok acc p groups p' :
  NoDup (host_ids s) → place_groups s acc p groups = Ok p' →
  placed_items p' ≡ₚ placed_items p ++ concat (map snd groups) ∧
  (∀ h i, i ∈ items_on p h → i ∈ items_on p' h) ∧
  (∀ k g, (k, g) ∈ groups → ∃ h, h ∈ host_ids s ∧ acc g h = Ok true ∧ ∀ i, i ∈ g → i ∈ items_on p' h).
Proof.
  intros Hnd. revert p. induction groups as [|[k g] groups IH]; intros p Hp; cbn [place_groups] in Hp.
  { injection Hp as <-. cbn. rewrite app_nil_r. split; [done|]. split; [done|].
    by intros ? ? ?%elem_of_nil. }
  destruct (place_group s acc p k g) as [p1|] eqn:E; [|done].
  destruct (place_group_Ok _ _ _ _ _ E) as (h & Hin & Ha & Hh & Hother).
  destruct (IH p1 Hp) as (H1 & H2 & H3).
  assert (Hmono : ∀ h' i, i ∈ items_on p h' → i ∈ items_on p1 h').
  { intros h' i Hi. destruct (decide (h' = h)) as [->|Hne]; [|by rewrite Hother].
    rewrite Hh. apply elem_of_app. by left. }
  split; [|split].
  - rewrite H1. cbn [map snd concat]. rewrite app_assoc. apply Permutation_app_tail.
    by apply (placed_items_step p p1 h g).
  - intros h' i Hi. by apply H2, Hmono.
  - intros k' g' [[= -> ->]|Hin']%elem_of_cons; [|by apply (H3 k')].
    exists h. split; [done|]. split; [done|]. intros i Hi. apply H2. rewrite Hh.
    apply elem_of_app. by right.
Qed.

Lemma empty_placement_items p : p = empty_placement s → ∀ h, items_on p h = [].
Proof.
  intros -> h. unfold items_on, empty_placement. cbn [items_by_host].
  destruct (_ !! h) as [l|] eqn:E; [|done]. apply elem_of_list_to_map_2 in E.
  by apply list_elem_of_fmap in E as (h' & [= _ ->] & _).
Qed.
Lemma empty_placed : placed_items (empty_placement s) = [].
Proof.
  unfold placed_items. induction (host_ids s) as [|h hs IH]; [done|]. cbn [map concat].
  by rewrite (empty_placement_items _ eq_refl), IH.
Qed.

(** What the placement of the groups of [items] guarantees. *)
Record placement_sound (acc : list PoolWorkItem → string → result bool) (items : list PoolWorkItem)
    (p : FleetPlacement) : Prop := {
  ps_all : placed_items p ≡ₚ items;
  ps_group : ∀ i j, i ∈ items → j ∈ items → fleet_group_key i = fleet_group_key j →
    ∃ h, h ∈ host_ids s ∧ i ∈ items_on p h ∧ j ∈ items_on p h;
}.
Lemma fleet_placement_sound acc items p :
  NoDup (host_ids s) → place_groups s acc (empty_placement s) (fleet_groups items) = Ok p →
  placement_sound acc items p.
Proof.
  intros Hnd Hp. destruct (place_groups_Ok _ _ _ _ Hnd Hp) as (H1 & _ & H3). split.
  - by rewrite H1, empty_placed, app_nil_l, fleet_groups_items.
  - intros i j Hi Hj Hk. destruct (fleet_group_of items i Hi) as (g & Hg & Hig).
    destruct (H3 _ _ Hg) as (h & Hh & _ & Hall). exists h. split; [done|].
    split; apply Hall; [done|]. by apply (fleet_group_member _ _ _ _ Hg).
Qed.

(** An item is on one host only. *)
Lemma placed_once p h h' i :
  NoDup (host_ids s) → NoDup (placed_items p) → h ∈ host_ids s → h' ∈ host_ids s →
  i ∈ items_on p h → i ∈ items_on p h' → h = h'.
Proof.
  unfold placed_items. intros Hnd Hall Hh Hh' Hi Hi'.
  destruct (decide (h = h')) as [|Hne]; [done|exfalso].
  pose proof (all_pairs_concat _ _ Hall) as Hp.
  assert (Hsym : Symmetric (λ x y, ∀ z, z ∈ items_on p x → z ∉ items_on p y))
    by (intros x y Hxy z Hz Hz'; by apply (Hxy z)).
  by apply (all_pairs_NoDup _ _ _ _ Hp Hh Hh' Hne i).
Qed.
End placement.

(** ** Host plans *)
Section host_plans.
Context `{ReleaseGate} (s : GpuFleetScheduler) (receipts : string) (completed : list string)
  (budgets : list (string * string)).

(** The plan of a host for its items: the pool scheduler's own plan. *)
Record host_planned (p : FleetPlacement) (inv : HostInventoryBinding) (plan : HostDispatchPlan)
    : Prop := {
  hp_found : fleet_host (fleet_inventory s) (hp_host_id plan) = Ok inv;
  hp_bound : binding_for s (hp_host_id plan) = Ok (execution_binding plan);
  hp_digest : host_inventory_sha256 plan = inventory_digest (hb_inventory inv);
  hp_scheduled : schedule_on s inv (execution_binding plan) (items_on p (hp_host_id plan))
    receipts completed budgets = Ok (dispatch_plan plan);
  hp_new : new_HostDispatchPlan plan = Ok plan }.

Lemma new_HostDispatchPlan_id p p' : new_HostDispatchPlan p = Ok p' → p' = p.
Proof. unfold new_HostDispatchPlan. intros Hp. repeat step_ok Hp. by injection Hp as <-. Qed.

Lemma make_host_plans_Ok p hs plans :
  make_host_plans s p receipts completed budgets hs = Ok plans →
  map hp_host_id plans = filter (λ h, items_on p h ≠ []) hs ∧
  ∀ plan, plan ∈ plans → ∃ inv, host_planned p inv plan.
Proof.
  revert plans. induction hs as [|h hs IH]; intros plans Hp; cbn [make_host_plans] in Hp.
  { injection Hp as <-. split; [done|]. by intros ? ?%elem_of_nil. }
  fold (items_on p h) in Hp. destruct (items_on p h) as [|i items] eqn:Ei.
  { rewrite filter_cons_False by (rewrite Ei; by intros []). by apply IH. }
  repeat step_ok Hp. injection Hp as <-. destruct (IH _ eq_refl) as [H1 H2].
  match goal with Hn : new_HostDispatchPlan _ = Ok _ |- _ =>
    pose proof (new_HostDispatchPlan_id _ _ Hn) as ->; rename Hn into Hnew end.
  rewrite filter_cons_True by by rewrite Ei. split; [cbn [map hp_host_id]; by rewrite H1|].
  intros plan [->|Hin]%elem_of_cons; [|by apply H2].
  match goal with Hf : fleet_host _ _ = Ok ?inv |- _ => exists inv end.
  split; cbn [hp_host_id execution_binding host_inventory_sha256 dispatch_plan]; [done..| |done].
  by rewrite Ei.
Qed.

Lemma candidate_gang_devices g item pool :
  g ∈ candidate_gangs pool item → ∀ u, u ∈ g → u ∈ device_uuids (inventory pool).
Proof.
  intros Hg u Hu. unfold candidate_gangs in Hg.
  apply elem_of_sorted_by, list_elem_of_filter in Hg as [Hacc _]. unfold gang_accepted in Hacc.
  destruct (devices_of pool g) as [ds|] eqn:Ed; [|done].
  apply list_elem_of_lookup in Hu as [i Hi].
  destruct (Forall2_lookup_l _ _ _ _ _ (devices_of_spec _ _ _ Ed) Hi) as (d & _ & Hin & <-).
  by apply list_elem_of_fmap_2.
Qed.

(** What the pool scheduler's plan for a host guarantees. *)
Record pool_plan_ok (inv : HostInventoryBinding) (items : list PoolWorkItem) (plan : GpuDispatchPlan)
    : Prop := {
  pp_items : map work_item (plan_assignments plan) ≡ₚ items;
  pp_waves : ∀ w, w ∈ waves plan →
    new_GpuDispatchWave w = Ok w ∧ ∀ a, a ∈ assignments w → new_GpuAssignment a = Ok a;
  pp_devices : ∀ a u, a ∈ plan_assignments plan → u ∈ gpu_uuids a →
    u ∈ device_uuids (hb_inventory inv);
  pp_new : new_GpuDispatchPlan plan = Ok plan;
  pp_registry : registry_sha256 plan = er_sha256 (fs_registry s);
  pp_receipts : receipts_sha256 plan = receipts;
  pp_completed : completed_cell_ids plan = sorted_by (λ x, x) completed }.

Lemma schedule_on_Ok inv x items plan :
  schedule_on s inv x items receipts completed budgets = Ok plan → pool_plan_ok inv items plan.
Proof.
  unfold schedule_on. intros Hp. do 2 step_ok Hp.
  assert (Hpool : registry a = fs_registry s ∧ inventory a = hb_inventory inv).
  { match goal with Hn : new_GpuPoolScheduler _ = Ok a |- _ => unfold new_GpuPoolScheduler in Hn;
      repeat step_ok Hn; by injection Hn as <- end. }
  destruct Hpool as [Hreg Hinv]. unfold schedule_work_items in Hp.
  destruct (schedule_facts _ _ _ _ _ _ _ Hp) as (H1 & _ & H3 & _).
  destruct (schedule_cases _ _ _ _ _ _ _ Hp) as (_ & _ & _ & _ & Hw).
  assert (Hfields : new_GpuDispatchPlan plan = Ok plan ∧ registry_sha256 plan = er_sha256 (registry a) ∧
    receipts_sha256 plan = receipts ∧ completed_cell_ids plan = sorted_by (λ y, y) completed).
  { unfold schedule_work_items_authorized in Hp. repeat step_ok Hp.
    pose proof (new_GpuDispatchPlan_Ok _ _ Hp) as ->. split; [exact Hp|done]. }
  destruct Hfields as (F1 & F2 & F3 & F4). rewrite Hreg in F2. split; [done| | |done..].
  - intros w Hin. destruct (Hw w Hin) as [Hok Hnew]. split; [done|]. apply (wk_valid _ _ Hok).
  - intros b u Hb Hu. rewrite <- Hinv. by apply (candidate_gang_devices _ _ _ (H3 b Hb)).
Qed.

Lemma binding_for_Ok h x :
  binding_for s h = Ok x → x ∈ execution_bindings s ∧ xb_host_id x = h.
Proof.
  unfold binding_for. destruct (list_find _ _) as [[i b]|] eqn:E; [|done]. intros [= <-].
  apply list_find_Some in E as (Hi & Hb & _). split; [by eapply list_elem_of_lookup_2|done].
Qed.
Lemma fleet_host_Ok f h b : fleet_host f h = Ok b → b ∈ hosts f ∧ hb_host_id b = h.
Proof.
  unfold fleet_host. destruct (filter _ (hosts f)) as [|b' [|? ?]] eqn:E; [done| |done].
  intros [= <-]. assert (Hin : b' ∈ filter (λ b, hb_host_id b = h) (hosts f)) by (rewrite E; left).
  by apply list_elem_of_filter in Hin as [? ?].
Qed.

Context (Hbindings : ∀ x, x ∈ execution_bindings s → new_HostExecutionBinding x = Ok x).

Lemma planned_ready p inv plan : host_planned p inv plan → plan_ready s plan.
Proof.
  intros [Hf Hb _ Hs Hn]. destruct (fleet_host_Ok _ _ _ Hf) as [Hin Hh].
  destruct (schedule_on_Ok _ _ _ _ Hs) as [_ Hw _ _ _ _ _]. split; [|done| |done].
  - unfold host_ids, fleet_host_ids. rewrite <- Hh. by apply list_elem_of_fmap_2.
  - by apply Hbindings, (binding_for_Ok _ _ Hb).
Qed.
End host_plans.

(** ** Rows of the fleet and assignments of the hosts *)
Lemma runs_assignments p lws slices :
  Forall2 (runs p) lws slices → map assignment (concat slices) ≡ₚ concat (map assignments lws).
Proof.
  induction 1 as [|lw rows lws slices (wrapped & Hf & Hp) _ IH]; [done|]. cbn [map concat].
  rewrite map_app, IH, (Permutation_map assignment Hp). by rewrite (wrapped_assignments _ _ _ _ Hf).
Qed.
Lemma runs_wraps p lws slices r :
  Forall2 (runs p) lws slices → r ∈ concat slices →
  ∃ lw, lw ∈ lws ∧ assignment r ∈ assignments lw ∧ wraps p lw (assignment r) r.
Proof.
  induction 1 as [|lw rows lws slices (wrapped & Hf & Hp) _ IH]; cbn [concat];
    [by intros ?%elem_of_nil|].
  intros [Hr|Hr]%elem_of_app.
  - rewrite Hp in Hr. exists lw. split; [by left|]. split; [|by apply (wrapped_row _ _ _ _ Hf)].
    rewrite <- (wrapped_assignments _ _ _ _ Hf). by apply list_elem_of_fmap_2.
  - destruct (IH Hr) as (lw' & ? & ?). exists lw'. split; [by right|done].
Qed.
Lemma concat_slices h ws : concat (host_slices h ws) = rows_in h (fleet_assignments ws).
Proof.
  unfold host_slices, fleet_assignments. induction ws as [|w ws IH]; [done|].
  cbn [map concat]. rewrite rows_in_app, <- IH.
  destruct (decide (rows_in h (fw_assignments w) = [])) as [E|E].
  - rewrite filter_cons_False by (intros Hn; by apply Hn). by rewrite E.
  - by rewrite filter_cons_True.
Qed.

Lemma composed_host_assignments plans ws p :
  fleet_composed plans ws → p ∈ plans →
  map assignment (rows_in (hp_host_id p) (fleet_assignments ws)) ≡ₚ plan_assignments (dispatch_plan p).
Proof. intros Hc Hp. rewrite <- concat_slices. apply (runs_assignments p), (fc_slices _ _ Hc _ Hp). Qed.

Lemma composed_assignments plans ws :
  fleet_composed plans ws →
  map assignment (fleet_assignments ws) ≡ₚ concat (map (λ p, plan_assignments (dispatch_plan p)) plans).
Proof.
  intros Hcomp. pose proof Hcomp as [Hnd _ Hr _].
  rewrite <- (Permutation_map assignment (gather_by_key fa_host_id (map hp_host_id plans)
    (fleet_assignments ws) Hnd ltac:(intros r Hin; destruct (Hr r Hin) as (p & Hp & ->);
      by apply list_elem_of_fmap_2))).
  assert (Hs : ∀ p, p ∈ plans → map assignment (rows_in (hp_host_id p) (fleet_assignments ws))
    ≡ₚ plan_assignments (dispatch_plan p)) by (intros p; by apply composed_host_assignments).
  clear Hcomp Hnd Hr. induction plans as [|p plans IH]; [done|]. cbn [map concat].
  rewrite map_app, IH by (intros q Hq; apply Hs; by right).
  apply Permutation_app_tail, Hs. by left.
Qed.

Lemma composed_row plans ws r :
  fleet_composed plans ws → r ∈ fleet_assignments ws →
  ∃ p lw, p ∈ plans ∧ lw ∈ waves (dispatch_plan p) ∧ assignment r ∈ assignments lw ∧
    wraps p lw (assignment r) r.
Proof.
  intros [_ _ Hr Hs] Hin. destruct (Hr r Hin) as (p & Hp & Hh).
  destruct (runs_wraps p _ _ r (Hs p Hp)) as (lw & Hlw & Ha & Hw).
  - rewrite concat_slices. by apply list_elem_of_filter.
  - by exists p, lw.
Qed.

(** ** The whole schedule *)
Section schedule.
Context `{ReleaseGate} (s : GpuFleetScheduler).

Lemma new_GpuFleetDispatchPlan_id p p' : new_GpuFleetDispatchPlan p = Ok p' → p' = p.
Proof. unfold new_GpuFleetDispatchPlan. intros Hp. repeat step_ok Hp. by injection Hp as <-. Qed.

(** The objects the scheduler is given were constructed. *)
Record fleet_ready : Prop := {
  fy_inventory : new_GpuFleetInventory (fleet_inventory s) = Ok (fleet_inventory s);
  fy_bindings : ∀ x, x ∈ execution_bindings s → new_HostExecutionBinding x = Ok x }.
Context (Hready : fleet_ready).

Lemma ready_host_ids : NoDup (host_ids s).
Proof.
  destruct Hready as [Hi _]. unfold new_GpuFleetInventory in Hi. repeat step_ok Hi.
  unfold unique_text in *. by bools.
Qed.
Lemma ready_gpus : NoDup (fleet_gpu_uuids (fleet_inventory s)).
Proof.
  destruct Hready as [Hi _]. unfold new_GpuFleetInventory in Hi. repeat step_ok Hi.
  unfold unique_text in *. by bools.
Qed.

(** The stages of [schedule_work_items]. *)
Record fleet_scheduled (items : list PoolWorkItem) (receipts : string) (completed : list string)
    (budgets : list (string * string)) (plans : list HostDispatchPlan) (p : FleetPlacement)
    (ws : list GpuFleetDispatchWave) : Prop := {
  fd_items : NoDup (map item_id items);
  fd_placed : placement_sound s (host_accepts_group s receipts completed budgets) items p;
  fd_plans : make_host_plans s p receipts completed budgets (host_ids s) = Ok plans;
  fd_waves : compose_fleet_waves s plans = Ok ws;
  fd_indexes : map fw_wave_index ws = seqZ 0 (zlength ws);
  fd_composed : fleet_composed plans ws }.

Lemma planned_hosts p receipts completed budgets plans :
  make_host_plans s p receipts completed budgets (host_ids s) = Ok plans →
  Forall (plan_ready s) plans ∧ NoDup (map hp_host_id plans) ∧
  concat (map (λ q, items_on p (hp_host_id q)) plans) = placed_items s p.
Proof.
  intros Hm. destruct (make_host_plans_Ok _ _ _ _ _ _ _ Hm) as [Hids Hall]. split; [|split].
  - apply Forall_forall. intros q Hq. destruct (Hall q Hq) as [inv Hpl].
    eapply planned_ready; [apply Hready|exact Hpl].
  - rewrite Hids. apply NoDup_filter, ready_host_ids.
  - rewrite <- (map_map hp_host_id (items_on p)), Hids. unfold placed_items. clear Hm Hids Hall.
    induction (host_ids s) as [|h hs IH]; [done|]. cbn [map concat].
    destruct (decide (items_on p h = [])) as [E|E].
    + rewrite filter_cons_False by (intros Hn; by apply Hn). by rewrite E, IH.
    + rewrite filter_cons_True by done. cbn [map concat]. by rewrite IH.
Qed.

Lemma fleet_schedule_cases items receipts completed budgets plan :
  fleet_schedule_work_items s items receipts completed budgets = Ok plan →
  new_GpuFleetDispatchPlan plan = Ok plan ∧
  ∃ p, fleet_scheduled items receipts completed budgets (host_plans plan) p (fp_waves plan).
Proof.
  unfold fleet_schedule_work_items. intros Hs. do 9 step_ok Hs. bools.
  match goal with Hc : sorted_by _ completed = completed |- _ => rewrite Hc in * end.
  pose proof (new_GpuFleetDispatchPlan_id _ _ Hs) as ->. split; [exact Hs|].
  cbn [host_plans fp_waves].
  match goal with Hp : place_groups _ _ _ _ = Ok ?p, Hm : make_host_plans _ _ _ _ _ _ = Ok ?q |- _ =>
    exists p; destruct (planned_hosts _ _ _ _ _ Hm) as (Hr & Hnd & _);
    destruct (compose_composed s q Hr Hnd) as (ws & Hc & Hx & Hcomp) end.
  match goal with Hc' : compose_fleet_waves s _ = Ok ?w |- context [fleet_scheduled _ _ _ _ _ _ ?w] =>
    assert (w = ws) as -> by congruence end.
  unfold unique_text in *. bools.
  split; [done| |done..]. apply fleet_placement_sound; [apply ready_host_ids|done].
Qed.
(** The work items that run on a host are the ones placed there. *)
Lemma scheduled_row items receipts completed budgets plans p ws r :
  fleet_scheduled items receipts completed budgets plans p ws → r ∈ fleet_assignments ws →
  fa_host_id r ∈ host_ids s ∧ work_item (assignment r) ∈ items_on p (fa_host_id r) ∧
  ∃ inv, fleet_host (fleet_inventory s) (fa_host_id r) = Ok inv ∧
    new_GpuAssignment (assignment r) = Ok (assignment r) ∧
    ∀ u, u ∈ gpu_uuids (assignment r) → u ∈ device_uuids (hb_inventory inv).
Proof.
  intros [_ _ Hm _ _ Hc] Hr. destruct (composed_row _ _ _ Hc Hr) as (q & lw & Hq & Hlw & Ha & Hw).
  destruct (make_host_plans_Ok _ _ _ _ _ _ _ Hm) as [_ Hall]. destruct (Hall q Hq) as [inv Hpl].
  pose proof (planned_ready _ _ _ _ (fy_bindings Hready) _ _ _ Hpl) as Hpr.
  destruct Hpl as [Hf _ _ Hs _]. destruct (schedule_on_Ok _ _ _ _ _ _ _ _ Hs) as [Hi Hws Hd _ _ _ _].
  rewrite (wr_host _ _ _ _ Hw).
  assert (Hin : assignment r ∈ plan_assignments (dispatch_plan q)).
  { unfold plan_assignments. apply list_elem_of_In, in_concat. exists (assignments lw).
    split; apply list_elem_of_In; [by apply list_elem_of_fmap_2|done]. }
  split; [apply Hpr|]. split.
  - rewrite <- Hi. by apply list_elem_of_fmap_2.
  - exists inv. split; [done|]. split; [by apply (Hws lw Hlw)|]. intros u Hu. by apply (Hd _ u Hin).
Qed.

Lemma scheduled_items items receipts completed budgets plans p ws :
  fleet_scheduled items receipts completed budgets plans p ws →
  map (λ r, work_item (assignment r)) (fleet_assignments ws) ≡ₚ items.
Proof.
  intros [_ Hp Hm _ _ Hc]. rewrite <- (map_map assignment work_item).
  rewrite (Permutation_map work_item (composed_assignments _ _ Hc)).
  destruct (planned_hosts _ _ _ _ _ Hm) as (_ & _ & Hcat).
  rewrite <- (ps_all _ _ _ _ Hp), <- Hcat.
  destruct (make_host_plans_Ok _ _ _ _ _ _ _ Hm) as [_ Hall]. clear Hcat Hm Hc Hp.
  induction plans as [|q plans IH]; [done|]. cbn [map concat]. rewrite map_app.
  rewrite IH by (intros x Hx; apply Hall; by right). apply Permutation_app_tail.
  destruct (Hall q (list_elem_of_here _ _)) as [inv [_ _ _ Hs _]].
  by destruct (schedule_on_Ok _ _ _ _ _ _ _ _ Hs) as [Hi _ _ _ _ _ _].
Qed.

(** One host of the fleet owns a device. *)
Lemma device_host h h' inv inv' u :
  fleet_host (fleet_inventory s) h = Ok inv → fleet_host (fleet_inventory s) h' = Ok inv' →
  u ∈ device_uuids (hb_inventory inv) → u ∈ device_uuids (hb_inventory inv') → h = h'.
Proof.
  intros [Hin Hh]%fleet_host_Ok [Hin' Hh']%fleet_host_Ok Hu Hu'.
  destruct (decide (h = h')) as [|Hne]; [done|exfalso].
  pose proof (all_pairs_concat _ _ ready_gpus) as Hp.
  assert (Hsym : Symmetric (λ x y, ∀ z, z ∈ device_uuids (hb_inventory x) →
    z ∉ device_uuids (hb_inventory y))) by (intros x y Hxy z Hz Hz'; by apply (Hxy z)).
  apply (all_pairs_NoDup _ _ _ _ Hp Hin Hin') with (z := u); [|done..]. intros ->. congruence.
Qed.

Lemma NoDup_concat_pairs {A B} (f : A → list B) l :
  ForallOrdPairs (λ x y, ∀ z, z ∈ f x → z ∉ f y) l → (∀ x, x ∈ l → NoDup (f x)) →
  NoDup (concat (map f l)).
Proof.
  induction 1 as [|x l Hx _ IH]; intros Hnd; cbn; [constructor|]. apply NoDup_app. split_and!.
  - apply Hnd. by left.
  - intros z Hz (g & Hg & Hz')%list_elem_of_In%in_concat. rewrite Forall_forall in Hx.
    apply list_elem_of_In, list_elem_of_fmap in Hg as (y & -> & Hy).
    apply (Hx y Hy z Hz). by apply list_elem_of_In.
  - apply IH. intros y Hy. apply Hnd. by right.
Qed.

Lemma scheduled_wave_gpus items receipts completed budgets plans p ws w :
  fleet_scheduled items receipts completed budgets plans p ws → w ∈ ws →
  NoDup (concat (map (λ r, gpu_uuids (assignment r)) (fw_assignments w))).
Proof.
  intros Hs Hw. pose proof (fc_valid _ _ (fd_composed _ _ _ _ _ _ _ Hs) w Hw) as Hv.
  apply new_fleet_wave_Ok in Hv as (_ & _ & _ & _ & Hc & _).
  assert (Hrow : ∀ r, r ∈ fw_assignments w → r ∈ fleet_assignments ws).
  { intros r Hr. unfold fleet_assignments. apply list_elem_of_In, in_concat.
    exists (fw_assignments w). split; apply list_elem_of_In; [by apply list_elem_of_fmap_2|done]. }
  apply NoDup_concat_pairs.
  - eapply all_pairs_impl; [|exact Hc]. intros r1 r2 H1 H2 Hcomp u Hu1 Hu2.
    destruct (scheduled_row _ _ _ _ _ _ _ _ Hs (Hrow r1 H1)) as (_ & _ & inv1 & Hf1 & _ & Hd1).
    destruct (scheduled_row _ _ _ _ _ _ _ _ Hs (Hrow r2 H2)) as (_ & _ & inv2 & Hf2 & _ & Hd2).
    pose proof (device_host _ _ _ _ u Hf1 Hf2 (Hd1 u Hu1) (Hd2 u Hu2)) as Hh.
    by apply (proj1 (proj2 (Hcomp Hh)) u).
  - intros r Hr. destruct (scheduled_row _ _ _ _ _ _ _ _ Hs (Hrow r Hr)) as (_ & _ & inv & _ & Ha & _).
    by destruct (new_GpuAssignment_Ok _ _ Ha) as (_ & ? & _).
Qed.

(** C14. Every plan the fleet scheduler returns is safe.  Every work item runs
    exactly once in the fleet; items with the same serial or affinity group run
    on one host; every host's plan is the one the pool scheduler returns for the
    items placed there; and in no fleet wave do two assignments, of one host or
    of two, share a physical GPU, or does download, compile or profile work run
    while another host of its contention domain works. *)
Theorem fleet_schedule_safe items receipts completed budgets plan :
  fleet_schedule_work_items s items receipts completed budgets = Ok plan →
  let rows := fleet_assignments (fp_waves plan) in
  map (λ r, work_item (assignment r)) rows ≡ₚ items ∧
  (∀ r1 r2, r1 ∈ rows → r2 ∈ rows →
     fleet_group_key (work_item (assignment r1)) = fleet_group_key (work_item (assignment r2)) →
     fa_host_id r1 = fa_host_id r2) ∧
  (∀ q, q ∈ host_plans plan → ∃ inv its,
     fleet_host (fleet_inventory s) (hp_host_id q) = Ok inv ∧
     its ≡ₚ map (λ r, work_item (assignment r)) (rows_in (hp_host_id q) rows) ∧
     schedule_on s inv (execution_binding q) its receipts completed budgets = Ok (dispatch_plan q)) ∧
  (∀ w, w ∈ fp_waves plan →
     NoDup (concat (map (λ r, gpu_uuids (assignment r)) (fw_assignments w))) ∧
     domain_free (fw_assignments w)).
Proof.
  intros [_ [p Hs]]%fleet_schedule_cases rows.
  pose proof (scheduled_items _ _ _ _ _ _ _ Hs) as Hitems.
  split; [exact Hitems|]. split; [|split].
  - intros r1 r2 H1 H2 Hk.
    destruct (scheduled_row _ _ _ _ _ _ _ _ Hs H1) as (Hh1 & Hi1 & _).
    destruct (scheduled_row _ _ _ _ _ _ _ _ Hs H2) as (Hh2 & Hi2 & _).
    assert (Hin : ∀ r, r ∈ rows → work_item (assignment r) ∈ items).
    { intros r Hr. rewrite <- Hitems. by apply (list_elem_of_fmap_2 (λ r, work_item (assignment r))). }
    destruct (ps_group _ _ _ _ (fd_placed _ _ _ _ _ _ _ Hs) _ _ (Hin _ H1) (Hin _ H2) Hk)
      as (h & Hh & Hg1 & Hg2).
    assert (Hnd : NoDup (placed_items s p)).
    { rewrite (ps_all _ _ _ _ (fd_placed _ _ _ _ _ _ _ Hs)).
      apply (NoDup_fmap_1 item_id), (fd_items _ _ _ _ _ _ _ Hs). }
    by rewrite (placed_once s p _ h _ ready_host_ids Hnd Hh1 Hh Hi1 Hg1),
      (placed_once s p _ h _ ready_host_ids Hnd Hh2 Hh Hi2 Hg2).
  - intros q Hq.
    destruct (make_host_plans_Ok _ _ _ _ _ _ _ (fd_plans _ _ _ _ _ _ _ Hs)) as [_ Hall].
    destruct (Hall q Hq) as [inv [Hf _ _ Hsch _]].
    exists inv, (items_on p (hp_host_id q)). split; [done|]. split; [|done].
    destruct (schedule_on_Ok _ _ _ _ _ _ _ _ Hsch) as [Hi _ _ _ _ _ _]. rewrite <- Hi.
    rewrite <- (map_map assignment work_item). apply Permutation_map. symmetry.
    apply (composed_host_assignments (host_plans plan)); [apply Hs|done].
  - intros w Hw. split; [by eapply scheduled_wave_gpus|].
    pose proof (fc_valid _ _ (fd_composed _ _ _ _ _ _ _ Hs) w Hw) as Hv.
    by apply new_fleet_wave_Ok in Hv as (_ & _ & _ & _ & _ & Hd).
Qed.

(** The order of the work items does not matter: the fleet scheduler gives
    the same plan, or the same error, for the same items in any order. *)
Theorem fleet_order_irrelevant items items' receipts completed budgets :
  items ≡ₚ items' →
  fleet_schedule_work_items s items receipts completed budgets =
  fleet_schedule_work_items s items' receipts completed budgets.
Proof.
  intros Hp. unfold fleet_schedule_work_items.
  assert (Hids : map item_id items ≡ₚ map item_id items') by by rewrite Hp.
  rewrite (unique_text_perm _ _ Hids), (same_text_set_perm _ _ _ Hids).
  destruct (unique_text (map item_id items')) eqn:Eu; [|done].
  rewrite (fleet_groups_perm items items').
  - assert (He : bool_decide (items = []) = bool_decide (items' = [])).
    { apply bool_decide_ext. split; intros ->; [by apply Permutation_nil_l in Hp|].
      by apply Permutation_nil_r in Hp. }
    by rewrite He.
  - rewrite Hids. unfold unique_text in Eu. by bools.
  - exact Hp.
Qed.
End schedule.
