(* ===== verification/FleetTotal.v ===== *)
(** * Fleet scheduling returns

    Once every group has a host and every host has its plan, the rest of the
    schedule cannot fail: composition ends, and the constructor of the fleet plan
    accepts what was composed unless two of its assignments have the same
    SHA-256. *)
From S2P Require Import Prelude PyFloat FloatRepr Hashlib Registry GpuPool Scheduler PoolSafety.
From S2P Require Import Execution Fleet FleetScheduler FleetReceipts FleetWaves FleetCompose.
From S2P Require Import FleetSafety ExecutionTotal.

(** ** The dictionaries of the constructor *)
Lemma lookup_host_plan plans p :
  NoDup (map hp_host_id plans) → p ∈ plans → host_plan_by_id plans !! hp_host_id p = Some p.
Proof.
  intros Hnd Hp. unfold host_plan_by_id. apply elem_of_list_to_map.
  - rewrite fmap_reverse, reverse_Permutation. by rewrite <- list_fmap_compose.
  - apply elem_of_reverse, list_elem_of_fmap. by exists p.
Qed.

Definition wave_keys (p : HostDispatchPlan) : list (string * Z * GpuDispatchWave) :=
  map (λ w, ((hp_host_id p, wave_index w), w)) (waves (dispatch_plan p)).
Lemma local_member plans key lw :
  (key, lw) ∈ concat (map wave_keys plans) ↔
  ∃ p, p ∈ plans ∧ lw ∈ waves (dispatch_plan p) ∧ key = (hp_host_id p, wave_index lw).
Proof.
  rewrite list_elem_of_In, in_concat. split.
  - intros (l & Hl & Hin). apply list_elem_of_In, list_elem_of_fmap in Hl as (p & -> & Hp).
    apply list_elem_of_In, list_elem_of_fmap in Hin as (w & [= -> ->] & Hw). by exists p.
  - intros (p & Hp & Hw & ->). exists (wave_keys p).
    split; apply list_elem_of_In; [by apply list_elem_of_fmap_2|].
    apply list_elem_of_fmap. by exists lw.
Qed.

Lemma local_keys_NoDup plans :
  NoDup (map hp_host_id plans) →
  (∀ p, p ∈ plans → NoDup (map wave_index (waves (dispatch_plan p)))) →
  NoDup (map fst (concat (map wave_keys plans))).
Proof.
  intros Hnd Hw. rewrite <- concat_map_map, map_map. apply NoDup_concat_pairs.
  - eapply all_pairs_impl; [|exact (all_pairs_map _ _ Hnd)]. intros p q _ _ Hne k Hk Hk'.
    unfold wave_keys in *. rewrite map_map in Hk, Hk'. cbn [fst] in *.
    apply list_elem_of_fmap in Hk as (w & -> & _), Hk' as (w' & Heq & _).
    by injection Heq as Heq _.
  - intros p Hp. unfold wave_keys. rewrite map_map. cbn [fst].
    apply (NoDup_fmap_1 snd). change (NoDup (map snd (map (λ w, (hp_host_id p, wave_index w))
      (waves (dispatch_plan p))))). rewrite map_map. by apply Hw.
Qed.

Lemma lookup_local plans key lw :
  NoDup (map hp_host_id plans) →
  (∀ p, p ∈ plans → NoDup (map wave_index (waves (dispatch_plan p)))) →
  expected_local_waves plans !! key = Some lw ↔
  ∃ p, p ∈ plans ∧ lw ∈ waves (dispatch_plan p) ∧ key = (hp_host_id p, wave_index lw).
Proof.
  intros Hnd Hw. unfold expected_local_waves. rewrite <- elem_of_list_to_map.
  - rewrite elem_of_reverse. apply (local_member plans).
  - rewrite fmap_reverse, reverse_Permutation. by apply local_keys_NoDup.
Qed.

(** ** The loop over the rows *)
Definition row_key (r : GpuFleetAssignment) : string * Z := (fa_host_id r, local_wave_index r).
Definition row_serial (r : GpuFleetAssignment) : option string := serial_group_key (work_item (assignment r)).

Definition rows_at (key : string * Z) (l : list GpuFleetAssignment) : list GpuFleetAssignment :=
  filter (λ r, row_key r = key) l.
Record covers (seen : list GpuFleetAssignment) (c : Coverage) : Prop := {
  cv_seen : ∀ key, default [] (observed c !! key) = rows_at key seen;
  cv_dom : ∀ key, is_Some (observed c !! key) ↔ ∃ r, r ∈ seen ∧ row_key r = key;
  cv_serial : ∀ k h, serial_hosts c !! k = Some h → ∃ r, r ∈ seen ∧ row_serial r = Some k ∧ fa_host_id r = h }.

Lemma covers_nil : covers [] {| observed := ∅; serial_hosts := ∅ |}.
Proof.
  split; cbn.
  - intros key. by rewrite lookup_empty.
  - intros key. rewrite lookup_empty. split; [by intros [? ?]|by intros (r & ?%elem_of_nil & _)].
  - intros k h. by rewrite lookup_empty.
Qed.

(** A row of the composition, against the dictionaries. *)
Definition row_known (plans : list HostDispatchPlan) (r : GpuFleetAssignment) : Prop :=
  ∃ p lw, p ∈ plans ∧ lw ∈ waves (dispatch_plan p) ∧ assignment r ∈ assignments lw ∧
    wraps p lw (assignment r) r.

Section cover.
Context (plans : list HostDispatchPlan) (Hnd : NoDup (map hp_host_id plans))
  (Hidx : ∀ p, p ∈ plans → NoDup (map wave_index (waves (dispatch_plan p)))).

Lemma covers_add seen c r h :
  covers seen c → (∀ k, row_serial r = Some k → h !! k = Some (fa_host_id r)) →
  (∀ k x, h !! k = Some x → serial_hosts c !! k = Some x ∨ (row_serial r = Some k ∧ x = fa_host_id r)) →
  covers (seen ++ [r]) {| observed := <[row_key r := default [] (observed c !! row_key r) ++ [r]]> (observed c);
                          serial_hosts := h |}.
Proof.
  intros [H1 H2 H3] Hh Hold. split; cbn [observed serial_hosts].
  - intros key. unfold rows_at. rewrite filter_app. fold (rows_at key seen).
    destruct (decide (row_key r = key)) as [<-|Hne].
    + rewrite lookup_insert_eq, filter_cons_True, filter_nil by done. cbn. by rewrite H1.
    + rewrite lookup_insert_ne, filter_cons_False, filter_nil, app_nil_r by done. apply H1.
  - intros key. destruct (decide (row_key r = key)) as [<-|Hne].
    + rewrite lookup_insert_eq. split; [|by eexists]. intros _. exists r.
      split; [apply elem_of_app; right; left|done].
    + rewrite lookup_insert_ne, H2 by done. split.
      * intros (x & Hx & Hk). exists x. split; [by apply elem_of_app; left|done].
      * intros (x & [Hx|Hx%list_elem_of_singleton]%elem_of_app & Hk); [by exists x|by subst].
  - intros k x [Hx|[Hx ->]]%Hold.
    + destruct (H3 _ _ Hx) as (y & Hy & Hs). exists y. split; [by apply elem_of_app; left|done].
    + exists r. split; [apply elem_of_app; right; left|done].
Qed.

Lemma cover_row_total seen c r :
  covers seen c → row_known plans r →
  (∀ r' k, r' ∈ seen → row_serial r' = Some k → row_serial r = Some k → fa_host_id r' = fa_host_id r) →
  ∃ c', cover_row (host_plan_by_id plans) (expected_local_waves plans) c r = Ok c' ∧
    covers (seen ++ [r]) c'.
Proof.
  intros Hc (p & lw & Hp & Hlw & Ha & [W1 W2 W3 W4 W5 _ W6 W7 W8]) Hser. unfold cover_row.
  rewrite W1, (lookup_host_plan plans p Hnd Hp), W2, W3, W4, W6, W7, W8.
  do 6 rewrite bool_decide_eq_true_2 by reflexivity. cbn [negb orb].
  unfold local_identity in W5. injection W5 as I1 I2.
  assert (Hl : expected_local_waves plans !! (hp_host_id p, local_wave_index r) = Some lw).
  { apply lookup_local; [done..|]. exists p. by rewrite I1. }
  rewrite Hl, I2, !bool_decide_eq_true_2; [|by apply list_elem_of_fmap_2|done]. cbn [negb].
  assert (Hkey : (hp_host_id p, local_wave_index r) = row_key r) by (unfold row_key; by rewrite W1).
  rewrite Hkey. destruct (serial_group_key (work_item (assignment r))) as [k|] eqn:Ek.
  - assert (Hprior : default (hp_host_id p) (serial_hosts c !! k) = fa_host_id r).
    { destruct (serial_hosts c !! k) as [h|] eqn:E; [cbn|by rewrite W1].
      destruct (cv_serial _ _ Hc _ _ E) as (r' & Hr' & Hs' & <-). by apply (Hser r' k). }
    rewrite Hprior, W1, bool_decide_eq_true_2 by done. cbn [negb]. eexists. split; [done|].
    rewrite <- W1. apply covers_add; [done| |].
    + intros k' [= <-]%(eq_trans (eq_sym Ek)). apply lookup_insert_eq.
    + intros k' x. destruct (decide (k = k')) as [<-|Hne].
      * rewrite lookup_insert_eq. intros [= <-]. right. by split.
      * rewrite lookup_insert_ne by done. by left.
  - eexists. split; [done|]. apply covers_add; [done| |by left].
    unfold row_serial. rewrite Ek. by intros k.
Qed.

Lemma cover_rows_total seen c rows :
  covers seen c → (∀ r, r ∈ rows → row_known plans r) →
  (∀ r r' k, r ∈ seen ++ rows → r' ∈ seen ++ rows → row_serial r = Some k → row_serial r' = Some k →
     fa_host_id r = fa_host_id r') →
  ∃ c', cover_rows (host_plan_by_id plans) (expected_local_waves plans) c rows = Ok c' ∧
    covers (seen ++ rows) c'.
Proof.
  revert seen c. induction rows as [|r rows IH]; intros seen c Hc Hr Hs; cbn [cover_rows].
  { exists c. rewrite app_nil_r. by split. }
  destruct (cover_row_total seen c r Hc) as (c1 & H1 & Hc1); [apply Hr; by left| |].
  { intros r' k Hr' Hk Hk'. apply (Hs r' r k); [apply elem_of_app; by left| |done..].
    apply elem_of_app. right. left. }
  rewrite H1. destruct (IH (seen ++ [r]) c1 Hc1) as (c' & H2 & Hc').
  - intros x Hx. apply Hr. by right.
  - intros x y k. rewrite <- app_assoc. apply Hs.
  - exists c'. split; [done|]. by rewrite <- app_assoc in Hc'.
Qed.
End cover.

(** ** Sorted text *)
Lemma is_sorted_text_iff l : is_sorted_text l = true ↔ StronglySorted pyle l.
Proof.
  unfold is_sorted_text. rewrite bool_decide_eq_true. split.
  - intros <-. apply (sorted_by_sorted (λ x : string, x)).
  - apply sorted_by_id.
Qed.
Lemma StronglySorted_filter {A} (R : A → A → Prop) (P : A → Prop) `{∀ x, Decision (P x)} l :
  StronglySorted R l → StronglySorted R (filter P l).
Proof.
  induction 1 as [|x l Hl IH Hx]; [constructor|]. destruct (decide (P x)).
  - rewrite filter_cons_True by done. constructor; [done|]. rewrite Forall_forall in *.
    intros y [_ Hy]%list_elem_of_filter. by apply Hx.
  - by rewrite filter_cons_False.
Qed.
Lemma remove_dups_id {A} `{EqDecision A} (l : list A) : NoDup l → remove_dups l = l.
Proof.
  induction 1 as [|x l Hx Hl IH]; [done|]. cbn. by destruct (decide_rel _ _ _); [|rewrite IH].
Qed.
Lemma NoDup_seqZ m n : NoDup (seqZ m n).
Proof.
  apply NoDup_alt. intros i j x Hi%lookup_seqZ Hj%lookup_seqZ. lia.
Qed.

Lemma nonempty_head {A} (l : list A) : l ≠ [] → ∃ x, x ∈ l.
Proof. destruct l as [|x l]; [done|]. exists x. left. Qed.

(** ** The constructor of the fleet plan *)
Section total.
Context `{ReleaseGate} (s : GpuFleetScheduler) (Hready : fleet_ready s)
  (Hnew : new_GpuFleetScheduler s = Ok s) (Hregistry : is_hash 64 (er_sha256 (fs_registry s)) = true).
Context (items : list PoolWorkItem) (receipts : string) (completed : list string)
  (budgets : list (string * string)) (plans : list HostDispatchPlan) (p : FleetPlacement)
  (ws : list GpuFleetDispatchWave)
  (Hs : fleet_scheduled s items receipts completed budgets plans p ws)
  (Hitems : ∀ i, i ∈ items → new_PoolWorkItem i = Ok i).

Lemma planned_pool q :
  q ∈ plans → ∃ inv, pool_plan_ok s receipts completed inv (items_on p (hp_host_id q)) (dispatch_plan q) ∧
    new_HostDispatchPlan q = Ok q.
Proof.
  intros Hq. destruct (make_host_plans_Ok _ _ _ _ _ _ _ (fd_plans _ _ _ _ _ _ _ _ Hs)) as [_ Hall].
  destruct (Hall q Hq) as [inv [_ _ _ Hsch Hn]]. exists inv.
  by split; [eapply schedule_on_Ok|].
Qed.

Lemma planned_indexes q : q ∈ plans → NoDup (map wave_index (waves (dispatch_plan q))).
Proof.
  intros (inv & [_ _ _ Hn _ _ _] & _)%planned_pool. unfold new_GpuDispatchPlan in Hn.
  do 4 step_ok Hn. bools. match goal with Hm : map wave_index _ = _ |- _ => rewrite Hm end.
  apply NoDup_seqZ.
Qed.

Lemma planned_nonempty q : q ∈ plans → waves (dispatch_plan q) ≠ [].
Proof.
  intros (inv & _ & Hn)%planned_pool He. unfold new_HostDispatchPlan in Hn. rewrite He in Hn.
  by repeat step_ok Hn.
Qed.

Lemma rows_known r : r ∈ fleet_assignments ws → row_known plans r.
Proof. apply composed_row, (fd_composed _ _ _ _ _ _ _ _ Hs). Qed.

Lemma total_empty : bool_decide (plans = []) = bool_decide (ws = []).
Proof.
  pose proof (fd_composed _ _ _ _ _ _ _ _ Hs) as [_ Hv Hr Hsl]. apply bool_decide_ext. split.
  - intros Hp. destruct (decide (ws = [])) as [|Hne]; [done|exfalso].
    destruct (nonempty_head ws Hne) as (w & Hw).
    pose proof (Hv w Hw) as (_ & _ & Hrows & _)%new_fleet_wave_Ok.
    destruct (nonempty_head _ Hrows) as (r & Hin). destruct (Hr r) as (q & Hq & _).
    + unfold fleet_assignments. apply list_elem_of_In, in_concat. exists (fw_assignments w).
      split; apply list_elem_of_In; [by apply list_elem_of_fmap_2|done].
    + rewrite Hp in Hq. by apply elem_of_nil in Hq.
  - intros Hw. destruct (decide (plans = [])) as [|Hne]; [done|exfalso].
    destruct (nonempty_head plans Hne) as (q & Hq). specialize (Hsl q Hq).
    apply (planned_nonempty q Hq). rewrite Hw in Hsl. by apply Forall2_nil_inv_r in Hsl.
Qed.

(** Rows with one serial group are on one host. *)
Lemma serial_one_host r r' k :
  r ∈ fleet_assignments ws → r' ∈ fleet_assignments ws →
  row_serial r = Some k → row_serial r' = Some k → fa_host_id r = fa_host_id r'.
Proof.
  intros Hr Hr' Hk Hk'.
  destruct (scheduled_row _ Hready _ _ _ _ _ _ _ _ Hs Hr) as (Hh & Hi & _).
  destruct (scheduled_row _ Hready _ _ _ _ _ _ _ _ Hs Hr') as (Hh' & Hi' & _).
  pose proof (fd_placed _ _ _ _ _ _ _ _ Hs) as [Hall Hg].
  assert (Hin : ∀ h i, h ∈ host_ids s → i ∈ items_on p h → i ∈ items).
  { intros h i Hh0 Hi0. rewrite <- Hall. unfold placed_items. apply list_elem_of_In, in_concat.
    exists (items_on p h). split; apply list_elem_of_In; [by apply list_elem_of_fmap_2|done]. }
  assert (Hnd : NoDup (placed_items s p)).
  { rewrite Hall. apply (NoDup_fmap_1 item_id), (fd_items _ _ _ _ _ _ _ _ Hs). }
  assert (Hkey : ∀ x, x ∈ items → serial_group_key x = Some k → fleet_group_key x = k).
  { intros x Hx Hsx. unfold fleet_group_key, truthy. rewrite Hsx. cbn.
    destruct (string_empty k) eqn:E; [|done]. destruct k; [|done].
    pose proof (Hitems x Hx) as Hn. unfold new_PoolWorkItem in Hn. rewrite Hsx in Hn.
    by repeat step_ok Hn. }
  pose proof (Hin _ _ Hh Hi) as Hx. pose proof (Hin _ _ Hh' Hi') as Hx'.
  destruct (Hg _ _ Hx Hx') as (h & Hh0 & Hg1 & Hg2);
    [by rewrite (Hkey _ Hx Hk), (Hkey _ Hx' Hk')|].
  by rewrite (placed_once s p _ h _ (ready_host_ids _ Hready) Hnd Hh Hh0 Hi Hg1),
    (placed_once s p _ h _ (ready_host_ids _ Hready) Hnd Hh' Hh0 Hi' Hg2).
Qed.

Lemma total_cover :
  ∃ c, cover_rows (host_plan_by_id plans) (expected_local_waves plans)
         {| observed := ∅; serial_hosts := ∅ |} (fleet_assignments ws) = Ok c ∧
    covers (fleet_assignments ws) c.
Proof.
  destruct (cover_rows_total plans (fc_hosts _ _ (fd_composed _ _ _ _ _ _ _ _ Hs)) planned_indexes
    [] _ (fleet_assignments ws) covers_nil) as (c & Hc & Hcov).
  - intros r. apply rows_known.
  - intros r r' k. apply serial_one_host.
  - by exists c.
Qed.

(** The row of an assignment of a local wave. *)
Lemma wave_row q lw a :
  q ∈ plans → lw ∈ waves (dispatch_plan q) → a ∈ assignments lw →
  ∃ r, r ∈ fleet_assignments ws ∧ wraps q lw a r.
Proof.
  intros Hq Hlw Ha. pose proof (fc_slices _ _ (fd_composed _ _ _ _ _ _ _ _ Hs) q Hq) as Hf.
  apply list_elem_of_lookup in Hlw as [i Hi].
  destruct (Forall2_lookup_l _ _ _ _ _ Hf Hi) as (rows & Hrows & wrapped & Hw & Hp).
  apply list_elem_of_lookup in Ha as [j Hj].
  destruct (Forall2_lookup_l _ _ _ _ _ Hw Hj) as (r & Hr & Hwr). exists r. split; [|done].
  assert (Hin : r ∈ rows_in (hp_host_id q) (fleet_assignments ws)).
  { rewrite <- concat_slices. apply list_elem_of_In, in_concat. exists rows. split.
    - apply list_elem_of_In. by eapply list_elem_of_lookup_2.
    - apply list_elem_of_In. rewrite Hp. by eapply list_elem_of_lookup_2. }
  by apply list_elem_of_filter in Hin as [_ ?].
Qed.

Lemma wraps_key q lw a r : wraps q lw a r → row_key r = (hp_host_id q, wave_index lw).
Proof.
  intros [Hh _ _ _ Hi _ _ _ _]. unfold row_key, local_identity in *. injection Hi as Hi _.
  by rewrite Hh, Hi.
Qed.

Lemma total_dom c :
  covers (fleet_assignments ws) c → dom (observed c) = dom (expected_local_waves plans).
Proof.
  intros Hc. pose proof (fc_hosts _ _ (fd_composed _ _ _ _ _ _ _ _ Hs)) as Hnd.
  apply set_eq. intros key. rewrite !elem_of_dom, (cv_dom _ _ Hc). split.
  - intros (r & (q & lw & Hq & Hlw & _ & Hw)%rows_known & <-). exists lw.
    apply lookup_local; [done|apply planned_indexes|]. exists q. by rewrite (wraps_key _ _ _ _ Hw).
  - intros [lw Hl]. apply lookup_local in Hl as (q & Hq & Hlw & ->); [|done|apply planned_indexes].
    destruct (planned_pool q Hq) as (inv & [_ Hws _ _ _ _ _] & _).
    destruct (Hws lw Hlw) as [Hnw _].
    destruct (nonempty_head (assignments lw)) as [a Ha].
    { intros He. unfold new_GpuDispatchWave in Hnw. rewrite He in Hnw. by repeat step_ok Hnw. }
    destruct (wave_row q lw a Hq Hlw Ha) as (r & Hr & Hw). exists r. split; [done|].
    by apply (wraps_key _ _ _ _ Hw).
Qed.

Lemma total_coverage c key lw :
  covers (fleet_assignments ws) c → expected_local_waves plans !! key = Some lw →
  same_text_set (map (λ r, assignment_id (assignment r)) (default [] (observed c !! key)))
    (map assignment_id (assignments lw)) = true.
Proof.
  intros Hc Hl. pose proof (fc_hosts _ _ (fd_composed _ _ _ _ _ _ _ _ Hs)) as Hnd.
  pose proof Hl as Hl'.
  apply lookup_local in Hl' as (q & Hq & Hlw & ->); [|done|apply planned_indexes].
  rewrite (cv_seen _ _ Hc). apply bool_decide_eq_true_2, set_eq. intros x.
  rewrite !elem_of_list_to_set, !list_elem_of_fmap. split.
  - intros (r & -> & [Hk Hr]%list_elem_of_filter). exists (assignment r). split; [done|].
    destruct (rows_known r Hr) as (q' & lw' & Hq' & Hlw' & Ha & Hw).
    assert (Hl' : expected_local_waves plans !! row_key r = Some lw').
    { apply lookup_local; [done|apply planned_indexes|]. exists q'. by rewrite (wraps_key _ _ _ _ Hw). }
    rewrite Hk, Hl in Hl'. by injection Hl' as ->.
  - intros (a & -> & Ha). destruct (wave_row q lw a Hq Hlw Ha) as (r & Hr & Hw). exists r.
    split; [by rewrite (wr_assignment _ _ _ _ Hw)|]. apply list_elem_of_filter.
    split; [by apply (wraps_key _ _ _ _ Hw)|done].
Qed.

Definition scheduled_plan : GpuFleetDispatchPlan := {|
  fp_schema_version := 1; fp_registry_sha256 := er_sha256 (fs_registry s);
  fleet_inventory_sha256 := fleet_inventory_digest (FleetScheduler.fleet_inventory s);
  fp_receipts_sha256 := receipts; fp_seed := fs_seed s; host_plans := plans; fp_waves := ws;
  fp_completed_cell_ids := completed |}.

Lemma no_host_plan (f : HostDispatchPlan → bool) :
  (∀ q, q ∈ plans → f q = true) → existsb (λ q, negb (f q)) plans = false.
Proof.
  intros Hf. apply not_true_is_false. intros (q & Hq%list_elem_of_In & Hn)%existsb_exists.
  by rewrite Hf in Hn.
Qed.

Lemma total_host_ids :
  is_sorted_text (map hp_host_id plans) = true ∧ unique_text (map hp_host_id plans) = true.
Proof.
  destruct (make_host_plans_Ok _ _ _ _ _ _ _ (fd_plans _ _ _ _ _ _ _ _ Hs)) as [Hids _].
  split; [|apply bool_decide_eq_true_2, (fc_hosts _ _ (fd_composed _ _ _ _ _ _ _ _ Hs))].
  rewrite Hids. apply is_sorted_text_iff, StronglySorted_filter, is_sorted_text_iff.
  destruct Hready as [Hi _]. unfold new_GpuFleetInventory in Hi. do 3 step_ok Hi. by bools.
Qed.

Lemma total_cells : unique_text (map fa_item_id (fleet_assignments ws)) = true.
Proof.
  apply bool_decide_eq_true_2. unfold fa_item_id.
  rewrite <- (map_map (λ r, work_item (assignment r)) item_id).
  rewrite (scheduled_items _ Hready _ _ _ _ _ _ _ Hs). apply (fd_items _ _ _ _ _ _ _ _ Hs).
Qed.

Lemma total_constructor :
  require_sha256 "receipts_sha256" receipts = Ok tt → sorted_by (λ x, x) completed = completed →
  NoDup completed → forallb (is_hash 64) completed = true →
  NoDup (map fleet_assignment_id (fleet_assignments ws)) →
  new_GpuFleetDispatchPlan scheduled_plan = Ok scheduled_plan.
Proof.
  intros Hrec Hsort Hnd Hhash Hids. destruct total_host_ids as [H1 H2].
  destruct total_cover as (c & Hcover & Hc).
  unfold new_GpuFleetDispatchPlan, scheduled_plan.
  cbn [fp_schema_version fp_registry_sha256 fleet_inventory_sha256 fp_receipts_sha256 fp_seed
    host_plans fp_waves fp_completed_cell_ids].
  rewrite require_all_sha256_Ok.
  2:{ unfold fleet_inventory_digest.
      intros x [->|[->|[->|?%elem_of_nil]%elem_of_cons]%elem_of_cons]%elem_of_cons;
        [exact Hregistry|exact (content_sha256_is_hash _)| |done].
      unfold require_sha256 in Hrec. cbn [snd]. destruct (is_hash 64 receipts); [reflexivity|discriminate Hrec]. }
  assert ((fs_seed s <? 0) = false) as ->.
  { unfold new_GpuFleetScheduler in Hnew. by repeat step_ok Hnew. }
  rewrite H1, H2, total_cells, Hcover, (total_dom c Hc), total_empty.
  rewrite (no_host_plan (λ q, bool_decide (registry_sha256 (dispatch_plan q) = er_sha256 (fs_registry s)))).
  2:{ intros q (inv & [_ _ _ _ Hq _ _] & _)%planned_pool. by apply bool_decide_eq_true_2. }
  rewrite (no_host_plan (λ q, bool_decide (receipts_sha256 (dispatch_plan q) = receipts))).
  2:{ intros q (inv & [_ _ _ _ _ Hq _] & _)%planned_pool. by apply bool_decide_eq_true_2. }
  rewrite (no_host_plan (λ q, bool_decide (completed_cell_ids (dispatch_plan q) = completed))).
  2:{ intros q (inv & [_ _ _ _ _ _ Hq] & _)%planned_pool. apply bool_decide_eq_true_2. congruence. }
  rewrite eqb_reflx, (fd_indexes _ _ _ _ _ _ _ _ Hs), (remove_dups_id completed Hnd), Hsort, Hhash.
  unfold unique_text. rewrite !bool_decide_eq_true_2 by done. cbn [negb orb].
  destruct (existsb _ (map_to_list _)) eqn:E; [exfalso|done].
  apply existsb_exists in E as ([key lw] & Hin%list_elem_of_In%elem_of_map_to_list & Hn).
  cbn [fst snd] in Hn. by rewrite (total_coverage c key lw Hc Hin) in Hn.
Qed.
End total.

Lemma same_image {A B C} `{EqDecision B} (f : A → B) (g : A → C) l :
  NoDup (map g l) → ¬ NoDup (map f l) →
  ∃ x y, x ∈ l ∧ y ∈ l ∧ g x ≠ g y ∧ f x = f y.
Proof.
  induction l as [|x l IH]; intros Hg Hf; [destruct Hf; constructor|].
  apply NoDup_cons in Hg as [Hgx Hg]. destruct (decide (f x ∈ map f l)) as [Hin|Hin].
  - apply list_elem_of_fmap in Hin as (y & Hxy & Hy). exists x, y.
    split; [left|]. split; [by right|]. split; [|done]. intros Heq. apply Hgx. rewrite Heq.
    by apply list_elem_of_fmap_2.
  - destruct IH as (y & z & Hy & Hz & Hyz); [done|by intros Hn; apply Hf, NoDup_cons|].
    exists y, z. split; [by right|]. split; [by right|done].
Qed.

Lemma fleet_scheduled_intro `{ReleaseGate} s items receipts completed budgets p plans :
  fleet_ready s → NoDup (map item_id items) →
  place_groups s (host_accepts_group s receipts completed budgets) (empty_placement s)
    (fleet_groups items) = Ok p →
  make_host_plans s p receipts completed budgets (host_ids s) = Ok plans →
  ∃ ws, fleet_scheduled s items receipts completed budgets plans p ws.
Proof.
  intros Hr Hnd Hp Hm. destruct (planned_hosts s Hr _ _ _ _ _ Hm) as (Hpr & Hh & _).
  destruct (compose_composed s plans Hpr Hh) as (ws & Hc & Hx & Hcomp). exists ws.
  split; [done| |done..]. apply fleet_placement_sound; [by apply ready_host_ids|done].
Qed.

(** What [fleet_schedule_returns] states, for the proofs that need it. *)
Lemma fleet_schedule_total `{ReleaseGate} s items receipts completed budgets p plans :
  fleet_ready s → new_GpuFleetScheduler s = Ok s →
  is_hash 64 (er_sha256 (fs_registry s)) = true →
  (∀ i, i ∈ items → new_PoolWorkItem i = Ok i) →
  require_sha256 "receipts_sha256" receipts = Ok tt → NoDup (map item_id items) →
  sorted_by (λ x, x) completed = completed → NoDup completed →
  forallb (is_hash 64) completed = true →
  (match budgets with [] => true | _ => same_text_set (map fst budgets) (map item_id items) end) = true →
  forallb (λ b : string * string, is_hash 64 b.1 && is_hash 64 b.2) budgets = true →
  place_groups s (host_accepts_group s receipts completed budgets) (empty_placement s)
    (fleet_groups items) = Ok p →
  make_host_plans s p receipts completed budgets (host_ids s) = Ok plans →
  (∃ plan, fleet_schedule_work_items s items receipts completed budgets = Ok plan ∧
     host_plans plan = plans) ∨
  (∃ ws r r', compose_fleet_waves s plans = Ok ws ∧ r ∈ fleet_assignments ws ∧
     r' ∈ fleet_assignments ws ∧ fa_item_id r ≠ fa_item_id r' ∧
     fleet_assignment_id r = fleet_assignment_id r').
Proof.
  intros Hr Hnew Hreg Hit Hrec Hnd Hsort Hndc Hhash Hb Hbh Hp Hm.
  destruct (fleet_scheduled_intro s items receipts completed budgets p plans Hr Hnd Hp Hm) as [ws Hs].
  pose proof (fd_waves _ _ _ _ _ _ _ _ Hs) as Hw.
  pose proof (total_cells s Hr _ _ _ _ _ _ _ Hs) as Hcells. unfold unique_text in Hcells. bools.
  destruct (decide (NoDup (map fleet_assignment_id (fleet_assignments ws)))) as [Hids|Hids].
  - left. exists (scheduled_plan s receipts completed plans ws). split; [|done].
    unfold fleet_schedule_work_items. rewrite Hrec, Hsort, Hp, Hm, Hw. unfold unique_text.
    rewrite (bool_decide_eq_true_2 _ Hnd), (bool_decide_eq_true_2 _ Hndc).
    rewrite (bool_decide_eq_true_2 (completed = completed)) by reflexivity. cbn [negb orb].
    assert ((match budgets with [] => false
             | _ => negb (same_text_set (map fst budgets) (map item_id items)) end) = false) as ->
      by (destruct budgets; [reflexivity|by rewrite Hb]).
    rewrite require_all_sha256_Ok.
    2:{ intros x Hx%list_elem_of_In%in_concat. destruct Hx as (l & Hl & Hx).
        apply list_elem_of_In, list_elem_of_fmap in Hl as (b & -> & Hin).
        rewrite forallb_elem_of in Hbh. specialize (Hbh b Hin). bools.
        by destruct Hx as [<-|[<-|[]]]. }
    pose proof (total_constructor s Hr Hnew Hreg items receipts completed budgets plans p ws Hs Hit
      Hrec Hsort Hndc Hhash Hids) as Hcons.
    pose proof (total_empty s items receipts completed budgets plans p ws Hs) as Hemp.
    assert (Hprogress : (negb (bool_decide (items = []))
      && (bool_decide (plans = []) || bool_decide (ws = []))) = false);
      [|rewrite Hprogress; exact Hcons].
    rewrite Hemp, orb_diag; clear Hemp Hcons.
    destruct (bool_decide_reflect (items = [])) as [|Hi]; [reflexivity|].
    destruct (bool_decide_reflect (ws = [])) as [Hws|]; [|reflexivity]. exfalso. apply Hi.
    pose proof (scheduled_items s Hr _ _ _ _ _ _ _ Hs) as Hperm. subst ws.
    exact (eq_sym (proj1 (Permutation_nil_l _) Hperm)).
  - right. destruct (same_image fleet_assignment_id fa_item_id _ Hcells Hids)
      as (r & r' & Hin & Hin' & Hne & Heq). exists ws, r, r'.
    exact (conj Hw (conj Hin (conj Hin' (conj Hne Heq)))).
Qed.

(** C18. After the hosts are planned nothing can fail.  For constructed inputs
    that pass the checks of the arguments, once every group has a feasible host
    and the pool scheduler has planned every host, [schedule_work_items] returns
    the fleet plan made of these host plans: no wave is lost, composition makes
    progress, and every check of [GpuFleetDispatchPlan] holds, unless two fleet
    assignments of different cells have the same SHA-256. *)
Theorem fleet_schedule_returns `{ReleaseGate} s items receipts completed budgets p plans :
  fleet_ready s → new_GpuFleetScheduler s = Ok s →
  is_hash 64 (er_sha256 (fs_registry s)) = true →
  (∀ i, i ∈ items → new_PoolWorkItem i = Ok i) →
  require_sha256 "receipts_sha256" receipts = Ok tt → NoDup (map item_id items) →
  sorted_by (λ x, x) completed = completed → NoDup completed →
  forallb (is_hash 64) completed = true →
  (match budgets with [] => true | _ => same_text_set (map fst budgets) (map item_id items) end) = true →
  forallb (λ b : string * string, is_hash 64 b.1 && is_hash 64 b.2) budgets = true →
  place_groups s (host_accepts_group s receipts completed budgets) (empty_placement s)
    (fleet_groups items) = Ok p →
  make_host_plans s p receipts completed budgets (host_ids s) = Ok plans →
  (∃ plan, fleet_schedule_work_items s items receipts completed budgets = Ok plan ∧
     host_plans plan = plans) ∨
  (∃ ws r r', compose_fleet_waves s plans = Ok ws ∧ r ∈ fleet_assignments ws ∧
     r' ∈ fleet_assignments ws ∧ fa_item_id r ≠ fa_item_id r' ∧
     fleet_assignment_id r = fleet_assignment_id r').
Proof. apply fleet_schedule_total. Qed.
