(* ===== verification/FleetReceiptSafety.v ===== *)
(** * What fleet receipts guarantee

    A retry keeps the evidence of every host that succeeded and continues every
    failed host by a chained attempt or not at all; a wave whose receipt succeeded
    has a successful row for each of its assignments, so a fleet plan whose waves
    all succeeded has run every work item. *)
From S2P Require Import Prelude PyFloat FloatRepr Hashlib Registry GpuPool Scheduler PoolSafety.
From S2P Require Import Execution Fleet FleetScheduler FleetReceipts FleetWaves FleetCompose.
From S2P Require Import FleetSafety.

(** ** The retry loop *)
Definition advances (prior row : HostWaveReceipt) : Prop :=
  hr_attempt row = hr_attempt prior + 1 ∧
  prior_host_receipt_sha256 row = Some (host_receipt_sha256 prior) ∧
  hr_host_dispatch_plan_sha256 row = hr_host_dispatch_plan_sha256 prior ∧
  hr_local_wave_sha256 row = hr_local_wave_sha256 prior.
(** What a retry may make of the receipt of a host. *)
Definition follows (prior row : HostWaveReceipt) : Prop :=
  hr_host_id row = hr_host_id prior ∧
  (row = prior ∨ (hr_status prior = HOST_FAILED ∧ advances prior row)).

Lemma retry_rows_Ok m changed l b :
  retry_rows m changed l = Ok b →
  (∀ row, row ∈ l → ∃ prior, m !! hr_host_id row = Some prior ∧
     (row = prior ∨ (hr_status prior = HOST_FAILED ∧ advances prior row))) ∧
  (b = true → changed = true ∨ ∃ row prior, row ∈ l ∧ m !! hr_host_id row = Some prior ∧
     hr_status prior = HOST_FAILED ∧ advances prior row).
Proof.
  revert changed. induction l as [|row l IH]; intros changed Hr; cbn [retry_rows] in Hr.
  { injection Hr as <-. split; [by intros ? ?%elem_of_nil|by left]. }
  destruct (m !! hr_host_id row) as [prior|] eqn:E; [|done].
  assert (Hstep : ∃ changed', retry_rows m changed' l = Ok b ∧
    (row = prior ∨ (hr_status prior = HOST_FAILED ∧ advances prior row)) ∧
    (changed' = true → changed = true ∨ (hr_status prior = HOST_FAILED ∧ advances prior row))).
  { destruct (bool_decide_reflect (hr_status prior = HOST_SUCCEEDED)) as [Hs|Hs].
    - step_ok Hr. bools. exists changed. split; [done|]. split; [by left|by left].
    - destruct (bool_decide_reflect (row = prior)) as [->|Hne].
      + exists changed. split; [done|]. split; [by left|by left].
      + step_ok Hr. bools. assert (hr_status prior = HOST_FAILED) by by destruct (hr_status prior).
        assert (advances prior row) by done. exists true. split; [done|]. split; [by right|by right]. }
  destruct Hstep as (changed' & Hl & Hrow & Hch). destruct (IH _ Hl) as [H1 H2]. split.
  - intros x [->|Hx]%elem_of_cons; [by exists prior|by apply H1].
  - intros Hb. destruct (H2 Hb) as [Hc|(x & q & Hx & Hq)].
    + destruct (Hch Hc) as [|[Hf Ha]]; [by left|]. right. exists row, prior.
      split; [by left|done].
    + right. exists x, q. split; [by right|done].
Qed.

Lemma receipts_by_host_Some l h r :
  receipts_by_host l !! h = Some r → r ∈ l ∧ hr_host_id r = h.
Proof.
  unfold receipts_by_host. intros H%elem_of_list_to_map_2.
  rewrite elem_of_reverse in H. by apply list_elem_of_fmap in H as (x & [= -> ->] & Hx).
Qed.

Lemma new_FleetWaveReceipt_Ok r r' :
  new_FleetWaveReceipt r = Ok r' →
  r' = r ∧ 0 ≤ fleet_wave_index r ∧ 1 ≤ fr_attempt r ∧
  StronglySorted pyle (map hr_host_id (host_receipts r)) ∧ NoDup (map hr_host_id (host_receipts r)).
Proof.
  unfold new_FleetWaveReceipt. intros H. repeat step_ok H. injection H as <-.
  unfold is_sorted_text, unique_text in *. bools. split; [done|]. split; [done|]. split; [done|].
  split; [|done].
  match goal with Hs : sorted_by _ _ = _ |- _ => rewrite <- Hs; apply (sorted_by_sorted (λ x : string, x)) end.
Qed.

(** [aggregate] with a prior receipt. *)
Record retried (plan : GpuFleetDispatchPlan) (prior r : FleetWaveReceipt) : Prop := {
  rt_valid : validate_for_plan plan r = Ok tt;
  rt_prior_valid : validate_for_plan plan prior = Ok tt;
  rt_new : new_FleetWaveReceipt r = Ok r;
  rt_failed : fleet_succeeded prior = false;
  rt_index : fleet_wave_index r = fleet_wave_index prior;
  rt_attempt : fr_attempt r = fr_attempt prior + 1;
  rt_chain : prior_fleet_receipt_sha256 r = Some (fleet_receipt_sha256 prior);
  rt_hosts : map hr_host_id (host_receipts r) = map hr_host_id (host_receipts prior);
  rt_rows : ∀ row, row ∈ host_receipts r → ∃ old, old ∈ host_receipts prior ∧ follows old row;
  rt_advance : ∃ row old, row ∈ host_receipts r ∧ old ∈ host_receipts prior ∧
    hr_host_id row = hr_host_id old ∧ hr_status old = HOST_FAILED ∧ advances old row }.

Lemma text_lists_same (l l' : list string) :
  StronglySorted pyle l → StronglySorted pyle l' → NoDup l → NoDup l' →
  same_text_set l l' = true → l = l'.
Proof.
  intros Hs Hs' Hn Hn' He. unfold same_text_set in He. bools.
  apply (StronglySorted_unique_strong pyle); [|done|done|].
  - intros x y _ _ Hxy Hyx. by apply pycmp_eq, pycmp_Eq_le.
  - apply NoDup_Permutation; [done..|]. intros x.
    rewrite <- !(elem_of_list_to_set (C := gset string)). by rewrite He.
Qed.

Lemma aggregate_retried plan index rows prior r :
  new_FleetWaveReceipt prior = Ok prior →
  aggregate plan index rows (Some prior) = Ok r → retried plan prior r ∧ fleet_wave_index prior = index.
Proof.
  unfold aggregate. intros Hp Ha. repeat step_ok Ha. injection Ha as ->.
  match goal with Hm : (_ <-! validate_for_plan plan prior ;; _) = Ok r |- _ => rename Hm into Hr end.
  do 4 step_ok Hr. step_ok Hr. step_ok Hr. step_ok Hr. bools.
  destruct (new_FleetWaveReceipt_Ok _ _ Hr) as (Heq & _ & _ & Hs & Hn).
  destruct (new_FleetWaveReceipt_Ok _ _ Hp) as (_ & _ & _ & Hs' & Hn').
  match goal with Hrr : retry_rows _ _ _ = Ok ?c |- _ => destruct (retry_rows_Ok _ _ _ _ Hrr) as [H1 H2] end.
  destruct a, a0. subst r. cbn [host_receipts fleet_wave_index fr_attempt] in *. split; [|done].
  split; cbn [host_receipts fleet_wave_index fr_attempt prior_fleet_receipt_sha256]; try done.
  - by apply text_lists_same.
  - intros row Hrow. destruct (H1 row Hrow) as (old & Hold & Hf).
    apply receipts_by_host_Some in Hold as [Hin Hh]. exists old. split; [done|]. split; [done|exact Hf].
  - destruct H2 as [?|(row & old & Hrow & Hold & Hf & Had)]; [done|done|].
    apply receipts_by_host_Some in Hold as [Hin Hh]. exists row, old. by repeat split; try apply Had.
Qed.

(** ** Chains of retries *)
Inductive retries (plan : GpuFleetDispatchPlan) : FleetWaveReceipt → FleetWaveReceipt → Prop :=
  | retries_refl r : retries plan r r
  | retries_step r1 r2 r3 rows :
      retries plan r1 r2 → aggregate plan (fleet_wave_index r2) rows (Some r2) = Ok r3 →
      retries plan r1 r3.

(** What any number of retries keeps. *)
Record continues (r1 r2 : FleetWaveReceipt) : Prop := {
  ct_new : new_FleetWaveReceipt r2 = Ok r2;
  ct_index : fleet_wave_index r2 = fleet_wave_index r1;
  ct_hosts : map hr_host_id (host_receipts r2) = map hr_host_id (host_receipts r1);
  ct_attempt : fr_attempt r1 ≤ fr_attempt r2;
  ct_rows : ∀ row, row ∈ host_receipts r2 → ∃ old, old ∈ host_receipts r1 ∧
    hr_host_id row = hr_host_id old ∧
    (hr_status old = HOST_SUCCEEDED → row = old) ∧
    0 ≤ hr_attempt row - hr_attempt old ≤ fr_attempt r2 - fr_attempt r1 }.

Lemma retries_continue plan r1 r2 :
  new_FleetWaveReceipt r1 = Ok r1 → retries plan r1 r2 → continues r1 r2.
Proof.
  intros Hn Hr. induction Hr as [r|r1 r2 r3 rows _ IH Ha].
  - split; [done..|lia|]. intros row Hrow. exists row. split; [done|]. split; [done|].
    split; [done|]. lia.
  - destruct (IH Hn) as [H1 H2 H3 H4 H5].
    destruct (aggregate_retried _ _ _ _ _ H1 Ha) as [[_ _ R3 _ R5 R6 _ R8 R9 _] _].
    split; [done|congruence|congruence|lia|]. intros row Hrow.
    destruct (R9 row Hrow) as (mid & Hmid & Hid & Hf). destruct (H5 mid Hmid) as (old & Hold & Hid' & Hs & Hat).
    exists old. split; [done|]. split; [congruence|]. destruct Hf as [->|[Hfail [Hadv _]]].
    + split; [exact Hs|]. lia.
    + split; [|lia]. intros Hsucc. rewrite (Hs Hsucc) in Hfail. congruence.
Qed.

Lemma same_host_row r h h' :
  new_FleetWaveReceipt r = Ok r → h ∈ host_receipts r → h' ∈ host_receipts r →
  hr_host_id h = hr_host_id h' → h = h'.
Proof.
  intros (_ & _ & _ & _ & Hn)%new_FleetWaveReceipt_Ok [i Hi]%list_elem_of_lookup
    [j Hj]%list_elem_of_lookup Heq.
  assert (i = j) as ->; [|congruence].
  eapply NoDup_lookup; [exact Hn|..]; by rewrite list_lookup_fmap, ?Hi, ?Hj; cbn; rewrite ?Heq.
Qed.

Lemma continues_success r1 r2 h :
  continues r1 r2 → new_FleetWaveReceipt r1 = Ok r1 → h ∈ host_receipts r1 →
  hr_status h = HOST_SUCCEEDED → h ∈ host_receipts r2.
Proof.
  intros [Hn2 _ Hhosts _ Hrows] Hn Hh Hs.
  assert (Hin : hr_host_id h ∈ map hr_host_id (host_receipts r2))
    by (rewrite Hhosts; by apply list_elem_of_fmap_2).
  apply list_elem_of_fmap in Hin as (row & Heq & Hrow).
  destruct (Hrows row Hrow) as (old & Hold & Hid & Hkeep & _).
  assert (old = h) as -> by (eapply (same_host_row r1); [done..|congruence]).
  by rewrite (Hkeep Hs) in Hrow.
Qed.

(** C16. Retries isolate failures.  However often a fleet wave is retried, its
    receipt is about the same wave and the same hosts, the receipt of a host that
    succeeded is kept as it was, the hosts that failed only become fewer, and no
    host attempts more often than the wave; and every single retry continues at
    least one failed host by an attempt bound to its previous receipt. *)
Theorem fleet_retry_keeps_success plan r1 r2 :
  new_FleetWaveReceipt r1 = Ok r1 → retries plan r1 r2 →
  fleet_wave_index r2 = fleet_wave_index r1 ∧
  map hr_host_id (host_receipts r2) = map hr_host_id (host_receipts r1) ∧
  (∀ h, h ∈ host_receipts r1 → hr_status h = HOST_SUCCEEDED → h ∈ host_receipts r2) ∧
  (∀ h, h ∈ failed_host_ids r2 → h ∈ failed_host_ids r1) ∧
  (∀ rows r3, aggregate plan (fleet_wave_index r2) rows (Some r2) = Ok r3 →
     fr_attempt r3 = fr_attempt r2 + 1 ∧
     prior_fleet_receipt_sha256 r3 = Some (fleet_receipt_sha256 r2) ∧
     ∃ row old, row ∈ host_receipts r3 ∧ old ∈ host_receipts r2 ∧
       hr_host_id row = hr_host_id old ∧ hr_status old = HOST_FAILED ∧ advances old row).
Proof.
  intros Hn Hr. pose proof (retries_continue plan r1 r2 Hn Hr) as Hc. pose proof Hc as [H1 H2 H3 _ H5].
  split; [done|]. split; [done|]. split; [|split].
  - intros h Hh Hs. by eapply continues_success.
  - unfold failed_host_ids. intros h (row & -> & [Hf Hrow]%list_elem_of_filter)%list_elem_of_fmap.
    destruct (H5 row Hrow) as (old & Hold & Hid & Hkeep & _). apply list_elem_of_fmap. exists old.
    split; [done|]. apply list_elem_of_filter. split; [|done].
    destruct (hr_status old) eqn:E; [|done]. rewrite (Hkeep eq_refl) in Hf. congruence.
  - intros rows r3 Ha. destruct (aggregate_retried _ _ _ _ _ H1 Ha) as [[_ _ _ _ _ R6 R7 _ _ R10] _].
    split; [done|]. by split.
Qed.

(** ** Completion *)
Lemma validate_host_receipts_Ok plan w l :
  validate_host_receipts plan w l = Ok tt → ∀ h, h ∈ l → validate_host_receipt plan w h = Ok tt.
Proof.
  induction l as [|x l IH]; cbn; [by intros _ ? ?%elem_of_nil|]. intros H. step_ok H. destruct a.
  intros h [->|Hh]%elem_of_cons; [done|by apply IH].
Qed.

Lemma validate_for_plan_Ok plan r :
  0 ≤ fleet_wave_index r → validate_for_plan plan r = Ok tt →
  ∃ w, fp_waves plan !! Z.to_nat (fleet_wave_index r) = Some w ∧
    map hr_host_id (host_receipts r) = wave_host_ids w ∧
    ∀ h, h ∈ host_receipts r → validate_host_receipt plan w h = Ok tt.
Proof.
  intros Hi. unfold validate_for_plan. intros H. step_ok H. step_ok H.
  destruct (py_index _ _) as [w|] eqn:Ew; [|done]. step_ok H. step_ok H. bools. exists w.
  unfold py_index in Ew. rewrite !(proj2 (Z.ltb_ge _ _) Hi) in Ew.
  split; [done|]. split; [done|]. by apply validate_host_receipts_Ok.
Qed.

(** A wave receipt whose hosts all succeeded and whose parts were constructed. *)
Record wave_done (plan : GpuFleetDispatchPlan) (i : nat) (r : FleetWaveReceipt) : Prop := {
  wd_index : fleet_wave_index r = Z.of_nat i;
  wd_valid : validate_for_plan plan r = Ok tt;
  wd_hosts : ∀ h, h ∈ host_receipts r → new_HostWaveReceipt h = Ok h;
  wd_succeeded : fleet_succeeded r = true }.
(** The receipt [r] holds a successful row of the assignment. *)
Definition ran (r : FleetWaveReceipt) (a : GpuAssignment) : Prop :=
  ∃ h d row, h ∈ host_receipts r ∧ dispatch_receipt h = Some d ∧ row ∈ assignment_receipts d ∧
    ar_assignment_sha256 row = assignment_id a ∧ ar_status row = SUCCEEDED.

Lemma wave_done_ran plan i r w x :
  wave_done plan i r → fp_waves plan !! i = Some w → x ∈ fw_assignments w → ran r (assignment x).
Proof.
  intros [Hi Hv Hh Hs] Hw Hx. destruct (validate_for_plan_Ok plan r) as (w' & Hw' & Hids & Hall);
    [lia|done|]. rewrite Hi, Nat2Z.id, Hw in Hw'. injection Hw' as <-.
  assert (Hin : fa_host_id x ∈ map hr_host_id (host_receipts r)).
  { rewrite Hids. unfold wave_host_ids. apply elem_of_sorted_by, elem_of_remove_dups.
    by apply list_elem_of_fmap_2. }
  apply list_elem_of_fmap in Hin as (h & Heq & Hin).
  pose proof (Hall h Hin) as Hvh. pose proof (Hh h Hin) as Hnew.
  unfold fleet_succeeded in Hs. rewrite forallb_elem_of in Hs. specialize (Hs h Hin). bools.
  unfold validate_host_receipt in Hvh. destruct (rows_of_host w (hr_host_id h)) as [|first rows] eqn:Er; [done|].
  destruct (host_plan_by_id _ !! _); [|done]. do 2 step_ok Hvh.
  unfold new_HostWaveReceipt in Hnew. do 5 step_ok Hnew. rewrite Hs in Hnew.
  destruct (dispatch_receipt h) as [d|] eqn:Ed; [|discriminate Hnew]. step_ok Hnew.
  destruct (succeeded d) eqn:Esucc; [|by step_ok Hnew].
  assert (Hx' : x ∈ first :: rows).
  { rewrite <- Er. apply list_elem_of_filter. by split. }
  bools. match goal with Ht : same_text_set _ _ = true |- _ => unfold same_text_set in Ht; bools; rename Ht into Hset end.
  assert (Hid : assignment_id (assignment x) ∈ map ar_assignment_sha256 (assignment_receipts d)).
  { apply (elem_of_list_to_set (C := gset string)). rewrite Hset. apply elem_of_list_to_set.
    by apply (list_elem_of_fmap_2 (λ r, assignment_id (assignment r))). }
  apply list_elem_of_fmap in Hid as (row & Hrow & Hin').
  exists h, d, row. split; [done|]. split; [done|]. split; [done|]. split; [done|].
  unfold succeeded in Esucc. rewrite forallb_elem_of in Esucc. specialize (Esucc row Hin'). by bools.
Qed.

(** C15. A finished fleet plan has run everything.  If the fleet scheduler
    returned the plan for the work items and each of its waves has a validated
    receipt whose hosts all succeeded, then for every work item some receipt
    holds a successful execution row of the assignment that runs it. *)
Theorem fleet_run_complete `{ReleaseGate} s items receipts completed budgets plan :
  fleet_ready s → fleet_schedule_work_items s items receipts completed budgets = Ok plan →
  (∀ i, (i < length (fp_waves plan))%nat → ∃ r, wave_done plan i r) →
  ∀ item, item ∈ items → ∃ i r a, wave_done plan i r ∧ work_item a = item ∧ ran r a.
Proof.
  intros Hr Hs Hdone item Hin. destruct (fleet_schedule_cases s Hr _ _ _ _ _ Hs) as [_ [p Hf]].
  pose proof (scheduled_items s Hr _ _ _ _ _ _ _ Hf) as Hitems. rewrite <- Hitems in Hin.
  apply list_elem_of_fmap in Hin as (x & -> & Hx%list_elem_of_In%in_concat).
  destruct Hx as (rows & Hrows & Hx). apply list_elem_of_In in Hrows, Hx.
  apply list_elem_of_fmap in Hrows as (w & -> & [i Hi]%list_elem_of_lookup).
  destruct (Hdone i) as [r Hd]; [by eapply lookup_lt_Some|].
  exists i, r, (assignment x). split; [done|]. split; [done|]. by eapply wave_done_ran.
Qed.
