(* ===== verification/FleetRoundTrip.v ===== *)
(** * Fleet receipts survive their file

    Reading what [to_dict] wrote, and what a fleet receipt that was read is
    known to be. *)
From S2P Require Import Prelude PyFloat FloatRepr Hashlib Registry GpuPool PoolParsing.
From S2P Require Import PoolRoundTrip Execution ReceiptParsing Intervals ExecutionSafety.
From S2P Require Import ReceiptRoundTrip ParseSound Fleet FleetScheduler FleetReceipts.
From S2P Require Import FleetParsing FleetReceiptSafety.

Lemma parse_host_status_ok x : parse_host_status (HostWaveStatus_value x) = Ok x.
Proof. by destruct x. Qed.
Lemma host_status_text x : is_text (HostWaveStatus_value x) = true.
Proof. by destruct x. Qed.
#[export] Hint Rewrite parse_host_status_ok : wire.
#[export] Hint Rewrite strict_text_ok using apply host_status_text : wire.

Lemma some_sha256_text o : some_sha256 o = true → none_or is_text o = true.
Proof. destruct o as [s|]; [apply hash_text|done]. Qed.

Section round_trip.
Context `{FileSystem}.

(** A host receipt all of whose parts were constructed. *)
Definition host_valid (h : HostWaveReceipt) : Prop :=
  new_HostWaveReceipt h = Ok h ∧ ∀ d, dispatch_receipt h = Some d → wave_receipt_valid d.
Definition fleet_valid (r : FleetWaveReceipt) : Prop :=
  new_FleetWaveReceipt r = Ok r ∧ ∀ h, h ∈ host_receipts r → host_valid h.

(** The digests of a host receipt; failure evidence of a success is absent. *)
Lemma host_texts h :
  new_HostWaveReceipt h = Ok h →
  none_or is_text (hr_failure_sha256 h) = true ∧
  none_or is_text (prior_host_receipt_sha256 h) = true.
Proof.
  unfold new_HostWaveReceipt. intros Hh. repeat step_ok Hh. split.
  - destruct (hr_status h).
    + match goal with Hs : _ = Ok a1 |- _ => repeat step_ok Hs end. bools.
      by match goal with Hx : hr_failure_sha256 h = None |- _ => rewrite Hx end.
    + match goal with Hs : _ = Ok a1 |- _ => repeat step_ok Hs end. bools. by apply some_sha256_text.
  - destruct (hr_attempt h =? 1) eqn:Ea; cbn in *; bools.
    + by match goal with Hx : prior_host_receipt_sha256 h = None |- _ => rewrite Hx end.
    + by apply some_sha256_text.
Qed.

Lemma host_receipt_round_trip h :
  host_valid h → host_receipt_from_dict (host_receipt_json h) = Ok h.
Proof.
  intros [Hh Hd]. destruct (host_texts h Hh) as [H1 H2].
  pose proof Hh as Hx. unfold new_HostWaveReceipt in Hx. do 2 step_ok Hx. clear Hx. sha_facts. text_facts.
  unfold host_receipt_from_dict, host_receipt_json. read_row.
  rewrite (optional_ok wave_receipt_from_dict wave_receipt_json)
    by (first [intros; by apply wave_receipt_round_trip, Hd | done]).
  autorewrite with wire. replace {| hr_host_id := _ |} with h by (by destruct h). rewrite Hh.
  destruct (dispatch_receipt h) as [d|]; [|done]. cbn [jopt fmap option_fmap option_map].
  unfold wave_receipt_sha256. rewrite strict_text_ok by apply content_sha256_text.
  rewrite bool_decide_eq_true_2 by reflexivity. reflexivity.
Qed.

Lemma fleet_prior_text r :
  new_FleetWaveReceipt r = Ok r → none_or is_text (prior_fleet_receipt_sha256 r) = true.
Proof.
  unfold new_FleetWaveReceipt. intros Hr. repeat step_ok Hr.
  destruct (fr_attempt r =? 1) eqn:Ea; cbn in *; bools.
  - by match goal with Hx : prior_fleet_receipt_sha256 r = None |- _ => rewrite Hx end.
  - by apply some_sha256_text.
Qed.

(** How a receipt and the prior receipt given with it must fit. *)
Definition chained (plan : GpuFleetDispatchPlan) (r : FleetWaveReceipt)
    (prior : option FleetWaveReceipt) : Prop :=
  match prior with
  | None => fr_attempt r = 1
  | Some p => fr_attempt r ≠ 1 ∧
      aggregate plan (fleet_wave_index r) (host_receipts r) (Some p) = Ok r
  end.

Lemma fleet_receipt_round_trip plan prior r :
  fleet_valid r → validate_for_plan plan r = Ok tt → chained plan r prior →
  fleet_receipt_from_dict (fleet_receipt_json r) plan prior None = Ok r.
Proof.
  intros [Hr Hh] Hv Hc. pose proof (fleet_prior_text r Hr) as H1.
  pose proof Hr as Hx. unfold new_FleetWaveReceipt in Hx. do 5 step_ok Hx. clear Hx. sha_facts. bools.
  unfold fleet_receipt_from_dict, fleet_receipt_json. read_row.
  rewrite (list_of_ok _ host_receipt_from_dict host_receipt_json)
    by (intros; by apply host_receipt_round_trip, Hh).
  autorewrite with wire. rewrite (bool_decide_eq_true_2 (_ = _)) by done. cbn [negb].
  replace {| fr_schema_version := _ |} with r by (by destruct r). rewrite Hr, Hv.
  destruct prior as [p|]; cbn in Hc.
  - replace (1 <? fr_attempt r) with true by lia. rewrite (proj2 Hc).
    by rewrite bool_decide_eq_true_2.
  - by rewrite Hc.
Qed.

(** ** What is read *)
Lemma new_HostWaveReceipt_id a b : new_HostWaveReceipt a = Ok b → b = a.
Proof. unfold new_HostWaveReceipt. intros Ha. repeat step_ok Ha. by injection Ha as <-. Qed.

Lemma host_parsed v h : host_receipt_from_dict v = Ok h → host_valid h.
Proof.
  unfold host_receipt_from_dict. intros Hp. repeat step_ok Hp.
  pose proof (new_HostWaveReceipt_id _ _ Hp) as ->. split; [exact Hp|]. cbn [dispatch_receipt].
  intros d ->. by destruct (optional_Ok _ _ _ E0) as [j ?%wave_receipt_parsed].
Qed.

Lemma fleet_receipt_parsed v plan prior sidecar r :
  fleet_receipt_from_dict v plan prior sidecar = Ok r →
  fleet_valid r ∧ validate_for_plan plan r = Ok tt ∧ chained plan r prior.
Proof.
  unfold fleet_receipt_from_dict. intros Hp. repeat step_ok Hp. injection Hp as <-.
  destruct (new_FleetWaveReceipt_Ok _ _ E9) as (Heq & _). destruct a9.
  split; [|split; [exact E10|]].
  - rewrite Heq in E9 |- *. split; [exact E9|]. cbn [host_receipts]. intros h Hh.
    destruct (list_of_Ok _ _ _ _ _ E0 Hh) as [j Hj]. by eapply host_parsed.
  - destruct (1 <? fr_attempt a8) eqn:Ea, prior as [p|]; try done; repeat step_ok E11.
    + bools. cbn. split; [lia|]. congruence.
    + bools. cbn. rewrite Heq in E9. assert (1 ≤ fr_attempt a8); [|lia].
      rewrite <- Heq in E9. by destruct (new_FleetWaveReceipt_Ok _ _ E9) as (_ & _ & ? & _).
Qed.

Lemma aggregate_same_wave plan index rows p r :
  aggregate plan index rows (Some p) = Ok r → fleet_wave_index p = index.
Proof. unfold aggregate. intros Ha. step_ok Ha. repeat step_ok E. by bools. Qed.
End round_trip.

(** A fleet receipt survives its file and keeps its chain.  A receipt whose
    parts were constructed, valid for the plan and either a first attempt or what
    [aggregate] makes of the prior receipt, written by [to_dict], is read back as
    the same receipt; and every value that [from_dict] accepts is such a
    receipt: with a prior receipt it is a retry of it, without one a first
    attempt, so nothing but the retry protocol can be read from files. *)
Theorem fleet_receipt_reads_back `{FileSystem} plan prior r :
  (fleet_valid r → validate_for_plan plan r = Ok tt → chained plan r prior →
   fleet_receipt_from_dict (fleet_receipt_json r) plan prior None = Ok r) ∧
  (∀ v sidecar, fleet_receipt_from_dict v plan prior sidecar = Ok r →
     fleet_valid r ∧ validate_for_plan plan r = Ok tt ∧
     match prior with Some p => retries plan p r | None => fr_attempt r = 1 end ∧
     fleet_receipt_from_dict (fleet_receipt_json r) plan prior None = Ok r).
Proof.
  split; [apply fleet_receipt_round_trip|]. intros v sidecar Hp.
  destruct (fleet_receipt_parsed _ _ _ _ _ Hp) as (Hr & Hv & Hc).
  split; [exact Hr|]. split; [exact Hv|]. split; [|by apply fleet_receipt_round_trip].
  destruct prior as [p|]; [|exact Hc]. destruct Hc as [_ Ha].
  apply (retries_step _ p p r (host_receipts r)); [constructor|].
  by rewrite (aggregate_same_wave _ _ _ _ _ Ha).
Qed.
