(* ===== verification/FleetDemo.v ===== *)
(** * A fleet plan that is scheduled and executed

    The host of the demo device runs one item; the properties of the fleet files
    are applied to its plan and to a run of it that fails. *)
From S2P Require Import Prelude PyFloat FloatRepr Hashlib Registry GpuPool Scheduler PoolSafety.
From S2P Require Import Execution Intervals ExecutionSafety ExecutionTotal ExecutionDemo.
From S2P Require Import Fleet FleetScheduler FleetReceipts FleetWaves FleetCompose FleetSafety.
From S2P Require Import FleetPaths FleetTotal FleetReceiptSafety.
From S2P Require Import ParseSound FleetParsing FleetRoundTrip.
#[local] Existing Instance demo_gate.

Definition demo_host : HostInventoryBinding := {|
  hb_schema_version := 1; hb_host_id := "h"; hb_inventory := demo_inventory;
  hb_interference_envelope := interference_envelope demo_scheduler |}.
Definition demo_binding : HostExecutionBinding := {|
  xb_schema_version := 1; xb_host_id := "h"; xb_inventory_sha256 := inventory_digest demo_inventory;
  xb_interference_envelope_sha256 := envelope_sha256 (interference_envelope demo_scheduler);
  xb_port_start := 24000; xb_port_end := 24010; cache_namespace := "/cache/h";
  evidence_namespace := "/evidence/h"; xb_contention_domain := "rack" |}.
Definition demo_fleet : GpuFleetScheduler := {|
  fs_registry := registry demo_scheduler;
  fleet_inventory := {| fi_schema_version := 1; hosts := [demo_host] |};
  execution_bindings := [demo_binding]; fs_seed := 1 |}.
Definition demo_budgets : list (string * string) := [(item_id run_item, run_hash)].
Definition demo_host_plan : HostDispatchPlan := {|
  hp_host_id := "h"; host_inventory_sha256 := inventory_digest demo_inventory;
  execution_binding := demo_binding; dispatch_plan := run_plan |}.

Lemma demo_binding_valid : new_HostExecutionBinding demo_binding = Ok demo_binding.
Proof.
  unfold new_HostExecutionBinding, require_sha256.
  cbn [demo_binding xb_inventory_sha256 xb_interference_envelope_sha256].
  unfold inventory_digest, envelope_sha256. by rewrite !content_sha256_is_hash.
Qed.

Lemma demo_fleet_ready : fleet_ready demo_fleet.
Proof.
  split; [reflexivity|]. intros x ->%list_elem_of_singleton. exact demo_binding_valid.
Qed.
Lemma demo_fleet_valid : new_GpuFleetScheduler demo_fleet = Ok demo_fleet.
Proof.
  unfold new_GpuFleetScheduler. cbn [demo_fleet execution_bindings check_bindings].
  change (fleet_host _ _) with (Ok demo_host). cbn [demo_host hb_inventory hb_interference_envelope].
  cbn [demo_binding xb_inventory_sha256 xb_interference_envelope_sha256].
  generalize (inventory_digest demo_inventory) as d.
  generalize (envelope_sha256 (interference_envelope demo_scheduler)) as e. intros e d.
  rewrite (bool_decide_eq_true_2 (d = d) eq_refl), (bool_decide_eq_true_2 (e = e) eq_refl).
  reflexivity.
Qed.

(** ** The pool scheduler of the host *)
Lemma run_checked : check_items demo_scheduler [run_item] = Ok tt.
Proof.
  apply check_items_Ok. intros i Hi. apply (proj1 (check_items_Ok _ _) demo_check).
  apply list_elem_of_singleton in Hi as ->. left.
Qed.
Lemma run_schedules :
  schedule_work_items demo_scheduler [run_item] demo_receipt [] demo_budgets = Ok run_plan.
Proof.
  unfold schedule_work_items, schedule_work_items_authorized.
  change (require_sha256 "receipts_sha256" demo_receipt) with (Ok tt).
  cbn [map]. unfold demo_budgets. cbn [map fst snd concat app].
  assert (unique_text [item_id run_item] = true) as -> by (apply bool_decide_eq_true_2, NoDup_singleton).
  assert (same_text_set [item_id run_item] [item_id run_item] = true) as ->
    by (apply bool_decide_eq_true_2; reflexivity).
  cbn [negb].
  rewrite require_all_sha256_Ok.
  2:{ intros f [->|[->|?%elem_of_nil]%elem_of_cons]%elem_of_cons;
        [apply content_sha256_is_hash|reflexivity|done]. }
  cbn [forallb negb existsb overlap].
  change (dispatchable (cell run_item) (bool_decide (item_id run_item ∈ []))) with true.
  assert (bool_decide (item_id run_item ∈ map cell_id (cells (registry demo_scheduler))) = true) as ->
    by (apply bool_decide_eq_true_2; left).
  assert (unique_text [] = true) as -> by (apply bool_decide_eq_true_2, NoDup_nil_2).
  cbn [negb orb]. rewrite run_checked.
  change (dispatch_order demo_scheduler [run_item]) with [run_item].
  assert (place_items demo_scheduler (initial_placement demo_scheduler) [run_item]
    = Ok [demo_assignment "tts"]) as -> by (vm_compute; reflexivity).
  assert (pack_waves demo_scheduler [demo_assignment "tts"] [] = Ok [[demo_assignment "tts"]]) as ->
    by (vm_compute; reflexivity).
  pose proof (demo_wave_valid 0 "tts" ltac:(lia)) as Hw. cbn [freeze_waves].
  unfold demo_wave in Hw at 1. rewrite Hw. exact run_plan_valid.
Qed.

Lemma demo_schedule_on :
  schedule_on demo_fleet demo_host demo_binding [run_item] demo_receipt [] demo_budgets = Ok run_plan.
Proof.
  unfold schedule_on. change (new_GpuPoolScheduler _) with (Ok demo_scheduler).
  assert (budgets_for demo_budgets [run_item] = Ok demo_budgets) as ->; [|exact run_schedules].
  unfold budgets_for, demo_budgets, budget_of. cbn [mapR list_find fst snd].
  rewrite decide_True by reflexivity. reflexivity.
Qed.

(** ** The fleet scheduler *)
Definition demo_key : string := fleet_group_key run_item.
Lemma demo_groups : fleet_groups [run_item] = [(demo_key, [run_item])].
Proof.
  unfold fleet_groups. cbn [map]. fold demo_key. change (remove_dups [demo_key]) with [demo_key].
  change (sorted_by _ [demo_key]) with [demo_key]. cbn [map]. unfold fleet_group.
  rewrite filter_cons_True by reflexivity. reflexivity.
Qed.

Lemma demo_accepts : host_accepts_group demo_fleet demo_receipt [] demo_budgets [run_item] "h" = Ok true.
Proof.
  unfold host_accepts_group. change (fleet_host _ _) with (Ok demo_host).
  change (binding_for _ _) with (Ok demo_binding). cbv beta iota. by rewrite demo_schedule_on.
Qed.

Lemma demo_placed :
  ∃ p, place_groups demo_fleet (host_accepts_group demo_fleet demo_receipt [] demo_budgets)
         (empty_placement demo_fleet) (fleet_groups [run_item]) = Ok p ∧
    default [] (items_by_host p !! "h") = [run_item].
Proof.
  rewrite demo_groups. cbn [place_groups]. unfold place_group.
  change (host_ids demo_fleet) with ["h"]. cbn [feasible_hosts]. rewrite demo_accepts.
  cbn [min_by min_from]. change (fleet_host _ _) with (Ok demo_host). cbv beta iota.
  eexists. split; [reflexivity|]. cbn [items_by_host]. by rewrite lookup_insert_eq.
Qed.

Lemma demo_host_plan_valid : new_HostDispatchPlan demo_host_plan = Ok demo_host_plan.
Proof.
  unfold new_HostDispatchPlan, require_sha256.
  cbn [demo_host_plan hp_host_id host_inventory_sha256 execution_binding dispatch_plan demo_binding
    run_plan xb_host_id xb_inventory_sha256 inventory_sha256 dp_interference_envelope_sha256
    xb_interference_envelope_sha256 waves].
  assert (is_hash 64 (inventory_digest demo_inventory) = true) as -> by apply content_sha256_is_hash.
  generalize (inventory_digest demo_inventory) as d.
  generalize (envelope_sha256 (interference_envelope demo_scheduler)) as e. intros e d.
  rewrite (bool_decide_eq_true_2 (d = d) eq_refl), (bool_decide_eq_true_2 (e = e) eq_refl).
  reflexivity.
Qed.

Lemma demo_planned p :
  default [] (items_by_host p !! "h") = [run_item] →
  make_host_plans demo_fleet p demo_receipt [] demo_budgets (host_ids demo_fleet)
    = Ok [demo_host_plan].
Proof.
  intros Hp. change (host_ids demo_fleet) with ["h"]. cbn [make_host_plans]. rewrite Hp.
  change (fleet_host _ _) with (Ok demo_host). change (binding_for _ _) with (Ok demo_binding).
  cbv beta iota. rewrite demo_schedule_on. fold demo_host_plan.
  change (new_HostDispatchPlan _) with (new_HostDispatchPlan demo_host_plan).
  by rewrite demo_host_plan_valid.
Qed.

Lemma run_item_new i : i ∈ [run_item] → new_PoolWorkItem i = Ok i.
Proof. intros ->%list_elem_of_singleton. by vm_compute. Qed.

Lemma demo_budgets_cover :
  same_text_set (map fst demo_budgets) (map item_id [run_item]) = true.
Proof. apply bool_decide_eq_true_2. reflexivity. Qed.
Lemma demo_budgets_hashes :
  forallb (λ b : string * string, is_hash 64 b.1 && is_hash 64 b.2) demo_budgets = true.
Proof.
  cbn [forallb demo_budgets fst snd].
  assert (is_hash 64 (item_id run_item) = true) as -> by apply content_sha256_is_hash. reflexivity.
Qed.

(** ** The fleet wave of the host *)
Definition demo_row : GpuFleetAssignment := {|
  fa_host_id := "h"; fa_host_inventory_sha256 := inventory_digest demo_inventory;
  host_dispatch_plan_sha256 := plan_sha256 run_plan;
  fa_execution_binding_sha256 := execution_binding_sha256 demo_binding; local_wave_index := 0;
  local_wave_sha256 := wave_sha256 (demo_wave 0 "tts"); assignment := demo_assignment "tts";
  fa_cache_root := "/cache/h/ctts"; fa_evidence_root := "/evidence/h/etts";
  contention_domain := "rack" |}.
Definition demo_fleet_wave : GpuFleetDispatchWave := {|
  fw_wave_index := 0; fw_assignments := [demo_row] |}.

Lemma demo_row_valid : new_GpuFleetAssignment demo_row = Ok demo_row.
Proof.
  unfold new_GpuFleetAssignment. rewrite require_all_sha256_Ok; [reflexivity|].
  intros f [->|[->|[->|[->|?%elem_of_nil]%elem_of_cons]%elem_of_cons]%elem_of_cons]%elem_of_cons;
    [apply content_sha256_is_hash..|done].
Qed.

Lemma demo_wrapped : wrap_local_wave demo_host_plan (demo_wave 0 "tts") = Ok [demo_row].
Proof.
  unfold wrap_local_wave. cbn [demo_wave assignments mapR]. unfold wrap_assignment.
  change (cache_root_for _ _) with (Ok "/cache/h/ctts").
  change (evidence_root_for _ _) with (Ok "/evidence/h/etts"). cbv beta iota.
  change (new_GpuFleetAssignment _) with (new_GpuFleetAssignment demo_row).
  by rewrite demo_row_valid.
Qed.

Lemma demo_wave_canonical : new_GpuFleetDispatchWave demo_fleet_wave = Ok demo_fleet_wave.
Proof.
  unfold new_GpuFleetDispatchWave. cbn [demo_fleet_wave fw_wave_index fw_assignments map].
  change (sorted_by _ [fleet_order demo_row]) with [fleet_order demo_row].
  generalize (fleet_order demo_row) as o. intros o.
  rewrite (bool_decide_eq_true_2 ([o] = [o]) eq_refl), (bool_decide_eq_true_2 _ (NoDup_singleton o)).
  reflexivity.
Qed.

Lemma sorted_by_one {A K} `{PyOrd K} (key : A → K) x : sorted_by key [x] = [x].
Proof. reflexivity. Qed.

Lemma demo_offered :
  offer_host 0 ∅ {| selected := []; selected_hosts := [] |} demo_host_plan
    = Ok {| selected := [demo_row]; selected_hosts := ["h"] |}.
Proof.
  unfold offer_host. change (next_wave ∅ demo_host_plan) with (Some (demo_wave 0 "tts")).
  cbv beta iota. rewrite demo_wrapped. cbn [selected selected_hosts app]. rewrite sorted_by_one.
  fold demo_fleet_wave. by rewrite demo_wave_canonical.
Qed.

Lemma demo_offers rotation :
  offer_hosts 0 ∅ {| selected := []; selected_hosts := [] |}
    (sorted_by (host_turn demo_fleet rotation) [demo_host_plan])
    = Ok {| selected := [demo_row]; selected_hosts := ["h"] |}.
Proof. rewrite sorted_by_one. cbn [offer_hosts]. by rewrite demo_offered. Qed.

Lemma demo_known : existsb (λ p, negb (bool_decide (hp_host_id p ∈ host_ids demo_fleet)))
  [demo_host_plan] = false.
Proof. reflexivity. Qed.

Lemma demo_compose_one :
  compose_one demo_fleet [demo_host_plan] 0 ∅ = Ok (demo_fleet_wave, <["h" := 1%nat]> ∅).
Proof.
  unfold compose_one. rewrite demo_known, demo_offers. cbn [selected selected_hosts].
  rewrite bool_decide_eq_false_2 by discriminate. rewrite sorted_by_one.
  fold demo_fleet_wave. by rewrite demo_wave_canonical.
Qed.

Lemma demo_started :
  forallb (λ p, bool_decide (next_wave ∅ p = None)) [demo_host_plan] = false.
Proof. reflexivity. Qed.
Lemma demo_finished :
  forallb (λ p, bool_decide (next_wave (<["h" := 1%nat]> ∅) p = None)) [demo_host_plan] = true.
Proof. reflexivity. Qed.

Lemma demo_composed : compose_fleet_waves demo_fleet [demo_host_plan] = Ok [demo_fleet_wave].
Proof.
  unfold compose_fleet_waves. change (local_wave_count [demo_host_plan]) with 1%nat.
  cbn [compose_loop]. by rewrite demo_started, demo_compose_one, demo_finished.
Qed.

Lemma demo_fleet_plan :
  ∃ plan, fleet_schedule_work_items demo_fleet [run_item] demo_receipt [] demo_budgets = Ok plan ∧
    host_plans plan = [demo_host_plan] ∧ fp_waves plan = [demo_fleet_wave].
Proof.
  destruct demo_placed as (p & Hp & Hi). pose proof (demo_planned p Hi) as Hm.
  destruct (fleet_schedule_total demo_fleet [run_item] demo_receipt [] demo_budgets p [demo_host_plan])
    as [(plan & Hs & Hh)|(ws & r & r' & Hc & Hr & Hr' & Hne & _)];
    [exact demo_fleet_ready|exact demo_fleet_valid|reflexivity|exact run_item_new|reflexivity
    |apply NoDup_singleton|reflexivity|apply NoDup_nil_2|reflexivity|exact demo_budgets_cover
    |exact demo_budgets_hashes|exact Hp|exact Hm| |].
  - exists plan. split; [exact Hs|]. split; [exact Hh|].
    destruct (fleet_schedule_cases _ demo_fleet_ready _ _ _ _ _ Hs) as (_ & q & Hf).
    pose proof (fd_waves _ _ _ _ _ _ _ _ Hf) as Hw. rewrite Hh, demo_composed in Hw.
    congruence.
  - rewrite demo_composed in Hc. injection Hc as <-.
    apply list_elem_of_singleton in Hr, Hr'. subst r r'. destruct Hne. reflexivity.
Qed.

(** ** Witnesses for the scheduler *)
Lemma demo_plan_ready : plan_ready demo_fleet demo_host_plan.
Proof.
  destruct demo_placed as (p & _ & Hi).
  destruct (planned_hosts demo_fleet demo_fleet_ready _ _ _ _ _ (demo_planned p Hi)) as [Hall _].
  exact (Forall_inv Hall).
Qed.

Lemma compose_total_witness :
  ∃ ws, compose_fleet_waves demo_fleet [demo_host_plan] = Ok ws ∧
    Forall2 (runs demo_host_plan) (waves run_plan) (host_slices "h" ws).
Proof.
  destruct (compose_total demo_fleet [demo_host_plan]) as (ws & Hc & _ & _ & _ & Hruns).
  - constructor; [exact demo_plan_ready|constructor].
  - apply NoDup_singleton.
  - exists ws. split; [exact Hc|]. exact (Hruns _ (list_elem_of_here _ _)).
Defined.

Lemma fleet_schedule_returns_witness :
  (∃ plan, fleet_schedule_work_items demo_fleet [run_item] demo_receipt [] demo_budgets = Ok plan ∧
     host_plans plan = [demo_host_plan]) ∨
  (∃ ws r r', compose_fleet_waves demo_fleet [demo_host_plan] = Ok ws ∧ r ∈ fleet_assignments ws ∧
     r' ∈ fleet_assignments ws ∧ fa_item_id r ≠ fa_item_id r' ∧
     fleet_assignment_id r = fleet_assignment_id r').
Proof.
  destruct demo_placed as (p & Hp & Hi).
  apply (fleet_schedule_returns demo_fleet [run_item] demo_receipt [] demo_budgets p [demo_host_plan]);
    [exact demo_fleet_ready|exact demo_fleet_valid|reflexivity|exact run_item_new|reflexivity
    |apply NoDup_singleton|reflexivity|apply NoDup_nil_2|reflexivity|exact demo_budgets_cover
    |exact demo_budgets_hashes|exact Hp|exact (demo_planned p Hi)].
Defined.

Lemma fleet_schedule_safe_witness :
  ∃ plan, fleet_schedule_work_items demo_fleet [run_item] demo_receipt [] demo_budgets = Ok plan ∧
    map (λ r, work_item (assignment r)) (fleet_assignments (fp_waves plan)) ≡ₚ [run_item] ∧
    ∀ w, w ∈ fp_waves plan → domain_free (fw_assignments w).
Proof.
  destruct demo_fleet_plan as (plan & Hs & _). exists plan. split; [exact Hs|].
  destruct (fleet_schedule_safe demo_fleet demo_fleet_ready _ _ _ _ _ Hs) as (Hi & _ & _ & Hw).
  split; [exact Hi|]. intros w Hin. exact (proj2 (Hw w Hin)).
Defined.

Lemma fleet_order_irrelevant_witness :
  fleet_schedule_work_items demo_fleet demo_items demo_receipt [] [] =
  fleet_schedule_work_items demo_fleet (reverse demo_items) demo_receipt [] [].
Proof.
  apply (fleet_order_irrelevant demo_fleet). symmetry. apply reverse_Permutation.
Defined.

(** ** A fleet wave that fails and is retried *)
Lemma run_succeeds :
  ∃ d, wave_sound run_plan (demo_wave 0 "tts") d ∧ succeeded d = true ∧
    wr_plan_sha256 d = plan_sha256 run_plan ∧ wr_wave_index d = 0.
Proof.
  destruct (run_wave_total good_run run_plan (demo_wave 0 "tts") None None) as (d & Hd & Hsucc).
  - apply run_orderly.
  - apply run_funded.
  - by apply demo_wave_valid.
  - apply run_in_plan.
  - intros row Hr. destruct (not_elem_of_nil row Hr).
  - intros row a b Hr. destruct (not_elem_of_nil row Hr).
  - destruct (run_wave_sound good_run run_plan (good_faithful run_start) (demo_wave 0 "tts") None None d)
      as (Hs & Hi & Hp); [by apply demo_wave_valid|intros f' Hf'; discriminate Hf'|exact Hd|].
    exists d. split; [exact Hs|]. split; [exact (Hsucc good_successful)|]. by split.
Qed.

Section outcome.
Context (plan : GpuFleetDispatchPlan) (Hplans : host_plans plan = [demo_host_plan])
  (Hwaves : fp_waves plan = [demo_fleet_wave]).

Definition demo_outcome (n : Z) (state : HostWaveStatus) (d : option DispatchWaveExecutionReceipt)
    (failure prior : option string) : HostWaveReceipt := {|
  hr_host_id := "h"; hr_fleet_plan_sha256 := fleet_plan_sha256 plan;
  hr_fleet_wave_sha256 := fleet_wave_sha256 demo_fleet_wave;
  hr_host_dispatch_plan_sha256 := plan_sha256 run_plan; hr_local_wave_index := 0;
  hr_local_wave_sha256 := wave_sha256 (demo_wave 0 "tts"); hr_attempt := n; hr_status := state;
  dispatch_receipt := d; hr_failure_sha256 := failure; prior_host_receipt_sha256 := prior |}.
Definition demo_wave_outcome (n : Z) (h : HostWaveReceipt) (prior : option string)
    : FleetWaveReceipt := {|
  fr_schema_version := 1; fr_fleet_plan_sha256 := fleet_plan_sha256 plan; fleet_wave_index := 0;
  fr_fleet_wave_sha256 := fleet_wave_sha256 demo_fleet_wave; fr_attempt := n;
  host_receipts := [h]; prior_fleet_receipt_sha256 := prior |}.

(** The first attempt: no receipt of the pool, only failure evidence. *)
Definition failed_outcome : HostWaveReceipt := demo_outcome 1 HOST_FAILED None (Some run_hash) None.
Definition failed_wave : FleetWaveReceipt := demo_wave_outcome 1 failed_outcome None.

Lemma outcome_new n state d failure prior :
  1 ≤ n → (n = 1 → prior = None) → (n ≠ 1 → some_sha256 prior = true) →
  match state with
  | HOST_FAILED => d = None ∧ some_sha256 failure = true
  | HOST_SUCCEEDED => failure = None ∧ ∃ w, d = Some w ∧ succeeded w = true ∧
      wr_plan_sha256 w = plan_sha256 run_plan ∧ wr_wave_index w = 0 ∧
      wr_wave_sha256 w = wave_sha256 (demo_wave 0 "tts")
  end →
  new_HostWaveReceipt (demo_outcome n state d failure prior) = Ok (demo_outcome n state d failure prior).
Proof.
  intros Hn H1 H2 Hst. unfold new_HostWaveReceipt.
  cbn [demo_outcome hr_host_id hr_fleet_plan_sha256 hr_fleet_wave_sha256 hr_host_dispatch_plan_sha256
    hr_local_wave_index hr_local_wave_sha256 hr_attempt hr_status dispatch_receipt hr_failure_sha256
    prior_host_receipt_sha256].
  rewrite require_all_sha256_Ok.
  2:{ intros f [->|[->|[->|[->|?%elem_of_nil]%elem_of_cons]%elem_of_cons]%elem_of_cons]%elem_of_cons;
      [apply content_sha256_is_hash..|done]. }
  replace (n <? 1) with false by lia.
  assert (Hprior : (n =? 1) && negb (bool_decide (prior = None)) = false ∧
                   negb (n =? 1) && negb (some_sha256 prior) = false).
  { destruct (Z.eqb_spec n 1) as [He|He]; [by rewrite (H1 He)|by rewrite (H2 He)]. }
  destruct Hprior as [-> ->]. destruct state.
  - destruct Hst as (-> & w & -> & -> & -> & -> & ->). by rewrite !bool_decide_eq_true_2.
  - destruct Hst as [-> ->]. reflexivity.
Qed.

Lemma wave_outcome_new n state d failure prior fleet_prior :
  1 ≤ n → (n = 1 → fleet_prior = None) → (n ≠ 1 → some_sha256 fleet_prior = true) →
  new_FleetWaveReceipt (demo_wave_outcome n (demo_outcome n state d failure prior) fleet_prior)
    = Ok (demo_wave_outcome n (demo_outcome n state d failure prior) fleet_prior).
Proof.
  intros Hn H1 H2. unfold new_FleetWaveReceipt, require_sha256.
  cbn [demo_wave_outcome fr_schema_version fr_fleet_plan_sha256 fleet_wave_index
    fr_fleet_wave_sha256 fr_attempt host_receipts prior_fleet_receipt_sha256 map existsb demo_outcome
    hr_host_id hr_fleet_plan_sha256 hr_fleet_wave_sha256].
  unfold fleet_plan_sha256, fleet_wave_sha256. rewrite !content_sha256_is_hash.
  replace (n <? 1) with false by lia. rewrite (bool_decide_eq_false_2 ([_] = [])) by discriminate.
  assert (Hprior : (n =? 1) && negb (bool_decide (fleet_prior = None)) = false ∧
                   negb (n =? 1) && negb (some_sha256 fleet_prior) = false).
  { destruct (Z.eqb_spec n 1) as [He|He]; [by rewrite (H1 He)|by rewrite (H2 He)]. }
  destruct Hprior as [-> ->].
  generalize (content_sha256 (fleet_plan_json plan)) as x.
  generalize (content_sha256 (fleet_wave_json demo_fleet_wave)) as y. intros y x.
  rewrite (bool_decide_eq_true_2 (x = x) eq_refl), (bool_decide_eq_true_2 (y = y) eq_refl).
  reflexivity.
Qed.

Lemma demo_wave_hosts : wave_host_ids demo_fleet_wave = ["h"].
Proof. reflexivity. Qed.

Lemma outcome_host_valid n state d failure prior :
  match d with
  | None => True
  | Some w => same_text_set (map ar_assignment_sha256 (assignment_receipts w))
                [assignment_id (demo_assignment "tts")] = true
  end →
  validate_host_receipt plan demo_fleet_wave (demo_outcome n state d failure prior) = Ok tt.
Proof.
  intros Hd. unfold validate_host_receipt. cbn [demo_outcome hr_host_id].
  change (rows_of_host demo_fleet_wave "h") with [demo_row]. rewrite Hplans.
  change (host_plan_by_id [demo_host_plan] !! "h") with (Some demo_host_plan). cbv beta iota.
  cbn [demo_outcome hr_host_dispatch_plan_sha256 hr_local_wave_index hr_local_wave_sha256 dispatch_receipt
    map dispatch_plan demo_host_plan local_wave_index local_wave_sha256 demo_row assignment].
  generalize (plan_sha256 run_plan) as x. generalize (wave_sha256 (demo_wave 0 "tts")) as y.
  intros y x.
  rewrite (bool_decide_eq_true_2 (x = x) eq_refl), (bool_decide_eq_true_2 (y = y) eq_refl).
  destruct d as [w|]; [by rewrite Hd|reflexivity].
Qed.

Lemma outcome_valid n m state d failure prior fleet_prior :
  match d with
  | None => True
  | Some w => same_text_set (map ar_assignment_sha256 (assignment_receipts w))
                [assignment_id (demo_assignment "tts")] = true
  end →
  validate_for_plan plan (demo_wave_outcome m (demo_outcome n state d failure prior) fleet_prior)
    = Ok tt.
Proof.
  intros Hd. unfold validate_for_plan.
  cbn [demo_wave_outcome fr_fleet_plan_sha256 fleet_wave_index fr_fleet_wave_sha256 host_receipts map].
  rewrite Hwaves. change (py_index [demo_fleet_wave] 0) with (Some demo_fleet_wave).
  change (zlength [demo_fleet_wave]) with 1. cbv beta iota. cbn [validate_host_receipts].
  rewrite demo_wave_hosts, (outcome_host_valid n state d failure prior Hd).
  generalize (fleet_plan_sha256 plan) as x. generalize (fleet_wave_sha256 demo_fleet_wave) as y.
  intros y x.
  rewrite (bool_decide_eq_true_2 (x = x) eq_refl), (bool_decide_eq_true_2 (y = y) eq_refl).
  reflexivity.
Qed.
End outcome.

(** The retry that succeeds, with the receipt [d] of the pool. *)
Section retry.
Context (plan : GpuFleetDispatchPlan) (Hplans : host_plans plan = [demo_host_plan])
  (Hwaves : fp_waves plan = [demo_fleet_wave]).
Context (d : DispatchWaveExecutionReceipt) (Hsound : wave_sound run_plan (demo_wave 0 "tts") d)
  (Hsucc : succeeded d = true) (Hplan : wr_plan_sha256 d = plan_sha256 run_plan)
  (Hindex : wr_wave_index d = 0).

Definition passed_outcome : HostWaveReceipt :=
  demo_outcome plan 2 HOST_SUCCEEDED (Some d) None (Some (host_receipt_sha256 (failed_outcome plan))).
Definition passed_wave : FleetWaveReceipt :=
  demo_wave_outcome plan 2 passed_outcome (Some (fleet_receipt_sha256 (failed_wave plan))).

Lemma failed_wave_new : new_FleetWaveReceipt (failed_wave plan) = Ok (failed_wave plan).
Proof. apply wave_outcome_new; [lia|done|done]. Qed.
Lemma passed_new : new_HostWaveReceipt passed_outcome = Ok passed_outcome.
Proof.
  apply outcome_new; [lia|lia|intros _; apply content_sha256_is_hash|]. split; [reflexivity|].
  exists d. split; [reflexivity|]. split; [exact Hsucc|]. split; [exact Hplan|].
  split; [exact Hindex|]. exact (proj1 (wave_sound_rows _ _ _ Hsound)).
Qed.
Lemma passed_wave_new : new_FleetWaveReceipt passed_wave = Ok passed_wave.
Proof. apply wave_outcome_new; [lia|lia|intros _; apply content_sha256_is_hash]. Qed.
Lemma passed_valid : validate_for_plan plan passed_wave = Ok tt.
Proof.
  apply outcome_valid; [exact Hplans|exact Hwaves|]. unfold same_text_set.
  apply bool_decide_eq_true_2. symmetry.
  exact (bool_decide_eq_true_1 _ (proj1 (proj2 (wave_sound_rows _ _ _ Hsound)))).
Qed.

Lemma retry_advances :
  retry_rows {["h" := failed_outcome plan]} false [passed_outcome] = Ok true.
Proof.
  cbn [retry_rows passed_outcome demo_outcome hr_host_id]. rewrite lookup_singleton_eq.
  cbn [failed_outcome demo_outcome hr_status hr_attempt prior_host_receipt_sha256
    hr_host_dispatch_plan_sha256 hr_local_wave_sha256].
  rewrite (bool_decide_eq_false_2 (HOST_FAILED = HOST_SUCCEEDED)) by discriminate.
  rewrite bool_decide_eq_false_2 by (intros H%(f_equal hr_attempt); discriminate H).
  change (prior_host_receipt_sha256 passed_outcome)
    with (Some (host_receipt_sha256 (failed_outcome plan))).
  change (hr_host_dispatch_plan_sha256 passed_outcome) with (plan_sha256 run_plan).
  change (hr_local_wave_sha256 passed_outcome) with (wave_sha256 (demo_wave 0 "tts")).
  generalize (host_receipt_sha256 (failed_outcome plan)) as x. generalize (plan_sha256 run_plan) as y.
  generalize (wave_sha256 (demo_wave 0 "tts")) as z. intros z y x.
  rewrite (bool_decide_eq_true_2 (Some x = Some x) eq_refl), (bool_decide_eq_true_2 (y = y) eq_refl).
  by rewrite (bool_decide_eq_true_2 (z = z) eq_refl).
Qed.

Lemma retry_passes : aggregate plan 0 [passed_outcome] (Some (failed_wave plan)) = Ok passed_wave.
Proof.
  unfold aggregate. rewrite sorted_by_one.
  assert (validate_for_plan plan (failed_wave plan) = Ok tt) as -> by (by apply outcome_valid).
  change (fleet_succeeded (failed_wave plan)) with false.
  change (fleet_wave_index (failed_wave plan)) with 0. cbn [Z.eqb negb].
  change (receipts_by_host _) with ({["h" := failed_outcome plan]} : gmap string HostWaveReceipt).
  change (same_text_set _ _) with true. cbn [negb]. rewrite retry_advances.
  assert (wave_digest_at plan 0 = Ok (fleet_wave_sha256 demo_fleet_wave)) as ->
    by (unfold wave_digest_at; by rewrite Hwaves).
  pose proof passed_wave_new as Hnew. unfold passed_wave at 1, demo_wave_outcome at 1 in Hnew.
  change (fr_attempt (failed_wave plan) + 1) with 2. cbn [negb]. rewrite Hnew.
  by rewrite passed_valid.
Qed.
End retry.

Lemma roots_stay_apart_witness :
  cache_root_for demo_binding (demo_assignment "tts") = Ok "/cache/h/ctts" ∧
  evidence_root_for demo_binding (demo_assignment "l0") = Ok "/evidence/h/el0" ∧
  path_prefix (directory ["srv"] "/cache/h/ctts") (directory ["srv"] "/evidence/h/el0") = false.
Proof.
  split; [reflexivity|]. split; [reflexivity|].
  destruct (roots_stay_apart demo_binding (demo_assignment "tts") (demo_assignment "l0")
    "/cache/h/ctts" "/evidence/h/el0" demo_binding_valid eq_refl eq_refl) as (_ & _ & _ & _ & H).
  by apply (H eq_refl).
Defined.

(** ** Witnesses for the receipts *)
Lemma fleet_retry_keeps_success_witness :
  ∃ plan r1 r2, fp_waves plan = [demo_fleet_wave] ∧ retries plan r1 r2 ∧ r1 ≠ r2 ∧
    failed_host_ids r1 = ["h"] ∧ failed_host_ids r2 = [] ∧
    map hr_host_id (host_receipts r2) = map hr_host_id (host_receipts r1).
Proof.
  destruct demo_fleet_plan as (plan & _ & Hp & Hw). destruct run_succeeds as (d & H1 & H2 & H3 & H4).
  pose proof (retry_passes plan Hp Hw d H1) as Hr.
  assert (Hrs : retries plan (failed_wave plan) (passed_wave plan d))
    by exact (retries_step plan (failed_wave plan) (failed_wave plan) (passed_wave plan d)
      [passed_outcome plan d] (retries_refl plan (failed_wave plan)) Hr).
  exists plan, (failed_wave plan), (passed_wave plan d). split; [exact Hw|]. split; [exact Hrs|].
  split; [intros H%(f_equal fr_attempt); discriminate H|]. split; [reflexivity|]. split; [reflexivity|].
  exact (proj1 (proj2 (fleet_retry_keeps_success plan _ _ (failed_wave_new plan) Hrs))).
Defined.

Lemma fleet_run_complete_witness :
  ∃ plan i r a, fleet_schedule_work_items demo_fleet [run_item] demo_receipt [] demo_budgets = Ok plan ∧
    wave_done plan i r ∧ work_item a = run_item ∧ ran r a.
Proof.
  destruct demo_fleet_plan as (plan & Hs & Hp & Hw). destruct run_succeeds as (d & H1 & H2 & H3 & H4).
  exists plan.
  destruct (fleet_run_complete demo_fleet [run_item] demo_receipt [] demo_budgets plan demo_fleet_ready Hs)
    with (item := run_item) as (i & r & a & Hd & Ha & Hr).
  - rewrite Hw. intros i Hi. assert (i = 0%nat) as -> by (cbn in Hi; lia). exists (passed_wave plan d).
    split; [reflexivity|exact (passed_valid plan Hp Hw d H1)| |reflexivity].
    intros h ->%list_elem_of_singleton. exact (passed_new plan d H1 H2 H3 H4).
  - left.
  - exists i, r, a. split; [exact Hs|]. split; [exact Hd|]. split; [exact Ha|exact Hr].
Defined.

Lemma failed_wave_valid plan : fleet_valid (failed_wave plan).
Proof.
  split; [exact (failed_wave_new plan)|]. intros h ->%list_elem_of_singleton.
  split; [|discriminate]. apply outcome_new; [lia|reflexivity|lia|]. split; reflexivity.
Qed.

Lemma fleet_receipt_reads_back_witness :
  ∃ plan, fp_waves plan = [demo_fleet_wave] ∧
    fleet_receipt_from_dict (fleet_receipt_json (failed_wave plan)) plan None None
      = Ok (failed_wave plan).
Proof.
  destruct demo_fleet_plan as (plan & _ & Hp & Hw). exists plan. split; [exact Hw|].
  apply (proj1 (fleet_receipt_reads_back plan None (failed_wave plan)));
    [exact (failed_wave_valid plan)|exact (outcome_valid plan Hp Hw 1 1 _ None _ _ _ I)|reflexivity].
Defined.
