(* ===== verification/Load.v ===== *)
(** * Request corpora and load plans ([experiments/load.py], first part)

    Immutable requests with a content identity, corpora, arrival windows, load
    plans and replay bindings, each with its [validate] and its digests. *)
From S2P Require Import Prelude PyFloat FloatRepr Hashlib Registry GpuPool.

(** [_sha256]; its values are validated first, so NaN and infinity never reach
    [allow_nan=False]. *)
Definition load_sha256 (value : json) : string := content_digest value.

Definition require_nonnegative_integer (value : Z) (name : string) : result unit :=
  raise_if (value <? 0) (ValueError (name +:+ " must be a non-negative integer")) ;;
  Ok tt.

(** [str | int | float | bool | None], and the finiteness of its floats. *)
Definition is_scalar (v : json) : bool :=
  match v with Json.JList _ | Json.JObj _ => false | _ => true end.
Definition finite_scalar (v : json) : bool :=
  match v with Json.JFloat x => ffinite x | _ => true end.

(** ** Sampling parameters *)
Record FrozenSamplingParameters := { items : list (string * json) }.

Definition check_sampling_item (kv : string * json) : result unit :=
  raise_if (string_empty kv.1) (ValueError "sampling parameter keys must be non-empty strings") ;;
  raise_if (negb (is_scalar kv.2)) (TypeError "sampling parameter values must be JSON scalars") ;;
  raise_if (negb (finite_scalar kv.2)) (ValueError "sampling parameter floats must be finite") ;;
  Ok tt.
Definition validate_sampling (p : FrozenSamplingParameters) : result unit :=
  raise_if (match items p with [] => true | _ => false end)
    (ValueError "sampling parameters must not be empty") ;;
  let keys := map fst (items p) in
  raise_if (negb (is_sorted_text keys) || negb (unique_text keys))
    (ValueError "sampling parameter keys must be unique and sorted") ;;
  all_ok check_sampling_item (items p).
(** [from_mapping]; the pairs of a mapping have distinct keys. *)
Definition sampling_from_mapping (parameters : list (string * json))
    : result FrozenSamplingParameters :=
  let value := {| items := sorted_by fst parameters |} in
  _ <-! validate_sampling value ;; Ok value.
Definition sampling_sha256 (p : FrozenSamplingParameters) : result string :=
  _ <-! validate_sampling p ;; Ok (load_sha256 (JObj (items p))).

(** ** Requests *)
Record RequestTemplate := {
  rt_input_token_ids : list Z; rt_requested_output_tokens : Z;
  rt_sampling : FrozenSamplingParameters; rt_cancellation_offset_us : option Z }.

Definition validate_template (t : RequestTemplate) : result unit :=
  raise_if (match rt_input_token_ids t with [] => true | _ => false end)
    (ValueError "tokenized input must not be empty") ;;
  _ <-! all_ok (λ x, require_nonnegative_integer x "input token ID") (rt_input_token_ids t) ;;
  raise_if (rt_requested_output_tokens t <? 1)
    (ValueError "requested output length must be a positive integer") ;;
  _ <-! validate_sampling (rt_sampling t) ;;
  match rt_cancellation_offset_us t with
  | None => Ok tt
  | Some x => require_nonnegative_integer x "cancellation offset"
  end.

Inductive SplitName : Set := WARMUP | SPLIT_TUNING | PILOT | CONFIRMATION | BROAD_REPLICATION.
#[export] Instance SplitName_eq_dec : EqDecision SplitName.
Proof. solve_decision. Defined.
Definition SplitName_value (s : SplitName) : string :=
  match s with
  | WARMUP => "warmup" | SPLIT_TUNING => "tuning" | PILOT => "pilot"
  | CONFIRMATION => "confirmation" | BROAD_REPLICATION => "broad_replication"
  end.

Record RequestFieldHashes := {
  tokenized_input_sha256 : string; requested_length_sha256 : string; arrival_sha256 : string;
  cohort_sha256 : string; cancellation_sha256 : string; fh_sampling_sha256 : string }.

Record ImmutableRequest := {
  namespace : string; rq_split : SplitName; ordinal : Z; request_id : string;
  input_token_ids : list Z; requested_output_tokens : Z; arrival_us : Z; cohort_id : string;
  cancellation_offset_us : option Z; sampling : FrozenSamplingParameters }.

Definition cancellation_json (offset : option Z) : json := JObj [
  ("requested", JBool (bool_decide (offset ≠ None))); ("offset_us", jopt JInt offset)].
Definition identity_payload (namespace : string) (split : SplitName) (ordinal : Z)
    (input_token_ids : list Z) (requested_output_tokens arrival_us : Z) (cohort_id : string)
    (cancellation_offset_us : option Z) (sampling : FrozenSamplingParameters) : json := JObj [
  ("schema_version", JInt 1); ("namespace", JStr namespace); ("split", JStr (SplitName_value split));
  ("ordinal", JInt ordinal); ("input_token_ids", jints input_token_ids);
  ("requested_output_tokens", JInt requested_output_tokens); ("arrival_us", JInt arrival_us);
  ("cohort_id", JStr cohort_id); ("cancellation", cancellation_json cancellation_offset_us);
  ("sampling", JObj (items sampling))].
Definition request_payload (r : ImmutableRequest) : json :=
  identity_payload (namespace r) (rq_split r) (ordinal r) (input_token_ids r)
    (requested_output_tokens r) (arrival_us r) (cohort_id r) (cancellation_offset_us r) (sampling r).

Definition request_template (r : ImmutableRequest) : RequestTemplate := {|
  rt_input_token_ids := input_token_ids r; rt_requested_output_tokens := requested_output_tokens r;
  rt_sampling := sampling r; rt_cancellation_offset_us := cancellation_offset_us r |}.

Definition validate_request (r : ImmutableRequest) : result unit :=
  raise_if (string_empty (namespace r)) (ValueError "request namespace must not be empty") ;;
  _ <-! require_nonnegative_integer (ordinal r) "request ordinal" ;;
  _ <-! require_nonnegative_integer (arrival_us r) "arrival offset" ;;
  raise_if (string_empty (cohort_id r)) (ValueError "cohort identity must not be empty") ;;
  _ <-! validate_template (request_template r) ;;
  raise_if (negb (bool_decide (request_id r = "req-" +:+ load_sha256 (request_payload r))))
    (ValueError "request ID does not match immutable request content") ;;
  Ok tt.

(** [ImmutableRequest.create]. *)
Definition create_request (namespace : string) (split : SplitName) (ordinal : Z)
    (template : RequestTemplate) (arrival_us : Z) (cohort_id : string) : result ImmutableRequest :=
  _ <-! validate_template template ;;
  let payload := identity_payload namespace split ordinal (rt_input_token_ids template)
    (rt_requested_output_tokens template) arrival_us cohort_id
    (rt_cancellation_offset_us template) (rt_sampling template) in
  let value := {|
    namespace := namespace; rq_split := split; ordinal := ordinal;
    request_id := "req-" +:+ load_sha256 payload; input_token_ids := rt_input_token_ids template;
    requested_output_tokens := rt_requested_output_tokens template; arrival_us := arrival_us;
    cohort_id := cohort_id; cancellation_offset_us := rt_cancellation_offset_us template;
    sampling := rt_sampling template |} in
  _ <-! validate_request value ;; Ok value.

Definition field_hashes (r : ImmutableRequest) : result RequestFieldHashes :=
  _ <-! validate_request r ;;
  sampled <-! sampling_sha256 (sampling r) ;;
  Ok {| tokenized_input_sha256 := load_sha256 (jints (input_token_ids r));
        requested_length_sha256 := load_sha256 (JInt (requested_output_tokens r));
        arrival_sha256 := load_sha256 (JInt (arrival_us r));
        cohort_sha256 := load_sha256 (JStr (cohort_id r));
        cancellation_sha256 := load_sha256 (cancellation_json (cancellation_offset_us r));
        fh_sampling_sha256 := sampled |}.

(** ** Corpora *)
Record CorpusHashes := {
  request_ids_sha256 : string; tokenized_inputs_sha256 : string; requested_lengths_sha256 : string;
  arrivals_sha256 : string; cohorts_sha256 : string; cancellations_sha256 : string;
  sampling_parameters_sha256 : string; corpus_sha256 : string }.

Inductive SourceKind : Set := POISSON | CLOSED_LOOP | IMMEDIATE_BURST | EXTERNAL_SHAPE.
#[export] Instance SourceKind_eq_dec : EqDecision SourceKind.
Proof. solve_decision. Defined.
Definition SourceKind_value (k : SourceKind) : string :=
  match k with
  | POISSON => "poisson" | CLOSED_LOOP => "closed_loop" | IMMEDIATE_BURST => "immediate_burst"
  | EXTERNAL_SHAPE => "external_shape"
  end.

Record RequestCorpus := {
  label : string; source_kind : SourceKind; source_identity_sha256 : string;
  source_parameters : list (string * json); synthetic : bool; rc_split : SplitName;
  requests : list ImmutableRequest }.

(** [parameters.get(name)]. *)
Definition parameter (parameters : list (string * json)) (name : string) : option json :=
  (list_to_map (reverse parameters) : gmap string json) !! name.
(** An integer parameter, at least 1. *)
Definition positive_parameter (parameters : list (string * json)) (name : string) : option Z :=
  match parameter parameters name with
  | Some (Json.JInt n) => if n <? 1 then None else Some n
  | _ => None
  end.

(** [value == n] for a length [n], and [value == s]. *)
Definition equals_int (v : option json) (n : Z) : bool :=
  match v with
  | Some (Json.JInt m) => m =? n
  | Some (Json.JBool b) => (if b then 1 else 0) =? n
  | Some (Json.JFloat x) => feq x (float_of_Z n)
  | _ => false
  end.
Definition equals_text (v : option json) (s : string) : bool :=
  match v with Some (Json.JStr t) => bool_decide (t = s) | _ => false end.

Definition closed_loop_bound (c : RequestCorpus) : bool :=
  match positive_parameter (source_parameters c) "concurrency" with
  | None => false
  | Some n =>
    (n <=? zlength (requests c))
    && equals_int (parameter (source_parameters c) "request_count") (zlength (requests c))
    && equals_text (parameter (source_parameters c) "generator") "closed_loop_zero_think_v1"
    && forallb (λ r, arrival_us r =? 0) (requests c)
  end.

(** The loop over the requests; [ids] and [last_arrival] are its variables. *)
Fixpoint check_requests (split : SplitName) (ids : gset string) (last_arrival : Z)
    (l : list ImmutableRequest) : result unit :=
  match l with
  | [] => Ok tt
  | r :: l =>
    _ <-! validate_request r ;;
    raise_if (negb (bool_decide (rq_split r = split)))
      (ValueError "all requests must use the corpus split") ;;
    raise_if (bool_decide (request_id r ∈ ids))
      (ValueError "request IDs must be unique within a corpus") ;;
    raise_if (arrival_us r <? last_arrival)
      (ValueError "requests must be ordered by arrival offset") ;;
    check_requests split ({[request_id r]} ∪ ids) (arrival_us r) l
  end.

(** [str.casefold] is [lower] for this search: the one code point a [string] holds
    that folds to ASCII letters otherwise is the sharp s, to two of them. *)
Definition validate_corpus (c : RequestCorpus) : result unit :=
  raise_if (string_empty (label c)) (ValueError "corpus label must not be empty") ;;
  raise_if (negb (is_hash 64 (source_identity_sha256 c)))
    (ValueError "source identity must be a lowercase SHA-256") ;;
  let keys := map fst (source_parameters c) in
  raise_if (match source_parameters c with [] => true | _ => false end
            || negb (is_sorted_text keys) || negb (unique_text keys) || existsb string_empty keys
            || existsb (λ kv, negb (is_scalar kv.2) || negb (finite_scalar kv.2)) (source_parameters c))
    (ValueError "source parameters must be canonical JSON scalars") ;;
  raise_if (negb (bool_decide (source_identity_sha256 c = load_sha256 (JObj (source_parameters c)))))
    (ValueError "source identity does not match its exact parameters") ;;
  raise_if (match requests c with [] => true | _ => false end)
    (ValueError "request corpus must not be empty") ;;
  raise_if (synthetic c && bool_decide (source_kind c = EXTERNAL_SHAPE))
    (ValueError "an external workload shape cannot be marked synthetic") ;;
  raise_if (negb (synthetic c) && negb (bool_decide (source_kind c = EXTERNAL_SHAPE)))
    (ValueError "locally generated arrivals must be marked synthetic") ;;
  raise_if (synthetic c && contains "burstgpt" (lower (label c)))
    (ValueError "a synthetic trace must never be labelled BurstGPT") ;;
  raise_if (bool_decide (source_kind c = CLOSED_LOOP) && negb (closed_loop_bound c))
    (ValueError "closed-loop corpus must bind one nonempty maximum pool per client") ;;
  check_requests (rc_split c) ∅ (-1) (requests c).

Definition corpus_payload (c : RequestCorpus) (h : CorpusHashes) : json := JObj [
  ("schema_version", JInt 1); ("label", JStr (label c));
  ("source_kind", JStr (SourceKind_value (source_kind c)));
  ("source_identity_sha256", JStr (source_identity_sha256 c));
  ("source_parameters", JList (map (λ kv : string * json, JList [JStr kv.1; kv.2])
                                 (source_parameters c)));
  ("synthetic", JBool (synthetic c)); ("split", JStr (SplitName_value (rc_split c)));
  ("request_ids_sha256", JStr (request_ids_sha256 h));
  ("tokenized_inputs_sha256", JStr (tokenized_inputs_sha256 h));
  ("requested_lengths_sha256", JStr (requested_lengths_sha256 h));
  ("arrivals_sha256", JStr (arrivals_sha256 h)); ("cohorts_sha256", JStr (cohorts_sha256 h));
  ("cancellations_sha256", JStr (cancellations_sha256 h));
  ("sampling_parameters_sha256", JStr (sampling_parameters_sha256 h))].

(** [RequestCorpus.hashes]. *)
Definition corpus_hashes (c : RequestCorpus) : result CorpusHashes :=
  _ <-! validate_corpus c ;;
  fields <-! mapR field_hashes (requests c) ;;
  let component := {|
    request_ids_sha256 := load_sha256 (jstrs (map request_id (requests c)));
    tokenized_inputs_sha256 := load_sha256 (jstrs (map tokenized_input_sha256 fields));
    requested_lengths_sha256 := load_sha256 (jstrs (map requested_length_sha256 fields));
    arrivals_sha256 := load_sha256 (jstrs (map arrival_sha256 fields));
    cohorts_sha256 := load_sha256 (jstrs (map cohort_sha256 fields));
    cancellations_sha256 := load_sha256 (jstrs (map cancellation_sha256 fields));
    sampling_parameters_sha256 := load_sha256 (jstrs (map fh_sampling_sha256 fields));
    corpus_sha256 := EmptyString |} in
  Ok {| request_ids_sha256 := request_ids_sha256 component;
        tokenized_inputs_sha256 := tokenized_inputs_sha256 component;
        requested_lengths_sha256 := requested_lengths_sha256 component;
        arrivals_sha256 := arrivals_sha256 component; cohorts_sha256 := cohorts_sha256 component;
        cancellations_sha256 := cancellations_sha256 component;
        sampling_parameters_sha256 := sampling_parameters_sha256 component;
        corpus_sha256 := load_sha256 (corpus_payload c component) |}.

(** ** Windows and plans *)
Record ProductionWindow := {
  warmup_duration_us : Z; arrival_duration_us : Z; request_deadline_us : Z; drain_duration_us : Z }.

Definition validate_window (w : ProductionWindow) : result unit :=
  _ <-! require_nonnegative_integer (warmup_duration_us w) "warm-up duration" ;;
  all_ok (λ x : Z * string,
      raise_if (x.1 <? 1) (ValueError (x.2 +:+ " must be a positive integer")) ;; Ok tt)
    [(arrival_duration_us w, "arrival duration"); (request_deadline_us w, "request deadline");
     (drain_duration_us w, "drain duration")].
Definition global_end (w : ProductionWindow) : Z := arrival_duration_us w + drain_duration_us w.
Definition scored_global_end_us (w : ProductionWindow) : result Z :=
  _ <-! validate_window w ;; Ok (global_end w).
Definition window_json (w : ProductionWindow) : json := JObj [
  ("warmup_duration_us", JInt (warmup_duration_us w));
  ("arrival_duration_us", JInt (arrival_duration_us w));
  ("request_deadline_us", JInt (request_deadline_us w));
  ("drain_duration_us", JInt (drain_duration_us w))].
Definition window_sha256 (w : ProductionWindow) : result string :=
  _ <-! validate_window w ;; Ok (load_sha256 (window_json w)).
Definition request_timeout_us (w : ProductionWindow) (r : ImmutableRequest) : result Z :=
  last <-! scored_global_end_us w ;; Ok (Z.min (arrival_us r + request_deadline_us w) last).

Record ProductionLoadPlan := {
  warmup : option RequestCorpus; scored : RequestCorpus; window : ProductionWindow;
  cold_start_separate : bool }.

Definition validate_load_plan (p : ProductionLoadPlan) : result unit :=
  _ <-! validate_window (window p) ;;
  _ <-! validate_corpus (scored p) ;;
  raise_if (bool_decide (rc_split (scored p) = WARMUP))
    (ValueError "scored corpus cannot use the warmup split") ;;
  raise_if (existsb (λ r, arrival_duration_us (window p) <=? arrival_us r) (requests (scored p)))
    (ValueError "scored request lies outside fixed arrival window") ;;
  _ <-! (if warmup_duration_us (window p) =? 0 then
           raise_if (match warmup p with Some _ => true | None => false end)
             (ValueError "zero-duration warm-up cannot contain requests") ;; Ok tt
         else match warmup p with
         | None => Raise (ValueError "positive warm-up duration requires a warm-up corpus")
         | Some c =>
           _ <-! validate_corpus c ;;
           raise_if (negb (bool_decide (rc_split c = WARMUP)))
             (ValueError "warm-up corpus must use the warmup split") ;;
           raise_if (existsb (λ r, warmup_duration_us (window p) <=? arrival_us r) (requests c))
             (ValueError "warm-up request lies outside excluded warm-up window") ;; Ok tt
         end) ;;
  raise_if (negb (cold_start_separate p)) (ValueError "cold start must be measured separately") ;;
  Ok tt.

Definition hashes_json (h : CorpusHashes) : json := JObj [
  ("request_ids_sha256", JStr (request_ids_sha256 h));
  ("tokenized_inputs_sha256", JStr (tokenized_inputs_sha256 h));
  ("requested_lengths_sha256", JStr (requested_lengths_sha256 h));
  ("arrivals_sha256", JStr (arrivals_sha256 h)); ("cohorts_sha256", JStr (cohorts_sha256 h));
  ("cancellations_sha256", JStr (cancellations_sha256 h));
  ("sampling_parameters_sha256", JStr (sampling_parameters_sha256 h));
  ("corpus_sha256", JStr (corpus_sha256 h))].

Definition paired_payload (warm : option CorpusHashes) (h : CorpusHashes) (window : string)
    (cold : bool) : json := JObj [
  ("schema_version", JInt 1); ("warmup_corpus_sha256", jopt JStr (corpus_sha256 <$> warm));
  ("scored_hashes", hashes_json h); ("window_sha256", JStr window);
  ("cold_start_separate", JBool cold)].
(** [ProductionLoadPlan.paired_replay_sha256]. *)
Definition paired_replay_sha256 (p : ProductionLoadPlan) : result string :=
  _ <-! validate_load_plan p ;;
  warm <-! match warmup p with
           | None => Ok None
           | Some c => h <-! corpus_hashes c ;; Ok (Some h)
           end ;;
  hashes <-! corpus_hashes (scored p) ;;
  sha <-! window_sha256 (window p) ;;
  Ok (load_sha256 (paired_payload warm hashes sha (cold_start_separate p))).

(** ** Replay bindings *)
Record ReplayBinding := {
  rb_method : string; rb_paired_replay_sha256 : string; rb_request_ids_sha256 : string;
  binding_sha256 : string }.

Definition replay_payload (method paired ids : string) : json := JObj [
  ("method", JStr method); ("paired_replay_sha256", JStr paired); ("request_ids_sha256", JStr ids)].
Definition validate_binding (b : ReplayBinding) : result unit :=
  raise_if (string_empty (rb_method b)) (ValueError "replay binding method must not be empty") ;;
  raise_if (negb (is_hash 64 (rb_paired_replay_sha256 b))
            || negb (is_hash 64 (rb_request_ids_sha256 b)))
    (ValueError "replay binding identities must be lowercase SHA-256") ;;
  raise_if (negb (bool_decide (binding_sha256 b = load_sha256 (replay_payload (rb_method b)
              (rb_paired_replay_sha256 b) (rb_request_ids_sha256 b)))))
    (ValueError "replay binding hash does not match its content") ;;
  Ok tt.
(** [ReplayBinding.create]. *)
Definition create_binding (plan : ProductionLoadPlan) (method : string) : result ReplayBinding :=
  _ <-! validate_load_plan plan ;;
  raise_if (string_empty method) (ValueError "replay binding method must not be empty") ;;
  paired <-! paired_replay_sha256 plan ;;
  hashes <-! corpus_hashes (scored plan) ;;
  let value := {|
    rb_method := method; rb_paired_replay_sha256 := paired;
    rb_request_ids_sha256 := request_ids_sha256 hashes;
    binding_sha256 := load_sha256 (replay_payload method paired (request_ids_sha256 hashes)) |} in
  _ <-! validate_binding value ;; Ok value.

Definition assert_identical_replay (bindings : list ReplayBinding) : result string :=
  raise_if (zlength bindings <? 2)
    (ValueError "paired replay requires at least two method bindings") ;;
  _ <-! all_ok validate_binding bindings ;;
  raise_if (negb (unique_text (map rb_method bindings)))
    (ValueError "paired replay methods must be unique") ;;
  raise_if (negb (zlength (remove_dups
      (map (λ b, (rb_paired_replay_sha256 b, rb_request_ids_sha256 b)) bindings)) =? 1))
    (ValueError "paired methods are not bound to an identical trace") ;;
  match bindings with
  | b :: _ => Ok (rb_paired_replay_sha256 b)
  | [] => Raise (IndexError 0)
  end.
