(* ===== verification/LoadSources.v ===== *)
(** * Arrival and cohort generators ([experiments/load.py], second part)

    Deterministic cohort labels, Poisson, burst, closed-loop and external
    arrivals, the construction of corpora and the audit of disjoint content.
    [math.log1p] and [**] on floats are those of the platform's C library: the
    class [Libm]. *)
From S2P Require Import Prelude PyFloat FloatRepr Hashlib Registry GpuPool Load.

Class Libm := {
  log1p : pyfloat → result pyfloat;
  fpow : pyfloat → pyfloat → result pyfloat }.

Definition fone : pyfloat := float_of_Z 1.
Definition fhalf : pyfloat := fdiv fone (float_of_Z 2).
Definition fneg (x : pyfloat) : pyfloat := SFopp x.
(** [x / y]. *)
Definition py_div (x y : pyfloat) : result pyfloat :=
  raise_if (feq y fzero) (ZeroDivisionError "float division by zero") ;; Ok (fdiv x y).

(** [round(x)]: to the nearest integer, ties to even. *)
Definition half_even (m d : Z) : Z :=
  let q := m / d in
  let r := m mod d in
  if 2 * r <? d then q else if d <? 2 * r then q + 1 else if Z.even q then q else q + 1.
Definition fround (x : pyfloat) : result Z :=
  match x with
  | S754_zero _ => Ok 0
  | S754_finite neg m e =>
    let n := if 0 <=? e then Z.pos m * 2 ^ e else half_even (Z.pos m) (2 ^ (- e)) in
    Ok (if neg : bool then - n else n)
  | S754_infinity _ => Raise (OverflowError "cannot convert float infinity to integer")
  | S754_nan => Raise (ValueError "cannot convert float NaN to integer")
  end.

(** [(int.from_bytes(digest, "big") + 0.5) / (1 << 256)]. *)
Definition digest_draw (text : string) : pyfloat :=
  fdiv (fadd (float_of_Z (hex_number 0 (Sha256.hexdigest text))) fhalf) (float_of_Z (2 ^ 256)).

Inductive Popularity : Set := UNIFORM | ZIPF.
Definition Popularity_value (p : Popularity) : string :=
  match p with UNIFORM => "uniform" | ZIPF => "zipf" end.
Definition REGISTERED_COHORT_COUNTS : list Z := [1; 4; 16; 64].

(** [f"cohort-{n:02d}"]. *)
Definition cohort_label (n : nat) : string :=
  "cohort-" +:+ (if (n <? 10)%nat then "0" +:+ pretty n else pretty n).

(** The loop over the weights, and over the requests. *)
Fixpoint cumulate (running total : pyfloat) (weights : list pyfloat) : result (list pyfloat) :=
  match weights with
  | [] => Ok []
  | w :: weights =>
    share <-! py_div w total ;;
    let running := fadd running share in
    rest <-! cumulate running total weights ;; Ok (running :: rest)
  end.
Definition select_cohort (cumulative : list pyfloat) (seed ordinal : Z) : result string :=
  let draw := digest_draw ("cohort:" +:+ pretty seed +:+ ":" +:+ pretty ordinal) in
  match list_find (λ bound, fle draw bound = true) cumulative with
  | Some (index, _) => Ok (cohort_label index)
  | None => Raise StopIteration
  end.

Section sources.
Context `{Libm}.

Definition cohort_weights (cohort_count : Z) (popularity : Popularity) (exponent : pyfloat)
    : result (list pyfloat) :=
  match popularity with
  | UNIFORM => Ok (replicate (Z.to_nat cohort_count) fone)
  | ZIPF => mapR (λ rank, p <-! fpow (float_of_Z (rank + 1)) exponent ;; py_div fone p)
              (seqZ 0 cohort_count)
  end.

Definition cohort_assignments (request_count cohort_count : Z) (popularity : Popularity) (seed : Z)
    (zipf_exponent : pyfloat) : result (list string) :=
  raise_if (request_count <? 1) (ValueError "request count must be positive") ;;
  raise_if (negb (bool_decide (cohort_count ∈ REGISTERED_COHORT_COUNTS)))
    (ValueError "cohort count must be one of 1, 4, 16, or 64") ;;
  _ <-! require_nonnegative_integer seed "cohort seed" ;;
  raise_if (negb (ffinite zipf_exponent) || fle zipf_exponent fzero)
    (ValueError "Zipf exponent must be finite and positive") ;;
  weights <-! cohort_weights cohort_count popularity zipf_exponent ;;
  let total := default fzero (fsum weights) in
  cumulative <-! cumulate fzero total weights ;;
  mapR (select_cohort cumulative seed) (seqZ 0 request_count).

Definition arrival_gap (rate : pyfloat) (seed ordinal : Z) : result Z :=
  let uniform := digest_draw ("arrival:" +:+ pretty seed +:+ ":" +:+ pretty ordinal) in
  l <-! log1p (fneg uniform) ;;
  gap <-! py_div (fmul (fneg l) (float_of_Z 1000000)) rate ;;
  us <-! fround gap ;;
  Ok (Z.max 1 us).
Fixpoint arrivals_from (rate : pyfloat) (seed elapsed : Z) (ordinals : list Z) : result (list Z) :=
  match ordinals with
  | [] => Ok []
  | n :: ordinals =>
    gap <-! arrival_gap rate seed n ;;
    rest <-! arrivals_from rate seed (elapsed + gap) ordinals ;; Ok (elapsed + gap :: rest)
  end.
(** [_poisson_arrivals]. *)
Definition poisson_arrivals (request_count : Z) (rate_per_second : pyfloat) (seed : Z)
    : result (list Z) :=
  raise_if (negb (ffinite rate_per_second) || fle rate_per_second fzero)
    (ValueError "Poisson rate must be finite and positive") ;;
  _ <-! require_nonnegative_integer seed "arrival seed" ;;
  arrivals_from rate_per_second seed 0 (seqZ 0 request_count).

(** ** Corpora *)
Fixpoint create_requests (namespace : string) (split : SplitName) (ordinal : Z)
    (rows : list (RequestTemplate * Z * string)) : result (list ImmutableRequest) :=
  match rows with
  | [] => Ok []
  | (template, arrival, cohort) :: rows =>
    r <-! create_request namespace split ordinal template arrival cohort ;;
    rest <-! create_requests namespace split (ordinal + 1) rows ;; Ok (r :: rest)
  end.
(** [_build_corpus]. *)
Definition build_corpus (namespace : string) (split : SplitName) (templates : list RequestTemplate)
    (arrivals_us : list Z) (cohorts : list string) (label : string) (source_kind : SourceKind)
    (source_parameters : list (string * json)) (synthetic : bool) : result RequestCorpus :=
  raise_if (string_empty namespace) (ValueError "corpus namespace must not be empty") ;;
  raise_if (match templates with [] => true | _ => false end
            || negb (zlength templates =? zlength arrivals_us)
            || negb (zlength templates =? zlength cohorts))
    (ValueError "templates, arrivals, and cohorts must have equal nonzero length") ;;
  requests <-! create_requests namespace split 0 (zip (zip templates arrivals_us) cohorts) ;;
  let canonical_source := sorted_by fst source_parameters in
  let corpus := {|
    label := label; source_kind := source_kind;
    source_identity_sha256 := load_sha256 (JObj canonical_source);
    source_parameters := canonical_source; synthetic := synthetic; rc_split := split;
    requests := requests |} in
  _ <-! validate_corpus corpus ;; Ok corpus.

Definition controlled_poisson_corpus (templates : list RequestTemplate) (namespace : string)
    (split : SplitName) (rate_per_second : pyfloat) (arrival_seed cohort_count : Z)
    (popularity : Popularity) (cohort_seed : Z) (zipf_exponent : pyfloat)
    (registered_load_factor : option pyfloat) : result RequestCorpus :=
  arrivals <-! poisson_arrivals (zlength templates) rate_per_second arrival_seed ;;
  cohorts <-! cohort_assignments (zlength templates) cohort_count popularity cohort_seed
                zipf_exponent ;;
  raise_if (match registered_load_factor with
            | Some x => negb (ffinite x) || fle x fzero | None => false end)
    (ValueError "registered load factor must be finite and positive") ;;
  build_corpus namespace split templates arrivals cohorts "synthetic controlled Poisson" POISSON
    [("arrival_seed", JInt arrival_seed); ("cohort_count", JInt cohort_count);
     ("cohort_popularity", JStr (Popularity_value popularity)); ("cohort_seed", JInt cohort_seed);
     ("generator", JStr "controlled_poisson_v1"); ("rate_per_second", JFloat rate_per_second);
     ("registered_load_factor", jopt JFloat registered_load_factor);
     ("zipf_exponent", JFloat zipf_exponent)] true.

Definition immediate_burst_corpus (templates : list RequestTemplate) (namespace : string)
    (split : SplitName) (cohort_count : Z) (popularity : Popularity) (cohort_seed : Z)
    (zipf_exponent : pyfloat) : result RequestCorpus :=
  cohorts <-! cohort_assignments (zlength templates) cohort_count popularity cohort_seed
                zipf_exponent ;;
  build_corpus namespace split templates (replicate (length templates) 0) cohorts
    "synthetic immediate burst" IMMEDIATE_BURST
    [("cohort_count", JInt cohort_count); ("cohort_popularity", JStr (Popularity_value popularity));
     ("cohort_seed", JInt cohort_seed); ("generator", JStr "immediate_burst_v1");
     ("request_count", JInt (zlength templates)); ("zipf_exponent", JFloat zipf_exponent)] true.

Definition closed_loop_corpus (templates : list RequestTemplate) (namespace : string)
    (split : SplitName) (concurrency cohort_count : Z) (popularity : Popularity) (cohort_seed : Z)
    (zipf_exponent : pyfloat) : result RequestCorpus :=
  raise_if (concurrency <? 1) (ValueError "closed-loop concurrency must be positive") ;;
  raise_if (zlength templates <? concurrency)
    (ValueError "closed-loop request pool must cover every client lane") ;;
  cohorts <-! cohort_assignments (zlength templates) cohort_count popularity cohort_seed
                zipf_exponent ;;
  build_corpus namespace split templates (replicate (length templates) 0) cohorts
    "synthetic zero-think closed loop" CLOSED_LOOP
    [("cohort_count", JInt cohort_count); ("cohort_popularity", JStr (Popularity_value popularity));
     ("cohort_seed", JInt cohort_seed); ("concurrency", JInt concurrency);
     ("generator", JStr "closed_loop_zero_think_v1"); ("request_count", JInt (zlength templates));
     ("zipf_exponent", JFloat zipf_exponent)] true.
End sources.

(** ** External workload shapes

    [REGISTERED_EXTERNAL_SHAPES] is empty. *)
Definition REGISTERED_EXTERNAL_SHAPES : gmap (string * string) string := ∅.

Record ExternalShapeRow := {
  es_arrival_us : Z; es_input_tokens : Z; es_requested_output_tokens : Z }.
Definition validate_shape_row (r : ExternalShapeRow) : result unit :=
  _ <-! require_nonnegative_integer (es_arrival_us r) "external arrival offset" ;;
  raise_if ((es_input_tokens r <? 1) || (es_requested_output_tokens r <? 1))
    (ValueError "external input and requested output lengths must be positive") ;;
  Ok tt.

Record ExternalWorkloadShape := {
  source_name : string; source_revision : string; rows : list ExternalShapeRow;
  rows_sha256 : string }.
Definition shape_row_json (r : ExternalShapeRow) : json := JObj [
  ("arrival_us", JInt (es_arrival_us r)); ("input_tokens", JInt (es_input_tokens r));
  ("requested_output_tokens", JInt (es_requested_output_tokens r))].
Definition digest_rows (l : list ExternalShapeRow) : string :=
  load_sha256 (JList (map shape_row_json l)).

Fixpoint check_shape_rows (last_arrival : Z) (l : list ExternalShapeRow) : result unit :=
  match l with
  | [] => Ok tt
  | r :: l =>
    _ <-! validate_shape_row r ;;
    raise_if (es_arrival_us r <? last_arrival)
      (ValueError "external workload rows must be arrival ordered") ;;
    check_shape_rows (es_arrival_us r) l
  end.
Definition unregistered_shape : exn :=
  ValueError "external workload source/revision is not registered in the source lock".
Definition validate_shape (s : ExternalWorkloadShape) : result unit :=
  raise_if (string_empty (source_name s) || string_empty (source_revision s))
    (ValueError "external workload shape requires source and revision") ;;
  raise_if (contains "synthetic" (lower (source_name s)))
    (ValueError "external workload shape cannot claim a synthetic source") ;;
  raise_if (match rows s with [] => true | _ => false end)
    (ValueError "external workload shape must not be empty") ;;
  raise_if (negb (bool_decide (REGISTERED_EXTERNAL_SHAPES !! (source_name s, source_revision s)
                               = Some (rows_sha256 s)))) unregistered_shape ;;
  _ <-! check_shape_rows (-1) (rows s) ;;
  raise_if (negb (bool_decide (rows_sha256 s = digest_rows (rows s))))
    (ValueError "external workload-shape row checksum does not match") ;;
  Ok tt.
(** [ExternalWorkloadShape.from_rows]. *)
Definition shape_from_rows (name revision : string) (l : list ExternalShapeRow)
    (declared : string) : result ExternalWorkloadShape :=
  match REGISTERED_EXTERNAL_SHAPES !! (name, revision) with
  | None => Raise unregistered_shape
  | Some registered =>
    raise_if (negb (bool_decide (declared = registered)))
      (ValueError "external workload rows differ from the registered source lock") ;;
    let value := {| source_name := name; source_revision := revision; rows := l;
                    rows_sha256 := declared |} in
    _ <-! validate_shape value ;; Ok value
  end.
Definition shape_identity_sha256 (s : ExternalWorkloadShape) : result string :=
  _ <-! validate_shape s ;;
  Ok (load_sha256 (JObj [("source_name", JStr (source_name s));
    ("source_revision", JStr (source_revision s)); ("rows_sha256", JStr (rows_sha256 s))])).

Fixpoint shape_templates
    (l : list (ExternalShapeRow * list Z * FrozenSamplingParameters * option Z))
    : result (list RequestTemplate) :=
  match l with
  | [] => Ok []
  | (row, tokens, parameters, cancellation) :: l =>
    raise_if (negb (zlength tokens =? es_input_tokens row))
      (ValueError "tokenized input does not match external input length") ;;
    rest <-! shape_templates l ;;
    Ok ({| rt_input_token_ids := tokens;
           rt_requested_output_tokens := es_requested_output_tokens row;
           rt_sampling := parameters; rt_cancellation_offset_us := cancellation |} :: rest)
  end.
Definition external_shape_corpus `{Libm} (shape : ExternalWorkloadShape) (namespace : string)
    (split : SplitName) (tokenized_inputs : list (list Z)) (sampling : list FrozenSamplingParameters)
    (cancellation_offsets_us : option (list (option Z))) (cohort_count : Z)
    (popularity : Popularity) (cohort_seed : Z) (zipf_exponent : pyfloat) : result RequestCorpus :=
  _ <-! validate_shape shape ;;
  let n := zlength (rows shape) in
  raise_if (negb (zlength tokenized_inputs =? n) || negb (zlength sampling =? n))
    (ValueError "external rows, tokenized inputs, and sampling must align") ;;
  let cancellations := default (replicate (length (rows shape)) None) cancellation_offsets_us in
  raise_if (negb (zlength cancellations =? n))
    (ValueError "external cancellation flags must align with shape rows") ;;
  templates <-! shape_templates (zip (zip (zip (rows shape) tokenized_inputs) sampling) cancellations) ;;
  cohorts <-! cohort_assignments (zlength templates) cohort_count popularity cohort_seed
                zipf_exponent ;;
  build_corpus namespace split templates (map es_arrival_us (rows shape)) cohorts
    (source_name shape +:+ " workload-shape replay") EXTERNAL_SHAPE
    [("rows_sha256", JStr (rows_sha256 shape)); ("source_name", JStr (source_name shape));
     ("source_revision", JStr (source_revision shape))] false.

(** ** Disjoint content *)
Record ContentSplitIdentity := {
  cs_split : SplitName; cs_corpus_sha256 : string; unique_input_count : Z; input_set_sha256 : string }.

(** The hashes of the corpora seen, with their splits, in order. *)
Definition SeenSplits : Type := list (SplitName * gset string).
Fixpoint first_overlap (hashes : gset string) (seen : SeenSplits) : option SplitName :=
  match seen with
  | [] => None
  | (split, other) :: seen =>
    if bool_decide (hashes ∩ other = ∅) then first_overlap hashes seen else Some split
  end.
Fixpoint audit_content (seen : SeenSplits) (l : list RequestCorpus)
    : result (list ContentSplitIdentity) :=
  match l with
  | [] => Ok []
  | c :: l =>
    _ <-! validate_corpus c ;;
    raise_if (bool_decide (rc_split c ∈ map fst seen))
      (ValueError "content-disjoint audit requires one corpus per split") ;;
    fields <-! mapR field_hashes (requests c) ;;
    let hashes : gset string := list_to_set (map tokenized_input_sha256 fields) in
    match first_overlap hashes seen with
    | Some other => Raise (ValueError ("tokenized input content overlaps "
        +:+ SplitName_value other +:+ "/" +:+ SplitName_value (rc_split c)))
    | None =>
      h <-! corpus_hashes c ;;
      rest <-! audit_content (seen ++ [(rc_split c, hashes)]) l ;;
      Ok ({| cs_split := rc_split c; cs_corpus_sha256 := corpus_sha256 h;
             unique_input_count := Z.of_nat (size hashes);
             input_set_sha256 := load_sha256 (jstrs (sorted_by (λ s, s) (elements hashes))) |}
          :: rest)
    end
  end.
Definition assert_content_disjoint (corpora : list RequestCorpus)
    : result (list ContentSplitIdentity) :=
  raise_if (match corpora with [] => true | _ => false end)
    (ValueError "at least one corpus is required") ;;
  audit_content [] corpora.
