(* ===== verification/LoadAccounting.v ===== *)
(** * Terminal accounting ([experiments/load.py], third part)

    [account_scored_requests]: what became of every offered request of a plan. *)
From S2P Require Import Prelude PyFloat FloatRepr Hashlib Registry GpuPool Load LoadSources.

(** ** gmap string RequestOutcome *)
Inductive OutcomeStatus : Set := REJECTED | COMPLETED | TIMED_OUT | CANCELLED | UNFINISHED.
#[export] Instance OutcomeStatus_eq_dec : EqDecision OutcomeStatus.
Proof. solve_decision. Defined.

Record RequestOutcome := {
  ro_request_id : string; ro_status : OutcomeStatus; admitted_at_us : option Z;
  terminal_at_us : option Z; ro_code : string; ro_offered_at_us : option Z }.

Record LoadAccounting := {
  la_offered : Z; la_admitted : Z; la_rejected : Z; la_completed : Z; la_timed_out : Z;
  la_cancelled : Z; la_unfinished : Z; score_started_us : Z; score_ended_us : Z; elapsed_us : Z }.

Definition validate_accounting (a : LoadAccounting) : result unit :=
  raise_if (negb (la_offered a =? la_rejected a + la_completed a + la_timed_out a
                                 + la_cancelled a + la_unfinished a))
    (ValueError "terminal accounting does not partition offered requests") ;;
  raise_if ((la_offered a <? la_admitted a)
            || negb (elapsed_us a =? score_ended_us a - score_started_us a))
    (ValueError "load accounting interval is inconsistent") ;;
  Ok tt.

(** The loop that fills [by_id]; an outcome's status is one of the five. *)
Fixpoint collect_outcomes (by_id : gmap string RequestOutcome) (l : list RequestOutcome)
    : result (gmap string RequestOutcome) :=
  match l with
  | [] => Ok by_id
  | o :: l =>
    raise_if (bool_decide (is_Some (by_id !! ro_request_id o)))
      (ValueError "duplicate request outcome") ;;
    raise_if (string_empty (ro_code o)) (ValueError "request outcome code must not be empty") ;;
    collect_outcomes (<[ro_request_id o := o]> by_id) l
  end.

(** [l[skip::period + 1]]. *)
Fixpoint every {A} (skip period : nat) (l : list A) : list A :=
  match l with
  | [] => []
  | x :: l => match skip with
              | O => x :: every period period l
              | S skip => every skip period l
              end
  end.
(** [requests[lane::concurrency]]. *)
Definition lane_requests (l : list ImmutableRequest) (concurrency lane : Z) : list ImmutableRequest :=
  every (Z.to_nat lane) (Z.to_nat (concurrency - 1)) l.

Section accounting.
Variable plan : ProductionLoadPlan.
Variable by_id : gmap string RequestOutcome.

Definition present (r : ImmutableRequest) : bool := bool_decide (is_Some (by_id !! request_id r)).

Fixpoint check_prefix (seen_gap : bool) (planned : list ImmutableRequest) : result unit :=
  match planned with
  | [] => Ok tt
  | r :: planned =>
    raise_if (seen_gap && present r)
      (ValueError "closed-loop outcomes are not a per-client prefix") ;;
    check_prefix (seen_gap || negb (present r)) planned
  end.
Definition check_lane (planned : list ImmutableRequest) : result unit :=
  match planned with
  | r :: _ => if present r then check_prefix false planned
              else Raise (ValueError "closed-loop outcomes omit a registered client lane")
  | [] => Raise (ValueError "closed-loop outcomes omit a registered client lane")
  end.

Definition closed_loop : bool := bool_decide (source_kind (scored plan) = CLOSED_LOOP).
Definition uncovered : exn := ValueError "request outcome coverage does not match offered requests".
Definition check_coverage : result unit :=
  let expected : gset string := list_to_set (map request_id (requests (scored plan))) in
  raise_if (bool_decide (by_id = ∅) || negb (bool_decide (dom by_id ⊆ expected))) uncovered ;;
  if closed_loop then
    match positive_parameter (source_parameters (scored plan)) "concurrency" with
    | None => Raise (ValueError "closed-loop accounting lacks its population size")
    | Some concurrency =>
      all_ok (λ lane, check_lane (lane_requests (requests (scored plan)) concurrency lane))
        (seqZ 0 concurrency)
    end
  else raise_if (negb (bool_decide (dom by_id = expected))) uncovered ;; Ok tt.

(** The times of one request; [plan] has been validated. *)
Definition offer_time (r : ImmutableRequest) (o : RequestOutcome) : Z :=
  default (arrival_us r) (ro_offered_at_us o).
Definition timeout_at (offered : Z) : Z :=
  Z.min (offered + request_deadline_us (window plan)) (global_end (window plan)).
Definition cancel_at (r : ImmutableRequest) (offered : Z) : option Z :=
  (λ d, offered + d) <$> cancellation_offset_us r.

(** [cancel_us is not None and test(cancel_us)]. *)
Definition scheduled (cancel : option Z) (test : Z → bool) : bool :=
  match cancel with Some c => test c | None => false end.

Definition check_offer (r : ImmutableRequest) (offered : Z) : result unit :=
  _ <-! require_nonnegative_integer offered "request offer time" ;;
  if closed_loop then
    raise_if (negb ((0 <=? offered) && (offered <? arrival_duration_us (window plan))))
      (ValueError "closed-loop offer lies outside the arrival window") ;; Ok tt
  else raise_if (negb (offered =? arrival_us r))
         (ValueError "open-loop offer differs from the registered trace") ;; Ok tt.

Definition check_admission (o : RequestOutcome) (offered timeout : Z) : result unit :=
  _ <-! match admitted_at_us o with
        | None => Ok tt
        | Some a =>
          _ <-! require_nonnegative_integer a "admission time" ;;
          raise_if (negb ((offered <=? a) && (a <=? timeout)))
            (ValueError "admission time lies outside request lifetime") ;; Ok tt
        end ;;
  raise_if (match ro_status o with COMPLETED | TIMED_OUT | UNFINISHED => true | _ => false end
            && bool_decide (admitted_at_us o = None))
    (ValueError "completed, timed-out, and unfinished requests must be admitted") ;;
  raise_if (bool_decide (ro_status o = REJECTED) && bool_decide (admitted_at_us o ≠ None))
    (ValueError "rejected request cannot be admitted") ;;
  Ok tt.

Definition check_terminal (o : RequestOutcome) (offered timeout : Z) (cancel : option Z)
    : result unit :=
  match terminal_at_us o with
  | None => Raise (ValueError "terminal request outcome requires a terminal time")
  | Some t =>
    _ <-! require_nonnegative_integer t "terminal time" ;;
    raise_if (negb ((offered <=? t) && (t <=? timeout)))
      (ValueError "terminal time lies outside request lifetime") ;;
    raise_if (match admitted_at_us o with Some a => t <? a | None => false end)
      (ValueError "request terminated before admission") ;;
    raise_if (bool_decide (ro_status o = TIMED_OUT) && negb (t =? timeout))
      (ValueError "timeout must occur at the registered effective deadline") ;;
    raise_if (bool_decide (ro_status o = CANCELLED)
              && match cancel with None => true | Some c => negb (t =? c) end)
      (ValueError "cancellation must match the hashed cancellation schedule") ;;
    raise_if (bool_decide (ro_status o = COMPLETED) && scheduled cancel (λ c, c <? t))
      (ValueError "completion cannot occur after a scheduled cancellation") ;;
    raise_if (bool_decide (ro_status o = TIMED_OUT) && scheduled cancel (λ c, c <? timeout))
      (ValueError "timeout cannot bypass an earlier scheduled cancellation") ;;
    Ok tt
  end.

Definition check_lifetime (r : ImmutableRequest) (o : RequestOutcome) : result unit :=
  let offered := offer_time r o in
  _ <-! check_offer r offered ;;
  let timeout := timeout_at offered in
  let cancel := cancel_at r offered in
  _ <-! check_admission o offered timeout ;;
  match ro_status o with
  | UNFINISHED =>
    raise_if (bool_decide (terminal_at_us o ≠ None))
      (ValueError "unfinished request cannot have a terminal time") ;;
    raise_if (scheduled cancel (λ c, c <=? timeout))
      (ValueError "scheduled cancellation cannot remain unfinished") ;;
    Ok tt
  | _ => check_terminal o offered timeout cancel
  end.

(** What the loop over the offered requests fills. *)
Record Tally := {
  effective_arrivals : gmap string Z; tally_admitted : Z; counts : OutcomeStatus → Z }.
Definition no_tally : Tally :=
  {| effective_arrivals := ∅; tally_admitted := 0; counts := λ _, 0 |}.
Definition tally_one (t : Tally) (r : ImmutableRequest) (o : RequestOutcome) : Tally := {|
  effective_arrivals := <[request_id r := offer_time r o]> (effective_arrivals t);
  tally_admitted := tally_admitted t + (if bool_decide (admitted_at_us o = None) then 0 else 1);
  counts := λ s, if decide (s = ro_status o) then counts t s + 1 else counts t s |}.
(** [by_id[request_id]]. *)
Definition outcome_of (r : ImmutableRequest) : result RequestOutcome :=
  match by_id !! request_id r with Some o => Ok o | None => Raise (KeyError (request_id r)) end.
Fixpoint tally_requests (t : Tally) (l : list ImmutableRequest) : result Tally :=
  match l with
  | [] => Ok t
  | r :: l =>
    o <-! outcome_of r ;;
    _ <-! check_lifetime r o ;;
    tally_requests (tally_one t r o) l
  end.

(** The replenishment of one client; [break] ends its loop. *)
Fixpoint check_replenished (effective : gmap string Z) (previous_terminal : option Z)
    (l : list ImmutableRequest) : result unit :=
  match l with
  | [] => Ok tt
  | r :: l =>
    match by_id !! request_id r with
    | None => Ok tt
    | Some o =>
      match effective !! request_id r with
      | None => Raise (KeyError (request_id r))
      | Some offered =>
        raise_if (match previous_terminal with None => negb (offered =? 0) | Some _ => false end)
          (ValueError "closed-loop client did not begin at the score boundary") ;;
        raise_if (match previous_terminal with Some t => negb (offered =? t) | None => false end)
          (ValueError "closed-loop client was not replenished at its prior terminal") ;;
        match terminal_at_us o with
        | None => Ok tt
        | Some t => check_replenished effective (Some t) l
        end
      end
    end
  end.
Definition check_clients (effective : gmap string Z) : result unit :=
  match positive_parameter (source_parameters (scored plan)) "concurrency" with
  | None => Raise (KeyError "concurrency")
  | Some concurrency =>
    all_ok (λ lane, check_replenished effective None
                      (lane_requests (requests (scored plan)) concurrency lane))
      (seqZ 0 concurrency)
  end.

(** An element of [effective_terminals]. *)
Definition terminal_of (effective : gmap string Z) (r : ImmutableRequest) : result (option Z) :=
  o <-! outcome_of r ;;
  match effective !! request_id r with
  | None => Raise (KeyError (request_id r))
  | Some offered =>
    Ok (if bool_decide (ro_status o = UNFINISHED) then Some (timeout_at offered)
        else terminal_at_us o)
  end.
End accounting.

(** [min(xs)] and [max(xs)] of integers. *)
Definition min_int (l : list Z) : result Z :=
  match l with
  | [] => Raise (ValueError "min() iterable argument is empty")
  | x :: l => Ok (fold_left Z.min l x)
  end.
Definition max_int (l : list Z) : result Z :=
  match l with
  | [] => Raise (ValueError "max() iterable argument is empty")
  | x :: l => Ok (fold_left Z.max l x)
  end.

Section summary.
Variable plan : ProductionLoadPlan.
Variable by_id : gmap string RequestOutcome.

(** The end of [account_scored_requests], from the score interval on. *)
Definition summarize (offered_requests : list ImmutableRequest) (tally : Tally)
    : result LoadAccounting :=
  let effective := effective_arrivals tally in
  score_started <-! min_int (map snd (map_to_list effective)) ;;
  effective_terminals <-! mapR (terminal_of plan by_id effective) offered_requests ;;
  raise_if (existsb (λ v : option Z, bool_decide (v = None)) effective_terminals)
    (AssertionError "validated terminal accounting produced no endpoint") ;;
  score_ended <-! max_int (omap id effective_terminals) ;;
  let accounting := {|
    la_offered := zlength offered_requests; la_admitted := tally_admitted tally;
    la_rejected := counts tally REJECTED; la_completed := counts tally COMPLETED;
    la_timed_out := counts tally TIMED_OUT; la_cancelled := counts tally CANCELLED;
    la_unfinished := counts tally UNFINISHED; score_started_us := score_started;
    score_ended_us := score_ended; elapsed_us := score_ended - score_started |} in
  _ <-! validate_accounting accounting ;; Ok accounting.
End summary.

Definition account_scored_requests (plan : ProductionLoadPlan) (outcomes : list RequestOutcome)
    : result LoadAccounting :=
  _ <-! validate_load_plan plan ;;
  by_id <-! collect_outcomes ∅ outcomes ;;
  _ <-! check_coverage plan by_id ;;
  let offered_requests := filter (λ r, present by_id r = true) (requests (scored plan)) in
  tally <-! tally_requests plan by_id no_tally offered_requests ;;
  _ <-! (if closed_loop plan then check_clients plan by_id (effective_arrivals tally) else Ok tt) ;;
  summarize plan by_id offered_requests tally.
