(* ===== verification/LoadTiming.v ===== *)
(** * Token timing ([experiments/load.py], fourth part)

    The inter-token latencies that the recorded timestamps support, their
    percentiles, and the theorem on what [evaluate_token_timing] returns. *)
From S2P Require Import Prelude PyFloat FloatRepr Hashlib Registry GpuPool Load LoadSources.

Record TokenChunkTiming := {
  tc_request_id : string; first_token_index : Z; token_count : Z; chunk_observed_at_us : Z;
  per_token_observed_at_us : option (list Z) }.

Fixpoint check_timestamps (previous limit : Z) (l : list Z) : result unit :=
  match l with
  | [] => Ok tt
  | t :: l =>
    _ <-! require_nonnegative_integer t "per-token timestamp" ;;
    raise_if ((t <? previous) || (limit <? t))
      (ValueError "per-token timestamps are not ordered within chunk") ;;
    check_timestamps t limit l
  end.
Definition validate_chunk (c : TokenChunkTiming) : result unit :=
  raise_if (string_empty (tc_request_id c)) (ValueError "timing request ID must not be empty") ;;
  _ <-! require_nonnegative_integer (first_token_index c) "first token index" ;;
  raise_if (token_count c <? 1) (ValueError "timing chunk token count must be positive") ;;
  _ <-! require_nonnegative_integer (chunk_observed_at_us c) "chunk timestamp" ;;
  match per_token_observed_at_us c with
  | None => Ok tt
  | Some l =>
    raise_if (negb (zlength l =? token_count c))
      (ValueError "per-token timestamp count does not match chunk") ;;
    check_timestamps (-1) (chunk_observed_at_us c) l
  end.

Record TimingCoverage := {
  tv_request_id : string; output_tokens : Z; expected_itl_intervals : Z;
  supported_itl_intervals : Z; coalesced_tokens : Z; itl_coverage : pyfloat; ttft_us : option Z;
  supported_itls_us : list Z }.

Definition full_itl_coverage (c : TimingCoverage) : bool :=
  supported_itl_intervals c =? expected_itl_intervals c.

(** [int * float] and [float(int)]. *)
Definition int_to_float (n : Z) : result pyfloat :=
  let x := float_of_Z n in
  raise_if (negb (ffinite x)) (OverflowError "int too large to convert to float") ;; Ok x.
(** [math.floor] and [math.ceil]. *)
Definition float_to_int (round : Z → Z → Z) (x : pyfloat) : result Z :=
  match x with
  | S754_zero _ => Ok 0
  | S754_finite neg m e =>
    let n := if neg : bool then Z.neg m else Z.pos m in
    Ok (if 0 <=? e then n * 2 ^ e else round n (2 ^ (- e)))
  | S754_infinity _ => Raise (OverflowError "cannot convert float infinity to integer")
  | S754_nan => Raise (ValueError "cannot convert float NaN to integer")
  end.
Definition math_floor (x : pyfloat) : result Z := float_to_int Z.div x.
Definition math_ceil (x : pyfloat) : result Z := float_to_int (λ n d, - (- n / d)) x.

(** [ordered[index]] for an index that is not negative. *)
Definition item_at (l : list Z) (index : Z) : result Z :=
  match l !! Z.to_nat index with Some x => Ok x | None => Raise (IndexError index) end.
(** [_linear_percentile]. *)
Definition linear_percentile (values : list Z) (percentile : pyfloat) : result pyfloat :=
  let ordered := sorted_by (λ x, x) values in
  match ordered with
  | [x] => int_to_float x
  | _ =>
    let position := fmul (fdiv percentile (float_of_Z 100)) (float_of_Z (zlength ordered - 1)) in
    lower <-! math_floor position ;;
    upper <-! math_ceil position ;;
    let fraction := fsub position (float_of_Z lower) in
    low <-! item_at ordered lower ;;
    low <-! int_to_float low ;;
    high <-! item_at ordered upper ;;
    high <-! int_to_float high ;;
    Ok (fadd (fmul low (fsub fone fraction)) (fmul high fraction))
  end.

Definition check_percentile (percentile : pyfloat) : result unit :=
  raise_if (negb (ffinite percentile) || negb (fle fzero percentile
                                               && fle percentile (float_of_Z 100)))
    (ValueError "percentile must be finite and lie in [0, 100]") ;;
  Ok tt.
Definition itl_percentile_us (c : TimingCoverage) (percentile : pyfloat) : result (option pyfloat) :=
  _ <-! check_percentile percentile ;;
  if negb (full_itl_coverage c) || match supported_itls_us c with [] => true | _ => false end
  then Ok None
  else p <-! linear_percentile (supported_itls_us c) percentile ;; Ok (Some p).
Definition diagnostic_supported_percentile_us (c : TimingCoverage) (percentile : pyfloat)
    : result (option pyfloat) :=
  _ <-! check_percentile percentile ;;
  match supported_itls_us c with
  | [] => Ok None
  | l => p <-! linear_percentile l percentile ;; Ok (Some p)
  end.

(** [pairwise]. *)
Definition pairwise {A} (l : list A) : list (A * A) := zip l (tail l).
Definition itl (p : option Z * option Z) : option Z :=
  match p with (Some previous, Some current) => Some (current - previous) | _ => None end.

(** The variables of the loop over the chunks. *)
Record TimingLoop := {
  exact_timestamps : list (option Z); tl_coalesced : Z; next_index : Z; previous_chunk_time : Z }.
Definition add_chunk (started : Z) (s : TimingLoop) (c : TokenChunkTiming) : result TimingLoop :=
  let exact_and_coalesced :=
    match per_token_observed_at_us c with
    | Some l =>
      raise_if (existsb (λ t, t <? started) l) (ValueError "token timestamp precedes request start") ;;
      Ok (exact_timestamps s ++ map Some l, tl_coalesced s)
    | None =>
      if token_count c =? 1 then Ok (exact_timestamps s ++ [Some (chunk_observed_at_us c)], tl_coalesced s)
      else Ok (exact_timestamps s ++ replicate (Z.to_nat (token_count c)) None,
               tl_coalesced s + token_count c)
    end in
  p <-! exact_and_coalesced ;;
  Ok {| exact_timestamps := p.1; tl_coalesced := p.2; next_index := next_index s + token_count c;
        previous_chunk_time := chunk_observed_at_us c |}.
Fixpoint add_chunks (request_id : string) (started : Z) (s : TimingLoop)
    (chunks : list TokenChunkTiming) : result TimingLoop :=
  match chunks with
  | [] => Ok s
  | c :: chunks =>
    _ <-! validate_chunk c ;;
    raise_if (negb (bool_decide (tc_request_id c = request_id)))
      (ValueError "timing chunk belongs to a different request") ;;
    raise_if (negb (first_token_index c =? next_index s))
      (ValueError "timing chunks must cover token indices exactly once") ;;
    raise_if (chunk_observed_at_us c <? previous_chunk_time s)
      (ValueError "chunk timestamps must be nondecreasing") ;;
    s <-! add_chunk started s c ;;
    add_chunks request_id started s chunks
  end.

(** The quotient of two list lengths: both are exact floats. *)
Definition evaluate_token_timing (request_id : string) (request_started_us : Z)
    (expected_output_tokens : Z) (chunks : list TokenChunkTiming) : result TimingCoverage :=
  raise_if (string_empty request_id) (ValueError "timing request ID must not be empty") ;;
  _ <-! require_nonnegative_integer request_started_us "request start time" ;;
  _ <-! require_nonnegative_integer expected_output_tokens "expected output tokens" ;;
  s <-! add_chunks request_id request_started_us
          {| exact_timestamps := []; tl_coalesced := 0; next_index := 0;
             previous_chunk_time := request_started_us |} chunks ;;
  raise_if (negb (next_index s =? expected_output_tokens))
    (ValueError "timing chunks do not cover expected output tokens") ;;
  let known_timestamps := omap id (exact_timestamps s) in
  raise_if (existsb (λ p : Z * Z, p.2 <? p.1) (pairwise known_timestamps))
    (ValueError "exact token timestamps must be globally nondecreasing") ;;
  let supported_itls := omap itl (pairwise (exact_timestamps s)) in
  let expected_itls := Z.max 0 (expected_output_tokens - 1) in
  let coverage := if expected_itls =? 0 then fone
                  else fdiv (float_of_Z (zlength supported_itls)) (float_of_Z expected_itls) in
  let first_timestamp := match exact_timestamps s with t :: _ => t | [] => None end in
  Ok {| tv_request_id := request_id; output_tokens := expected_output_tokens;
        expected_itl_intervals := expected_itls;
        supported_itl_intervals := zlength supported_itls; coalesced_tokens := tl_coalesced s;
        itl_coverage := coverage;
        ttft_us := (λ t, t - request_started_us) <$> first_timestamp;
        supported_itls_us := supported_itls |}.

(** ** What the timing of a stream says

    The timestamp of every token of a chunk, where one is known. *)
Definition token_times (c : TokenChunkTiming) : list (option Z) :=
  match per_token_observed_at_us c with
  | Some l => map Some l
  | None => if token_count c =? 1 then [Some (chunk_observed_at_us c)]
            else replicate (Z.to_nat (token_count c)) None
  end.
Definition stream_times (chunks : list TokenChunkTiming) : list (option Z) :=
  concat (map token_times chunks).
Definition unknown (l : list (option Z)) : Z := zlength (filter (λ t, t = None) l).
Definition total (l : list Z) : Z := foldr Z.add 0 l.

Lemma unknown_app l1 l2 : unknown (l1 ++ l2) = unknown l1 + unknown l2.
Proof. unfold unknown, zlength. rewrite filter_app, length_app. lia. Qed.
Lemma unknown_known l : unknown (map Some l) = 0.
Proof. unfold unknown, zlength. induction l as [|x l IH]; [done|]. cbn [map]. by rewrite filter_cons_False. Qed.
Lemma unknown_replicate n : unknown (replicate n None) = Z.of_nat n.
Proof.
  unfold unknown, zlength. induction n as [|n IH]; [done|]. cbn [replicate].
  rewrite filter_cons_True by done. cbn [length]. lia.
Qed.
Lemma unknown_none l : unknown l = 0 → ∃ times, l = map Some times.
Proof.
  unfold unknown, zlength. induction l as [|[x|] l IH]; [by exists []|..].
  - rewrite filter_cons_False by done. intros (times & ->)%IH. by exists (x :: times).
  - rewrite filter_cons_True by done. cbn [length]. lia.
Qed.
Lemma unknown_nonneg l : 0 <= unknown l.
Proof. unfold unknown, zlength. lia. Qed.

(** One valid chunk: its tokens, and at least two of them when it is coalesced. *)
Lemma chunk_times c :
  validate_chunk c = Ok tt →
  zlength (token_times c) = token_count c ∧
  (unknown (token_times c) ≠ 0 → 2 <= token_count c).
Proof.
  unfold validate_chunk, token_times. intros H. repeat step_ok H. bools.
  destruct (per_token_observed_at_us c) as [l|].
  - step_ok H. bools. unfold zlength in *. rewrite unknown_known, length_map. lia.
  - destruct (Z.eqb_spec (token_count c) 1) as [->|Hne]; [done|].
    rewrite unknown_replicate. unfold zlength. rewrite length_replicate. lia.
Qed.
Lemma add_chunk_Ok started s c s' :
  validate_chunk c = Ok tt → add_chunk started s c = Ok s' →
  exact_timestamps s' = exact_timestamps s ++ token_times c ∧
  tl_coalesced s' = tl_coalesced s + unknown (token_times c) ∧
  next_index s' = next_index s + token_count c ∧ previous_chunk_time s' = chunk_observed_at_us c ∧
  (started <= chunk_observed_at_us c → ∀ t, Some t ∈ token_times c → started <= t).
Proof.
  intros Hv. assert (0 < token_count c) as Hpos.
  { unfold validate_chunk in Hv. repeat step_ok Hv. bools. lia. }
  unfold add_chunk, token_times. intros H. cbv zeta in H.
  destruct (per_token_observed_at_us c) as [l|].
  - destruct (existsb _ l) eqn:Hex; [done|]. injection H as <-. cbn. rewrite unknown_known.
    split_and!; [done|lia|done..|]. intros _ t (t' & [= ->] & Ht)%list_elem_of_fmap.
    apply not_true_iff_false in Hex. rewrite existsb_exists in Hex.
    destruct (Z_lt_ge_dec t' started); [|lia]. destruct Hex. exists t'.
    split; [by apply list_elem_of_In|]. lia.
  - destruct (Z.eqb_spec (token_count c) 1) as [Hone|Hne]; injection H as <-; cbn.
    + change (unknown [_]) with 0. split_and!; [done|lia|done..|].
      by intros ? t [= ->]%list_elem_of_singleton.
    + rewrite unknown_replicate. split_and!; [done|lia|done..|].
      by intros _ t [? _]%elem_of_replicate.
Qed.

Lemma add_chunks_Ok id started s chunks s' :
  add_chunks id started s chunks = Ok s' → started <= previous_chunk_time s →
  exact_timestamps s' = exact_timestamps s ++ stream_times chunks ∧
  tl_coalesced s' = tl_coalesced s + unknown (stream_times chunks) ∧
  next_index s' = next_index s + zlength (stream_times chunks) ∧
  (∀ t, Some t ∈ stream_times chunks → started <= t) ∧
  (unknown (stream_times chunks) ≠ 0 → 2 <= zlength (stream_times chunks)).
Proof.
  unfold stream_times. revert s. induction chunks as [|c chunks IH]; intros s H Hs; cbn in H |- *.
  { injection H as ->. rewrite app_nil_r. unfold unknown, zlength; cbn.
    split_and!; [done|lia|lia|by intros ? ?%elem_of_nil|lia]. }
  step_ok H. destruct a. repeat step_ok H. bools.
  apply chunk_times in E as Hc. destruct Hc as [Hlen Hmany].
  apply add_chunk_Ok in E3 as (He & Hco & Hn & Hp & Hge); [|done].
  apply IH in H as (He' & Hco' & Hn' & Hge' & Hmany'); [|lia].
  rewrite unknown_app. pose proof (unknown_nonneg (token_times c)).
  pose proof (unknown_nonneg (concat (map token_times chunks))).
  unfold zlength in *. rewrite length_app. split_and!.
  - by rewrite He', He, app_assoc.
  - lia.
  - lia.
  - intros t [Ht|Ht]%elem_of_app; [apply Hge; [lia|done]|by apply Hge'].
  - intros Hu. destruct (decide (unknown (token_times c) = 0)) as [Hz|Hz]; [|specialize (Hmany Hz); lia].
    specialize (Hmany' ltac:(lia)). lia.
Qed.

(** ** Adjacent differences *)
Lemma pairwise_cons {A} (x y : A) l : pairwise (x :: y :: l) = (x, y) :: pairwise (y :: l).
Proof. done. Qed.
Lemma length_pairwise {A} (l : list A) : length (pairwise l) = (length l - 1)%nat.
Proof. unfold pairwise. rewrite length_zip_with. destruct l; cbn [length tail]; lia. Qed.
Lemma length_omap {A B} (f : A → option B) l : (length (omap f l) ≤ length l)%nat.
Proof. induction l as [|x l IH]; cbn; [done|]. destruct (f x); cbn; lia. Qed.
Lemma omap_full {A B} (f : A → option B) l :
  length (omap f l) = length l → Forall (λ x, is_Some (f x)) l.
Proof.
  induction l as [|x l IH]; cbn; [constructor|]. pose proof (length_omap f l).
  destruct (f x) eqn:E; cbn; intros ?; [constructor; [by rewrite E|]; apply IH; lia | lia].
Qed.

Lemma itls_full (l : list (option Z)) :
  length (omap itl (pairwise l)) = length (pairwise l) → (2 ≤ length l)%nat → unknown l = 0.
Proof.
  intros H%omap_full. destruct l as [|x [|y l]]; cbn [length]; [lia..|]. intros _.
  revert x y H. induction l as [|z l IH]; intros x y H; rewrite pairwise_cons in H;
    apply Forall_cons in H as [[d Hd] H].
  - by destruct x, y.
  - destruct x as [x|]; [|done]. unfold unknown. rewrite filter_cons_False by done.
    by apply (IH y z).
Qed.
Lemma itls_known (l : list Z) :
  length (omap itl (pairwise (map Some l))) = (length l - 1)%nat.
Proof.
  destruct l as [|x l]; [done|]. revert x. induction l as [|y l IH]; intros x; [done|].
  cbn [map]. rewrite pairwise_cons. cbn [omap list_omap itl length]. specialize (IH y). cbn [map] in IH.
  cbn in *. lia.
Qed.
Lemma itls_total x (l : list Z) :
  total (omap itl (pairwise (map Some (x :: l)))) = default x (last l) - x.
Proof.
  revert x. induction l as [|y l IH]; intros x; [cbn; lia|].
  change (total (omap itl (pairwise (map Some (x :: y :: l)))))
    with (y - x + total (omap itl (pairwise (map Some (y :: l))))).
  rewrite IH. rewrite last_cons. destruct (last l); cbn; lia.
Qed.
Lemma ordered_pairs (l : list Z) :
  existsb (λ p : Z * Z, p.2 <? p.1) (pairwise l) = false → StronglySorted Z.le l.
Proof.
  intros H. apply Sorted_StronglySorted; [intros ???; lia|].
  destruct l as [|x l]; [constructor|]. revert x H. induction l as [|y l IH]; intros x H.
  { repeat constructor. }
  rewrite pairwise_cons in H. cbn in H. bools. constructor; [by apply IH|]. constructor. lia.
Qed.
Lemma itls_nonneg (l : list (option Z)) :
  StronglySorted Z.le (omap id l) → Forall (λ d, 0 <= d) (omap itl (pairwise l)).
Proof.
  destruct l as [|x l]; [constructor|]. revert x. induction l as [|y l IH]; intros x H; [constructor|].
  rewrite pairwise_cons. specialize (IH y). destruct x as [x|]; cbn in H.
  - apply StronglySorted_inv in H as [Hs Hx]. specialize (IH Hs). destruct y as [y|]; [|done].
    cbn in Hx. apply Forall_cons in Hx as [Hx _]. cbn. constructor; [lia|done].
  - destruct y; by apply IH.
Qed.

Lemma known_stream (l : list Z) : omap id (map Some l) = l.
Proof. induction l as [|x l IH]; cbn; [done|]. by rewrite IH. Qed.
Lemma elem_of_known (l : list (option Z)) t : t ∈ omap id l ↔ Some t ∈ l.
Proof. rewrite list_elem_of_omap. split; [by intros ([t'|] & ? & [= ->])|]. intros. by exists (Some t). Qed.

(** C6. Token timing invents no timestamp. When it returns, the chunks cover the
    expected tokens, the coalesced count is the number of tokens without a
    timestamp of their own, and coverage is full exactly when there are none;
    every reported interval and the time to the first token are non-negative;
    with a coalesced token the headline percentile is withheld for every
    percentile asked, and with none the first-token time and the intervals add up
    to the time of the last token. *)
Theorem timing_exact id started n chunks c :
  evaluate_token_timing id started n chunks = Ok c →
  let ts := stream_times chunks in
  zlength ts = n ∧ coalesced_tokens c = unknown ts ∧
  (full_itl_coverage c = true ↔ coalesced_tokens c = 0) ∧
  Forall (λ d, 0 <= d) (supported_itls_us c) ∧ (∀ d, ttft_us c = Some d → 0 <= d) ∧
  (coalesced_tokens c ≠ 0 → ∀ p, check_percentile p = Ok tt → itl_percentile_us c p = Ok None) ∧
  (coalesced_tokens c = 0 → 0 < n → ∃ first times, ts = map Some (first :: times) ∧
     StronglySorted Z.le (started :: first :: times) ∧ ttft_us c = Some (first - started) ∧
     first - started + total (supported_itls_us c) = default first (last times) - started).
Proof.
  unfold evaluate_token_timing. cbv zeta. intros H. do 4 step_ok H.
  apply add_chunks_Ok in E2 as (Hts & Hco & Hn & Hge & Hmany); [|cbn; lia].
  cbn in Hts, Hco, Hn. do 2 step_ok H. injection H as <-. bools.
  rewrite Hts in *. apply ordered_pairs in E3.
  cbn [coalesced_tokens full_itl_coverage supported_itl_intervals expected_itl_intervals
       supported_itls_us ttft_us].
  assert (zlength (omap itl (pairwise (stream_times chunks))) = Z.max 0 (n - 1)
          ↔ unknown (stream_times chunks) = 0) as Hfull.
  { unfold zlength in *. split.
    - intros Hl. destruct (decide (unknown (stream_times chunks) = 0)) as [|Hu]; [done|].
      specialize (Hmany Hu). apply itls_full; [rewrite length_pairwise|]; lia.
    - intros (times & Ht)%unknown_none. rewrite Ht, itls_known.
      rewrite Ht, length_map in Hn. lia. }
  split_and!; [lia|lia| |by apply itls_nonneg| | |].
  - unfold full_itl_coverage; cbn. rewrite Z.eqb_eq, Hfull. lia.
  - intros d Hd. destruct (stream_times chunks) as [|[t|] l]; cbn in Hd; simplify_eq.
    specialize (Hge t (list_elem_of_here _ _)). lia.
  - intros Hu p Hp. unfold itl_percentile_us. rewrite Hp.
    unfold full_itl_coverage; cbn. rewrite (proj2 (Z.eqb_neq _ _)); [done|]. rewrite Hfull. lia.
  - intros Hu Hpos. destruct (unknown_none (stream_times chunks)) as (times & Ht); [lia|].
    rewrite Ht in *. destruct times as [|first times]; [unfold zlength in Hn; cbn in Hn; lia|].
    exists first, times. split; [done|]. rewrite known_stream in E3. split; [|split; [done|]].
    + constructor; [done|]. apply Forall_forall. intros t Hin. apply Hge. by apply list_elem_of_fmap_2.
    + rewrite itls_total. lia.
Qed.
