(* ===== verification/LoadSafety.v ===== *)
(** * What terminal accounting accepts, and what it reports

    [acceptable] states when the outcomes of a plan are well formed, without the
    loops of the code: client lanes are the residues of the request index modulo
    the concurrency.  [account_scored_requests] returns exactly on these
    outcomes, and returns their counts. *)
From S2P Require Import Prelude PyFloat FloatRepr Hashlib Registry GpuPool Load LoadSources LoadAccounting.

(** ** Specification *)
Section specification.
Variable plan : ProductionLoadPlan.
Variable outcomes : list RequestOutcome.

(** The outcome [o] is reported for the request [r] of the plan. *)
Definition reported (r : ImmutableRequest) (o : RequestOutcome) : Prop :=
  r ∈ requests (scored plan) ∧ o ∈ outcomes ∧ ro_request_id o = request_id r.
Definition reported_at (k : nat) (r : ImmutableRequest) (o : RequestOutcome) : Prop :=
  requests (scored plan) !! k = Some r ∧ o ∈ outcomes ∧ ro_request_id o = request_id r.

(** The times of an outcome of each status. *)
Definition lifetime (r : ImmutableRequest) (o : RequestOutcome) : Prop :=
  let offered := offer_time r o in
  let deadline := timeout_at plan offered in
  0 <= offered ∧
  (if closed_loop plan then offered < arrival_duration_us (window plan)
   else offered = arrival_us r) ∧
  (∀ a, admitted_at_us o = Some a → offered <= a <= deadline) ∧
  match ro_status o with
  | REJECTED => admitted_at_us o = None ∧ ∃ t, terminal_at_us o = Some t ∧ offered <= t <= deadline
  | COMPLETED => ∃ a, admitted_at_us o = Some a ∧ ∃ t, terminal_at_us o = Some t ∧
      a <= t <= deadline ∧ ∀ c, cancel_at r offered = Some c → t <= c
  | TIMED_OUT => ∃ a, admitted_at_us o = Some a ∧ terminal_at_us o = Some deadline ∧
      ∀ c, cancel_at r offered = Some c → deadline <= c
  | CANCELLED => ∃ c, cancel_at r offered = Some c ∧ terminal_at_us o = Some c ∧
      offered <= c <= deadline ∧ ∀ a, admitted_at_us o = Some a → a <= c
  | UNFINISHED => admitted_at_us o ≠ None ∧ terminal_at_us o = None ∧
      ∀ c, cancel_at r offered = Some c → deadline < c
  end.
(** The end of a request in the accounting. *)
Definition ended_at (r : ImmutableRequest) (o : RequestOutcome) : Z :=
  default (timeout_at plan (offer_time r o)) (terminal_at_us o).

(** Every client reports a non-empty prefix of its requests. *)
Definition clients_covered (c : nat) : Prop :=
  (∀ k, (k < c)%nat → ∃ r o, reported_at k r o) ∧
  (∀ k r o, reported_at (k + c) r o → ∃ r' o', reported_at k r' o').
(** No request of its client before index [k + c] was left without a terminal. *)
Definition client_terminated (c k : nat) : Prop :=
  ∀ i j r o, k = (j + i * c)%nat → reported_at j r o → terminal_at_us o ≠ None.
(** A client starts at the score boundary and is replenished at its terminals. *)
Definition clients_replenished (c : nat) : Prop :=
  (∀ k r o, (k < c)%nat → reported_at k r o → offer_time r o = 0) ∧
  (∀ k r o r' o', reported_at k r o → reported_at (k + c) r' o' → client_terminated c k →
     terminal_at_us o = Some (offer_time r' o')).

Definition acceptable : Prop :=
  validate_load_plan plan = Ok tt ∧ outcomes ≠ [] ∧
  NoDup (map ro_request_id outcomes) ∧ Forall (λ o, ro_code o ≠ EmptyString) outcomes ∧
  (∀ o, o ∈ outcomes → ∃ r, reported r o) ∧
  (∀ r o, reported r o → lifetime r o) ∧
  (if closed_loop plan then
     ∃ c, positive_parameter (source_parameters (scored plan)) "concurrency" = Some c ∧
          clients_covered (Z.to_nat c) ∧ clients_replenished (Z.to_nat c)
   else ∀ r, r ∈ requests (scored plan) → ∃ o, reported r o).

Definition how_many (P : RequestOutcome → Prop) `{∀ o, Decision (P o)} : Z :=
  zlength (filter P outcomes).
Definition accounts_for (a : LoadAccounting) : Prop :=
  la_offered a = zlength outcomes ∧
  la_admitted a = how_many (λ o, admitted_at_us o ≠ None) ∧
  la_rejected a = how_many (λ o, ro_status o = REJECTED) ∧
  la_completed a = how_many (λ o, ro_status o = COMPLETED) ∧
  la_timed_out a = how_many (λ o, ro_status o = TIMED_OUT) ∧
  la_cancelled a = how_many (λ o, ro_status o = CANCELLED) ∧
  la_unfinished a = how_many (λ o, ro_status o = UNFINISHED) ∧
  (∃ r o, reported r o ∧ score_started_us a = offer_time r o) ∧
  (∀ r o, reported r o → score_started_us a <= offer_time r o) ∧
  (∃ r o, reported r o ∧ score_ended_us a = ended_at r o) ∧
  (∀ r o, reported r o → ended_at r o <= score_ended_us a) ∧
  elapsed_us a = score_ended_us a - score_started_us a.
End specification.

(** ** Slices with a step *)
Lemma lookup_every {A} skip period (l : list A) i :
  every skip period l !! i = l !! (skip + i * S period)%nat.
Proof.
  revert skip i. induction l as [|x l IH]; intros skip i; [cbn; by rewrite !lookup_nil|].
  destruct skip as [|skip]; cbn [every]; [|by rewrite IH].
  destruct i as [|i]; [done|]. cbn. rewrite IH. f_equal.
Qed.
Lemma lookup_lane l c k i :
  0 < c → 0 <= k →
  lane_requests l c k !! i = l !! (Z.to_nat k + i * Z.to_nat c)%nat.
Proof. intros Hc Hk. unfold lane_requests. rewrite lookup_every. f_equal. nia. Qed.

(** ** Lifetimes *)
Lemma require_nonnegative_Ok x name : require_nonnegative_integer x name = Ok tt ↔ 0 <= x.
Proof. unfold require_nonnegative_integer. destruct (Z.ltb_spec x 0); split; (done || lia). Qed.
Lemma raise_if_Ok {A} (b : bool) e (m : result A) a :
  (raise_if b e ;; m) = Ok a ↔ b = false ∧ m = Ok a.
Proof. destruct b; naive_solver. Qed.
Lemma seq_unit_Ok {A} (m : result unit) (k : result A) a :
  (_ <-! m ;; k) = Ok a ↔ m = Ok tt ∧ k = Ok a.
Proof. destruct m as [[]|]; naive_solver. Qed.

(** Quantifiers over the content of an option. *)
Lemma forall_Some {A} (x : A) (P : A → Prop) : (∀ y, Some x = Some y → P y) ↔ P x.
Proof. naive_solver. Qed.
Lemma forall_None {A} (P : A → Prop) : (∀ y, None = Some y → P y) ↔ True.
Proof. naive_solver. Qed.
Lemma exists_Some {A} (x : A) (P : A → Prop) : (∃ y, Some x = Some y ∧ P y) ↔ P x.
Proof. naive_solver. Qed.
Lemma exists_None {A} (P : A → Prop) : (∃ y : A, None = Some y ∧ P y) ↔ False.
Proof. naive_solver. Qed.

Section lifetimes.
Variable plan : ProductionLoadPlan.

Lemma scheduled_false cancel test :
  scheduled cancel test = false ↔ ∀ c, cancel = Some c → test c = false.
Proof. destruct cancel; cbn; naive_solver. Qed.

Lemma check_terminal_Ok o offered timeout cancel :
  check_terminal o offered timeout cancel = Ok tt ↔
  ∃ t, terminal_at_us o = Some t ∧ 0 <= t ∧ offered <= t <= timeout ∧
    (∀ a, admitted_at_us o = Some a → a <= t) ∧
    (ro_status o = TIMED_OUT → t = timeout) ∧
    (ro_status o = CANCELLED → cancel = Some t) ∧
    (ro_status o = COMPLETED → ∀ c, cancel = Some c → t <= c) ∧
    (ro_status o = TIMED_OUT → ∀ c, cancel = Some c → timeout <= c).
Proof.
  unfold check_terminal. destruct (terminal_at_us o) as [t|]; [|naive_solver].
  rewrite seq_unit_Ok, !raise_if_Ok, require_nonnegative_Ok.
  transitivity (0 <= t ∧ offered <= t <= timeout ∧
    (∀ a, admitted_at_us o = Some a → a <= t) ∧
    (ro_status o = TIMED_OUT → t = timeout) ∧
    (ro_status o = CANCELLED → cancel = Some t) ∧
    (ro_status o = COMPLETED → ∀ c, cancel = Some c → t <= c) ∧
    (ro_status o = TIMED_OUT → ∀ c, cancel = Some c → timeout <= c)).
  - destruct (ro_status o), (admitted_at_us o) as [a|], cancel as [c|]; cbn;
      repeat (case_bool_decide || match goal with |- context [bool_decide ?P] => destruct (bool_decide_reflect P) end); simplify_eq/=; 
      rewrite ?negb_false_iff, ?andb_true_iff, ?Z.leb_le, ?Z.ltb_ge, ?Z.eqb_eq;
      intuition (simplify_eq; auto; try lia; try congruence).
  - naive_solver.
Qed.

Lemma check_admission_Ok o offered timeout :
  check_admission o offered timeout = Ok tt ↔
  (∀ a, admitted_at_us o = Some a → 0 <= a ∧ offered <= a <= timeout) ∧
  match ro_status o with
  | REJECTED => admitted_at_us o = None
  | CANCELLED => True
  | _ => admitted_at_us o ≠ None
  end.
Proof.
  unfold check_admission. rewrite seq_unit_Ok, !raise_if_Ok.
  destruct (admitted_at_us o) as [a|].
  - rewrite seq_unit_Ok, raise_if_Ok, require_nonnegative_Ok, negb_false_iff, andb_true_iff, !Z.leb_le.
    destruct (ro_status o); cbn; naive_solver.
  - destruct (ro_status o); cbn; naive_solver.
Qed.

Lemma check_offer_Ok r offered :
  check_offer plan r offered = Ok tt ↔
  0 <= offered ∧ (if closed_loop plan then offered < arrival_duration_us (window plan)
                  else offered = arrival_us r).
Proof.
  unfold check_offer. rewrite seq_unit_Ok, require_nonnegative_Ok.
  destruct (closed_loop plan);
    rewrite raise_if_Ok, negb_false_iff, ?andb_true_iff, ?Z.leb_le, ?Z.ltb_lt, ?Z.eqb_eq;
    naive_solver.
Qed.

Lemma check_lifetime_Ok r o : check_lifetime plan r o = Ok tt ↔ lifetime plan r o.
Proof.
  unfold check_lifetime, lifetime. cbv zeta. rewrite !seq_unit_Ok, check_offer_Ok, check_admission_Ok.
  generalize (timeout_at plan (offer_time r o)) as dl, (offer_time r o) as off.
  intros dl off. generalize (cancel_at r off) as cancel. intros cancel.
  destruct (ro_status o) eqn:Hs;
    rewrite ?check_terminal_Ok, ?raise_if_Ok, ?Hs, ?scheduled_false, ?bool_decide_eq_false.
  all: destruct (admitted_at_us o) as [a|], (terminal_at_us o) as [t|], cancel as [c|].
  all: rewrite ?forall_Some, ?forall_None, ?exists_Some, ?exists_None, ?forall_Some, ?forall_None.
  all: try solve [intuition (simplify_eq; auto; try lia; try congruence)].
  all: split; intros; destruct_and?; repeat split; intros; simplify_eq; try done; try lia.
  all: naive_solver lia.
Qed.
End lifetimes.

(** ** Collecting the outcomes *)
Definition by_identity (outcomes : list RequestOutcome) : gmap string RequestOutcome :=
  list_to_map (map (λ o, (ro_request_id o, o)) outcomes).

Lemma lookup_by_identity outcomes i o :
  NoDup (map ro_request_id outcomes) →
  by_identity outcomes !! i = Some o ↔ o ∈ outcomes ∧ ro_request_id o = i.
Proof.
  intros Hnd. unfold by_identity.
  assert (NoDup (map (λ o, (ro_request_id o, o)) outcomes).*1) as Hnd'
    by (by rewrite <- list_fmap_compose).
  etransitivity; [symmetry; apply (elem_of_list_to_map _ i o Hnd')|].
  rewrite list_elem_of_fmap. naive_solver.
Qed.

Lemma collect_outcomes_Ok m l m' :
  collect_outcomes m l = Ok m' ↔
  NoDup (map ro_request_id l) ∧ Forall (λ o, m !! ro_request_id o = None) l ∧
  Forall (λ o, ro_code o ≠ EmptyString) l ∧
  m' = (by_identity l ∪ m).
Proof.
  revert m. induction l as [|o l IH]; intros m; cbn [collect_outcomes map].
  - unfold by_identity; cbn. rewrite (left_id_L ∅ (∪)).
    split; [intros [= <-]; repeat split; constructor | by intros (_ & _ & _ & ->)].
  - rewrite !raise_if_Ok, IH, NoDup_cons, !Forall_cons, bool_decide_eq_false.
    rewrite <- eq_None_not_Some.
    assert (string_empty (ro_code o) = false ↔ ro_code o ≠ EmptyString) as ->
      by (by destruct (ro_code o)).
    assert (Forall (λ o', (<[ro_request_id o:=o]> m) !! ro_request_id o' = None) l
            ↔ (ro_request_id o ∉ map ro_request_id l) ∧
              Forall (λ o', m !! ro_request_id o' = None) l) as ->.
    { rewrite !Forall_forall. setoid_rewrite lookup_insert_None.
      rewrite list_elem_of_fmap. naive_solver. }
    assert (by_identity (o :: l) ∪ m = (by_identity l ∪ <[ro_request_id o := o]> m)
            ∨ (ro_request_id o ∈ map ro_request_id l)) as [->|?]; [|naive_solver..].
    destruct (decide (ro_request_id o ∈ map ro_request_id l)) as [|Hni]; [by right|left].
    unfold by_identity; cbn. rewrite <- insert_union_l, insert_union_r; [done|].
    apply not_elem_of_list_to_map_1. by rewrite <- list_fmap_compose.
Qed.

(** ** Clients *)
Section clients.
Variable by_id : gmap string RequestOutcome.

(** The outcome of the [i]-th request of a client. *)
Definition told (l : list ImmutableRequest) (i : nat) (r : ImmutableRequest) (o : RequestOutcome)
  : Prop := l !! i = Some r ∧ by_id !! request_id r = Some o.
Definition has (l : list ImmutableRequest) (i : nat) : Prop := ∃ r o, told l i r o.

Lemma present_spec r : present by_id r = true ↔ ∃ o, by_id !! request_id r = Some o.
Proof. unfold present. by rewrite bool_decide_eq_true. Qed.
Lemma has_first r l : has (r :: l) 0 ↔ present by_id r = true.
Proof. rewrite present_spec. unfold has, told; cbn. naive_solver. Qed.

Lemma check_prefix_gap l : check_prefix by_id true l = Ok tt ↔ ∀ i, ¬ has l i.
Proof.
  induction l as [|r l IH]; cbn [check_prefix].
  - split; [|done]. by intros _ i (r & o & ? & _).
  - rewrite raise_if_Ok. cbn. rewrite IH. split.
    + intros [Hp Hl] [|i]; [rewrite has_first; congruence | exact (Hl i)].
    + intros Hl. split; [|intros i; exact (Hl (S i))].
      apply not_true_iff_false. rewrite <- (has_first r l). apply Hl.
Qed.
Lemma check_prefix_Ok l :
  check_prefix by_id false l = Ok tt ↔ ∀ i, has l (S i) → has l i.
Proof.
  induction l as [|r l IH]; cbn [check_prefix].
  - split; [|done]. by intros _ i (r & o & ? & _).
  - cbn [andb]. destruct (present by_id r) eqn:Hp; cbn [orb negb].
    + rewrite IH. split.
      * intros Hl [|i]; [by rewrite has_first | exact (Hl i)].
      * intros Hl i. exact (Hl (S i)).
    + rewrite check_prefix_gap. split.
      * intros Hl i Hi. by destruct (Hl i Hi).
      * intros Hl i. induction i as [|i IHi]; intros Hi.
        -- apply Hl in Hi. rewrite has_first in Hi. congruence.
        -- by apply IHi, (Hl (S i)).
Qed.
Lemma check_lane_Ok l :
  check_lane by_id l = Ok tt ↔ has l 0 ∧ ∀ i, has l (S i) → has l i.
Proof.
  destruct l as [|r l]; cbn [check_lane].
  - split; [done|]. by intros [(? & ? & ? & _) _].
  - rewrite <- check_prefix_Ok, has_first. destruct (present by_id r); naive_solver.
Qed.

(** The loop over one client checks the chain of its offers. *)
Lemma check_replenished_Ok (effective : gmap string Z) previous l :
  (∀ i r o, told l i r o → effective !! request_id r = Some (offer_time r o)) →
  (∀ i, has l (S i) → has l i) →
  check_replenished by_id effective previous l = Ok tt ↔
  (∀ r o, told l 0 r o → offer_time r o = default 0 previous) ∧
  (∀ i r o r' o', told l i r o → told l (S i) r' o' →
     (∀ j r o, (j ≤ i)%nat → told l j r o → terminal_at_us o ≠ None) →
     terminal_at_us o = Some (offer_time r' o')).
Proof.
  revert previous. induction l as [|r l IH]; intros previous Heff Hpre; cbn [check_replenished].
  { split; [|done]. intros _. by split; [intros ?? [? _] | intros ????? [? _]]. }
  destruct (by_id !! request_id r) as [o|] eqn:Ho.
  2: { split; [|done]. intros _.
       assert (∀ i, ¬ has (r :: l) i) as Hno.
       { induction i as [|i IHi]; [|by intros ?%Hpre].
         rewrite has_first, present_spec. naive_solver. }
       split; [intros r' o' H'; by destruct (Hno 0%nat (ex_intro _ r' (ex_intro _ o' H')))|].
       intros i r1 o1 ?? H' _. by destruct (Hno i (ex_intro _ r1 (ex_intro _ o1 H'))). }
  rewrite (Heff 0%nat r o) by done. rewrite !raise_if_Ok.
  assert (match previous with None => negb (offer_time r o =? 0) | Some _ => false end = false ∧
          match previous with Some t => negb (offer_time r o =? t) | None => false end = false
          ↔ offer_time r o = default 0 previous) as Hprev.
  { destruct previous; cbn; rewrite ?negb_false_iff, ?Z.eqb_eq; naive_solver. }
  rewrite (and_assoc (_ = false) (_ = false)), Hprev.
  assert ((∀ r1 o1, told (r :: l) 0 r1 o1 → offer_time r1 o1 = default 0 previous)
          ↔ offer_time r o = default 0 previous) as ->.
  { split; [intros H; by apply H|]. intros H r1 o1 [[= <-] ?]. by simplify_eq. }
  apply and_iff_compat_l. destruct (terminal_at_us o) as [t|] eqn:Ht.
  - rewrite IH; [|intros i; apply (Heff (S i))|intros i; apply (Hpre (S i))]. split.
    + intros [H0 Hl] [|i] r1 o1 r2 o2 H1 H2 Hj.
      * destruct H1 as [[= <-] ?]. simplify_eq. rewrite Ht. f_equal. symmetry. by apply H0.
      * apply (Hl i r1 o1 r2 o2 H1 H2). intros j rj oj ?. apply (Hj (S j)). lia.
    + intros Hl. split.
      * intros r1 o1 H1. specialize (Hl 0%nat r o r1 o1). rewrite Ht in Hl.
        apply Some_inj. cbn. symmetry. apply Hl; [done..|].
        intros j rj oj ? Hj. replace j with 0%nat in Hj by lia. destruct Hj as [[= <-] ?].
        simplify_eq. by rewrite Ht.
      * intros i r1 o1 r2 o2 H1 H2 Hj. apply (Hl (S i) r1 o1 r2 o2 H1 H2).
        intros [|j] rj oj ? H; [|apply (Hj j rj oj); [lia|done]].
        destruct H as [[= <-] ?]. simplify_eq. by rewrite Ht.
  - split; [|done]. intros _ i r1 o1 r2 o2 _ _ Hj. exfalso. by apply (Hj 0%nat r o); [lia| |].
Qed.
End clients.
