(* ===== verification/LoadRefinement.v ===== *)
(** * [account_scored_requests] implements its specification

    The loops over client lanes, over the offered requests and over their
    endpoints, connected to [acceptable] and [accounts_for]. *)
From S2P Require Import Prelude PyFloat FloatRepr Hashlib Registry GpuPool Load LoadSources LoadAccounting LoadSafety.

(** ** Least and greatest integers *)
Lemma fold_min_spec x l m : fold_left Z.min l x = m ↔ m ∈ x :: l ∧ ∀ y, y ∈ x :: l → m <= y.
Proof.
  revert x. induction l as [|z l IH]; intros x; cbn.
  - setoid_rewrite list_elem_of_singleton. split; [intros ->; naive_solver lia | by intros [-> _]].
  - rewrite IH. setoid_rewrite elem_of_cons. setoid_rewrite elem_of_cons. split.
    + intros [Hm Hle]. pose proof (Hle (Z.min x z) (or_introl eq_refl)). split.
      * destruct Hm as [->|?]; [|auto]. destruct (Z.min_spec x z) as [[_ ->]|[_ ->]]; auto.
      * intros y [->|[->|?]]; [lia..|auto].
    + intros [Hm Hle]. pose proof (Hle x). pose proof (Hle z). split.
      * destruct Hm as [->|[->|?]]; [left; lia..|auto].
      * intros y [->|?]; [|auto]. destruct (Z.min_spec x z) as [[_ ->]|[_ ->]]; auto.
Qed.
Lemma min_int_Ok l m : min_int l = Ok m ↔ m ∈ l ∧ ∀ x, x ∈ l → m <= x.
Proof.
  destruct l as [|x l]; cbn [min_int]; [split; [done|by intros [?%elem_of_nil _]]|].
  rewrite <- fold_min_spec. naive_solver.
Qed.
Lemma fold_max_min l x : fold_left Z.max l x = - fold_left Z.min (map Z.opp l) (- x).
Proof.
  revert x. induction l as [|y l IH]; intros x; cbn; [lia|]. rewrite IH. do 2 f_equal. lia.
Qed.
Lemma max_int_Ok l m : max_int l = Ok m ↔ m ∈ l ∧ ∀ x, x ∈ l → x <= m.
Proof.
  assert (max_int l = Ok m ↔ min_int (map Z.opp l) = Ok (- m)) as ->.
  { destruct l as [|x l]; [done|]. cbn [max_int min_int map]. rewrite fold_max_min.
    split; intros [= H]; f_equal; lia. }
  rewrite min_int_Ok, list_elem_of_fmap. setoid_rewrite list_elem_of_fmap. split.
  - intros [(x & Hx & ?) Hle]. replace m with x by lia. split; [done|]. intros y Hy.
    specialize (Hle (- y) (ex_intro _ y (conj eq_refl Hy))). lia.
  - intros [Hm Hle]. split; [by exists m|]. intros y (x & -> & Hx). specialize (Hle x Hx). lia.
Qed.

Section refinement.
Variable plan : ProductionLoadPlan.
Variable outcomes : list RequestOutcome.
Hypothesis identified : NoDup (map ro_request_id outcomes).
Abbreviation reqs := (requests (scored plan)).
Abbreviation by_id := (by_identity outcomes).
Abbreviation reported_at := (reported_at plan outcomes).
Abbreviation reported := (reported plan outcomes).

Lemma reported_at_lookup k r o :
  reported_at k r o ↔ reqs !! k = Some r ∧ by_id !! request_id r = Some o.
Proof using identified. unfold LoadSafety.reported_at. by rewrite lookup_by_identity. Qed.
Lemma reported_lookup r o : reported r o ↔ r ∈ reqs ∧ by_id !! request_id r = Some o.
Proof using identified. unfold LoadSafety.reported. by rewrite lookup_by_identity. Qed.

(** ** Client lanes *)
Lemma told_lane c lane i r o :
  0 < c → 0 <= lane →
  told by_id (lane_requests reqs c lane) i r o ↔ reported_at (Z.to_nat lane + i * Z.to_nat c) r o.
Proof using identified. intros ??. unfold told. by rewrite lookup_lane, reported_at_lookup. Qed.
Lemma has_lane c lane i :
  0 < c → 0 <= lane →
  has by_id (lane_requests reqs c lane) i ↔ ∃ r o, reported_at (Z.to_nat lane + i * Z.to_nat c) r o.
Proof using identified. intros ??. unfold has. by setoid_rewrite told_lane. Qed.

(** Every index lies on one lane. *)
Lemma lane_of_index (c : Z) (m : nat) :
  0 < c → ∃ lane i, 0 <= lane < c ∧ m = (Z.to_nat lane + i * Z.to_nat c)%nat.
Proof.
  intros Hc. exists (Z.of_nat m mod c), (Z.to_nat (Z.of_nat m / c)).
  pose proof (Z.mod_pos_bound (Z.of_nat m) c Hc). pose proof (Z.div_mod (Z.of_nat m) c).
  pose proof (Z.div_pos (Z.of_nat m) c). split; [done|]. nia.
Qed.

Lemma all_lanes_Ok (f : Z → result unit) c :
  all_ok f (seqZ 0 c) = Ok tt ↔ ∀ lane, 0 <= lane < c → f lane = Ok tt.
Proof. rewrite all_ok_Ok. by setoid_rewrite elem_of_seqZ. Qed.

Lemma lanes_covered c :
  0 < c →
  all_ok (λ lane, check_lane by_id (lane_requests reqs c lane)) (seqZ 0 c) = Ok tt ↔
  clients_covered plan outcomes (Z.to_nat c).
Proof using identified.
  intros Hc. rewrite all_lanes_Ok. setoid_rewrite check_lane_Ok. unfold clients_covered. split.
  - intros Hl. split.
    + intros k Hk. destruct (Hl (Z.of_nat k)) as [Hf _]; [lia|]. rewrite has_lane in Hf by lia.
      by replace (Z.to_nat _ + _)%nat with k in Hf by lia.
    + intros m r o Hm. destruct (lane_of_index c m Hc) as (lane & i & Hlane & ->).
      destruct (Hl lane Hlane) as [_ Hp]. specialize (Hp i). rewrite !has_lane in Hp by lia.
      apply Hp. exists r, o. by replace (_ + S i * _)%nat with
        (Z.to_nat lane + i * Z.to_nat c + Z.to_nat c)%nat by lia.
  - intros [Hf Hp] lane Hlane. rewrite has_lane by lia. split.
    + destruct (Hf (Z.to_nat lane)) as (r & o & H); [lia|]. exists r, o. by rewrite Nat.add_0_r.
    + intros i. rewrite !has_lane by lia. intros (r & o & H). apply (Hp _ r o).
      by replace (_ + _ + _)%nat with (Z.to_nat lane + S i * Z.to_nat c)%nat by lia.
Qed.

Lemma client_terminated_lane c lane n :
  0 <= lane < c →
  client_terminated plan outcomes (Z.to_nat c) (Z.to_nat lane + n * Z.to_nat c) ↔
  ∀ j r o, (j ≤ n)%nat → told by_id (lane_requests reqs c lane) j r o → terminal_at_us o ≠ None.
Proof using identified.
  intros Hlane. unfold client_terminated. setoid_rewrite told_lane; [|lia..]. split.
  - intros H j r o Hj. apply (H (n - j)%nat). nia.
  - intros H i j r o Hij. assert (i ≤ n)%nat by nia.
    replace j with (Z.to_nat lane + (n - i) * Z.to_nat c)%nat by nia. apply (H (n - i)%nat r o). lia.
Qed.

Lemma lanes_replenished c effective :
  0 < c → clients_covered plan outcomes (Z.to_nat c) →
  (∀ k r o, reported_at k r o → effective !! request_id r = Some (offer_time r o)) →
  all_ok (λ lane, check_replenished by_id effective None (lane_requests reqs c lane)) (seqZ 0 c)
    = Ok tt ↔ clients_replenished plan outcomes (Z.to_nat c).
Proof using identified.
  intros Hc [_ Hpre] Heff. rewrite all_lanes_Ok.
  assert (∀ lane, 0 <= lane < c →
    check_replenished by_id effective None (lane_requests reqs c lane) = Ok tt ↔
    (∀ r o, reported_at (Z.to_nat lane) r o → offer_time r o = 0) ∧
    (∀ n r o r' o', reported_at (Z.to_nat lane + n * Z.to_nat c) r o →
       reported_at (Z.to_nat lane + n * Z.to_nat c + Z.to_nat c) r' o' →
       client_terminated plan outcomes (Z.to_nat c) (Z.to_nat lane + n * Z.to_nat c) →
       terminal_at_us o = Some (offer_time r' o'))) as Hlane.
  { intros lane Hl. rewrite check_replenished_Ok.
    - setoid_rewrite told_lane; [|lia..]. cbn [default]. rewrite Nat.add_0_r.
      setoid_rewrite client_terminated_lane; [|done]. setoid_rewrite told_lane; [|lia..].
      by setoid_rewrite (λ n, eq_sym (Nat.add_assoc (Z.to_nat lane) (n * Z.to_nat c) (Z.to_nat c)));
        setoid_rewrite (λ n, Nat.add_comm (n * Z.to_nat c) (Z.to_nat c)).
    - intros i r o. rewrite told_lane by lia. apply Heff.
    - intros i. rewrite !has_lane by lia. intros (r & o & H). apply (Hpre _ r o).
      by replace (_ + _ + _)%nat with (Z.to_nat lane + S i * Z.to_nat c)%nat by lia. }
  unfold clients_replenished. split.
  - intros H. split.
    + intros k r o Hk.
      destruct (proj1 (Hlane (Z.of_nat k) ltac:(lia)) (H (Z.of_nat k) ltac:(lia))) as [H0 _].
      rewrite Nat2Z.id in H0. apply H0.
    + intros m r o r' o'. destruct (lane_of_index c m Hc) as (lane & i & Hl & ->).
      by apply (Hlane lane Hl), H.
  - intros [H0 H] lane Hl. apply Hlane; [done|]. split; [intros r o; apply H0; lia|].
    intros n. apply H.
Qed.

(** ** Coverage *)
Lemma by_identity_empty : by_id = ∅ ↔ outcomes = [].
Proof.
  split; [|by intros ->]. unfold by_identity. destruct outcomes as [|o l]; [done|].
  cbn. intros H. by apply insert_non_empty in H.
Qed.
Lemma dom_by_identity : dom by_id = list_to_set (map ro_request_id outcomes).
Proof.
  unfold by_identity. rewrite dom_list_to_map_L. by rewrite <- list_fmap_compose.
Qed.
Lemma positive_parameter_pos l name c : positive_parameter l name = Some c → 0 < c.
Proof.
  unfold positive_parameter. repeat case_match; intros; simplify_eq. bools. lia.
Qed.

Lemma check_coverage_Ok :
  check_coverage plan by_id = Ok tt ↔
  outcomes ≠ [] ∧ (∀ o, o ∈ outcomes → ∃ r, reported r o) ∧
  (if closed_loop plan then
     ∃ c, positive_parameter (source_parameters (scored plan)) "concurrency" = Some c ∧
          clients_covered plan outcomes (Z.to_nat c)
   else ∀ r, r ∈ reqs → ∃ o, reported r o).
Proof using identified.
  unfold check_coverage. cbv zeta.
  rewrite raise_if_Ok, orb_false_iff, bool_decide_eq_false, negb_false_iff, bool_decide_eq_true.
  rewrite by_identity_empty, dom_by_identity, <- (and_assoc _ _ _). apply and_iff_compat_l.
  assert ((list_to_set (map ro_request_id outcomes) : gset string)
          ⊆ list_to_set (map request_id reqs) ↔ ∀ o, o ∈ outcomes → ∃ r, reported r o) as ->.
  { rewrite elem_of_subseteq. setoid_rewrite elem_of_list_to_set.
    setoid_rewrite list_elem_of_fmap. unfold LoadSafety.reported. naive_solver. }
  split; intros [Hin Hcov]; (split; [done|]).
  - destruct (closed_loop plan).
    + destruct (positive_parameter _ _) as [c|] eqn:Hc; [|done]. exists c. split; [done|].
      apply lanes_covered; [by eapply positive_parameter_pos|done].
    + apply raise_if_Ok in Hcov as [Hcov _]. bools. intros r Hr.
      assert (request_id r ∈ (list_to_set (map ro_request_id outcomes) : gset string)) as Hi.
      { rewrite Hcov. by apply elem_of_list_to_set, list_elem_of_fmap_2. }
      apply elem_of_list_to_set, list_elem_of_fmap in Hi as (o & Heq & Ho). exists o. by repeat split.
  - destruct (closed_loop plan).
    + destruct Hcov as (c & Hc & Hcov). rewrite Hc.
      apply lanes_covered; [by eapply positive_parameter_pos|done].
    + apply raise_if_Ok. split; [|done]. rewrite negb_false_iff, bool_decide_eq_true.
      apply set_eq. intros i. rewrite !elem_of_list_to_set, !list_elem_of_fmap. split.
      * intros (o & -> & Ho). destruct (Hin o Ho) as (r & Hr & _ & Heq). by exists r.
      * intros (r & -> & Hr). destruct (Hcov r Hr) as (o & _ & Ho & Heq). by exists o.
Qed.

(** ** The loop over the offered requests *)
Definition offered_requests : list ImmutableRequest := filter (λ r, present by_id r = true) reqs.
(** [os] are the outcomes of the requests [l], in order. *)
Definition answers (l : list ImmutableRequest) (os : list RequestOutcome) : Prop :=
  Forall2 (λ r o, by_id !! request_id r = Some o) l os.
Definition tally_all (t : Tally) (l : list ImmutableRequest) (os : list RequestOutcome) : Tally :=
  foldl (λ t p, tally_one t p.1 p.2) t (zip l os).

Lemma answers_exist (l : list ImmutableRequest) :
  ∃ os, answers (filter (λ r, present by_id r = true) l) os.
Proof using Type.
  induction l as [|r l [os IH]]; [by exists []; constructor|].
  rewrite filter_cons. case_decide as Hp; [|by exists os].
  apply present_spec in Hp as [o Ho]. exists (o :: os). by constructor.
Qed.

Lemma tally_requests_Ok l os t t' :
  answers l os →
  tally_requests plan by_id t l = Ok t' ↔
  Forall2 (λ r o, lifetime plan r o) l os ∧ t' = tally_all t l os.
Proof using Type.
  intros Hos. revert t. induction Hos as [|r o l os Hr Hos IH]; intros t; cbn [tally_requests].
  - split; [by intros [= <-] | by intros [_ ->]].
  - unfold outcome_of. rewrite Hr, seq_unit_Ok, IH, check_lifetime_Ok, Forall2_cons.
    unfold tally_all. cbn. naive_solver.
Qed.

Lemma answers_ids l os : answers l os → map ro_request_id os = map request_id l.
Proof using identified.
  induction 1 as [|r o l os Hr _ IH]; cbn; [done|].
  apply lookup_by_identity in Hr as [_ ->]; [|done]. by rewrite IH.
Qed.

(** The offered requests and their outcomes are the reported pairs. *)
Lemma zip_reported os r o :
  answers offered_requests os → (r, o) ∈ zip offered_requests os ↔ reported r o.
Proof using identified.
  intros Hos. rewrite reported_lookup, list_elem_of_lookup. split.
  - intros [k Hk]. apply lookup_zip_Some in Hk as [Hr Ho]; cbn in *.
    split; [|exact (Forall2_lookup_lr _ _ _ _ _ _ Hos Hr Ho)].
    apply list_elem_of_lookup_2 in Hr. by apply list_elem_of_filter in Hr as [_ ?].
  - intros [Hr Ho]. assert (r ∈ offered_requests) as [k Hk]%list_elem_of_lookup.
    { apply list_elem_of_filter. split; [|done]. apply present_spec. eauto. }
    destruct (Forall2_lookup_l _ _ _ _ _ Hos Hk) as (o' & Ho' & ?). simplify_eq.
    exists k. apply lookup_zip_Some. done.
Qed.
Lemma answers_Permutation os :
  NoDup (map request_id reqs) → (∀ o, o ∈ outcomes → ∃ r, reported r o) →
  answers offered_requests os → os ≡ₚ outcomes.
Proof using identified.
  intros Hnd Hin Hos. apply NoDup_Permutation.
  - apply (NoDup_fmap_1 ro_request_id). change (NoDup (map ro_request_id os)).
    rewrite (answers_ids _ _ Hos). by apply NoDup_map_filter.
  - by apply (NoDup_fmap_1 ro_request_id).
  - intros o. split.
    + intros [k Hk]%list_elem_of_lookup.
      destruct (Forall2_lookup_r _ _ _ _ _ Hos Hk) as (r & _ & Hr).
      by apply lookup_by_identity in Hr as [? _].
    + intros Ho. destruct (Hin o Ho) as [r Hr]. apply (zip_reported os) in Hr; [|done].
      by eapply elem_of_zip_r.
Qed.

(** ** What the loop has filled *)
Lemma tally_all_counts s t l os :
  length l = length os →
  counts (tally_all t l os) s = counts t s + zlength (filter (λ o, ro_status o = s) os).
Proof using Type.
  unfold tally_all, zlength. revert t os. induction l as [|r l IH]; intros t [|o os] Hlen; try done.
  { cbn. lia. }
  simplify_eq/=. rewrite IH by done. cbn [counts tally_one]. rewrite filter_cons.
  repeat case_decide; simplify_eq/=; lia.
Qed.
Lemma tally_all_admitted t l os :
  length l = length os →
  tally_admitted (tally_all t l os)
  = tally_admitted t + zlength (filter (λ o, admitted_at_us o ≠ None) os).
Proof using Type.
  unfold tally_all, zlength. revert t os. induction l as [|r l IH]; intros t [|o os] Hlen; try done.
  { cbn. lia. }
  simplify_eq/=. rewrite IH by done. cbn [tally_admitted tally_one]. rewrite filter_cons.
  repeat (case_decide || case_bool_decide); simplify_eq/=; try done; lia.
Qed.
Lemma tally_all_fresh t l os i :
  i ∉ map request_id l →
  effective_arrivals (tally_all t l os) !! i = effective_arrivals t !! i.
Proof using Type.
  unfold tally_all. revert t os. induction l as [|r l IH]; intros t [|o os]; try done.
  cbn. intros [Hne Hni]%not_elem_of_cons. rewrite IH by done. cbn. by rewrite lookup_insert_ne.
Qed.
Lemma tally_all_effective t l os i x :
  NoDup (map request_id l) →
  effective_arrivals (tally_all t l os) !! i = Some x ↔
  (∃ r o, (r, o) ∈ zip l os ∧ request_id r = i ∧ x = offer_time r o) ∨
  ((∀ r o, (r, o) ∈ zip l os → request_id r ≠ i) ∧ effective_arrivals t !! i = Some x).
Proof using Type.
  revert t os. induction l as [|r l IH]; intros t [|o os] Hnd; cbn.
  1-3: split; [by right; split; [intros ?? ?%elem_of_nil|]|].
  1-3: by intros [(? & ? & ?%elem_of_nil & _)|[_ ?]].
  apply NoDup_cons in Hnd as [Hni Hnd].
  change (effective_arrivals (tally_all (tally_one t r o) l os) !! i = Some x ↔
    (∃ r0 o0, (r0, o0) ∈ (r, o) :: zip l os ∧ request_id r0 = i ∧ x = offer_time r0 o0) ∨
    ((∀ r0 o0, (r0, o0) ∈ (r, o) :: zip l os → request_id r0 ≠ i) ∧
     effective_arrivals t !! i = Some x)).
  destruct (decide (request_id r = i)) as [<-|Hne].
  - rewrite tally_all_fresh by done. cbn. rewrite lookup_insert_eq. split.
    + intros [= <-]. left. exists r, o. split; [by left|done].
    + intros [(r' & o' & [?|Hz]%elem_of_cons & Hi & ->)|[H _]]; simplify_eq; [done| |].
      * destruct Hni. rewrite <- Hi. apply list_elem_of_fmap_2. by eapply elem_of_zip_l.
      * by destruct (H r o); [left|].
  - rewrite IH by done. cbn. rewrite lookup_insert_ne by done.
    setoid_rewrite elem_of_cons. naive_solver.
Qed.

(** ** The summary *)
Section summary.
Variable os : list RequestOutcome.
Hypothesis answered : answers offered_requests os.
Hypothesis distinct : NoDup (map request_id reqs).
Hypothesis told_of : ∀ o, o ∈ outcomes → ∃ r, reported r o.
Hypothesis lived : ∀ r o, reported r o → lifetime plan r o.
Abbreviation tally := (tally_all no_tally offered_requests os).

Lemma offered_distinct : NoDup (map request_id offered_requests).
Proof using distinct. by apply NoDup_map_filter. Qed.
Lemma effective_reported i x :
  effective_arrivals tally !! i = Some x ↔ ∃ r o, reported r o ∧ request_id r = i ∧ x = offer_time r o.
Proof using identified answered distinct.
  rewrite tally_all_effective by apply offered_distinct.
  setoid_rewrite zip_reported; [|done..]. cbn. rewrite lookup_empty. naive_solver.
Qed.
Lemma effective_lookup r o :
  reported r o → effective_arrivals tally !! request_id r = Some (offer_time r o).
Proof using identified answered distinct. intros H. apply effective_reported. eauto. Qed.

Lemma ended_at_spec r o :
  reported r o →
  terminal_of plan by_id (effective_arrivals tally) r = Ok (Some (ended_at plan r o)).
Proof using identified answered distinct lived.
  intros Hr. pose proof (effective_lookup r o Hr) as He. pose proof (lived r o Hr) as Hl.
  unfold terminal_of, outcome_of. apply reported_lookup in Hr as [_ Ho]. rewrite Ho, He.
  unfold ended_at. destruct Hl as (_ & _ & _ & Hl).
  destruct (ro_status o); cbn.
  - by destruct Hl as (_ & t & -> & _).
  - by destruct Hl as (a & _ & t & -> & _).
  - by destruct Hl as (a & _ & -> & _).
  - by destruct Hl as (c & _ & -> & _).
  - by destruct Hl as (_ & -> & _).
Qed.
Lemma terminals_spec :
  mapR (terminal_of plan by_id (effective_arrivals tally)) offered_requests
  = Ok (map (λ p, Some (ended_at plan p.1 p.2)) (zip offered_requests os)).
Proof using identified answered distinct lived.
  apply mapR_Ok, Forall2_fmap_r. apply Forall2_same_length_lookup_2.
  { rewrite length_zip_with, (Forall2_length _ _ _ answered). lia. }
  intros k r [r' o] Hr Hk. pose proof Hk as [Hr' Ho]%lookup_zip_Some; cbn in *. simplify_eq.
  apply ended_at_spec, (zip_reported os); [done|]. by apply list_elem_of_lookup_2 in Hk.
Qed.

Lemma how_many_os P `{∀ o, Decision (P o)} : zlength (filter P os) = how_many outcomes P.
Proof using identified answered distinct told_of.
  unfold how_many, zlength. by rewrite (answers_Permutation os distinct told_of answered).
Qed.
Lemma statuses_partition (l : list RequestOutcome) :
  zlength l = zlength (filter (λ o, ro_status o = REJECTED) l)
    + zlength (filter (λ o, ro_status o = COMPLETED) l)
    + zlength (filter (λ o, ro_status o = TIMED_OUT) l)
    + zlength (filter (λ o, ro_status o = CANCELLED) l)
    + zlength (filter (λ o, ro_status o = UNFINISHED) l).
Proof using Type.
  unfold zlength. induction l as [|o l IH]; [done|]. rewrite !filter_cons.
  destruct (ro_status o); cbn [decide OutcomeStatus_eq_dec];
    repeat case_decide; try done; cbn [length]; lia.
Qed.

Lemma starts_spec m :
  min_int (map snd (map_to_list (effective_arrivals tally))) = Ok m ↔
  (∃ r o, reported r o ∧ m = offer_time r o) ∧ ∀ r o, reported r o → m <= offer_time r o.
Proof using identified answered distinct.
  assert (∀ x, x ∈ map snd (map_to_list (effective_arrivals tally)) ↔
               ∃ r o, reported r o ∧ x = offer_time r o) as Hin.
  { intros x. rewrite list_elem_of_fmap. split.
    - intros ([i y] & -> & Hy). apply elem_of_map_to_list, effective_reported in Hy. naive_solver.
    - intros (r & o & Hr & ->). exists (request_id r, offer_time r o). split; [done|].
      by apply elem_of_map_to_list, effective_lookup. }
  rewrite min_int_Ok. setoid_rewrite Hin. naive_solver.
Qed.
Lemma ends_spec m :
  max_int (omap id (map (λ p, Some (ended_at plan p.1 p.2)) (zip offered_requests os))) = Ok m ↔
  (∃ r o, reported r o ∧ m = ended_at plan r o) ∧ ∀ r o, reported r o → ended_at plan r o <= m.
Proof using identified answered.
  rewrite max_int_Ok. setoid_rewrite list_elem_of_omap. setoid_rewrite list_elem_of_fmap.
  assert (∀ x, (∃ y, (∃ p, y = Some (ended_at plan p.1 p.2) ∧ p ∈ zip offered_requests os)
                     ∧ id y = Some x) ↔ ∃ r o, reported r o ∧ x = ended_at plan r o) as Hin.
  { intros x. setoid_rewrite <- (zip_reported os); [|done]. split.
    - intros (y & ([r o] & -> & Hp) & [= <-]). by exists r, o.
    - intros (r & o & Hp & ->). eexists. split; [by exists (r, o)|done]. }
  setoid_rewrite Hin. naive_solver.
Qed.

Lemma summarize_Ok a :
  summarize plan by_id offered_requests tally = Ok a ↔ accounts_for plan outcomes a.
Proof using identified answered distinct told_of lived.
  assert (length offered_requests = length os) as Hlen by apply (Forall2_length _ _ _ answered).
  assert (zlength offered_requests = zlength outcomes) as Hoffered.
  { unfold zlength. by rewrite Hlen, (answers_Permutation os distinct told_of answered). }
  assert (existsb (λ v : option Z, bool_decide (v = None))
    (map (λ p, Some (ended_at plan p.1 p.2)) (zip offered_requests os)) = false) as Hsome.
  { induction (zip offered_requests os) as [|p l IH]; [done|]. cbn [map existsb].
    by rewrite IH, bool_decide_eq_false_2. }
  unfold summarize. cbv zeta. rewrite terminals_spec, Hsome, !tally_all_counts by done.
  rewrite tally_all_admitted, Hoffered by done. cbn [counts tally_admitted no_tally].
  rewrite !Z.add_0_l, !how_many_os. pose proof (statuses_partition outcomes) as Hpart.
  assert (how_many outcomes (λ o, admitted_at_us o ≠ None) <= zlength outcomes) as Hadm.
  { unfold how_many, zlength. pose proof (length_filter (λ o, admitted_at_us o ≠ None) outcomes). lia. }
  unfold accounts_for. split.
  - intros H. do 3 step_ok H. injection H as <-. cbn.
    apply starts_spec in E as [??]. apply ends_spec in E0 as [??]. by repeat split.
  - destruct a as [n1 n2 n3 n4 n5 n6 n7 t0 t1 d]. cbn.
    intros (-> & -> & -> & -> & -> & -> & -> & ? & ? & ? & ? & ->).
    rewrite (proj2 (starts_spec t0)), (proj2 (ends_spec t1)) by done.
    unfold validate_accounting. cbn [la_offered la_admitted la_rejected la_completed la_timed_out
      la_cancelled la_unfinished score_started_us score_ended_us elapsed_us].
    unfold how_many in *. rewrite <- Hpart, !Z.eqb_refl. cbn [negb].
    by rewrite (proj2 (Z.ltb_ge _ _) Hadm).
Qed.
End summary.
End refinement.

(** ** Plans *)
Lemma check_requests_fresh split ids arrival l :
  check_requests split ids arrival l = Ok tt →
  NoDup (map request_id l) ∧ ∀ r, r ∈ l → request_id r ∉ ids.
Proof.
  revert ids arrival. induction l as [|r l IH]; intros ids arrival H; cbn in *.
  { split; [constructor|by intros ? ?%elem_of_nil]. }
  do 4 step_ok H. apply IH in H as [Hnd Hni]. bools. split.
  - apply NoDup_cons. split; [|done]. intros (r' & Heq & Hr')%list_elem_of_fmap.
    apply (Hni r' Hr'). rewrite <- Heq. set_solver.
  - intros r' [->|Hr']%elem_of_cons; [done|]. specialize (Hni r' Hr'). set_solver.
Qed.
Lemma plan_requests_distinct plan :
  validate_load_plan plan = Ok tt → NoDup (map request_id (requests (scored plan))).
Proof.
  unfold validate_load_plan. intros H. step_ok H. step_ok H. clear H. destruct a0.
  unfold validate_corpus in E0. cbv zeta in E0.
  do 9 step_ok E0. by apply check_requests_fresh in E0 as [? _].
Qed.

(** [account_scored_requests] step by step, on collected outcomes. *)
Lemma account_Ok plan outcomes a :
  account_scored_requests plan outcomes = Ok a ↔
  validate_load_plan plan = Ok tt ∧ NoDup (map ro_request_id outcomes) ∧
  Forall (λ o, ro_code o ≠ EmptyString) outcomes ∧
  check_coverage plan (by_identity outcomes) = Ok tt ∧
  ∃ t, tally_requests plan (by_identity outcomes) no_tally (offered_requests plan outcomes) = Ok t ∧
    (if closed_loop plan then check_clients plan (by_identity outcomes) (effective_arrivals t) = Ok tt
     else True) ∧
    summarize plan (by_identity outcomes) (offered_requests plan outcomes) t = Ok a.
Proof.
  unfold account_scored_requests. rewrite seq_unit_Ok. apply and_iff_compat_l.
  assert (∀ m, collect_outcomes ∅ outcomes = Ok m ↔
            NoDup (map ro_request_id outcomes) ∧ Forall (λ o, ro_code o ≠ EmptyString) outcomes ∧
            m = by_identity outcomes) as Hcollect.
  { intros m. rewrite collect_outcomes_Ok, (right_id_L ∅ (∪)).
    split; [naive_solver|]. intros (? & ? & ->). repeat split; try done.
    apply Forall_forall. intros o _. apply lookup_empty. }
  split.
  - intros H. step_ok H. destruct (proj1 (Hcollect a0) eq_refl) as (Hnd & Hcode & ->). cbv zeta in H.
    rewrite seq_unit_Ok in H. destruct H as [Hcov H]. step_ok H. apply seq_unit_Ok in H as [Hc H].
    do 3 (split; [done|]). exists a0. by destruct (closed_loop plan).
  - intros (Hnd & Hcode & Hcov & t & Ht & Hc & Ha).
    rewrite (proj2 (Hcollect _) (conj Hnd (conj Hcode eq_refl))), Hcov. cbv zeta.
    unfold offered_requests in *. rewrite Ht.
    destruct (closed_loop plan); [by rewrite Hc|done].
Qed.

Lemma check_clients_Ok plan outcomes effective c :
  NoDup (map ro_request_id outcomes) →
  positive_parameter (source_parameters (scored plan)) "concurrency" = Some c →
  clients_covered plan outcomes (Z.to_nat c) →
  (∀ r o, reported plan outcomes r o → effective !! request_id r = Some (offer_time r o)) →
  check_clients plan (by_identity outcomes) effective = Ok tt ↔
  clients_replenished plan outcomes (Z.to_nat c).
Proof.
  intros Hnd Hc Hcov Heff. unfold check_clients. rewrite Hc.
  apply lanes_replenished; [done|by eapply positive_parameter_pos|done|].
  intros k r o (Hr & Ho & Heq). apply Heff. split; [by eapply list_elem_of_lookup_2|done].
Qed.

Lemma lived_reported plan outcomes os :
  NoDup (map ro_request_id outcomes) → answers outcomes (offered_requests plan outcomes) os →
  Forall2 (lifetime plan) (offered_requests plan outcomes) os ↔
  ∀ r o, reported plan outcomes r o → lifetime plan r o.
Proof.
  intros Hnd Hos. setoid_rewrite <- (zip_reported plan outcomes Hnd os); [|done].
  assert (length (offered_requests plan outcomes) = length os) as Hlen
    by apply (Forall2_length _ _ _ Hos).
  clear Hos. revert os Hlen. induction (offered_requests plan outcomes) as [|r l IH];
    intros [|o os] Hlen; try done.
  - split; [by intros _ ?? ?%elem_of_nil|constructor].
  - simplify_eq/=. rewrite Forall2_cons, IH by done. setoid_rewrite elem_of_cons. naive_solver.
Qed.

Lemma account_refines plan outcomes a :
  account_scored_requests plan outcomes = Ok a ↔
  acceptable plan outcomes ∧ accounts_for plan outcomes a.
Proof.
  rewrite account_Ok. unfold acceptable. split.
  - intros (Hv & Hnd & Hcode & Hcov & t & Ht & Hc & Ha).
    pose proof (plan_requests_distinct plan Hv) as Hr.
    apply (check_coverage_Ok plan outcomes Hnd) in Hcov as (Hne & Hin & Hcov).
    destruct (answers_exist outcomes (requests (scored plan))) as [os Hos].
    apply (tally_requests_Ok plan outcomes _ os) in Ht as [Hl ->]; [|exact Hos].
    rewrite (lived_reported plan outcomes os Hnd Hos) in Hl.
    apply (summarize_Ok plan outcomes Hnd os Hos Hr Hin Hl) in Ha. split; [|done].
    do 6 (split; [done|]). destruct (closed_loop plan); [|done].
    destruct Hcov as (c & Hp & Hcov). exists c. do 2 (split; [done|]).
    apply (check_clients_Ok plan outcomes _ c Hnd Hp Hcov) in Hc; [done|].
    by apply effective_lookup.
  - intros [(Hv & Hne & Hnd & Hcode & Hin & Hl & Hcov) Ha].
    pose proof (plan_requests_distinct plan Hv) as Hr.
    destruct (answers_exist outcomes (requests (scored plan))) as [os Hos].
    do 3 (split; [done|]). split.
    { apply (check_coverage_Ok plan outcomes Hnd). do 2 (split; [done|]).
      destruct (closed_loop plan); [|done]. destruct Hcov as (c & ? & ? & _). by exists c. }
    exists (tally_all no_tally (offered_requests plan outcomes) os). split; [|split].
    + apply (tally_requests_Ok plan outcomes _ os); [exact Hos|]. split; [|done].
      by apply (lived_reported plan outcomes os Hnd Hos).
    + destruct (closed_loop plan); [|done]. destruct Hcov as (c & Hp & Hcov & Hrep).
      apply (check_clients_Ok plan outcomes _ c Hnd Hp Hcov); [|done]. by apply effective_lookup.
    + by apply (summarize_Ok plan outcomes Hnd os Hos Hr Hin Hl).
Qed.
