(* ===== verification/LoadTheorems.v ===== *)
(** * Theorems on terminal accounting

    [account_scored_requests] accepts and reports what its specification says;
    the bounds of a report; the gap that an unfinished request leaves in the
    replenishment check. *)
From S2P Require Import Prelude PyFloat FloatRepr Hashlib Registry GpuPool Load LoadSources LoadAccounting LoadSafety LoadRefinement.

Lemma least_exists (l : list Z) : l ≠ [] → ∃ m, m ∈ l ∧ ∀ x, x ∈ l → m <= x.
Proof.
  destruct l as [|x l]; [done|]. intros _. exists (fold_left Z.min l x).
  by apply (fold_min_spec x l).
Qed.
Lemma greatest_exists (l : list Z) : l ≠ [] → ∃ m, m ∈ l ∧ ∀ x, x ∈ l → x <= m.
Proof.
  intros Hl. destruct (least_exists (map Z.opp l)) as (m & Hm & Hle).
  { by destruct l. }
  apply list_elem_of_fmap in Hm as (x & -> & Hx). exists x. split; [done|]. intros y Hy.
  specialize (Hle (- y)). rewrite list_elem_of_fmap in Hle.
  specialize (Hle (ex_intro _ y (conj eq_refl Hy))). lia.
Qed.

(** Every outcome belongs to one request, so the reported pairs are listed. *)
Lemma reported_list plan outcomes :
  NoDup (map ro_request_id outcomes) →
  ∃ l : list (ImmutableRequest * RequestOutcome), ∀ r o, reported plan outcomes r o ↔ (r, o) ∈ l.
Proof.
  intros Hnd. destruct (answers_exist outcomes (requests (scored plan))) as [os Hos].
  exists (zip (offered_requests plan outcomes) os). intros r o.
  by rewrite (zip_reported plan outcomes Hnd os).
Qed.

Lemma accounts_exist plan outcomes : acceptable plan outcomes → ∃ a, accounts_for plan outcomes a.
Proof.
  intros (_ & Hne & Hnd & _ & Hin & _ & _).
  destruct (reported_list plan outcomes Hnd) as [l Hl].
  assert (l ≠ []) as Hl'.
  { destruct outcomes as [|o outcomes']; [done|]. destruct (Hin o) as [r Hr]; [by left|].
    apply Hl in Hr. intros ->. by apply elem_of_nil in Hr. }
  destruct (least_exists (map (λ p, offer_time p.1 p.2) l)) as (t0 & H0 & Hle); [by destruct l|].
  destruct (greatest_exists (map (λ p, ended_at plan p.1 p.2) l)) as (t1 & H1 & Hge); [by destruct l|].
  apply list_elem_of_fmap in H0 as ([r0 o0] & E0 & H0), H1 as ([r1 o1] & E1 & H1).
  exists {| la_offered := zlength outcomes; la_admitted := how_many outcomes (λ o, admitted_at_us o ≠ None);
    la_rejected := how_many outcomes (λ o, ro_status o = REJECTED);
    la_completed := how_many outcomes (λ o, ro_status o = COMPLETED);
    la_timed_out := how_many outcomes (λ o, ro_status o = TIMED_OUT);
    la_cancelled := how_many outcomes (λ o, ro_status o = CANCELLED);
    la_unfinished := how_many outcomes (λ o, ro_status o = UNFINISHED);
    score_started_us := t0; score_ended_us := t1; elapsed_us := t1 - t0 |}.
  unfold accounts_for. cbn [la_offered la_admitted la_rejected la_completed la_timed_out
      la_cancelled la_unfinished score_started_us score_ended_us elapsed_us].
  do 7 (split; [done|]). repeat split.
  - exists r0, o0. by rewrite Hl.
  - intros r o Hr%Hl. apply Hle, list_elem_of_fmap. by exists (r, o).
  - exists r1, o1. by rewrite Hl.
  - intros r o Hr%Hl. apply Hge, list_elem_of_fmap. by exists (r, o).
Qed.

(** C5. Terminal accounting accepts exactly the well-formed reports and counts
    them: on a valid plan every outcome belongs to one offered request, an
    open-loop plan is covered, each closed-loop client (a residue of the request
    index modulo the concurrency) reports a non-empty prefix and is replenished
    at its terminals, and every lifetime fits its deadline and its cancellation;
    then, and only then, it returns, with the number of outcomes of each status,
    the earliest offer and the latest end. *)
Theorem account_exact plan outcomes :
  (∀ a, account_scored_requests plan outcomes = Ok a ↔
        acceptable plan outcomes ∧ accounts_for plan outcomes a) ∧
  (acceptable plan outcomes ↔ ∃ a, account_scored_requests plan outcomes = Ok a).
Proof.
  split; [apply account_refines|]. setoid_rewrite account_refines.
  split; [|by intros (a & H & _)]. intros H.
  destruct (accounts_exist plan outcomes H) as [a Ha]. by exists a.
Qed.

(** ** Bounds *)
Lemma lifetime_interval plan r o :
  lifetime plan r o → 0 <= offer_time r o ∧ ended_at plan r o <= global_end (window plan) ∧
  (0 < request_deadline_us (window plan) → offer_time r o <= global_end (window plan) →
   offer_time r o <= ended_at plan r o).
Proof.
  unfold lifetime, ended_at, timeout_at. cbv zeta. intros (? & _ & Ha & Hs). split; [done|].
  destruct (ro_status o); destruct Hs as [Hs1 Hs2];
    repeat match goal with H : ∃ _, _ |- _ => destruct H | H : _ ∧ _ |- _ => destruct H end;
    repeat match goal with H : terminal_at_us o = _ |- _ => rewrite H end; cbn;
    try (specialize (Ha _ ltac:(eassumption))); lia.
Qed.

Lemma admitted_bounds (l : list RequestOutcome) :
  (∀ o, o ∈ l → match ro_status o with
                | REJECTED => admitted_at_us o = None | CANCELLED => True
                | _ => admitted_at_us o ≠ None end) →
  zlength (filter (λ o, ro_status o = COMPLETED) l) + zlength (filter (λ o, ro_status o = TIMED_OUT) l)
    + zlength (filter (λ o, ro_status o = UNFINISHED) l)
    <= zlength (filter (λ o, admitted_at_us o ≠ None) l) ∧
  zlength (filter (λ o, admitted_at_us o ≠ None) l)
    <= zlength l - zlength (filter (λ o, ro_status o = REJECTED) l).
Proof.
  unfold zlength. induction l as [|o l IH]; [cbn; lia|]. intros H.
  destruct IH as [IH1 IH2]; [intros o' Ho'; apply H; by right|].
  specialize (H o (list_elem_of_here _ _)). rewrite !filter_cons.
  destruct (ro_status o); repeat case_decide; try done; cbn [length]; lia.
Qed.
Lemma lifetime_admitted plan r o :
  lifetime plan r o →
  match ro_status o with
  | REJECTED => admitted_at_us o = None | CANCELLED => True | _ => admitted_at_us o ≠ None end.
Proof. intros (_ & _ & _ & H). destruct (ro_status o); naive_solver. Qed.

Lemma plan_window plan :
  validate_load_plan plan = Ok tt →
  0 < arrival_duration_us (window plan) ∧ 0 < request_deadline_us (window plan) ∧
  0 < drain_duration_us (window plan) ∧
  ∀ r, r ∈ requests (scored plan) → arrival_us r < arrival_duration_us (window plan).
Proof.
  unfold validate_load_plan. rewrite !seq_unit_Ok, !raise_if_Ok.
  intros (Hw & _ & _ & Hr & _). unfold validate_window in Hw.
  rewrite seq_unit_Ok, all_ok_Ok in Hw. destruct Hw as [_ Hw].
  pose proof (Hw (arrival_duration_us (window plan), "arrival duration") ltac:(set_solver)) as H1.
  pose proof (Hw (request_deadline_us (window plan), "request deadline") ltac:(set_solver)) as H2.
  pose proof (Hw (drain_duration_us (window plan), "drain duration") ltac:(set_solver)) as H3.
  cbn in *. apply raise_if_Ok in H1 as [H1 _], H2 as [H2 _], H3 as [H3 _]. bools.
  split; [lia|]. split; [lia|]. split; [lia|]. intros r Hin.
  apply not_true_iff_false in Hr. rewrite existsb_exists in Hr.
  destruct (Z_lt_ge_dec (arrival_us r) (arrival_duration_us (window plan))) as [|Hge]; [done|].
  destruct Hr. exists r. split; [by apply list_elem_of_In|]. lia.
Qed.

Lemma offer_in_window plan r o :
  validate_load_plan plan = Ok tt → r ∈ requests (scored plan) → lifetime plan r o →
  0 <= offer_time r o < arrival_duration_us (window plan) ∧
  offer_time r o <= ended_at plan r o <= global_end (window plan).
Proof.
  intros Hv Hr Hl. destruct (plan_window plan Hv) as (Ha & Hd & Hdr & Hin).
  pose proof (lifetime_interval plan r o Hl) as (H0 & He & Hle). specialize (Hin r Hr).
  assert (offer_time r o < arrival_duration_us (window plan)) as Hlt.
  { destruct Hl as (_ & Hl & _). destruct (closed_loop plan); lia. }
  unfold global_end in *. split; [lia|]. split; [|lia]. apply Hle; lia.
Qed.

(** A report of terminal accounting is consistent: the statuses partition the
    offered requests, of which there is at least one and at most the plan's; the
    admitted ones are at least those completed, timed out and unfinished, and
    none of the rejected; the interval starts inside the arrival window, ends at
    the latest at the end of the drain, and is never negative. *)
Theorem account_bounds plan outcomes a :
  account_scored_requests plan outcomes = Ok a →
  la_offered a = la_rejected a + la_completed a + la_timed_out a + la_cancelled a + la_unfinished a ∧
  0 < la_offered a <= zlength (requests (scored plan)) ∧
  la_completed a + la_timed_out a + la_unfinished a <= la_admitted a <= la_offered a - la_rejected a ∧
  0 <= score_started_us a < arrival_duration_us (window plan) ∧
  score_started_us a <= score_ended_us a <= global_end (window plan) ∧
  elapsed_us a = score_ended_us a - score_started_us a.
Proof.
  intros [(Hv & Hne & Hnd & _ & Hin & Hl & _) Ha]%account_refines.
  pose proof (plan_requests_distinct plan Hv) as Hd.
  destruct (answers_exist outcomes (requests (scored plan))) as [os Hos].
  pose proof (answers_Permutation plan outcomes Hnd os Hd Hin Hos) as Hp.
  apply Forall2_length in Hos. rewrite Hp in Hos.
  pose proof (length_filter (λ r, present (by_identity outcomes) r = true) (requests (scored plan))).
  destruct Ha as (-> & -> & -> & -> & -> & -> & -> & (r0 & o0 & Hr0 & ->) & Hle & (r1 & o1 & Hr1 & ->)
                  & Hge & ->).
  pose proof (offer_in_window plan r0 o0 Hv (proj1 Hr0) (Hl r0 o0 Hr0)) as [Hs0 He0].
  pose proof (offer_in_window plan r1 o1 Hv (proj1 Hr1) (Hl r1 o1 Hr1)) as [Hs1 He1].
  specialize (Hge r0 o0 Hr0).
  destruct (admitted_bounds outcomes) as [Ha1 Ha2].
  { intros o Ho. destruct (Hin o Ho) as [r Hr]. by apply (lifetime_admitted plan r), Hl. }
  unfold how_many. pose proof (statuses_partition outcomes) as Hpart.
  assert (0 < zlength outcomes) by (destruct outcomes; [done|unfold zlength; cbn [length]; lia]).
  unfold zlength in *. repeat split; lia.
Qed.

(** ** The gap after an unfinished request

    One client, two requests: the first is admitted at the score boundary and
    never terminates, the second is offered at [t] nevertheless. *)
Definition left_unfinished (r : ImmutableRequest) : RequestOutcome := {|
  ro_request_id := request_id r; ro_status := UNFINISHED; admitted_at_us := Some 0;
  terminal_at_us := None; ro_code := "unfinished"; ro_offered_at_us := Some 0 |}.
Definition completed_at (r : ImmutableRequest) (t : Z) : RequestOutcome := {|
  ro_request_id := request_id r; ro_status := COMPLETED; admitted_at_us := Some t;
  terminal_at_us := Some t; ro_code := "completed"; ro_offered_at_us := Some t |}.

Section gap.
Context (plan : ProductionLoadPlan) (r0 r1 : ImmutableRequest) (t : Z).
Hypothesis valid : validate_load_plan plan = Ok tt.
Hypothesis closed : source_kind (scored plan) = CLOSED_LOOP.
Hypothesis one_client : positive_parameter (source_parameters (scored plan)) "concurrency" = Some 1.
Hypothesis two_requests : requests (scored plan) = [r0; r1].
Hypothesis never_cancelled : cancellation_offset_us r0 = None ∧ cancellation_offset_us r1 = None.
Hypothesis in_window : 0 <= t < arrival_duration_us (window plan).
Abbreviation gap := [left_unfinished r0; completed_at r1 t].

Lemma gap_ids : request_id r0 ≠ request_id r1.
Proof using valid two_requests.
  pose proof (plan_requests_distinct plan valid) as H. rewrite two_requests in H. cbn in H.
  apply NoDup_cons in H as [H _]. intros Heq. apply H. rewrite Heq. by left.
Qed.
Lemma gap_reported r o :
  reported plan gap r o ↔ (r, o) ∈ [(r0, left_unfinished r0); (r1, completed_at r1 t)].
Proof using All.
  pose proof gap_ids. unfold reported. rewrite two_requests.
  rewrite !elem_of_cons, !elem_of_nil. naive_solver.
Qed.
Lemma gap_reported_at k r o :
  reported_at plan gap k r o ↔
  (k = 0%nat ∧ r = r0 ∧ o = left_unfinished r0) ∨ (k = 1%nat ∧ r = r1 ∧ o = completed_at r1 t).
Proof using All.
  pose proof gap_ids. unfold reported_at. rewrite two_requests.
  rewrite !elem_of_cons, !elem_of_nil. destruct k as [|[|k]]; cbn; naive_solver.
Qed.
Lemma gap_acceptable : acceptable plan gap.
Proof using All.
  destruct (plan_window plan valid) as (Ha & Hd & Hdr & _). destruct never_cancelled as [Hc0 Hc1].
  assert (closed_loop plan = true) as Hcl by by apply bool_decide_eq_true.
  unfold acceptable. rewrite Hcl. split; [done|]. split; [done|]. split; [|split; [|split; [|split]]].
  - pose proof gap_ids. cbn. rewrite NoDup_cons, list_elem_of_singleton.
    split; [done|apply NoDup_singleton].
  - by repeat constructor.
  - intros o [->|[->|[]%elem_of_nil]%elem_of_cons]%elem_of_cons.
    + exists r0. apply gap_reported. by left.
    + exists r1. apply gap_reported. by right; left.
  - intros r o Hr%gap_reported. unfold lifetime, timeout_at, global_end. rewrite Hcl.
    rewrite !elem_of_cons, elem_of_nil in Hr. destruct Hr as [[= -> ->]|[[= -> ->]|[]]];
      unfold cancel_at; rewrite ?Hc0, ?Hc1; cbn; split_and!; naive_solver lia.
  - exists 1. split; [done|]. change (Z.to_nat 1) with 1%nat. split; split.
    + intros k Hk. exists r0, (left_unfinished r0). apply gap_reported_at. left. split; [lia|done].
    + intros k r o [[? _]|[? _]]%gap_reported_at; [lia|].
      exists r0, (left_unfinished r0). apply gap_reported_at. left. split; [lia|done].
    + intros k r o Hk [(-> & -> & ->)|[? _]]%gap_reported_at; [done|lia].
    + intros k r o r' o' _ [[? _]|[? _]]%gap_reported_at Ht; [lia|].
      destruct (Ht 0%nat k r0 (left_unfinished r0)); [lia| |done].
      apply gap_reported_at. left. split; [lia|done].
Qed.

Lemma gap_accepted :
  account_scored_requests plan gap = Ok {|
    la_offered := 2; la_admitted := 2; la_rejected := 0; la_completed := 1; la_timed_out := 0;
    la_cancelled := 0; la_unfinished := 1; score_started_us := 0;
    score_ended_us := Z.max t (timeout_at plan 0);
    elapsed_us := Z.max t (timeout_at plan 0) |}.
Proof using All.
  apply account_refines. split; [apply gap_acceptable|]. unfold accounts_for. cbn.
  do 7 (split; [reflexivity|]). setoid_rewrite gap_reported. split; [|split; [|split; [|split]]].
  - exists r0, (left_unfinished r0). split; [by left|done].
  - intros r o [[= -> ->]|[[= -> ->]|[]%elem_of_nil]%elem_of_cons]%elem_of_cons; cbn; lia.
  - destruct (Z.max_spec t (timeout_at plan 0)) as [[_ ->]|[_ ->]].
    + exists r0, (left_unfinished r0). split; [by left|done].
    + exists r1, (completed_at r1 t). split; [by right; left|done].
  - intros r o [[= -> ->]|[[= -> ->]|[]%elem_of_nil]%elem_of_cons]%elem_of_cons;
      unfold ended_at; cbn; lia.
  - lia.
Qed.

(** C40. The replenishment check stops at a request that never terminated: with one
    client whose first request is left unfinished, a second request completed at
    any time [t] of the arrival window is accepted and counted, although its slot
    was never freed. *)
Theorem unfinished_lane_continues :
  account_scored_requests plan gap = Ok {|
    la_offered := 2; la_admitted := 2; la_rejected := 0; la_completed := 1; la_timed_out := 0;
    la_cancelled := 0; la_unfinished := 1; score_started_us := 0;
    score_ended_us := Z.max t (timeout_at plan 0);
    elapsed_us := Z.max t (timeout_at plan 0) |}.
Proof using All. exact gap_accepted. Qed.
End gap.
