(* ===== verification/LoadReplay.v ===== *)
(** * Paired replays and disjoint splits

    What an accepted set of replay bindings says about the plans behind them,
    and what an accepted audit of the splits says about their requests. *)
From S2P Require Import Prelude PyFloat FloatRepr Hashlib Registry GpuPool Load LoadSources LoadAccounting LoadSafety LoadRefinement.

(** ** The documents behind a binding *)
Definition request_documents (r : ImmutableRequest) : list json := [
  jints (input_token_ids r); JInt (requested_output_tokens r); JInt (arrival_us r);
  JStr (cohort_id r); cancellation_json (cancellation_offset_us r)].
(** The list of the digests of one document per request. *)
Definition digests (doc : ImmutableRequest → json) (l : list ImmutableRequest) : json :=
  jstrs (map (λ r, load_sha256 (doc r)) l).
Definition tokens_document (r : ImmutableRequest) : json := jints (input_token_ids r).
Definition length_document (r : ImmutableRequest) : json := JInt (requested_output_tokens r).
Definition arrival_document (r : ImmutableRequest) : json := JInt (arrival_us r).
Definition cohort_document (r : ImmutableRequest) : json := JStr (cohort_id r).
Definition cancellation_document (r : ImmutableRequest) : json :=
  cancellation_json (cancellation_offset_us r).
Definition warmup_hashes (p : ProductionLoadPlan) : option CorpusHashes :=
  match warmup p with
  | Some c => match corpus_hashes c with Ok h => Some h | Raise _ => None end
  | None => None
  end.
Definition plan_documents (p : ProductionLoadPlan) (hashes : CorpusHashes) : list json :=
  let l := requests (scored p) in [
  paired_payload (warmup_hashes p) hashes (load_sha256 (window_json (window p))) (cold_start_separate p);
  window_json (window p); jstrs (map request_id l); digests tokens_document l;
  digests length_document l; digests arrival_document l; digests cohort_document l;
  digests cancellation_document l].

(** Two documents at the same place of two plans collide. *)
Definition clash (docs1 docs2 : list json) : Prop := Exists (λ d, collision d.1 d.2) (zip docs1 docs2).
#[export] Instance collision_dec v1 v2 : Decision (collision v1 v2).
Proof. unfold collision. apply _. Defined.
#[export] Instance clash_dec docs1 docs2 : Decision (clash docs1 docs2).
Proof. unfold clash. apply _. Defined.

Lemma no_clash docs1 docs2 k v1 v2 :
  ¬ clash docs1 docs2 → docs1 !! k = Some v1 → docs2 !! k = Some v2 → ¬ collision v1 v2.
Proof.
  unfold clash. rewrite Exists_exists. intros H H1 H2 Hc. apply H. exists (v1, v2). split; [|done].
  apply list_elem_of_lookup. exists k. apply lookup_zip_Some. done.
Qed.
Lemma digest_norm v1 v2 :
  ¬ collision v1 v2 → Json.plain v1 = true → Json.plain v2 = true →
  load_sha256 v1 = load_sha256 v2 → Json.norm v1 = Json.norm v2.
Proof. intros Hc H1 H2 E. by destruct (content_digest_inj v1 v2 H1 H2 E). Qed.

Lemma jstrs_inj l1 l2 : Json.norm (jstrs l1) = Json.norm (jstrs l2) → l1 = l2.
Proof.
  unfold jstrs. cbn. intros [= H]. revert l2 H. induction l1 as [|x l1 IH]; intros [|y l2]; cbn; try done.
  intros [= -> H]. f_equal. by apply IH.
Qed.
Lemma jints_inj l1 l2 : Json.norm (jints l1) = Json.norm (jints l2) → l1 = l2.
Proof.
  unfold jints. cbn. intros [= H]. revert l2 H. induction l1 as [|x l1 IH]; intros [|y l2]; cbn; try done.
  intros [= -> H]. f_equal. by apply IH.
Qed.
Lemma plain_jstrs l : Json.plain (jstrs l) = true.
Proof. unfold jstrs. cbn. rewrite forallb_map. by apply forallb_elem_of. Qed.
Lemma plain_jints l : Json.plain (jints l) = true.
Proof. unfold jints. cbn. rewrite forallb_map. by apply forallb_elem_of. Qed.
Lemma cancellation_json_inj o1 o2 :
  Json.norm (cancellation_json o1) = Json.norm (cancellation_json o2) → o1 = o2.
Proof.
  unfold cancellation_json. intros E. apply Json.norm_obj_inj in E; [|done|].
  - destruct o1, o2; cbn in E; congruence.
  - cbn. repeat (apply NoDup_cons; split; [set_solver|]). constructor.
Qed.

(** Equal digests of one document per request. *)
Lemma digests_inj {B} (doc : ImmutableRequest → json) (f : ImmutableRequest → B) l1 l2 :
  (∀ r, Json.plain (doc r) = true) →
  (∀ r1 r2, Json.norm (doc r1) = Json.norm (doc r2) → f r1 = f r2) →
  (∀ k r1 r2, l1 !! k = Some r1 → l2 !! k = Some r2 → ¬ collision (doc r1) (doc r2)) →
  ¬ collision (digests doc l1) (digests doc l2) →
  load_sha256 (digests doc l1) = load_sha256 (digests doc l2) → map f l1 = map f l2.
Proof.
  intros Hplain Hinj Hr Hc E. apply digest_norm in E; [|done|apply plain_jstrs..].
  apply jstrs_inj in E. clear Hc. revert l2 Hr E. induction l1 as [|r1 l1 IH]; intros [|r2 l2] Hr E; try done.
  cbn [map] in E |- *. apply cons_eq_inj in E as [E0 E]. f_equal.
  - apply Hinj, digest_norm; [by apply (Hr 0%nat)|apply Hplain..|done].
  - apply IH; [|done]. intros k. apply (Hr (S k)).
Qed.

(** ** The identity of a plan *)
Record same_trace (p1 p2 : ProductionLoadPlan) : Prop := {
  same_window : window p1 = window p2;
  same_ids : map request_id (requests (scored p1)) = map request_id (requests (scored p2));
  same_tokens : map input_token_ids (requests (scored p1)) = map input_token_ids (requests (scored p2));
  same_lengths : map requested_output_tokens (requests (scored p1))
                 = map requested_output_tokens (requests (scored p2));
  same_arrivals : map arrival_us (requests (scored p1)) = map arrival_us (requests (scored p2));
  same_cohorts : map cohort_id (requests (scored p1)) = map cohort_id (requests (scored p2));
  same_cancellations : map cancellation_offset_us (requests (scored p1))
                       = map cancellation_offset_us (requests (scored p2)) }.

Lemma field_hashes_Ok r f :
  field_hashes r = Ok f →
  tokenized_input_sha256 f = load_sha256 (tokens_document r) ∧
  requested_length_sha256 f = load_sha256 (length_document r) ∧
  arrival_sha256 f = load_sha256 (arrival_document r) ∧
  cohort_sha256 f = load_sha256 (cohort_document r) ∧
  cancellation_sha256 f = load_sha256 (cancellation_document r).
Proof. unfold field_hashes. intros Hf. do 2 step_ok Hf. by injection Hf as <-. Qed.
Lemma mapR_fields {B} (g : RequestFieldHashes → B) (d : ImmutableRequest → B) l fs :
  mapR field_hashes l = Ok fs → (∀ r f, field_hashes r = Ok f → g f = d r) → map g fs = map d l.
Proof.
  intros H%mapR_Ok Hg. induction H as [|r f l fs Hr _ IH]; cbn; [done|]. by rewrite (Hg r f Hr), IH.
Qed.

Lemma corpus_hashes_Ok c h :
  corpus_hashes c = Ok h →
  request_ids_sha256 h = load_sha256 (jstrs (map request_id (requests c))) ∧
  tokenized_inputs_sha256 h = load_sha256 (digests tokens_document (requests c)) ∧
  requested_lengths_sha256 h = load_sha256 (digests length_document (requests c)) ∧
  arrivals_sha256 h = load_sha256 (digests arrival_document (requests c)) ∧
  cohorts_sha256 h = load_sha256 (digests cohort_document (requests c)) ∧
  cancellations_sha256 h = load_sha256 (digests cancellation_document (requests c)).
Proof.
  unfold corpus_hashes. intros H. step_ok H. step_ok H. injection H as <-. cbn. split; [done|].
  unfold digests. split_and!; do 2 f_equal; apply (mapR_fields _ _ _ _ E0);
    intros r f Hf; by apply field_hashes_Ok in Hf as (? & ? & ? & ? & ?).
Qed.

(** The fields of an equal pair of objects. *)
Lemma norm_str_inj s1 s2 : Json.norm (JStr s1) = Json.norm (JStr s2) → s1 = s2.
Proof. by intros [= ->]. Qed.

Lemma paired_payload_inj h1 h2 w1 w2 s1 s2 b1 b2 :
  Json.norm (paired_payload w1 h1 s1 b1) = Json.norm (paired_payload w2 h2 s2 b2) →
  Json.norm (hashes_json h1) = Json.norm (hashes_json h2) ∧ s1 = s2.
Proof.
  intros E. apply Json.norm_obj_inj in E; [|done|].
  - apply cons_eq_inj in E as [_ E]. apply cons_eq_inj in E as [_ E].
    apply cons_eq_inj in E as [E1 E]. apply cons_eq_inj in E as [E2 _]. split; [exact E1|].
    by apply norm_str_inj.
  - cbn. repeat (apply NoDup_cons; split; [set_solver|]). constructor.
Qed.
Lemma hashes_json_inj h1 h2 :
  Json.norm (hashes_json h1) = Json.norm (hashes_json h2) →
  request_ids_sha256 h1 = request_ids_sha256 h2 ∧
  tokenized_inputs_sha256 h1 = tokenized_inputs_sha256 h2 ∧
  requested_lengths_sha256 h1 = requested_lengths_sha256 h2 ∧
  arrivals_sha256 h1 = arrivals_sha256 h2 ∧ cohorts_sha256 h1 = cohorts_sha256 h2 ∧
  cancellations_sha256 h1 = cancellations_sha256 h2.
Proof.
  intros E. apply Json.norm_obj_inj in E; [|done|].
  - cbn in E. by injection E.
  - cbn. repeat (apply NoDup_cons; split; [set_solver|]). constructor.
Qed.

Lemma plain_paired p h : Json.plain (paired_payload (warmup_hashes p) h
  (load_sha256 (window_json (window p))) (cold_start_separate p)) = true.
Proof. unfold paired_payload. cbn. by destruct (warmup_hashes p). Qed.

Lemma window_json_inj w1 w2 : Json.norm (window_json w1) = Json.norm (window_json w2) → w1 = w2.
Proof.
  intros E. apply Json.norm_obj_inj in E; [|done|].
  - destruct w1, w2. cbn in E. by injection E as -> -> -> ->.
  - cbn. repeat (apply NoDup_cons; split; [set_solver|]). constructor.
Qed.

Section same_identity.
Context (p1 p2 : ProductionLoadPlan) (h1 h2 : CorpusHashes).
Hypothesis hashed1 : corpus_hashes (scored p1) = Ok h1.
Hypothesis hashed2 : corpus_hashes (scored p2) = Ok h2.
Hypothesis clear_plans : ¬ clash (plan_documents p1 h1) (plan_documents p2 h2).
Hypothesis clear_requests : ∀ k r1 r2, requests (scored p1) !! k = Some r1 →
  requests (scored p2) !! k = Some r2 → ¬ clash (request_documents r1) (request_documents r2).

Lemma same_trace_of_digest :
  load_sha256 (paired_payload (warmup_hashes p1) h1 (load_sha256 (window_json (window p1)))
    (cold_start_separate p1))
  = load_sha256 (paired_payload (warmup_hashes p2) h2 (load_sha256 (window_json (window p2)))
    (cold_start_separate p2)) →
  same_trace p1 p2.
Proof using All.
  intros E. apply digest_norm in E;
    [|exact (no_clash _ _ 0%nat _ _ clear_plans eq_refl eq_refl)|apply plain_paired..].
  apply paired_payload_inj in E as [Eh Ew]. apply hashes_json_inj in Eh as (Ei & Et & El & Ea & Ec & Ex).
  pose proof (corpus_hashes_Ok _ _ hashed1) as (Hi1 & Ht1 & Hl1 & Ha1 & Hc1 & Hx1).
  pose proof (corpus_hashes_Ok _ _ hashed2) as (Hi2 & Ht2 & Hl2 & Ha2 & Hc2 & Hx2).
  rewrite Hi1, Hi2 in Ei. rewrite Ht1, Ht2 in Et. rewrite Hl1, Hl2 in El.
  rewrite Ha1, Ha2 in Ea. rewrite Hc1, Hc2 in Ec. rewrite Hx1, Hx2 in Ex.
  assert (∀ k v1 v2, plan_documents p1 h1 !! k = Some v1 → plan_documents p2 h2 !! k = Some v2 →
    ¬ collision v1 v2) as Hp by (intros k v1 v2; apply no_clash, clear_plans).
  assert (∀ i doc, (∀ r, request_documents r !! i = Some (doc r)) →
    ∀ k r1 r2, requests (scored p1) !! k = Some r1 → requests (scored p2) !! k = Some r2 →
    ¬ collision (doc r1) (doc r2)) as Hr.
  { intros i doc Hdoc k r1 r2 H1 H2.
    exact (no_clash _ _ i _ _ (clear_requests k r1 r2 H1 H2) (Hdoc r1) (Hdoc r2)). }
  constructor.
  - apply digest_norm in Ew; [|exact (Hp 1%nat _ _ eq_refl eq_refl)|reflexivity..].
    exact (window_json_inj _ _ Ew).
  - apply jstrs_inj, digest_norm; [exact (Hp 2%nat _ _ eq_refl eq_refl)|apply plain_jstrs..|exact Ei].
  - apply (digests_inj tokens_document); [intros; apply plain_jints|intros r1 r2; apply jints_inj|
      exact (Hr 0%nat _ (λ _, eq_refl))|exact (Hp 3%nat _ _ eq_refl eq_refl)|exact Et].
  - apply (digests_inj length_document); [reflexivity|by intros r1 r2 [= ->]|
      exact (Hr 1%nat _ (λ _, eq_refl))|exact (Hp 4%nat _ _ eq_refl eq_refl)|exact El].
  - apply (digests_inj arrival_document); [reflexivity|by intros r1 r2 [= ->]|
      exact (Hr 2%nat _ (λ _, eq_refl))|exact (Hp 5%nat _ _ eq_refl eq_refl)|exact Ea].
  - apply (digests_inj cohort_document); [reflexivity|by intros r1 r2 [= ->]|
      exact (Hr 3%nat _ (λ _, eq_refl))|exact (Hp 6%nat _ _ eq_refl eq_refl)|exact Ec].
  - apply (digests_inj cancellation_document);
      [by intros r; unfold cancellation_document; destruct (cancellation_offset_us r)|
       intros r1 r2; apply cancellation_json_inj|
       exact (Hr 4%nat _ (λ _, eq_refl))|exact (Hp 7%nat _ _ eq_refl eq_refl)|exact Ex].
Qed.
End same_identity.

(** ** Bindings *)
Lemma paired_replay_Ok p paired h :
  paired_replay_sha256 p = Ok paired → corpus_hashes (scored p) = Ok h →
  paired = load_sha256 (paired_payload (warmup_hashes p) h (load_sha256 (window_json (window p)))
             (cold_start_separate p)).
Proof.
  unfold paired_replay_sha256, warmup_hashes. intros H Hh. step_ok H. rewrite Hh in H.
  unfold window_sha256 in H. destruct (warmup p) as [c|].
  - destruct (corpus_hashes c); [|discriminate H]. destruct (validate_window (window p)); [|discriminate H].
    exact (eq_sym (f_equal (λ r, match r with Ok x => x | Raise _ => paired end) H)).
  - destruct (validate_window (window p)); [|discriminate H].
    exact (eq_sym (f_equal (λ r, match r with Ok x => x | Raise _ => paired end) H)).
Qed.
Lemma create_binding_Ok p m b :
  create_binding p m = Ok b →
  rb_method b = m ∧ ∃ h, corpus_hashes (scored p) = Ok h ∧
    rb_paired_replay_sha256 b = load_sha256 (paired_payload (warmup_hashes p) h
      (load_sha256 (window_json (window p))) (cold_start_separate p)).
Proof.
  unfold create_binding. intros H. do 4 step_ok H. cbv zeta in H. step_ok H.
  assert (b = {| rb_method := m; rb_paired_replay_sha256 := a0;
    rb_request_ids_sha256 := request_ids_sha256 a1;
    binding_sha256 := load_sha256 (replay_payload m a0 (request_ids_sha256 a1)) |}) as ->.
  { exact (eq_sym (f_equal (λ r, match r with Ok x => x | Raise _ => b end) H)). }
  split; [reflexivity|]. exists a1. split; [reflexivity|]. exact (paired_replay_Ok p a0 a1 E1 E2).
Qed.

Lemma remove_dups_one {A} `{EqDecision A} (l : list A) x y :
  length (remove_dups l) = 1%nat → x ∈ l → y ∈ l → x = y.
Proof.
  intros Hl Hx%elem_of_remove_dups Hy%elem_of_remove_dups.
  destruct (remove_dups l) as [|z [|]]; cbn in Hl; [lia| |lia].
  apply list_elem_of_singleton in Hx, Hy. congruence.
Qed.
Lemma identical_bindings bindings h b1 b2 :
  assert_identical_replay bindings = Ok h → b1 ∈ bindings → b2 ∈ bindings →
  rb_paired_replay_sha256 b1 = h ∧ rb_paired_replay_sha256 b2 = h ∧
  (b1 ≠ b2 → rb_method b1 ≠ rb_method b2).
Proof.
  unfold assert_identical_replay. intros H H1 H2. do 4 step_ok H. bools.
  destruct bindings as [|b bindings]; [discriminate H|]. injection H as <-.
  assert (∀ b', b' ∈ b :: bindings → rb_paired_replay_sha256 b' = rb_paired_replay_sha256 b) as Hsame.
  { intros b' Hb. unfold zlength in E2.
    assert ((rb_paired_replay_sha256 b', rb_request_ids_sha256 b')
            = (rb_paired_replay_sha256 b, rb_request_ids_sha256 b)) as Heq; [|congruence].
    apply (remove_dups_one (map (λ b, (rb_paired_replay_sha256 b, rb_request_ids_sha256 b)) (b :: bindings)));
      [lia|..].
    - exact (list_elem_of_fmap_2 (λ b, (rb_paired_replay_sha256 b, rb_request_ids_sha256 b)) _ _ Hb).
    - apply list_elem_of_here. }
  split; [by apply Hsame|]. split; [by apply Hsame|]. intros Hne Heq. apply Hne.
  unfold unique_text in E1. bools.
  apply list_elem_of_lookup in H1 as [i H1], H2 as [j H2].
  assert (i = j) as ->; [|congruence].
  eapply (NoDup_lookup (map rb_method (b :: bindings))); [done|..].
  - change (map rb_method (b :: bindings)) with (rb_method <$> (b :: bindings)).
    by rewrite list_lookup_fmap, H1.
  - change (map rb_method (b :: bindings)) with (rb_method <$> (b :: bindings)).
    rewrite list_lookup_fmap, H2. cbn. by rewrite Heq.
Qed.

(** A SHA-256 collision between documents at the same place of two plans. *)
Definition plans_clash (p1 p2 : ProductionLoadPlan) : Prop :=
  ∃ h1 h2, corpus_hashes (scored p1) = Ok h1 ∧ corpus_hashes (scored p2) = Ok h2 ∧
  (clash (plan_documents p1 h1) (plan_documents p2 h2) ∨
   Exists (λ rs, clash (request_documents rs.1) (request_documents rs.2))
     (zip (requests (scored p1)) (requests (scored p2)))).

(** C7. Paired methods replay the same trace: when a set of replay bindings is
    accepted, two of its bindings created from two plans have different methods
    and one replay identity, and the plans have the same window, request ids,
    tokens, lengths, arrivals, cohorts and cancellations, in order, unless two
    documents the identities hash at the same place collide under SHA-256. *)
Theorem replay_pairs_same_trace bindings h p1 m1 b1 p2 m2 b2 :
  create_binding p1 m1 = Ok b1 → create_binding p2 m2 = Ok b2 →
  b1 ∈ bindings → b2 ∈ bindings → assert_identical_replay bindings = Ok h →
  rb_paired_replay_sha256 b1 = h ∧ rb_paired_replay_sha256 b2 = h ∧ (b1 ≠ b2 → m1 ≠ m2) ∧
  (same_trace p1 p2 ∨ plans_clash p1 p2).
Proof.
  intros (<- & h1 & Hh1 & E1)%create_binding_Ok (<- & h2 & Hh2 & E2)%create_binding_Ok Hb1 Hb2 H.
  destruct (identical_bindings bindings h b1 b2 H Hb1 Hb2) as (H1 & H2 & Hm).
  do 3 (split; [done|]).
  destruct (decide (clash (plan_documents p1 h1) (plan_documents p2 h2))) as [Hc|Hc];
    [right; by exists h1, h2; auto|].
  destruct (decide (Exists (λ rs, clash (request_documents rs.1) (request_documents rs.2))
    (zip (requests (scored p1)) (requests (scored p2))))) as [Hr|Hr]; [right; by exists h1, h2; auto|].
  left. apply (same_trace_of_digest p1 p2 h1 h2 Hh1 Hh2 Hc); [|congruence].
  intros k r1 r2 Hr1 Hr2 Hd. apply Hr, Exists_exists. exists (r1, r2). split; [|exact Hd].
  apply list_elem_of_lookup. exists k. apply lookup_zip_Some. done.
Qed.

(** ** Disjoint content *)
Definition token_set (c : RequestCorpus) : gset string :=
  list_to_set (map (λ r, load_sha256 (tokens_document r)) (requests c)).
Lemma token_set_spec c fields :
  mapR field_hashes (requests c) = Ok fields →
  list_to_set (map tokenized_input_sha256 fields) = token_set c.
Proof.
  intros H. unfold token_set. f_equal. apply (mapR_fields _ _ _ _ H).
  intros r f Hf. by apply field_hashes_Ok in Hf as [? _].
Qed.
Lemma token_set_size c : requests c ≠ [] → 0 < Z.of_nat (size (token_set c)) <= zlength (requests c).
Proof.
  intros Hne. unfold zlength. split.
  - unfold token_set. destruct (requests c) as [|r l]; [done|]. cbn [map list_to_set].
    rewrite size_union_alt, size_singleton. lia.
  - unfold token_set. rewrite <- (length_map (λ r, load_sha256 (tokens_document r)) (requests c)).
    generalize (map (λ r, load_sha256 (tokens_document r)) (requests c)) as l. intros l.
    induction l as [|x l IH]; [done|]. cbn [list_to_set length].
    rewrite (size_union_alt {[x]} (list_to_set l)), size_singleton.
    pose proof (subseteq_size (list_to_set l ∖ {[x]}) (list_to_set l : gset string) ltac:(set_solver)). lia.
Qed.
Lemma first_overlap_None hashes seen :
  first_overlap hashes seen = None ↔ ∀ s other, (s, other) ∈ seen → hashes ∩ other = ∅.
Proof.
  induction seen as [|[s other] seen IH]; cbn.
  - split; [by intros _ ?? ?%elem_of_nil|done].
  - setoid_rewrite elem_of_cons. case_bool_decide as Hd; [rewrite IH|]; naive_solver.
Qed.

Lemma valid_requests c : validate_corpus c = Ok tt → requests c ≠ [].
Proof.
  unfold validate_corpus. intros H. cbv zeta in H. do 5 step_ok H. by destruct (requests c).
Qed.
Lemma audit_content_Ok seen l ids :
  audit_content seen l = Ok ids →
  (∀ c, c ∈ l → validate_corpus c = Ok tt ∧ (rc_split c ∉ map fst seen) ∧
     ∀ s other, (s, other) ∈ seen → token_set c ∩ other = ∅) ∧
  Forall2 (λ c id, cs_split id = rc_split c ∧
    unique_input_count id = Z.of_nat (size (token_set c))) l ids ∧
  NoDup (map rc_split l) ∧
  (∀ i j c1 c2, (i < j)%nat → l !! i = Some c1 → l !! j = Some c2 → token_set c1 ∩ token_set c2 = ∅).
Proof.
  revert seen ids. induction l as [|c l IH]; intros seen ids H; cbn [audit_content] in H.
  { injection H as <-. split; [by intros ? ?%elem_of_nil|]. split; [constructor|].
    split; [constructor|]. intros i j ??? H. by rewrite lookup_nil in H. }
  step_ok H. destruct a. do 2 step_ok H. cbv zeta in H. rewrite (token_set_spec c _ E1) in H.
  destruct (first_overlap _ seen) eqn:Hov; [discriminate H|]. do 2 step_ok H. injection H as <-.
  apply IH in E3 as (Hl & Hids & Hnd & Hpair). bools. rewrite first_overlap_None in Hov. split_and!.
  - intros c' [->|Hc']%elem_of_cons; [done|]. destruct (Hl c' Hc') as (? & Hs & Ho).
    rewrite map_app, elem_of_app in Hs. split; [done|]. split; [naive_solver|].
    intros s other Hin. apply (Ho s). apply elem_of_app. by left.
  - by constructor.
  - cbn [map]. apply NoDup_cons. split; [|done]. intros (c' & Heq & Hc')%list_elem_of_fmap.
    destruct (Hl c' Hc') as (_ & Hs & _). apply Hs. rewrite map_app, elem_of_app. right.
    cbn. rewrite Heq. by left.
  - intros [|i] [|j] c1 c2 Hij; cbn; [lia| |lia|].
    + intros [= ->] Hc2. destruct (Hl c2 (list_elem_of_lookup_2 _ _ _ Hc2)) as (_ & _ & Ho).
      rewrite (intersection_comm_L (token_set c1)). apply (Ho (rc_split c1)). apply elem_of_app.
      right. by left.
    + apply Hpair. lia.
Qed.

(** C36. The split audit leaks no content: accepted corpora are valid, one per
    split, and no request of one has the token sequence of a request of another;
    the identities list the splits in order, each with a number of distinct
    inputs between one and its number of requests. *)
Theorem content_disjoint corpora ids :
  assert_content_disjoint corpora = Ok ids →
  corpora ≠ [] ∧ (∀ c, c ∈ corpora → validate_corpus c = Ok tt) ∧ NoDup (map rc_split corpora) ∧
  map cs_split ids = map rc_split corpora ∧
  Forall2 (λ c id, 0 < unique_input_count id <= zlength (requests c)) corpora ids ∧
  (∀ i j c1 c2 r1 r2, i ≠ j → corpora !! i = Some c1 → corpora !! j = Some c2 →
     r1 ∈ requests c1 → r2 ∈ requests c2 → input_token_ids r1 ≠ input_token_ids r2).
Proof.
  unfold assert_content_disjoint. intros H. step_ok H.
  apply audit_content_Ok in H as (Hv & Hids & Hnd & Hpair).
  split; [by intros ->|]. split; [intros c Hc; by apply Hv|]. split; [done|]. split_and!.
  - clear -Hids. induction Hids as [|c id l ids [Hs _] _ IH]; cbn; [done|]. by rewrite Hs, IH.
  - apply Forall2_same_length_lookup_2; [by apply Forall2_length in Hids|].
    intros i c id Hc Hid. destruct (Forall2_lookup_lr _ _ _ _ _ _ Hids Hc Hid) as [_ ->].
    apply token_set_size, valid_requests, Hv. by eapply list_elem_of_lookup_2.
  - assert (∀ i j c1 c2 r1 r2, (i < j)%nat → corpora !! i = Some c1 → corpora !! j = Some c2 →
      r1 ∈ requests c1 → r2 ∈ requests c2 → input_token_ids r1 ≠ input_token_ids r2) as Hlt.
    { intros i j c1 c2 r1 r2 Hij H1 H2 Hr1 Hr2 Heq. specialize (Hpair i j c1 c2 Hij H1 H2).
      apply (not_elem_of_empty (C := gset string) (load_sha256 (tokens_document r1))).
      rewrite <- Hpair. apply elem_of_intersection. unfold token_set. rewrite !elem_of_list_to_set.
      split; apply list_elem_of_fmap; [by exists r1|]. exists r2.
      unfold tokens_document. by rewrite Heq. }
    intros i j c1 c2 r1 r2 Hij H1 H2 Hr1 Hr2. destruct (decide (i < j)%nat) as [Hl|Hl].
    + by apply (Hlt i j c1 c2).
    + apply not_eq_sym. apply (Hlt j i c2 c1 r2 r1); [lia|done..].
Qed.
