(* ===== verification/LoadGeneration.v ===== *)
(** * What the Poisson generator produces

    Gaps, cohort labels and requests of a generated corpus, position by position. *)
From S2P Require Import Prelude PyFloat FloatRepr Hashlib Registry GpuPool Load LoadSources LoadAccounting LoadSafety.

Lemma create_request_Ok ns split n t arrival cohort r :
  create_request ns split n t arrival cohort = Ok r →
  namespace r = ns ∧ rq_split r = split ∧ ordinal r = n ∧ request_template r = t ∧
  arrival_us r = arrival ∧ cohort_id r = cohort.
Proof.
  unfold create_request. intros H. step_ok H. cbv zeta in H. step_ok H. injection H as <-. by destruct t.
Qed.
Lemma create_requests_Ok ns split n rows l :
  create_requests ns split n rows = Ok l →
  length l = length rows ∧
  ∀ k t arrival cohort, rows !! k = Some (t, arrival, cohort) →
    ∃ r, l !! k = Some r ∧ namespace r = ns ∧ rq_split r = split ∧ ordinal r = n + Z.of_nat k ∧
      request_template r = t ∧ arrival_us r = arrival ∧ cohort_id r = cohort.
Proof.
  revert n l. induction rows as [|[[t a] c] rows IH]; intros n l H; cbn [create_requests] in H.
  { injection H as <-. split; [done|]. intros k ??? Hk. by rewrite lookup_nil in Hk. }
  do 2 step_ok H. injection H as <-. apply create_request_Ok in E as (? & ? & ? & ? & ? & ?).
  apply IH in E0 as [Hlen Hk]. split; [cbn; lia|]. intros [|k] t' a' c' Hr; cbn in Hr |- *.
  - injection Hr as <- <- <-. exists a0. split_and!; (done || lia).
  - destruct (Hk k t' a' c' Hr) as (r & ? & ? & ? & ? & ? & ? & ?). exists r. split_and!; (done || lia).
Qed.

(** ** Arrivals *)
Section arrivals.
Context `{Libm}.

Lemma arrival_gap_pos rate seed n gap : arrival_gap rate seed n = Ok gap → 1 <= gap.
Proof. unfold arrival_gap. intros E. cbv zeta in E. do 3 step_ok E. injection E as <-. lia. Qed.
Lemma arrivals_from_Ok rate seed elapsed ns l :
  arrivals_from rate seed elapsed ns = Ok l →
  length l = length ns ∧ StronglySorted Z.lt (elapsed :: l).
Proof.
  revert elapsed l. induction ns as [|n ns IH]; intros elapsed l E; cbn [arrivals_from] in E.
  { injection E as <-. split; [done|]. repeat constructor. }
  do 2 step_ok E. injection E as <-. apply arrival_gap_pos in E0. apply IH in E1 as [Hlen Hs].
  split; [cbn; lia|]. constructor; [done|]. apply StronglySorted_inv in Hs as [_ Hs].
  constructor; [lia|]. eapply Forall_impl; [exact Hs|]. cbn. lia.
Qed.

(** ** Cohorts *)
Lemma cumulate_length running total weights l :
  cumulate running total weights = Ok l → length l = length weights.
Proof.
  revert running l. induction weights as [|w weights IH]; intros running l E; cbn [cumulate] in E.
  - by injection E as <-.
  - step_ok E. cbv zeta in E. step_ok E. injection E as <-. cbn. f_equal. by eapply IH.
Qed.
Lemma cohort_weights_length count popularity exponent l :
  0 <= count → cohort_weights count popularity exponent = Ok l → zlength l = count.
Proof.
  intros Hc. unfold cohort_weights, zlength. destruct popularity; intros E.
  - injection E as <-. rewrite length_replicate. lia.
  - apply mapR_Ok, Forall2_length in E. rewrite length_seqZ in E. lia.
Qed.
Lemma cohort_assignments_Ok n count popularity seed exponent l :
  cohort_assignments n count popularity seed exponent = Ok l →
  zlength l = n ∧ ∀ c, c ∈ l → ∃ i : nat, Z.of_nat i < count ∧ c = cohort_label i.
Proof.
  unfold cohort_assignments. intros E. do 5 step_ok E. cbv zeta in E. step_ok E. bools.
  assert (0 <= count) as Hc.
  { unfold REGISTERED_COHORT_COUNTS in *. rewrite !elem_of_cons, elem_of_nil in *. lia. }
  apply cohort_weights_length in E4; [|done]. apply cumulate_length in E5.
  apply mapR_Ok in E. pose proof (Forall2_length _ _ _ E) as Hlen. rewrite length_seqZ in Hlen.
  unfold zlength in *. split; [lia|]. intros c [k Hk]%list_elem_of_lookup.
  destruct (Forall2_lookup_r _ _ _ _ _ E Hk) as (m & _ & Hm). unfold select_cohort in Hm.
  cbv zeta in Hm. destruct (list_find _ a1) as [[i x]|] eqn:Hf; [|discriminate Hm].
  injection Hm as <-. apply list_find_Some in Hf as [Hi _]. apply lookup_lt_Some in Hi.
  exists i. split; [lia|done].
Qed.

(** ** Corpora *)
Lemma build_corpus_Ok ns split templates arrivals cohorts name kind parameters made c :
  build_corpus ns split templates arrivals cohorts name kind parameters made = Ok c →
  validate_corpus c = Ok tt ∧ source_kind c = kind ∧ rc_split c = split ∧ synthetic c = made ∧
  source_parameters c = sorted_by fst parameters ∧
  length (requests c) = length templates ∧ length arrivals = length templates ∧
  ∀ k t, templates !! k = Some t → ∃ r, requests c !! k = Some r ∧ request_template r = t ∧
    ordinal r = Z.of_nat k ∧ namespace r = ns ∧ rq_split r = split ∧
    arrivals !! k = Some (arrival_us r) ∧ cohorts !! k = Some (cohort_id r).
Proof.
  unfold build_corpus. intros E. do 3 step_ok E. cbv zeta in E. step_ok E. injection E as <-.
  destruct a0. apply create_requests_Ok in E2 as [Hlen Hk]. bools. unfold zlength in *. cbn.
  rewrite !length_zip_with in Hlen.
  split; [exact E3|]. split_and!; [done..|lia|lia|].
  intros k t Ht. assert (k < length templates)%nat as Hlt by (by eapply lookup_lt_Some).
  destruct (lookup_lt_is_Some_2 arrivals k) as [u Hu]; [lia|].
  destruct (lookup_lt_is_Some_2 cohorts k) as [x Hx]; [lia|].
  destruct (Hk k t u x) as (r & Hr & Hn & Hs & Ho & Htm & Hra & Hrc).
  { apply lookup_zip_Some. split; [|done]. by apply lookup_zip_Some. }
  exists r. rewrite Hra, Hrc. split_and!; (done || lia).
Qed.

(** C35. A generated Poisson corpus is valid and registered as synthetic, has one
    request per template, in order and with the content of the template, a
    cohort among the registered number, and arrivals that start after zero and
    strictly increase. *)
Theorem poisson_corpus_exact templates ns split rate arrival_seed count popularity cohort_seed
    exponent factor c :
  controlled_poisson_corpus templates ns split rate arrival_seed count popularity cohort_seed
    exponent factor = Ok c →
  validate_corpus c = Ok tt ∧ source_kind c = POISSON ∧ synthetic c = true ∧ rc_split c = split ∧
  length (requests c) = length templates ∧ StronglySorted Z.lt (0 :: map arrival_us (requests c)) ∧
  ∀ k t, templates !! k = Some t → ∃ r (i : nat), requests c !! k = Some r ∧ request_template r = t ∧
    ordinal r = Z.of_nat k ∧ namespace r = ns ∧ Z.of_nat i < count ∧ cohort_id r = cohort_label i.
Proof.
  unfold controlled_poisson_corpus. intros E. do 3 step_ok E.
  apply build_corpus_Ok in E as (Hv & Hk & Hs & Hm & _ & Hlen & Ha & Hr).
  unfold poisson_arrivals in E0. do 2 step_ok E0. apply arrivals_from_Ok in E0 as [_ Hsort].
  apply cohort_assignments_Ok in E1 as [_ Hcohort].
  split_and!; try done.
  - assert (map arrival_us (requests c) = a) as ->; [|done].
    apply list_eq_same_length with (length templates); [lia|by rewrite length_map|].
    intros k x y Hlt Hx Hy. change (map ?f ?l) with (f <$> l) in Hx.
    rewrite list_lookup_fmap in Hx.
    destruct (lookup_lt_is_Some_2 templates k Hlt) as [t Ht].
    destruct (Hr k t Ht) as (r & Hrk & _ & _ & _ & _ & Hak & _). rewrite Hrk in Hx. cbn in Hx. congruence.
  - intros k t Ht. destruct (Hr k t Ht) as (r & Hrk & ? & ? & ? & _ & _ & Hc).
    destruct (Hcohort (cohort_id r)) as (i & Hi & Heq); [by eapply list_elem_of_lookup_2|].
    by exists r, i.
Qed.
End arrivals.
