(* ===== verification/LoadDemo.v ===== *)
(** * Witnesses of the load theorems

    A closed-loop plan of one client and two requests, and a trace of token
    chunks. *)
From S2P Require Import Prelude PyFloat FloatRepr Hashlib Registry GpuPool Load LoadSources LoadAccounting LoadTiming LoadSafety LoadRefinement LoadTheorems LoadReplay LoadGeneration.

Definition demo_sampling : FrozenSamplingParameters := {| items := [("top_k", JInt 1)] |}.
Definition demo_content (split : SplitName) (token n : Z) : ImmutableRequest := {|
  namespace := "n"; rq_split := split; ordinal := n;
  request_id := "req-" +:+ load_sha256 (identity_payload "n" split n [token] 1 0 "c" None demo_sampling);
  input_token_ids := [token]; requested_output_tokens := 1; arrival_us := 0; cohort_id := "c";
  cancellation_offset_us := None; sampling := demo_sampling |}.
Definition demo_request (n : Z) : ImmutableRequest := demo_content PILOT 7 n.
Definition demo_parameters (c : Z) (count : Z) : list (string * json) := [
  ("concurrency", JInt c); ("generator", JStr "closed_loop_zero_think_v1");
  ("request_count", JInt count)].
Definition demo_corpus (split : SplitName) (c : Z) (l : list ImmutableRequest) : RequestCorpus := {|
  label := "demo"; source_kind := CLOSED_LOOP;
  source_identity_sha256 := load_sha256 (JObj (demo_parameters c (zlength l)));
  source_parameters := demo_parameters c (zlength l); synthetic := true; rc_split := split;
  requests := l |}.
Definition demo_window : ProductionWindow := {|
  warmup_duration_us := 0; arrival_duration_us := 100; request_deadline_us := 50;
  drain_duration_us := 10 |}.
Definition demo_plan (c : Z) (l : list ImmutableRequest) : ProductionLoadPlan := {|
  warmup := None; scored := demo_corpus PILOT c l; window := demo_window; cold_start_separate := true |}.

Lemma demo_content_valid split token n :
  0 <= token → 0 <= n → validate_request (demo_content split token n) = Ok tt.
Proof.
  intros Ht Hn. unfold validate_request. cbn [namespace ordinal arrival_us cohort_id string_empty demo_content].
  unfold require_nonnegative_integer at 1 2. rewrite (proj2 (Z.ltb_ge _ _) Hn).
  assert (validate_template (request_template (demo_content split token n)) = Ok tt) as ->.
  { unfold validate_template, request_template, require_nonnegative_integer. cbn. by rewrite (proj2 (Z.ltb_ge _ _) Ht). }
  change (request_id (demo_content split token n))
    with ("req-" +:+ load_sha256 (request_payload (demo_content split token n))).
  generalize (load_sha256 (request_payload (demo_content split token n))) as d. intros d.
  by rewrite (bool_decide_eq_true_2 (_ = _) eq_refl).
Qed.
Lemma demo_request_valid n : 0 <= n → validate_request (demo_request n) = Ok tt.
Proof. intros Hn. by apply demo_content_valid. Qed.
Lemma demo_ids_differ : request_id (demo_request 0) ≠ request_id (demo_request 1).
Proof.
  apply (bool_decide_unpack _). vm_compute. exact I.
Qed.

Lemma demo_requests_checked split l arrival ids :
  (∀ r, r ∈ l → validate_request r = Ok tt ∧ rq_split r = split ∧ arrival_us r = 0) →
  arrival <= 0 → NoDup (map request_id l) → (∀ r, r ∈ l → request_id r ∉ ids) →
  check_requests split ids arrival l = Ok tt.
Proof.
  revert arrival ids. induction l as [|r l IH]; intros arrival ids Hl Ha Hnd Hni; [done|].
  cbn [check_requests]. destruct (Hl r (list_elem_of_here _ _)) as (-> & -> & ->).
  rewrite (bool_decide_eq_true_2 (split = split) eq_refl), bool_decide_eq_false_2
    by (apply Hni, list_elem_of_here).
  rewrite (proj2 (Z.ltb_ge _ _) Ha). cbn [negb]. cbn in Hnd. apply NoDup_cons in Hnd as [Hr Hnd].
  apply IH; [intros r' Hr'; apply Hl; by right|done|done|].
  intros r' Hr' [Heq%elem_of_singleton|Hin]%elem_of_union.
  - apply Hr. rewrite <- Heq. by apply list_elem_of_fmap_2.
  - apply (Hni r'); [by right|done].
Qed.

Lemma demo_corpus_valid split c l :
  l ≠ [] → 1 <= c <= zlength l → NoDup (map request_id l) →
  (∀ r, r ∈ l → validate_request r = Ok tt ∧ rq_split r = split ∧ arrival_us r = 0) →
  validate_corpus (demo_corpus split c l) = Ok tt.
Proof.
  intros Hne Hc Hnd Hl. unfold validate_corpus, demo_corpus. cbn [label source_kind source_identity_sha256
    source_parameters synthetic rc_split requests].
  unfold load_sha256. rewrite content_digest_is_hash, (bool_decide_eq_true_2 (_ = _) eq_refl).
  rewrite demo_requests_checked; [|done|done|done|by intros ?? ?%elem_of_empty].
  assert (closed_loop_bound (demo_corpus split c l) = true) as Hbound.
  { unfold closed_loop_bound, positive_parameter, demo_corpus, demo_parameters. cbn [source_parameters requests].
    change (parameter _ "concurrency") with (Some (JInt c)).
    change (parameter _ "request_count") with (Some (JInt (zlength l))).
    cbv iota. rewrite (proj2 (Z.ltb_ge c 1)) by lia. cbn [equals_int]. rewrite Z.eqb_refl.
    rewrite (proj2 (Z.leb_le _ _)) by lia. cbn [andb]. apply forallb_elem_of.
    intros r Hr. apply Z.eqb_eq, Hl, Hr. }
  unfold demo_corpus in Hbound. unfold load_sha256 in Hbound. rewrite Hbound. by destruct l.
Qed.
Lemma demo_load_plan_valid c l :
  l ≠ [] → 1 <= c <= zlength l → NoDup (map request_id l) →
  (∀ r, r ∈ l → validate_request r = Ok tt ∧ rq_split r = PILOT ∧ arrival_us r = 0) →
  validate_load_plan (demo_plan c l) = Ok tt.
Proof.
  intros Hne Hc Hnd Hl.
  assert (existsb (λ r, 100 <=? arrival_us r) l = false) as Harrive.
  { apply not_true_iff_false. rewrite existsb_exists. intros (r & Hr & H).
    apply list_elem_of_In in Hr. destruct (Hl r Hr) as (_ & _ & H0). rewrite H0 in H. done. }
  unfold validate_load_plan. cbn [demo_plan warmup scored window cold_start_separate].
  rewrite demo_corpus_valid by done.
  change (validate_window demo_window) with (Ok tt : result unit). cbn [demo_corpus requests rc_split
    demo_window arrival_duration_us warmup_duration_us].
  by rewrite Harrive.
Qed.

Definition demo_requests : list ImmutableRequest := [demo_request 0; demo_request 1].
Lemma demo_two_valid : validate_load_plan (demo_plan 1 demo_requests) = Ok tt.
Proof.
  apply demo_load_plan_valid; [discriminate|split; [reflexivity|discriminate]| |].
  - apply NoDup_cons. split; [|apply NoDup_singleton].
    intros H%list_elem_of_singleton. exact (demo_ids_differ H).
  - intros r [->|[->|[]%elem_of_nil]%elem_of_cons]%elem_of_cons;
      (split; [apply demo_request_valid; discriminate|split; reflexivity]).
Qed.

Definition demo_outcomes : list RequestOutcome :=
  [left_unfinished (demo_request 0); completed_at (demo_request 1) 20].
Definition demo_accounting : LoadAccounting := {|
  la_offered := 2; la_admitted := 2; la_rejected := 0; la_completed := 1; la_timed_out := 0;
  la_cancelled := 0; la_unfinished := 1; score_started_us := 0; score_ended_us := 50;
  elapsed_us := 50 |}.
Lemma demo_side_conditions :
  source_kind (scored (demo_plan 1 demo_requests)) = CLOSED_LOOP ∧
  positive_parameter (source_parameters (scored (demo_plan 1 demo_requests))) "concurrency" = Some 1 ∧
  requests (scored (demo_plan 1 demo_requests)) = [demo_request 0; demo_request 1] ∧
  (cancellation_offset_us (demo_request 0) = None ∧ cancellation_offset_us (demo_request 1) = None) ∧
  0 <= 20 < arrival_duration_us (window (demo_plan 1 demo_requests)).
Proof. repeat split; (reflexivity || discriminate). Qed.

Lemma unfinished_lane_continues_witness :
  account_scored_requests (demo_plan 1 demo_requests) demo_outcomes = Ok demo_accounting.
Proof.
  destruct demo_side_conditions as (Hk & Hp & Hr & Hc & Ht).
  exact (unfinished_lane_continues _ _ _ 20 demo_two_valid Hk Hp Hr Hc Ht).
Defined.

Lemma demo_accounted :
  account_scored_requests (demo_plan 1 demo_requests) demo_outcomes = Ok demo_accounting.
Proof.
  destruct demo_side_conditions as (Hk & Hp & Hr & Hc & Ht).
  exact (gap_accepted _ _ _ 20 demo_two_valid Hk Hp Hr Hc Ht).
Qed.
Lemma account_bounds_witness :
  account_scored_requests (demo_plan 1 demo_requests) demo_outcomes = Ok demo_accounting ∧
  0 < 2 <= 2 ∧ 0 <= score_ended_us demo_accounting <= 110.
Proof.
  split; [exact demo_accounted|].
  destruct (account_bounds _ _ _ demo_accounted) as (_ & Ho & _ & H0 & H1 & _).
  split; [exact Ho|]. split; [|apply H1]. etransitivity; [apply H0|apply H1].
Defined.


(** ** Token timing *)
Definition demo_chunk (first count at_us : Z) (exact : option (list Z)) : TokenChunkTiming := {|
  tc_request_id := "r"; first_token_index := first; token_count := count;
  chunk_observed_at_us := at_us; per_token_observed_at_us := exact |}.
Definition demo_exact_chunks : list TokenChunkTiming :=
  [demo_chunk 0 1 10 None; demo_chunk 1 2 20 (Some [15; 18])].
Definition demo_coalesced_chunks : list TokenChunkTiming :=
  [demo_chunk 0 1 10 None; demo_chunk 1 2 20 None; demo_chunk 3 1 30 None].
Lemma timing_exact_witness :
  (∃ c, evaluate_token_timing "r" 4 3 demo_exact_chunks = Ok c ∧ full_itl_coverage c = true ∧
        supported_itls_us c = [5; 3]) ∧
  (∃ c, evaluate_token_timing "r" 4 4 demo_coalesced_chunks = Ok c ∧ coalesced_tokens c = 2 ∧
        itl_percentile_us c (float_of_Z 99) = Ok None).
Proof.
  split; eexists; (split; [vm_compute; reflexivity|]).
  - split; [|reflexivity].
    apply (timing_exact "r" 4 3 demo_exact_chunks _ ltac:(vm_compute; reflexivity)). reflexivity.
  - split; [reflexivity|].
    refine (proj1 (proj2 (proj2 (proj2 (proj2 (proj2 (timing_exact "r" 4 4 demo_coalesced_chunks _
      ltac:(vm_compute; reflexivity))))))) _ _ _); [discriminate|reflexivity].
Defined.

(** ** Paired replays *)
Lemma demo_corpus_hashes split token :
  0 <= token → ∃ h, corpus_hashes (demo_corpus split 1 [demo_content split token 0]) = Ok h.
Proof.
  intros Ht. unfold corpus_hashes. rewrite demo_corpus_valid.
  - cbn [demo_corpus requests mapR]. unfold field_hashes. rewrite demo_content_valid by done.
    unfold sampling_sha256. eexists. reflexivity.
  - discriminate.
  - split; discriminate.
  - apply NoDup_singleton.
  - intros r [->|[]%elem_of_nil]%elem_of_cons. split; [by apply demo_content_valid|split; reflexivity].
Qed.

Definition demo_single : ProductionLoadPlan := demo_plan 1 [demo_request 0].
Lemma demo_one_valid : validate_load_plan demo_single = Ok tt.
Proof.
  apply demo_load_plan_valid; [discriminate|split; discriminate|apply NoDup_singleton|].
  intros r [->|[]%elem_of_nil]%elem_of_cons.
  split; [apply demo_request_valid; discriminate|split; reflexivity].
Qed.
Lemma demo_binding : ∃ paired ids, ∀ m, string_empty m = false → ∃ b,
  create_binding demo_single m = Ok b ∧ rb_method b = m ∧ rb_paired_replay_sha256 b = paired ∧
  rb_request_ids_sha256 b = ids ∧ validate_binding b = Ok tt.
Proof.
  destruct (demo_corpus_hashes PILOT 7) as [h Hh]; [discriminate|].
  assert (is_hash 64 (request_ids_sha256 h) = true) as Hids.
  { apply corpus_hashes_Ok in Hh as [-> _]. apply content_digest_is_hash. }
  pose (sha := load_sha256 (window_json demo_window)).
  pose (paired := load_sha256 (paired_payload None h sha true)).
  exists paired, (request_ids_sha256 h). intros m Hm.
  pose (b := {| rb_method := m; rb_paired_replay_sha256 := paired;
    rb_request_ids_sha256 := request_ids_sha256 h;
    binding_sha256 := load_sha256 (replay_payload m paired (request_ids_sha256 h)) |}).
  assert (validate_binding b = Ok tt) as Hb.
  { unfold validate_binding. cbn [b rb_method rb_paired_replay_sha256 rb_request_ids_sha256 binding_sha256].
    rewrite Hm, Hids. unfold paired, load_sha256. rewrite content_digest_is_hash.
    by rewrite (bool_decide_eq_true_2 (_ = _) eq_refl). }
  exists b. split; [|by repeat split]. unfold create_binding. rewrite demo_one_valid, Hm.
  assert (paired_replay_sha256 demo_single = Ok paired) as ->.
  { unfold paired_replay_sha256. rewrite demo_one_valid. cbn [demo_single demo_plan warmup scored window
      cold_start_separate].
    unfold demo_request. rewrite Hh. reflexivity. }
  cbn [demo_single demo_plan scored]. unfold demo_request. rewrite Hh. cbv zeta.
  fold b. by rewrite Hb.
Qed.

Lemma remove_dups_twice {A} `{EqDecision A} (x : A) : remove_dups [x; x] = [x].
Proof.
  cbn. unfold decide_rel. case_match; [done|]. match goal with H : ¬ _ |- _ => destruct H end.
  apply list_elem_of_here.
Qed.

Lemma demo_identical : ∃ b1 b2 h,
  create_binding demo_single "frozen" = Ok b1 ∧ create_binding demo_single "adaptive" = Ok b2 ∧
  assert_identical_replay [b1; b2] = Ok h.
Proof.
  destruct demo_binding as (paired & ids & Hb).
  destruct (Hb "frozen" eq_refl) as (b1 & H1 & Hm1 & Hp1 & Hi1 & Hv1).
  destruct (Hb "adaptive" eq_refl) as (b2 & H2 & Hm2 & Hp2 & Hi2 & Hv2).
  exists b1, b2, paired. split; [exact H1|]. split; [exact H2|].
  unfold assert_identical_replay. cbn [all_ok map]. rewrite Hv1, Hv2, Hm1, Hm2, Hp1, Hp2, Hi1, Hi2.
  by rewrite remove_dups_twice.
Qed.
Lemma replay_pairs_same_trace_witness : ∃ b1 b2 h,
  assert_identical_replay [b1; b2] = Ok h ∧ rb_method b1 = "frozen" ∧ rb_method b2 = "adaptive" ∧
  rb_paired_replay_sha256 b1 = h ∧ rb_paired_replay_sha256 b2 = h ∧
  (same_trace demo_single demo_single ∨ plans_clash demo_single demo_single).
Proof.
  destruct demo_identical as (b1 & b2 & h & H1 & H2 & H). exists b1, b2, h.
  destruct (replay_pairs_same_trace [b1; b2] h demo_single "frozen" b1 demo_single "adaptive" b2
    H1 H2 ltac:(left) ltac:(right; left) H) as (Hp1 & Hp2 & _ & Ht).
  split; [exact H|]. split; [by apply create_binding_Ok in H1 as [? _]|].
  split; [by apply create_binding_Ok in H2 as [? _]|]. by split; [|split].
Defined.

(** ** Disjoint splits *)
Definition demo_pilot : RequestCorpus := demo_corpus PILOT 1 [demo_content PILOT 7 0].
Definition demo_confirmation : RequestCorpus := demo_corpus CONFIRMATION 1 [demo_content CONFIRMATION 8 0].
Lemma demo_single_valid split token :
  0 <= token → validate_corpus (demo_corpus split 1 [demo_content split token 0]) = Ok tt.
Proof.
  intros Ht. apply demo_corpus_valid; [discriminate|split; discriminate|apply NoDup_singleton|].
  intros r [->|[]%elem_of_nil]%elem_of_cons. split; [by apply demo_content_valid|split; reflexivity].
Qed.
Lemma demo_fields split token :
  0 <= token → ∃ fields, mapR field_hashes [demo_content split token 0] = Ok fields ∧
    map tokenized_input_sha256 fields = [load_sha256 (jints [token])].
Proof.
  intros Ht. cbn [mapR]. unfold field_hashes. rewrite demo_content_valid by done.
  eexists. split; reflexivity.
Qed.
Lemma demo_tokens_differ : load_sha256 (jints [7]) ≠ load_sha256 (jints [8]).
Proof. apply (bool_decide_unpack _). vm_compute. exact I. Qed.
Lemma apart (d1 d2 : string) : d1 ≠ d2 → ({[d2]} ∪ ∅) ∩ ({[d1]} ∪ ∅) = (∅ : gset string).
Proof. set_solver. Qed.
Lemma demo_audited : ∃ ids, assert_content_disjoint [demo_pilot; demo_confirmation] = Ok ids.
Proof.
  destruct (demo_corpus_hashes PILOT 7) as [h1 Hh1]; [discriminate|].
  destruct (demo_corpus_hashes CONFIRMATION 8) as [h2 Hh2]; [discriminate|].
  destruct (demo_fields PILOT 7) as (f1 & Hf1 & Ht1); [discriminate|].
  destruct (demo_fields CONFIRMATION 8) as (f2 & Hf2 & Ht2); [discriminate|].
  unfold assert_content_disjoint. cbn [audit_content]. unfold demo_pilot, demo_confirmation.
  rewrite !demo_single_valid by discriminate. cbn [demo_corpus requests rc_split map app].
  rewrite Hf1, Hf2. cbv zeta. rewrite Ht1, Ht2. rewrite Hh1, Hh2.
  pose proof demo_tokens_differ as Hne. revert Hne.
  generalize (load_sha256 (jints [7])) as d1, (load_sha256 (jints [8])) as d2. intros d1 d2 Hne.
  cbn [first_overlap list_to_set fst map]. rewrite (bool_decide_eq_true_2 _ (apart d1 d2 Hne)).
  eexists. reflexivity.
Qed.
Lemma content_disjoint_witness : ∃ ids,
  assert_content_disjoint [demo_pilot; demo_confirmation] = Ok ids ∧
  map cs_split ids = [PILOT; CONFIRMATION] ∧
  input_token_ids (demo_content PILOT 7 0) ≠ input_token_ids (demo_content CONFIRMATION 8 0).
Proof.
  destruct demo_audited as [ids H]. exists ids. split; [exact H|].
  destruct (content_disjoint _ ids H) as (_ & _ & _ & Hs & _ & Hd). split; [exact Hs|].
  refine (Hd 0%nat 1%nat demo_pilot demo_confirmation _ _ _ eq_refl eq_refl _ _);
    [discriminate|apply list_elem_of_here..].
Defined.

(** ** A generated corpus *)
Definition demo_libm : Libm := {| log1p := λ x, Ok x; fpow := λ x _, Ok x |}.
Definition demo_template : RequestTemplate := {|
  rt_input_token_ids := [7]; rt_requested_output_tokens := 1; rt_sampling := demo_sampling;
  rt_cancellation_offset_us := None |}.
Definition demo_generated : result RequestCorpus :=
  controlled_poisson_corpus (H := demo_libm) [demo_template] "n" PILOT (float_of_Z 2) 0 1 UNIFORM 0
    fone None.
Lemma demo_generated_ok : is_ok demo_generated = true.
Proof. vm_compute. reflexivity. Qed.
Lemma poisson_corpus_exact_witness : ∃ c,
  demo_generated = Ok c ∧ length (requests c) = 1%nat ∧
  ∃ r, requests c !! 0%nat = Some r ∧ request_template r = demo_template ∧ 0 < arrival_us r.
Proof.
  pose proof demo_generated_ok as Hok. destruct demo_generated as [c|] eqn:H; [|discriminate Hok].
  exists c. split; [reflexivity|].
  destruct (poisson_corpus_exact (H := demo_libm) _ _ _ _ _ _ _ _ _ _ c H)
    as (_ & _ & _ & _ & Hlen & Hs & Hr). split; [exact Hlen|].
  destruct (Hr 0%nat demo_template eq_refl) as (r & i & Hk & Ht & _). exists r.
  split; [exact Hk|]. split; [exact Ht|]. apply StronglySorted_inv in Hs as [_ Hs].
  rewrite Forall_forall in Hs. apply Hs, list_elem_of_fmap. exists r. split; [reflexivity|].
  by eapply list_elem_of_lookup_2.
Defined.
