(* ===== verification/Exactness.v ===== *)
(** * Exact speculative rejection sampling ([runtime/exactness.py])

    A tensor of distributions is a list of rows.  The arithmetic of [torch] is
    the class [Scalar] (its [sum] included, whose order is not specified), its
    random [multinomial] an argument; devices and dtypes are left out. *)
From S2P Require Import Prelude GpuPool.
From Stdlib Require Import QArith.Qcanon.

Class Scalar (F : Type) := {
  szero : F; sone : F; sadd : F → F → F; ssub : F → F → F; smul : F → F → F; sdiv : F → F → F;
  slt : F → F → bool; sle : F → F → bool; sabs : F → F; sfinite : F → bool; ssum : list F → F;
  (** [torch.finfo(dtype).eps] and [.tiny], and the integer 32. *)
  seps : F; stiny : F; s32 : F }.

Section exactness.
Context {F : Type} `{Scalar F}.

Record Distributions := { vocabulary : Z; rows : list (list F) }.

Definition validate_probability (name : string) (value : Distributions) : result unit :=
  raise_if (vocabulary value <? 1)
    (ValueError (name +:+ " must be a non-empty floating distribution")) ;;
  raise_if (negb (forallb (forallb sfinite) (rows value)))
    (ValueError (name +:+ " contains a non-finite probability")) ;;
  raise_if (negb (forallb (forallb (sle szero)) (rows value)))
    (ValueError (name +:+ " contains a negative probability")) ;;
  let tolerance := smul s32 seps in
  raise_if (negb (forallb (λ row, sle (sabs (ssub (ssum row) sone))
                                       (sadd tolerance (smul tolerance (sabs sone)))) (rows value)))
    (ValueError (name +:+ " rows must sum to one")) ;;
  Ok tt.

(** [torch.minimum], [clamp_min] and [relu]. *)
Definition minimum (x y : F) : F := if slt y x then y else x.
Definition clamp_min (x low : F) : F := if slt x low then low else x.
Definition relu (x : F) : F := if slt szero x then x else szero.

(** [row.gather(-1, token)] for a token inside the vocabulary. *)
Definition gather (row : list F) (token : Z) : F := default szero (row !! Z.to_nat token).
Definition threshold (target proposal : list F) (token : Z) : F :=
  minimum sone (sdiv (gather target token) (clamp_min (gather proposal token) stiny)).
Definition residual (target proposal : list F) : list F :=
  zip_with (λ p q, relu (ssub p q)) target proposal.
Definition rejection_row (target proposal : list F) : list F :=
  let mass := ssum (residual target proposal) in
  if slt szero mass then map (λ x, sdiv x (clamp_min mass stiny)) (residual target proposal)
  else target.

(** One result per row: [multinomial] draws a token for each of its rows. *)
Definition rejection_sample (target_probability proposal_probability : Distributions)
    (proposal_token : list Z) (uniform : list F) (multinomial : list (list F) → list Z)
    : result (list Z * list bool) :=
  raise_if (negb (vocabulary target_probability =? vocabulary proposal_probability)
            || negb (zlength (rows target_probability) =? zlength (rows proposal_probability)))
    (ValueError "target and proposal distributions must match") ;;
  _ <-! validate_probability "target_probability" target_probability ;;
  _ <-! validate_probability "proposal_probability" proposal_probability ;;
  raise_if (negb (zlength proposal_token =? zlength (rows target_probability)))
    (ValueError "proposal_token has an incompatible shape") ;;
  raise_if (negb (forallb (λ t, (0 <=? t) && (t <? vocabulary target_probability)) proposal_token))
    (ValueError "proposal_token is outside the vocabulary") ;;
  raise_if (negb (zlength uniform =? zlength proposal_token))
    (ValueError "one coupled uniform is required per token") ;;
  raise_if (negb (forallb sfinite uniform) || negb (forallb (λ u, sle szero u && slt u sone) uniform))
    (ValueError "uniforms must be finite values in [0, 1)") ;;
  let gathered_proposal := zip_with gather (rows proposal_probability) proposal_token in
  raise_if (negb (forallb (slt szero) gathered_proposal))
    (ValueError "proposal token must have positive mass under the recorded proposal") ;;
  let pairs := zip (rows target_probability) (rows proposal_probability) in
  let thresholds := zip_with (λ r, threshold r.1 r.2) pairs proposal_token in
  let accepted := zip_with slt uniform thresholds in
  let replacement := multinomial (map (λ r, rejection_row r.1 r.2) pairs) in
  Ok (zip_with (λ a tokens, if a : bool then tokens.1 else tokens.2) accepted
        (zip proposal_token replacement), accepted).
End exactness.
Arguments Distributions : clear implicits.
