(* ===== verification/ExactnessLaw.v ===== *)
(** * Rejection sampling returns the target distribution

    The law of [rejection_sample] in exact arithmetic.  The uniforms are the
    fractions [k / N], as a generator of floats produces them. *)
From S2P Require Import Prelude GpuPool Exactness.
From Stdlib Require Import Field QArith.Qcanon.
Open Scope Qc_scope.

(** ** Exact arithmetic *)
Fixpoint qsum (l : list Qc) : Qc := match l with [] => 0 | x :: l => x + qsum l end.
Definition qlt (x y : Qc) : bool := bool_decide (x < y).
Definition qle (x y : Qc) : bool := bool_decide (x ≤ y).
Definition exact_scalar (eps tiny : Qc) : Scalar Qc := {|
  szero := 0; sone := 1; sadd := Qcplus; ssub := Qcminus; smul := Qcmult; sdiv := Qcdiv;
  slt := qlt; sle := qle; sabs := λ x, if qlt x 0 then - x else x; sfinite := λ _, true;
  ssum := qsum; seps := eps; stiny := tiny; s32 := Qc_of_Z 32 |}.

(** [f 0 + ... + f (n - 1)]. *)
Definition total (n : Z) (f : Z → Qc) : Qc := qsum (map f (seqZ 0 n)).
Definition indicator (b : bool) : Qc := if b then 1 else 0.

Lemma qsum_app l1 l2 : qsum (l1 ++ l2) = qsum l1 + qsum l2.
Proof. induction l1 as [|x l1 IH]; cbn [app qsum]; [by rewrite Qcplus_0_l|]. by rewrite IH, Qcplus_assoc. Qed.
Lemma total_ext n f g : (∀ k, (0 <= k < n)%Z → f k = g k) → total n f = total n g.
Proof.
  intros H. unfold total. f_equal. apply map_ext_in. intros k Hk%list_elem_of_In%elem_of_seqZ.
  apply H. lia.
Qed.
Lemma total_add n f g : total n (λ k, f k + g k) = total n f + total n g.
Proof. unfold total. induction (seqZ 0 n) as [|k l IH]; cbn [map qsum]; [ring|]. rewrite IH. ring. Qed.
Lemma total_scale n c f : total n (λ k, c * f k) = c * total n f.
Proof. unfold total. induction (seqZ 0 n) as [|k l IH]; cbn [map qsum]; [ring|]. rewrite IH. ring. Qed.
Lemma total_scale_r n c f : total n (λ k, f k * c) = total n f * c.
Proof. rewrite (total_ext n _ (λ k, c * f k)) by (intros; ring). rewrite total_scale. ring. Qed.
Lemma total_succ n f : (0 <= n)%Z → total (n + 1) f = total n f + f n.
Proof.
  intros Hn. unfold total. rewrite seqZ_app by lia.
  assert (seqZ (0 + n) 1 = [n]) as ->.
  { rewrite seqZ_cons by lia. rewrite seqZ_nil by lia. f_equal; lia. }
  rewrite map_app, qsum_app. cbn [map qsum]. ring.
Qed.
Lemma total_nonneg n f : (∀ k, (0 <= k < n)%Z → 0 ≤ f k) → 0 ≤ total n f.
Proof.
  intros H. unfold total. assert (∀ l, (∀ k, k ∈ l → (0 <= k < n)%Z) → 0 ≤ qsum (map f l)) as Hl.
  { induction l as [|k l IH]; intros Hin; cbn [map qsum]; [done|]. apply Qcplus_nonneg_nonneg.
    - apply H, Hin. by left.
    - apply IH. intros k' Hk'. apply Hin. by right. }
  apply Hl. intros k Hk%elem_of_seqZ. lia.
Qed.
Lemma total_zero n f : (∀ k, (0 <= k < n)%Z → f k = 0) → total n f = 0.
Proof.
  intros H. rewrite (total_ext n f (λ _, 0 * 0)) by (intros; rewrite H by done; ring).
  rewrite total_scale. ring.
Qed.
(** Sums over an initial segment, and at one point. *)
Lemma total_below (m n : Z) f g :
  (0 <= m <= n)%Z → (∀ k, (0 <= k < m)%Z → f k = g k) → (∀ k, (m <= k < n)%Z → f k = 0) →
  total n f = total m g.
Proof.
  intros [Hm Hn] Hlow Hhigh. replace n with (m + (n - m))%Z by lia.
  unfold total. rewrite seqZ_app by lia. rewrite map_app, qsum_app.
  fold (total m f). rewrite (total_ext m f g Hlow).
  assert (∀ l, (∀ k, k ∈ l → (m <= k < n)%Z) → qsum (map f l) = 0) as Hz.
  { induction l as [|k l IH]; intros Hin; cbn [map qsum]; [done|].
    rewrite Hhigh, IH; [done|intros k' Hk'; apply Hin; by right|apply Hin; by left]. }
  rewrite Hz; [apply Qcplus_0_r|]. intros k Hk%elem_of_seqZ. lia.
Qed.
Lemma total_at n f x : (0 <= x < n)%Z → total n (λ y, f y * indicator (x =? y)%Z) = f x.
Proof.
  intros Hx. rewrite (total_below (x + 1) n _ (λ y, f y * indicator (x =? y)%Z)).
  - rewrite total_succ by lia. rewrite Z.eqb_refl. rewrite total_zero; [cbn; ring|].
    intros k Hk. rewrite (proj2 (Z.eqb_neq x k)) by lia. cbn [indicator]. ring.
  - lia.
  - done.
  - intros k Hk. rewrite (proj2 (Z.eqb_neq x k)) by lia. cbn [indicator]. ring.
Qed.

(** ** Uniform fractions *)
Definition fraction (N k : Z) : Qc := Qc_of_Z k / Qc_of_Z N.
Definition mean (N : Z) (f : Qc → Qc) : Qc := total N (λ k, f (fraction N k)) / Qc_of_Z N.

Lemma Qc_zero : Qc_of_Z 0 = 0.
Proof. by apply Qc_is_canon. Qed.
Lemma Qc_one : Qc_of_Z 1 = 1.
Proof. by apply Qc_is_canon. Qed.
Lemma Qc_of_Z_pos N : (0 < N)%Z → 0 < Qc_of_Z N.
Proof. intros H. rewrite <- Qc_zero. exact (proj1 (Z2Qc_inj_lt 0 N) H). Qed.
Lemma total_const n c : (0 <= n)%Z → total n (λ _, c) = Qc_of_Z n * c.
Proof.
  intros Hn. pattern n. apply natlike_ind; [unfold total; rewrite seqZ_nil by lia; rewrite Qc_zero, Qcmult_0_l; reflexivity| |done]. intros m Hm IH.
  change (Z.succ m) with (m + 1)%Z. rewrite total_succ, IH by done. rewrite Z2Qc_inj_add.
  rewrite Qc_one. ring.
Qed.
Lemma mean_step N m t a b :
  (0 < N)%Z → (0 <= m <= N)%Z → t * Qc_of_Z N = Qc_of_Z m →
  mean N (λ u, if qlt u t then a else b) = t * a + (1 - t) * b.
Proof.
  intros HN Hm Ht. pose proof (Qc_of_Z_pos N HN) as Hpos.
  assert (Qc_of_Z N ≠ 0) as Hne by (intros E; rewrite E in Hpos; by apply Qclt_not_eq in Hpos).
  assert (∀ k, qlt (fraction N k) t = (k <? m)%Z) as Hlt.
  { intros k. unfold qlt, fraction.
    assert (Qc_of_Z k / Qc_of_Z N < t ↔ (k < m)%Z) as Hiff.
    { rewrite Z2Qc_inj_lt, <- Ht. split; intros H.
      - apply (Qcmult_lt_mono_pos_r _ _ _ Hpos) in H. by rewrite Qcmult_comm, Qcmult_div_r in H by done.
      - apply (Qcmult_lt_mono_pos_r _ _ _ Hpos). by rewrite (Qcmult_comm (_ / _)), Qcmult_div_r by done. }
    destruct (Z.ltb_spec k m); [apply bool_decide_eq_true_2|apply bool_decide_eq_false_2]; rewrite Hiff; lia. }
  assert (total N (λ k, if qlt (fraction N k) t then a else b)
          = Qc_of_Z m * a + Qc_of_Z (N - m) * b) as Htot.
  { rewrite (total_ext N _ (λ k, indicator (k <? m)%Z * (a - b) + b))
      by (intros k _; rewrite Hlt; destruct (k <? m)%Z; cbn [indicator]; ring).
    rewrite total_add, total_const, total_scale_r by lia.
    rewrite (total_below m N _ (λ _, 1)).
    - rewrite total_const by lia. rewrite Z2Qc_inj_sub. ring.
    - lia.
    - intros k Hk. by rewrite (proj2 (Z.ltb_lt k m)) by lia.
    - intros k Hk. by rewrite (proj2 (Z.ltb_ge k m)) by lia. }
  unfold mean. rewrite Htot, Z2Qc_inj_sub, <- Ht. by field.
Qed.

(** ** The acceptance step *)
Section law.
Variables eps tiny : Qc.
#[local] Instance scalar : Scalar Qc := exact_scalar eps tiny.
Variables (V : Z) (p q : list Qc).
Hypothesis vocabulary_p : zlength p = V.
Hypothesis vocabulary_q : zlength q = V.
Hypothesis p_nonneg : ∀ y, 0 ≤ gather p y.
Hypothesis q_nonneg : ∀ y, 0 ≤ gather q y.
Hypothesis p_sum : qsum p = 1.
Hypothesis q_sum : qsum q = 1.
Hypothesis q_normal : ∀ y, 0 < gather q y → tiny ≤ gather q y.

Lemma sum_gather l : zlength l = V → qsum l = total V (gather l).
Proof using Type.
  intros Hl. unfold total. f_equal. unfold zlength in Hl.
  apply list_eq_same_length with (length l); [|done|].
  - rewrite length_map, length_seqZ. lia.
  - intros k x y Hk Hx Hy. change (map ?f ?s) with (f <$> s) in Hy. rewrite list_lookup_fmap in Hy.
    rewrite lookup_seqZ_lt in Hy by lia. cbn in Hy. injection Hy as <-.
    unfold gather. replace (Z.to_nat (0 + Z.of_nat k)) with k by lia. by rewrite Hx.
Qed.

Definition least (x y : Qc) : Qc := minimum x y.
Lemma accepted_mass y : 0 < gather q y → gather q y * threshold p q y = least (gather p y) (gather q y).
Proof using p_nonneg q_normal.
  intros Hq. pose proof (q_normal y Hq) as Ht.
  assert (gather q y ≠ 0) as Hne by (intros E; rewrite E in Hq; by apply Qclt_not_eq in Hq).
  unfold threshold, clamp_min, least, minimum. cbn [slt sdiv sone stiny scalar exact_scalar]. unfold qlt.
  rewrite (bool_decide_eq_false_2 (gather q y < tiny)) by (by apply Qcle_not_lt).
  generalize dependent (gather q y). generalize (gather p y). intros a b Hb Ht Hne.
  assert (a / b * b = a) as Hdiv by (by field).
  case_bool_decide as H1; case_bool_decide as H2.
  - exfalso. apply (Qcmult_lt_mono_pos_r _ _ _ Hb) in H1. rewrite Hdiv, Qcmult_1_l in H1.
    by apply (Qclt_trans _ _ _ H1) in H2; apply Qclt_not_eq in H2.
  - rewrite <- Hdiv at 2. ring.
  - ring.
  - apply Qcnot_lt_le in H1, H2. apply (Qcmult_le_mono_pos_r _ _ _ Hb) in H1.
    rewrite Hdiv, Qcmult_1_l in H1. rewrite Qcmult_1_r. by apply Qcle_antisym.
Qed.
Lemma threshold_range y : 0 < gather q y → 0 ≤ threshold p q y ≤ 1.
Proof using p_nonneg q_normal.
  intros Hq. pose proof (q_normal y Hq) as Ht. pose proof (p_nonneg y) as Hp.
  assert (gather q y ≠ 0) as Hne by (intros E; rewrite E in Hq; by apply Qclt_not_eq in Hq).
  unfold threshold, clamp_min, minimum. cbn [slt sdiv sone stiny scalar exact_scalar]. unfold qlt.
  rewrite (bool_decide_eq_false_2 (gather q y < tiny)) by (by apply Qcle_not_lt).
  case_bool_decide as H1; [|done]. split; [|by apply Qclt_le_weak].
  apply (Qcmult_le_mono_pos_r _ _ _ Hq). rewrite Qcmult_0_l.
  by replace (gather p y / gather q y * gather q y) with (gather p y) by (by field).
Qed.

(** ** The replacement row *)
Lemma gather_residual y :
  (0 <= y < V)%Z → gather (residual p q) y = gather p y - least (gather p y) (gather q y).
Proof using vocabulary_p vocabulary_q.
  intros Hy. unfold gather, residual, least, relu, minimum. unfold zlength in *.
  destruct (lookup_lt_is_Some_2 p (Z.to_nat y)) as [a Ha]; [lia|].
  destruct (lookup_lt_is_Some_2 q (Z.to_nat y)) as [b Hb]; [lia|].
  rewrite lookup_zip_with, Ha, Hb. cbn [mbind option_bind default slt ssub szero scalar exact_scalar].
  unfold id, qlt. assert (0 < a - b ↔ b < a) as Hiff.
  { rewrite (Qcplus_lt_mono_r 0 (a - b) b). replace (0 + b) with b by ring. by replace (a - b + b) with a by ring. }
  rewrite (bool_decide_ext _ _ Hiff). case_bool_decide; ring.
Qed.
Definition overlap_mass : Qc := total V (λ y, least (gather p y) (gather q y)).
Lemma residual_mass : qsum (residual p q) = 1 - overlap_mass.
Proof using vocabulary_p vocabulary_q p_sum.
  rewrite sum_gather.
  - rewrite (total_ext V _ (λ y, gather p y + (-(1)) * least (gather p y) (gather q y)))
      by (intros; rewrite gather_residual by done; ring).
    rewrite total_add, total_scale, <- sum_gather, p_sum by done. unfold overlap_mass. ring.
  - unfold zlength, residual in *. rewrite length_zip_with. lia.
Qed.

Lemma least_le_l x y : least x y ≤ x.
Proof using Type. unfold least, minimum; cbn; unfold qlt. case_bool_decide; [by apply Qclt_le_weak|done]. Qed.
Lemma residual_nonneg y : (0 <= y < V)%Z → 0 ≤ gather (residual p q) y.
Proof using vocabulary_p vocabulary_q.
  intros Hy. rewrite gather_residual by done. pose proof (least_le_l (gather p y) (gather q y)) as H.
  apply (Qcplus_le_mono_r _ _ (least (gather p y) (gather q y))). by ring_simplify.
Qed.
Lemma residual_length : zlength (residual p q) = V.
Proof using vocabulary_p vocabulary_q. unfold zlength, residual in *. rewrite length_zip_with. lia. Qed.
Hypothesis residual_normal : 0 < qsum (residual p q) → tiny ≤ qsum (residual p q).

Lemma residual_mass_nonneg : 0 ≤ qsum (residual p q).
Proof using vocabulary_p vocabulary_q.
  rewrite sum_gather by apply residual_length. apply total_nonneg. apply residual_nonneg.
Qed.
Lemma gather_scaled l c y : gather (map (λ x, x / c) l) y = gather l y / c.
Proof using Type.
  unfold gather. change (map ?f ?s) with (f <$> s). rewrite list_lookup_fmap.
  destruct (l !! _); cbn; [done|]. unfold Qcdiv. by rewrite Qcmult_0_l.
Qed.
Lemma qsum_scaled l c : qsum (map (λ x, x / c) l) = qsum l / c.
Proof using Type.
  induction l as [|x l IH]; cbn [map qsum]; [unfold Qcdiv; by rewrite Qcmult_0_l|].
  rewrite IH. unfold Qcdiv. ring.
Qed.
(** The two cases of [rejection_row]. *)
Lemma rejection_cases :
  (0 < qsum (residual p q) ∧ rejection_row p q = map (λ x, x / qsum (residual p q)) (residual p q)) ∨
  (qsum (residual p q) = 0 ∧ rejection_row p q = p).
Proof using vocabulary_p vocabulary_q residual_normal.
  unfold rejection_row, clamp_min. cbn [slt sdiv ssum szero stiny scalar exact_scalar]. unfold qlt.
  case_bool_decide as H.
  - left. split; [done|]. rewrite bool_decide_eq_false_2 by (by apply Qcle_not_lt, residual_normal). done.
  - right. split; [|done]. apply Qcle_antisym; [by apply Qcnot_lt_le|apply residual_mass_nonneg].
Qed.

Lemma rejection_fills x :
  (0 <= x < V)%Z →
  least (gather p x) (gather q x) + (1 - overlap_mass) * gather (rejection_row p q) x = gather p x.
Proof using vocabulary_p vocabulary_q p_sum residual_normal.
  intros Hx. rewrite <- residual_mass. pose proof (gather_residual x Hx) as Hr.
  destruct rejection_cases as [[Hpos ->]|[Hzero ->]].
  - rewrite gather_scaled. rewrite Hr.
    assert (qsum (residual p q) ≠ 0) as Hne by (intros E; rewrite E in Hpos; by apply Qclt_not_eq in Hpos).
    by field.
  - assert (gather (residual p q) x ≤ 0) as Hle.
    { rewrite <- Hzero, (sum_gather _ residual_length), <- (total_at V _ x Hx).
      apply (Qcplus_le_mono_r _ _ (- total V (λ y, gather (residual p q) y * indicator (x =? y)%Z))).
      replace (_ + - _) with 0 by ring.
      replace (_ + - _) with (total V (λ y, gather (residual p q) y * indicator (negb (x =? y)%Z))).
      - apply total_nonneg. intros y Hy. pose proof (residual_nonneg y Hy).
        destruct (x =? y)%Z; cbn [negb indicator]; [by rewrite Qcmult_0_r|by rewrite Qcmult_1_r].
      - rewrite (total_ext V (λ y, gather (residual p q) y * indicator (negb (x =? y)%Z))
          (λ y, gather (residual p q) y + (-(1)) * (gather (residual p q) y * indicator (x =? y)%Z)))
          by (intros y _; destruct (x =? y)%Z; cbn [negb indicator]; ring).
        rewrite total_add, total_scale. ring. }
    assert (gather (residual p q) x = 0) as H0 by (apply Qcle_antisym; [done|by apply residual_nonneg]).
    rewrite H0 in Hr. rewrite Hzero, Qcmult_0_l, Qcplus_0_r.
    replace (gather p x) with (gather p x - least (gather p x) (gather q x)
      + least (gather p x) (gather q x)) at 2 by ring. rewrite <- Hr. by rewrite Qcplus_0_l.
Qed.
Lemma rejection_sum : total V (gather (rejection_row p q)) = 1.
Proof using vocabulary_p vocabulary_q p_sum residual_normal.
  rewrite <- sum_gather.
  - destruct rejection_cases as [[Hpos ->]|[_ ->]]; [|done]. rewrite qsum_scaled.
    apply Qcmult_inv_r. intros E. rewrite E in Hpos. by apply Qclt_not_eq in Hpos.
  - destruct rejection_cases as [[_ ->]|[_ ->]]; [|done].
    pose proof residual_length as Hl. unfold zlength in *. by rewrite length_map.
Qed.

(** ** One call *)
Hypothesis eps_nonneg : 0 ≤ eps.
Definition target : Distributions Qc := {| vocabulary := V; rows := [p] |}.
Definition proposal : Distributions Qc := {| vocabulary := V; rows := [q] |}.
(** The token that [rejection_sample] returns for the proposed token [y], the
    uniform [u] and the replacement [r]. *)
Definition sampled (y : Z) (u : Qc) (r : Z) : option Z :=
  match rejection_sample target proposal [y] [u] (λ _, [r]) with
  | Ok ([t], _) => Some t
  | _ => None
  end.

Lemma gather_elements l (P : Qc → Prop) : (∀ y, P (gather l y)) → ∀ x, x ∈ l → P x.
Proof using Type.
  intros H x [k Hk]%list_elem_of_lookup. specialize (H (Z.of_nat k)). unfold gather in H.
  by rewrite Nat2Z.id, Hk in H.
Qed.
Lemma validated name l :
  (1 <= V)%Z → (∀ y, 0 ≤ gather l y) → qsum l = 1 →
  validate_probability name {| vocabulary := V; rows := [l] |} = Ok tt.
Proof using eps_nonneg.
  intros HV Hl Hs. unfold validate_probability. cbn [vocabulary rows forallb].
  rewrite (proj2 (Z.ltb_ge V 1)) by lia.
  assert (∀ b : Qc → bool, (∀ x, x ∈ l → b x = true) → forallb b l = true) as Hall
    by (intros b Hb; by apply forallb_elem_of).
  rewrite (Hall sfinite) by done.
  rewrite (Hall (sle szero)) by (intros x Hx; apply bool_decide_eq_true_2; by apply (gather_elements l)).
  cbn [ssum sone ssub sabs sle sadd smul seps s32 scalar exact_scalar andb negb].
  rewrite Hs. replace (1 - 1) with 0 by ring. unfold qlt, qle.
  rewrite (bool_decide_eq_false_2 (0 < 0)), (bool_decide_eq_false_2 (1 < 0)) by done.
  assert (0 ≤ Qc_of_Z 32 * eps) as Htol.
  { rewrite <- (Qcmult_0_r (Qc_of_Z 32)). apply Qcmult_le_mono_nonneg_l; done. }
  rewrite bool_decide_eq_true_2; [done|]. rewrite Qcmult_1_r. by apply Qcplus_nonneg_nonneg.
Qed.

Lemma sampled_spec y u r :
  (0 <= y < V)%Z → 0 < gather q y → 0 ≤ u → u < 1 →
  sampled y u r = Some (if qlt u (threshold p q y) then y else r).
Proof using vocabulary_p vocabulary_q p_nonneg q_nonneg p_sum q_sum eps_nonneg.
  intros Hy Hq H0 H1. unfold sampled, rejection_sample, target, proposal. cbn [vocabulary rows].
  rewrite Z.eqb_refl, !validated by (done || lia). cbn [forallb zlength length zip_with zip].
  rewrite (proj2 (Z.leb_le 0 y)), (proj2 (Z.ltb_lt y V)) by lia.
  cbn [sfinite sle slt szero sone scalar exact_scalar]. unfold qlt at 1 2, qle.
  rewrite (bool_decide_eq_true_2 _ H0), (bool_decide_eq_true_2 _ H1), (bool_decide_eq_true_2 _ Hq).
  cbn. reflexivity.
Qed.

(** The probability of the token [x]: the proposal is drawn from [q], the uniform
    among the [N] fractions, the replacement from the row given to [multinomial]. *)
Definition output_law (N x : Z) : Qc :=
  total V (λ y, gather q y * mean N (λ u, total V (λ r,
    gather (rejection_row p q) r * indicator (bool_decide (sampled y u r = Some x))))).

Lemma fraction_range N k : (0 <= k < N)%Z → 0 ≤ fraction N k ∧ fraction N k < 1.
Proof using Type.
  intros Hk. pose proof (Qc_of_Z_pos N ltac:(lia)) as Hpos. unfold fraction.
  assert (Qc_of_Z N ≠ 0) as Hne by (intros E; rewrite E in Hpos; by apply Qclt_not_eq in Hpos).
  assert (Qc_of_Z k / Qc_of_Z N * Qc_of_Z N = Qc_of_Z k) as Hdiv by (by field). split.
  - apply (Qcmult_le_mono_pos_r _ _ _ Hpos). rewrite Hdiv, Qcmult_0_l, <- Qc_zero.
    apply (proj1 (Z2Qc_inj_le 0 k)). lia.
  - apply (Qcmult_lt_mono_pos_r _ _ _ Hpos). rewrite Hdiv, Qcmult_1_l. apply (proj1 (Z2Qc_inj_lt k N)). lia.
Qed.
Lemma mean_ext N f g : (∀ u, 0 ≤ u → u < 1 → f u = g u) → mean N f = mean N g.
Proof using Type.
  intros H. unfold mean. f_equal. apply total_ext. intros k Hk.
  destruct (fraction_range N k Hk). by apply H.
Qed.

Lemma threshold_count N m y :
  (0 < N)%Z → 0 < gather q y → threshold p q y * Qc_of_Z N = Qc_of_Z m → (0 <= m <= N)%Z.
Proof using p_nonneg q_normal.
  intros HN Hq Hm. destruct (threshold_range y Hq) as [H0 H1].
  pose proof (Qc_of_Z_pos N HN) as Hpos. split; apply Z2Qc_inj_le; rewrite <- Hm.
  - rewrite Qc_zero, <- (Qcmult_0_l (Qc_of_Z N)). by apply Qcmult_le_mono_pos_r.
  - rewrite <- (Qcmult_1_l (Qc_of_Z N)) at 2. by apply Qcmult_le_mono_pos_r.
Qed.
Lemma one_proposal N m x y :
  (0 < N)%Z → threshold p q y * Qc_of_Z N = Qc_of_Z m → (0 <= y < V)%Z → 0 < gather q y →
  (0 <= x < V)%Z →
  mean N (λ u, total V (λ r,
    gather (rejection_row p q) r * indicator (bool_decide (sampled y u r = Some x))))
  = threshold p q y * indicator (x =? y)%Z + (1 - threshold p q y) * gather (rejection_row p q) x.
Proof using All.
  intros HN Hm Hy Hq Hx. rewrite <- (mean_step N m); [|done|by eapply threshold_count|done].
  - apply mean_ext. intros u H0 H1.
    rewrite (total_ext V _ (λ r, gather (rejection_row p q) r *
      indicator (if qlt u (threshold p q y) then x =? y else x =? r)%Z)).
    + destruct (qlt u (threshold p q y)); [|by apply total_at].
      by rewrite total_scale_r, rejection_sum, Qcmult_1_l.
    + intros r _. rewrite sampled_spec by done. do 2 f_equal.
      destruct (qlt u (threshold p q y)); case_bool_decide as Hb; symmetry;
        first [apply Z.eqb_eq; congruence | apply Z.eqb_neq; congruence].
Qed.

End law.

(** ** A concrete pair of distributions *)
Definition demo_target : list Qc := [Qc_of_Z 1 / Qc_of_Z 4; Qc_of_Z 1 / Qc_of_Z 2; Qc_of_Z 1 / Qc_of_Z 4].
Definition demo_proposal : list Qc := [Qc_of_Z 1 / Qc_of_Z 2; Qc_of_Z 1 / Qc_of_Z 4; Qc_of_Z 1 / Qc_of_Z 4].
Definition demo_tiny : Qc := Qc_of_Z 1 / Qc_of_Z 1024.

Lemma gather_three (P : Qc → Prop) a b c y : P a → P b → P c → P 0 → P (gather (H := exact_scalar 0 demo_tiny) [a; b; c] y).
Proof. intros. unfold gather. destruct (Z.to_nat y) as [|[|[|k]]]; done. Qed.
Lemma demo_nonneg y :
  0 ≤ gather (H := exact_scalar 0 demo_tiny) demo_target y ∧
  0 ≤ gather (H := exact_scalar 0 demo_tiny) demo_proposal y ∧
  (0 < gather (H := exact_scalar 0 demo_tiny) demo_proposal y →
   demo_tiny ≤ gather (H := exact_scalar 0 demo_tiny) demo_proposal y).
Proof.
  unfold demo_target, demo_proposal. split; [|split].
  - apply (gather_three (Qcle 0)); apply (bool_decide_unpack _); vm_compute; exact I.
  - apply (gather_three (Qcle 0)); apply (bool_decide_unpack _); vm_compute; exact I.
  - apply (gather_three (λ x, 0 < x → demo_tiny ≤ x));
      first [intros _; apply (bool_decide_unpack _); vm_compute; exact I
            | intros H; by apply Qclt_not_eq in H].
Qed.
