(* ===== verification/Publication.v ===== *)
(** * Side-stream publication ([runtime/publication.py])

    [CudaPublicationCoordinator] issues commands to CUDA streams.  The commands
    it issues are kept in a log, in the order of issue; when the device runs them
    is the class [CudaOrder], the documented guarantees of streams and events.
    The calls to [torch.cuda] only issue commands and do not raise. *)
From S2P Require Import Prelude.

Inductive cuda_event : Set := MAIN_READY | SIDE_READY | PUBLISH_DONE.
#[export] Instance cuda_event_eq_dec : EqDecision cuda_event.
Proof. solve_decision. Defined.

(** What a kernel is for: the update in a window, the publication, or the rest. *)
Inductive work : Set := UPDATE (n : Z) | PUBLISH (n : Z) | SERVE (n : Z).
Abbreviation stream := Z.
Inductive command : Set :=
  | RecordEvent (e : cuda_event) (s : stream)
  | WaitEvent (s : stream) (e : cuda_event)
  | RecordStream (tensor : Z) (s : stream)
  | Launch (s : stream) (w : work).

Record CudaPublicationCoordinator := {
  side_stream : stream; update_in_flight : bool; side_event_recorded : bool; log : list command }.

Definition new_coordinator (device_type : string) (side : stream)
    : result CudaPublicationCoordinator :=
  raise_if (negb (bool_decide (device_type = "cuda")))
    (ValueError "CUDA publication requires a CUDA device") ;;
  Ok {| side_stream := side; update_in_flight := false; side_event_recorded := false; log := [] |}.

Definition set_flags (in_flight recorded : bool) (c : CudaPublicationCoordinator)
    : CudaPublicationCoordinator := {|
  side_stream := side_stream c; update_in_flight := in_flight; side_event_recorded := recorded;
  log := log c |}.
Definition issue (l : list command) (c : CudaPublicationCoordinator) : CudaPublicationCoordinator := {|
  side_stream := side_stream c; update_in_flight := update_in_flight c;
  side_event_recorded := side_event_recorded c; log := log c ++ l |}.

(** [update_window] up to its [yield]. *)
Definition enter_window (tensors : list Z) (main : stream) (c : CudaPublicationCoordinator)
    : result unit * CudaPublicationCoordinator :=
  raise_in c if (update_in_flight c)
    (RuntimeError "max_in_flight=1 publication window is occupied") ;;
  let c := set_flags true (side_event_recorded c) c in
  let c := issue [RecordEvent MAIN_READY main; WaitEvent (side_stream c) MAIN_READY] c in
  (Ok tt, issue (map (λ t, RecordStream t (side_stream c)) tensors) c).
(** The rest of [update_window], when the body has returned or has raised. *)
Definition exit_window (failure : option exn) (c : CudaPublicationCoordinator)
    : result unit * CudaPublicationCoordinator :=
  match failure with
  | None =>
    let c := issue [RecordEvent SIDE_READY (side_stream c)] c in
    (Ok tt, set_flags (update_in_flight c) true c)
  | Some e => (Raise e, set_flags false false c)
  end.

(** [query] is what [side_ready.query()] answers. *)
Definition ready (query : bool) (c : CudaPublicationCoordinator) : bool :=
  side_event_recorded c && query.
Definition discard (c : CudaPublicationCoordinator) : CudaPublicationCoordinator :=
  set_flags false false c.

(** [publish] launches [kernels] on [main] and may raise. *)
Definition publish_boundary (kernels : list Z) (failure : option exn) (tensors : list Z) (main : stream)
    (c : CudaPublicationCoordinator) : result unit * CudaPublicationCoordinator :=
  raise_in c if (negb (update_in_flight c) || negb (side_event_recorded c))
    (RuntimeError "no completed side-stream update is publishable") ;;
  let c := issue [WaitEvent main SIDE_READY] c in
  let c := issue (map (λ n, Launch main (PUBLISH n)) kernels) c in
  match failure with
  | Some e => (Raise e, set_flags false false c)
  | None =>
    let c := issue (map (λ t, RecordStream t main) tensors ++ [RecordEvent PUBLISH_DONE main]) c in
    (Ok tt, set_flags false false c)
  end.

(** ** Clients

    [open] tells whether a client is between the two halves of [update_window].
    A candidate is discarded outside the window only. *)
Definition launch (s : stream) (w : work) (c : CudaPublicationCoordinator) := issue [Launch s w] c.
Inductive client_step : CudaPublicationCoordinator * bool → CudaPublicationCoordinator * bool → Prop :=
  | client_serves c open s n : s ≠ side_stream c →
      client_step (c, open) (launch s (SERVE n) c, open)
  | client_enters c open tensors main c' :
      enter_window tensors main c = (Ok tt, c') → client_step (c, open) (c', true)
  | client_refused c open tensors main e c' :
      enter_window tensors main c = (Raise e, c') → client_step (c, open) (c', open)
  | client_updates c n : client_step (c, true) (launch (side_stream c) (UPDATE n) c, true)
  | client_exits c failure : client_step (c, true) ((exit_window failure c).2, false)
  | client_discards c : client_step (c, false) (discard c, false)
  | client_publishes c open kernels failure tensors main :
      client_step (c, open) ((publish_boundary kernels failure tensors main c).2, open).

Definition client_run (side : stream) (c : CudaPublicationCoordinator) (open : bool) : Prop :=
  ∃ c0, new_coordinator "cuda" side = Ok c0 ∧ rtc client_step (c0, false) (c, open).

(** ** The order in which the device runs a log *)
Definition stream_of (k : command) : option stream :=
  match k with
  | RecordEvent _ s | WaitEvent s _ | Launch s _ => Some s
  | RecordStream _ _ => None
  end.
Class CudaOrder := {
  happens_before : list command → nat → nat → Prop;
  happens_trans l i j k : happens_before l i j → happens_before l j k → happens_before l i k;
  (** The commands of one stream run in the order of issue. *)
  happens_stream l i j x y s :
    (i < j)%nat → l !! i = Some x → l !! j = Some y → stream_of x = Some s → stream_of y = Some s →
    happens_before l i j;
  (** A wait waits for the most recent record of its event. *)
  happens_event l i j e s s' :
    (i < j)%nat → l !! i = Some (RecordEvent e s) → l !! j = Some (WaitEvent s' e) →
    (∀ k s, (i < k < j)%nat → l !! k ≠ Some (RecordEvent e s)) → happens_before l i j }.

(** The least such order. *)
Inductive least_before (l : list command) : nat → nat → Prop :=
  | least_trans i j k : least_before l i j → least_before l j k → least_before l i k
  | least_stream i j x y s : (i < j)%nat → l !! i = Some x → l !! j = Some y →
      stream_of x = Some s → stream_of y = Some s → least_before l i j
  | least_event i j e s s' : (i < j)%nat → l !! i = Some (RecordEvent e s) →
      l !! j = Some (WaitEvent s' e) →
      (∀ k s, (i < k < j)%nat → l !! k ≠ Some (RecordEvent e s)) → least_before l i j.
Definition least_order : CudaOrder := {|
  happens_before := least_before; happens_trans := least_trans; happens_stream := least_stream;
  happens_event := least_event |}.

(** ** What every log contains *)
Section invariant.
Variable side : stream.
Implicit Types l : list command.

Definition is_update (l : list command) (i : nat) : Prop := ∃ n, l !! i = Some (Launch side (UPDATE n)).
Definition no_record (e : cuda_event) (l : list command) (i j : nat) : Prop :=
  ∀ k s, (i < k < j)%nat → l !! k ≠ Some (RecordEvent e s).

(** The last record of [SIDE_READY] follows every update; the stream [s] has waited for it. *)
Definition side_done l : Prop := ∃ r, l !! r = Some (RecordEvent SIDE_READY side) ∧
  no_record SIDE_READY l r (length l) ∧ ∀ i, is_update l i → (i < r)%nat.
Definition waited (s : stream) l : Prop := ∃ r w, (r < w)%nat ∧
  l !! r = Some (RecordEvent SIDE_READY side) ∧ l !! w = Some (WaitEvent s SIDE_READY) ∧
  no_record SIDE_READY l r (length l) ∧ ∀ i, is_update l i → (i < r)%nat.
(** The window on top of the log has been entered from the stream [s]. *)
Definition entered l : Prop := ∃ r s, l !! r = Some (RecordEvent MAIN_READY s) ∧
  l !! S r = Some (WaitEvent side MAIN_READY) ∧ no_record MAIN_READY l r (length l).

Definition publish_fenced l : Prop := ∀ i j s m,
  (i < j)%nat → is_update l i → l !! j = Some (Launch s (PUBLISH m)) →
  ∃ r w, (i < r)%nat ∧ (r < w < j)%nat ∧ l !! r = Some (RecordEvent SIDE_READY side) ∧
    l !! w = Some (WaitEvent s SIDE_READY) ∧ no_record SIDE_READY l r j.
Definition update_fenced l : Prop := ∀ j, is_update l j → ∃ r s, (S r < j)%nat ∧
  l !! r = Some (RecordEvent MAIN_READY s) ∧ l !! S r = Some (WaitEvent side MAIN_READY) ∧
  no_record MAIN_READY l r j.

(** Commands that leave the events and the updates alone. *)
Definition quiet (x : command) : Prop :=
  (∀ e s, x = RecordEvent e s → e = PUBLISH_DONE) ∧ (∀ n, x ≠ Launch side (UPDATE n)).

Lemma lookup_old l x i y : (i < length l)%nat → (l ++ [x]) !! i = Some y ↔ l !! i = Some y.
Proof. intros H. by rewrite lookup_app_l. Qed.
Lemma lookup_snoc_cases l x i y :
  (l ++ [x]) !! i = Some y ↔ ((i < length l)%nat ∧ l !! i = Some y) ∨ (i = length l ∧ y = x).
Proof.
  destruct (decide (i < length l)%nat) as [H|H].
  - rewrite lookup_app_l by done. naive_solver lia.
  - rewrite lookup_app_r by lia. destruct (decide (i = length l)) as [->|Hne].
    + rewrite Nat.sub_diag. cbn. naive_solver.
    + rewrite lookup_ge_None_2 by (cbn; lia). naive_solver lia.
Qed.
Lemma is_update_snoc l x i :
  is_update (l ++ [x]) i ↔
  ((i < length l)%nat ∧ is_update l i) ∨ (i = length l ∧ ∃ n, x = Launch side (UPDATE n)).
Proof. unfold is_update. setoid_rewrite lookup_snoc_cases. naive_solver. Qed.
Lemma is_update_lt l i : is_update l i → (i < length l)%nat.
Proof. intros [n H]. by apply lookup_lt_Some in H. Qed.
Lemma no_record_snoc e l x r j :
  (j ≤ length l)%nat → no_record e (l ++ [x]) r j ↔ no_record e l r j.
Proof.
  intros Hj. unfold no_record. split; intros H k s Hk Hl; apply (H k s Hk).
  - by rewrite lookup_app_l by lia.
  - by rewrite lookup_app_l in Hl by lia.
Qed.
Lemma no_record_last e l x r :
  (∀ s, x ≠ RecordEvent e s) → no_record e l r (length l) → no_record e (l ++ [x]) r (length (l ++ [x])).
Proof.
  intros Hx H k s Hk Hl. apply lookup_snoc_cases in Hl as [[Hlt Hl]|[-> Hl]].
  - apply (H k s); [lia|done].
  - by apply (Hx s).
Qed.
Lemma quiet_updates l x i : quiet x → is_update (l ++ [x]) i ↔ is_update l i.
Proof.
  intros [_ Hq]. rewrite is_update_snoc. split; [|intros H; left; split; [by apply is_update_lt|done]].
  intros [[_ ?]|[_ [n ?]]]; [done|by destruct (Hq n)].
Qed.
Lemma quiet_side l x : quiet x → side_done l → side_done (l ++ [x]).
Proof.
  intros Hq (r & Hr & Hn & Hu). exists r. split; [by rewrite lookup_app_l by (by eapply lookup_lt_Some)|].
  split; [apply no_record_last; [|done]; intros s ->; discriminate (proj1 Hq _ _ eq_refl)|].
  intros i Hi. apply Hu. by apply (quiet_updates l x).
Qed.
Lemma quiet_waited s l x : quiet x → waited s l → waited s (l ++ [x]).
Proof.
  intros Hq (r & w & Hrw & Hr & Hw & Hn & Hu). exists r, w.
  rewrite !lookup_app_l by (by eapply lookup_lt_Some). split; [done|]. do 2 (split; [done|]).
  split; [apply no_record_last; [|done]; intros s' ->; discriminate (proj1 Hq _ _ eq_refl)|].
  intros i Hi. apply Hu. by apply (quiet_updates l x).
Qed.
Lemma done_waited s l : side_done l → waited s (l ++ [WaitEvent s SIDE_READY]).
Proof.
  intros H. assert (side_done (l ++ [WaitEvent s SIDE_READY])) as (r & Hr & Hn & Hu).
  { apply quiet_side; [by split|done]. }
  destruct H as (r' & Hr' & _). exists r, (length l). split; [|split; [done|]].
  - apply lookup_snoc_cases in Hr as [[? _]|[_ ?]]; [done|discriminate].
  - split; [apply lookup_snoc_cases; by right|done].
Qed.

(** ** The two orders are kept by every command the coordinator issues *)
Lemma publish_fenced_snoc l x :
  publish_fenced l → (∀ s m, x = Launch s (PUBLISH m) → waited s l) → publish_fenced (l ++ [x]).
Proof.
  intros Hl Hx i j s m Hij Hi Hj. apply lookup_snoc_cases in Hj as [[Hlt Hj]|[-> Hj]].
  - assert (is_update l i) as Hi'.
    { apply is_update_snoc in Hi as [[_ ?]|[-> _]]; [done|lia]. }
    destruct (Hl i j s m Hij Hi' Hj) as (r & w & ? & ? & ? & ? & ?). exists r, w.
    rewrite !lookup_app_l by lia. do 4 (split; [done|]). by apply no_record_snoc; [lia|].
  - destruct (Hx s m (eq_sym Hj)) as (r & w & Hrw & Hr & Hw & Hn & Hu).
    apply is_update_snoc in Hi as [[_ Hi]|[-> _]]; [|lia].
    pose proof (lookup_lt_Some _ _ _ Hw). exists r, w. rewrite !lookup_app_l by lia.
    split; [by apply Hu|]. split; [lia|]. do 2 (split; [done|]). by apply no_record_snoc.
Qed.
Lemma update_fenced_snoc l x :
  update_fenced l → ((∃ n, x = Launch side (UPDATE n)) → entered l) → update_fenced (l ++ [x]).
Proof.
  intros Hl Hx j Hj. apply is_update_snoc in Hj as [[Hlt Hj]|[-> Hj]].
  - destruct (Hl j Hj) as (r & s & ? & ? & ? & ?). exists r, s. rewrite !lookup_app_l by lia.
    do 3 (split; [done|]). by apply no_record_snoc; [lia|].
  - destruct (Hx Hj) as (r & s & Hr & Hw & Hn). pose proof (lookup_lt_Some _ _ _ Hw).
    exists r, s. rewrite !lookup_app_l by lia. do 3 (split; [done|]). by apply no_record_snoc.
Qed.
Lemma entered_snoc l x : (∀ s, x ≠ RecordEvent MAIN_READY s) → entered l → entered (l ++ [x]).
Proof.
  intros Hx (r & s & Hr & Hw & Hn). exists r, s.
  rewrite !lookup_app_l by (by eapply lookup_lt_Some). do 2 (split; [done|]). by apply no_record_last.
Qed.

Definition fenced l : Prop := publish_fenced l ∧ update_fenced l.
(** Commands that are neither updates nor publications. *)
Lemma fenced_plain l x :
  (∀ s w, x = Launch s w → ∃ n, w = SERVE n) → fenced l → fenced (l ++ [x]).
Proof.
  intros Hx [Hp Hu]. split.
  - apply publish_fenced_snoc; [done|]. intros s m ->. by destruct (Hx _ _ eq_refl).
  - apply update_fenced_snoc; [done|]. intros [n ->]. by destruct (Hx _ _ eq_refl).
Qed.
Lemma fenced_tensors l tensors s : fenced l → fenced (l ++ map (λ t, RecordStream t s) tensors).
Proof.
  revert l. induction tensors as [|t tensors IH]; intros l H; cbn [map]; [by rewrite app_nil_r|].
  rewrite cons_middle, app_assoc. by apply IH, fenced_plain.
Qed.
Lemma entered_tensors l tensors s : entered l → entered (l ++ map (λ t, RecordStream t s) tensors).
Proof.
  revert l. induction tensors as [|t tensors IH]; intros l H; cbn [map]; [by rewrite app_nil_r|].
  rewrite cons_middle, app_assoc. by apply IH, entered_snoc.
Qed.
Lemma fenced_publishes l kernels s :
  fenced l → waited s l → fenced (l ++ map (λ n, Launch s (PUBLISH n)) kernels).
Proof.
  revert l. induction kernels as [|n kernels IH]; intros l [Hp Hu] Hw; cbn [map]; [by rewrite app_nil_r|].
  rewrite cons_middle, app_assoc. apply IH; [split|].
  - apply publish_fenced_snoc; [done|]. by intros s' m [= <- _].
  - apply update_fenced_snoc; [done|]. by intros [m ?].
  - apply quiet_waited; [by split|done].
Qed.
Lemma entered_fresh l main :
  entered ((l ++ [RecordEvent MAIN_READY main]) ++ [WaitEvent side MAIN_READY]).
Proof.
  exists (length l), main. rewrite <- app_assoc. cbn [app].
  rewrite !lookup_app_r by lia. rewrite Nat.sub_diag, Nat.sub_succ_l, Nat.sub_diag by lia.
  do 2 (split; [done|]). rewrite length_app. cbn. intros k s Hk. assert (k = S (length l)) as -> by lia.
  rewrite lookup_app_r, Nat.sub_succ_l, Nat.sub_diag by lia. done.
Qed.

Record good (c : CudaPublicationCoordinator) (open : bool) : Prop := {
  good_side : side_stream c = side;
  good_open : open = true → update_in_flight c = true ∧ side_event_recorded c = false ∧ entered (log c);
  good_recorded : side_event_recorded c = true → update_in_flight c = true ∧ side_done (log c);
  good_fenced : fenced (log c) }.

Lemma good_new c : new_coordinator "cuda" side = Ok c → good c false.
Proof.
  intros [= <-]. constructor; cbn; [done..|]. split.
  - by intros i j s m _ [n H].
  - by intros j [n H].
Qed.

Lemma good_step c open c' open' : good c open → client_step (c, open) (c', open') → good c' open'.
Proof.
  intros [Hs Ho Hr Hf] H. inversion H as [? ? s n Hne|? ? tensors main ? He|? ? tensors main e ? He|? n
      |? failure|?|? ? kernels failure tensors main]; subst.
  - assert (quiet (Launch s (SERVE n))) as Hq by by split.
    constructor; cbn [side_stream update_in_flight side_event_recorded log launch issue]; [done|..].
    + intros Hop. destruct (Ho Hop) as (? & ? & ?). do 2 (split; [done|]). by apply entered_snoc.
    + intros Hre. destruct (Hr Hre). split; [done|]. by apply quiet_side.
    + apply fenced_plain; [|done]. intros ? ? [= _ <-]. by exists n.
  - unfold enter_window in He. destruct (update_in_flight c) eqn:Hfl; [discriminate He|].
    injection He as <-. cbn [side_stream update_in_flight side_event_recorded log set_flags issue].
    assert (side_event_recorded c = false) as Hre.
    { destruct (side_event_recorded c) eqn:E; [|done]. destruct (Hr eq_refl). congruence. }
    constructor; cbn [side_stream update_in_flight side_event_recorded log set_flags issue]; [done|..].
    + intros _. do 2 (split; [done|]). rewrite Hs. apply entered_tensors.
      rewrite cons_middle, app_assoc. apply entered_fresh.
    + congruence.
    + apply fenced_tensors. rewrite cons_middle, app_assoc. by do 2 (apply fenced_plain; [done|]).
  - assert (c' = c) as ->; [|by constructor].
    unfold enter_window in He. destruct (update_in_flight c); congruence.
  - destruct (Ho eq_refl) as (Hfl & Hre & Hen).
    constructor; cbn [side_stream update_in_flight side_event_recorded log launch issue]; [done|..].
    + intros _. do 2 (split; [done|]). by apply entered_snoc.
    + congruence.
    + destruct Hf as [Hp Hu]. split.
      * by apply publish_fenced_snoc.
      * by apply update_fenced_snoc.
  - destruct (Ho eq_refl) as (Hfl & Hre & Hen). destruct failure as [e|]; cbn.
    + by constructor.
    + constructor; cbn; [done|done| |by apply fenced_plain].
      intros _. rewrite Hs. split; [done|]. exists (length (log c)). split; [|split].
      * apply lookup_snoc_cases. by right.
      * rewrite length_app. cbn. intros k s Hk. lia.
      * intros i Hi. apply is_update_snoc in Hi as [[? _]|[_ [n ?]]]; [done|discriminate].
  - by constructor.
  - unfold publish_boundary.
    destruct (negb (update_in_flight c) || negb (side_event_recorded c)) eqn:E; [by constructor|].
    bools. destruct (Hr ltac:(done)) as [_ Hdone]. assert (open' = false) as ->.
    { destruct open'; [|done]. destruct (Ho eq_refl) as (_ & ? & _). congruence. }
    assert (fenced ((log c ++ [WaitEvent main SIDE_READY])
                    ++ map (λ n, Launch main (PUBLISH n)) kernels)) as Hpub.
    { apply fenced_publishes; [by apply fenced_plain|by apply done_waited]. }
    destruct failure as [e|]; constructor; cbn; try done.
    rewrite app_assoc. apply fenced_plain; [done|]. by apply fenced_tensors.
Qed.
Lemma good_run c open : client_run side c open → good c open.
Proof.
  intros (c0 & Hnew & Hrun). apply good_new in Hnew.
  assert (∀ a b, rtc client_step a b → good a.1 a.2 → good b.1 b.2) as Hall.
  { intros x y Hxy. induction Hxy as [|x y z H _ IH]; [done|]. intros Hx. apply IH.
    destruct x, y. by eapply good_step. }
  by apply (Hall _ _ Hrun).
Qed.
End invariant.

(** ** Publication is ordered *)
(** C8. The side stream and the main stream are ordered by events: in every log
    that clients of the coordinator produce (discarding outside windows only), and
    under any order that honours streams and events, every update kernel issued
    before a publication runs before it; every update runs after all that the main
    stream of its window had been given before the window; and while a window is
    open no other window opens and its update cannot be published.  The
    restriction on [discard] is needed: see [discard_in_window_unorders]. *)
Theorem publication_ordered `{CudaOrder} side c open :
  client_run side c open →
  (∀ i j s m, (i < j)%nat → is_update side (log c) i → log c !! j = Some (Launch s (PUBLISH m)) →
     happens_before (log c) i j) ∧
  (∀ j, is_update side (log c) j → ∃ r s, (r < j)%nat ∧ log c !! r = Some (RecordEvent MAIN_READY s) ∧
     no_record MAIN_READY (log c) r j ∧
     ∀ i x, (i < r)%nat → log c !! i = Some x → stream_of x = Some s → happens_before (log c) i j) ∧
  (open = true → ∀ tensors main, ∃ e, enter_window tensors main c = (Raise e, c) ∧
     ∀ kernels failure, ∃ e', publish_boundary kernels failure tensors main c = (Raise e', c)).
Proof.
  intros [Hs Ho Hr [Hp Hu]]%good_run. split; [|split].
  - intros i j s m Hij Hi Hj. destruct (Hp i j s m Hij Hi Hj) as (r & w & Hir & Hw & Er & Ew & Hn).
    destruct Hi as [n Hi]. apply happens_trans with r; [by eapply happens_stream|].
    apply happens_trans with w; [|eapply happens_stream; [lia|done..]].
    eapply happens_event; [lia|done..|]. intros k s' Hk. apply Hn. lia.
  - intros j Hj. destruct (Hu j Hj) as (r & s & Hrj & Er & Ew & Hn). destruct Hj as [n Hj].
    exists r, s. split; [lia|]. do 2 (split; [done|]). intros i x Hi Hx Hsx.
    apply happens_trans with r; [by eapply happens_stream|].
    apply happens_trans with (S r); [|eapply happens_stream; [lia|done..]].
    eapply happens_event; [lia|done..|]. intros k s' Hk. lia.
  - intros Hop tensors main. destruct (Ho Hop) as (Hfl & Hre & _). eexists. split.
    + unfold enter_window. rewrite Hfl. reflexivity.
    + intros kernels failure. eexists. unfold publish_boundary. rewrite Hfl, Hre. reflexivity.
Qed.

(** ** A window and its publication *)
Definition demo_start : CudaPublicationCoordinator :=
  {| side_stream := 1; update_in_flight := false; side_event_recorded := false; log := [] |}.
Definition after (r : result unit * CudaPublicationCoordinator) : CudaPublicationCoordinator := r.2.
Definition demo_published : CudaPublicationCoordinator :=
  after (publish_boundary [0] None [5] 0 (after (exit_window None
    (launch 1 (UPDATE 0) (after (enter_window [5] 0 (launch 0 (SERVE 0) demo_start))))))).

Lemma demo_published_run : client_run 1 demo_published false.
Proof.
  exists demo_start. split; [reflexivity|].
  eapply rtc_l; [apply (client_serves demo_start false 0 0); discriminate|].
  eapply rtc_l; [eapply (client_enters _ false [5] 0); reflexivity|].
  eapply rtc_l; [apply (client_updates _ 0)|]. eapply rtc_l; [apply (client_exits _ None)|].
  eapply rtc_l; [apply (client_publishes _ false [0] None [5] 0)|]. apply rtc_refl.
Qed.
Lemma publication_ordered_witness :
  log demo_published !! 4%nat = Some (Launch 1 (UPDATE 0)) ∧
  log demo_published !! 7%nat = Some (Launch 0 (PUBLISH 0)) ∧
  @happens_before least_order (log demo_published) 4 7.
Proof.
  split; [reflexivity|]. split; [reflexivity|].
  refine (proj1 (@publication_ordered least_order 1 demo_published false demo_published_run)
    4%nat 7%nat 0 0 _ _ eq_refl); [lia|exists 0; reflexivity].
Defined.

(** ** Discarding inside a window

    [discard] clears the flags whether or not a window is open.  The exit of that
    window still sets [side_event_recorded], the next window starts with the stale
    flag, and its unfinished update is published without an order. *)
Definition demo_unordered : CudaPublicationCoordinator :=
  let c := after (enter_window [] 0 demo_start) in
  let c := after (exit_window None (discard (launch 1 (UPDATE 0) c))) in
  launch 1 (UPDATE 1) (after (enter_window [] 0 c)).

Lemma unordered_log l i j :
  l = [RecordEvent MAIN_READY 0; WaitEvent 1 MAIN_READY; Launch 1 (UPDATE 0); RecordEvent SIDE_READY 1;
       RecordEvent MAIN_READY 0; WaitEvent 1 MAIN_READY; Launch 1 (UPDATE 1); WaitEvent 0 SIDE_READY;
       Launch 0 (PUBLISH 1); RecordEvent PUBLISH_DONE 0] →
  least_before l i j → i ≠ 6%nat.
Proof.
  intros Hl H. induction H as [i j k _ IH _ _|i j x y s Hij Hx Hy Hsx Hsy|i j e s s' Hij Hx _ _];
    [exact IH|..]; intros ->; subst l; cbn in Hx; [|discriminate Hx].
  - injection Hx as <-. cbn in Hsx. injection Hsx as <-.
    destruct j as [|[|[|[|[|[|[|[|[|[|j]]]]]]]]]]; cbn in Hy; try lia;
      try discriminate Hy; injection Hy as <-; discriminate Hsy.
Qed.
Theorem discard_in_window_unorders :
  (publish_boundary [1] None [] 0 demo_unordered).1 = Ok tt ∧
  let c := after (publish_boundary [1] None [] 0 demo_unordered) in
  log c !! 6%nat = Some (Launch 1 (UPDATE 1)) ∧ log c !! 8%nat = Some (Launch 0 (PUBLISH 1)) ∧
  ¬ @happens_before least_order (log c) 6 8.
Proof.
  split; [reflexivity|]. cbv zeta. split; [reflexivity|]. split; [reflexivity|].
  intros H. by apply (unordered_log _ _ _ eq_refl) in H.
Qed.
