(* ===== verification/OnlineSpec.v ===== *)
(** * OnlineSPEC learners ([methods/onlinespec.py])

    Projected online gradient descent, its optimistic two-state form and Hedge
    over several step sizes, each with [propose] and a transactional [commit].
    A tensor is its shape, device, type and flat values; the arithmetic of
    [torch] is the class [Torch].  Tensors of one learner share a device. *)
From S2P Require Import Prelude GpuPool Exactness.

Class Torch (F : Type) := {
  torch_scalar :: Scalar F;
  ssqrt : F → F; s1e_12 : F; to_float32 : F → F; softmax : list F → list F; sneg : F → F }.

Inductive Dtype : Set := FLOAT32 | FLOATING (name : string) | OTHER (name : string).
#[export] Instance Dtype_eq_dec : EqDecision Dtype.
Proof. solve_decision. Defined.

Section onlinespec.
Context {F : Type} `{Torch F}.

Record Tensor := { shape : list Z; device : string; dtype : Dtype; values : list F }.

Definition is_floating_point (t : Tensor) : bool :=
  match dtype t with OTHER _ => false | _ => true end.
Definition all_finite (t : Tensor) : bool := forallb sfinite (values t).
Definition same_place (a b : Tensor) : bool :=
  bool_decide (shape a = shape b) && bool_decide (device a = device b).
Definition same_layout (a b : Tensor) : bool := same_place a b && bool_decide (dtype a = dtype b).
(** [all(test(a, b) for a, b in zip(xs, ys))] under equal lengths. *)
Definition all_pairs (test : Tensor → Tensor → bool) (xs ys : list Tensor) : bool :=
  (length xs =? length ys)%nat && forallb (λ p, test p.1 p.2) (zip xs ys).

(** [_as_parameters], [_validate_state], [_validate_gradients]. *)
Definition as_parameters (l : list Tensor) (name : string) : result (list Tensor) :=
  raise_if (match l with [] => true | _ => false end) (ValueError (name +:+ " cannot be empty")) ;;
  raise_if (negb (forallb is_floating_point l))
    (ValueError (name +:+ " must contain floating tensors")) ;;
  raise_if (negb (forallb all_finite l)) (ValueError (name +:+ " must contain finite tensors")) ;;
  Ok l.
Definition validate_state (reference l : list Tensor) (name : string) : result (list Tensor) :=
  l <-! as_parameters l name ;;
  raise_if (negb (all_pairs same_layout l reference))
    (ValueError (name +:+ " does not match the learner state")) ;;
  Ok l.
Definition float32 (t : Tensor) : Tensor :=
  {| shape := shape t; device := device t; dtype := FLOAT32; values := map to_float32 (values t) |}.
Definition validate_gradients (parameters gradients : list Tensor) : result (list Tensor) :=
  raise_if (negb (all_pairs (λ g p, same_place g p && is_floating_point g) gradients parameters))
    (ValueError "gradient layout does not match the online learner") ;;
  raise_if (negb (forallb all_finite gradients)) (ValueError "online gradients must be finite") ;;
  Ok (map float32 gradients).

(** Arithmetic of float32 tensors of one layout. *)
Definition tmap (f : F → F) (t : Tensor) : Tensor :=
  {| shape := shape t; device := device t; dtype := FLOAT32; values := map f (values t) |}.
Definition tmap2 (f : F → F → F) (a b : Tensor) : Tensor :=
  {| shape := shape a; device := device a; dtype := FLOAT32;
     values := zip_with f (values a) (values b) |}.
Definition square_sum (t : Tensor) : F := ssum (map (λ x, smul x x) (values t)).
Definition global_norm (l : list Tensor) : F := ssqrt (ssum (map square_sum l)).
Definition clamp_max (x high : F) : F := if slt high x then high else x.
(** [torch.clamp(limit / norm.clamp_min(1e-12), max=1.0)]. *)
Definition ball_scale (limit norm : F) : F := clamp_max (sdiv limit (clamp_min norm s1e_12)) sone.
(** [not math.isfinite(x) or x <= 0] is false. *)
Definition positive (x : F) : bool := sfinite x && slt szero x.

(** [_clip_global_norm]. *)
Definition clip_global_norm (gradients : list Tensor) (limit : F) : result (list Tensor) :=
  raise_if (negb (positive limit)) (ValueError "grad_clip must be positive and finite") ;;
  let scale := ball_scale limit (global_norm gradients) in
  Ok (map (tmap (λ x, smul x scale)) gradients).

Definition project_l2_ball (parameters origin : list Tensor) (radius : option F)
    : result (list Tensor) :=
  values <-! as_parameters parameters "projection parameters" ;;
  centre <-! as_parameters origin "projection origin" ;;
  raise_if (negb (all_pairs same_place values centre))
    (ValueError "projection origin does not match the parameter layout") ;;
  match radius with
  | None => Ok values
  | Some radius =>
    raise_if (negb (positive radius))
      (ValueError "projection radius must be positive and finite") ;;
    let offsets := zip_with (λ v b, tmap2 ssub (float32 v) (float32 b)) values centre in
    let scale := ball_scale radius (global_norm offsets) in
    Ok (zip_with (λ b d, tmap2 sadd (float32 b) (tmap (λ x, smul x scale) d)) centre offsets)
  end.

(** [parameter - learning_rate * gradient], for each pair. *)
Definition descend (learning_rate : F) (l gradients : list Tensor) : list Tensor :=
  zip_with (λ p g, tmap2 ssub p (tmap (smul learning_rate) g)) l gradients.
Definition ogd_update (parameters gradients : list Tensor) (learning_rate : F)
    (origin : option (list Tensor)) (projection_radius : option F) (grad_clip : F)
    : result (list Tensor) :=
  active <-! as_parameters parameters "parameters" ;;
  raise_if (negb (positive learning_rate))
    (ValueError "learning_rate must be positive and finite") ;;
  grads <-! validate_gradients active gradients ;;
  grads <-! clip_global_norm grads grad_clip ;;
  let candidate := descend learning_rate (map float32 active) grads in
  raise_if (match projection_radius, origin with Some _, None => true | _, _ => false end)
    (ValueError "projected OGD requires an explicit fixed origin") ;;
  project_l2_ball candidate (default active origin) projection_radius.

Record OnlineSpecProposal := {
  pr_parameters : list Tensor; auxiliary : list Tensor; pr_step : Z }.

(** ** Projected OGD *)
Record OnlineSpecOGD := {
  og_initial : list Tensor; og_parameters : list Tensor; og_learning_rate : F;
  og_projection_radius : option F; og_grad_clip : F; og_step : Z }.
Definition new_ogd (parameters : list Tensor) (learning_rate : F) (projection_radius : option F)
    (grad_clip : F) : result OnlineSpecOGD :=
  initial <-! as_parameters parameters "parameters" ;;
  raise_if (negb (positive learning_rate))
    (ValueError "learning_rate must be positive and finite") ;;
  raise_if (negb (positive grad_clip)) (ValueError "grad_clip must be positive and finite") ;;
  Ok {| og_initial := map float32 initial; og_parameters := map float32 initial;
        og_learning_rate := learning_rate; og_projection_radius := projection_radius;
        og_grad_clip := grad_clip; og_step := 0 |}.
Definition ogd_propose (gradients : list Tensor) (s : OnlineSpecOGD) : result OnlineSpecProposal :=
  candidate <-! ogd_update (og_parameters s) gradients (og_learning_rate s) (Some (og_initial s))
                  (og_projection_radius s) (og_grad_clip s) ;;
  Ok {| pr_parameters := candidate; auxiliary := []; pr_step := og_step s + 1 |}.
Definition ogd_commit (p : OnlineSpecProposal) (s : OnlineSpecOGD) : result unit * OnlineSpecOGD :=
  raise_in s if (negb (pr_step p =? og_step s + 1) || match auxiliary p with [] => false | _ => true end)
    (ValueError "OGD proposal does not extend the active state") ;;
  match validate_state (og_parameters s) (pr_parameters p) "OGD proposal parameters" with
  | Raise e => (Raise e, s)
  | Ok parameters =>
    (Ok tt, {| og_initial := og_initial s; og_parameters := parameters;
               og_learning_rate := og_learning_rate s;
               og_projection_radius := og_projection_radius s; og_grad_clip := og_grad_clip s;
               og_step := pr_step p |})
  end.

(** ** Optimistic OGD *)
Record OnlineSpecOptimistic := {
  op_initial : list Tensor; anchor : list Tensor; hint : list Tensor; op_parameters : list Tensor;
  op_learning_rate : F; op_projection_radius : option F; op_grad_clip : F; op_step : Z }.
Definition new_optimistic (parameters : list Tensor) (learning_rate : F)
    (projection_radius : option F) (grad_clip : F) : result OnlineSpecOptimistic :=
  initial <-! as_parameters parameters "parameters" ;;
  raise_if (negb (positive learning_rate))
    (ValueError "learning_rate must be positive and finite") ;;
  raise_if (negb (positive grad_clip)) (ValueError "grad_clip must be positive and finite") ;;
  let initial := map float32 initial in
  Ok {| op_initial := initial; anchor := initial; hint := map (tmap (λ _, szero)) initial;
        op_parameters := initial; op_learning_rate := learning_rate;
        op_projection_radius := projection_radius; op_grad_clip := grad_clip; op_step := 0 |}.
Definition optimistic_propose (gradients : list Tensor) (s : OnlineSpecOptimistic)
    : result OnlineSpecProposal :=
  grads <-! validate_gradients (op_parameters s) gradients ;;
  grads <-! clip_global_norm grads (op_grad_clip s) ;;
  next_anchor <-! project_l2_ball (descend (op_learning_rate s) (anchor s) grads) (op_initial s)
                    (op_projection_radius s) ;;
  next_decision <-! project_l2_ball (descend (op_learning_rate s) next_anchor grads) (op_initial s)
                      (op_projection_radius s) ;;
  Ok {| pr_parameters := next_decision; auxiliary := next_anchor ++ grads; pr_step := op_step s + 1 |}.
Definition optimistic_commit (p : OnlineSpecProposal) (s : OnlineSpecOptimistic)
    : result unit * OnlineSpecOptimistic :=
  let width := length (op_parameters s) in
  raise_in s if (negb (pr_step p =? op_step s + 1) || negb (length (auxiliary p) =? 2 * width)%nat)
    (ValueError "optimistic proposal does not extend the active state") ;;
  match validate_state (op_parameters s) (pr_parameters p) "optimistic proposal parameters" with
  | Raise e => (Raise e, s)
  | Ok parameters =>
    match validate_state (anchor s) (take width (auxiliary p)) "optimistic proposal anchors" with
    | Raise e => (Raise e, s)
    | Ok anchors =>
      match validate_state (hint s) (drop width (auxiliary p)) "optimistic proposal hints" with
      | Raise e => (Raise e, s)
      | Ok hints =>
        (Ok tt, {| op_initial := op_initial s; anchor := anchors; hint := hints;
                   op_parameters := parameters; op_learning_rate := op_learning_rate s;
                   op_projection_radius := op_projection_radius s;
                   op_grad_clip := op_grad_clip s; op_step := pr_step p |})
      end
    end
  end.

(** ** Hedge *)
Record OnlineSpecHedge := {
  he_initial : list Tensor; experts : list (list Tensor); learning_rates : list F;
  hedge_learning_rate : F; he_projection_radius : option F; he_grad_clip : F;
  cumulative_losses : Tensor; he_parameters : list Tensor; he_step : Z }.
Definition increasing (l : list F) : bool := forallb (λ p, slt p.1 p.2) (zip l (tail l)).
Definition new_hedge (parameters : list Tensor) (rates : list F) (hedge_rate : F)
    (projection_radius : option F) (grad_clip : F) : result OnlineSpecHedge :=
  initial <-! as_parameters parameters "parameters" ;;
  raise_if ((length rates <? 2)%nat || negb (forallb positive rates))
    (ValueError "Hedge needs at least two positive finite learning rates") ;;
  raise_if (negb (increasing rates))
    (ValueError "Hedge learning rates must be unique and increasing") ;;
  raise_if (negb (positive hedge_rate))
    (ValueError "hedge_learning_rate must be positive and finite") ;;
  raise_if (negb (positive grad_clip)) (ValueError "grad_clip must be positive and finite") ;;
  let initial := map float32 initial in
  Ok {| he_initial := initial; experts := map (λ _, initial) rates; learning_rates := rates;
        hedge_learning_rate := hedge_rate; he_projection_radius := projection_radius;
        he_grad_clip := grad_clip;
        cumulative_losses := {|
          shape := [zlength rates]; dtype := FLOAT32; values := map (λ _, szero) rates;
          device := match initial with t :: _ => device t | [] => EmptyString end |};
        he_parameters := initial; he_step := 0 |}.

Definition weights (hedge_rate : F) (losses : Tensor) : list F :=
  softmax (map (smul (sneg hedge_rate)) (values losses)).
Definition probabilities (s : OnlineSpecHedge) : list F :=
  weights (hedge_learning_rate s) (cumulative_losses s).

Fixpoint update_experts (s : OnlineSpecHedge) (l : list (list Tensor)) (gradients : list (list Tensor))
    (rates : list F) : result (list (list Tensor)) :=
  match l, gradients, rates with
  | expert :: l, g :: gradients, rate :: rates =>
    e <-! ogd_update expert g rate (Some (he_initial s)) (he_projection_radius s) (he_grad_clip s) ;;
    es <-! update_experts s l gradients rates ;; Ok (e :: es)
  | _, _, _ => Ok []
  end.
(** [torch.stack(...).mul(probabilities).sum(0)] at one index of the parameters. *)
Definition mixture (probs : list F) (l : list (list Tensor)) (index : nat) (parameter : Tensor) : Tensor := {|
  shape := shape parameter; device := device parameter; dtype := FLOAT32;
  values := imap (λ j _, ssum (zip_with (λ expert p,
    smul (default szero (default [] (values <$> expert !! index) !! j)) p) l probs))
    (values parameter) |}.
Definition hedge_propose (losses : Tensor) (gradients : list (list Tensor)) (s : OnlineSpecHedge)
    : result OnlineSpecProposal :=
  raise_if (negb (same_place losses (cumulative_losses s)) || negb (is_floating_point losses)
            || negb (all_finite losses))
    (ValueError "one finite loss is required per Hedge expert") ;;
  raise_if (negb (length gradients =? length (experts s))%nat)
    (ValueError "one gradient tuple is required per Hedge expert") ;;
  updated_experts <-! update_experts s (experts s) gradients (learning_rates s) ;;
  let cumulative := tmap2 sadd (cumulative_losses s) (float32 losses) in
  let probs := weights (hedge_learning_rate s) cumulative in
  let decision := imap (mixture probs updated_experts) (he_initial s) in
  Ok {| pr_parameters := decision; auxiliary := concat updated_experts ++ [cumulative];
        pr_step := he_step s + 1 |}.

(** [values[index * width:(index + 1) * width]]. *)
Definition chunk (width index : nat) (l : list Tensor) : list Tensor := take width (drop (index * width) l).
Fixpoint validate_experts (width index : nat) (l : list (list Tensor)) (flat : list Tensor)
    : result (list (list Tensor)) :=
  match l with
  | [] => Ok []
  | expert :: l =>
    e <-! validate_state expert (chunk width index flat) ("Hedge expert " +:+ pretty index) ;;
    es <-! validate_experts width (S index) l flat ;; Ok (e :: es)
  end.
Definition hedge_commit (p : OnlineSpecProposal) (s : OnlineSpecHedge) : result unit * OnlineSpecHedge :=
  let width := length (he_initial s) in
  let expected := (length (experts s) * width + 1)%nat in
  raise_in s if (negb (pr_step p =? he_step s + 1) || negb (length (auxiliary p) =? expected)%nat)
    (ValueError "Hedge proposal does not extend the active state") ;;
  match validate_state (he_parameters s) (pr_parameters p) "Hedge proposal parameters" with
  | Raise e => (Raise e, s)
  | Ok parameters =>
    let flat := take (length (auxiliary p) - 1) (auxiliary p) in
    match validate_experts width 0 (experts s) flat with
    | Raise e => (Raise e, s)
    | Ok experts' =>
      match validate_state [cumulative_losses s] (drop (length (auxiliary p) - 1) (auxiliary p))
              "Hedge cumulative loss" with
      | Raise e => (Raise e, s)
      | Ok cumulative =>
        (Ok tt, {| he_initial := he_initial s; experts := experts'; learning_rates := learning_rates s;
                   hedge_learning_rate := hedge_learning_rate s;
                   he_projection_radius := he_projection_radius s; he_grad_clip := he_grad_clip s;
                   cumulative_losses := default (cumulative_losses s) (head cumulative);
                   he_parameters := parameters; he_step := pr_step p |})
      end
    end
  end.
End onlinespec.
Arguments Tensor : clear implicits.
Arguments OnlineSpecProposal : clear implicits.
