(* ===== verification/OnlineSpecSafety.v ===== *)
(** * What the online learners commit

    The layout of proposals, the flattening of Hedge experts, the two-state
    optimistic update, and the projection in real arithmetic. *)
From S2P Require Import Prelude GpuPool Exactness OnlineSpec.
From Stdlib Require Import Reals Lra.

Section layouts.
Context {F : Type} `{Torch F}.
Implicit Types xs ys l : list (Tensor F).

Lemma all_pairs_Forall2 test xs ys :
  all_pairs test xs ys = true ↔ Forall2 (λ x y, test x y = true) xs ys.
Proof.
  unfold all_pairs. rewrite andb_true_iff, Nat.eqb_eq. split.
  - intros [Hlen Hall]. revert ys Hlen Hall. induction xs as [|x xs IH]; intros [|y ys]; cbn; try done.
    intros [= Hlen] [? ?]%andb_true_iff. constructor; [done|]. by apply IH.
  - induction 1 as [|x y xs ys Hxy _ [IH1 IH2]]; cbn; [done|]. by rewrite IH1, Hxy, IH2.
Qed.

(** A tuple of float32 tensors with the shapes and devices of [reference]. *)
Definition laid_out (reference l : list (Tensor F)) : Prop :=
  Forall2 (λ x y, shape x = shape y ∧ device x = device y ∧ dtype x = FLOAT32) l reference.

Lemma same_layout_spec (a b : Tensor F) :
  same_layout a b = true ↔ shape a = shape b ∧ device a = device b ∧ dtype a = dtype b.
Proof. unfold same_layout, same_place. rewrite !andb_true_iff, !bool_decide_eq_true. tauto. Qed.

Lemma as_parameters_Ok l name l' :
  as_parameters l name = Ok l' ↔
  l' = l ∧ l ≠ [] ∧ Forall (λ t, is_floating_point t = true ∧ all_finite t = true) l.
Proof.
  unfold as_parameters. destruct l as [|t l]; [split; [done|by intros (_ & ? & _)]|].
  assert (Forall (λ t, is_floating_point t = true ∧ all_finite t = true) (t :: l) ↔
    forallb is_floating_point (t :: l) = true ∧ forallb all_finite (t :: l) = true) as ->.
  { rewrite !forallb_elem_of, Forall_forall. naive_solver. }
  destruct (forallb is_floating_point _), (forallb all_finite _); cbn; naive_solver.
Qed.

(** A finite float32 tuple of the right layout is accepted as it is. *)
Lemma validate_state_Ok reference l name :
  l ≠ [] → laid_out reference l → Forall (λ t, dtype t = FLOAT32) reference →
  Forall (λ t, all_finite t = true) l → validate_state reference l name = Ok l.
Proof.
  intros Hne Hl Href Hfin. unfold validate_state.
  rewrite (proj2 (as_parameters_Ok l name l)).
  - rewrite (proj2 (all_pairs_Forall2 same_layout l reference)); [done|].
    apply Forall2_same_length_lookup_2; [by eapply Forall2_length|]. intros i x y Hx Hy.
    destruct (Forall2_lookup_lr _ _ _ _ _ _ Hl Hx Hy) as (Hs & Hd & Ht).
    rewrite Forall_forall in Href. apply same_layout_spec.
    by rewrite Ht, (Href y (list_elem_of_lookup_2 _ _ _ Hy)).
  - split; [done|]. split; [done|]. rewrite Forall_forall in Hfin |- *. intros t Ht. split; [|by apply Hfin].
    apply list_elem_of_lookup in Ht as [k Hk].
    destruct (Forall2_lookup_l _ _ _ _ _ Hl Hk) as (y & _ & _ & _ & Hx).
    unfold is_floating_point. by rewrite Hx.
Qed.
Lemma validate_state_id reference l name l' : validate_state reference l name = Ok l' → l' = l.
Proof.
  unfold validate_state. intros E. step_ok E. apply as_parameters_Ok in E0 as [-> _].
  step_ok E. by injection E as <-.
Qed.

Lemma descend_laid_out rate reference l grads :
  laid_out reference l → length grads = length l → laid_out reference (descend rate l grads).
Proof.
  unfold laid_out, descend. intros Hl. revert grads.
  induction Hl as [|x y l reference Hxy _ IH]; intros [|g grads] Hlen; cbn; try done.
  injection Hlen as Hlen. constructor; [|by apply IH]. cbn. naive_solver.
Qed.
Lemma float32_laid_out l : laid_out l (map float32 l).
Proof. induction l as [|x l IH]; constructor; [by repeat split|done]. Qed.
Lemma laid_out_trans l1 l2 l3 : laid_out l1 l2 → laid_out l2 l3 → laid_out l1 l3.
Proof.
  unfold laid_out. intros H12. revert l3. induction H12 as [|x y l2 l1 Hxy _ IH]; intros l3 H23.
  - by apply Forall2_nil_inv_r in H23 as ->.
  - apply Forall2_cons_inv_r in H23 as (z & l3' & (? & ? & ?) & Hl & ->). destruct Hxy as (? & ? & ?).
    constructor; [|by apply IH]. split_and!; congruence.
Qed.
Lemma projection_laid_out l origin radius out :
  project_l2_ball l origin radius = Ok out → laid_out origin l → laid_out origin out.
Proof.
  unfold project_l2_ball. intros E Hl. do 2 step_ok E. apply as_parameters_Ok in E0 as [-> _], E1 as [-> _].
  step_ok E. destruct radius as [r|]; [|by injection E as <-]. step_ok E. cbv zeta in E. injection E as <-.
  generalize (ball_scale r (global_norm (zip_with (λ v b, tmap2 ssub (float32 v) (float32 b)) l origin))).
  intros scale. clear -Hl. induction Hl as [|x y l origin Hxy _ IH]; cbn; constructor; [by repeat split|done].
Qed.
Lemma validate_gradients_length parameters grads out :
  validate_gradients parameters grads = Ok out → length out = length parameters.
Proof.
  unfold validate_gradients. intros E. do 2 step_ok E. injection E as <-. bools.
  rewrite length_map. apply all_pairs_Forall2, Forall2_length in E0. done.
Qed.
Lemma clip_length grads limit out : clip_global_norm grads limit = Ok out → length out = length grads.
Proof. unfold clip_global_norm. intros E. step_ok E. injection E as <-. by rewrite length_map. Qed.

Lemma ogd_update_laid_out origin l grads rate radius clip out :
  ogd_update l grads rate (Some origin) radius clip = Ok out → laid_out origin l → laid_out origin out.
Proof.
  unfold ogd_update. intros E Hl. step_ok E. apply as_parameters_Ok in E0 as [-> _].
  do 3 step_ok E. cbv zeta in E. step_ok E. cbn [default] in E.
  apply projection_laid_out in E; [done|]. apply descend_laid_out.
  - eapply laid_out_trans; [exact Hl|]. apply float32_laid_out.
  - apply validate_gradients_length in E1. apply clip_length in E2.
    by rewrite length_map, E2.
Qed.
End layouts.

(** ** Hedge: the flattened experts come back *)
Section hedge.
Context {F : Type} `{Torch F}.
Implicit Types e : list (Tensor F).

Lemma laid_out_float32 (reference l : list (Tensor F)) : laid_out reference l → Forall (λ t, dtype t = FLOAT32) l.
Proof. induction 1 as [|x y l reference (_ & _ & Hx) _ IH]; by constructor. Qed.
Lemma laid_out_peers (reference l1 l2 : list (Tensor F)) : laid_out reference l1 → laid_out reference l2 → laid_out l1 l2.
Proof.
  unfold laid_out. intros Ha. revert l2. induction Ha as [|x y l1 reference (? & ? & ?) _ IH]; intros l2 Hb.
  - by apply Forall2_nil_inv_r in Hb as ->.
  - apply Forall2_cons_inv_r in Hb as (z & l2' & (? & ? & ?) & Hl & ->).
    constructor; [|by apply IH]. split_and!; congruence.
Qed.
Lemma laid_out_length (reference l : list (Tensor F)) : laid_out reference l → length l = length reference.
Proof. apply Forall2_length. Qed.

Lemma chunk_concat width (es : list (list (Tensor F))) i e :
  Forall (λ e, length e = width) es → es !! i = Some e → chunk width i (concat es) = e.
Proof.
  unfold chunk. intros Hes. revert i. induction Hes as [|e' es He Hes IH]; intros i Hi; [done|].
  destruct i as [|i]; cbn in Hi.
  - injection Hi as <-. cbn. rewrite <- He, drop_0. by rewrite take_app_length.
  - cbn [concat]. replace (S i * width)%nat with (length e' + i * width)%nat by lia.
    rewrite drop_app_add. by apply IH.
Qed.
Lemma length_chunks width (es : list (list (Tensor F))) :
  Forall (λ e, length e = width) es → length (concat es) = (length es * width)%nat.
Proof. induction 1 as [|e es He _ IH]; cbn; [done|]. rewrite length_app, IH, He. lia. Qed.

Lemma validate_experts_Ok width n l es flat :
  Forall2 (λ (e e' : list (Tensor F)), laid_out e e' ∧ Forall (λ t, dtype t = FLOAT32) e ∧ e' ≠ [] ∧
    Forall (λ t, all_finite t = true) e') l es →
  (∀ k e', es !! k = Some e' → chunk width (n + k) flat = e') →
  validate_experts width n l flat = Ok es.
Proof.
  intros Hl. revert n. induction Hl as [|e e' l es (Hlay & Hf & Hne & Hfin) _ IH]; intros n Hchunk; [done|].
  cbn [validate_experts].
  assert (chunk width n flat = e') as ->.
  { rewrite <- (Hchunk 0%nat e' eq_refl). f_equal. lia. }
  rewrite validate_state_Ok by done. rewrite IH; [done|]. intros k e1 Hk.
  rewrite <- (Hchunk (S k) e1 Hk). f_equal. lia.
Qed.

Record hedge_ok (s : @OnlineSpecHedge F) : Prop := {
  hedge_nonempty : he_initial s ≠ [];
  hedge_float32 : Forall (λ t, dtype t = FLOAT32) (he_initial s);
  hedge_rates : length (experts s) = length (learning_rates s);
  hedge_experts : Forall (laid_out (he_initial s)) (experts s);
  hedge_parameters : laid_out (he_initial s) (he_parameters s);
  hedge_losses : dtype (cumulative_losses s) = FLOAT32 }.

Lemma hedge_new parameters rates hedge_rate radius clip s :
  new_hedge parameters rates hedge_rate radius clip = Ok s → hedge_ok s.
Proof.
  unfold new_hedge. intros E. step_ok E. apply as_parameters_Ok in E0 as (-> & Hne & _).
  do 4 step_ok E. cbv zeta in E. injection E as <-.
  assert (laid_out (map float32 parameters) (map float32 parameters)) as Hself.
  { clear. induction parameters as [|t l IH]; constructor; [by repeat split|done]. }
  constructor; cbn; [by destruct parameters| |by rewrite length_map| |done..].
  - by eapply laid_out_float32.
  - apply Forall_forall. by intros e (? & -> & _)%list_elem_of_fmap.
Qed.

Lemma update_experts_Ok s l gradients rates es :
  update_experts s l gradients rates = Ok es → length gradients = length l → length rates = length l →
  Forall (laid_out (he_initial s)) l → length es = length l ∧ Forall (laid_out (he_initial s)) es.
Proof.
  revert gradients rates es. induction l as [|e l IH]; intros [|g gradients] [|r rates] es E Hg Hr Hl;
    cbn in E, Hg, Hr; try lia.
  - injection E as <-. by split.
  - do 2 step_ok E. injection E as <-. apply Forall_cons in Hl as [He Hl].
    apply IH in E1 as [Hlen Hes]; [|lia..|done]. split; [cbn; lia|]. constructor; [|done].
    by eapply ogd_update_laid_out.
Qed.

Lemma mixture_laid_out probs es (l : list (Tensor F)) : laid_out l (imap (mixture probs es) l).
Proof.
  apply Forall2_same_length_lookup_2; [by rewrite length_imap|]. intros i x y Hx Hy.
  rewrite list_lookup_imap, Hy in Hx. cbn in Hx. injection Hx as <-. done.
Qed.

(** The flattened new experts of a round are valid for [hedge_commit]. *)
Lemma own_experts_valid (initial : list (Tensor F)) (olds news : list (list (Tensor F))) :
  initial ≠ [] → Forall (laid_out initial) olds → Forall (laid_out initial) news →
  length news = length olds → Forall (λ t, all_finite t = true) (concat news) →
  validate_experts (length initial) 0 olds (concat news) = Ok news ∧
  length (concat news) = (length olds * length initial)%nat.
Proof.
  intros Hne Holds Hnews Hlen Hfin. rewrite Forall_forall in Hfin.
  assert (Forall (λ e, length e = length initial) news) as Hwidth.
  { eapply Forall_impl; [exact Hnews|]. intros e He. by apply laid_out_length. }
  split; [|by rewrite (length_chunks _ _ Hwidth), Hlen].
  apply validate_experts_Ok; [|intros k e' Hk; by apply chunk_concat].
  rewrite Forall_forall in Holds, Hnews.
  apply Forall2_same_length_lookup_2; [done|]. intros i e e' He He'.
  pose proof (Holds e (list_elem_of_lookup_2 _ _ _ He)) as Hold.
  pose proof (Hnews e' (list_elem_of_lookup_2 _ _ _ He')) as Hnew.
  split_and!; [by eapply laid_out_peers|by eapply laid_out_float32| |].
  - intros ->. apply laid_out_length in Hnew. by destruct initial.
  - apply Forall_forall. intros t Ht. apply Hfin, list_elem_of_In, in_concat.
    exists e'. rewrite <- !list_elem_of_In. split; [by eapply list_elem_of_lookup_2|done].
Qed.

(** C19. A Hedge round is transactional and lossless: committing a finite proposal
    of the learner's own succeeds, recovers every expert from the flattened
    tensors as its own gradient step, adds the losses, publishes the mixture of the
    new experts under the new weights and advances the round by one; the layout
    invariant holds again, and the same proposal is then refused. *)
Theorem hedge_round_trip losses gradients (s : @OnlineSpecHedge F) p :
  hedge_ok s → hedge_propose losses gradients s = Ok p →
  forallb all_finite (pr_parameters p ++ auxiliary p) = true →
  ∃ s', hedge_commit p s = (Ok tt, s') ∧ hedge_ok s' ∧
    update_experts s (experts s) gradients (learning_rates s) = Ok (experts s') ∧
    cumulative_losses s' = tmap2 sadd (cumulative_losses s) (float32 losses) ∧
    he_parameters s' = imap (mixture (probabilities s') (experts s')) (he_initial s) ∧
    he_step s' = he_step s + 1 ∧ he_initial s' = he_initial s ∧
    ∃ err, hedge_commit p s' = (Raise err, s').
Proof.
  intros [Hne Hf32 Hrates Hexp Hpar Hloss] E Hfin. unfold hedge_propose in E. do 3 step_ok E.
  cbv zeta in E. injection E as <-. cbn [pr_parameters auxiliary] in Hfin. bools.
  set (cumulative := tmap2 sadd (cumulative_losses s) (float32 losses)) in *.
  set (probs := weights (hedge_learning_rate s) cumulative) in *.
  set (decision := imap (mixture probs a) (he_initial s)) in *.
  rewrite forallb_elem_of in Hfin.
  match goal with Hg : (length gradients =? _)%nat = true |- _ => apply Nat.eqb_eq in Hg end.
  pose proof (update_experts_Ok s _ _ _ _ E2 ltac:(done) (eq_sym Hrates) Hexp) as [Hlen Hes].
  assert (laid_out (he_initial s) decision) as Hdec by apply mixture_laid_out.
  assert (∀ l, (∀ t, t ∈ l → t ∈ decision ++ concat a ++ [cumulative]) →
    Forall (λ t, all_finite t = true) l) as Hfinite
    by (intros l Hl; apply Forall_forall; intros t Ht; by apply Hfin, Hl).
  destruct (own_experts_valid (he_initial s) (experts s) a) as [Hvalid Hflat];
    [done..|apply Hfinite; set_solver|].
  set (s' := {| he_initial := he_initial s; experts := a; learning_rates := learning_rates s;
    hedge_learning_rate := hedge_learning_rate s; he_projection_radius := he_projection_radius s;
    he_grad_clip := he_grad_clip s; cumulative_losses := cumulative; he_parameters := decision;
    he_step := he_step s + 1 |}).
  exists s'. split; [|split; [|split_and!; [done..|]]].
  - unfold hedge_commit. cbn [pr_parameters auxiliary pr_step]. rewrite Z.eqb_refl, length_app.
    cbn [length]. rewrite Nat.add_sub, Hflat, Nat.eqb_refl. cbn [negb orb].
    rewrite validate_state_Ok; [|by unfold decision; destruct (he_initial s)|by eapply laid_out_peers|
      by eapply laid_out_float32|apply Hfinite; set_solver].
    rewrite <- Hflat, take_app_length, drop_app_length, Hvalid.
    rewrite validate_state_Ok; [done|done| |by repeat constructor|apply Hfinite; set_solver].
    by repeat constructor.
  - constructor; cbn; [done|done|by rewrite Hlen|done|done|done].
  - eexists. unfold hedge_commit. cbn [pr_step s' he_step].
    rewrite (proj2 (Z.eqb_neq (he_step s + 1) (he_step s + 1 + 1))) by lia. reflexivity.
Qed.
End hedge.

(** ** Optimistic OGD: two states *)
Section optimistic.
Context {F : Type} `{Torch F}.

Lemma gradients_laid_out (parameters grads out : list (Tensor F)) limit clipped :
  validate_gradients parameters grads = Ok out → clip_global_norm out limit = Ok clipped →
  laid_out parameters clipped.
Proof.
  unfold validate_gradients, clip_global_norm. intros E C. do 2 step_ok E. injection E as <-.
  step_ok C. cbv zeta in C. injection C as <-. bools. apply all_pairs_Forall2 in E0.
  generalize (ball_scale limit (global_norm (map float32 grads))). intros scale. unfold laid_out.
  clear -E0. induction E0 as [|g p grads parameters Hgp _ IH]; cbn; constructor; [|done].
  unfold same_place in Hgp. bools. cbn. done.
Qed.

Record optimistic_ok (s : @OnlineSpecOptimistic F) : Prop := {
  optimistic_nonempty : op_initial s ≠ [];
  optimistic_float32 : Forall (λ t, dtype t = FLOAT32) (op_initial s);
  optimistic_anchor : laid_out (op_initial s) (anchor s);
  optimistic_hint : laid_out (op_initial s) (hint s);
  optimistic_parameters : laid_out (op_initial s) (op_parameters s) }.

Lemma optimistic_new parameters rate radius clip (s : @OnlineSpecOptimistic F) :
  new_optimistic parameters rate radius clip = Ok s → optimistic_ok s.
Proof.
  unfold new_optimistic. intros E. step_ok E. apply as_parameters_Ok in E0 as (-> & Hne & _).
  do 2 step_ok E. cbv zeta in E. injection E as <-.
  assert (laid_out (map float32 parameters) (map float32 parameters)) as Hself.
  { clear. induction parameters as [|t l IH]; constructor; [by repeat split|done]. }
  constructor; cbn; [by destruct parameters|by eapply laid_out_float32|done| |done].
  clear. induction parameters as [|t l IH]; constructor; [by repeat split|done].
Qed.

(** C21. A round of the optimistic learner: its own finite proposal commits, the new
    hint is the clipped gradient, the new anchor is the projected gradient step of
    the old anchor, and the published decision is the projected step of the new
    anchor along the new hint ([w = projection(anchor - rate * hint)]). *)
Theorem optimistic_round gradients (s : @OnlineSpecOptimistic F) p :
  optimistic_ok s → optimistic_propose gradients s = Ok p →
  forallb all_finite (pr_parameters p ++ auxiliary p) = true →
  ∃ s', optimistic_commit p s = (Ok tt, s') ∧ optimistic_ok s' ∧
    (∃ grads, validate_gradients (op_parameters s) gradients = Ok grads ∧
       clip_global_norm grads (op_grad_clip s) = Ok (hint s')) ∧
    project_l2_ball (descend (op_learning_rate s) (anchor s) (hint s')) (op_initial s)
      (op_projection_radius s) = Ok (anchor s') ∧
    project_l2_ball (descend (op_learning_rate s) (anchor s') (hint s')) (op_initial s)
      (op_projection_radius s) = Ok (op_parameters s') ∧
    op_initial s' = op_initial s ∧ op_step s' = op_step s + 1.
Proof.
  intros [Hne Hf32 Hanchor Hhint Hpar] E Hfin. unfold optimistic_propose in E. do 4 step_ok E.
  injection E as <-. cbn [pr_parameters auxiliary] in Hfin. rewrite forallb_elem_of in Hfin.
  rename a into raw, a0 into grads, a1 into anchors, a2 into decision.
  pose proof (gradients_laid_out _ _ _ _ _ E0 E1) as Hgrads.
  assert (laid_out (op_initial s) grads) as Hg by by eapply laid_out_trans.
  assert (laid_out (op_initial s) anchors) as Ha.
  { eapply projection_laid_out; [exact E2|]. apply descend_laid_out; [done|].
    by rewrite (laid_out_length _ _ Hg), (laid_out_length _ _ Hanchor). }
  assert (laid_out (op_initial s) decision) as Hd.
  { eapply projection_laid_out; [exact E3|]. apply descend_laid_out; [done|].
    by rewrite (laid_out_length _ _ Hg), (laid_out_length _ _ Ha). }
  assert (∀ l, (∀ t, t ∈ l → t ∈ decision ++ anchors ++ grads) →
    Forall (λ t, all_finite t = true) l) as Hfinite
    by (intros l Hl; apply Forall_forall; intros t Ht; by apply Hfin, Hl).
  assert (∀ old new name, laid_out (op_initial s) old → laid_out (op_initial s) new →
    (∀ t, t ∈ new → t ∈ decision ++ anchors ++ grads) → validate_state old new name = Ok new) as Hvalid.
  { intros old new name Hold Hnew Hin. apply validate_state_Ok; [|by eapply laid_out_peers|
      by eapply laid_out_float32|by apply Hfinite].
    intros ->. apply laid_out_length in Hnew. by destruct (op_initial s). }
  exists {| op_initial := op_initial s; anchor := anchors; hint := grads; op_parameters := decision;
    op_learning_rate := op_learning_rate s; op_projection_radius := op_projection_radius s;
    op_grad_clip := op_grad_clip s; op_step := op_step s + 1 |}.
  split; [|split; [|split; [by exists raw|done]]].
  - unfold optimistic_commit. cbn [pr_parameters auxiliary pr_step].
    assert (length (op_parameters s) = length anchors) as ->
      by by rewrite (laid_out_length _ _ Hpar), (laid_out_length _ _ Ha).
    rewrite Z.eqb_refl, length_app, (laid_out_length _ _ Hg), <- (laid_out_length _ _ Ha).
    replace (length anchors + length anchors)%nat with (2 * length anchors)%nat by lia.
    rewrite Nat.eqb_refl. cbn [negb orb]. rewrite take_app_length, drop_app_length.
    rewrite !Hvalid by (done || set_solver). done.
  - by constructor.
Qed.
End optimistic.
