(* ===== verification/OnlineSpecProjection.v ===== *)
(** * The projection of the online learners in real arithmetic

    [project_l2_ball] over the real numbers returns the point of the ball that
    is nearest to its argument. *)
From S2P Require Import Prelude GpuPool Exactness OnlineSpec OnlineSpecSafety.
From Stdlib Require Import Reals Lra Psatz.
Open Scope R_scope.

Definition rsum (l : list R) : R := fold_right Rplus 0 l.
Definition rlt (x y : R) : bool := if Rlt_dec x y then true else false.
Definition rle (x y : R) : bool := if Rle_dec x y then true else false.
(** Exact arithmetic: no rounding, every number finite. *)
Definition real_scalar : Scalar R := {|
  szero := 0; sone := 1; sadd := Rplus; ssub := Rminus; smul := Rmult; sdiv := Rdiv;
  slt := rlt; sle := rle; sabs := Rabs; sfinite := λ _, true; ssum := rsum;
  seps := 0; stiny := 0; s32 := 32 |}.
Definition real_torch : Torch R := {|
  torch_scalar := real_scalar; ssqrt := sqrt; s1e_12 := / 10 ^ 12; to_float32 := λ x, x;
  softmax := λ l, map (λ x, exp x / rsum (map exp l)) l; sneg := Ropp |}.
#[local] Existing Instance real_torch.

Definition flat (l : list (Tensor R)) : list R := concat (map values l).
Definition norm (l : list R) : R := sqrt (rsum (map (λ x, x * x) l)).
Definition distance (a b : list R) : R := norm (zip_with Rminus a b).
(** A tensor has as many values as its shape says. *)
Definition well_shaped (t : Tensor R) : Prop := length (values t) = Z.to_nat (foldr Z.mul 1%Z (shape t)).

(** ** Euclidean norms of lists *)
Definition dot (a b : list R) : R := rsum (zip_with Rmult a b).
Lemma sum_squares_nonneg l : 0 <= rsum (map (λ x, x * x) l).
Proof. induction l as [|x l IH]; cbn; [lra|]. unfold rsum in IH. nra. Qed.
Lemma norm_nonneg l : 0 <= norm l.
Proof. apply sqrt_pos. Qed.
Lemma norm_square l : norm l * norm l = rsum (map (λ x, x * x) l).
Proof. apply sqrt_sqrt, sum_squares_nonneg. Qed.
Lemma norm_cons x l : norm (x :: l) * norm (x :: l) = x * x + norm l * norm l.
Proof. by rewrite !norm_square. Qed.
Lemma norm_le l r : 0 <= r → norm l * norm l <= r * r → norm l <= r.
Proof. intros Hr Hl. pose proof (norm_nonneg l). nra. Qed.

Lemma dot_bound a b : dot a b * dot a b <= (norm a * norm a) * (norm b * norm b).
Proof.
  rewrite !norm_square. revert b. induction a as [|x a IH]; intros [|y b]; unfold dot; cbn.
  1-3: rewrite ?Rmult_0_l, ?Rmult_0_r; apply Rle_refl.
  specialize (IH b).
  pose proof (sum_squares_nonneg a) as HA. pose proof (sum_squares_nonneg b) as HB.
  change ((x * y + dot a b) * (x * y + dot a b) <=
    (x * x + rsum (map (λ x, x * x) a)) * (y * y + rsum (map (λ x, x * x) b))).
  set (A := rsum (map (λ x, x * x) a)) in *. set (B := rsum (map (λ x, x * x) b)) in *.
  assert (2 * (x * y) * dot a b <= x * x * B + y * y * A) as Hm.
  { destruct (Rle_dec (2 * (x * y) * dot a b) 0); [nra|].
    apply Rsqr_incr_0_var; [|nra]. unfold Rsqr.
    assert (0 <= (x * x * B - y * y * A) * (x * x * B - y * y * A)) by exact (Rle_0_sqr _).
    assert ((x * y) * (x * y) * (dot a b * dot a b) <= (x * y) * (x * y) * (A * B)).
    { apply Rmult_le_compat_l; [exact (Rle_0_sqr _)|done]. }
    nra. }
  nra.
Qed.

Lemma triangle_square a b c :
  length a = length b → length b = length c →
  distance a c * distance a c = distance a b * distance a b + distance b c * distance b c
    + 2 * dot (zip_with Rminus a b) (zip_with Rminus b c).
Proof.
  unfold distance. rewrite !norm_square. unfold dot. revert b c.
  induction a as [|x a IH]; intros [|y b] [|z c] ??; try done; cbn; [lra|].
  cbn in *. unfold rsum in IH. rewrite (IH b c) by lia. lra.
Qed.
(** The triangle inequality, through a middle list of the same length. *)
Lemma distance_triangle a b c :
  length a = length b → length b = length c → distance a c <= distance a b + distance b c.
Proof.
  intros Hab Hbc. pose proof (triangle_square a b c Hab Hbc) as Hsq.
  pose proof (norm_nonneg (zip_with Rminus a b)) as Ha.
  pose proof (norm_nonneg (zip_with Rminus b c)) as Hb.
  pose proof (dot_bound (zip_with Rminus a b) (zip_with Rminus b c)) as Hd.
  fold (distance a b) (distance b c) in *. unfold distance at 1.
  apply norm_le; [lra|]. fold (distance a c). rewrite Hsq.
  assert (dot (zip_with Rminus a b) (zip_with Rminus b c) <= distance a b * distance b c); [|nra].
  apply Rsqr_incr_0_var; [|nra]. unfold Rsqr. nra.
Qed.
Lemma distance_sym a b : distance a b = distance b a.
Proof.
  unfold distance, norm. f_equal. revert b. induction a as [|x a IH]; intros [|y b]; cbn; try done.
  cbn in IH. unfold rsum in IH. rewrite IH. lra.
Qed.

(** ** Scaling the offset from the centre *)
Definition epsilon : R := / 10 ^ 12.
Lemma epsilon_pos : 0 < epsilon.
Proof. apply Rinv_0_lt_compat. lra. Qed.
(** [ball_scale] of the code, over the reals. *)
Lemma ball_scale_spec radius n :
  0 < radius → 0 <= n →
  let s := ball_scale radius n in
  0 <= s <= 1 ∧ n * s <= radius ∧ (epsilon <= radius → s = 1 ∨ n * s = radius).
Proof.
  intros Hr Hn. unfold ball_scale, clamp_max, clamp_min. change s1e_12 with epsilon.
  cbn [slt sone sdiv torch_scalar real_torch real_scalar]. pose proof epsilon_pos as He.
  unfold rlt. set (m := if (if Rlt_dec n epsilon then true else false) then epsilon else n).
  assert (0 < m ∧ n <= m ∧ (epsilon <= m) ∧ (m = n ∨ m = epsilon)) as (Hm & Hnm & Hem & Hcase).
  { unfold m. destruct (Rlt_dec n epsilon); lra. }
  assert (0 < radius / m) as Hpos by by apply Rdiv_lt_0_compat.
  assert (m * (radius / m) = radius) as Hdiv by (field; lra).
  destruct (Rlt_dec 1 (radius / m)) as [Hlt|Hge]; cbn zeta.
  - split_and!; [lra|lra|nra|by left].
  - split_and!; [lra|lra|nra|]. intros Hre. destruct Hcase as [Hc|Hc]; [right|left].
    + by rewrite <- Hc.
    + assert (radius / m <= 1) by lra. nra.
Qed.

Lemma norm_scale k l : 0 <= k → norm (map (λ x, x * k) l) = norm l * k.
Proof.
  intros Hk. unfold norm.
  assert (rsum (map (λ x, x * x) (map (λ x, x * k) l)) = rsum (map (λ x, x * x) l) * (k * k)) as ->.
  { induction l as [|x l IH]; cbn; [lra|]. unfold rsum in IH. rewrite IH. lra. }
  rewrite sqrt_mult, sqrt_square by (apply sum_squares_nonneg || nra || done). done.
Qed.

(** The point at [s] of the way from [c] to [x]. *)
Definition toward (s : R) (c x : list R) : list R :=
  zip_with (λ b d, b + d * s) c (zip_with Rminus x c).
Lemma toward_centre s c x : length x = length c → 0 <= s → distance (toward s c x) c = distance x c * s.
Proof.
  intros Hlen Hs. unfold distance. rewrite <- norm_scale by done. f_equal. unfold toward.
  revert c Hlen. induction x as [|a x IH]; intros [|b c] Hlen; cbn in *; try done.
  f_equal; [lra|]. apply IH. lia.
Qed.
Lemma toward_point s c x :
  length x = length c → s <= 1 → distance (toward s c x) x = distance x c * (1 - s).
Proof.
  intros Hlen Hs. rewrite distance_sym. unfold distance. rewrite <- norm_scale by lra. f_equal.
  unfold toward. revert c Hlen. induction x as [|a x IH]; intros [|b c] Hlen; cbn in *; try done.
  f_equal; [lra|]. apply IH. lia.
Qed.
(** A point that is scaled to the sphere, or not at all, is the nearest one of the ball. *)
Lemma toward_nearest s c x radius y :
  length x = length c → length y = length c → 0 <= s <= 1 →
  s = 1 ∨ distance x c * s = radius → distance y c <= radius →
  distance (toward s c x) x <= distance y x.
Proof.
  intros Hx Hy Hs Hcase Hball. rewrite toward_point by (done || lra).
  pose proof (norm_nonneg (zip_with Rminus y x)) as Hpos. fold (distance y x) in Hpos.
  destruct Hcase as [->|Hr]; [lra|].
  pose proof (distance_triangle x y c) as Ht. rewrite (distance_sym x y) in Ht.
  specialize (Ht ltac:(lia) ltac:(lia)). lra.
Qed.

(** ** Tensors as one flat vector *)
Definition offset (p b : Tensor R) : Tensor R := tmap2 ssub (float32 p) (float32 b).
Definition same_size (p b : Tensor R) : Prop := length (values p) = length (values b).

Lemma rsum_app l k : rsum (l ++ k) = rsum l + rsum k.
Proof.
  induction l as [|x l IH]; [symmetry; apply Rplus_0_l|]. change (x + rsum (l ++ k) = x + rsum l + rsum k).
  rewrite IH. lra.
Qed.
Lemma flat_norm l : global_norm l = norm (flat l).
Proof.
  unfold global_norm, norm, flat. cbn [ssqrt real_torch]. f_equal.
  induction l as [|t l IH]; [done|]. cbn [map concat]. rewrite map_app, rsum_app, <- IH. done.
Qed.
Lemma flat_length ps bs : Forall2 same_size ps bs → length (flat ps) = length (flat bs).
Proof.
  unfold flat. induction 1 as [|p b ps bs Hpb _ IH]; cbn; [done|]. by rewrite !length_app, IH, Hpb.
Qed.
Lemma flat_offsets ps bs :
  Forall2 same_size ps bs → flat (zip_with offset ps bs) = zip_with Rminus (flat ps) (flat bs).
Proof.
  unfold flat. induction 1 as [|p b ps bs Hpb _ IH]; [done|]. cbn [zip_with map concat].
  rewrite zip_with_app by done. f_equal; [|done]. cbn. by rewrite !map_id.
Qed.
Lemma flat_toward s ps bs :
  Forall2 same_size ps bs →
  flat (zip_with (λ b d, tmap2 sadd (float32 b) (tmap (λ x, smul x s) d)) bs (zip_with offset ps bs))
  = toward s (flat bs) (flat ps).
Proof.
  unfold flat, toward. induction 1 as [|p b ps bs Hpb _ IH]; [done|]. cbn [zip_with map concat].
  rewrite zip_with_app by done. rewrite zip_with_app by (rewrite length_zip_with; red in Hpb; lia).
  f_equal; [|done]. cbn. rewrite !map_id.
  clear -Hpb. red in Hpb. revert Hpb. generalize (values p), (values b).
  induction l as [|x l IH]; intros [|y k] Hk; cbn in *; try done. f_equal. apply IH. lia.
Qed.
Lemma well_shaped_same ps bs :
  Forall well_shaped ps → Forall well_shaped bs →
  Forall2 (λ p b, same_place p b = true) ps bs → Forall2 same_size ps bs.
Proof.
  intros Hp Hb Hplace. revert Hp Hb. induction Hplace as [|p b ps bs Hpb _ IH]; intros Hp Hb; [done|].
  apply Forall_cons in Hp as [Hp Hps], Hb as [Hb Hbs]. constructor; [|by apply IH].
  unfold same_place in Hpb. bools. unfold same_size. rewrite Hp, Hb. by f_equal; f_equal.
Qed.

(** C20. In real arithmetic [project_l2_ball] is the projection onto the ball around
    the origin: it returns for every positive radius, the returned parameters are in
    the ball, and, when the radius is at least the guard [1e-12] of the norm, no
    point of the ball is nearer to the argument (so a point of the ball is kept). *)
Theorem projection_is_nearest parameters origin radius :
  0 < radius → origin ≠ [] →
  Forall (λ t, well_shaped t ∧ is_floating_point t = true) (parameters ++ origin) →
  all_pairs same_place parameters origin = true →
  ∃ out, project_l2_ball parameters origin (Some radius) = Ok out ∧
    distance (flat out) (flat origin) <= radius ∧
    (/ 10 ^ 12 <= radius → ∀ y, length y = length (flat origin) →
      distance y (flat origin) <= radius →
      distance (flat out) (flat parameters) <= distance y (flat parameters)).
Proof.
  intros Hr Hne Hall Hpairs. apply Forall_app in Hall as [Hp Hb].
  assert (∀ l name, l ≠ [] → Forall (λ t, well_shaped t ∧ is_floating_point t = true) l →
    as_parameters l name = Ok l) as Has.
  { intros l name Hl Hok. apply as_parameters_Ok. split; [done|]. split; [done|].
    eapply Forall_impl; [exact Hok|]. intros t [_ Ht]. split; [done|]. apply forallb_forall. done. }
  pose proof (proj1 (all_pairs_Forall2 _ _ _) Hpairs) as Hplace.
  assert (Forall2 same_size parameters origin) as Hsize.
  { apply well_shaped_same; [..|done]; eapply Forall_impl; [exact Hp| |exact Hb|]; by intros ? [? _]. }
  assert (parameters ≠ []) as Hpne.
  { intros ->. apply Forall2_nil_inv_l in Hplace. done. }
  assert (OnlineSpec.positive radius = true) as Hpos.
  { unfold OnlineSpec.positive. cbn. unfold rlt. by destruct (Rlt_dec 0 radius). }
  unfold project_l2_ball. rewrite !Has, Hpairs, Hpos by done.
  eexists. split; [reflexivity|]. fold offset.
  rewrite flat_norm, flat_offsets by done. rewrite flat_toward by done.
  pose proof (flat_length _ _ Hsize) as Hlen.
  destruct (ball_scale_spec radius (distance (flat parameters) (flat origin)) Hr (norm_nonneg _))
    as (Hs & Hin & Hcase). split.
  - rewrite toward_centre; [exact Hin|done|apply Hs].
  - intros He y Hy Hball. by eapply toward_nearest; [..|exact (Hcase He)|exact Hball].
Qed.

Definition demo_point : Tensor R :=
  {| shape := [2%Z]; device := "cuda:0"; dtype := FLOAT32; values := [3; 4] |}.
Definition demo_centre : Tensor R :=
  {| shape := [2%Z]; device := "cuda:0"; dtype := FLOAT32; values := [0; 0] |}.
(** The point [(3, 4)] is projected into the unit ball, nearest to itself. *)
Lemma projection_is_nearest_witness :
  ∃ out, project_l2_ball [demo_point] [demo_centre] (Some 1) = Ok out ∧
    distance (flat out) [0; 0] <= 1 ∧ distance (flat out) [3; 4] <= distance [1; 0] [3; 4].
Proof.
  destruct (projection_is_nearest [demo_point] [demo_centre] 1) as (out & E & Hin & Hnear);
    [lra|done|by repeat constructor|reflexivity|].
  exists out. split; [exact E|]. split; [exact Hin|]. apply Hnear; [lra|reflexivity|].
  apply norm_le; [lra|]. rewrite norm_square. cbn. lra.
Defined.
