(* ===== verification/OnlineSpecDemo.v ===== *)
(** * Online learners at work

    Rounds of the Hedge and the optimistic learner in thousandths: a concrete
    [Torch] with rounding divisions. *)
From S2P Require Import Prelude GpuPool Exactness OnlineSpec OnlineSpecSafety.

Definition thousandths : Torch Z := {|
  torch_scalar := {|
    szero := 0; sone := 1000; sadd := Z.add; ssub := Z.sub; smul := λ x y, x * y / 1000;
    sdiv := λ x y, x * 1000 / y; slt := Z.ltb; sle := Z.leb; sabs := Z.abs; sfinite := λ _, true;
    ssum := foldr Z.add 0; seps := 1; stiny := 1; s32 := 32000 |};
  ssqrt := λ x, Z.sqrt (x * 1000); s1e_12 := 1; to_float32 := λ x, x; sneg := Z.opp;
  softmax := λ l, let w := map (λ x, Z.max 1 (1000 + x)) l in
    map (λ x, x * 1000 / foldr Z.add 0 w) w |}.
#[local] Existing Instance thousandths.

Definition vector (t : Dtype) (l : list Z) : Tensor Z :=
  {| shape := [zlength l]; device := "cuda:0"; dtype := t; values := l |}.
Definition demo_parameters : list (Tensor Z) :=
  [vector (FLOATING "bfloat16") [0; 0]; vector FLOAT32 [500]].
Definition demo_gradient (x : Z) : list (Tensor Z) :=
  [vector FLOAT32 [x; 400]; vector FLOAT32 [- x]].

Definition demo_hedge : OnlineSpecHedge :=
  match new_hedge demo_parameters [100; 200] 1000 (Some 300) 1000 with
  | Ok s => s
  | Raise _ => {| he_initial := []; experts := []; learning_rates := []; hedge_learning_rate := 0;
      he_projection_radius := None; he_grad_clip := 0; cumulative_losses := vector FLOAT32 [];
      he_parameters := []; he_step := 0 |}
  end.
Definition demo_losses : Tensor Z := vector FLOAT32 [100; 300].
Definition demo_hedge_proposal : OnlineSpecProposal Z :=
  match hedge_propose demo_losses [demo_gradient 500; demo_gradient (-900)] demo_hedge with
  | Ok p => p
  | Raise _ => {| pr_parameters := []; auxiliary := []; pr_step := 0 |}
  end.
(** Two experts move apart, and the commit splits them again. *)
Lemma hedge_round_trip_witness :
  ∃ s', hedge_commit demo_hedge_proposal demo_hedge = (Ok tt, s') ∧
    length (experts s') = 2%nat ∧ he_step s' = 1.
Proof.
  destruct (hedge_round_trip demo_losses [demo_gradient 500; demo_gradient (-900)] demo_hedge
    demo_hedge_proposal) as (s' & E & _).
  - apply (hedge_new demo_parameters [100; 200] 1000 (Some 300) 1000). reflexivity.
  - reflexivity.
  - reflexivity.
  - exists s'. split; [exact E|]. vm_compute in E. injection E as <-. by split.
Defined.

Definition demo_optimistic : OnlineSpecOptimistic :=
  match new_optimistic demo_parameters 100 (Some 300) 1000 with
  | Ok s => s
  | Raise _ => {| op_initial := []; anchor := []; hint := []; op_parameters := [];
      op_learning_rate := 0; op_projection_radius := None; op_grad_clip := 0; op_step := 0 |}
  end.
Definition demo_optimistic_proposal : OnlineSpecProposal Z :=
  match optimistic_propose (demo_gradient 500) demo_optimistic with
  | Ok p => p
  | Raise _ => {| pr_parameters := []; auxiliary := []; pr_step := 0 |}
  end.
Lemma optimistic_round_witness :
  ∃ s', optimistic_commit demo_optimistic_proposal demo_optimistic = (Ok tt, s') ∧
    op_step s' = 1 ∧ op_parameters s' ≠ anchor s'.
Proof.
  destruct (optimistic_round (demo_gradient 500) demo_optimistic demo_optimistic_proposal)
    as (s' & E & _).
  - apply (optimistic_new demo_parameters 100 (Some 300) 1000). reflexivity.
  - reflexivity.
  - reflexivity.
  - exists s'. split; [exact E|]. vm_compute in E. injection E as <-. by split.
Defined.
